(* ===== verification/_CoqProject ===== *)
-Q . S2P
Prelude.v
Go.v
Utils.v
Model.v
Log.v
ConfigTypes.v
Config.v
Env.v
Validate.v
Load.v
Status.v
Http.v
Telemetry.v
Pubsub.v
Store.v
Sdk.v
Cache.v
Watch.v
Registrar.v
Refresh.v
Lifecycle.v
Client.v
Ready.v
Manual.v
Restart.v
Stream.v
Delivery.v
StreamServer.v
Crypto.v
Mware.v
Json.v
Handlers.v
CdnProxy.v
Proxy.v
Api.v
Ofrep.v
Webhook.v
Sse.v
Grpc.v
Frontends.v
Router.v
Servers.v
Main.v
