(* ===== verification/Prelude.v ===== *)
(** * The ConfigCat Proxy

    A verification development for the Go program under [src/]. The proxy sits
    between ConfigCat's CDN and the SDKs of a customer: it keeps one ConfigCat
    SDK client per configured SDK, and serves configuration files, flag
    evaluations and change notifications over HTTP and gRPC.

    ** How the program is put together

    [main.go] loads the configuration (a YAML file, then the environment),
    validates it, and starts the components. A registrar owns the SDK clients:
    the manual one makes them from the configuration once, the automatic one
    follows a profile that it polls from ConfigCat's API and mirrors in an
    external cache. A client keeps its configuration JSON in a store (memory, an
    external cache, a polled cache, a local file) and publishes a signal when it
    changes. Per server (SSE, gRPC) a stream server keeps one stream per SDK:
    the stream's goroutine evaluates the flags that open connections wait for
    and pushes the values that changed. The HTTP router wraps the handlers (CDN
    proxy, evaluation API, OFREP, webhook, SSE, status) in middlewares. A status
    reporter records what the sources and the cache do; telemetry and a
    diagnostics server report on the process.

    ** The files

    - [Prelude]: the result type [go] of a call (value, error or panic) and its
      notations, [MapRange] for the iteration order of Go maps, lists, machine
      integers ([wrap_s], [i64], [u64]), runs of labelled steps ([runs]), the hint
      database [proxy] and tactics.
    - [Go]: the parts of Go's standard library the code uses, executable:
      strings and bytes, [strconv], base64, hex, UTF-8, floats by their bits, the
      values behind [interface{}], and the operating system as the class [OS].
    - [Utils], [Log], [Model]: [internal/utils], [log], [model].
    - [ConfigTypes], [Config], [Env], [Validate], [Load]: [config/config.go],
      [env.go], [validate.go]; one record per struct; [Validate] with the
      declarative specification [valid_config] it decides.
    - [Status]: [diag/status]. [Telemetry]: [diag/telemetry].
    - [Pubsub]: [pubsub/publisher.go], a step relation.
    - [Store]: [sdk/store] and [sdk/store/file], what the operations do to their
      state; [Watch]: the goroutines of stores, watchers and listeners around
      the notifier, a step relation.
    - [Sdk]: [sdk/sdk.go]; [Cache]: [cache], an instance of the interface
      [ExternalCache] with its laws [CacheLaws].
    - [Registrar]: [sdk/sdk_auto_registrar.go]; clients live in a heap, as they
      are shared by two maps and mutated in place. [Refresh]: the properties of its
      refreshes. [Lifecycle]: its goroutine, the callers of [Refresh] and [Close],
      as labelled steps. [Manual]: [sdk/sdk_registrar.go] and [user_agent.go], and the
      registrars as the handlers see them. [Restart]: registrar and cache together.
    - [Client]: the interface [Client] with its laws, against which streams and
      handlers are verified, and its implementation by the SDK client. [Ready]:
      the goroutines of a client's start and end, as labelled steps.
    - [Stream], [StreamServer]: [stream]. The event loop is a function on the
      state of a stream. [Delivery]: the goroutine of a stream and the handlers of
      its connections around the buffered channels, as labelled steps.
      [StreamServer] also has the two servers that own streams, the SSE server and
      the gRPC flag service, for either registrar.
    - [Crypto]: SHA-256 and HMAC, executable. [Http]: [net/http] as the proxy
      uses it: headers, requests, handlers as lists of operations on the
      response, [ServeMux]. [Mware]: [web/mware]. [Json]: JSON request bodies.
    - [Handlers], [CdnProxy], [Api], [Ofrep], [Webhook], [Sse]: the packages
      under [web]; [Grpc]: [grpc]; [Frontends]: the properties across them;
      [Proxy]: handlers and registrar together.
    - [Router]: [web/router.go]; [Servers]: [web/server.go], [diag/server.go] and
      the listening of [grpc/server.go]; [Main]: [main.go].

    A definition names the file and the lines it translates; where a
    function reads the clock, the network, a file or the cache, the answer is an
    argument.

    ** What the theorems show

    - End to end: the configuration files served are those of the last profile,
      by SDK id, and by key as long as no key moves between SDKs ([Proxy]; a key
      swap can lose a key, [Refresh.key_swap_loses_index_entry]); a polling CDN
      client always has the current file ([CdnProxy]); a profile survives a restart without the network ([Restart]); a valid
      configuration without a profile starts, when its polling intervals fit
      in 64 bits, and shuts down gracefully, and the exit code says how a process
      ended ([Main]); the evaluation API, OFREP and gRPC agree on every flag, where
      OFREP takes the targetingKey of a context as its Identifier ([Frontends]).
    - State: a refresh makes the registrar's clients, index and publications
      those of the profile, from any well-formed state and in every map order
      ([Refresh]); the streams follow the registrar ([StreamServer]), connections are told of exactly the changed
      values ([Stream]); the status reporter keeps the latest records of every
      component, shows an SDK with them from its first report after registration,
      and derives its state from them ([Status]).
    - Concurrency: the registrar's goroutine never panics before [Close] and keeps
      its clients those of a parsed profile, [Close] between two refreshes closes
      every client, and one during a refresh can panic ([Lifecycle]); every
      subscriber gets every publication in order and a publisher drains while its
      subscribers receive ([Pubsub]); no change of a store is lost and closed
      goroutines end ([Watch]); evaluations wait for the first refresh and none
      waits for ever ([Ready]); a connection receives what it is sent, in order,
      as long as its handler reads, and a handler that leaves while its buffer is
      full blocks the stream ([Delivery]).
    - Security: routes keep their authentication under every middleware
      ([Router], [Mware]); webhooks refresh exactly on an authentic call of
      acceptable age ([Webhook]); an offline registrar uses no network.
    - Data: configuration decides its specification ([Validate]) and is
      normalized ([Load]); caches behave as a map ([Cache]); encodings round-trip
      ([Refresh], [Utils]); attributes decode, merge and hash as specified
      ([Model]); machine-width effects ([Grpc], [Watch]).

    Defects the models exposed are theorems too, stated as the code behaves.

    ** Parameters, bounds and fuel

    Third-party code and the world are type classes, each with the calls the
    proxy makes: [OS], [YAML], [JSON], [JSONText], [FloatText], [RegexpEngine],
    [XXHash], [Gzip], [ConfigCatFormat] and [ConfigCatSDK] (the ConfigCat Go
    SDK), [ProfileJSON], the drivers of [Cache], [Otel], [FsNotify]. What a
    theorem needs of them is a hypothesis or a class of laws with a concrete
    instance, used by the witnesses. No recursion uses fuel: loops over finite
    data are structural, goroutines are step relations or functions of the list
    of their events. Channel capacities are the source's (64 and 1).

    ** What is not modelled

    Generated protobuf code; accepting connections and HTTP framing; telemetry
    spans; log lines apart from [Log], [Mware] and [Telemetry]; contexts other
    than as the signal to stop; [sdk/statistics], which has no implementation;
    test helpers. Goroutines of different components are not interleaved with
    one another in one relation: their interaction is the data they hand over,
    which the theorems of [Pubsub], [Watch] and [StreamServer] connect.

    Simplifications that a reader should know: in [Lifecycle] closing a client is
    one step ([Ready] has its steps), the publisher takes every id, and [Range] of
    the concurrent map is what its documentation says; a null SDK in a profile
    makes the code panic, and the theorems on profiles exclude it. In [Sse] a
    write to the client succeeds. In [Http] a redirect of the mux keeps neither
    query nor body, and CONNECT requests and percent-encoded slashes are not
    treated apart, as no route depends on them. In [Main] the panic of a ticker is
    taken to come before anything else the process does, how net/http's [Shutdown]
    of a server ends is a parameter, and [GracefulStop] returns. *)
From stdpp Require Export base gmap strings list fin_maps pretty sorting.
From Stdlib Require Export ZArith.

(** ** The result of a Go call

    [Ret a] is a normal return with a nil error, [Fail e] a return whose error
    is non-nil and prints as [e], [Panic] a run-time panic (nil dereference,
    index out of range), which ends the process. *)
Inductive go (A : Type) : Type :=
| Ret (a : A)
| Fail (err : string)
| Panic.
Arguments Ret {A} a.
Arguments Fail {A} err.
Arguments Panic {A}.

#[export] Instance go_ret : MRet go := @Ret.
#[export] Instance go_bind : MBind go := fun A B f m =>
  match m with Ret a => f a | Fail e => Fail e | Panic => Panic end.
#[export] Instance go_fmap : FMap go := fun A B f m =>
  match m with Ret a => Ret (f a) | Fail e => Fail e | Panic => Panic end.

#[export] Instance go_eq_dec `{EqDecision A} : EqDecision (go A).
Proof. solve_decision. Defined.

#[export] Instance Ret_inj {A} : Inj (=) (=) (@Ret A).
Proof. by intros a b [= ->]. Qed.

Declare Scope go_scope.
Delimit Scope go_scope with go.
Bind Scope go_scope with go.

(** [x <-? m ; k]: call [m]; on an error return it, else continue with [k].
    It is the [if err := m; err != nil { return err }] of the source. *)
Notation "x <-? m ; k" := (mbind (M := go) (fun x => k) m)
  (at level 20, m at level 100, k at level 200, only parsing) : stdpp_scope.
Notation "'try?' m ; k" := (mbind (M := go) (fun _ => k) m)
  (at level 20, m at level 100, k at level 200, only parsing) : stdpp_scope.

(** ** Iteration order of Go maps

    [for k, v := range m] visits the entries of [m] once each, in an order the
    language leaves open. A model of code that ranges over a map takes that
    order from an instance of [MapRange]; a theorem that holds for every
    instance holds for every order the runtime can choose. *)
Class MapRange := {
  range : forall {K : Type} `{Countable K} {V : Type}, gmap K V -> list (K * V);
  range_perm : forall {K : Type} `{Countable K} {V : Type} (m : gmap K V),
    range m ≡ₚ map_to_list m
}.

(** The canonical order, for closed computations. *)
Definition canonical_range : MapRange.
Proof.
  refine {| range := fun K _ _ V (m : gmap K V) => map_to_list m |}; done.
Defined.

Section MapRange.
Context `{MapRange} `{Countable K} {V : Type}.
Implicit Types (m : gmap K V) (k : K) (v : V).

Lemma elem_of_range m k v : (k, v) ∈ range m <-> m !! k = Some v.
Proof. rewrite range_perm. apply elem_of_map_to_list. Qed.

Lemma range_NoDup_fst m : NoDup (range m).*1.
Proof. rewrite range_perm. apply NoDup_fst_map_to_list. Qed.

Lemma range_empty : range (∅ : gmap K V) = [].
Proof. apply Permutation_nil. rewrite range_perm. by rewrite map_to_list_empty. Qed.

Lemma elem_of_range_keys m k : k ∈ (range m).*1 <-> is_Some (m !! k).
Proof.
  rewrite list_elem_of_fmap. split.
  - intros [[k' v] [-> Hin]]. apply elem_of_range in Hin. by exists v.
  - intros [v Hv]. exists (k, v). split; [done|]. by apply elem_of_range.
Qed.

(** Building a map from another one, entry by entry. *)
Lemma range_fold_omap {B : Type} (g : V -> option B) m :
  fold_left (fun res '(k, v) => match g v with Some a => <[k := a]> res | None => res end) (range m) ∅ = omap g m.
Proof.
  assert (Hl : forall (l : list (K * V)) (acc : gmap K B), NoDup l.*1 ->
    (forall k v, (k, v) ∈ l -> m !! k = Some v /\ acc !! k = None) ->
    forall k, fold_left (fun res '(k, v) => match g v with Some a => <[k := a]> res | None => res end) l acc !! k =
      if decide (k ∈ l.*1) then m !! k ≫= g else acc !! k).
  { induction l as [|[k v] l IH]; intros acc Hnd Hv k0; [done|].
    apply NoDup_cons in Hnd as [Hk Hnd]. simpl.
    destruct (Hv k v) as [Hkv Hacc]; [by left|].
    assert (Hpos : forall a k', (k', a) ∈ l -> k' <> k).
    { intros a k' Hin ->. apply Hk. by apply (list_elem_of_fmap_2 fst l (k, a)). }
    rewrite IH; [|done|].
    2:{ intros k' v' Hin. destruct (Hv k' v') as [Hm Ha]; [by right|]. split; [done|].
        destruct (g v); [|done]. rewrite lookup_insert_ne; [done|]. intros <-. by eapply Hpos. }
    destruct (decide (k0 = k)) as [->|Hne].
    - rewrite (decide_False (P := k ∈ l.*1)) by done. rewrite decide_True by (by left).
      rewrite Hkv. simpl. destruct (g v); [by rewrite lookup_insert_eq|done].
    - assert (Hi : (match g v with Some a => <[k := a]> acc | None => acc end) !! k0 = acc !! k0)
        by (destruct (g v); [by rewrite lookup_insert_ne|done]).
      rewrite Hi. repeat case_decide; set_solver. }
  apply map_eq. intros k. rewrite Hl; [|apply range_NoDup_fst|].
  - rewrite lookup_omap, lookup_empty. case_decide as Hk; [done|]. rewrite elem_of_range_keys in Hk.
    apply eq_None_not_Some in Hk. by rewrite Hk.
  - intros k' v' Hin%elem_of_range. split; [done|]. apply lookup_empty.
Qed.

Lemma range_fold_fmap {B : Type} (f : V -> B) m :
  fold_left (fun res '(k, v) => <[k := f v]> res) (range m) ∅ = f <$> m.
Proof.
  rewrite <- (map_eq (omap (fun v => Some (f v)) m) (f <$> m)).
  - by rewrite <- range_fold_omap.
  - intros k. rewrite lookup_omap, lookup_fmap. by destruct (m !! k).
Qed.

Lemma length_range m : length (range m) = size m.
Proof. rewrite range_perm. apply length_map_to_list. Qed.
End MapRange.

(** ** Automation *)
Create HintDb proxy.
#[export] Hint Resolve elem_of_range range_NoDup_fst elem_of_range_keys : proxy.

(** Case analysis on every [match]/[if] of the goal, with the equations kept
    and the easy branches closed. *)
Ltac case_all :=
  repeat (first [ progress simplify_eq/= | case_match ]).

(** Turn boolean hypotheses and goals into propositions. *)
Ltac bool_prop :=
  repeat match goal with
  | H : _ && _ = true |- _ => apply andb_true_iff in H as [? ?]
  | H : _ && _ = false |- _ => apply andb_false_iff in H
  | H : _ || _ = true |- _ => apply orb_true_iff in H
  | H : _ || _ = false |- _ => apply orb_false_iff in H as [? ?]
  | H : negb _ = true |- _ => apply negb_true_iff in H
  | H : negb _ = false |- _ => apply negb_false_iff in H
  | H : bool_decide _ = true |- _ => apply bool_decide_eq_true in H
  | H : bool_decide _ = false |- _ => apply bool_decide_eq_false in H
  | H : (_ <? _)%Z = true |- _ => apply Z.ltb_lt in H
  | H : (_ <? _)%Z = false |- _ => apply Z.ltb_ge in H
  | H : (_ <=? _)%Z = true |- _ => apply Z.leb_le in H
  | H : (_ <=? _)%Z = false |- _ => apply Z.leb_gt in H
  | H : (_ =? _)%Z = true |- _ => apply Z.eqb_eq in H
  | H : (_ =? _)%Z = false |- _ => apply Z.eqb_neq in H
  end.

(** ** The error monad *)
Lemma go_bind_ret {A B} (f : A -> go B) (m : go A) (b : B) :
  (m ≫= f) = Ret b <-> exists a, m = Ret a /\ f a = Ret b.
Proof. destruct m; simpl; naive_solver. Qed.

Lemma go_try_ret {A B} (k : go B) (m : go A) (b : B) :
  (m ≫= fun _ => k) = Ret b <-> (exists a, m = Ret a) /\ k = Ret b.
Proof. destruct m; simpl; naive_solver. Qed.

(** [for x in l { if err := f(x); err != nil { return err } }] *)
Fixpoint go_forall {A : Type} (f : A -> go unit) (l : list A) : go unit :=
  match l with
  | [] => Ret tt
  | x :: l' => try? f x; go_forall f l'
  end.

Lemma go_forall_ret {A} (f : A -> go unit) (l : list A) :
  go_forall f l = Ret tt <-> Forall (fun x => f x = Ret tt) l.
Proof.
  induction l as [|x l IH]; simpl; [by split|].
  rewrite go_try_ret, IH, Forall_cons. split; [|naive_solver].
  intros [[[] Hx] Hl]. by rewrite Hx.
Qed.

Lemma go_forall_Panic {A} (f : A -> go unit) (l : list A) (x : A) :
  x ∈ l -> f x = Panic -> (forall y, y ∈ l -> f y = Ret tt \/ f y = Panic) ->
  go_forall f l = Panic.
Proof.
  intros Hx Hf Hl. induction l as [|y l IH]; [set_solver|]. simpl.
  destruct (Hl y) as [Hy | ->]; [set_solver| |done].
  apply elem_of_cons in Hx as [-> | Hx]; [congruence|].
  rewrite Hy. simpl. apply IH; set_solver.
Qed.

Lemma go_forall_panic {A} (f : A -> go unit) (l : list A) :
  Forall (fun x => f x <> Panic) l -> go_forall f l <> Panic.
Proof.
  induction 1 as [|x l Hx Hl IH]; simpl; [done|].
  destruct (f x); simpl; naive_solver.
Qed.

(** [for x in l { acc, err = f(acc, x); if err != nil { return err } }] *)
Fixpoint go_fold {A B : Type} (f : B -> A -> go B) (b : B) (l : list A) : go B :=
  match l with
  | [] => Ret b
  | x :: l' => b' <-? f b x; go_fold f b' l'
  end.

Lemma go_fold_ext {A B} (f g : B -> A -> go B) (b : B) (l : list A) :
  (forall b x, f b x = g b x) -> go_fold f b l = go_fold g b l.
Proof.
  intros Hfg. revert b. induction l as [|x l IH]; intros b; simpl; [done|].
  rewrite Hfg. destruct (g b x); simpl; auto.
Qed.

(** ** Lists *)
Lemma fold_left_perm {A B : Type} (f : B -> A -> B) (l1 l2 : list A) (b : B) :
  (forall b x y, f (f b x) y = f (f b y) x) ->
  l1 ≡ₚ l2 -> fold_left f l1 b = fold_left f l2 b.
Proof.
  intros Hcomm Hperm. revert b.
  induction Hperm as [| x l1 l2 _ IH | x y l | l1 l2 l3 _ IH1 _ IH2];
    intros b; simpl; auto.
  - by rewrite Hcomm.
  - by rewrite IH1.
Qed.

Lemma list_filter_ext_in {A} (P Q : A -> Prop) `{forall x, Decision (P x)}
    `{forall x, Decision (Q x)} (l : list A) :
  (forall x, x ∈ l -> P x <-> Q x) -> filter P l = filter Q l.
Proof.
  induction l as [|x l IH]; intros Hl; [done|]. rewrite !filter_cons.
  rewrite IH by set_solver. specialize (Hl x ltac:(set_solver)).
  repeat case_decide; tauto.
Qed.

Lemma list_filter_all {A} (P : A -> Prop) `{forall x, Decision (P x)} (l : list A) :
  (forall x, x ∈ l -> P x) -> filter P l = l.
Proof.
  induction l as [|x l IH]; intros Hl; [done|].
  rewrite filter_cons_True by (apply Hl; left). f_equal. apply IH. set_solver.
Qed.

Lemma list_filter_none {A} (P : A -> Prop) `{forall x, Decision (P x)} (l : list A) :
  (forall x, x ∈ l -> ~ P x) -> filter P l = [].
Proof.
  induction l as [|x l IH]; intros Hl; [done|].
  rewrite filter_cons_False by (apply Hl; left). apply IH. set_solver.
Qed.

(** ** Strings *)
Lemma str_app_nil_l (s : string) : EmptyString +:+ s = s.
Proof. done. Qed.

Lemma str_app_cons a (s t : string) : String a s +:+ t = String a (s +:+ t).
Proof. done. Qed.

Lemma str_app_nil_r (s : string) : s +:+ EmptyString = s.
Proof. induction s as [|a s IH]; [done|]. by rewrite str_app_cons, IH. Qed.

Lemma str_app_assoc (s t u : string) : s +:+ t +:+ u = (s +:+ t) +:+ u.
Proof. induction s as [|a s IH]; [done|]. by rewrite !str_app_cons, IH. Qed.

Lemma str_app_length (s t : string) :
  String.length (s +:+ t) = (String.length s + String.length t)%nat.
Proof. induction s as [|a s IH]; [done|]. rewrite str_app_cons. simpl. by rewrite IH. Qed.

Lemma str_app_inj_l (p s t : string) : p +:+ s = p +:+ t -> s = t.
Proof. apply (inj (String.append p)). Qed.

Lemma str_app_inj_length (a1 a2 b1 b2 : string) :
  String.length a1 = String.length a2 -> a1 +:+ b1 = a2 +:+ b2 -> a1 = a2 /\ b1 = b2.
Proof.
  revert a2. induction a1 as [|c a1 IH]; intros [|d a2] Hl Heq; simpl in Hl; try done.
  rewrite !str_app_cons in Heq. injection Heq as -> Heq. injection Hl as Hl.
  destruct (IH _ Hl Heq) as [-> ->]. done.
Qed.

(** ** Machine integers

    Go's [int] is 64 bits wide on the platforms the proxy is built for. *)
Definition two_p (n : Z) : Z := (2 ^ n)%Z.
Definition wrap_u (w z : Z) : Z := (z mod 2 ^ w)%Z.
Definition wrap_s (w z : Z) : Z := ((z + 2 ^ (w - 1)) mod 2 ^ w - 2 ^ (w - 1))%Z.
Definition u64 (z : Z) : Z := wrap_u 64 z.
Definition i64 (z : Z) : Z := wrap_s 64 z.
Definition i32 (z : Z) : Z := wrap_s 32 z.
Definition byte_of_Z (z : Z) : Z := wrap_u 8 z.

Lemma wrap_u_range (w z : Z) : (0 <= w)%Z -> (0 <= wrap_u w z < 2 ^ w)%Z.
Proof. intros Hw. unfold wrap_u. apply Z.mod_pos_bound. by apply Z.pow_pos_nonneg. Qed.

Lemma wrap_s_range (w z : Z) :
  (0 < w)%Z -> (- 2 ^ (w - 1) <= wrap_s w z < 2 ^ (w - 1))%Z.
Proof.
  intros Hw. unfold wrap_s.
  assert (2 ^ w = 2 * 2 ^ (w - 1))%Z as ->.
  { rewrite <- Z.pow_succ_r by lia. f_equal. lia. }
  pose proof (Z.mod_pos_bound (z + 2 ^ (w - 1)) (2 * 2 ^ (w - 1))).
  pose proof (Z.pow_pos_nonneg 2 (w - 1)). lia.
Qed.

Lemma wrap_s_id (w z : Z) :
  (0 < w)%Z -> (- 2 ^ (w - 1) <= z < 2 ^ (w - 1))%Z -> wrap_s w z = z.
Proof.
  intros Hw Hz. unfold wrap_s.
  assert (2 ^ w = 2 * 2 ^ (w - 1))%Z as ->.
  { rewrite <- Z.pow_succ_r by lia. f_equal. lia. }
  rewrite Z.mod_small; lia.
Qed.

Lemma log2_below (n a : Z) : (0 < n)%Z -> (0 <= a < 2 ^ n)%Z -> (Z.log2 a < n)%Z.
Proof.
  intros Hn Ha. destruct (decide (a = 0)%Z) as [->|Hz]; [done|].
  apply Z.log2_lt_pow2; lia.
Qed.

Lemma lxor_range (n a b : Z) :
  (0 < n)%Z -> (0 <= a < 2 ^ n)%Z -> (0 <= b < 2 ^ n)%Z -> (0 <= Z.lxor a b < 2 ^ n)%Z.
Proof.
  intros Hn Ha Hb.
  assert (0 <= Z.lxor a b)%Z by (apply Z.lxor_nonneg; lia). split; [done|].
  destruct (decide (Z.lxor a b = 0)%Z) as [->|Hz]; [lia|].
  apply Z.log2_lt_pow2; [lia|].
  eapply Z.le_lt_trans; [apply Z.log2_lxor; lia|].
  apply Z.max_lub_lt; by apply log2_below.
Qed.

(** ** Labelled steps

    Goroutines that run together are a function that performs the step of a
    label where it is enabled; a run is a list of labels. *)
Section runs.
Context {L S : Type} (step : L -> S -> option S).

Fixpoint runs (ls : list L) (s : S) : option S :=
  match ls with
  | [] => Some s
  | l :: ls => s ← step l s; runs ls s
  end.

(** [ls] runs from [s], by steps of the kind [P] *)
Lemma runs_rel (P : L -> Prop) (R : relation S) `{!PreOrder R} ls s s' :
  (forall l s s', step l s = Some s' -> P l -> R s s') -> runs ls s = Some s' -> Forall P ls -> R s s'.
Proof.
  intros Hstep. revert s. induction ls as [|l ls IH]; intros s; simpl; [by intros [= <-]|].
  destruct (step l s) as [s1|] eqn:Hl; [|done]. intros Hrun [Hp Hps]%Forall_cons.
  etrans; [by eapply Hstep|by apply IH].
Qed.

Lemma runs_invariant (I : S -> Prop) ls s s' :
  (forall l s s', step l s = Some s' -> I s -> I s') -> runs ls s = Some s' -> I s -> I s'.
Proof.
  intros Hstep. revert s. induction ls as [|l ls IH]; intros s; simpl; [by intros [= <-]|].
  destruct (step l s) as [s1|] eqn:Hl; [|done]. intros Hrun Hs. apply (IH s1); [done|]. by eapply Hstep.
Qed.

(** steps that decrease a measure come to an end *)
Lemma runs_bounded (P : L -> Prop) (work : S -> nat) ls s s' :
  (forall l s s', step l s = Some s' -> P l -> work s' < work s) ->
  runs ls s = Some s' -> Forall P ls -> length ls + work s' <= work s.
Proof.
  intros Hstep. revert s. induction ls as [|l ls IH]; intros s; simpl; [by intros [= <-]|].
  destruct (step l s) as [s1|] eqn:Hl; [|done]. intros Hrun [Hp Hps]%Forall_cons.
  specialize (IH s1 Hrun Hps). pose proof (Hstep l s s1 Hl Hp). lia.
Qed.
End runs.

(** the sum of a measure over the values of a map *)
Section total.
Context `{Countable K} {V : Type} (measure : V -> nat).

Definition total (m : gmap K V) : nat := map_fold (fun _ v n => measure v + n) 0 m.

Lemma total_delete m k v : m !! k = Some v -> total m = measure v + total (delete k m).
Proof. intros Hk. unfold total. apply (map_fold_delete_L (fun _ v n => measure v + n)); [lia|done]. Qed.

Lemma total_update m k v v' : m !! k = Some v -> total (<[k := v']> m) + measure v = total m + measure v'.
Proof.
  intros Hk. rewrite (total_delete m k v Hk), (total_delete (<[k := v']> m) k v') by apply lookup_insert_eq.
  rewrite delete_insert_eq. lia.
Qed.
End total.
