(* ===== verification/Go.v ===== *)
(** The part of the Go language and standard library the proxy's code uses:
    strings, byte slices, [strconv], [unicode/utf8], [encoding/base64],
    [encoding/hex], JSON values, and the operating system seen by the process.

    A Go string and a [[]byte] are both sequences of bytes; both are modelled
    by Rocq's [string], whose characters are exactly the 8-bit values. Where
    the code tells a nil slice or map from an empty one the model uses
    [option]. *)
From S2P Require Import Prelude.
From Stdlib Require Import Ascii.
Open Scope Z_scope.

(** ** strings *)
Module Str.
Fixpoint strip_prefix (p s : string) : option string :=
  match p, s with
  | EmptyString, _ => Some s
  | String a p', String b s' => if decide (a = b) then strip_prefix p' s' else None
  | String _ _, EmptyString => None
  end.

Definition HasPrefix (s p : string) : bool :=
  match strip_prefix p s with Some _ => true | None => false end.
Definition TrimPrefix (s p : string) : string := default s (strip_prefix p s).

Definition rev (s : string) : string :=
  String.string_of_list_ascii (List.rev (String.list_ascii_of_string s)).
Definition TrimSuffix (s suf : string) : string :=
  match strip_prefix (rev suf) (rev s) with Some r => rev r | None => s end.

Fixpoint Contains (s sub : string) : bool :=
  HasPrefix s sub ||
  match s with EmptyString => false | String _ s' => Contains s' sub end.

(** [strings.Split(s, sep)] for a one-byte separator. *)
Fixpoint SplitByte (c : ascii) (s : string) : list string :=
  match s with
  | EmptyString => [EmptyString]
  | String a s' =>
      if decide (a = c) then EmptyString :: SplitByte c s'
      else match SplitByte c s' with
           | w :: ws => String a w :: ws
           | [] => [String a EmptyString]
           end
  end.

Fixpoint Join (l : list string) (sep : string) : string :=
  match l with
  | [] => EmptyString
  | [w] => w
  | w :: ws => w +:+ sep +:+ Join ws sep
  end.

Fixpoint map (f : ascii -> ascii) (s : string) : string :=
  match s with EmptyString => EmptyString | String a s' => String (f a) (map f s') end.

(** [strings.ReplaceAll(s, old, new)] for one-byte [old] and [new]. *)
Definition ReplaceByte (old new : ascii) (s : string) : string :=
  map (fun a => if decide (a = old) then new else a) s.

Definition upper_ascii (a : ascii) : ascii :=
  let n := N_of_ascii a in
  if (97 <=? n)%N && (n <=? 122)%N then ascii_of_N (n - 32) else a.
(** [strings.ToUpper] on the ASCII letters; other bytes are unchanged. *)
Definition ToUpper (s : string) : string := map upper_ascii s.

Fixpoint Repeat (s : string) (n : nat) : string :=
  match n with O => EmptyString | S n' => s +:+ Repeat s n' end.

(** [bytes.IndexByte] with the two parts it separates. *)
Fixpoint cut (c : ascii) (s : string) : option (string * string) :=
  match s with
  | EmptyString => None
  | String a s' =>
      if decide (a = c) then Some (EmptyString, s')
      else match cut c s' with
           | Some (l, r) => Some (String a l, r)
           | None => None
           end
  end.

Fixpoint take (n : nat) (s : string) : string :=
  match n, s with
  | S n', String a s' => String a (take n' s')
  | _, _ => EmptyString
  end.
Fixpoint drop (n : nat) (s : string) : string :=
  match n, s with
  | S n', String _ s' => drop n' s'
  | _, _ => s
  end.

Definition last (s : string) : option ascii :=
  List.last (List.map Some (String.list_ascii_of_string s)) None.
End Str.

Definition len (s : string) : Z := Z.of_nat (String.length s).
Definition newline : ascii := "010"%char.
Definition str1 (a : ascii) : string := String a EmptyString.

(** ** Bytes *)
Definition byte_val (a : ascii) : Z := Z.of_N (N_of_ascii a).
Definition byte_chr (z : Z) : ascii := ascii_of_N (Z.to_N (z mod 256)).
Definition bytes (s : string) : list Z := byte_val <$> String.list_ascii_of_string s.
Definition of_bytes (l : list Z) : string :=
  String.string_of_list_ascii (byte_chr <$> l).

(** ** unicode/utf8: [RuneCountInString]; an ill-formed byte counts as one rune. *)
Definition in_range (lo hi z : Z) : bool := (lo <=? z) && (z <=? hi).

Fixpoint rune_count (l : list Z) : nat :=
  match l with
  | [] => 0%nat
  | c :: l1 =>
      if c <? 128 then S (rune_count l1)
      else if in_range 194 223 c then
        match l1 with
        | d :: l2 => if in_range 128 191 d then S (rune_count l2) else S (rune_count l1)
        | [] => S (rune_count l1)
        end
      else if in_range 224 239 c then
        match l1 with
        | d :: (e :: l3) =>
            if in_range (if c =? 224 then 160 else 128) (if c =? 237 then 159 else 191) d
               && in_range 128 191 e
            then S (rune_count l3) else S (rune_count l1)
        | _ => S (rune_count l1)
        end
      else if in_range 240 244 c then
        match l1 with
        | d :: (e :: (f :: l4)) =>
            if in_range (if c =? 240 then 144 else 128) (if c =? 244 then 143 else 191) d
               && in_range 128 191 e && in_range 128 191 f
            then S (rune_count l4) else S (rune_count l1)
        | _ => S (rune_count l1)
        end
      else S (rune_count l1)
  end.
Definition RuneCountInString (s : string) : nat := rune_count (bytes s).

(** ** strconv *)
Definition digit (a : ascii) : option Z :=
  let n := byte_val a in if in_range 48 57 n then Some (n - 48) else None.

Fixpoint digits (acc : Z) (s : string) : option Z :=
  match s with
  | EmptyString => Some acc
  | String a s' => match digit a with
                   | Some d => digits (acc * 10 + d) s'
                   | None => None
                   end
  end.

(** [ParseInt(s, 10, 64)] and, on a 64-bit platform, [Atoi(s)]. *)
Definition ParseInt (s : string) : go Z :=
  let '(neg, body) := match s with
    | String a s' =>
        if decide (a = "+"%char) then (false, s')
        else if decide (a = "-"%char) then (true, s') else (false, s)
    | EmptyString => (false, s)
    end in
  match body with
  | EmptyString => Fail "invalid syntax"
  | _ => match digits 0 body with
         | None => Fail "invalid syntax"
         | Some z =>
             let z := if (neg : bool) then - z else z in
             if in_range (- 2 ^ 63) (2 ^ 63 - 1) z then Ret z
             else Fail "value out of range"
         end
  end.

Definition ParseBool (s : string) : go bool :=
  if bool_decide (s ∈ ["1"; "t"; "T"; "true"; "TRUE"; "True"]) then Ret true
  else if bool_decide (s ∈ ["0"; "f"; "F"; "false"; "FALSE"; "False"]) then Ret false
  else Fail "invalid syntax".

(** [strconv.Itoa], [fmt]'s [%d]: decimal digits with a leading minus sign. *)
Definition Itoa (z : Z) : string := pretty z.

(** ** encoding/base64 *)
Module Base64.
Definition std_alphabet : string :=
  "ABCDEFGHIJKLMNOPQRSTUVWXYZabcdefghijklmnopqrstuvwxyz0123456789+/".
Definition url_alphabet : string :=
  "ABCDEFGHIJKLMNOPQRSTUVWXYZabcdefghijklmnopqrstuvwxyz0123456789-_".

(** An [Encoding]: its alphabet and whether it pads with ['=']. *)
Record Encoding := { alphabet : list ascii; padded : bool }.
Definition StdEncoding :=
  {| alphabet := String.list_ascii_of_string std_alphabet; padded := true |}.
Definition URLEncoding :=
  {| alphabet := String.list_ascii_of_string url_alphabet; padded := true |}.
Definition RawURLEncoding :=
  {| alphabet := String.list_ascii_of_string url_alphabet; padded := false |}.

Definition enc_char (e : Encoding) (z : Z) : ascii :=
  nth (Z.to_nat z) (alphabet e) "A"%char.
Fixpoint index_of (a : ascii) (l : list ascii) (i : Z) : option Z :=
  match l with
  | [] => None
  | b :: l' => if decide (a = b) then Some i else index_of a l' (i + 1)
  end.
Definition dec_char (e : Encoding) (a : ascii) : option Z :=
  index_of a (alphabet e) 0.

Definition pad (e : Encoding) (n : nat) : list ascii :=
  if padded e then replicate n "="%char else [].

Fixpoint encode (e : Encoding) (l : list Z) : list ascii :=
  match l with
  | [] => []
  | [a] => [enc_char e (a / 4); enc_char e (a mod 4 * 16)] ++ pad e 2
  | [a; b] =>
      [enc_char e (a / 4); enc_char e (a mod 4 * 16 + b / 16);
       enc_char e (b mod 16 * 4)] ++ pad e 1
  | a :: b :: c :: l' =>
      enc_char e (a / 4) :: enc_char e (a mod 4 * 16 + b / 16) ::
      enc_char e (b mod 16 * 4 + c / 64) :: enc_char e (c mod 64) :: encode e l'
  end.

Definition EncodeToString (e : Encoding) (s : string) : string :=
  String.string_of_list_ascii (encode e (bytes s)).

(** The decoder, once line breaks (which it ignores) are out of its input. *)
Fixpoint decode (e : Encoding) (l : list ascii) : option (list Z) :=
  match l with
  | [] => Some []
  | a :: b :: l2 =>
      x ← dec_char e a; y ← dec_char e b;
      match l2 with
      | [] => if padded e then None else Some [x * 4 + y / 16]
      | c :: l3 =>
          match dec_char e c with
          | None =>
              (* padding: ['='] twice, then the end of the input *)
              match padded e, l3 with
              | true, [d] =>
                  if decide (c = "="%char /\ d = "="%char)
                  then Some [x * 4 + y / 16] else None
              | _, _ => None
              end
          | Some z =>
              match l3 with
              | [] => if padded e then None
                      else Some [x * 4 + y / 16; y mod 16 * 16 + z / 4]
              | d :: l4 =>
                  match dec_char e d with
                  | None =>
                      match padded e, l4 with
                      | true, [] =>
                          if decide (d = "="%char)
                          then Some [x * 4 + y / 16; y mod 16 * 16 + z / 4] else None
                      | _, _ => None
                      end
                  | Some w =>
                      rest ← decode e l4;
                      Some (x * 4 + y / 16 :: y mod 16 * 16 + z / 4
                            :: z mod 4 * 64 + w :: rest)
                  end
              end
          end
      end
  | _ => None
  end.

Definition is_break (a : ascii) : bool :=
  bool_decide (a = "010"%char \/ a = "013"%char).
Definition DecodeString (e : Encoding) (s : string) : go string :=
  match decode e (List.filter (fun a => negb (is_break a))
                    (String.list_ascii_of_string s)) with
  | Some l => Ret (of_bytes l)
  | None => Fail "illegal base64 data"
  end.
End Base64.

(** ** encoding/hex *)
Definition hex_digit (z : Z) : ascii :=
  nth (Z.to_nat z) (String.list_ascii_of_string "0123456789abcdef") "0"%char.
Fixpoint hex_encode (l : list Z) : string :=
  match l with
  | [] => EmptyString
  | b :: l' => String (hex_digit (b / 16)) (String (hex_digit (b mod 16)) (hex_encode l'))
  end.

(** The [n] low bytes of [z], most significant first. *)
Fixpoint be_bytes (n : nat) (z : Z) : list Z :=
  match n with
  | O => []
  | S n' => be_bytes n' (z / 256) ++ [z mod 256]
  end.

(** ** Values of type [interface{}]

    The dynamic types the proxy meets: what [encoding/json] and the YAML
    package produce, the Go types the attributes are converted to, and the
    flag values of the ConfigCat SDK. A [float64] is its IEEE-754 bit
    pattern. *)
Record float64 := { f64_bits : Z }.

#[export] Instance float64_eq_dec : EqDecision float64.
Proof. solve_decision. Defined.

Inductive value :=
| VNil
| VBool (b : bool)
| VInt (z : Z)
| VFloat (f : float64)
| VString (s : string)
| VStrings (l : list string)          (** [[]string] *)
| VTime (t : Z)                       (** [time.Time] *)
| VArray (l : list value)             (** [[]interface{}] *)
| VObject (l : list (string * value)). (** [map[string]interface{}] *)

Definition f64_exp (f : float64) : Z := f64_bits f / 2 ^ 52 mod 2 ^ 11.
Definition f64_frac (f : float64) : Z := f64_bits f mod 2 ^ 52.
Definition f64_is_nan (f : float64) : bool :=
  (f64_exp f =? 2047) && negb (f64_frac f =? 0).
Definition f64_is_zero (f : float64) : bool := f64_bits f mod 2 ^ 63 =? 0.
(** [==] on [float64]. *)
Definition f64_eqb (f g : float64) : bool :=
  negb (f64_is_nan f) && negb (f64_is_nan g) &&
  ((f64_bits f =? f64_bits g) || (f64_is_zero f && f64_is_zero g)).

(** [==] on [interface{}]; [None] is the run-time panic of comparing two
    values of the same uncomparable type (slices, maps). *)
Definition iface_eqb (v w : value) : option bool :=
  match v, w with
  | VNil, VNil => Some true
  | VBool a, VBool b => Some (Bool.eqb a b)
  | VInt a, VInt b => Some (a =? b)
  | VFloat a, VFloat b => Some (f64_eqb a b)
  | VString a, VString b => Some (bool_decide (a = b))
  | VTime a, VTime b => Some (a =? b)
  | VStrings _, VStrings _ | VArray _, VArray _ | VObject _, VObject _ => None
  | _, _ => Some false
  end.

(** ** The operating system as the process sees it *)
Inductive stat_result := StatOk (mtime size : Z) | StatNotExist (err : string) | StatErr (err : string).

Class OS := {
  os_getenv : string -> string;            (** [""] for an unset variable *)
  os_stat : string -> stat_result;
  os_read_file : string -> go string;
  filepath_eval_symlinks : string -> go string;
  runtime_goos : string
}.

(** ** Facts *)
Lemma byte_val_range (a : ascii) : 0 <= byte_val a < 256.
Proof. unfold byte_val. pose proof (N_ascii_bounded a). lia. Qed.

Lemma byte_chr_val (a : ascii) : byte_chr (byte_val a) = a.
Proof.
  pose proof (byte_val_range a). unfold byte_chr. rewrite Z.mod_small by done.
  unfold byte_val. by rewrite N2Z.id, ascii_N_embedding.
Qed.

Lemma bytes_range (s : string) : Forall (fun z => 0 <= z < 256) (bytes s).
Proof. apply Forall_fmap, Forall_forall. intros a _. apply byte_val_range. Qed.

Lemma of_bytes_bytes (s : string) : of_bytes (bytes s) = s.
Proof.
  unfold of_bytes, bytes. rewrite <- list_fmap_compose.
  rewrite (list_fmap_ext _ id); [|intros ? a _; apply byte_chr_val].
  rewrite list_fmap_id. apply String.string_of_list_ascii_of_string.
Qed.

Lemma list_ascii_of_list (l : list ascii) :
  String.list_ascii_of_string (String.string_of_list_ascii l) = l.
Proof. apply String.list_ascii_of_string_of_list_ascii. Qed.



Module Base64Facts.
Import Base64.

(** What the three encodings share: the alphabet is read back, and neither
    a line break nor ['='] is in it. *)
Class Good (e : Encoding) := {
  good_dec z : 0 <= z < 64 -> dec_char e (enc_char e z) = Some z;
  good_break z : 0 <= z < 64 -> is_break (enc_char e z) = false;
  good_eq : dec_char e "="%char = None
}.

Lemma below_64 (P : Z -> bool) :
  forallb P (seqZ 0 64) = true -> forall z, 0 <= z < 64 -> P z = true.
Proof.
  intros HP z Hz. rewrite forallb_forall in HP. apply HP.
  apply list_elem_of_In, elem_of_seqZ. lia.
Qed.

Ltac prove_good :=
  split;
  [ intros z Hz; apply (bool_decide_eq_true_1 (_ = _));
    revert z Hz; apply below_64; by vm_compute
  | intros z Hz; apply negb_true_iff; revert z Hz;
    apply (below_64 (fun z => negb (is_break (enc_char _ z)))); by vm_compute
  | by vm_compute ].

#[export] Instance good_std : Good StdEncoding.
Proof. prove_good. Qed.
#[export] Instance good_url : Good URLEncoding.
Proof. prove_good. Qed.
#[export] Instance good_raw_url : Good RawURLEncoding.
Proof. prove_good. Qed.

Ltac sextet := Z.to_euclidean_division_equations; lia.

Lemma three_ind {A} (P : list A -> Prop) :
  P [] -> (forall a, P [a]) -> (forall a b, P [a; b]) ->
  (forall a b c l, P l -> P (a :: b :: c :: l)) -> forall l, P l.
Proof.
  intros H0 H1 H2 H3.
  fix IH 1. intros [|a [|b [|c l]]]; [done | apply H1 | apply H2 | apply H3, IH].
Qed.

Section decode_encode.
Context (e : Encoding) `{Good e}.

Lemma decode_encode (l : list Z) :
  Forall (fun z => 0 <= z < 256) l -> decode e (encode e l) = Some l.
Proof.
  induction l as [|a|a b|a b c l IH] using three_ind; intros Hl;
    [done| | |]; repeat (apply Forall_cons in Hl as [? Hl]); simpl encode; unfold pad.
  - destruct (padded e) eqn:Hp; simpl;
      rewrite !good_dec by sextet; simpl; rewrite ?Hp, ?good_eq; simpl;
      repeat f_equal; sextet.
  - destruct (padded e) eqn:Hp; simpl;
      rewrite !good_dec by sextet; simpl; rewrite ?good_eq, ?Hp; simpl;
      repeat f_equal; sextet.
  - simpl. rewrite !good_dec by sextet. simpl. rewrite IH by done. simpl.
    repeat f_equal; sextet.
Qed.

Lemma encode_no_break (l : list Z) :
  Forall (fun z => 0 <= z < 256) l ->
  List.filter (fun a => negb (is_break a)) (encode e l) = encode e l.
Proof.
  assert (Hpad : forall n, List.filter (fun a => negb (is_break a)) (pad e n) = pad e n).
  { intros n. unfold pad. destruct (padded e); [|done].
    induction n as [|n IHn]; simpl; [done|]. by rewrite IHn. }
  induction l as [|a|a b|a b c l IH] using three_ind; intros Hl;
    [done| | |]; repeat (apply Forall_cons in Hl as [? Hl]); cbn -[pad];
    rewrite !good_break by sextet; cbn -[pad]; by rewrite ?Hpad, ?IH.
Qed.

Lemma DecodeString_EncodeToString (s : string) :
  DecodeString e (EncodeToString e s) = Ret s.
Proof.
  unfold DecodeString, EncodeToString. rewrite list_ascii_of_list.
  rewrite encode_no_break, decode_encode by apply bytes_range.
  by rewrite of_bytes_bytes.
Qed.
End decode_encode.

(** The padded decoder on the output of the unpadded encoder: it either
    refuses it or agrees. *)
Lemma decode_url_encode_raw (l : list Z) :
  Forall (fun z => 0 <= z < 256) l ->
  decode URLEncoding (encode RawURLEncoding l) = None \/
  decode URLEncoding (encode RawURLEncoding l) = Some l.
Proof.
  assert (Hdec : forall z, 0 <= z < 64 ->
            dec_char URLEncoding (enc_char RawURLEncoding z) = Some z).
  { intros z Hz. by apply (good_dec (e := URLEncoding)). }
  induction l as [|a|a b|a b c l IH] using three_ind; intros Hl;
    [by right| | |]; repeat (apply Forall_cons in Hl as [? Hl]);
    cbn -[dec_char enc_char Z.div Z.modulo Z.mul Z.add];
    rewrite !Hdec by sextet; cbn -[dec_char enc_char Z.div Z.modulo Z.mul Z.add];
    [by left | by left |].
  destruct (IH Hl) as [-> | ->]; [by left|right].
  cbn -[Z.div Z.modulo Z.mul Z.add]. repeat f_equal; sextet.
Qed.

Lemma DecodeString_url_raw (s : string) :
  DecodeString URLEncoding (EncodeToString RawURLEncoding s) = Ret s \/
  exists e, DecodeString URLEncoding (EncodeToString RawURLEncoding s) = Fail e.
Proof.
  unfold DecodeString, EncodeToString. rewrite list_ascii_of_list.
  rewrite (encode_no_break RawURLEncoding) by apply bytes_range.
  destruct (decode_url_encode_raw (bytes s) (bytes_range s)) as [-> | ->];
    [right; eauto | left]. by rewrite of_bytes_bytes.
Qed.
End Base64Facts.

(** ** Splitting at a byte *)
Lemma cut_Some c s a b :
  Str.cut c s = Some (a, b) <-> s = a +:+ String c b /\ c ∉ String.list_ascii_of_string a.
Proof.
  revert a b. induction s as [|x s IH]; intros a b; simpl.
  - split; [done|]. intros [Hs _]. by destruct a.
  - destruct (decide (x = c)) as [->|Hx].
    + split.
      * intros [= <- <-]. split; [done|set_solver].
      * intros [Hs Ha]. destruct a as [|y a]; rewrite ?str_app_nil_l, ?str_app_cons in Hs.
        -- by injection Hs as ->.
        -- injection Hs as -> _. simpl in Ha. set_solver.
    + destruct (Str.cut c s) as [[l r]|] eqn:Hc.
      * destruct (IH l r) as [IH1 _]. destruct (IH1 eq_refl) as [-> Hl]. split.
        -- intros [= <- <-]. split; [done|]. simpl. set_solver.
        -- intros [Hs Ha]. destruct a as [|y a]; rewrite ?str_app_nil_l, ?str_app_cons in Hs.
           { by injection Hs as ->. }
           injection Hs as -> Hs. simpl in Ha.
           destruct (IH a b) as [_ IH2]. specialize (IH2 ltac:(split; [done|set_solver])). congruence.
      * split; [done|]. intros [Hs Ha]. destruct a as [|y a]; rewrite ?str_app_nil_l, ?str_app_cons in Hs.
        { by injection Hs as ->. }
        injection Hs as -> Hs. simpl in Ha.
        destruct (IH a b) as [_ IH2]. specialize (IH2 ltac:(split; [done|set_solver])). congruence.
Qed.

(** ** Prefixes and suffixes *)
Lemma strip_prefix_app p s : Str.strip_prefix p (p +:+ s) = Some s.
Proof. induction p as [|a p IH]; simpl; [done|]. by destruct (decide (a = a)). Qed.
Lemma HasPrefix_app p s : Str.HasPrefix (p +:+ s) p = true.
Proof. unfold Str.HasPrefix. by rewrite strip_prefix_app. Qed.
Lemma TrimPrefix_app p s : Str.TrimPrefix (p +:+ s) p = s.
Proof. unfold Str.TrimPrefix. by rewrite strip_prefix_app. Qed.
Lemma string_list_app s t :
  String.list_ascii_of_string (s +:+ t) = String.list_ascii_of_string s ++ String.list_ascii_of_string t.
Proof. induction s as [|a s IH]; [done|]. simpl. by f_equal. Qed.
Lemma string_of_list_app l k :
  String.string_of_list_ascii (l ++ k) = String.string_of_list_ascii l +:+ String.string_of_list_ascii k.
Proof. induction l as [|a l IH]; [done|]. simpl. by rewrite IH. Qed.
Lemma rev_app s t : Str.rev (s +:+ t) = Str.rev t +:+ Str.rev s.
Proof. unfold Str.rev. by rewrite string_list_app, List.rev_app_distr, string_of_list_app. Qed.
Lemma rev_rev s : Str.rev (Str.rev s) = s.
Proof.
  unfold Str.rev. rewrite String.list_ascii_of_string_of_list_ascii, List.rev_involutive.
  apply String.string_of_list_ascii_of_string.
Qed.
Lemma TrimSuffix_app s suf : Str.TrimSuffix (s +:+ suf) suf = s.
Proof. unfold Str.TrimSuffix. by rewrite rev_app, strip_prefix_app, rev_rev. Qed.

(** ** Lists of words *)
Lemma SplitByte_no_sep c s : c ∉ String.list_ascii_of_string s -> Str.SplitByte c s = [s].
Proof.
  induction s as [|a s IH]; [done|]. simpl. intros Hs. apply not_elem_of_cons in Hs as [Ha Hs].
  destruct (decide (a = c)); [done|]. by rewrite IH.
Qed.
Lemma SplitByte_cons c w s :
  c ∉ String.list_ascii_of_string w -> Str.SplitByte c (w +:+ String c s) = w :: Str.SplitByte c s.
Proof.
  induction w as [|a w IH]; simpl; intros Hw; [by destruct (decide (c = c))|].
  apply not_elem_of_cons in Hw as [Ha Hw]. destruct (decide (a = c)); [done|]. by rewrite IH.
Qed.
Lemma SplitByte_Join c l :
  l <> [] -> Forall (fun w => c ∉ String.list_ascii_of_string w) l -> Str.SplitByte c (Str.Join l (str1 c)) = l.
Proof.
  intros Hne Hl. induction Hl as [|w l Hw Hl IH]; [done|]. destruct l as [|w' l].
  - by apply SplitByte_no_sep.
  - change (Str.Join (w :: w' :: l) (str1 c)) with (w +:+ String c (Str.Join (w' :: l) (str1 c))).
    rewrite SplitByte_cons by done. f_equal. by apply IH.
Qed.

Lemma base64_chars (P : ascii -> Prop) e (l : list Z) :
  (forall z, 0 <= z < 64 -> P (Base64.enc_char e z)) -> P "="%char ->
  Forall (fun z => 0 <= z < 256) l -> Forall P (Base64.encode e l).
Proof.
  intros Henc Heq. assert (Hpad : forall n, Forall P (Base64.pad e n)).
  { intros n. unfold Base64.pad. destruct (Base64.padded e); [|done]. by apply Forall_replicate. }
  induction l as [|a|a b|a b c l IH] using Base64Facts.three_ind; intros Hl; [done| | |];
    repeat (apply Forall_cons in Hl as [? Hl]); simpl Base64.encode;
    repeat (apply Forall_cons; split; [apply Henc; Base64Facts.sextet|]); [apply Hpad..|by apply IH].
Qed.

Lemma base64_no_comma (l : list Z) :
  Forall (fun z => 0 <= z < 256) l -> ","%char ∉ Base64.encode Base64.StdEncoding l.
Proof.
  intros Hl Hin. assert (Hall : Forall (fun a => a <> ","%char) (Base64.encode Base64.StdEncoding l)).
  { apply base64_chars; [|done|done]. intros z Hz.
    apply (bool_decide_eq_true_1 (_ <> _)). revert z Hz. apply Base64Facts.below_64. by vm_compute. }
  rewrite Forall_forall in Hall. by apply (Hall _ Hin).
Qed.
