(* ===== verification/Utils.v ===== *)
(** [internal/utils/utils.go]: the slice, map, hash and string helpers of the
    proxy. [xxhash] is a third-party module: its 64-bit digest is the
    parameter [xxhash64]. *)
From S2P Require Import Prelude Go.
From Stdlib Require Import Ascii.
Import Base64Facts.
Open Scope Z_scope.

Class XXHash := {
  xxhash64 : string -> Z;
  xxhash64_range : forall s, 0 <= xxhash64 s < 2 ^ 64
}.

(** [internal/utils/utils.go:13-22] Base64URLDecode *)
Definition Base64URLDecode (encoded : string) : go string :=
  match Base64.DecodeString Base64.URLEncoding encoded with
  | Ret decoded => Ret decoded
  | _ => match Base64.DecodeString Base64.RawURLEncoding encoded with
         | Ret decoded => Ret decoded
         | err => err
         end
  end.

(** [internal/utils/utils.go:24-28] FastHashHex; [h.Sum(nil)] is the digest,
    most significant byte first *)
Definition FastHashHex `{XXHash} (b : string) : string :=
  hex_encode (be_bytes 8 (xxhash64 b)).

Definition quote : string := str1 "034"%char.

(** [internal/utils/utils.go:30-32] GenerateEtag *)
Definition GenerateEtag `{XXHash} (b : string) : string :=
  "W/" +:+ quote +:+ FastHashHex b +:+ quote.

(** [internal/utils/utils.go:34-41] Obfuscate; [str[0 : l-clearLen]] panics when
    [clearLen] is negative *)
Definition Obfuscate (str : string) (clearLen : Z) : go string :=
  let l := len str in
  if l <? clearLen then Ret (Str.Repeat "*" (RuneCountInString str))
  else if clearLen <? 0 then Panic
  else
    let toObfuscate := Str.take (Z.to_nat (l - clearLen)) str in
    Ret (Str.Repeat "*" (RuneCountInString toObfuscate)
         +:+ Str.drop (Z.to_nat (l - clearLen)) str).

(** [internal/utils/utils.go:43-49] KeysOfMap *)
Definition KeysOfMap `{MapRange} `{Countable K} {V} (m : gmap K V) : list K :=
  (range m).*1.

(** [internal/utils/utils.go:51-58] KeysOfSyncMap *)
Definition KeysOfSyncMap `{MapRange} `{Countable K} {V} (m : gmap K V) : list K :=
  fold_left (fun keys '(key, _) => keys ++ [key]) (range m) [].

(** [internal/utils/utils.go:60-75] Except; [found] is the inner loop *)
Fixpoint found {A} `{EqDecision A} (va : A) (b : list A) : bool :=
  match b with
  | [] => false
  | vb :: b' => if decide (va = vb) then true else found va b'
  end.

(** [internal/utils/utils.go:60-75] Except *)
Definition Except {A} `{EqDecision A} (a b : list A) : list A :=
  fold_left (fun r va => if found va b then r else r ++ [va]) a [].

(** [internal/utils/utils.go:77-87] DedupStringSlice *)
Definition DedupStringSlice (strings : list string) : list string :=
  (fold_left (fun (st : gmap string bool * list string) item =>
     let '(keys, list) := st in
     match keys !! item with
     | Some _ => (keys, list)
     | None => (<[item := true]> keys, list ++ [item])
     end) strings (∅, [])).2.

(** [internal/utils/utils.go:89-99] Uint64ToBytes *)
Definition Uint64ToBytes (val : Z) : list Z :=
  [byte_of_Z (Z.shiftr val 0); byte_of_Z (Z.shiftr val 8);
   byte_of_Z (Z.shiftr val 16); byte_of_Z (Z.shiftr val 24);
   byte_of_Z (Z.shiftr val 32); byte_of_Z (Z.shiftr val 40);
   byte_of_Z (Z.shiftr val 48); byte_of_Z (Z.shiftr val 56)].

(** ** Slices *)
Section Except.
Context {A : Type} `{EqDecision A}.
Implicit Types (a b : list A) (x : A).

Lemma found_spec x b : found x b = true <-> x ∈ b.
Proof.
  induction b as [|y b IH]; simpl; [set_solver|].
  case_decide; set_solver.
Qed.

Lemma Except_filter a b : Except a b = filter (.∉ b) a.
Proof.
  unfold Except.
  enough (forall r, fold_left (fun r va => if found va b then r else r ++ [va]) a r
                    = r ++ filter (.∉ b) a) as -> by done.
  induction a as [|x a IH]; intros r; simpl; [by rewrite app_nil_r|].
  rewrite IH, filter_cons. destruct (found x b) eqn:Hx.
  - apply found_spec in Hx. by rewrite decide_False by tauto.
  - rewrite decide_True; [by rewrite <- app_assoc|].
    rewrite <- found_spec. congruence.
Qed.

Lemma elem_of_Except a b x : x ∈ Except a b <-> x ∈ a /\ x ∉ b.
Proof. rewrite Except_filter, list_elem_of_filter. tauto. Qed.

Lemma NoDup_Except a b : NoDup a -> NoDup (Except a b).
Proof. rewrite Except_filter. apply NoDup_filter. Qed.
End Except.

#[export] Hint Resolve NoDup_Except : proxy.


Lemma KeysOfSyncMap_eq `{MapRange} `{Countable K} {V} (m : gmap K V) :
  KeysOfSyncMap m = KeysOfMap m.
Proof.
  unfold KeysOfSyncMap, KeysOfMap.
  enough (forall r, fold_left (fun keys '(key, _) => keys ++ [key]) (range m) r
                    = r ++ (range m).*1) as -> by done.
  induction (range m) as [|[k v] l IH]; intros r; simpl; [by rewrite app_nil_r|].
  by rewrite IH, <- app_assoc.
Qed.

Lemma elem_of_KeysOfMap `{MapRange} `{Countable K} {V} (m : gmap K V) k :
  k ∈ KeysOfMap m <-> is_Some (m !! k).
Proof. apply elem_of_range_keys. Qed.

Lemma NoDup_KeysOfMap `{MapRange} `{Countable K} {V} (m : gmap K V) : NoDup (KeysOfMap m).
Proof. apply range_NoDup_fst. Qed.

#[export] Hint Resolve NoDup_KeysOfMap : proxy.

(** The reference definition of de-duplication: keep an element when it does
    not occur before. *)
Fixpoint first_occurrences (seen l : list string) : list string :=
  match l with
  | [] => []
  | x :: l' => if decide (x ∈ seen) then first_occurrences seen l'
               else x :: first_occurrences (x :: seen) l'
  end.

Lemma dedup_fold (l : list string) (keys : gmap string bool) (out seen : list string) :
  (forall x, is_Some (keys !! x) <-> x ∈ seen) ->
  (fold_left (fun (st : gmap string bool * list string) item =>
     let '(keys, list) := st in
     match keys !! item with
     | Some _ => (keys, list)
     | None => (<[item := true]> keys, list ++ [item])
     end) l (keys, out)).2 = out ++ first_occurrences seen l.
Proof.
  revert keys out seen. induction l as [|x l IH]; intros keys out seen Hk; simpl.
  - by rewrite app_nil_r.
  - destruct (keys !! x) as [b|] eqn:Hx.
    + rewrite (IH keys out seen Hk), decide_True; [done|]. apply Hk. eauto.
    + rewrite decide_False.
      2:{ rewrite <- Hk, Hx. by intros [? ?]. }
      rewrite (IH _ _ (x :: seen)).
      * by rewrite <- app_assoc.
      * intros y. rewrite elem_of_cons, <- Hk, lookup_insert. case_decide; subst.
        -- split; [by left | by eexists].
        -- naive_solver.
Qed.

Lemma DedupStringSlice_eq (l : list string) : DedupStringSlice l = first_occurrences [] l.
Proof.
  unfold DedupStringSlice. rewrite (dedup_fold l ∅ [] []); [done|].
  intros x. rewrite lookup_empty. split; [by intros [? ?] | set_solver].
Qed.

Lemma first_occurrences_elem seen l x :
  x ∈ first_occurrences seen l <-> x ∈ l /\ x ∉ seen.
Proof.
  revert seen. induction l as [|y l IH]; intros seen; simpl; [set_solver|].
  case_decide; rewrite ?elem_of_cons, IH; destruct (decide (x = y)); set_solver.
Qed.

Lemma first_occurrences_NoDup seen l : NoDup (first_occurrences seen l).
Proof.
  revert seen. induction l as [|y l IH]; intros seen; simpl; [constructor|].
  case_decide; [done|]. constructor; [|done].
  rewrite first_occurrences_elem. set_solver.
Qed.

(** A slice without duplicates is left alone. *)
Lemma first_occurrences_id seen l :
  NoDup l -> (forall x, x ∈ l -> x ∉ seen) -> first_occurrences seen l = l.
Proof.
  intros Hnd. revert seen. induction Hnd as [|x l Hx Hnd IH]; intros seen Hs; simpl; [done|].
  rewrite decide_False by (apply Hs; set_solver). f_equal. apply IH. set_solver.
Qed.

(** ** Strings *)
Lemma take_drop_string (n : nat) (s : string) : Str.take n s +:+ Str.drop n s = s.
Proof.
  revert s. induction n as [|n IH]; intros [|a s]; [done..|].
  simpl. by rewrite str_app_cons, IH.
Qed.

Lemma length_drop_string (n : nat) (s : string) :
  String.length (Str.drop n s) = (String.length s - n)%nat.
Proof. revert s. induction n as [|n IH]; intros [|a s]; simpl; try done. Qed.

(** ** Hash text *)
Lemma length_be_bytes n z : length (be_bytes n z) = n.
Proof. revert z. induction n as [|n IH]; intros z; simpl; [done|]. rewrite length_app, IH. simpl. lia. Qed.

Lemma be_bytes_range n z : Forall (fun b => 0 <= b < 256) (be_bytes n z).
Proof.
  revert z. induction n as [|n IH]; intros z; simpl; [constructor|].
  apply Forall_app. split; [apply IH|]. repeat constructor; apply Z.mod_pos_bound; lia.
Qed.

Lemma be_bytes_inj n y z :
  0 <= y < 256 ^ Z.of_nat n -> 0 <= z < 256 ^ Z.of_nat n ->
  be_bytes n y = be_bytes n z -> y = z.
Proof.
  revert y z. induction n as [|n IH]; intros y z Hy Hz Heq.
  - simpl in *. lia.
  - simpl in Heq. apply app_inj_tail in Heq as [Hd Hm].
    rewrite Nat2Z.inj_succ, Z.pow_succ_r in Hy, Hz by lia.
    apply IH in Hd; [| Z.to_euclidean_division_equations; nia ..].
    rewrite (Z.div_mod y 256), (Z.div_mod z 256) by lia. congruence.
Qed.

Lemma hex_digit_inj y z : 0 <= y < 16 -> 0 <= z < 16 -> hex_digit y = hex_digit z -> y = z.
Proof.
  assert (Hall : forallb (fun y => forallb (fun z =>
            implb (bool_decide (hex_digit y = hex_digit z)) (y =? z)) (seqZ 0 16))
            (seqZ 0 16) = true) by by vm_compute.
  intros Hy Hz Heq. rewrite forallb_forall in Hall.
  specialize (Hall y). rewrite forallb_forall in Hall.
  apply Z.eqb_eq. assert (Hin : forall x, 0 <= x < 16 -> In x (seqZ 0 16)).
  { intros x Hx. apply list_elem_of_In, elem_of_seqZ. lia. }
  specialize (Hall (Hin y Hy) z (Hin z Hz)).
  rewrite bool_decide_eq_true_2 in Hall by done. done.
Qed.

Lemma hex_encode_inj l1 l2 :
  Forall (fun b => 0 <= b < 256) l1 -> Forall (fun b => 0 <= b < 256) l2 ->
  hex_encode l1 = hex_encode l2 -> l1 = l2.
Proof.
  intros H1. revert l2. induction H1 as [|x l1 Hx H1 IH]; intros l2 H2 Heq;
    destruct H2 as [|y l2 Hy H2]; simpl in Heq; try done.
  injection Heq as Hhi Hlo Hrest. f_equal; [|by apply IH].
  apply hex_digit_inj in Hhi; [|Z.to_euclidean_division_equations; lia ..].
  apply hex_digit_inj in Hlo; [|Z.to_euclidean_division_equations; lia ..].
  rewrite (Z.div_mod x 16), (Z.div_mod y 16) by lia. congruence.
Qed.

Lemma length_hex_encode l : String.length (hex_encode l) = (2 * length l)%nat.
Proof. induction l as [|b l IH]; simpl; lia. Qed.

Lemma Uint64ToBytes_range val : Forall (fun b => 0 <= b < 256) (Uint64ToBytes val).
Proof. unfold Uint64ToBytes, byte_of_Z. repeat constructor; apply (wrap_u_range 8); lia. Qed.
Lemma Uint64ToBytes_value val : fold_right (fun b acc => b + 256 * acc) 0 (Uint64ToBytes val) = u64 val.
Proof.
  unfold Uint64ToBytes, byte_of_Z, u64, wrap_u. simpl fold_right.
  rewrite !Z.shiftr_div_pow2 by lia. change (2 ^ 0) with 1. change (2 ^ 8) with 256.
  Z.to_euclidean_division_equations. lia.
Qed.
Lemma Uint64ToBytes_inj a b :
  0 <= a < 2 ^ 64 -> 0 <= b < 2 ^ 64 -> Uint64ToBytes a = Uint64ToBytes b -> a = b.
Proof.
  intros Ha Hb Heq. pose proof (Uint64ToBytes_value a) as Hva. pose proof (Uint64ToBytes_value b) as Hvb.
  rewrite Heq, Hvb in Hva. unfold u64, wrap_u in Hva. by rewrite !Z.mod_small in Hva.
Qed.

Lemma bytes_of_bytes l : Forall (fun z => 0 <= z < 256) l -> bytes (of_bytes l) = l.
Proof.
  intros Hl. unfold bytes, of_bytes. rewrite String.list_ascii_of_string_of_list_ascii, <- list_fmap_compose.
  induction Hl as [|z l Hz Hl IH]; [done|]. rewrite fmap_cons, IH. f_equal. simpl. unfold byte_val, byte_chr.
  rewrite N_ascii_embedding; rewrite Z.mod_small by lia; lia.
Qed.
Lemma length_of_bytes l : String.length (of_bytes l) = length l.
Proof. unfold of_bytes. induction l as [|z l IH]; [done|]. simpl. by f_equal. Qed.

Lemma GenerateEtag_inj `{XXHash} (b1 b2 : string) : GenerateEtag b1 = GenerateEtag b2 -> xxhash64 b1 = xxhash64 b2.
Proof.
  unfold GenerateEtag, FastHashHex. intros Heq.
  do 2 apply str_app_inj_l in Heq.
  apply str_app_inj_length in Heq as [Heq _];
    [|by rewrite !length_hex_encode, !length_be_bytes].
  apply hex_encode_inj in Heq; [|apply be_bytes_range ..].
  apply be_bytes_inj in Heq; [done | apply xxhash64_range ..].
Qed.

(** ** Properties *)

(** [Except a b] is the subsequence of [a] of the elements not in [b]: it
    keeps [a]'s order and multiplicity, it has exactly the members of [a] that
    are not members of [b], and together with [a ∩ b] (that is
    [Except a (Except a b)]) it splits [a]. The registrar relies on all three
    to partition the SDK ids of a new profile. *)
Theorem Except_partition {A} `{EqDecision A} (a b : list A) :
  Except a b = filter (.∉ b) a /\
  (forall x, x ∈ Except a b <-> x ∈ a /\ x ∉ b) /\
  (forall x, x ∈ Except a (Except a b) <-> x ∈ a /\ x ∈ b) /\
  Except a b ++ Except a (Except a b) ≡ₚ a.
Proof.
  split; [apply Except_filter|]. split; [apply elem_of_Except|]. split.
  - intros x. rewrite !elem_of_Except. destruct (decide (x ∈ b)); tauto.
  - assert (Except a (Except a b) = filter (fun x => ~ (x ∉ b)) a) as ->.
    { rewrite Except_filter. apply list_filter_ext_in. intros x Hx.
      rewrite elem_of_Except. tauto. }
    rewrite Except_filter. clear. induction a as [|x a IH]; [done|].
    rewrite !filter_cons. destruct (decide (x ∉ b)) as [Hx|Hx].
    + rewrite decide_False by tauto. simpl. by rewrite IH.
    + rewrite decide_True by done. by rewrite <- Permutation_middle, IH.
Qed.

(** [DedupStringSlice] removes duplicates: the result has no duplicate, has
    the members of the argument, keeps each element at its first occurrence,
    and leaves a slice without duplicates unchanged. *)
Theorem DedupStringSlice_spec (l : list string) :
  DedupStringSlice l = first_occurrences [] l /\
  NoDup (DedupStringSlice l) /\
  (forall x, x ∈ DedupStringSlice l <-> x ∈ l) /\
  (NoDup l <-> DedupStringSlice l = l).
Proof.
  rewrite DedupStringSlice_eq. split_and!; [done | apply first_occurrences_NoDup | |].
  - intros x. rewrite first_occurrences_elem. set_solver.
  - split; [intros Hl; apply first_occurrences_id; set_solver|].
    intros <-. apply first_occurrences_NoDup.
Qed.

(** [Base64URLDecode] accepts both base64url forms: whatever bytes a client
    encodes, with padding or without, are what the proxy decodes. *)
Theorem Base64URLDecode_roundtrip (s : string) :
  Base64URLDecode (Base64.EncodeToString Base64.URLEncoding s) = Ret s /\
  Base64URLDecode (Base64.EncodeToString Base64.RawURLEncoding s) = Ret s.
Proof.
  unfold Base64URLDecode. split.
  - by rewrite (DecodeString_EncodeToString Base64.URLEncoding).
  - destruct (DecodeString_url_raw s) as [-> | [e ->]]; [done|].
    by rewrite (DecodeString_EncodeToString Base64.RawURLEncoding).
Qed.

(** [Obfuscate str n] with [n >= 0] never panics and shows at most the last
    [n] bytes of [str]: the result is a run of stars followed by a suffix of
    [str] of at most [n] bytes, the hidden part being replaced rune by rune. *)
Theorem Obfuscate_hides (str : string) (n : Z) (Hn : 0 <= n) :
  exists hidden shown : string,
    Obfuscate str n = Ret (Str.Repeat "*" (RuneCountInString hidden) +:+ shown) /\
    str = hidden +:+ shown /\
    len shown = (if len str <? n then 0 else n).
Proof.
  unfold Obfuscate. destruct (len str <? n) eqn:Hl.
  - exists str, EmptyString. split_and!; [f_equal|by rewrite str_app_nil_r|done].
    by rewrite str_app_nil_r.
  - apply Z.ltb_ge in Hl. rewrite (proj2 (Z.ltb_ge n 0)) by lia.
    exists (Str.take (Z.to_nat (len str - n)) str), (Str.drop (Z.to_nat (len str - n)) str).
    split_and!; [done | by rewrite take_drop_string |].
    unfold len in *. rewrite length_drop_string. lia.
Qed.

Lemma Obfuscate_hides_witness :
  0 <= 5 /\ exists hidden shown : string,
    Obfuscate "test-text" 5 = Ret (Str.Repeat "*" (RuneCountInString hidden) +:+ shown) /\
    "test-text" = hidden +:+ shown /\ len shown = (if len "test-text" <? 5 then 0 else 5).
Proof. split; [lia|]. apply (Obfuscate_hides "test-text" 5). lia. Defined.

(** [Uint64ToBytes] is the little-endian encoding of a 64-bit value: eight
    bytes from which the value is read back. *)
Theorem Uint64ToBytes_roundtrip (val : Z) :
  length (Uint64ToBytes val) = 8%nat /\
  Forall (fun b => 0 <= b < 256) (Uint64ToBytes val) /\
  fold_right (fun b acc => b + 256 * acc) 0 (Uint64ToBytes val) = u64 val.
Proof.
  split; [done|]. split; [apply Uint64ToBytes_range|apply Uint64ToBytes_value].
Qed.

(** Two bodies get the same ETag from [GenerateEtag] exactly when their
    64-bit hashes agree, and an ETag is always 20 bytes long: a weak ETag
    around 16 hexadecimal digits. *)
Theorem GenerateEtag_hash `{XXHash} (b1 b2 : string) :
  (GenerateEtag b1 = GenerateEtag b2 <-> xxhash64 b1 = xxhash64 b2) /\
  len (GenerateEtag b1) = 20.
Proof.
  split.
  - split; [apply GenerateEtag_inj|]. intros Hh. unfold GenerateEtag, FastHashHex. by rewrite Hh.
  - unfold GenerateEtag, FastHashHex, len, quote, str1.
    by rewrite !str_app_length, length_hex_encode, length_be_bytes.
Qed.
