(* ===== verification/Model.v ===== *)
(** [model/]: user attributes, evaluation data, and the proxy profile document.

    The JSON text parser ([json_decode]: decode a document into an
    [interface{}]), the float formatter and the seeded [maphash] digest are
    parameters. A [UserAttrs] is an optional finite map, [None] being Go's nil
    map: [MergeUserAttrs] and the streams tell the two apart. *)
From S2P Require Import Prelude Go Utils.
From Stdlib Require Import Ascii.
Open Scope Z_scope.

Class JSON := { json_decode : string -> go value }.
Class FloatText := {
  parse_float : string -> go float64;
  format_float : float64 -> string       (** [strconv.AppendFloat(nil, f, 'f', -1, 64)] *)
}.

(** [model/user_attrs.go:11-11] UserAttrs (a non-nil one) *)
Definition UserAttrs : Type := gmap string value.

(** [model/auto_config.go:13-16] SdkConfigModel *)
Record SdkConfigModel := { m_Key1 : string; m_Key2 : string }.

(** [model/auto_config.go:8-11] OptionsModel *)
Record OptionsModel := { o_PollInterval : Z; o_DataGovernance : string }.

(** [model/auto_config.go:3-6] ProxyConfigModel *)
Record ProxyConfigModel := {
  p_SDKs : gmap string (option SdkConfigModel);   (** pointers, nil for a JSON null *)
  p_Options : OptionsModel
}.

(** An error of a flag evaluation, as far as the proxy looks into it: whether
    [errors.As(err, &configcat.ErrKeyNotFound{})] holds, and its text. *)
Record eval_error := { err_key_not_found : bool; err_text : string }.

(** [model/eval.go:7-13] EvalData *)
Record EvalData := {
  d_Value : value;
  d_VariationId : string;
  d_Error : option eval_error;
  d_User : option (gmap string value);
  d_IsTargeting : bool
}.

(** [model/eval.go:15-18] ResponsePayload *)
Record ResponsePayload := { r_Value : value; r_VariationId : string }.

(** [model/eval.go:20-24] EvalRequest *)
Record EvalRequest := {
  e_SdkKey : string;
  e_Key : string;
  e_User : option (gmap string value)
}.

(** [model/eval.go:26-28] PayloadFromEvalData *)
Definition PayloadFromEvalData (evalData : EvalData) : ResponsePayload :=
  {| r_Value := d_Value evalData; r_VariationId := d_VariationId evalData |}.

(** [model/user_attrs.go:59-61] GetAttribute *)
Definition GetAttribute (attrs : option (gmap string value)) (attr : string) : value :=
  default VNil (default ∅ attrs !! attr).

Section user_attrs.
Context `{MapRange}.

(** [maps.Copy(dst, src)] *)
Definition maps_Copy (dst src : gmap string value) : gmap string value :=
  fold_left (fun m '(k, v) => <[k := v]> m) (range src) dst.

(** [model/user_attrs.go:63-77] MergeUserAttrs *)
Definition MergeUserAttrs (first second : option (gmap string value)) :
    option (gmap string value) :=
  match first, second with
  | None, None => None
  | None, _ => second
  | _, None => first
  | Some first, Some second => Some (maps_Copy (maps_Copy ∅ first) second)
  end.

Definition string_elems (l : list value) : list string :=
  omap (fun v => match v with VString s => Some s | _ => None end) l.

Definition invalid_type_error (k : string) : string :=
  "'" +:+ k +:+ "' has an invalid type, only 'string', 'number', and 'string[]' types are allowed".

(** [model/user_attrs.go:80-94] unmarshalFrom, the body of its loop *)
Definition unmarshal_entry (attrs : gmap string value) (kv : string * value) :
    go (gmap string value) :=
  match kv.2 with
  | VArray val => Ret (<[kv.1 := VStrings (string_elems val)]> attrs)
  | VString _ | VFloat _ | VInt _ => Ret (<[kv.1 := kv.2]> attrs)
  | _ => Fail (invalid_type_error kv.1)
  end.

(** [model/user_attrs.go:79-97] unmarshalFrom *)
Definition unmarshalFrom (attrs data : gmap string value) : go (gmap string value) :=
  go_fold unmarshal_entry attrs (range data).

(** [json.Unmarshal(data, &res)] for [res] of type [map[string]interface{}]:
    null leaves it nil, and a repeated key keeps its last value *)
Definition to_object (v : value) : go (gmap string value) :=
  match v with
  | VNil => Ret ∅
  | VObject l => Ret (fold_left (fun m '(k, v) => <[k := v]> m) l ∅)
  | _ => Fail "json: cannot unmarshal into Go value of type map[string]interface {}"
  end.

(** [model/user_attrs.go:13-20] UnmarshalJSON *)
Definition UnmarshalJSON `{JSON} (data : string) : go (gmap string value) :=
  v <-? json_decode data; res <-? to_object v; unmarshalFrom ∅ res.

(** [model/user_attrs.go:22-29] UnmarshalYAML; [unmarshal] is the callback of
    the YAML package *)
Definition UnmarshalYAML (unmarshal : go (gmap string value)) : go (gmap string value) :=
  res <-? unmarshal; unmarshalFrom ∅ res.

(** [model/user_attrs.go:40-53] Discriminator, the bytes it feeds the hash for
    an attribute value *)
Definition hash_text `{FloatText} (v : value) : string :=
  match v with
  | VString val => val
  | VInt val => Itoa val
  | VFloat val => format_float val
  | VArray val => fold_left (fun acc str => acc +:+ str) (string_elems val) EmptyString
  | _ => EmptyString
  end.

(** [model/user_attrs.go:36-54] Discriminator, the step of its loop; [h] is the
    digest under the stream's seed *)
Definition discriminate `{FloatText} (h : string -> Z) (curr : Z) (kv : string * value) : Z :=
  let hk := h kv.1 in
  Z.lxor curr (u64 (h (hash_text kv.2) + 11400714819323198485
                    + u64 (Z.shiftl hk 12) + Z.shiftr hk 4)).

(** [model/user_attrs.go:31-57] Discriminator *)
Definition Discriminator `{FloatText} (h : string -> Z) (attrs : option (gmap string value)) : Z :=
  fold_left (discriminate h) (range (default ∅ attrs)) 0.
End user_attrs.

(** ** Merging *)
Section Merge.
Context `{MapRange}.
Implicit Types (a b c : gmap string value).

Lemma maps_Copy_union dst src : maps_Copy dst src = src ∪ dst.
Proof.
  unfold maps_Copy.
  assert (Hl : forall l : list (string * value), NoDup l.*1 ->
    forall m : gmap string value,
      fold_left (fun m '(k, v) => <[k := v]> m) l m = list_to_map l ∪ m).
  { induction l as [|[k v] l IH]; intros Hnd m; simpl.
    - by rewrite (left_id_L ∅ (∪)).
    - apply NoDup_cons in Hnd as [Hk Hnd].
      rewrite IH by done. rewrite <- insert_union_l, insert_union_r; [done|].
      by apply not_elem_of_list_to_map_1. }
  rewrite (Hl _ (range_NoDup_fst src)). f_equal.
  rewrite <- (list_to_map_to_list src) at 2.
  apply list_to_map_proper; [apply range_NoDup_fst | apply range_perm].
Qed.

Lemma MergeUserAttrs_Some a b : MergeUserAttrs (Some a) (Some b) = Some (b ∪ a).
Proof.
  unfold MergeUserAttrs. rewrite !maps_Copy_union. by rewrite (right_id_L ∅ (∪)).
Qed.

Lemma MergeUserAttrs_None_l (b : option (gmap string value)) : MergeUserAttrs None b = b.
Proof. by destruct b. Qed.

Lemma MergeUserAttrs_None_r (a : option (gmap string value)) : MergeUserAttrs a None = a.
Proof. by destruct a. Qed.

Lemma merged_lookup (x y : option (gmap string value)) k :
  default ∅ (MergeUserAttrs x y) !! k =
  match default ∅ y !! k with Some v => Some v | None => default ∅ x !! k end.
Proof.
  destruct x as [a|], y as [b|];
    rewrite ?MergeUserAttrs_Some, ?MergeUserAttrs_None_l, ?MergeUserAttrs_None_r; simpl.
  - rewrite lookup_union. by destruct (b !! k), (a !! k).
  - by rewrite lookup_empty.
  - rewrite lookup_empty. by destruct (b !! k).
  - by rewrite lookup_empty.
Qed.
End Merge.

#[global] Arguments MergeUserAttrs : simpl never.

Ltac simplify_merge :=
  repeat first [rewrite MergeUserAttrs_Some | rewrite MergeUserAttrs_None_l
               | rewrite MergeUserAttrs_None_r].

(** ** Converting decoded attributes *)

(** What the proxy accepts for an attribute, and what it stores for it. *)
Definition attr_value (v : value) : option value :=
  match v with
  | VArray l => Some (VStrings (string_elems l))
  | VString _ | VFloat _ | VInt _ => Some v
  | _ => None
  end.

Lemma unmarshal_entry_eq attrs kv :
  unmarshal_entry attrs kv =
  match attr_value kv.2 with
  | Some w => Ret (<[kv.1 := w]> attrs)
  | None => Fail (invalid_type_error kv.1)
  end.
Proof. unfold unmarshal_entry. by destruct (kv.2). Qed.

Lemma unmarshal_fold_ok (l : list (string * value)) (m : gmap string value) :
  NoDup l.*1 -> (forall k v, (k, v) ∈ l -> is_Some (attr_value v)) ->
  exists out, go_fold unmarshal_entry m l = Ret out /\
    forall k, out !! k = match list_to_map (M := gmap string value) l !! k with
                         | Some v => attr_value v
                         | None => m !! k
                         end.
Proof.
  revert m. induction l as [|[k v] l IH]; intros m Hnd Hl; simpl.
  - eexists. split; [done|]. intros k. by rewrite lookup_empty.
  - apply NoDup_cons in Hnd as [Hk Hnd].
    rewrite unmarshal_entry_eq. simpl.
    destruct (Hl k v) as [w Hw]; [set_solver|]. rewrite Hw. simpl.
    destruct (IH (<[k := w]> m) Hnd) as (out & Hout & Hlook); [set_solver|].
    exists out. split; [done|]. intros j. rewrite Hlook.
    rewrite !lookup_insert. case_decide; subst; [|done].
    rewrite (not_elem_of_list_to_map_1 l); [done|exact Hk].
Qed.

Lemma unmarshal_fold_fail (l : list (string * value)) (m : gmap string value) :
  (exists k v, (k, v) ∈ l /\ attr_value v = None) ->
  exists k v, (k, v) ∈ l /\ attr_value v = None /\
    go_fold unmarshal_entry m l = Fail (invalid_type_error k).
Proof.
  revert m. induction l as [|[k v] l IH]; intros m (k' & v' & Hin & Hv); [set_solver|].
  simpl. rewrite unmarshal_entry_eq. simpl. destruct (attr_value v) as [w|] eqn:Hw; simpl.
  - apply elem_of_cons in Hin as [[= -> ->]|Hin]; [congruence|].
    destruct (IH (<[k := w]> m)) as (k2 & v2 & ? & ? & ?); [eauto|].
    exists k2, v2. set_solver.
  - exists k, v. set_solver.
Qed.

Lemma unmarshalFrom_cases `{MapRange} (attrs data : gmap string value) :
  match unmarshalFrom attrs data with
  | Ret out =>
      (forall k v, data !! k = Some v -> is_Some (attr_value v)) /\
      (forall k, out !! k = match data !! k with
                            | Some v => attr_value v
                            | None => attrs !! k
                            end)
  | Fail e => exists k v, data !! k = Some v /\ attr_value v = None /\
                          e = invalid_type_error k
  | Panic => False
  end.
Proof.
  unfold unmarshalFrom.
  assert (Hmap : forall k, list_to_map (M := gmap string value) (range data) !! k = data !! k).
  { intros k. rewrite <- (list_to_map_to_list data) at 2.
    by rewrite (list_to_map_proper (range data) (map_to_list data) (range_NoDup_fst data)
             (range_perm data)). }
  destruct (decide (Exists (fun kv => attr_value kv.2 = None) (range data))) as [Hex|Hall].
  - apply Exists_exists in Hex as ([k v] & Hin & Hv).
    destruct (unmarshal_fold_fail (range data) attrs) as (k' & v' & Hin' & Hv' & ->); [eauto|].
    exists k', v'. by apply elem_of_range in Hin'.
  - assert (Hok : forall k v, (k, v) ∈ range data -> is_Some (attr_value v)).
    { intros k v Hin. apply not_eq_None_Some. intros Hv. apply Hall, Exists_exists. eauto. }
    destruct (unmarshal_fold_ok (range data) attrs (range_NoDup_fst data) Hok) as (out & -> & Hout).
    split.
    + intros k v Hv. apply (Hok k), elem_of_range, Hv.
    + intros k. by rewrite Hout, Hmap.
Qed.

(** ** Hashing *)
Section Hash.
Context `{FloatText}.

Lemma discriminate_comm (h : string -> Z) c x y :
  discriminate h (discriminate h c x) y = discriminate h (discriminate h c y) x.
Proof. unfold discriminate. rewrite !Z.lxor_assoc. f_equal. apply Z.lxor_comm. Qed.

Lemma fold_discriminate_range (h : string -> Z) (l : list (string * value)) (c : Z) :
  0 <= c < 2 ^ 64 -> 0 <= fold_left (discriminate h) l c < 2 ^ 64.
Proof.
  revert c. induction l as [|kv l IH]; intros c Hc; simpl; [done|]. apply IH.
  unfold discriminate. apply (lxor_range 64); [lia|done|]. apply (wrap_u_range 64). lia.
Qed.

(** The loop over the entries of a map, in terms of the texts it hashes. *)
Lemma Discriminator_texts `{MapRange} (h : string -> Z) (m : gmap string value) :
  Discriminator h (Some m) =
  fold_left (fun c (kt : string * string) => discriminate h c (kt.1, VString kt.2))
    (map_to_list (hash_text <$> m)) 0.
Proof.
  unfold Discriminator. simpl.
  rewrite (fold_left_perm _ _ _ 0 (discriminate_comm h) (range_perm m)).
  rewrite map_to_list_fmap.
  generalize (map_to_list m) 0. intros l.
  induction l as [|[k v] l IH]; intros c; [done|]. simpl. apply IH.
Qed.

Lemma Discriminator_range `{MapRange} (h : string -> Z) attrs : 0 <= Discriminator h attrs < 2 ^ 64.
Proof. unfold Discriminator. apply fold_discriminate_range. lia. Qed.

Lemma Discriminator_string_list `{MapRange} (h : string -> Z) (attrs : gmap string value) k l1 l2 :
  Discriminator h (Some (<[k := VStrings l1]> attrs)) = Discriminator h (Some (<[k := VStrings l2]> attrs)).
Proof. rewrite !Discriminator_texts. by rewrite !fmap_insert. Qed.
End Hash.

(** ** Properties *)

(** [MergeUserAttrs] gives the second argument's attributes precedence over
    the first's: an attribute of the result is the second map's when it has
    one, else the first's; nil is neutral on either side, the result is nil
    only when both are, and merging is associative, so default, SDK and request
    attributes can be merged in either grouping. *)
Theorem MergeUserAttrs_precedence `{MapRange} (a b c : option (gmap string value)) :
  (forall k, default ∅ (MergeUserAttrs a b) !! k =
             match default ∅ b !! k with Some v => Some v | None => default ∅ a !! k end) /\
  (MergeUserAttrs a b = None <-> a = None /\ b = None) /\
  MergeUserAttrs (MergeUserAttrs a b) c = MergeUserAttrs a (MergeUserAttrs b c).
Proof.
  split; [|split].
  - intros k. apply merged_lookup.
  - destruct a as [a|], b as [b|]; simplify_merge; naive_solver.
  - destruct a as [a|], b as [b|], c as [c|]; simplify_merge; [|done..].
    by rewrite (assoc_L (∪)).
Qed.

(** C40: [unmarshalFrom] accepts a decoded attribute object exactly when every
    attribute is a string, a number or an array; it then stores strings and
    numbers unchanged and an array as the list of its string elements, and
    keeps no other attribute than those already present. Otherwise it reports
    one of the attributes of another type. This holds for every iteration
    order of the object. *)
Theorem unmarshalFrom_spec `{MapRange} (attrs data : gmap string value) :
  match unmarshalFrom attrs data with
  | Ret out =>
      (forall k v, data !! k = Some v -> is_Some (attr_value v)) /\
      (forall k, out !! k = match data !! k with
                            | Some v => attr_value v
                            | None => attrs !! k
                            end)
  | Fail e => exists k v, data !! k = Some v /\ attr_value v = None /\
                          e = invalid_type_error k
  | Panic => False
  end.
Proof. apply unmarshalFrom_cases. Qed.

(** The discriminator that groups the streaming connections of a user does
    not depend on the order in which the runtime walks the attribute map: two
    walks of the same attributes, in any two orders, give the same 64-bit
    value. *)
Theorem Discriminator_order_independent `{FloatText} (r1 r2 : MapRange)
    (h : string -> Z) (attrs : option (gmap string value)) :
  @Discriminator r1 _ h attrs = @Discriminator r2 _ h attrs /\
  0 <= @Discriminator r1 _ h attrs < 2 ^ 64.
Proof.
  assert (Heq : forall r : MapRange, @Discriminator r _ h attrs =
            @Discriminator r _ h (Some (default ∅ attrs))) by done.
  split.
  - rewrite (Heq r1), (Heq r2), (@Discriminator_texts _ r1), (@Discriminator_texts _ r2). done.
  - apply Discriminator_range.
Qed.

(** Every attribute the proxy decodes from a request that is an array is
    held as a list of strings, and the discriminator does not look into such a
    list: replacing the list by any other changes neither the discriminator of
    the user nor, with it, the channel or the cached response the user is given.
    The branch of [Discriminator] written for arrays is never taken on decoded
    attributes. *)
Theorem Discriminator_ignores_string_lists `{MapRange} `{FloatText}
    (h : string -> Z) (data attrs out : gmap string value) (k : string) (l1 l2 : list string)
    (Hdec : unmarshalFrom ∅ data = Ret out) :
  (forall j v, out !! j = Some (VArray v) -> False) /\
  Discriminator h (Some (<[k := VStrings l1]> attrs)) =
  Discriminator h (Some (<[k := VStrings l2]> attrs)).
Proof.
  split.
  - intros j v Hj. pose proof (unmarshalFrom_cases ∅ data) as Hspec. rewrite Hdec in Hspec.
    destruct Hspec as [_ Hout]. rewrite Hout in Hj.
    destruct (data !! j) as [w|]; [|by rewrite lookup_empty in Hj].
    destruct w; simpl in Hj; congruence.
  - apply Discriminator_string_list.
Qed.

Lemma Discriminator_ignores_string_lists_witness :
  let ft := {| parse_float := fun _ => Fail "";
               format_float := fun f => Itoa (f64_bits f) |} in
  let data := {["roles" := VArray [VString "admin"]]} in
  @unmarshalFrom canonical_range ∅ data = Ret {["roles" := VStrings ["admin"]]} /\
  @Discriminator canonical_range ft len (Some (<["roles" := VStrings ["admin"]]> ∅)) =
  @Discriminator canonical_range ft len (Some (<["roles" := VStrings ["guest"; "x"]]> ∅)).
Proof.
  intros ft data. split; [by vm_compute|].
  apply (@Discriminator_ignores_string_lists canonical_range ft len data ∅
           {["roles" := VStrings ["admin"]]}).
  by vm_compute.
Defined.
