(* ===== verification/Log.v ===== *)
(** [log/logger.go]: levels, prefixes, and what a call writes where. The two
    underlying [log.Logger] objects are the two output streams; a call is
    modelled by the line it hands to one of them, if any. *)
From S2P Require Import Prelude Go.
Open Scope Z_scope.

(** [log/logger.go:30-36] Level, the constants *)
Module Level.
Definition Debug : Z := 0.
Definition Info : Z := 1.
Definition Warn : Z := 2.
Definition Error : Z := 3.
Definition None : Z := 4.
End Level.

(** [log/logger.go:38-43] logger; the two [log.Logger] pointers are present
    except in the null logger *)
Record logger := { l_level : Z; l_outputs : bool; l_prefix : string }.

Inductive output := ErrorLogger | OutLogger.

(** [log/logger.go:45-47] NewNullLogger *)
Definition NewNullLogger : logger :=
  {| l_level := Level.None; l_outputs := false; l_prefix := "" |}.

(** [log/logger.go:49-55] NewDebugLogger *)
Definition NewDebugLogger : logger :=
  {| l_level := Level.Debug; l_outputs := true; l_prefix := "" |}.

(** [log/logger.go:57-63] NewLogger *)
Definition NewLogger (level : Z) : logger :=
  {| l_level := level; l_outputs := true; l_prefix := "" |}.

(** [log/logger.go:65-72] WithLevel *)
Definition WithLevel (l : logger) (level : Z) : logger :=
  {| l_level := level; l_outputs := l_outputs l; l_prefix := l_prefix l |}.

(** [log/logger.go:74-84] WithPrefix *)
Definition WithPrefix (l : logger) (prefix : string) : logger :=
  let prefix := if bool_decide (l_prefix l <> "") then l_prefix l +:+ "/" +:+ prefix else prefix in
  {| l_level := l_level l; l_outputs := l_outputs l; l_prefix := prefix |}.

(** The levels of the ConfigCat SDK's logger. *)
Inductive ConfigCatLevel := LogLevelDebug | LogLevelInfo | LogLevelWarn | LogLevelError | LogLevelNone.

(** [log/logger.go:86-101] GetConfigCatLevel *)
Definition GetConfigCatLevel (l : logger) : ConfigCatLevel :=
  let lv := l_level l in
  if lv =? Level.Debug then LogLevelDebug
  else if lv =? Level.Info then LogLevelInfo
  else if lv =? Level.Warn then LogLevelWarn
  else if lv =? Level.Error then LogLevelError
  else if lv =? Level.None then LogLevelNone
  else LogLevelWarn.

(** [log/logger.go:154-168] prefix *)
Definition level_prefix (level : Z) : string :=
  if level =? Level.Debug then "[debug]"
  else if level =? Level.Info then "[info]"
  else if level =? Level.Warn then "[warning]"
  else if level =? Level.Error then "[error]"
  else if level =? Level.None then ""
  else "-".

(** [log/logger.go:138-152] logf: the stream and the format it prints; [Panic]
    when it would use a nil [log.Logger] *)
Definition logf (l : logger) (level : Z) (format : string) : go (option (output * string)) :=
  if level >=? l_level l then
    let lo := if level =? Level.Error then ErrorLogger else OutLogger in
    let pref := if bool_decide (l_prefix l <> "") then " <" +:+ l_prefix l +:+ ">" else "" in
    if l_outputs l then Ret (Some (lo, level_prefix level +:+ pref +:+ " " +:+ format))
    else Panic
  else Ret None.

(** [log/logger.go:123-136] Reportf *)
Definition Reportf (l : logger) (format : string) : go (option (output * string)) :=
  if l_level l =? Level.None then Ret None
  else
    let pref := if bool_decide (l_prefix l <> "") then "<" +:+ l_prefix l +:+ ">" else "" in
    if l_outputs l then
      if bool_decide (pref = "") then Ret (Some (OutLogger, format))
      else Ret (Some (OutLogger, pref +:+ " " +:+ format))
    else Panic.

(** [log/logger.go:107-121] Debugf, Infof, Warnf, Errorf: [logf] at the four levels
    a message can have *)
Definition is_message_level (level : Z) : Prop :=
  level = Level.Debug \/ level = Level.Info \/ level = Level.Warn \/ level = Level.Error.

(** A message is written exactly when its level is at least the logger's,
    an error to the error stream and anything else to the output stream, and
    the null logger writes nothing and never touches the streams it lacks,
    whatever prefixes it is given. *)
Theorem logf_threshold (l : logger) (level : Z) (format p : string)
    (Hl : is_message_level level) :
  (l_outputs l = true ->
     (is_Some (match logf l level format with Ret o => o | _ => None end) <-> l_level l <= level) /\
     (forall o msg, logf l level format = Ret (Some (o, msg)) ->
        (o = ErrorLogger <-> level = Level.Error))) /\
  logf (WithPrefix NewNullLogger p) level format = Ret None /\
  Reportf (WithPrefix NewNullLogger p) format = Ret None.
Proof.
  assert (level < Level.None /\ level <= Level.Error) as [Hlt Hle].
  { unfold is_message_level, Level.Debug, Level.Info, Level.Warn, Level.Error, Level.None in *. lia. }
  unfold logf. split; [|split; [|done]].
  - intros ->. rewrite Z.geb_leb. destruct (l_level l <=? level) eqn:Hc; bool_prop.
    + split; [split; [done | eauto]|]. intros o msg [= <- _].
      destruct (level =? Level.Error) eqn:He; bool_prop; split; done.
    + split; [split; [by intros [? ?] | lia]|done].
  - simpl. rewrite Z.geb_leb. by rewrite (proj2 (Z.leb_gt _ _)).
Qed.

Lemma logf_threshold_witness :
  is_message_level Level.Error /\
  logf (WithPrefix NewNullLogger "sdk") Level.Error "x" = Ret None.
Proof.
  split; [unfold is_message_level; tauto|].
  apply (logf_threshold NewDebugLogger Level.Error "x" "sdk").
  unfold is_message_level; tauto.
Defined.
