(* ===== verification/ConfigTypes.v ===== *)
(** [config/config.go]: the configuration structures.

    Slices and maps are lists and finite maps: the code tests them by length
    or ranges over them, so a nil one and an empty one are not told apart.
    [DefaultAttrs] is the exception, and an entry of [SDKs] is an optional
    pointer: a YAML document can name an SDK with no body, whose entry is a nil
    pointer. A compiled regular expression is represented by its pattern. *)
From S2P Require Import Prelude Go Utils Model.
Open Scope Z_scope.

(** [0.0] as a [float64] *)
Definition f64_zero : float64 := {| f64_bits := 0 |}.

Record Regexp := { re_pattern : string }.

(** [config/config.go:169-171] LogConfig *)
Record LogConfig := { log_Level : string }.

(** [config/config.go:173-175] HttpProxyConfig *)
Record HttpProxyConfig := { hp_Url : string }.

(** [config/config.go:177-180] AuthConfig *)
Record AuthConfig := { auth_User : string; auth_Password : string }.

(** [config/config.go:225-229] LocalConfig *)
Record LocalConfig := { local_FilePath : string; local_Polling : bool; local_PollInterval : Z }.

(** [config/config.go:182-188] OfflineConfig *)
Record OfflineConfig := {
  off_Enabled : bool;
  off_UseCache : bool;
  off_CachePollInterval : Z;
  off_Log : LogConfig;
  off_Local : LocalConfig
}.

(** [config/config.go:190-194] GlobalOfflineConfig *)
Record GlobalOfflineConfig := { goff_Enabled : bool; goff_CachePollInterval : Z; goff_Log : LogConfig }.

(** [config/config.go:113-116] CertConfig *)
Record CertConfig := { cert_Key : string; cert_Cert : string }.

(** [config/config.go:231-236] TlsConfig *)
Record TlsConfig := {
  tls_Enabled : bool;
  tls_MinVersion : float64;
  tls_ServerName : string;
  tls_Certificates : list CertConfig
}.

(** [config/config.go:202-209] RedisConfig *)
Record RedisConfig := {
  redis_Enabled : bool;
  redis_Addresses : list string;
  redis_DB : Z;
  redis_User : string;
  redis_Password : string;
  redis_Tls : TlsConfig
}.

(** [config/config.go:211-217] MongoDbConfig *)
Record MongoDbConfig := {
  mongo_Enabled : bool;
  mongo_Url : string;
  mongo_Database : string;
  mongo_Collection : string;
  mongo_Tls : TlsConfig
}.

(** [config/config.go:219-223] DynamoDbConfig *)
Record DynamoDbConfig := { dynamo_Enabled : bool; dynamo_Url : string; dynamo_Table : string }.

(** [config/config.go:196-200] CacheConfig *)
Record CacheConfig := {
  cache_Redis : RedisConfig;
  cache_MongoDb : MongoDbConfig;
  cache_DynamoDb : DynamoDbConfig
}.

(** [config/config.go:162-167] OriginRegexConfig *)
Record OriginRegexConfig := { re_IfNoMatch : string; re_Patterns : list string; re_Regexes : list Regexp }.

(** [config/config.go:156-160] CORSConfig *)
Record CORSConfig := {
  cors_Enabled : bool;
  cors_AllowedOrigins : list string;
  cors_AllowedOriginsRegex : OriginRegexConfig
}.

(** [config/config.go:105-111] SseConfig *)
Record SseConfig := {
  sse_Enabled : bool;
  sse_Headers : gmap string string;
  sse_HeartBeatInterval : Z;
  sse_Log : LogConfig;
  sse_CORS : CORSConfig
}.

(** [config/config.go:130-134] WebhookConfig *)
Record WebhookConfig := { wh_AuthHeaders : gmap string string; wh_Enabled : bool; wh_Auth : AuthConfig }.

(** [config/config.go:136-140] CdnProxyConfig *)
Record CdnProxyConfig := { cdn_Headers : gmap string string; cdn_Enabled : bool; cdn_CORS : CORSConfig }.

(** [config/config.go:142-147] ApiConfig *)
Record ApiConfig := {
  api_AuthHeaders : gmap string string;
  api_Headers : gmap string string;
  api_Enabled : bool;
  api_CORS : CORSConfig
}.

(** [config/config.go:149-154] OFREPConfig *)
Record OFREPConfig := {
  ofrep_AuthHeaders : gmap string string;
  ofrep_Headers : gmap string string;
  ofrep_Enabled : bool;
  ofrep_CORS : CORSConfig
}.

(** [config/config.go:267-269] StatusConfig *)
Record StatusConfig := { status_Enabled : bool }.

(** [config/config.go:118-128] HttpConfig *)
Record HttpConfig := {
  http_Enabled : bool;
  http_Port : Z;
  http_CdnProxy : CdnProxyConfig;
  http_OFREP : OFREPConfig;
  http_Webhook : WebhookConfig;
  http_Sse : SseConfig;
  http_Api : ApiConfig;
  http_Status : StatusConfig;
  http_Log : LogConfig
}.

(** [config/config.go:97-103] KeepAliveConfig *)
Record KeepAliveConfig := {
  ka_MaxConnectionIdle : Z;
  ka_MaxConnectionAge : Z;
  ka_MaxConnectionAgeGrace : Z;
  ka_Time : Z;
  ka_Timeout : Z
}.

(** [config/config.go:88-95] GrpcConfig *)
Record GrpcConfig := {
  grpc_Enabled : bool;
  grpc_Port : Z;
  grpc_ServerReflectionEnabled : bool;
  grpc_HealthCheckEnabled : bool;
  grpc_KeepAlive : KeepAliveConfig;
  grpc_Log : LogConfig
}.

(** [config/config.go:83-86] ProfileSDKConfig *)
Record ProfileSDKConfig := { psdk_BaseUrl : string; psdk_Log : LogConfig }.

(** [config/config.go:72-81] ProfileConfig *)
Record ProfileConfig := {
  profile_Key : string;
  profile_Secret : string;
  profile_BaseUrl : string;
  profile_PollInterval : Z;
  profile_WebhookSignatureValidFor : Z;
  profile_WebhookSigningKey : string;
  profile_Log : LogConfig;
  profile_SDKs : ProfileSDKConfig
}.

(** [config/config.go:60-70] SDKConfig *)
Record SDKConfig := {
  sdk_Key : string;
  sdk_BaseUrl : string;
  sdk_PollInterval : Z;
  sdk_DataGovernance : string;
  sdk_WebhookSignatureValidFor : Z;
  sdk_WebhookSigningKey : string;
  sdk_DefaultAttrs : option (gmap string value);
  sdk_Offline : OfflineConfig;
  sdk_Log : LogConfig
}.

(** [config/config.go:257-259] PrometheusExporterConfig *)
Record PrometheusExporterConfig := { prom_Enabled : bool }.

(** [config/config.go:261-265] OtlpExporterConfig *)
Record OtlpExporterConfig := { otlp_Enabled : bool; otlp_Protocol : string; otlp_Endpoint : string }.

(** [config/config.go:246-250] MetricsConfig *)
Record MetricsConfig := {
  metrics_Enabled : bool;
  metrics_Prometheus : PrometheusExporterConfig;
  metrics_Otlp : OtlpExporterConfig
}.

(** [config/config.go:252-255] TraceConfig *)
Record TraceConfig := { trace_Enabled : bool; trace_Otlp : OtlpExporterConfig }.

(** [config/config.go:238-244] DiagConfig *)
Record DiagConfig := {
  diag_Port : Z;
  diag_Enabled : bool;
  diag_Metrics : MetricsConfig;
  diag_Traces : TraceConfig;
  diag_Status : StatusConfig
}.

(** [config/config.go:46-58] Config *)
Record Config := {
  c_Log : LogConfig;
  c_SDKs : gmap string (option SDKConfig);
  c_Grpc : GrpcConfig;
  c_Tls : TlsConfig;
  c_Diag : DiagConfig;
  c_Http : HttpConfig;
  c_Cache : CacheConfig;
  c_HttpProxy : HttpProxyConfig;
  c_GlobalOfflineConfig : GlobalOfflineConfig;
  c_DefaultAttrs : option (gmap string value);
  c_Profile : ProfileConfig
}.

(** Go's zero values: [var config Config]. *)
Definition zero_LogConfig : LogConfig :=
  {| log_Level := "" |}.
Definition zero_HttpProxyConfig : HttpProxyConfig :=
  {| hp_Url := "" |}.
Definition zero_AuthConfig : AuthConfig :=
  {| auth_User := ""; auth_Password := "" |}.
Definition zero_LocalConfig : LocalConfig :=
  {| local_FilePath := ""; local_Polling := false; local_PollInterval := 0 |}.
Definition zero_OfflineConfig : OfflineConfig :=
  {| off_Enabled := false; off_UseCache := false; off_CachePollInterval := 0; off_Log := zero_LogConfig; off_Local := zero_LocalConfig |}.
Definition zero_GlobalOfflineConfig : GlobalOfflineConfig :=
  {| goff_Enabled := false; goff_CachePollInterval := 0; goff_Log := zero_LogConfig |}.
Definition zero_CertConfig : CertConfig :=
  {| cert_Key := ""; cert_Cert := "" |}.
Definition zero_TlsConfig : TlsConfig :=
  {| tls_Enabled := false; tls_MinVersion := f64_zero; tls_ServerName := ""; tls_Certificates := [] |}.
Definition zero_RedisConfig : RedisConfig :=
  {| redis_Enabled := false; redis_Addresses := []; redis_DB := 0; redis_User := ""; redis_Password := ""; redis_Tls := zero_TlsConfig |}.
Definition zero_MongoDbConfig : MongoDbConfig :=
  {| mongo_Enabled := false; mongo_Url := ""; mongo_Database := ""; mongo_Collection := ""; mongo_Tls := zero_TlsConfig |}.
Definition zero_DynamoDbConfig : DynamoDbConfig :=
  {| dynamo_Enabled := false; dynamo_Url := ""; dynamo_Table := "" |}.
Definition zero_CacheConfig : CacheConfig :=
  {| cache_Redis := zero_RedisConfig; cache_MongoDb := zero_MongoDbConfig; cache_DynamoDb := zero_DynamoDbConfig |}.
Definition zero_OriginRegexConfig : OriginRegexConfig :=
  {| re_IfNoMatch := ""; re_Patterns := []; re_Regexes := [] |}.
Definition zero_CORSConfig : CORSConfig :=
  {| cors_Enabled := false; cors_AllowedOrigins := []; cors_AllowedOriginsRegex := zero_OriginRegexConfig |}.
Definition zero_SseConfig : SseConfig :=
  {| sse_Enabled := false; sse_Headers := ∅; sse_HeartBeatInterval := 0; sse_Log := zero_LogConfig; sse_CORS := zero_CORSConfig |}.
Definition zero_WebhookConfig : WebhookConfig :=
  {| wh_AuthHeaders := ∅; wh_Enabled := false; wh_Auth := zero_AuthConfig |}.
Definition zero_CdnProxyConfig : CdnProxyConfig :=
  {| cdn_Headers := ∅; cdn_Enabled := false; cdn_CORS := zero_CORSConfig |}.
Definition zero_ApiConfig : ApiConfig :=
  {| api_AuthHeaders := ∅; api_Headers := ∅; api_Enabled := false; api_CORS := zero_CORSConfig |}.
Definition zero_OFREPConfig : OFREPConfig :=
  {| ofrep_AuthHeaders := ∅; ofrep_Headers := ∅; ofrep_Enabled := false; ofrep_CORS := zero_CORSConfig |}.
Definition zero_StatusConfig : StatusConfig :=
  {| status_Enabled := false |}.
Definition zero_HttpConfig : HttpConfig :=
  {| http_Enabled := false; http_Port := 0; http_CdnProxy := zero_CdnProxyConfig; http_OFREP := zero_OFREPConfig; http_Webhook := zero_WebhookConfig; http_Sse := zero_SseConfig; http_Api := zero_ApiConfig; http_Status := zero_StatusConfig; http_Log := zero_LogConfig |}.
Definition zero_KeepAliveConfig : KeepAliveConfig :=
  {| ka_MaxConnectionIdle := 0; ka_MaxConnectionAge := 0; ka_MaxConnectionAgeGrace := 0; ka_Time := 0; ka_Timeout := 0 |}.
Definition zero_GrpcConfig : GrpcConfig :=
  {| grpc_Enabled := false; grpc_Port := 0; grpc_ServerReflectionEnabled := false; grpc_HealthCheckEnabled := false; grpc_KeepAlive := zero_KeepAliveConfig; grpc_Log := zero_LogConfig |}.
Definition zero_ProfileSDKConfig : ProfileSDKConfig :=
  {| psdk_BaseUrl := ""; psdk_Log := zero_LogConfig |}.
Definition zero_ProfileConfig : ProfileConfig :=
  {| profile_Key := ""; profile_Secret := ""; profile_BaseUrl := ""; profile_PollInterval := 0; profile_WebhookSignatureValidFor := 0; profile_WebhookSigningKey := ""; profile_Log := zero_LogConfig; profile_SDKs := zero_ProfileSDKConfig |}.
Definition zero_SDKConfig : SDKConfig :=
  {| sdk_Key := ""; sdk_BaseUrl := ""; sdk_PollInterval := 0; sdk_DataGovernance := ""; sdk_WebhookSignatureValidFor := 0; sdk_WebhookSigningKey := ""; sdk_DefaultAttrs := None; sdk_Offline := zero_OfflineConfig; sdk_Log := zero_LogConfig |}.
Definition zero_PrometheusExporterConfig : PrometheusExporterConfig :=
  {| prom_Enabled := false |}.
Definition zero_OtlpExporterConfig : OtlpExporterConfig :=
  {| otlp_Enabled := false; otlp_Protocol := ""; otlp_Endpoint := "" |}.
Definition zero_MetricsConfig : MetricsConfig :=
  {| metrics_Enabled := false; metrics_Prometheus := zero_PrometheusExporterConfig; metrics_Otlp := zero_OtlpExporterConfig |}.
Definition zero_TraceConfig : TraceConfig :=
  {| trace_Enabled := false; trace_Otlp := zero_OtlpExporterConfig |}.
Definition zero_DiagConfig : DiagConfig :=
  {| diag_Port := 0; diag_Enabled := false; diag_Metrics := zero_MetricsConfig; diag_Traces := zero_TraceConfig; diag_Status := zero_StatusConfig |}.
Definition zero_Config : Config :=
  {| c_Log := zero_LogConfig; c_SDKs := ∅; c_Grpc := zero_GrpcConfig; c_Tls := zero_TlsConfig; c_Diag := zero_DiagConfig; c_Http := zero_HttpConfig; c_Cache := zero_CacheConfig; c_HttpProxy := zero_HttpProxyConfig; c_GlobalOfflineConfig := zero_GlobalOfflineConfig; c_DefaultAttrs := None; c_Profile := zero_ProfileConfig |}.

(** Functional update: [on_f g r] is [r.f = g(r.f)]. *)
Definition on_log_Level (g : string -> string) (r : LogConfig) : LogConfig :=
  {| log_Level := g (log_Level r) |}.
Definition on_goff_CachePollInterval (g : Z -> Z) (r : GlobalOfflineConfig) : GlobalOfflineConfig :=
  {| goff_Enabled := goff_Enabled r; goff_CachePollInterval := g (goff_CachePollInterval r); goff_Log := goff_Log r |}.
Definition on_goff_Log (g : LogConfig -> LogConfig) (r : GlobalOfflineConfig) : GlobalOfflineConfig :=
  {| goff_Enabled := goff_Enabled r; goff_CachePollInterval := goff_CachePollInterval r; goff_Log := g (goff_Log r) |}.
Definition on_tls_MinVersion (g : float64 -> float64) (r : TlsConfig) : TlsConfig :=
  {| tls_Enabled := tls_Enabled r; tls_MinVersion := g (tls_MinVersion r); tls_ServerName := tls_ServerName r; tls_Certificates := tls_Certificates r |}.
Definition on_redis_Tls (g : TlsConfig -> TlsConfig) (r : RedisConfig) : RedisConfig :=
  {| redis_Enabled := redis_Enabled r; redis_Addresses := redis_Addresses r; redis_DB := redis_DB r; redis_User := redis_User r; redis_Password := redis_Password r; redis_Tls := g (redis_Tls r) |}.
Definition on_mongo_Tls (g : TlsConfig -> TlsConfig) (r : MongoDbConfig) : MongoDbConfig :=
  {| mongo_Enabled := mongo_Enabled r; mongo_Url := mongo_Url r; mongo_Database := mongo_Database r; mongo_Collection := mongo_Collection r; mongo_Tls := g (mongo_Tls r) |}.
Definition on_cache_Redis (g : RedisConfig -> RedisConfig) (r : CacheConfig) : CacheConfig :=
  {| cache_Redis := g (cache_Redis r); cache_MongoDb := cache_MongoDb r; cache_DynamoDb := cache_DynamoDb r |}.
Definition on_cache_MongoDb (g : MongoDbConfig -> MongoDbConfig) (r : CacheConfig) : CacheConfig :=
  {| cache_Redis := cache_Redis r; cache_MongoDb := g (cache_MongoDb r); cache_DynamoDb := cache_DynamoDb r |}.
Definition on_cache_DynamoDb (g : DynamoDbConfig -> DynamoDbConfig) (r : CacheConfig) : CacheConfig :=
  {| cache_Redis := cache_Redis r; cache_MongoDb := cache_MongoDb r; cache_DynamoDb := g (cache_DynamoDb r) |}.
Definition on_re_Regexes (g : list Regexp -> list Regexp) (r : OriginRegexConfig) : OriginRegexConfig :=
  {| re_IfNoMatch := re_IfNoMatch r; re_Patterns := re_Patterns r; re_Regexes := g (re_Regexes r) |}.
Definition on_cors_AllowedOriginsRegex (g : OriginRegexConfig -> OriginRegexConfig) (r : CORSConfig) : CORSConfig :=
  {| cors_Enabled := cors_Enabled r; cors_AllowedOrigins := cors_AllowedOrigins r; cors_AllowedOriginsRegex := g (cors_AllowedOriginsRegex r) |}.
Definition on_sse_CORS (g : CORSConfig -> CORSConfig) (r : SseConfig) : SseConfig :=
  {| sse_Enabled := sse_Enabled r; sse_Headers := sse_Headers r; sse_HeartBeatInterval := sse_HeartBeatInterval r; sse_Log := sse_Log r; sse_CORS := g (sse_CORS r) |}.
Definition on_sse_Log (g : LogConfig -> LogConfig) (r : SseConfig) : SseConfig :=
  {| sse_Enabled := sse_Enabled r; sse_Headers := sse_Headers r; sse_HeartBeatInterval := sse_HeartBeatInterval r; sse_Log := g (sse_Log r); sse_CORS := sse_CORS r |}.
Definition on_cdn_CORS (g : CORSConfig -> CORSConfig) (r : CdnProxyConfig) : CdnProxyConfig :=
  {| cdn_Headers := cdn_Headers r; cdn_Enabled := cdn_Enabled r; cdn_CORS := g (cdn_CORS r) |}.
Definition on_api_CORS (g : CORSConfig -> CORSConfig) (r : ApiConfig) : ApiConfig :=
  {| api_AuthHeaders := api_AuthHeaders r; api_Headers := api_Headers r; api_Enabled := api_Enabled r; api_CORS := g (api_CORS r) |}.
Definition on_http_CdnProxy (g : CdnProxyConfig -> CdnProxyConfig) (r : HttpConfig) : HttpConfig :=
  {| http_Enabled := http_Enabled r; http_Port := http_Port r; http_CdnProxy := g (http_CdnProxy r); http_OFREP := http_OFREP r; http_Webhook := http_Webhook r; http_Sse := http_Sse r; http_Api := http_Api r; http_Status := http_Status r; http_Log := http_Log r |}.
Definition on_http_Sse (g : SseConfig -> SseConfig) (r : HttpConfig) : HttpConfig :=
  {| http_Enabled := http_Enabled r; http_Port := http_Port r; http_CdnProxy := http_CdnProxy r; http_OFREP := http_OFREP r; http_Webhook := http_Webhook r; http_Sse := g (http_Sse r); http_Api := http_Api r; http_Status := http_Status r; http_Log := http_Log r |}.
Definition on_http_Api (g : ApiConfig -> ApiConfig) (r : HttpConfig) : HttpConfig :=
  {| http_Enabled := http_Enabled r; http_Port := http_Port r; http_CdnProxy := http_CdnProxy r; http_OFREP := http_OFREP r; http_Webhook := http_Webhook r; http_Sse := http_Sse r; http_Api := g (http_Api r); http_Status := http_Status r; http_Log := http_Log r |}.
Definition on_http_Log (g : LogConfig -> LogConfig) (r : HttpConfig) : HttpConfig :=
  {| http_Enabled := http_Enabled r; http_Port := http_Port r; http_CdnProxy := http_CdnProxy r; http_OFREP := http_OFREP r; http_Webhook := http_Webhook r; http_Sse := http_Sse r; http_Api := http_Api r; http_Status := http_Status r; http_Log := g (http_Log r) |}.
Definition on_grpc_Log (g : LogConfig -> LogConfig) (r : GrpcConfig) : GrpcConfig :=
  {| grpc_Enabled := grpc_Enabled r; grpc_Port := grpc_Port r; grpc_ServerReflectionEnabled := grpc_ServerReflectionEnabled r; grpc_HealthCheckEnabled := grpc_HealthCheckEnabled r; grpc_KeepAlive := grpc_KeepAlive r; grpc_Log := g (grpc_Log r) |}.
Definition on_psdk_Log (g : LogConfig -> LogConfig) (r : ProfileSDKConfig) : ProfileSDKConfig :=
  {| psdk_BaseUrl := psdk_BaseUrl r; psdk_Log := g (psdk_Log r) |}.
Definition on_profile_PollInterval (g : Z -> Z) (r : ProfileConfig) : ProfileConfig :=
  {| profile_Key := profile_Key r; profile_Secret := profile_Secret r; profile_BaseUrl := profile_BaseUrl r; profile_PollInterval := g (profile_PollInterval r); profile_WebhookSignatureValidFor := profile_WebhookSignatureValidFor r; profile_WebhookSigningKey := profile_WebhookSigningKey r; profile_Log := profile_Log r; profile_SDKs := profile_SDKs r |}.
Definition on_profile_WebhookSignatureValidFor (g : Z -> Z) (r : ProfileConfig) : ProfileConfig :=
  {| profile_Key := profile_Key r; profile_Secret := profile_Secret r; profile_BaseUrl := profile_BaseUrl r; profile_PollInterval := profile_PollInterval r; profile_WebhookSignatureValidFor := g (profile_WebhookSignatureValidFor r); profile_WebhookSigningKey := profile_WebhookSigningKey r; profile_Log := profile_Log r; profile_SDKs := profile_SDKs r |}.
Definition on_profile_Log (g : LogConfig -> LogConfig) (r : ProfileConfig) : ProfileConfig :=
  {| profile_Key := profile_Key r; profile_Secret := profile_Secret r; profile_BaseUrl := profile_BaseUrl r; profile_PollInterval := profile_PollInterval r; profile_WebhookSignatureValidFor := profile_WebhookSignatureValidFor r; profile_WebhookSigningKey := profile_WebhookSigningKey r; profile_Log := g (profile_Log r); profile_SDKs := profile_SDKs r |}.
Definition on_profile_SDKs (g : ProfileSDKConfig -> ProfileSDKConfig) (r : ProfileConfig) : ProfileConfig :=
  {| profile_Key := profile_Key r; profile_Secret := profile_Secret r; profile_BaseUrl := profile_BaseUrl r; profile_PollInterval := profile_PollInterval r; profile_WebhookSignatureValidFor := profile_WebhookSignatureValidFor r; profile_WebhookSigningKey := profile_WebhookSigningKey r; profile_Log := profile_Log r; profile_SDKs := g (profile_SDKs r) |}.
Definition on_sdk_PollInterval (g : Z -> Z) (r : SDKConfig) : SDKConfig :=
  {| sdk_Key := sdk_Key r; sdk_BaseUrl := sdk_BaseUrl r; sdk_PollInterval := g (sdk_PollInterval r); sdk_DataGovernance := sdk_DataGovernance r; sdk_WebhookSignatureValidFor := sdk_WebhookSignatureValidFor r; sdk_WebhookSigningKey := sdk_WebhookSigningKey r; sdk_DefaultAttrs := sdk_DefaultAttrs r; sdk_Offline := sdk_Offline r; sdk_Log := sdk_Log r |}.
Definition on_sdk_WebhookSignatureValidFor (g : Z -> Z) (r : SDKConfig) : SDKConfig :=
  {| sdk_Key := sdk_Key r; sdk_BaseUrl := sdk_BaseUrl r; sdk_PollInterval := sdk_PollInterval r; sdk_DataGovernance := sdk_DataGovernance r; sdk_WebhookSignatureValidFor := g (sdk_WebhookSignatureValidFor r); sdk_WebhookSigningKey := sdk_WebhookSigningKey r; sdk_DefaultAttrs := sdk_DefaultAttrs r; sdk_Offline := sdk_Offline r; sdk_Log := sdk_Log r |}.
Definition on_sdk_Offline (g : OfflineConfig -> OfflineConfig) (r : SDKConfig) : SDKConfig :=
  {| sdk_Key := sdk_Key r; sdk_BaseUrl := sdk_BaseUrl r; sdk_PollInterval := sdk_PollInterval r; sdk_DataGovernance := sdk_DataGovernance r; sdk_WebhookSignatureValidFor := sdk_WebhookSignatureValidFor r; sdk_WebhookSigningKey := sdk_WebhookSigningKey r; sdk_DefaultAttrs := sdk_DefaultAttrs r; sdk_Offline := g (sdk_Offline r); sdk_Log := sdk_Log r |}.
Definition on_sdk_Log (g : LogConfig -> LogConfig) (r : SDKConfig) : SDKConfig :=
  {| sdk_Key := sdk_Key r; sdk_BaseUrl := sdk_BaseUrl r; sdk_PollInterval := sdk_PollInterval r; sdk_DataGovernance := sdk_DataGovernance r; sdk_WebhookSignatureValidFor := sdk_WebhookSignatureValidFor r; sdk_WebhookSigningKey := sdk_WebhookSigningKey r; sdk_DefaultAttrs := sdk_DefaultAttrs r; sdk_Offline := sdk_Offline r; sdk_Log := g (sdk_Log r) |}.
Definition on_sdk_DefaultAttrs (g : option (gmap string value) -> option (gmap string value)) (r : SDKConfig) : SDKConfig :=
  {| sdk_Key := sdk_Key r; sdk_BaseUrl := sdk_BaseUrl r; sdk_PollInterval := sdk_PollInterval r; sdk_DataGovernance := sdk_DataGovernance r; sdk_WebhookSignatureValidFor := sdk_WebhookSignatureValidFor r; sdk_WebhookSigningKey := sdk_WebhookSigningKey r; sdk_DefaultAttrs := g (sdk_DefaultAttrs r); sdk_Offline := sdk_Offline r; sdk_Log := sdk_Log r |}.
Definition on_local_PollInterval (g : Z -> Z) (r : LocalConfig) : LocalConfig :=
  {| local_FilePath := local_FilePath r; local_Polling := local_Polling r; local_PollInterval := g (local_PollInterval r) |}.
Definition on_off_Local (g : LocalConfig -> LocalConfig) (r : OfflineConfig) : OfflineConfig :=
  {| off_Enabled := off_Enabled r; off_UseCache := off_UseCache r; off_CachePollInterval := off_CachePollInterval r; off_Log := off_Log r; off_Local := g (off_Local r) |}.
Definition on_off_CachePollInterval (g : Z -> Z) (r : OfflineConfig) : OfflineConfig :=
  {| off_Enabled := off_Enabled r; off_UseCache := off_UseCache r; off_CachePollInterval := g (off_CachePollInterval r); off_Log := off_Log r; off_Local := off_Local r |}.
Definition on_off_Log (g : LogConfig -> LogConfig) (r : OfflineConfig) : OfflineConfig :=
  {| off_Enabled := off_Enabled r; off_UseCache := off_UseCache r; off_CachePollInterval := off_CachePollInterval r; off_Log := g (off_Log r); off_Local := off_Local r |}.
Definition on_c_Log (g : LogConfig -> LogConfig) (r : Config) : Config :=
  {| c_Log := g (c_Log r); c_SDKs := c_SDKs r; c_Grpc := c_Grpc r; c_Tls := c_Tls r; c_Diag := c_Diag r; c_Http := c_Http r; c_Cache := c_Cache r; c_HttpProxy := c_HttpProxy r; c_GlobalOfflineConfig := c_GlobalOfflineConfig r; c_DefaultAttrs := c_DefaultAttrs r; c_Profile := c_Profile r |}.
Definition on_c_SDKs (g : gmap string (option SDKConfig) -> gmap string (option SDKConfig)) (r : Config) : Config :=
  {| c_Log := c_Log r; c_SDKs := g (c_SDKs r); c_Grpc := c_Grpc r; c_Tls := c_Tls r; c_Diag := c_Diag r; c_Http := c_Http r; c_Cache := c_Cache r; c_HttpProxy := c_HttpProxy r; c_GlobalOfflineConfig := c_GlobalOfflineConfig r; c_DefaultAttrs := c_DefaultAttrs r; c_Profile := c_Profile r |}.
Definition on_c_Tls (g : TlsConfig -> TlsConfig) (r : Config) : Config :=
  {| c_Log := c_Log r; c_SDKs := c_SDKs r; c_Grpc := c_Grpc r; c_Tls := g (c_Tls r); c_Diag := c_Diag r; c_Http := c_Http r; c_Cache := c_Cache r; c_HttpProxy := c_HttpProxy r; c_GlobalOfflineConfig := c_GlobalOfflineConfig r; c_DefaultAttrs := c_DefaultAttrs r; c_Profile := c_Profile r |}.
Definition on_c_Http (g : HttpConfig -> HttpConfig) (r : Config) : Config :=
  {| c_Log := c_Log r; c_SDKs := c_SDKs r; c_Grpc := c_Grpc r; c_Tls := c_Tls r; c_Diag := c_Diag r; c_Http := g (c_Http r); c_Cache := c_Cache r; c_HttpProxy := c_HttpProxy r; c_GlobalOfflineConfig := c_GlobalOfflineConfig r; c_DefaultAttrs := c_DefaultAttrs r; c_Profile := c_Profile r |}.
Definition on_c_Cache (g : CacheConfig -> CacheConfig) (r : Config) : Config :=
  {| c_Log := c_Log r; c_SDKs := c_SDKs r; c_Grpc := c_Grpc r; c_Tls := c_Tls r; c_Diag := c_Diag r; c_Http := c_Http r; c_Cache := g (c_Cache r); c_HttpProxy := c_HttpProxy r; c_GlobalOfflineConfig := c_GlobalOfflineConfig r; c_DefaultAttrs := c_DefaultAttrs r; c_Profile := c_Profile r |}.
Definition on_c_GlobalOfflineConfig (g : GlobalOfflineConfig -> GlobalOfflineConfig) (r : Config) : Config :=
  {| c_Log := c_Log r; c_SDKs := c_SDKs r; c_Grpc := c_Grpc r; c_Tls := c_Tls r; c_Diag := c_Diag r; c_Http := c_Http r; c_Cache := c_Cache r; c_HttpProxy := c_HttpProxy r; c_GlobalOfflineConfig := g (c_GlobalOfflineConfig r); c_DefaultAttrs := c_DefaultAttrs r; c_Profile := c_Profile r |}.
Definition on_c_Profile (g : ProfileConfig -> ProfileConfig) (r : Config) : Config :=
  {| c_Log := c_Log r; c_SDKs := c_SDKs r; c_Grpc := c_Grpc r; c_Tls := c_Tls r; c_Diag := c_Diag r; c_Http := c_Http r; c_Cache := c_Cache r; c_HttpProxy := c_HttpProxy r; c_GlobalOfflineConfig := c_GlobalOfflineConfig r; c_DefaultAttrs := c_DefaultAttrs r; c_Profile := g (c_Profile r) |}.
Definition on_c_Grpc (g : GrpcConfig -> GrpcConfig) (r : Config) : Config :=
  {| c_Log := c_Log r; c_SDKs := c_SDKs r; c_Grpc := g (c_Grpc r); c_Tls := c_Tls r; c_Diag := c_Diag r; c_Http := c_Http r; c_Cache := c_Cache r; c_HttpProxy := c_HttpProxy r; c_GlobalOfflineConfig := c_GlobalOfflineConfig r; c_DefaultAttrs := c_DefaultAttrs r; c_Profile := c_Profile r |}.
