(* ===== verification/Config.v ===== *)
(** [config/config.go]: defaults, the fix-ups applied after loading, and the
    predicates other packages ask of a configuration. [regexp.Compile] is the
    parameter [regexp_compile]; [tls.LoadX509KeyPair] is [load_key_pair]. *)
From S2P Require Import Prelude Go Utils Model Log ConfigTypes.
Open Scope Z_scope.

Class RegexpEngine := {
  regexp_compile : string -> go unit;           (** [Ret tt]: the pattern is valid *)
  regexp_match : Regexp -> string -> bool
}.

(** [config/config.go:20-30] the constants *)
Definition defaultConfigName : string := "options.yml".
Definition defaultVendorName : string := "configcat".
Definition defaultProductName : string := "proxy".
Definition DefaultWebhookSignatureValidFor : Z := 300.
Definition DefaultSdkPollInterval : Z := 60.
Definition DefaultCachePollInterval : Z := 5.
Definition DefaultAutoSdkPollInterval : Z := 300.

(** [config/config.go:32-37] allowedLogLevels *)
Definition allowedLogLevels : gmap string Z :=
  list_to_map [("debug", Level.Debug); ("info", Level.Info);
               ("warn", Level.Warn); ("error", Level.Error)].

(** The [float64] values nearest to 1.0, 1.1, 1.2 and 1.3. *)
Definition f64_1_0 : float64 := {| f64_bits := 4607182418800017408 |}.
Definition f64_1_1 : float64 := {| f64_bits := 4607632778762754458 |}.
Definition f64_1_2 : float64 := {| f64_bits := 4608083138725491507 |}.
Definition f64_1_3 : float64 := {| f64_bits := 4608533498688228557 |}.

(** [config/config.go:39-44] allowedTlsVersions; the values are the TLS
    version numbers of [crypto/tls] *)
Definition allowedTlsVersions : list (float64 * Z) :=
  [(f64_1_0, 769); (f64_1_1, 770); (f64_1_2, 771); (f64_1_3, 772)].

Definition tls_version (v : float64) : option Z :=
  (fun p => p.2.2) <$> list_find (fun p : float64 * Z => f64_eqb p.1 v = true) allowedTlsVersions.

(** [config/config.go:322-327] GetLevel *)
Definition GetLevel (l : LogConfig) : Z :=
  match allowedLogLevels !! log_Level l with
  | Some lvl => lvl
  | None => Level.None
  end.

(** [config/config.go:329-331] GetVersion *)
Definition GetVersion (t : TlsConfig) : Z := default 0 (tls_version (tls_MinVersion t)).

(** [config/config.go:520-522] IsSet of a cache configuration *)
Definition cache_IsSet (c : CacheConfig) : bool :=
  redis_Enabled (cache_Redis c) || mongo_Enabled (cache_MongoDb c)
  || dynamo_Enabled (cache_DynamoDb c).

(** [config/config.go:524-526] IsSet of a profile *)
Definition profile_IsSet (a : ProfileConfig) : bool := bool_decide (profile_Key a <> "").

(** [config/config.go:528-530] IsMetricsEnabled *)
Definition IsMetricsEnabled (d : DiagConfig) : bool :=
  diag_Enabled d && metrics_Enabled (diag_Metrics d).

(** [config/config.go:532-534] IsTracesEnabled *)
Definition IsTracesEnabled (d : DiagConfig) : bool :=
  diag_Enabled d && trace_Enabled (diag_Traces d).

(** [config/config.go:536-538] IsStatusEnabled *)
Definition IsStatusEnabled (d : DiagConfig) : bool :=
  diag_Enabled d && status_Enabled (diag_Status d).

(** [config/config.go:540-542] IsPrometheusExporterEnabled *)
Definition IsPrometheusExporterEnabled (d : DiagConfig) : bool :=
  IsMetricsEnabled d && prom_Enabled (metrics_Prometheus (diag_Metrics d)).

(** [config/config.go:544-546] ShouldRunDiagServer *)
Definition ShouldRunDiagServer (d : DiagConfig) : bool :=
  diag_Enabled d && (IsPrometheusExporterEnabled d || status_Enabled (diag_Status d)).

(** [config/config.go:333-375] setDefaults *)
Definition setDefaults (c : Config) : Config :=
  let http := c_Http c in
  let on_cors (cors : CORSConfig) :=
    {| cors_Enabled := true; cors_AllowedOrigins := cors_AllowedOrigins cors;
       cors_AllowedOriginsRegex := cors_AllowedOriginsRegex cors |} in
  {| c_Log := c_Log c;
     c_SDKs := c_SDKs c;
     c_Grpc := {| grpc_Enabled := true; grpc_Port := 50051;
                  grpc_ServerReflectionEnabled := false; grpc_HealthCheckEnabled := true;
                  grpc_KeepAlive := grpc_KeepAlive (c_Grpc c);
                  grpc_Log := grpc_Log (c_Grpc c) |};
     c_Tls := c_Tls c;
     c_Diag :=
       {| diag_Port := 8051; diag_Enabled := true;
          diag_Metrics :=
            {| metrics_Enabled := true;
               metrics_Prometheus := {| prom_Enabled := true |};
               metrics_Otlp :=
                 {| otlp_Enabled := otlp_Enabled (metrics_Otlp (diag_Metrics (c_Diag c)));
                    otlp_Protocol := "http";
                    otlp_Endpoint := otlp_Endpoint (metrics_Otlp (diag_Metrics (c_Diag c))) |} |};
          diag_Traces :=
            {| trace_Enabled := trace_Enabled (diag_Traces (c_Diag c));
               trace_Otlp :=
                 {| otlp_Enabled := otlp_Enabled (trace_Otlp (diag_Traces (c_Diag c)));
                    otlp_Protocol := "http";
                    otlp_Endpoint := otlp_Endpoint (trace_Otlp (diag_Traces (c_Diag c))) |} |};
          diag_Status := {| status_Enabled := true |} |};
     c_Http :=
       {| http_Enabled := true; http_Port := 8050;
          http_CdnProxy := {| cdn_Headers := cdn_Headers (http_CdnProxy http); cdn_Enabled := true;
                              cdn_CORS := on_cors (cdn_CORS (http_CdnProxy http)) |};
          http_OFREP := {| ofrep_AuthHeaders := ofrep_AuthHeaders (http_OFREP http);
                           ofrep_Headers := ofrep_Headers (http_OFREP http); ofrep_Enabled := true;
                           ofrep_CORS := on_cors (ofrep_CORS (http_OFREP http)) |};
          http_Webhook := {| wh_AuthHeaders := wh_AuthHeaders (http_Webhook http);
                             wh_Enabled := true; wh_Auth := wh_Auth (http_Webhook http) |};
          http_Sse := {| sse_Enabled := true; sse_Headers := sse_Headers (http_Sse http);
                         sse_HeartBeatInterval := sse_HeartBeatInterval (http_Sse http);
                         sse_Log := sse_Log (http_Sse http);
                         sse_CORS := on_cors (sse_CORS (http_Sse http)) |};
          http_Api := {| api_AuthHeaders := api_AuthHeaders (http_Api http);
                         api_Headers := api_Headers (http_Api http); api_Enabled := true;
                         api_CORS := on_cors (api_CORS (http_Api http)) |};
          http_Status := {| status_Enabled := false |};
          http_Log := http_Log http |};
     c_Cache :=
       {| cache_Redis := {| redis_Enabled := redis_Enabled (cache_Redis (c_Cache c));
                            redis_Addresses := ["localhost:6379"]; redis_DB := 0;
                            redis_User := redis_User (cache_Redis (c_Cache c));
                            redis_Password := redis_Password (cache_Redis (c_Cache c));
                            redis_Tls := redis_Tls (cache_Redis (c_Cache c)) |};
          cache_MongoDb := {| mongo_Enabled := mongo_Enabled (cache_MongoDb (c_Cache c));
                              mongo_Url := mongo_Url (cache_MongoDb (c_Cache c));
                              mongo_Database := "configcat_proxy"; mongo_Collection := "cache";
                              mongo_Tls := mongo_Tls (cache_MongoDb (c_Cache c)) |};
          cache_DynamoDb := {| dynamo_Enabled := dynamo_Enabled (cache_DynamoDb (c_Cache c));
                               dynamo_Url := dynamo_Url (cache_DynamoDb (c_Cache c));
                               dynamo_Table := "configcat_proxy_cache" |} |};
     c_HttpProxy := c_HttpProxy c;
     c_GlobalOfflineConfig := c_GlobalOfflineConfig c;
     c_DefaultAttrs := c_DefaultAttrs c;
     c_Profile := {| profile_Key := profile_Key (c_Profile c);
                     profile_Secret := profile_Secret (c_Profile c);
                     profile_BaseUrl := "https://api.configcat.com";
                     profile_PollInterval := profile_PollInterval (c_Profile c);
                     profile_WebhookSignatureValidFor := profile_WebhookSignatureValidFor (c_Profile c);
                     profile_WebhookSigningKey := profile_WebhookSigningKey (c_Profile c);
                     profile_Log := profile_Log (c_Profile c);
                     profile_SDKs := profile_SDKs (c_Profile c) |} |}.

(** [if x == 0 { x = d }] *)
Definition if_zero (d x : Z) : Z := if x =? 0 then d else x.

(** [for _, sdk := range c.SDKs { if sdk == nil { continue }; ... }] *)
Definition each_sdk (f : SDKConfig -> SDKConfig) (c : Config) : Config :=
  on_c_SDKs (fmap (option_map f)) c.

(** [config/config.go:382-393] fixupDefaults, one SDK *)
Definition fixup_sdk_defaults (sdk : SDKConfig) : SDKConfig :=
  on_sdk_Offline (on_off_CachePollInterval (if_zero DefaultCachePollInterval))
  (on_sdk_Offline (on_off_Local (on_local_PollInterval (if_zero DefaultCachePollInterval)))
  (on_sdk_PollInterval (if_zero DefaultSdkPollInterval)
  (on_sdk_WebhookSignatureValidFor (if_zero DefaultWebhookSignatureValidFor) sdk))).

(** [config/config.go:377-404] fixupDefaults *)
Definition fixupDefaults (c : Config) : Config :=
  on_c_Profile (on_profile_WebhookSignatureValidFor (if_zero DefaultWebhookSignatureValidFor))
  (on_c_Profile (on_profile_PollInterval (if_zero DefaultAutoSdkPollInterval))
  (on_c_GlobalOfflineConfig (on_goff_CachePollInterval (if_zero DefaultCachePollInterval))
  (each_sdk fixup_sdk_defaults c))).

(** [config/config.go:414-419] fixupOffline, one SDK; the rest of
    [sdk.Offline] is kept *)
Definition fixup_sdk_offline (g : GlobalOfflineConfig) (sdk : SDKConfig) : SDKConfig :=
  if negb (off_Enabled (sdk_Offline sdk)) then
    on_sdk_Offline (fun o =>
      {| off_Enabled := true; off_UseCache := true;
         off_CachePollInterval := goff_CachePollInterval g;
         off_Log := goff_Log g; off_Local := off_Local o |}) sdk
  else sdk.

(** [config/config.go:406-421] fixupOffline *)
Definition fixupOffline (c : Config) : Config :=
  if negb (goff_Enabled (c_GlobalOfflineConfig c)) then c
  else each_sdk (fixup_sdk_offline (c_GlobalOfflineConfig c)) c.

(** [if x.GetLevel() == log.None { x.Level = defLevel }] *)
Definition fixup_level (defLevel : string) (l : LogConfig) : LogConfig :=
  if GetLevel l =? Level.None then {| log_Level := defLevel |} else l.

(** [config/config.go:423-453] fixupLogLevels *)
Definition fixupLogLevels (defLevel : string) (c : Config) : Config :=
  let fixup := fixup_level defLevel in
  on_c_GlobalOfflineConfig (on_goff_Log fixup)
  (on_c_Grpc (on_grpc_Log fixup)
  (on_c_Http (on_http_Sse (on_sse_Log fixup))
  (on_c_Http (on_http_Log fixup)
  (each_sdk (fun sdk => on_sdk_Offline (on_off_Log fixup) (on_sdk_Log fixup sdk))
  (on_c_Profile (on_profile_SDKs (on_psdk_Log fixup))
  (on_c_Profile (on_profile_Log fixup) c)))))).

(** [if _, ok := allowedTlsVersions[v]; !ok { v = defVersion }] *)
Definition fixup_version (defVersion v : float64) : float64 :=
  match tls_version v with Some _ => v | None => defVersion end.

(** [config/config.go:455-465] fixupTlsMinVersions *)
Definition fixupTlsMinVersions (defVersion : float64) (c : Config) : Config :=
  let fixup := on_tls_MinVersion (fixup_version defVersion) in
  on_c_Cache (on_cache_MongoDb (on_mongo_Tls fixup))
  (on_c_Cache (on_cache_Redis (on_redis_Tls fixup))
  (on_c_Tls fixup c)).

(** [config/config.go:480-494] compileRegexes *)
Definition compileRegexes `{RegexpEngine} (c : CORSConfig) : go CORSConfig :=
  if negb (cors_Enabled c) then Ret c
  else
    go_fold (fun c pattern =>
      try? regexp_compile pattern;
      Ret (on_cors_AllowedOriginsRegex
             (on_re_Regexes (fun rs => rs ++ [{| re_pattern := pattern |}])) c))
      c (re_Patterns (cors_AllowedOriginsRegex c)).

(** [config/config.go:467-478] compileOriginRegexes *)
Definition compileOriginRegexes `{RegexpEngine} (c : Config) : go Config :=
  api <-? compileRegexes (api_CORS (http_Api (c_Http c)));
  cdn <-? compileRegexes (cdn_CORS (http_CdnProxy (c_Http c)));
  sse <-? compileRegexes (sse_CORS (http_Sse (c_Http c)));
  Ret (on_c_Http (on_http_Sse (on_sse_CORS (fun _ => sse)))
      (on_c_Http (on_http_CdnProxy (on_cdn_CORS (fun _ => cdn)))
      (on_c_Http (on_http_Api (on_api_CORS (fun _ => api))) c))).

(** [keepalive.ServerParameters], in nanoseconds *)
Record ServerParameters := {
  sp_MaxConnectionIdle : Z; sp_MaxConnectionAge : Z; sp_MaxConnectionAgeGrace : Z;
  sp_Time : Z; sp_Timeout : Z
}.

(** [time.Duration(k) * time.Second], 64-bit *)
Definition seconds (k : Z) : Z := i64 (k * 1000000000).

(** [config/config.go:496-518] ToParams *)
Definition ToParams (k : KeepAliveConfig) : ServerParameters * bool :=
  let set x := if negb (x =? 0) then seconds x else 0 in
  if (ka_MaxConnectionIdle k =? 0) && (ka_MaxConnectionAge k =? 0)
     && (ka_MaxConnectionAgeGrace k =? 0) && (ka_Time k =? 0) && (ka_Timeout k =? 0)
  then ({| sp_MaxConnectionIdle := 0; sp_MaxConnectionAge := 0; sp_MaxConnectionAgeGrace := 0;
           sp_Time := 0; sp_Timeout := 0 |}, false)
  else ({| sp_MaxConnectionIdle := set (ka_MaxConnectionIdle k);
           sp_MaxConnectionAge := set (ka_MaxConnectionAge k);
           sp_MaxConnectionAgeGrace := set (ka_MaxConnectionAgeGrace k);
           sp_Time := set (ka_Time k); sp_Timeout := set (ka_Timeout k) |}, true).

(** The part of [crypto/tls.Config] the proxy sets; a certificate is the pair
    of files it comes from. *)
Record TlsOptions := {
  to_MinVersion : Z; to_ServerName : string; to_Certificates : list (string * string)
}.

(** [config/config.go:548-561] LoadTlsOptions; [load_key_pair cert key] tells
    whether the two files hold a usable pair *)
Definition LoadTlsOptions (load_key_pair : string -> string -> go unit) (t : TlsConfig) :
    go TlsOptions :=
  go_fold (fun conf c =>
    match load_key_pair (cert_Cert c) (cert_Key c) with
    | Ret _ => Ret {| to_MinVersion := to_MinVersion conf; to_ServerName := to_ServerName conf;
                      to_Certificates := to_Certificates conf ++ [(cert_Cert c, cert_Key c)] |}
    | Fail err => Fail ("failed to load certificate and key files: " +:+ err)
    | Panic => Panic
    end)
    {| to_MinVersion := GetVersion t; to_ServerName := tls_ServerName t; to_Certificates := [] |}
    (tls_Certificates t).

(** [config/config.go:563-574] defaultConfigPath; [path_join] is [path.Join] *)
Definition defaultConfigPath `{OS} (path_join : list string -> string) : option string :=
  if decide (runtime_goos = "windows") then
    Some (path_join [os_getenv "PROGRAMDATA"; defaultVendorName; defaultProductName; defaultConfigName])
  else if decide (runtime_goos = "darwin") then
    Some (path_join ["/Library/Application Support"; defaultVendorName; defaultProductName; defaultConfigName])
  else if decide (runtime_goos = "linux") then
    Some (path_join ["/etc"; defaultVendorName; defaultProductName; defaultConfigName])
  else None.
