(* ===== verification/Env.v ===== *)
(** [config/env.go]: configuration from environment variables. A [loadEnv]
    method returns the new value of its receiver, or the first error; on an
    error the caller discards the whole configuration.

    The JSON decoders of the values are [json_decode] followed by the
    conversion to the Go type asked for; [parse_float] is
    [strconv.ParseFloat(s, 64)]. *)
From S2P Require Import Prelude Go Utils Model ConfigTypes Config.
From Stdlib Require Import Ascii.
Open Scope Z_scope.

(** [config/env.go:22-22] envPrefix *)
Definition envPrefix : string := "CONFIGCAT".

(** [config/env.go:502-504] concatPrefix *)
Definition concatPrefix (p1 p2 : string) : string := p1 +:+ "_" +:+ p2.

(** [config/env.go:18-20] Error of envVarReadError *)
Definition envVarReadError (key inner : string) : string :=
  "failed to read environment variable '" +:+ key +:+ "': " +:+ inner.

(** [config/env.go:484-494] readEnv: the new value of [*in] *)
Definition readEnv `{OS} {T} (prefix key : string) (old : T) (conv : string -> go T) : go T :=
  let envKey := prefix +:+ "_" +:+ key in
  let env := os_getenv envKey in
  if decide (env = "") then Ret old
  else match conv env with
       | Ret r => Ret r
       | Fail err => Fail (envVarReadError envKey err)
       | Panic => Panic
       end.

(** [config/env.go:496-500] readEnvString: the new value of [*in] *)
Definition readEnvString `{OS} (prefix key : string) (old : string) : string :=
  let env := os_getenv (prefix +:+ "_" +:+ key) in
  if decide (env = "") then old else env.

(** [config/env.go:24-24] toInt *)
Definition toInt (s : string) : go Z := ParseInt s.
(** [config/env.go:25-25] toBool *)
Definition toBool (s : string) : go bool := ParseBool s.

Section env.
Context `{OS, JSON, FloatText, MapRange}.

(** [config/env.go:26-26] toFloat *)
Definition toFloat (s : string) : go float64 := parse_float s.

(** [json.Unmarshal] into a [[]T], a [map[string]string]: null gives the nil
    value, a null element the zero value of its type. *)
Definition json_string (v : value) : go string :=
  match v with
  | VString s => Ret s
  | VNil => Ret ""
  | _ => Fail "json: cannot unmarshal into Go value of type string"
  end.
Definition json_slice {T} (elem : value -> go T) (v : value) : go (list T) :=
  match v with
  | VNil => Ret []
  | VArray l => go_fold (fun r x => y <-? elem x; Ret (r ++ [y])) [] l
  | _ => Fail "json: cannot unmarshal into Go value of a slice type"
  end.

(** A struct field of the JSON object [l]: names match up to case, and the
    last matching one wins. *)
Definition json_field (name : string) (l : list (string * value)) : value :=
  default VNil (last (omap (fun '(k, v) =>
    if decide (Str.ToUpper k = Str.ToUpper name) then Some v else None) l)).

(** [config/env.go:27-33] toStringSlice *)
Definition toStringSlice (s : string) : go (list string) :=
  v <-? json_decode s; json_slice json_string v.

(** [config/env.go:34-40] toCertConfigSlice *)
Definition toCertConfigSlice (s : string) : go (list CertConfig) :=
  v <-? json_decode s;
  json_slice (fun x => match x with
    | VNil => Ret zero_CertConfig
    | VObject l =>
        k <-? json_string (json_field "Key" l);
        c <-? json_string (json_field "Cert" l);
        Ret {| cert_Key := k; cert_Cert := c |}
    | _ => Fail "json: cannot unmarshal into Go value of type config.CertConfig"
    end) v.

(** [config/env.go:41-47] toStringMap *)
Definition toStringMap (s : string) : go (gmap string string) :=
  v <-? json_decode s; obj <-? to_object v;
  go_fold (fun r '(k, x) => y <-? json_string x; Ret (<[k := y]> r)) ∅ (range obj).

(** [config/env.go:49-55] toUserAttrs; the result is a non-nil map *)
Definition toUserAttrs (s : string) : go (option (gmap string value)) :=
  r <-? UnmarshalJSON s; Ret (Some r).

(** [config/env.go:407-411] loadEnv of LogConfig *)
Definition log_loadEnv (prefix : string) (l : LogConfig) : go LogConfig :=
  let prefix := concatPrefix prefix "LOG" in
  Ret {| log_Level := readEnvString prefix "LEVEL" (log_Level l) |}.

(** [config/env.go:258-268] loadEnv of LocalConfig *)
Definition local_loadEnv (prefix : string) (l : LocalConfig) : go LocalConfig :=
  let prefix := concatPrefix prefix "LOCAL" in
  polling <-? readEnv prefix "POLLING" (local_Polling l) toBool;
  interval <-? readEnv prefix "POLL_INTERVAL" (local_PollInterval l) toInt;
  Ret {| local_FilePath := readEnvString prefix "FILE_PATH" (local_FilePath l);
         local_Polling := polling; local_PollInterval := interval |}.

(** [config/env.go:241-256] loadEnv of OfflineConfig *)
Definition off_loadEnv (prefix : string) (o : OfflineConfig) : go OfflineConfig :=
  let prefix := concatPrefix prefix "OFFLINE" in
  enabled <-? readEnv prefix "ENABLED" (off_Enabled o) toBool;
  use_cache <-? readEnv prefix "USE_CACHE" (off_UseCache o) toBool;
  interval <-? readEnv prefix "CACHE_POLL_INTERVAL" (off_CachePollInterval o) toInt;
  local <-? local_loadEnv prefix (off_Local o);
  log <-? log_loadEnv prefix (off_Log o);
  Ret {| off_Enabled := enabled; off_UseCache := use_cache;
         off_CachePollInterval := interval; off_Log := log; off_Local := local |}.

(** [config/env.go:230-239] loadEnv of GlobalOfflineConfig *)
Definition goff_loadEnv (prefix : string) (g : GlobalOfflineConfig) : go GlobalOfflineConfig :=
  let prefix := concatPrefix prefix "OFFLINE" in
  enabled <-? readEnv prefix "ENABLED" (goff_Enabled g) toBool;
  interval <-? readEnv prefix "CACHE_POLL_INTERVAL" (goff_CachePollInterval g) toInt;
  log <-? log_loadEnv prefix (goff_Log g);
  Ret {| goff_Enabled := enabled; goff_CachePollInterval := interval; goff_Log := log |}.

(** [config/env.go:104-121] loadEnv of SDKConfig *)
Definition sdk_loadEnv (prefix : string) (s : SDKConfig) : go SDKConfig :=
  let base := readEnvString prefix "BASE_URL" (sdk_BaseUrl s) in
  let gov := readEnvString prefix "DATA_GOVERNANCE" (sdk_DataGovernance s) in
  let signing := readEnvString prefix "WEBHOOK_SIGNING_KEY" (sdk_WebhookSigningKey s) in
  valid <-? readEnv prefix "WEBHOOK_SIGNATURE_VALID_FOR" (sdk_WebhookSignatureValidFor s) toInt;
  interval <-? readEnv prefix "POLL_INTERVAL" (sdk_PollInterval s) toInt;
  attrs <-? readEnv prefix "DEFAULT_USER_ATTRIBUTES" (sdk_DefaultAttrs s) toUserAttrs;
  offline <-? off_loadEnv prefix (sdk_Offline s);
  log <-? log_loadEnv prefix (sdk_Log s);
  Ret {| sdk_Key := sdk_Key s; sdk_BaseUrl := base; sdk_PollInterval := interval;
         sdk_DataGovernance := gov; sdk_WebhookSignatureValidFor := valid;
         sdk_WebhookSigningKey := signing; sdk_DefaultAttrs := attrs;
         sdk_Offline := offline; sdk_Log := log |}.

(** [config/env.go:141-145] loadEnv of ProfileSDKConfig *)
Definition psdk_loadEnv (prefix : string) (p : ProfileSDKConfig) : go ProfileSDKConfig :=
  let prefix := concatPrefix prefix "SDKS" in
  let base := readEnvString prefix "BASE_URL" (psdk_BaseUrl p) in
  log <-? log_loadEnv prefix (psdk_Log p);
  Ret {| psdk_BaseUrl := base; psdk_Log := log |}.

(** [config/env.go:123-139] loadEnv of ProfileConfig *)
Definition profile_loadEnv (prefix : string) (a : ProfileConfig) : go ProfileConfig :=
  let prefix := concatPrefix prefix "PROFILE" in
  let key := readEnvString prefix "KEY" (profile_Key a) in
  let secret := readEnvString prefix "SECRET" (profile_Secret a) in
  let base := readEnvString prefix "BASE_URL" (profile_BaseUrl a) in
  let signing := readEnvString prefix "WEBHOOK_SIGNING_KEY" (profile_WebhookSigningKey a) in
  valid <-? readEnv prefix "WEBHOOK_SIGNATURE_VALID_FOR" (profile_WebhookSignatureValidFor a) toInt;
  interval <-? readEnv prefix "POLL_INTERVAL" (profile_PollInterval a) toInt;
  sdks <-? psdk_loadEnv prefix (profile_SDKs a);
  log <-? log_loadEnv prefix (profile_Log a);
  Ret {| profile_Key := key; profile_Secret := secret; profile_BaseUrl := base;
         profile_PollInterval := interval; profile_WebhookSignatureValidFor := valid;
         profile_WebhookSigningKey := signing; profile_Log := log; profile_SDKs := sdks |}.

(** [config/env.go:389-393] loadEnv of OriginRegexConfig *)
Definition re_loadEnv (prefix : string) (o : OriginRegexConfig) : go OriginRegexConfig :=
  let prefix := concatPrefix prefix "ALLOWED_ORIGINS_REGEX" in
  let no_match := readEnvString prefix "IF_NO_MATCH" (re_IfNoMatch o) in
  patterns <-? readEnv prefix "PATTERNS" (re_Patterns o) toStringSlice;
  Ret {| re_IfNoMatch := no_match; re_Patterns := patterns; re_Regexes := re_Regexes o |}.

(** [config/env.go:378-387] loadEnv of CORSConfig *)
Definition cors_loadEnv (prefix : string) (c : CORSConfig) : go CORSConfig :=
  let prefix := concatPrefix prefix "CORS" in
  enabled <-? readEnv prefix "ENABLED" (cors_Enabled c) toBool;
  origins <-? readEnv prefix "ALLOWED_ORIGINS" (cors_AllowedOrigins c) toStringSlice;
  regex <-? re_loadEnv prefix (cors_AllowedOriginsRegex c);
  Ret {| cors_Enabled := enabled; cors_AllowedOrigins := origins;
         cors_AllowedOriginsRegex := regex |}.

(** [config/env.go:371-376] loadEnv of AuthConfig *)
Definition auth_loadEnv (prefix : string) (a : AuthConfig) : go AuthConfig :=
  let prefix := concatPrefix prefix "AUTH" in
  Ret {| auth_User := readEnvString prefix "USER" (auth_User a);
         auth_Password := readEnvString prefix "PASSWORD" (auth_Password a) |}.

(** [config/env.go:304-319] loadEnv of SseConfig *)
Definition sse_loadEnv (prefix : string) (s : SseConfig) : go SseConfig :=
  let prefix := concatPrefix prefix "SSE" in
  enabled <-? readEnv prefix "ENABLED" (sse_Enabled s) toBool;
  headers <-? readEnv prefix "HEADERS" (sse_Headers s) toStringMap;
  beat <-? readEnv prefix "HEARTBEAT_INTERVAL" (sse_HeartBeatInterval s) toInt;
  cors <-? cors_loadEnv prefix (sse_CORS s);
  log <-? log_loadEnv prefix (sse_Log s);
  Ret {| sse_Enabled := enabled; sse_Headers := headers; sse_HeartBeatInterval := beat;
         sse_Log := log; sse_CORS := cors |}.

(** [config/env.go:321-333] loadEnv of ApiConfig *)
Definition api_loadEnv (prefix : string) (a : ApiConfig) : go ApiConfig :=
  let prefix := concatPrefix prefix "API" in
  enabled <-? readEnv prefix "ENABLED" (api_Enabled a) toBool;
  headers <-? readEnv prefix "HEADERS" (api_Headers a) toStringMap;
  auth <-? readEnv prefix "AUTH_HEADERS" (api_AuthHeaders a) toStringMap;
  cors <-? cors_loadEnv prefix (api_CORS a);
  Ret {| api_AuthHeaders := auth; api_Headers := headers; api_Enabled := enabled;
         api_CORS := cors |}.

(** [config/env.go:335-347] loadEnv of OFREPConfig *)
Definition ofrep_loadEnv (prefix : string) (o : OFREPConfig) : go OFREPConfig :=
  let prefix := concatPrefix prefix "OFREP" in
  enabled <-? readEnv prefix "ENABLED" (ofrep_Enabled o) toBool;
  headers <-? readEnv prefix "HEADERS" (ofrep_Headers o) toStringMap;
  auth <-? readEnv prefix "AUTH_HEADERS" (ofrep_AuthHeaders o) toStringMap;
  cors <-? cors_loadEnv prefix (ofrep_CORS o);
  Ret {| ofrep_AuthHeaders := auth; ofrep_Headers := headers; ofrep_Enabled := enabled;
         ofrep_CORS := cors |}.

(** [config/env.go:349-358] loadEnv of CdnProxyConfig *)
Definition cdn_loadEnv (prefix : string) (c : CdnProxyConfig) : go CdnProxyConfig :=
  let prefix := concatPrefix prefix "CDN_PROXY" in
  enabled <-? readEnv prefix "ENABLED" (cdn_Enabled c) toBool;
  headers <-? readEnv prefix "HEADERS" (cdn_Headers c) toStringMap;
  cors <-? cors_loadEnv prefix (cdn_CORS c);
  Ret {| cdn_Headers := headers; cdn_Enabled := enabled; cdn_CORS := cors |}.

(** [config/env.go:360-369] loadEnv of WebhookConfig *)
Definition wh_loadEnv (prefix : string) (w : WebhookConfig) : go WebhookConfig :=
  let prefix := concatPrefix prefix "WEBHOOK" in
  enabled <-? readEnv prefix "ENABLED" (wh_Enabled w) toBool;
  headers <-? readEnv prefix "AUTH_HEADERS" (wh_AuthHeaders w) toStringMap;
  auth <-? auth_loadEnv prefix (wh_Auth w);
  Ret {| wh_AuthHeaders := headers; wh_Enabled := enabled; wh_Auth := auth |}.

(** [config/env.go:476-482] loadEnv of StatusConfig *)
Definition status_loadEnv (prefix : string) (s : StatusConfig) : go StatusConfig :=
  let prefix := concatPrefix prefix "STATUS" in
  enabled <-? readEnv prefix "ENABLED" (status_Enabled s) toBool;
  Ret {| status_Enabled := enabled |}.

(** [config/env.go:147-174] loadEnv of HttpConfig *)
Definition http_loadEnv (prefix : string) (h : HttpConfig) : go HttpConfig :=
  let prefix := concatPrefix prefix "HTTP" in
  enabled <-? readEnv prefix "ENABLED" (http_Enabled h) toBool;
  port <-? readEnv prefix "PORT" (http_Port h) toInt;
  log <-? log_loadEnv prefix (http_Log h);
  sse <-? sse_loadEnv prefix (http_Sse h);
  cdn <-? cdn_loadEnv prefix (http_CdnProxy h);
  webhook <-? wh_loadEnv prefix (http_Webhook h);
  status <-? status_loadEnv prefix (http_Status h);
  ofrep <-? ofrep_loadEnv prefix (http_OFREP h);
  api <-? api_loadEnv prefix (http_Api h);
  Ret {| http_Enabled := enabled; http_Port := port; http_CdnProxy := cdn;
         http_OFREP := ofrep; http_Webhook := webhook; http_Sse := sse; http_Api := api;
         http_Status := status; http_Log := log |}.

(** [config/env.go:196-211] loadEnv of KeepAliveConfig *)
Definition ka_loadEnv (prefix : string) (k : KeepAliveConfig) : go KeepAliveConfig :=
  let prefix := concatPrefix prefix "KEEP_ALIVE" in
  idle <-? readEnv prefix "MAX_CONNECTION_IDLE" (ka_MaxConnectionIdle k) toInt;
  age <-? readEnv prefix "MAX_CONNECTION_AGE" (ka_MaxConnectionAge k) toInt;
  grace <-? readEnv prefix "MAX_CONNECTION_AGE_GRACE" (ka_MaxConnectionAgeGrace k) toInt;
  time <-? readEnv prefix "TIME" (ka_Time k) toInt;
  timeout <-? readEnv prefix "TIMEOUT" (ka_Timeout k) toInt;
  Ret {| ka_MaxConnectionIdle := idle; ka_MaxConnectionAge := age;
         ka_MaxConnectionAgeGrace := grace; ka_Time := time; ka_Timeout := timeout |}.

(** [config/env.go:176-194] loadEnv of GrpcConfig *)
Definition grpc_loadEnv (prefix : string) (g : GrpcConfig) : go GrpcConfig :=
  let prefix := concatPrefix prefix "GRPC" in
  enabled <-? readEnv prefix "ENABLED" (grpc_Enabled g) toBool;
  port <-? readEnv prefix "PORT" (grpc_Port g) toInt;
  health <-? readEnv prefix "HEALTH_CHECK_ENABLED" (grpc_HealthCheckEnabled g) toBool;
  reflection <-? readEnv prefix "SERVER_REFLECTION_ENABLED" (grpc_ServerReflectionEnabled g) toBool;
  keep <-? ka_loadEnv prefix (grpc_KeepAlive g);
  log <-? log_loadEnv prefix (grpc_Log g);
  Ret {| grpc_Enabled := enabled; grpc_Port := port; grpc_ServerReflectionEnabled := reflection;
         grpc_HealthCheckEnabled := health; grpc_KeepAlive := keep; grpc_Log := log |}.

(** [config/env.go:213-217] loadEnv of HttpProxyConfig *)
Definition hp_loadEnv (prefix : string) (h : HttpProxyConfig) : go HttpProxyConfig :=
  let prefix := concatPrefix prefix "HTTP_PROXY" in
  Ret {| hp_Url := readEnvString prefix "URL" (hp_Url h) |}.

(** [config/env.go:395-405] loadEnv of TlsConfig *)
Definition tls_loadEnv (prefix : string) (t : TlsConfig) : go TlsConfig :=
  let prefix := concatPrefix prefix "TLS" in
  let name := readEnvString prefix "SERVER_NAME" (tls_ServerName t) in
  version <-? readEnv prefix "MIN_VERSION" (tls_MinVersion t) toFloat;
  enabled <-? readEnv prefix "ENABLED" (tls_Enabled t) toBool;
  certs <-? readEnv prefix "CERTIFICATES" (tls_Certificates t) toCertConfigSlice;
  Ret {| tls_Enabled := enabled; tls_MinVersion := version; tls_ServerName := name;
         tls_Certificates := certs |}.

(** [config/env.go:270-284] loadEnv of RedisConfig *)
Definition redis_loadEnv (prefix : string) (r : RedisConfig) : go RedisConfig :=
  let prefix := concatPrefix prefix "REDIS" in
  let password := readEnvString prefix "PASSWORD" (redis_Password r) in
  let user := readEnvString prefix "USER" (redis_User r) in
  db <-? readEnv prefix "DB" (redis_DB r) toInt;
  enabled <-? readEnv prefix "ENABLED" (redis_Enabled r) toBool;
  addresses <-? readEnv prefix "ADDRESSES" (redis_Addresses r) toStringSlice;
  tls <-? tls_loadEnv prefix (redis_Tls r);
  Ret {| redis_Enabled := enabled; redis_Addresses := addresses; redis_DB := db;
         redis_User := user; redis_Password := password; redis_Tls := tls |}.

(** [config/env.go:286-295] loadEnv of MongoDbConfig *)
Definition mongo_loadEnv (prefix : string) (m : MongoDbConfig) : go MongoDbConfig :=
  let prefix := concatPrefix prefix "MONGODB" in
  let url := readEnvString prefix "URL" (mongo_Url m) in
  let database := readEnvString prefix "DATABASE" (mongo_Database m) in
  let collection := readEnvString prefix "COLLECTION" (mongo_Collection m) in
  enabled <-? readEnv prefix "ENABLED" (mongo_Enabled m) toBool;
  tls <-? tls_loadEnv prefix (mongo_Tls m);
  Ret {| mongo_Enabled := enabled; mongo_Url := url; mongo_Database := database;
         mongo_Collection := collection; mongo_Tls := tls |}.

(** [config/env.go:297-302] loadEnv of DynamoDbConfig *)
Definition dynamo_loadEnv (prefix : string) (d : DynamoDbConfig) : go DynamoDbConfig :=
  let prefix := concatPrefix prefix "DYNAMODB" in
  let url := readEnvString prefix "URL" (dynamo_Url d) in
  let table := readEnvString prefix "TABLE" (dynamo_Table d) in
  enabled <-? readEnv prefix "ENABLED" (dynamo_Enabled d) toBool;
  Ret {| dynamo_Enabled := enabled; dynamo_Url := url; dynamo_Table := table |}.

(** [config/env.go:219-228] loadEnv of CacheConfig *)
Definition cache_loadEnv (prefix : string) (c : CacheConfig) : go CacheConfig :=
  let prefix := concatPrefix prefix "CACHE" in
  redis <-? redis_loadEnv prefix (cache_Redis c);
  mongo <-? mongo_loadEnv prefix (cache_MongoDb c);
  dynamo <-? dynamo_loadEnv prefix (cache_DynamoDb c);
  Ret {| cache_Redis := redis; cache_MongoDb := mongo; cache_DynamoDb := dynamo |}.

(** [config/env.go:458-464] loadEnv of PrometheusExporterConfig *)
Definition prom_loadEnv (prefix : string) (p : PrometheusExporterConfig) : go PrometheusExporterConfig :=
  let prefix := concatPrefix prefix "PROMETHEUS" in
  enabled <-? readEnv prefix "ENABLED" (prom_Enabled p) toBool;
  Ret {| prom_Enabled := enabled |}.

(** [config/env.go:466-474] loadEnv of OtlpExporterConfig *)
Definition otlp_loadEnv (prefix : string) (o : OtlpExporterConfig) : go OtlpExporterConfig :=
  let prefix := concatPrefix prefix "OTLP" in
  let protocol := readEnvString prefix "PROTOCOL" (otlp_Protocol o) in
  let endpoint := readEnvString prefix "ENDPOINT" (otlp_Endpoint o) in
  enabled <-? readEnv prefix "ENABLED" (otlp_Enabled o) toBool;
  Ret {| otlp_Enabled := enabled; otlp_Protocol := protocol; otlp_Endpoint := endpoint |}.

(** [config/env.go:433-445] loadEnv of MetricsConfig *)
Definition metrics_loadEnv (prefix : string) (m : MetricsConfig) : go MetricsConfig :=
  let prefix := concatPrefix prefix "METRICS" in
  enabled <-? readEnv prefix "ENABLED" (metrics_Enabled m) toBool;
  prom <-? prom_loadEnv prefix (metrics_Prometheus m);
  otlp <-? otlp_loadEnv prefix (metrics_Otlp m);
  Ret {| metrics_Enabled := enabled; metrics_Prometheus := prom; metrics_Otlp := otlp |}.

(** [config/env.go:447-456] loadEnv of TraceConfig *)
Definition trace_loadEnv (prefix : string) (m : TraceConfig) : go TraceConfig :=
  let prefix := concatPrefix prefix "TRACES" in
  enabled <-? readEnv prefix "ENABLED" (trace_Enabled m) toBool;
  otlp <-? otlp_loadEnv prefix (trace_Otlp m);
  Ret {| trace_Enabled := enabled; trace_Otlp := otlp |}.

(** [config/env.go:413-431] loadEnv of DiagConfig *)
Definition diag_loadEnv (prefix : string) (d : DiagConfig) : go DiagConfig :=
  let prefix := concatPrefix prefix "DIAG" in
  enabled <-? readEnv prefix "ENABLED" (diag_Enabled d) toBool;
  port <-? readEnv prefix "PORT" (diag_Port d) toInt;
  status <-? status_loadEnv prefix (diag_Status d);
  metrics <-? metrics_loadEnv prefix (diag_Metrics d);
  traces <-? trace_loadEnv prefix (diag_Traces d);
  Ret {| diag_Port := port; diag_Enabled := enabled; diag_Metrics := metrics;
         diag_Traces := traces; diag_Status := status |}.

(** [config/env.go:66-66] loadEnv, the prefix of an SDK's variables *)
Definition sdk_prefix (sdkId : string) : string :=
  concatPrefix envPrefix (Str.ToUpper (Str.ReplaceByte "-"%char "_"%char sdkId)).

(** [config/env.go:65-72] loadEnv, the loop over the SDKs *)
Definition load_sdk (sdks : gmap string (option SDKConfig)) (kv : string * string) :
    go (gmap string (option SDKConfig)) :=
  let '(sdkId, key) := kv in
  let sdkConf := {| sdk_Key := key; sdk_BaseUrl := ""; sdk_PollInterval := 0;
                    sdk_DataGovernance := ""; sdk_WebhookSignatureValidFor := 0;
                    sdk_WebhookSigningKey := ""; sdk_DefaultAttrs := None;
                    sdk_Offline := zero_OfflineConfig; sdk_Log := zero_LogConfig |} in
  sdkConf <-? sdk_loadEnv (sdk_prefix sdkId) sdkConf;
  Ret (<[sdkId := Some sdkConf]> sdks).

(** [config/env.go:57-102] loadEnv of Config *)
Definition loadEnv (c : Config) : go Config :=
  sdks <-? readEnv envPrefix "SDKS" ∅ toStringMap;
  SDKs <-? go_fold load_sdk (c_SDKs c) (range sdks);
  profile <-? profile_loadEnv envPrefix (c_Profile c);
  http <-? http_loadEnv envPrefix (c_Http c);
  grpc <-? grpc_loadEnv envPrefix (c_Grpc c);
  proxy <-? hp_loadEnv envPrefix (c_HttpProxy c);
  log <-? log_loadEnv envPrefix (c_Log c);
  tls <-? tls_loadEnv envPrefix (c_Tls c);
  diag <-? diag_loadEnv envPrefix (c_Diag c);
  cache <-? cache_loadEnv envPrefix (c_Cache c);
  offline <-? goff_loadEnv envPrefix (c_GlobalOfflineConfig c);
  attrs <-? readEnv envPrefix "DEFAULT_USER_ATTRIBUTES" (c_DefaultAttrs c) toUserAttrs;
  Ret {| c_Log := log; c_SDKs := SDKs; c_Grpc := grpc; c_Tls := tls; c_Diag := diag;
         c_Http := http; c_Cache := cache; c_HttpProxy := proxy;
         c_GlobalOfflineConfig := offline; c_DefaultAttrs := attrs; c_Profile := profile |}.
End env.

(** ** How the environment is read *)

Lemma go_bind_ext {A B} (m1 m2 : go A) (k1 k2 : A -> go B) :
  m1 = m2 -> (forall x, k1 x = k2 x) -> (m1 ≫= k1) = (m2 ≫= k2).
Proof. intros -> Hk. destruct m2; simpl; auto. Qed.

Create HintDb env.

(** *** An environment with no variable set leaves every structure alone *)
Section unset.
Context `{OS, JSON, FloatText, MapRange} (Hunset : forall k, os_getenv k = "").

Lemma readEnv_unset {T} (p k : string) (old : T) conv : readEnv p k old conv = Ret old.
Proof. unfold readEnv. by rewrite Hunset. Qed.

Lemma readEnvString_unset (p k old : string) : readEnvString p k old = old.
Proof. unfold readEnvString. by rewrite Hunset. Qed.

(** One step of a [loadEnv] body: the first call returns the old value. *)
Lemma bind_unset {A B} (m : go A) (x : A) (k : A -> go B) (r : go B) :
  m = Ret x -> k x = r -> (m ≫= k) = r.
Proof. by intros ->. Qed.

#[local] Hint Resolve readEnv_unset : env.
Ltac unset r :=
  cbv zeta; repeat (eapply bind_unset; [solve [eauto with env nocore]|cbv beta]);
  rewrite ?readEnvString_unset; by destruct r.


Lemma log_unset (p : string) (r : LogConfig) : log_loadEnv p r = Ret r.
Proof. unfold log_loadEnv. unset r. Qed.
#[local] Hint Resolve log_unset : env.

Lemma local_unset (p : string) (r : LocalConfig) : local_loadEnv p r = Ret r.
Proof. unfold local_loadEnv. unset r. Qed.
#[local] Hint Resolve local_unset : env.

Lemma off_unset (p : string) (r : OfflineConfig) : off_loadEnv p r = Ret r.
Proof. unfold off_loadEnv. unset r. Qed.
#[local] Hint Resolve off_unset : env.

Lemma goff_unset (p : string) (r : GlobalOfflineConfig) : goff_loadEnv p r = Ret r.
Proof. unfold goff_loadEnv. unset r. Qed.
#[local] Hint Resolve goff_unset : env.

Lemma sdk_unset (p : string) (r : SDKConfig) : sdk_loadEnv p r = Ret r.
Proof. unfold sdk_loadEnv. unset r. Qed.
#[local] Hint Resolve sdk_unset : env.

Lemma psdk_unset (p : string) (r : ProfileSDKConfig) : psdk_loadEnv p r = Ret r.
Proof. unfold psdk_loadEnv. unset r. Qed.
#[local] Hint Resolve psdk_unset : env.

Lemma profile_unset (p : string) (r : ProfileConfig) : profile_loadEnv p r = Ret r.
Proof. unfold profile_loadEnv. unset r. Qed.
#[local] Hint Resolve profile_unset : env.

Lemma re_unset (p : string) (r : OriginRegexConfig) : re_loadEnv p r = Ret r.
Proof. unfold re_loadEnv. unset r. Qed.
#[local] Hint Resolve re_unset : env.

Lemma cors_unset (p : string) (r : CORSConfig) : cors_loadEnv p r = Ret r.
Proof. unfold cors_loadEnv. unset r. Qed.
#[local] Hint Resolve cors_unset : env.

Lemma auth_unset (p : string) (r : AuthConfig) : auth_loadEnv p r = Ret r.
Proof. unfold auth_loadEnv. unset r. Qed.
#[local] Hint Resolve auth_unset : env.

Lemma sse_unset (p : string) (r : SseConfig) : sse_loadEnv p r = Ret r.
Proof. unfold sse_loadEnv. unset r. Qed.
#[local] Hint Resolve sse_unset : env.

Lemma api_unset (p : string) (r : ApiConfig) : api_loadEnv p r = Ret r.
Proof. unfold api_loadEnv. unset r. Qed.
#[local] Hint Resolve api_unset : env.

Lemma ofrep_unset (p : string) (r : OFREPConfig) : ofrep_loadEnv p r = Ret r.
Proof. unfold ofrep_loadEnv. unset r. Qed.
#[local] Hint Resolve ofrep_unset : env.

Lemma cdn_unset (p : string) (r : CdnProxyConfig) : cdn_loadEnv p r = Ret r.
Proof. unfold cdn_loadEnv. unset r. Qed.
#[local] Hint Resolve cdn_unset : env.

Lemma wh_unset (p : string) (r : WebhookConfig) : wh_loadEnv p r = Ret r.
Proof. unfold wh_loadEnv. unset r. Qed.
#[local] Hint Resolve wh_unset : env.

Lemma status_unset (p : string) (r : StatusConfig) : status_loadEnv p r = Ret r.
Proof. unfold status_loadEnv. unset r. Qed.
#[local] Hint Resolve status_unset : env.

Lemma http_unset (p : string) (r : HttpConfig) : http_loadEnv p r = Ret r.
Proof. unfold http_loadEnv. unset r. Qed.
#[local] Hint Resolve http_unset : env.

Lemma ka_unset (p : string) (r : KeepAliveConfig) : ka_loadEnv p r = Ret r.
Proof. unfold ka_loadEnv. unset r. Qed.
#[local] Hint Resolve ka_unset : env.

Lemma grpc_unset (p : string) (r : GrpcConfig) : grpc_loadEnv p r = Ret r.
Proof. unfold grpc_loadEnv. unset r. Qed.
#[local] Hint Resolve grpc_unset : env.

Lemma hp_unset (p : string) (r : HttpProxyConfig) : hp_loadEnv p r = Ret r.
Proof. unfold hp_loadEnv. unset r. Qed.
#[local] Hint Resolve hp_unset : env.

Lemma tls_unset (p : string) (r : TlsConfig) : tls_loadEnv p r = Ret r.
Proof. unfold tls_loadEnv. unset r. Qed.
#[local] Hint Resolve tls_unset : env.

Lemma redis_unset (p : string) (r : RedisConfig) : redis_loadEnv p r = Ret r.
Proof. unfold redis_loadEnv. unset r. Qed.
#[local] Hint Resolve redis_unset : env.

Lemma mongo_unset (p : string) (r : MongoDbConfig) : mongo_loadEnv p r = Ret r.
Proof. unfold mongo_loadEnv. unset r. Qed.
#[local] Hint Resolve mongo_unset : env.

Lemma dynamo_unset (p : string) (r : DynamoDbConfig) : dynamo_loadEnv p r = Ret r.
Proof. unfold dynamo_loadEnv. unset r. Qed.
#[local] Hint Resolve dynamo_unset : env.

Lemma cache_unset (p : string) (r : CacheConfig) : cache_loadEnv p r = Ret r.
Proof. unfold cache_loadEnv. unset r. Qed.
#[local] Hint Resolve cache_unset : env.

Lemma prom_unset (p : string) (r : PrometheusExporterConfig) : prom_loadEnv p r = Ret r.
Proof. unfold prom_loadEnv. unset r. Qed.
#[local] Hint Resolve prom_unset : env.

Lemma otlp_unset (p : string) (r : OtlpExporterConfig) : otlp_loadEnv p r = Ret r.
Proof. unfold otlp_loadEnv. unset r. Qed.
#[local] Hint Resolve otlp_unset : env.

Lemma metrics_unset (p : string) (r : MetricsConfig) : metrics_loadEnv p r = Ret r.
Proof. unfold metrics_loadEnv. unset r. Qed.
#[local] Hint Resolve metrics_unset : env.

Lemma trace_unset (p : string) (r : TraceConfig) : trace_loadEnv p r = Ret r.
Proof. unfold trace_loadEnv. unset r. Qed.
#[local] Hint Resolve trace_unset : env.

Lemma diag_unset (p : string) (r : DiagConfig) : diag_loadEnv p r = Ret r.
Proof. unfold diag_loadEnv. unset r. Qed.
#[local] Hint Resolve diag_unset : env.

Lemma loadEnv_unset (c : Config) : loadEnv c = Ret c.
Proof.
  unfold loadEnv. eapply bind_unset; [by eauto with env|].
  rewrite range_empty. eapply bind_unset; [done|]. unset c.
Qed.
End unset.

(** *** Only variables named [CONFIGCAT_...] are read *)
Section agree.
Context `{JSON, FloatText, MapRange} (os1 os2 : OS).

Definition env_agree (p : string) : Prop :=
  forall k, @os_getenv os1 (p +:+ "_" +:+ k) = @os_getenv os2 (p +:+ "_" +:+ k).

Lemma env_agree_concat (p q : string) : env_agree p -> env_agree (concatPrefix p q).
Proof.
  intros Hp k. unfold concatPrefix. rewrite <- !str_app_assoc. apply Hp.
Qed.

Lemma readEnv_agree {T} (p k : string) (old : T) conv :
  env_agree p -> @readEnv os1 T p k old conv = @readEnv os2 T p k old conv.
Proof. intros Hp. unfold readEnv. by rewrite (Hp k). Qed.

Lemma readEnvString_agree (p k old : string) :
  env_agree p -> @readEnvString os1 p k old = @readEnvString os2 p k old.
Proof. intros Hp. unfold readEnvString. by rewrite (Hp k). Qed.

#[local] Hint Resolve env_agree_concat readEnv_agree readEnvString_agree : env.
Ltac agree :=
  intros; cbv zeta; repeat (apply go_bind_ext; [by eauto with env | intros ?]);
  repeat (rewrite readEnvString_agree by eauto with env); done.


Lemma log_agree (p : string) (r : LogConfig) :
  env_agree p -> @log_loadEnv os1 p r = @log_loadEnv os2 p r.
Proof. unfold log_loadEnv. agree. Qed.
#[local] Hint Resolve log_agree : env.

Lemma local_agree (p : string) (r : LocalConfig) :
  env_agree p -> @local_loadEnv os1 p r = @local_loadEnv os2 p r.
Proof. unfold local_loadEnv. agree. Qed.
#[local] Hint Resolve local_agree : env.

Lemma off_agree (p : string) (r : OfflineConfig) :
  env_agree p -> @off_loadEnv os1 p r = @off_loadEnv os2 p r.
Proof. unfold off_loadEnv. agree. Qed.
#[local] Hint Resolve off_agree : env.

Lemma goff_agree (p : string) (r : GlobalOfflineConfig) :
  env_agree p -> @goff_loadEnv os1 p r = @goff_loadEnv os2 p r.
Proof. unfold goff_loadEnv. agree. Qed.
#[local] Hint Resolve goff_agree : env.

Lemma sdk_agree (p : string) (r : SDKConfig) :
  env_agree p -> @sdk_loadEnv os1 _ _ p r = @sdk_loadEnv os2 _ _ p r.
Proof. unfold sdk_loadEnv. agree. Qed.
#[local] Hint Resolve sdk_agree : env.

Lemma psdk_agree (p : string) (r : ProfileSDKConfig) :
  env_agree p -> @psdk_loadEnv os1 p r = @psdk_loadEnv os2 p r.
Proof. unfold psdk_loadEnv. agree. Qed.
#[local] Hint Resolve psdk_agree : env.

Lemma profile_agree (p : string) (r : ProfileConfig) :
  env_agree p -> @profile_loadEnv os1 p r = @profile_loadEnv os2 p r.
Proof. unfold profile_loadEnv. agree. Qed.
#[local] Hint Resolve profile_agree : env.

Lemma re_agree (p : string) (r : OriginRegexConfig) :
  env_agree p -> @re_loadEnv os1 _ p r = @re_loadEnv os2 _ p r.
Proof. unfold re_loadEnv. agree. Qed.
#[local] Hint Resolve re_agree : env.

Lemma cors_agree (p : string) (r : CORSConfig) :
  env_agree p -> @cors_loadEnv os1 _ p r = @cors_loadEnv os2 _ p r.
Proof. unfold cors_loadEnv. agree. Qed.
#[local] Hint Resolve cors_agree : env.

Lemma auth_agree (p : string) (r : AuthConfig) :
  env_agree p -> @auth_loadEnv os1 p r = @auth_loadEnv os2 p r.
Proof. unfold auth_loadEnv. agree. Qed.
#[local] Hint Resolve auth_agree : env.

Lemma sse_agree (p : string) (r : SseConfig) :
  env_agree p -> @sse_loadEnv os1 _ _ p r = @sse_loadEnv os2 _ _ p r.
Proof. unfold sse_loadEnv. agree. Qed.
#[local] Hint Resolve sse_agree : env.

Lemma api_agree (p : string) (r : ApiConfig) :
  env_agree p -> @api_loadEnv os1 _ _ p r = @api_loadEnv os2 _ _ p r.
Proof. unfold api_loadEnv. agree. Qed.
#[local] Hint Resolve api_agree : env.

Lemma ofrep_agree (p : string) (r : OFREPConfig) :
  env_agree p -> @ofrep_loadEnv os1 _ _ p r = @ofrep_loadEnv os2 _ _ p r.
Proof. unfold ofrep_loadEnv. agree. Qed.
#[local] Hint Resolve ofrep_agree : env.

Lemma cdn_agree (p : string) (r : CdnProxyConfig) :
  env_agree p -> @cdn_loadEnv os1 _ _ p r = @cdn_loadEnv os2 _ _ p r.
Proof. unfold cdn_loadEnv. agree. Qed.
#[local] Hint Resolve cdn_agree : env.

Lemma wh_agree (p : string) (r : WebhookConfig) :
  env_agree p -> @wh_loadEnv os1 _ _ p r = @wh_loadEnv os2 _ _ p r.
Proof. unfold wh_loadEnv. agree. Qed.
#[local] Hint Resolve wh_agree : env.

Lemma status_agree (p : string) (r : StatusConfig) :
  env_agree p -> @status_loadEnv os1 p r = @status_loadEnv os2 p r.
Proof. unfold status_loadEnv. agree. Qed.
#[local] Hint Resolve status_agree : env.

Lemma http_agree (p : string) (r : HttpConfig) :
  env_agree p -> @http_loadEnv os1 _ _ p r = @http_loadEnv os2 _ _ p r.
Proof. unfold http_loadEnv. agree. Qed.
#[local] Hint Resolve http_agree : env.

Lemma ka_agree (p : string) (r : KeepAliveConfig) :
  env_agree p -> @ka_loadEnv os1 p r = @ka_loadEnv os2 p r.
Proof. unfold ka_loadEnv. agree. Qed.
#[local] Hint Resolve ka_agree : env.

Lemma grpc_agree (p : string) (r : GrpcConfig) :
  env_agree p -> @grpc_loadEnv os1 p r = @grpc_loadEnv os2 p r.
Proof. unfold grpc_loadEnv. agree. Qed.
#[local] Hint Resolve grpc_agree : env.

Lemma hp_agree (p : string) (r : HttpProxyConfig) :
  env_agree p -> @hp_loadEnv os1 p r = @hp_loadEnv os2 p r.
Proof. unfold hp_loadEnv. agree. Qed.
#[local] Hint Resolve hp_agree : env.

Lemma tls_agree (p : string) (r : TlsConfig) :
  env_agree p -> @tls_loadEnv os1 _ _ p r = @tls_loadEnv os2 _ _ p r.
Proof. unfold tls_loadEnv. agree. Qed.
#[local] Hint Resolve tls_agree : env.

Lemma redis_agree (p : string) (r : RedisConfig) :
  env_agree p -> @redis_loadEnv os1 _ _ p r = @redis_loadEnv os2 _ _ p r.
Proof. unfold redis_loadEnv. agree. Qed.
#[local] Hint Resolve redis_agree : env.

Lemma mongo_agree (p : string) (r : MongoDbConfig) :
  env_agree p -> @mongo_loadEnv os1 _ _ p r = @mongo_loadEnv os2 _ _ p r.
Proof. unfold mongo_loadEnv. agree. Qed.
#[local] Hint Resolve mongo_agree : env.

Lemma dynamo_agree (p : string) (r : DynamoDbConfig) :
  env_agree p -> @dynamo_loadEnv os1 p r = @dynamo_loadEnv os2 p r.
Proof. unfold dynamo_loadEnv. agree. Qed.
#[local] Hint Resolve dynamo_agree : env.

Lemma cache_agree (p : string) (r : CacheConfig) :
  env_agree p -> @cache_loadEnv os1 _ _ p r = @cache_loadEnv os2 _ _ p r.
Proof. unfold cache_loadEnv. agree. Qed.
#[local] Hint Resolve cache_agree : env.

Lemma prom_agree (p : string) (r : PrometheusExporterConfig) :
  env_agree p -> @prom_loadEnv os1 p r = @prom_loadEnv os2 p r.
Proof. unfold prom_loadEnv. agree. Qed.
#[local] Hint Resolve prom_agree : env.

Lemma otlp_agree (p : string) (r : OtlpExporterConfig) :
  env_agree p -> @otlp_loadEnv os1 p r = @otlp_loadEnv os2 p r.
Proof. unfold otlp_loadEnv. agree. Qed.
#[local] Hint Resolve otlp_agree : env.

Lemma metrics_agree (p : string) (r : MetricsConfig) :
  env_agree p -> @metrics_loadEnv os1 p r = @metrics_loadEnv os2 p r.
Proof. unfold metrics_loadEnv. agree. Qed.
#[local] Hint Resolve metrics_agree : env.

Lemma trace_agree (p : string) (r : TraceConfig) :
  env_agree p -> @trace_loadEnv os1 p r = @trace_loadEnv os2 p r.
Proof. unfold trace_loadEnv. agree. Qed.
#[local] Hint Resolve trace_agree : env.

Lemma diag_agree (p : string) (r : DiagConfig) :
  env_agree p -> @diag_loadEnv os1 p r = @diag_loadEnv os2 p r.
Proof. unfold diag_loadEnv. agree. Qed.
#[local] Hint Resolve diag_agree : env.

Lemma load_sdk_agree sdks kv :
  env_agree envPrefix -> @load_sdk os1 _ _ sdks kv = @load_sdk os2 _ _ sdks kv.
Proof.
  intros Hp. destruct kv as [id key]. unfold load_sdk. cbv zeta.
  apply go_bind_ext; [|done]. apply sdk_agree. unfold sdk_prefix. eauto with env.
Qed.

Lemma loadEnv_agree (c : Config) :
  env_agree envPrefix -> @loadEnv os1 _ _ _ c = @loadEnv os2 _ _ _ c.
Proof.
  intros Hp. unfold loadEnv. apply go_bind_ext; [by eauto with env|]. intros sdks.
  apply go_bind_ext; [|intros ?; agree].
  apply go_fold_ext. intros b x. by apply load_sdk_agree.
Qed.
End agree.

(** *** The SDKs the environment defines *)
Lemma load_sdks_ret `{OS, JSON, FloatText, MapRange} (l : list (string * string))
    (m out : gmap string (option SDKConfig)) :
  NoDup l.*1 -> go_fold load_sdk m l = Ret out ->
  (forall id, id ∉ l.*1 -> out !! id = m !! id) /\
  (forall id key, (id, key) ∈ l -> exists s, out !! id = Some (Some s) /\ sdk_Key s = key).
Proof.
  revert m. induction l as [|[id key] l IH]; intros m Hnd Hout; simpl in Hout.
  - injection Hout as <-. split; [done | set_solver].
  - apply NoDup_cons in Hnd as [Hid Hnd].
    apply go_bind_ret in Hout as (m' & Hm' & Hout).
    apply go_bind_ret in Hm' as (s & Hs & [= <-]).
    destruct (IH _ Hnd Hout) as [Hother Hnew]. split.
    + intros id' Hid'. rewrite Hother by set_solver. apply lookup_insert_ne. set_solver.
    + intros id' key' Hin. apply elem_of_cons in Hin as [[= -> ->]|Hin]; [|by apply Hnew].
      exists s. rewrite Hother by done. rewrite lookup_insert_eq. split; [done|].
      unfold sdk_loadEnv in Hs. cbv zeta in Hs.
      repeat (apply go_bind_ret in Hs as (? & _ & Hs)). by injection Hs as <-.
Qed.

(** ** Properties *)

(** A process whose environment sets no variable keeps the configuration it
    loaded, field by field, and never fails. *)
Theorem loadEnv_empty_environment `{OS, JSON, FloatText, MapRange} (c : Config)
    (Hunset : forall k, os_getenv k = "") : loadEnv c = Ret c.
Proof. by apply loadEnv_unset. Qed.

Definition no_env : OS := {| os_getenv := fun _ => ""; os_stat := fun _ => StatNotExist "";
  os_read_file := fun _ => Fail ""; filepath_eval_symlinks := fun _ => Fail "";
  runtime_goos := "linux" |}.

Lemma loadEnv_empty_environment_witness :
  @loadEnv no_env {| json_decode := fun _ => Fail "" |}
    {| parse_float := fun _ => Fail ""; format_float := fun _ => "" |} canonical_range zero_Config
  = Ret zero_Config.
Proof. apply loadEnv_empty_environment. by intros k. Defined.

(** [loadEnv] depends on no variable whose name does not start with
    [CONFIGCAT_]: two environments that agree on those variables give the same
    configuration or the same error, whatever else they hold. *)
Theorem loadEnv_reads_only_prefixed `{JSON, FloatText, MapRange} (os1 os2 : OS) (c : Config)
    (Hagree : forall name, Str.HasPrefix name "CONFIGCAT_" = true ->
                @os_getenv os1 name = @os_getenv os2 name) :
  @loadEnv os1 _ _ _ c = @loadEnv os2 _ _ _ c.
Proof.
  apply loadEnv_agree. intros k. apply Hagree. done.
Qed.

Lemma loadEnv_reads_only_prefixed_witness :
  let env v : OS := {| os_getenv := fun k => if decide (k = "PATH") then v else
                                    if decide (k = "CONFIGCAT_HTTP_PORT") then "80" else "";
    os_stat := fun _ => StatNotExist ""; os_read_file := fun _ => Fail "";
    filepath_eval_symlinks := fun _ => Fail ""; runtime_goos := "linux" |} in
  let j := {| json_decode := fun _ => Fail "" |} in
  let ft := {| parse_float := fun _ => Fail ""; format_float := fun _ => "" |} in
  @loadEnv (env "a") j ft canonical_range zero_Config = @loadEnv (env "b") j ft canonical_range zero_Config.
Proof.
  intros env j ft. apply loadEnv_reads_only_prefixed. intros name Hname. simpl.
  destruct (decide (name = "PATH")) as [->|]; [by vm_compute in Hname | done].
Defined.

(** When [loadEnv] succeeds, the SDKs are those of the configuration file
    and those of the JSON object in [CONFIGCAT_SDKS]; an SDK of the variable
    has a configuration whose key is the variable's (never a nil one) and
    replaces the file's SDK of the same id, every other SDK is untouched. This
    holds for every iteration order of the variable's object. *)
Theorem loadEnv_sdks `{OS, JSON, FloatText, MapRange} (c c' : Config)
    (Hload : loadEnv c = Ret c') :
  exists sdks : gmap string string,
    readEnv envPrefix "SDKS" ∅ toStringMap = Ret sdks /\
    forall id, match sdks !! id with
               | Some key => exists s, c_SDKs c' !! id = Some (Some s) /\ sdk_Key s = key
               | None => c_SDKs c' !! id = c_SDKs c !! id
               end.
Proof.
  unfold loadEnv in Hload.
  apply go_bind_ret in Hload as (sdks & Hsdks & Hload).
  apply go_bind_ret in Hload as (SDKs & HSDKs & Hload).
  repeat (apply go_bind_ret in Hload as (? & _ & Hload)). injection Hload as <-.
  exists sdks. split; [done|]. intros id.
  apply load_sdks_ret in HSDKs as [Hother Hnew]; [|apply range_NoDup_fst].
  destruct (sdks !! id) as [key|] eqn:Hid.
  - apply Hnew. by apply elem_of_range.
  - apply Hother. rewrite elem_of_range_keys, Hid. by intros [? ?].
Qed.

Lemma loadEnv_sdks_witness :
  let os : OS := {| os_getenv := fun k => if decide (k = "CONFIGCAT_SDKS") then "{}" else "";
    os_stat := fun _ => StatNotExist ""; os_read_file := fun _ => Fail "";
    filepath_eval_symlinks := fun _ => Fail ""; runtime_goos := "linux" |} in
  let j := {| json_decode := fun _ => Ret (VObject [("sdk1", VString "key1")]) |} in
  let ft := {| parse_float := fun _ => Fail ""; format_float := fun _ => "" |} in
  exists c', @loadEnv os j ft canonical_range zero_Config = Ret c' /\
  exists sdks : gmap string string,
    @readEnv os _ envPrefix "SDKS" ∅ (@toStringMap j canonical_range) = Ret sdks /\
    forall id, match sdks !! id with
               | Some key => exists s, c_SDKs c' !! id = Some (Some s) /\ sdk_Key s = key
               | None => c_SDKs c' !! id = c_SDKs zero_Config !! id
               end.
Proof.
  intros os j ft. eexists. split; [by vm_compute|].
  apply (@loadEnv_sdks os j ft canonical_range zero_Config). by vm_compute.
Defined.
