(* ===== verification/Validate.v ===== *)
(** [config/validate.go]: what a configuration must satisfy before the proxy
    starts. A [validate] method returns nil ([Ret tt]) or its error ([Fail]). *)
From S2P Require Import Prelude Go Utils Model ConfigTypes Config.
Open Scope Z_scope.

(** [if cond { return fmt.Errorf(msg) }] *)
Definition reject (cond : bool) (msg : string) : go unit :=
  if cond then Fail msg else Ret tt.

Definition str_empty (s : string) : bool := bool_decide (s = "").

Section validate.
Context `{os : OS, mr : MapRange}.

(** [config/validate.go:126-136] validate of TlsConfig *)
Definition tls_validate (t : TlsConfig) : go unit :=
  if negb (tls_Enabled t) then Ret tt
  else go_forall (fun cert =>
         reject ((negb (str_empty (cert_Cert cert)) && str_empty (cert_Key cert))
                 || (negb (str_empty (cert_Key cert)) && str_empty (cert_Cert cert)))
           "tls: both TLS cert and key file required") (tls_Certificates t).

(** [config/validate.go:63-74] validate of RedisConfig *)
Definition redis_validate (r : RedisConfig) : go unit :=
  if negb (redis_Enabled r) then Ret tt
  else
    try? reject (Nat.eqb (length (redis_Addresses r)) 0) "redis: at least 1 server address required";
    tls_validate (redis_Tls r).

(** [config/validate.go:76-87] validate of MongoDbConfig *)
Definition mongo_validate (m : MongoDbConfig) : go unit :=
  if negb (mongo_Enabled m) then Ret tt
  else
    try? reject (len (mongo_Url m) =? 0) "mongodb: invalid connection uri";
    tls_validate (mongo_Tls m).

(** [config/validate.go:187-195] validate of LocalConfig *)
Definition local_validate (l : LocalConfig) (sdkId : string) : go unit :=
  try? match os_stat (local_FilePath l) with
       | StatNotExist _ => Fail ("sdk-" +:+ sdkId +:+ ": couldn't find the local file " +:+ local_FilePath l)
       | _ => Ret tt
       end;
  reject (local_Polling l && (local_PollInterval l <? 1))
    ("sdk-" +:+ sdkId +:+ ": local file poll interval must be greater than 1 seconds").

(** [config/validate.go:89-111] validate of OfflineConfig *)
Definition off_validate (o : OfflineConfig) (c : CacheConfig) (sdkId : string) : go unit :=
  let err msg := "sdk-" +:+ sdkId +:+ ": " +:+ msg in
  let file := local_FilePath (off_Local o) in
  if negb (off_Enabled o) then Ret tt
  else
    try? reject (str_empty file && negb (off_UseCache o))
      (err "offline mode requires either a configured cache or a local file");
    try? reject (negb (str_empty file) && off_UseCache o)
      (err "can't use both local file and cache for offline mode");
    try? (if negb (str_empty file) then local_validate (off_Local o) sdkId else Ret tt);
    try? reject (off_UseCache o && negb (cache_IsSet c))
      (err "offline mode enabled with cache, but no cache is configured");
    reject (off_UseCache o && (off_CachePollInterval o <? 1))
      (err "cache poll interval must be greater than 1 seconds").

(** [config/validate.go:47-61] validate of SDKConfig; the receiver is a pointer,
    which the first field access of a nil one panics on *)
Definition sdk_validate (s : option SDKConfig) (c : CacheConfig) (p : ProfileConfig)
    (sdkId : string) : go unit :=
  match s with
  | None => Panic
  | Some s =>
      let err msg := "sdk-" +:+ sdkId +:+ ": " +:+ msg in
      try? reject (negb (profile_IsSet p) && str_empty (sdk_Key s)) (err "SDK key is required");
      try? reject (negb (str_empty (sdk_DataGovernance s))
                   && bool_decide (sdk_DataGovernance s <> "global")
                   && bool_decide (sdk_DataGovernance s <> "eu"))
        (err "invalid data governance value, it must be 'global' or 'eu'");
      try? reject (negb (str_empty (sdk_WebhookSigningKey s)) && (sdk_WebhookSignatureValidFor s <? 5))
        (err "webhook signature validity check must be greater than 5 seconds");
      off_validate (sdk_Offline s) c sdkId
  end.

(** [config/validate.go:113-124] validate of GlobalOfflineConfig *)
Definition goff_validate (g : GlobalOfflineConfig) (c : CacheConfig) : go unit :=
  if negb (goff_Enabled g) then Ret tt
  else
    try? reject (negb (redis_Enabled (cache_Redis c)))
      "offline: global offline mode enabled, but no cache is configured";
    reject (goff_CachePollInterval g <? 1)
      "offline: cache poll interval must be greater than 1 seconds".

Definition bad_port (port : Z) : bool := (port <? 1) || (port >? 65535).

(** [config/validate.go:180-185] validate of OriginRegexConfig *)
Definition re_validate (o : OriginRegexConfig) : go unit :=
  reject (negb (Nat.eqb (length (re_Patterns o)) 0) && str_empty (re_IfNoMatch o))
    "cors: the 'if no watch' field is required when allowed origins regex is set".

(** [config/validate.go:170-178] validate of CORSConfig *)
Definition cors_validate (c : CORSConfig) : go unit :=
  if negb (cors_Enabled c) then Ret tt else re_validate (cors_AllowedOriginsRegex c).

(** [config/validate.go:160-168] validate of WebhookConfig *)
Definition wh_validate (w : WebhookConfig) : go unit :=
  let user := auth_User (wh_Auth w) in
  let password := auth_Password (wh_Auth w) in
  if negb (wh_Enabled w) then Ret tt
  else reject ((negb (str_empty user) && str_empty password)
               || (negb (str_empty password) && str_empty user))
         "webhook: both basic auth user and password required".

(** [config/validate.go:138-158] validate of HttpConfig *)
Definition http_validate (h : HttpConfig) : go unit :=
  try? reject (bad_port (http_Port h)) ("http: invalid port " +:+ Itoa (http_Port h));
  try? wh_validate (http_Webhook h);
  try? cors_validate (api_CORS (http_Api h));
  try? cors_validate (ofrep_CORS (http_OFREP h));
  try? cors_validate (sse_CORS (http_Sse h));
  cors_validate (cdn_CORS (http_CdnProxy h)).

(** [config/validate.go:214-219] validate of OtlpExporterConfig *)
Definition otlp_validate (o : OtlpExporterConfig) : go unit :=
  reject (bool_decide (otlp_Protocol o <> "http") && bool_decide (otlp_Protocol o <> "https")
          && bool_decide (otlp_Protocol o <> "grpc"))
    ("diag: invalid otlp protocol " +:+ otlp_Protocol o
     +:+ " (only 'http', 'https', or 'grpc' allowed)").

(** [config/validate.go:197-212] validate of DiagConfig *)
Definition diag_validate (d : DiagConfig) : go unit :=
  try? reject (bad_port (diag_Port d)) ("diag: invalid port " +:+ Itoa (diag_Port d));
  try? (if IsMetricsEnabled d && otlp_Enabled (metrics_Otlp (diag_Metrics d))
        then otlp_validate (metrics_Otlp (diag_Metrics d)) else Ret tt);
  if IsTracesEnabled d && otlp_Enabled (trace_Otlp (diag_Traces d))
  then otlp_validate (trace_Otlp (diag_Traces d)) else Ret tt.

(** [config/validate.go:221-226] validate of GrpcConfig *)
Definition grpc_validate (g : GrpcConfig) : go unit :=
  reject (bad_port (grpc_Port g)) ("grpc: invalid port " +:+ Itoa (grpc_Port g)).

(** [config/validate.go:228-239] validate of ProfileConfig *)
Definition profile_validate (a : ProfileConfig) (c : GlobalOfflineConfig) : go unit :=
  try? reject (str_empty (profile_Secret a) && negb (goff_Enabled c))
    "profile: proxy is in online mode without a profile secret";
  try? reject (profile_PollInterval a <? 60)
    "profile: auto configuration poll interval cannot be less than 60 seconds";
  reject (negb (str_empty (profile_WebhookSigningKey a)) && (profile_WebhookSignatureValidFor a <? 5))
    "profile: webhook signature validity check must be greater than 5 seconds".

(** [config/validate.go:9-45] Validate *)
Definition Validate (c : Config) : go unit :=
  try? reject (Nat.eqb (size (c_SDKs c)) 0 && negb (profile_IsSet (c_Profile c)))
    "sdk: at least 1 SDK or a proxy profile must be configured";
  try? (if profile_IsSet (c_Profile c)
        then profile_validate (c_Profile c) (c_GlobalOfflineConfig c) else Ret tt);
  try? go_forall (fun '(id, conf) => sdk_validate conf (c_Cache c) (c_Profile c) id)
         (range (c_SDKs c));
  try? tls_validate (c_Tls c);
  try? http_validate (c_Http c);
  try? diag_validate (c_Diag c);
  try? grpc_validate (c_Grpc c);
  try? redis_validate (cache_Redis (c_Cache c));
  try? mongo_validate (cache_MongoDb (c_Cache c));
  goff_validate (c_GlobalOfflineConfig c) (c_Cache c).

(** ** The specification: what a valid configuration is *)

Definition both_or_none (a b : string) : Prop := a = "" <-> b = "".

Definition valid_tls (t : TlsConfig) : Prop :=
  tls_Enabled t = true -> Forall (fun c => both_or_none (cert_Cert c) (cert_Key c)) (tls_Certificates t).

Definition valid_port (p : Z) : Prop := 1 <= p <= 65535.

Definition valid_cors (c : CORSConfig) : Prop :=
  cors_Enabled c = true -> re_Patterns (cors_AllowedOriginsRegex c) <> [] ->
  re_IfNoMatch (cors_AllowedOriginsRegex c) <> "".

(** Offline mode has exactly one source: an existing local file, or a
    configured cache that is polled at least every second. *)
Definition valid_offline (o : OfflineConfig) (c : CacheConfig) : Prop :=
  off_Enabled o = true ->
  let l := off_Local o in
  (off_UseCache o = false /\ local_FilePath l <> "" /\
   (forall e, os_stat (local_FilePath l) <> StatNotExist e) /\
   (local_Polling l = true -> 1 <= local_PollInterval l)) \/
  (off_UseCache o = true /\ local_FilePath l = "" /\
   cache_IsSet c = true /\ 1 <= off_CachePollInterval o).

Definition valid_signing (key : string) (valid_for : Z) : Prop := key <> "" -> 5 <= valid_for.

Definition valid_sdk (c : Config) (s : SDKConfig) : Prop :=
  (profile_Key (c_Profile c) = "" -> sdk_Key s <> "") /\
  sdk_DataGovernance s ∈ [""; "global"; "eu"] /\
  valid_signing (sdk_WebhookSigningKey s) (sdk_WebhookSignatureValidFor s) /\
  valid_offline (sdk_Offline s) (c_Cache c).

Definition valid_profile (c : Config) : Prop :=
  let p := c_Profile c in
  profile_Key p <> "" ->
  (profile_Secret p = "" -> goff_Enabled (c_GlobalOfflineConfig c) = true) /\
  60 <= profile_PollInterval p /\
  valid_signing (profile_WebhookSigningKey p) (profile_WebhookSignatureValidFor p).

Definition valid_otlp (o : OtlpExporterConfig) : Prop := otlp_Protocol o ∈ ["http"; "https"; "grpc"].

Definition valid_http (h : HttpConfig) : Prop :=
  valid_port (http_Port h) /\
  (wh_Enabled (http_Webhook h) = true ->
   both_or_none (auth_User (wh_Auth (http_Webhook h))) (auth_Password (wh_Auth (http_Webhook h)))) /\
  valid_cors (api_CORS (http_Api h)) /\ valid_cors (ofrep_CORS (http_OFREP h)) /\
  valid_cors (sse_CORS (http_Sse h)) /\ valid_cors (cdn_CORS (http_CdnProxy h)).

Definition valid_diag (d : DiagConfig) : Prop :=
  valid_port (diag_Port d) /\
  (IsMetricsEnabled d = true -> otlp_Enabled (metrics_Otlp (diag_Metrics d)) = true ->
   valid_otlp (metrics_Otlp (diag_Metrics d))) /\
  (IsTracesEnabled d = true -> otlp_Enabled (trace_Otlp (diag_Traces d)) = true ->
   valid_otlp (trace_Otlp (diag_Traces d))).

Definition valid_caches (c : Config) : Prop :=
  let cache := c_Cache c in
  (redis_Enabled (cache_Redis cache) = true ->
   redis_Addresses (cache_Redis cache) <> [] /\ valid_tls (redis_Tls (cache_Redis cache))) /\
  (mongo_Enabled (cache_MongoDb cache) = true ->
   mongo_Url (cache_MongoDb cache) <> "" /\ valid_tls (mongo_Tls (cache_MongoDb cache))) /\
  (goff_Enabled (c_GlobalOfflineConfig c) = true ->
   redis_Enabled (cache_Redis cache) = true /\
   1 <= goff_CachePollInterval (c_GlobalOfflineConfig c)).

Definition valid_config (c : Config) : Prop :=
  (c_SDKs c = ∅ -> profile_Key (c_Profile c) <> "") /\
  valid_profile c /\
  (forall id s, c_SDKs c !! id = Some s -> exists conf, s = Some conf /\ valid_sdk c conf) /\
  valid_tls (c_Tls c) /\ valid_http (c_Http c) /\ valid_diag (c_Diag c) /\
  valid_port (grpc_Port (c_Grpc c)) /\ valid_caches c.

(** ** Each [validate] method decides its part of the specification *)

Lemma reject_ret (b : bool) msg : reject b msg = Ret tt <-> b = false.
Proof. unfold reject. by destruct b. Qed.

Lemma try_ret {A} (m : go unit) (k : go A) (a : A) :
  (m ≫= fun _ => k) = Ret a <-> m = Ret tt /\ k = Ret a.
Proof. rewrite go_try_ret. split; [by intros [[[] ?] ?] | naive_solver]. Qed.

Lemma str_empty_true s : str_empty s = true <-> s = "".
Proof. apply bool_decide_eq_true. Qed.
Lemma str_empty_false s : str_empty s = false <-> s <> "".
Proof. apply bool_decide_eq_false. Qed.

Lemma bad_port_false p : bad_port p = false <-> valid_port p.
Proof. unfold bad_port, valid_port. rewrite orb_false_iff, Z.gtb_ltb, !Z.ltb_ge. lia. Qed.

Lemma xor_empty a b :
  (negb (str_empty a) && str_empty b) || (negb (str_empty b) && str_empty a) = false
  <-> both_or_none a b.
Proof.
  unfold both_or_none. destruct (str_empty a) eqn:Ha, (str_empty b) eqn:Hb; simpl;
    rewrite ?str_empty_true, ?str_empty_false in *; naive_solver.
Qed.

Lemma if_ret (b : bool) (m : go unit) :
  (if b then m else Ret tt) = Ret tt <-> (b = true -> m = Ret tt).
Proof. destruct b; naive_solver. Qed.

Lemma if_negb_ret (b : bool) (m : go unit) :
  (if negb b then Ret tt else m) = Ret tt <-> (b = true -> m = Ret tt).
Proof. destruct b; naive_solver. Qed.

Lemma signing_ret key n :
  negb (str_empty key) && (n <? 5) = false <-> valid_signing key n.
Proof.
  unfold valid_signing. rewrite andb_false_iff, negb_false_iff, str_empty_true, Z.ltb_ge.
  destruct (decide (key = "")); naive_solver.
Qed.

Lemma tls_validate_ret t : tls_validate t = Ret tt <-> valid_tls t.
Proof.
  unfold tls_validate, valid_tls. rewrite if_negb_ret, go_forall_ret.
  setoid_rewrite reject_ret. by setoid_rewrite xor_empty.
Qed.

Lemma cors_validate_ret c : cors_validate c = Ret tt <-> valid_cors c.
Proof.
  unfold cors_validate, valid_cors, re_validate.
  rewrite if_negb_ret, reject_ret, andb_false_iff, negb_false_iff, Nat.eqb_eq, str_empty_false.
  destruct (re_Patterns _); naive_solver.
Qed.

Lemma otlp_validate_ret o : otlp_validate o = Ret tt <-> valid_otlp o.
Proof.
  unfold otlp_validate, valid_otlp. rewrite reject_ret, !andb_false_iff, !bool_decide_eq_false.
  rewrite !elem_of_cons. split.
  - intros [[H1|H1]|H1]; apply dec_stable in H1; auto.
  - intros [->|[->|[->|H1]]]; [left; left|left; right|right|set_solver]; tauto.
Qed.

Lemma off_validate_ret o c id : off_validate o c id = Ret tt <-> valid_offline o c.
Proof.
  unfold off_validate, valid_offline, local_validate. rewrite if_negb_ret.
  destruct (off_Enabled o); [|naive_solver]. split; intros Hv ?; specialize (Hv eq_refl).
  - rewrite !try_ret, !reject_ret in Hv. destruct Hv as (H1 & H2 & H3 & H4 & H5).
    destruct (str_empty (local_FilePath (off_Local o))) eqn:Hf, (off_UseCache o); simpl in *; try done.
    + right. rewrite str_empty_true in Hf. bool_prop. auto.
    + left. rewrite str_empty_false in Hf. rewrite try_ret, reject_ret in H3.
      destruct H3 as [H3 H6]. split_and!; [done|done| |].
      * intros e He. by rewrite He in H3.
      * intros Hp. rewrite Hp in H6. simpl in H6. bool_prop. done.
  - rewrite !try_ret, !reject_ret. destruct Hv as [(-> & Hf & Hs & Hp)|(-> & Hf & Hc & Hp)].
    + rewrite (proj2 (str_empty_false _)) by done. simpl. split_and!; try done.
      rewrite try_ret, reject_ret. split.
      * destruct (os_stat _) as [| e | ] eqn:He; [done| by destruct (Hs e) | done].
      * destruct (local_Polling _); [|done]. apply Z.ltb_ge. auto.
    + rewrite (proj2 (str_empty_true _)) by done. rewrite Hc. simpl.
      split_and!; try done. by apply Z.ltb_ge.
Qed.

Lemma profile_IsSet_true a : profile_IsSet a = true <-> profile_Key a <> "".
Proof. apply bool_decide_eq_true. Qed.
Lemma profile_IsSet_false a : profile_IsSet a = false <-> profile_Key a = "".
Proof. unfold profile_IsSet. rewrite bool_decide_eq_false. split; [apply dec_stable | tauto]. Qed.

Lemma governance_ret g :
  negb (str_empty g) && bool_decide (g <> "global") && bool_decide (g <> "eu") = false
  <-> g ∈ [""; "global"; "eu"].
Proof.
  rewrite !andb_false_iff, negb_false_iff, str_empty_true, !bool_decide_eq_false, !elem_of_cons.
  split.
  - intros [[->|Hg]|Hg]; [by left | apply dec_stable in Hg; auto ..].
  - intros [->|[->|[->|Hg]]]; [left; left|left; right|right|set_solver]; tauto.
Qed.

Lemma sdk_validate_ret s c id :
  sdk_validate s (c_Cache c) (c_Profile c) id = Ret tt
  <-> exists conf, s = Some conf /\ valid_sdk c conf.
Proof.
  destruct s as [s|]; simpl; [|split; [done|naive_solver]].
  rewrite !try_ret, !reject_ret, off_validate_ret, signing_ret, governance_ret.
  assert (Hkey : negb (profile_IsSet (c_Profile c)) && str_empty (sdk_Key s) = false <->
                 (profile_Key (c_Profile c) = "" -> sdk_Key s <> "")).
  { rewrite andb_false_iff, negb_false_iff, profile_IsSet_true, str_empty_false.
    destruct (decide (profile_Key (c_Profile c) = "")); naive_solver. }
  rewrite Hkey. unfold valid_sdk. split; [naive_solver|]. by intros (? & [= <-] & ?).
Qed.

Lemma sdks_validate_ret c :
  go_forall (fun '(id, conf) => sdk_validate conf (c_Cache c) (c_Profile c) id)
    (range (c_SDKs c)) = Ret tt
  <-> forall id s, c_SDKs c !! id = Some s -> exists conf, s = Some conf /\ valid_sdk c conf.
Proof.
  rewrite go_forall_ret, Forall_forall. split.
  - intros Hall id s Hs. apply (sdk_validate_ret _ _ id), (Hall (id, s)). by apply elem_of_range.
  - intros Hall [id s] Hin. apply sdk_validate_ret, (Hall id). by apply elem_of_range.
Qed.

Lemma profile_validate_ret c :
  (if profile_IsSet (c_Profile c)
   then profile_validate (c_Profile c) (c_GlobalOfflineConfig c) else Ret tt) = Ret tt
  <-> valid_profile c.
Proof.
  rewrite if_ret, profile_IsSet_true. unfold valid_profile, profile_validate.
  rewrite !try_ret, !reject_ret, signing_ret, Z.ltb_ge, andb_false_iff, negb_false_iff,
    str_empty_false.
  destruct (decide (profile_Secret (c_Profile c) = "")); naive_solver.
Qed.

Lemma http_validate_ret h : http_validate h = Ret tt <-> valid_http h.
Proof.
  unfold http_validate, valid_http, wh_validate.
  by rewrite !try_ret, !cors_validate_ret, !if_negb_ret, !reject_ret, bad_port_false, xor_empty.
Qed.

Lemma diag_validate_ret d : diag_validate d = Ret tt <-> valid_diag d.
Proof.
  unfold diag_validate, valid_diag.
  rewrite !try_ret, !if_ret, !reject_ret, bad_port_false, !otlp_validate_ret, !andb_true_iff.
  naive_solver.
Qed.

Lemma caches_validate_ret c :
  redis_validate (cache_Redis (c_Cache c)) = Ret tt /\
  mongo_validate (cache_MongoDb (c_Cache c)) = Ret tt /\
  goff_validate (c_GlobalOfflineConfig c) (c_Cache c) = Ret tt
  <-> valid_caches c.
Proof.
  unfold redis_validate, mongo_validate, goff_validate, valid_caches, len.
  rewrite !if_negb_ret, !try_ret, !reject_ret, !tls_validate_ret, Z.ltb_ge, negb_false_iff,
    Nat.eqb_neq, Z.eqb_neq.
  assert (Hl : forall l : list string, length l <> 0%nat <-> l <> []) by by intros [|? ?].
  assert (Hs : forall s : string, Z.of_nat (String.length s) <> 0 <-> s <> "").
  { by intros [|a s]. }
  by rewrite Hl, Hs.
Qed.
End validate.

Lemma Validate_ret `{OS, MapRange} (c : Config) : Validate c = Ret tt <-> valid_config c.
Proof.
  unfold Validate, valid_config.
  rewrite !try_ret, reject_ret, profile_validate_ret, sdks_validate_ret, tls_validate_ret,
    http_validate_ret, diag_validate_ret.
  unfold grpc_validate. rewrite reject_ret, bad_port_false, <- caches_validate_ret.
  assert (Hset : Nat.eqb (size (c_SDKs c)) 0 && negb (profile_IsSet (c_Profile c)) = false
                 <-> (c_SDKs c = ∅ -> profile_Key (c_Profile c) <> "")).
  { rewrite andb_false_iff, negb_false_iff, profile_IsSet_true, Nat.eqb_neq, map_size_empty_iff.
    destruct (decide (c_SDKs c = ∅)); naive_solver. }
  rewrite Hset. tauto.
Qed.

(** ** Properties *)

(** C29: [Validate] returns nil exactly on the configurations of the
    specification [valid_config]: at least one SDK or a profile, ports in
    1..65535, exactly one offline source per offline SDK (an existing file or a
    configured, regularly polled cache), complete credentials and certificates,
    signature windows of at least 5 seconds, known protocols, and no SDK entry
    without a body. It holds for every order in which the SDKs are checked. *)
Theorem Validate_iff_valid `{OS, MapRange} (c : Config) :
  Validate c = Ret tt <-> valid_config c.
Proof. apply Validate_ret. Qed.

(** A YAML document that names an SDK without giving it a body leaves a nil
    pointer in the SDK map, and [Validate] then panics instead of returning an
    error, whatever order the map is walked in, as soon as nothing else is
    wrong with the profile and the other SDKs. The fix-ups of [config.go] skip
    such entries, [Validate] does not. *)
Theorem Validate_nil_sdk_panics `{OS, MapRange} (c : Config) (id : string)
    (Hnil : c_SDKs c !! id = Some None) (Hprofile : valid_profile c)
    (Hothers : forall id' s, c_SDKs c !! id' = Some (Some s) -> valid_sdk c s) :
  Validate c = Panic.
Proof.
  unfold Validate.
  assert (Hsize : Nat.eqb (size (c_SDKs c)) 0 = false).
  { apply Nat.eqb_neq, map_size_non_empty_iff. intros He. by rewrite He, lookup_empty in Hnil. }
  rewrite Hsize. simpl. rewrite (proj2 (profile_validate_ret c)) by done. simpl.
  enough (go_forall (fun '(id, conf) => sdk_validate conf (c_Cache c) (c_Profile c) id)
            (range (c_SDKs c)) = Panic) as -> by done.
  assert (Hin : (id, None) ∈ range (c_SDKs c)) by by apply elem_of_range.
  eapply go_forall_Panic; [exact Hin | done |].
  intros [id' [s|]] Hs; [left | by right].
  apply sdk_validate_ret. exists s. split; [done|].
  eapply Hothers, elem_of_range, Hs.
Qed.

Definition nil_sdk_config : Config := on_c_SDKs (fun _ => {["sdk1" := None]}) zero_Config.

Definition empty_os : OS := {| os_getenv := fun _ => ""; os_stat := fun _ => StatNotExist "";
  os_read_file := fun _ => Fail ""; filepath_eval_symlinks := fun _ => Fail "";
  runtime_goos := "linux" |}.

Lemma Validate_nil_sdk_panics_witness :
  @Validate empty_os canonical_range nil_sdk_config = Panic.
Proof.
  apply (@Validate_nil_sdk_panics empty_os canonical_range nil_sdk_config "sdk1").
  - by vm_compute.
  - by intros [].
  - intros id' s Hs. unfold nil_sdk_config in Hs. simpl in Hs.
    by apply lookup_singleton_Some in Hs as [_ [=]].
Defined.

(** Global offline mode is refused with "no cache is configured" although a
    MongoDB or DynamoDB cache is configured: the check asks for Redis alone,
    where the rest of the proxy ([CacheConfig.IsSet], the per-SDK offline
    check, the cache set-up) accepts any of the three. *)
Theorem global_offline_requires_redis (g : GlobalOfflineConfig) (c : CacheConfig)
    (Hoff : goff_Enabled g = true) (Hredis : redis_Enabled (cache_Redis c) = false)
    (Hother : mongo_Enabled (cache_MongoDb c) = true \/ dynamo_Enabled (cache_DynamoDb c) = true) :
  cache_IsSet c = true /\
  goff_validate g c = Fail "offline: global offline mode enabled, but no cache is configured".
Proof.
  unfold cache_IsSet, goff_validate. rewrite Hoff, Hredis. split; [|done].
  destruct Hother as [-> | ->]; [done|]. by rewrite orb_true_r.
Qed.

Lemma global_offline_requires_redis_witness :
  let g := {| goff_Enabled := true; goff_CachePollInterval := 5; goff_Log := zero_LogConfig |} in
  let c := on_cache_MongoDb (fun _ => {| mongo_Enabled := true; mongo_Url := "mongodb://localhost";
             mongo_Database := "configcat_proxy"; mongo_Collection := "cache";
             mongo_Tls := zero_TlsConfig |}) zero_CacheConfig in
  cache_IsSet c = true /\
  goff_validate g c = Fail "offline: global offline mode enabled, but no cache is configured".
Proof. intros g c. apply (global_offline_requires_redis g c); [done|done|by left]. Defined.
