(* ===== verification/Load.v ===== *)
(** [config/config.go]: loading a configuration, from the built-in defaults
    through the YAML file and the environment to the fix-ups. The YAML package
    is third-party: [yaml_unmarshal data c] is the configuration it leaves in
    [c], or its error. *)
From S2P Require Import Prelude Go Utils Model Log ConfigTypes Config Env.
Open Scope Z_scope.

Class YAML := { yaml_unmarshal : string -> Config -> go Config }.

(** [err != nil => return Config{}, fmt.Errorf(msg)] *)
Definition wrap_error {A} (msg : string) (m : go A) : go A :=
  match m with
  | Fail err => Fail (msg +:+ err)
  | r => r
  end.

Section load.
Context `{os : OS, js : JSON, ft : FloatText, mr : MapRange, re : RegexpEngine, ym : YAML}.
Context (path_join : list string -> string).

(** [config/config.go:276-291] LoadConfigFromFileAndEnvironment, a file given on
    the command line; on an error [EvalSymlinks] returns an empty path *)
Definition load_given_file (filePath : string) (config : Config) : go Config :=
  try? match os_stat filePath with
       | StatNotExist err => Fail ("config file " +:+ filePath +:+ " does not exist: " +:+ err)
       | _ => Ret tt
       end;
  realPath <-? wrap_error "failed to eval symlink for : " (filepath_eval_symlinks filePath);
  data <-? wrap_error ("failed to read config file " +:+ realPath +:+ ": ") (os_read_file realPath);
  wrap_error ("failed to parse YAML from config file " +:+ realPath +:+ ": ")
    (yaml_unmarshal data config).

(** [config/config.go:293-303] LoadConfigFromFileAndEnvironment, the default
    file, which may be absent *)
Definition load_default_file (defaultPath : string) (config : Config) : go Config :=
  match os_stat defaultPath with
  | StatNotExist _ => Ret config
  | _ =>
      data <-? wrap_error ("failed to read config file " +:+ defaultPath +:+ ": ")
                 (os_read_file defaultPath);
      wrap_error ("failed to parse YAML from config file " +:+ defaultPath +:+ ": ")
        (yaml_unmarshal data config)
  end.

(** [config/config.go:309-315] LoadConfigFromFileAndEnvironment, the fix-ups *)
Definition fixup (config : Config) : Config :=
  let config :=
    if GetLevel (c_Log config) =? Level.None
    then on_c_Log (fun _ => {| log_Level := "warn" |}) config else config in
  let config := fixupLogLevels (log_Level (c_Log config)) config in
  let config := fixupDefaults config in
  let config := fixupTlsMinVersions f64_1_2 config in
  fixupOffline config.

(** [config/config.go:271-320] LoadConfigFromFileAndEnvironment *)
Definition LoadConfigFromFileAndEnvironment (filePath : string) : go Config :=
  let config := setDefaults zero_Config in
  config <-? (if bool_decide (filePath <> "") then load_given_file filePath config
              else match defaultConfigPath path_join with
                   | Some defaultPath => load_default_file defaultPath config
                   | None => Ret config
                   end);
  config <-? loadEnv config;
  compileOriginRegexes (fixup config).
End load.

(** ** The specification of a loaded configuration *)

Definition level_known (l : LogConfig) : Prop := GetLevel l <> Level.None.
Definition version_known (t : TlsConfig) : Prop := is_Some (tls_version (tls_MinVersion t)).

Definition normal_sdk (g : GlobalOfflineConfig) (s : SDKConfig) : Prop :=
  let o := sdk_Offline s in
  level_known (sdk_Log s) /\ level_known (off_Log o) /\
  sdk_PollInterval s <> 0 /\ sdk_WebhookSignatureValidFor s <> 0 /\
  local_PollInterval (off_Local o) <> 0 /\ off_CachePollInterval o <> 0 /\
  (goff_Enabled g = true -> off_Enabled o = true).

(** Every log level is one of the four names, every minimal TLS version is one
    that [crypto/tls] knows, no interval or window is zero, and in global
    offline mode every SDK is offline. *)
Definition normal_levels (c : Config) : Prop :=
  let p := c_Profile c in
  level_known (c_Log c) /\ level_known (profile_Log p) /\ level_known (psdk_Log (profile_SDKs p)) /\
  level_known (http_Log (c_Http c)) /\ level_known (sse_Log (http_Sse (c_Http c))) /\
  level_known (grpc_Log (c_Grpc c)) /\ level_known (goff_Log (c_GlobalOfflineConfig c)).

Definition normal_versions (c : Config) : Prop :=
  version_known (c_Tls c) /\ version_known (redis_Tls (cache_Redis (c_Cache c))) /\
  version_known (mongo_Tls (cache_MongoDb (c_Cache c))).

Definition normal_intervals (c : Config) : Prop :=
  goff_CachePollInterval (c_GlobalOfflineConfig c) <> 0 /\ profile_PollInterval (c_Profile c) <> 0 /\
  profile_WebhookSignatureValidFor (c_Profile c) <> 0.

Definition normal_config (c : Config) : Prop :=
  normal_levels c /\ normal_versions c /\ normal_intervals c /\
  (forall id s, c_SDKs c !! id = Some (Some s) -> normal_sdk (c_GlobalOfflineConfig c) s).

(** ** The fix-ups establish it *)

Lemma fixup_level_known def l :
  level_known {| log_Level := def |} -> level_known (fixup_level def l).
Proof.
  intros Hd. unfold fixup_level. destruct (GetLevel l =? Level.None) eqn:Hl; [done|].
  by apply Z.eqb_neq in Hl.
Qed.

Lemma if_zero_nonzero d x : d <> 0 -> if_zero d x <> 0.
Proof. intros Hd. unfold if_zero. destruct (x =? 0) eqn:Hx; bool_prop; done. Qed.

Lemma fixup_version_known v : is_Some (tls_version (fixup_version f64_1_2 v)).
Proof.
  unfold fixup_version. destruct (tls_version v) as [n|] eqn:Hv; [rewrite Hv; eauto|].
  eexists. by vm_compute.
Qed.

#[local] Hint Resolve fixup_level_known if_zero_nonzero fixup_version_known : proxy.

Lemma fixup_sdk_normal (g : GlobalOfflineConfig) (def : string) (s : SDKConfig) :
  level_known {| log_Level := def |} -> level_known (goff_Log g) -> goff_CachePollInterval g <> 0 ->
  let s1 := fixup_sdk_defaults (on_sdk_Offline (on_off_Log (fixup_level def))
              (on_sdk_Log (fixup_level def) s)) in
  normal_sdk g (if goff_Enabled g then fixup_sdk_offline g s1 else s1).
Proof.
  intros Hdef Hg Hpoll s1. subst s1. unfold normal_sdk, fixup_sdk_offline.
  destruct (goff_Enabled g); [destruct (off_Enabled (sdk_Offline s)) eqn:Ho|];
    simpl; rewrite ?Ho; simpl; split_and!; auto with proxy; try (by apply if_zero_nonzero); congruence.
Qed.

Lemma each_sdk_lookup f c id s :
  c_SDKs (each_sdk f c) !! id = Some (Some s) ->
  exists s0, c_SDKs c !! id = Some (Some s0) /\ s = f s0.
Proof.
  unfold each_sdk. simpl. rewrite lookup_fmap. intros Hs.
  apply fmap_Some in Hs as ([s0|] & Hs0 & [= ->]). eauto.
Qed.

(** Each stage establishes its part and keeps the parts established before it. *)
Lemma fixupLogLevels_levels def c :
  level_known {| log_Level := def |} -> level_known (c_Log c) -> normal_levels (fixupLogLevels def c).
Proof.
  intros Hdef Hc. destruct c. unfold normal_levels, fixupLogLevels. simpl in *.
  split_and!; auto with proxy.
Qed.

Lemma fixupDefaults_levels c : normal_levels c -> normal_levels (fixupDefaults c).
Proof. by destruct c. Qed.

Lemma fixupTls_levels v c : normal_levels c -> normal_levels (fixupTlsMinVersions v c).
Proof. by destruct c. Qed.

Lemma fixupDefaults_intervals c : normal_intervals (fixupDefaults c).
Proof. destruct c. unfold normal_intervals. simpl. split_and!; by apply if_zero_nonzero. Qed.

Lemma fixupTls_intervals v c : normal_intervals c -> normal_intervals (fixupTlsMinVersions v c).
Proof. by destruct c. Qed.

Lemma fixupTls_versions c : normal_versions (fixupTlsMinVersions f64_1_2 c).
Proof.
  destruct c. unfold normal_versions, version_known. simpl. split_and!; apply fixup_version_known.
Qed.

Lemma fixup_sdks l c id s :
  c_SDKs (fixupTlsMinVersions f64_1_2 (fixupDefaults (fixupLogLevels l c))) !! id = Some (Some s) ->
  exists s0, s = fixup_sdk_defaults (on_sdk_Offline (on_off_Log (fixup_level l))
                   (on_sdk_Log (fixup_level l) s0)).
Proof.
  destruct c. simpl. rewrite !lookup_fmap. intros Hs.
  destruct (_ !! id) as [[s0|]|]; simplify_eq/=. eauto.
Qed.

Lemma fixup_normal (c : Config) : normal_config (fixup c).
Proof.
  unfold fixup. set (c1 := if _ =? _ then _ else c). cbv zeta.
  assert (Hlog : level_known (c_Log c1)).
  { subst c1. destruct (GetLevel (c_Log c) =? Level.None) eqn:Hl; [by vm_compute|].
    by apply Z.eqb_neq in Hl. }
  clearbody c1.
  assert (Hdef : level_known {| log_Level := log_Level (c_Log c1) |}) by (by destruct (c_Log c1)).
  pose proof (fixupTls_levels f64_1_2 _ (fixupDefaults_levels _
                (fixupLogLevels_levels _ _ Hdef Hlog))) as Hlevels.
  pose proof (fixupTls_intervals f64_1_2 _ (fixupDefaults_intervals
                (fixupLogLevels (log_Level (c_Log c1)) c1))) as Hintervals.
  pose proof (fixupTls_versions (fixupDefaults (fixupLogLevels (log_Level (c_Log c1)) c1))) as Hversions.
  pose proof (fixup_sdks (log_Level (c_Log c1)) c1) as Hsdks.
  revert Hlevels Hintervals Hversions Hsdks. generalize (fixupTlsMinVersions f64_1_2
    (fixupDefaults (fixupLogLevels (log_Level (c_Log c1)) c1))). intros c2 Hl Hi Hv Hsdks.
  pose proof (fun s => fixup_sdk_normal (c_GlobalOfflineConfig c2) (log_Level (c_Log c1)) s Hdef
    (proj2 (proj2 (proj2 (proj2 (proj2 (proj2 Hl)))))) (proj1 Hi)) as Hn.
  unfold normal_config, fixupOffline. destruct (goff_Enabled _); cbn [negb].
  - split_and!; [by destruct c2..|]. intros id s Hs.
    apply each_sdk_lookup in Hs as (s1 & (s0 & ->)%Hsdks & ->). apply Hn.
  - split_and!; [done..|]. intros id s (s0 & ->)%Hsdks. apply Hn.
Qed.

(** *** Compiling the origin patterns *)
Section compile.
Context `{RegexpEngine}.

Lemma compileRegexes_ret (c c' : CORSConfig) :
  compileRegexes c = Ret c' ->
  cors_Enabled c' = cors_Enabled c /\ cors_AllowedOrigins c' = cors_AllowedOrigins c /\
  re_IfNoMatch (cors_AllowedOriginsRegex c') = re_IfNoMatch (cors_AllowedOriginsRegex c) /\
  re_Patterns (cors_AllowedOriginsRegex c') = re_Patterns (cors_AllowedOriginsRegex c) /\
  re_Regexes (cors_AllowedOriginsRegex c') =
    re_Regexes (cors_AllowedOriginsRegex c) ++
    (if cors_Enabled c then Build_Regexp <$> re_Patterns (cors_AllowedOriginsRegex c) else []) /\
  (cors_Enabled c = true ->
   Forall (fun p => regexp_compile p = Ret tt) (re_Patterns (cors_AllowedOriginsRegex c))).
Proof.
  unfold compileRegexes. destruct (cors_Enabled c) eqn:Hen; simpl.
  2:{ intros [= <-]. by rewrite app_nil_r. }
  intros Hf. enough (Hgen : forall l c0, go_fold (fun c1 pattern =>
      try? regexp_compile pattern;
      Ret (on_cors_AllowedOriginsRegex
             (on_re_Regexes (fun rs => rs ++ [{| re_pattern := pattern |}])) c1)) c0 l = Ret c' ->
      cors_Enabled c' = cors_Enabled c0 /\ cors_AllowedOrigins c' = cors_AllowedOrigins c0 /\
      re_IfNoMatch (cors_AllowedOriginsRegex c') = re_IfNoMatch (cors_AllowedOriginsRegex c0) /\
      re_Patterns (cors_AllowedOriginsRegex c') = re_Patterns (cors_AllowedOriginsRegex c0) /\
      re_Regexes (cors_AllowedOriginsRegex c') =
        re_Regexes (cors_AllowedOriginsRegex c0) ++ (Build_Regexp <$> l) /\
      Forall (fun p => regexp_compile p = Ret tt) l).
  { rewrite <- Hen. destruct (Hgen _ _ Hf) as (? & ? & ? & ? & ? & ?). auto 10. }
  clear. induction l as [|p l IH]; intros c0 Hf; simpl in Hf.
  - injection Hf as <-. by rewrite app_nil_r.
  - apply go_bind_ret in Hf as (c1 & Hc1 & Hf).
    apply go_try_ret in Hc1 as [[[] Hp] [= <-]].
    destruct (IH _ Hf) as (-> & -> & -> & -> & -> & ?). simpl.
    rewrite <- app_assoc. auto 10.
Qed.
End compile.

(** ** Properties *)

(** C30: whatever the configuration file and the environment say, a configuration
    that [LoadConfigFromFileAndEnvironment] returns is normal: every log level
    is a known one, every minimal TLS version is one the TLS library knows, no
    poll interval or signature window is left at zero, and under global offline
    mode every SDK is offline. *)
Theorem Load_normalizes `{OS, JSON, FloatText, MapRange, RegexpEngine, YAML}
    (path_join : list string -> string) (filePath : string) (c : Config)
    (Hload : LoadConfigFromFileAndEnvironment path_join filePath = Ret c) :
  normal_config c.
Proof.
  unfold LoadConfigFromFileAndEnvironment in Hload. cbv zeta in Hload.
  apply go_bind_ret in Hload as (c1 & _ & Hload).
  apply go_bind_ret in Hload as (c2 & _ & Hload).
  pose proof (fixup_normal c2) as Hn. revert Hload Hn. generalize (fixup c2). intros c3 Hc Hn.
  unfold compileOriginRegexes in Hc.
  do 3 apply go_bind_ret in Hc as (? & _ & Hc). injection Hc as <-. exact Hn.
Qed.

Lemma Load_normalizes_witness :
  let os : OS := {| os_getenv := fun k => if decide (k = "CONFIGCAT_OFFLINE_ENABLED") then "true" else "";
    os_stat := fun _ => StatNotExist ""; os_read_file := fun _ => Fail "";
    filepath_eval_symlinks := fun _ => Fail ""; runtime_goos := "linux" |} in
  let j := {| json_decode := fun _ => Fail "" |} in
  let ft := {| parse_float := fun _ => Fail ""; format_float := fun _ => "" |} in
  let re := {| regexp_compile := fun _ => Ret tt; regexp_match := fun _ _ => false |} in
  let ym := {| yaml_unmarshal := fun _ c => Ret c |} in
  exists c, @LoadConfigFromFileAndEnvironment os j ft canonical_range re ym (fun _ => "x") "" = Ret c /\
            normal_config c.
Proof.
  intros os j ft re ym. eexists. split; [by vm_compute|].
  apply (@Load_normalizes os j ft canonical_range re ym (fun _ => "x") ""). by vm_compute.
Defined.

(** Loading compiles the origin patterns of the API, the CDN proxy and the
    SSE endpoints, each pattern once and in order (and fails if one of them is
    not a valid expression), but never those of the OFREP endpoint: after a
    successful load the OFREP part of the configuration is the one the file and
    the environment gave, with no pattern compiled, however many it lists. *)
Theorem compileOriginRegexes_skips_ofrep `{RegexpEngine} (c c' : Config)
    (Hcomp : compileOriginRegexes c = Ret c') :
  let regexes cors := re_Regexes (cors_AllowedOriginsRegex cors) in
  let compiled cors := if cors_Enabled cors
    then Build_Regexp <$> re_Patterns (cors_AllowedOriginsRegex cors) else [] in
  let h := c_Http c in
  let h' := c_Http c' in
  regexes (api_CORS (http_Api h')) = regexes (api_CORS (http_Api h)) ++ compiled (api_CORS (http_Api h)) /\
  regexes (cdn_CORS (http_CdnProxy h')) =
    regexes (cdn_CORS (http_CdnProxy h)) ++ compiled (cdn_CORS (http_CdnProxy h)) /\
  regexes (sse_CORS (http_Sse h')) = regexes (sse_CORS (http_Sse h)) ++ compiled (sse_CORS (http_Sse h)) /\
  http_OFREP h' = http_OFREP h.
Proof.
  unfold compileOriginRegexes in Hcomp.
  apply go_bind_ret in Hcomp as (api & Hapi & Hcomp).
  apply go_bind_ret in Hcomp as (cdn & Hcdn & Hcomp).
  apply go_bind_ret in Hcomp as (sse & Hsse & [= <-]). simpl.
  apply compileRegexes_ret in Hapi, Hcdn, Hsse. tauto.
Qed.

Definition ofrep_patterns_config : Config :=
  on_c_Http (fun h => {| http_Enabled := true; http_Port := 8050; http_CdnProxy := http_CdnProxy h;
    http_OFREP := {| ofrep_AuthHeaders := ∅; ofrep_Headers := ∅; ofrep_Enabled := true;
      ofrep_CORS := {| cors_Enabled := true; cors_AllowedOrigins := [];
        cors_AllowedOriginsRegex := {| re_IfNoMatch := "https://example.com";
          re_Patterns := ["https://.*example.com"]; re_Regexes := [] |} |} |};
    http_Webhook := http_Webhook h; http_Sse := http_Sse h; http_Api := http_Api h;
    http_Status := http_Status h; http_Log := http_Log h |}) zero_Config.

Lemma compileOriginRegexes_skips_ofrep_witness :
  exists c', @compileOriginRegexes {| regexp_compile := fun _ => Ret tt; regexp_match := fun _ _ => false |}
               ofrep_patterns_config = Ret c' /\
  http_OFREP (c_Http c') = http_OFREP (c_Http ofrep_patterns_config).
Proof.
  eexists. split; [reflexivity|].
  eapply (@compileOriginRegexes_skips_ofrep {| regexp_compile := fun _ => Ret tt; regexp_match := fun _ _ => false |}
            ofrep_patterns_config). reflexivity.
Defined.
