(* ===== verification/Status.v ===== *)
(** [diag/status]: the status reporter, which keeps the last few outcomes of
    every SDK and of the cache and derives the health states the status endpoint
    shows. The operations of [reporter] run under its mutex, so each one is an
    atomic step on the state; the time of a report is an argument. *)
From S2P Require Import Prelude Go Utils ConfigTypes Config.
Open Scope Z_scope.

(** [diag/status/status.go:13] SDKSource *)
Inductive SDKSource := FileSrc | RemoteSrc | CacheSrc.

(** [diag/status/status.go:14] HealthStatus *)
Inductive HealthStatus := Healthy | Degraded | Initializing | Down | NA.

(** [diag/status/status.go:15] SDKMode *)
Inductive SDKMode := Offline | Online.

#[export] Instance SDKSource_eq_dec : EqDecision SDKSource.
Proof. solve_decision. Defined.
#[export] Instance HealthStatus_eq_dec : EqDecision HealthStatus.
Proof. solve_decision. Defined.

(** [diag/status/status.go:18] Cache *)
Definition Cache : string := "cache".

(** [diag/status/status.go:34] maxRecordCount *)
Definition maxRecordCount : nat := 5.

(** [diag/status/status.go:35] maxLastErrorsMeaningDegraded *)
Definition maxLastErrorsMeaningDegraded : Z := 2.

(** [diag/status/status.go:60-64] SdkSourceStatus *)
Record SdkSourceStatus := { src_Type : SDKSource; src_Status : HealthStatus; src_Records : list string }.

(** [diag/status/status.go:54-58] SdkStatus *)
Record SdkStatus := { ss_SdkKey : string; ss_Mode : SDKMode; ss_Source : SdkSourceStatus }.

(** [diag/status/status.go:66-69] CacheStatus *)
Record CacheStatus := { cs_Status : HealthStatus; cs_Records : list string }.

(** [diag/status/status.go:48-52] Status; the SDK statuses are pointers that
    only this map holds *)
Record Status := { st_Status : HealthStatus; st_SDKs : gmap string SdkStatus; st_Cache : CacheStatus }.

(** [diag/status/status.go:71-75] record; the time in seconds since 1970 *)
Record record := { rec_time : Z; rec_isError : bool; rec_message : string }.

(** [diag/status/status.go:77-82] reporter *)
Record reporter := {
  rp_records : gmap string (list record);
  rp_status : Status;
  rp_conf : CacheConfig
}.

Definition on_rp_records f (r : reporter) :=
  {| rp_records := f (rp_records r); rp_status := rp_status r; rp_conf := rp_conf r |}.
Definition on_rp_status f (r : reporter) :=
  {| rp_records := rp_records r; rp_status := f (rp_status r); rp_conf := rp_conf r |}.
Definition on_st_SDKs f (s : Status) :=
  {| st_Status := st_Status s; st_SDKs := f (st_SDKs s); st_Cache := st_Cache s |}.
Definition on_st_Cache f (s : Status) :=
  {| st_Status := st_Status s; st_SDKs := st_SDKs s; st_Cache := f (st_Cache s) |}.
Definition set_st_Status h (s : Status) :=
  {| st_Status := h; st_SDKs := st_SDKs s; st_Cache := st_Cache s |}.

(** ** Formatting the time of a record *)
Module Rfc1123.

Definition two_digits (z : Z) : string := (if z <? 10 then "0" else "") +:+ Itoa z.
Definition four_digits (z : Z) : string :=
  (if z <? 10 then "000" else if z <? 100 then "00" else if z <? 1000 then "0" else "") +:+ Itoa z.

(** the proleptic Gregorian date of a day counted from 1970-01-01 *)
Definition civil (days : Z) : Z * Z * Z :=
  let z := days + 719468 in
  let era := z / 146097 in
  let doe := z mod 146097 in
  let yoe := (doe - doe / 1460 + doe / 36524 - doe / 146096) / 365 in
  let doy := doe - (365 * yoe + yoe / 4 - yoe / 100) in
  let mp := (5 * doy + 2) / 153 in
  let d := doy - (153 * mp + 2) / 5 + 1 in
  let m := if mp <? 10 then mp + 3 else mp - 9 in
  (yoe + era * 400 + (if m <=? 2 then 1 else 0), m, d).

Definition weekdays := ["Thu"; "Fri"; "Sat"; "Sun"; "Mon"; "Tue"; "Wed"].
Definition months :=
  ["Jan"; "Feb"; "Mar"; "Apr"; "May"; "Jun"; "Jul"; "Aug"; "Sep"; "Oct"; "Nov"; "Dec"].

(** [t.UTC().Format(time.RFC1123)] *)
Definition format (sec : Z) : string :=
  let days := sec / 86400 in
  let tod := sec mod 86400 in
  let '(y, m, d) := civil days in
  nth (Z.to_nat (days mod 7)) weekdays "" +:+ ", " +:+ two_digits d +:+ " " +:+
  nth (Z.to_nat (m - 1)) months "" +:+ " " +:+ four_digits y +:+ " " +:+
  two_digits (tod / 3600) +:+ ":" +:+ two_digits (tod / 60 mod 60) +:+ ":" +:+
  two_digits (tod mod 60) +:+ " UTC".

Example format_reference : format 1136214245 = "Mon, 02 Jan 2006 15:04:05 UTC".
Proof. by vm_compute. Qed.
End Rfc1123.

(** ** Operations *)

(** [diag/status/status.go:88-101] NewReporter *)
Definition NewReporter (conf : CacheConfig) : reporter :=
  {| rp_records := ∅;
     rp_status := {| st_Status := Initializing; st_SDKs := ∅;
                     st_Cache := {| cs_Status := Initializing; cs_Records := [] |} |};
     rp_conf := conf |}.

(** [diag/status/status.go:84-86] NewEmptyReporter *)
Definition NewEmptyReporter : reporter := NewReporter zero_CacheConfig.

(** [diag/status/status.go:216-224] checkStatus, the error balance of the last
    records; [i] is the index of the first record of the list *)
Fixpoint error_count (length i errorCount : Z) (records : list record) : Z :=
  match records with
  | [] => errorCount
  | msg :: rest =>
      error_count length (i + 1)
        (if length - maxLastErrorsMeaningDegraded <=? i
         then if rec_isError msg then errorCount + 1 else errorCount - 1
         else errorCount) rest
  end.

(** [diag/status/status.go:212-230] checkStatus *)
Definition checkStatus (records : list record) : list string * HealthStatus :=
  let length := Z.of_nat (length records) in
  let targetRecords := (fun msg => Rfc1123.format (rec_time msg) +:+ ": " +:+ rec_message msg) <$> records in
  let errorCount := error_count length 0 0 records in
  if (0 <? errorCount) && (Z.min maxLastErrorsMeaningDegraded length <=? errorCount)
  then (targetRecords, Degraded) else (targetRecords, Healthy).

(** [diag/status/status.go:232-253] reCalcStatus; the loop only sets two flags *)
Definition reCalcStatus (r : reporter) : reporter :=
  let sdks := (map_to_list (st_SDKs (rp_status r))).*2 in
  let allSdksDown := forallb (fun sdk => bool_decide (src_Status (ss_Source sdk) = Down)) sdks in
  let hasDegradedSdk := existsb (fun sdk => bool_decide (src_Status (ss_Source sdk) <> Healthy)) sdks in
  if negb hasDegradedSdk && negb allSdksDown then on_rp_status (set_st_Status Healthy) r
  else
    let r := if hasDegradedSdk then on_rp_status (set_st_Status Degraded) r else r in
    if allSdksDown then on_rp_status (set_st_Status Down) r else r.

(** [diag/status/status.go:204-206] appendRecord, the status of an SDK that has
    never been healthy *)
Definition next_status (old stat : HealthStatus) : HealthStatus :=
  match stat, old with
  | Degraded, (Initializing | Down) => Down
  | _, _ => stat
  end.

(** [diag/status/status.go:182-210] appendRecord *)
Definition appendRecord (now : Z) (component message : string) (isError : bool) (r : reporter) : reporter :=
  let message := (if isError then "[error] " else "[ok] ") +:+ message in
  let recs := default [] (rp_records r !! component) in
  let recs := recs ++ [{| rec_time := now; rec_isError := isError; rec_message := message |}] in
  let recs := if (maxRecordCount <? length recs)%nat then tail recs else recs in
  let r := on_rp_records <[component := recs]> r in
  let '(rec, stat) := checkStatus recs in
  if bool_decide (component = Cache)
  then on_rp_status (on_st_Cache (fun _ => {| cs_Status := stat; cs_Records := rec |})) r
  else match st_SDKs (rp_status r) !! component with
       | Some sdk =>
           let src := {| src_Type := src_Type (ss_Source sdk);
                         src_Status := next_status (src_Status (ss_Source sdk)) stat;
                         src_Records := rec |} in
           reCalcStatus (on_rp_status (on_st_SDKs
             <[component := {| ss_SdkKey := ss_SdkKey sdk; ss_Mode := ss_Mode sdk; ss_Source := src |}]>) r)
       | None => r
       end.

(** [status.Cache.Status = NA] *)
Definition cache_na (r : reporter) : reporter :=
  on_rp_status (on_st_Cache (fun c => {| cs_Status := NA; cs_Records := cs_Records c |})) r.

(** [diag/status/status.go:103-131] RegisterSdk *)
Definition RegisterSdk (now : Z) (sdkId : string) (conf : SDKConfig) (r : reporter) : go reporter :=
  key <-? Obfuscate (sdk_Key conf) 5;
  let o := sdk_Offline conf in
  let file := bool_decide (local_FilePath (off_Local o) <> "") in
  let mode := if off_Enabled o then Offline else Online in
  let type := if off_Enabled o then if file then FileSrc else CacheSrc else RemoteSrc in
  let status := {| ss_SdkKey := key; ss_Mode := mode;
                   ss_Source := {| src_Type := type; src_Status := Initializing; src_Records := [] |} |} in
  let r := on_rp_status (on_st_SDKs <[sdkId := status]>) r in
  let r := if off_Enabled o && file then cache_na r else r in
  Ret (if negb (cache_IsSet (rp_conf r)) then
         let r := cache_na r in
         if bool_decide (type = CacheSrc)
         then appendRecord now sdkId "cache offline source enabled without a configured cache" true r
         else r
       else r).

(** [diag/status/status.go:133-139] UpdateSdk *)
Definition UpdateSdk (sdkId : string) (conf : SDKConfig) (r : reporter) : go reporter :=
  match st_SDKs (rp_status r) !! sdkId with
  | None => Panic
  | Some status =>
      key <-? Obfuscate (sdk_Key conf) 5;
      Ret (on_rp_status (on_st_SDKs <[sdkId := {| ss_SdkKey := key; ss_Mode := ss_Mode status;
                                                 ss_Source := ss_Source status |}]>) r)
  end.

(** [diag/status/status.go:141-148] RemoveSdk *)
Definition RemoveSdk (sdkId : string) (r : reporter) : reporter :=
  reCalcStatus (on_rp_records (delete sdkId) (on_rp_status (on_st_SDKs (delete sdkId)) r)).

(** [diag/status/status.go:150-155] ReportOk *)
Definition ReportOk (now : Z) (component message : string) (r : reporter) : reporter :=
  appendRecord now component message false r.

(** [diag/status/status.go:157-162] ReportError *)
Definition ReportError (now : Z) (component message : string) (r : reporter) : reporter :=
  appendRecord now component message true r.

(** [diag/status/status.go:175-180] GetStatus *)
Definition GetStatus (r : reporter) : Status := rp_status r.

(** An HTTP exchange: its status code and status line, or an error. *)
Inductive exchange := Response (code : Z) (status : string) | TransportError (err : string).

(** [diag/status/mware.go:19-33] RoundTrip, what it reports for an exchange *)
Definition RoundTrip (now : Z) (sdkId : string) (e : exchange) (r : reporter) : reporter :=
  match e with
  | TransportError _ => ReportError now sdkId "config fetch failed" r
  | Response code status =>
      if (200 <=? code) && (code <? 300) then ReportOk now sdkId "config fetched" r
      else if code =? 304 then ReportOk now sdkId "config not modified" r
      else ReportError now sdkId ("unexpected response received: " +:+ status) r
  end.

(** The calls a reporter receives, in the order the mutex admits them. *)
Inductive call :=
| CRegister (now : Z) (sdkId : string) (conf : SDKConfig)
| CUpdate (sdkId : string) (conf : SDKConfig)
| CRemove (sdkId : string)
| CReport (now : Z) (component message : string) (isError : bool).

Definition exec (r : reporter) (c : call) : go reporter :=
  match c with
  | CRegister now id conf => RegisterSdk now id conf r
  | CUpdate id conf => UpdateSdk id conf r
  | CRemove id => Ret (RemoveSdk id r)
  | CReport now id msg isError => Ret (appendRecord now id msg isError r)
  end.

(** ** Specification *)

(** the last [n] elements *)
Definition lastn {A} (n : nat) (l : list A) : list A := drop (length l - n) l.

(** [history h]: are the latest outcomes of [h] (two of them, or the only one)
    all errors? [true] stands for an error. *)
Definition failing (h : list bool) : bool :=
  match reverse h with
  | [] => false
  | [e] => e
  | e1 :: e2 :: _ => e1 && e2
  end.

(** The state an SDK's source is in after the outcomes [since] its registration,
    when [before] are those reported for it earlier, which the reporter keeps. *)
Definition source_state (before since : list bool) : HealthStatus :=
  if bool_decide (since = []) then Initializing
  else if failing (before ++ since)
       then if forallb id since && default true (last before) then Down else Degraded
  else Healthy.

(** is the SDK registered with a record of its own? *)
Definition registered_without_cache (conf : CacheConfig) (sdk : SDKConfig) : bool :=
  negb (cache_IsSet conf) && off_Enabled (sdk_Offline sdk) &&
  bool_decide (local_FilePath (off_Local (sdk_Offline sdk)) = "").

Definition mk_record (now : Z) (message : string) (isError : bool) : record :=
  {| rec_time := now; rec_isError := isError;
     rec_message := (if isError then "[error] " else "[ok] ") +:+ message |}.

(** The records a component received since the reporter was created or the
    component was removed. *)
Definition history_step (conf : CacheConfig) (c : string) (h : list record) (k : call) : list record :=
  match k with
  | CReport now id msg isError =>
      if bool_decide (id = c) then h ++ [mk_record now msg isError] else h
  | CRegister now id sdk =>
      if bool_decide (id = c) && registered_without_cache conf sdk
      then h ++ [mk_record now "cache offline source enabled without a configured cache" true] else h
  | CRemove id => if bool_decide (id = c) then [] else h
  | CUpdate _ _ => h
  end.

Definition history (conf : CacheConfig) (c : string) (calls : list call) : list record :=
  fold_left (history_step conf c) calls [].

(** What the calls make of a component: whether it is a registered SDK, and its
    outcomes before and since its last registration, none of them from before its
    last removal. *)
Record trail := { tr_registered : bool; tr_before : list record; tr_since : list record }.

Definition no_trail : trail := {| tr_registered := false; tr_before := []; tr_since := [] |}.
Definition tr_all (t : trail) : list record := tr_before t ++ tr_since t.

Definition trail_report (x : record) (t : trail) : trail :=
  if tr_registered t
  then {| tr_registered := true; tr_before := tr_before t; tr_since := tr_since t ++ [x] |}
  else {| tr_registered := false; tr_before := tr_all t ++ [x]; tr_since := [] |}.

Definition trail_register (t : trail) : trail :=
  {| tr_registered := true; tr_before := tr_all t; tr_since := [] |}.

Definition trail_step (conf : CacheConfig) (c : string) (t : trail) (k : call) : trail :=
  match k with
  | CReport now id msg isError =>
      if bool_decide (id = c) then trail_report (mk_record now msg isError) t else t
  | CRegister now id sdk =>
      if bool_decide (id = c)
      then if registered_without_cache conf sdk
           then trail_report (mk_record now "cache offline source enabled without a configured cache" true)
                  (trail_register t)
           else trail_register t
      else t
  | CRemove id => if bool_decide (id = c) then no_trail else t
  | CUpdate _ _ => t
  end.

Definition trail_of (conf : CacheConfig) (c : string) (calls : list call) : trail :=
  fold_left (trail_step conf c) calls no_trail.

(** the records an SDK is shown with: none before its first outcome, although the
    reporter may have earlier ones *)
Definition shown_records (t : trail) : list string :=
  if bool_decide (tr_since t = []) then [] else (checkStatus (lastn maxRecordCount (tr_all t))).1.

(** ** Lemmas *)
Lemma lastn_short {A} n (l : list A) : (length l <= n)%nat -> lastn n l = l.
Proof. intros Hl. unfold lastn. by replace (length l - n)%nat with 0%nat by lia. Qed.

Lemma length_lastn {A} n (l : list A) : length (lastn n l) = (length l `min` n)%nat.
Proof. unfold lastn. rewrite length_drop. lia. Qed.

Lemma lastn_snoc {A} n (l : list A) (x : A) :
  (0 < n)%nat ->
  (let recs := lastn n l ++ [x] in if (n <? length recs)%nat then tail recs else recs) = lastn n (l ++ [x]).
Proof.
  intros Hn. cbv zeta. rewrite length_app, length_lastn. simpl. unfold lastn. rewrite length_app. simpl.
  destruct (Nat.ltb_spec n (length l `min` n + 1)) as [Hlt|Hge].
  - rewrite <- drop_app_le by lia.
    replace (length l + 1 - n)%nat with (S (length l - n)) by lia.
    generalize (length l - n)%nat. intros k. generalize (l ++ [x]). intros l'.
    revert k. induction l' as [|y l' IH]; intros [|k]; simpl; auto.
  - replace (length l - n)%nat with 0%nat by lia. by replace (length l + 1 - n)%nat with 0%nat by lia.
Qed.

Lemma error_count_skip len i c pre suf :
  i + Z.of_nat (length pre) <= len - 2 ->
  error_count len i c (pre ++ suf) = error_count len (i + Z.of_nat (length pre)) c suf.
Proof.
  revert i. induction pre as [|x pre IH]; intros i Hi; simpl in *.
  - f_equal. lia.
  - destruct (Z.leb_spec (len - maxLastErrorsMeaningDegraded) i) as [Hle|Hgt].
    + unfold maxLastErrorsMeaningDegraded in Hle. lia.
    + rewrite IH by lia. f_equal. lia.
Qed.

Lemma list_snoc2 {A} (l : list A) : l = [] \/ (exists x, l = [x]) \/ exists p x y, l = p ++ [x; y].
Proof.
  destruct l as [|y l _] using rev_ind; [auto|].
  destruct l as [|x l _] using rev_ind; [eauto|].
  right. right. exists l, x, y. by rewrite <- app_assoc.
Qed.

Lemma failing_snoc2 h a b : failing (h ++ [a; b]) = b && a.
Proof. unfold failing. rewrite reverse_app. done. Qed.

Lemma checkStatus_status recs :
  (checkStatus recs).2 = if failing (rec_isError <$> recs) then Degraded else Healthy.
Proof.
  unfold checkStatus. destruct (list_snoc2 recs) as [-> | [[x ->] | (p & x & y & ->)]].
  - done.
  - simpl. by destruct (rec_isError x).
  - rewrite (fmap_app rec_isError), !fmap_cons, fmap_nil, failing_snoc2. rewrite length_app. simpl length.
    rewrite error_count_skip by lia. simpl.
    unfold maxLastErrorsMeaningDegraded.
    rewrite (proj2 (Z.leb_le _ _)) by lia. rewrite (proj2 (Z.leb_le _ _)) by lia.
    rewrite Z.min_l by lia. by destruct (rec_isError x), (rec_isError y).
Qed.

Lemma failing_lastn h n : (2 <= n)%nat -> failing (lastn n h) = failing h.
Proof.
  intros Hn. destruct (list_snoc2 h) as [-> | [[x ->] | (p & x & y & ->)]].
  - by rewrite lastn_short by (simpl; lia).
  - by rewrite lastn_short by (simpl; lia).
  - unfold lastn. rewrite length_app. simpl. rewrite drop_app_le by lia. by rewrite !failing_snoc2.
Qed.

Lemma failing_last h : failing (h ++ [true]) = default true (last h).
Proof. destruct h as [|y h _] using rev_ind; [done|]. by rewrite last_snoc, <- app_assoc; apply failing_snoc2. Qed.

Lemma failing_all b s :
  s <> [] -> forallb id s = true -> default true (last b) = true -> failing (b ++ s) = true.
Proof.
  intros Hs Hall Hb. destruct (list_snoc2 s) as [-> | [[x ->] | (p & x & y & ->)]]; [done| |].
  - simpl in Hall. rewrite andb_true_r in Hall. unfold id in Hall. subst x. by rewrite failing_last.
  - rewrite forallb_app in Hall. simpl in Hall. bool_prop. unfold id in *. rewrite app_assoc, failing_snoc2.
    by destruct x, y.
Qed.

(** The state after one more outcome depends on the state before it only. *)
Lemma source_state_snoc b s e :
  source_state b (s ++ [e]) =
  next_status (source_state b s) (if failing (b ++ s ++ [e]) then Degraded else Healthy).
Proof.
  unfold source_state. rewrite (bool_decide_eq_false_2 (s ++ [e] = [])) by (by destruct s).
  destruct (failing (b ++ s ++ [e])) eqn:Hf.
  2:{ by repeat case_match. }
  assert (He : e = true).
  { rewrite app_assoc in Hf. unfold failing in Hf. rewrite reverse_snoc in Hf.
    destruct (reverse (b ++ s)); [done|]. by bool_prop. }
  subst e. rewrite forallb_app. simpl. rewrite andb_true_r.
  case_bool_decide as Hs.
  - subst s. simpl in *. by rewrite failing_last in Hf; rewrite Hf.
  - destruct (forallb id s) eqn:Hall; simpl.
    + destruct (default true (last b)) eqn:Hb; [by rewrite failing_all|]. by destruct (failing (b ++ s)).
    + by destruct (failing (b ++ s)).
Qed.

Lemma reCalc_records r : rp_records (reCalcStatus r) = rp_records r.
Proof. unfold reCalcStatus. by repeat case_match. Qed.
Lemma reCalc_conf r : rp_conf (reCalcStatus r) = rp_conf r.
Proof. unfold reCalcStatus. by repeat case_match. Qed.
Lemma reCalc_SDKs r : st_SDKs (rp_status (reCalcStatus r)) = st_SDKs (rp_status r).
Proof. unfold reCalcStatus. by repeat case_match. Qed.

Lemma append_conf now c m e r : rp_conf (appendRecord now c m e r) = rp_conf r.
Proof. unfold appendRecord. repeat case_match; by rewrite ?reCalc_conf. Qed.

Definition trim (recs : list record) : list record :=
  if (maxRecordCount <? length recs)%nat then tail recs else recs.

Lemma append_records now c m e r :
  rp_records (appendRecord now c m e r) =
  <[c := trim (default [] (rp_records r !! c) ++ [mk_record now m e])]> (rp_records r).
Proof.
  unfold appendRecord. fold (mk_record now m e). cbv zeta.
  fold (trim (default [] (rp_records r !! c) ++ [mk_record now m e])).
  destruct (checkStatus _) as [rec stat]. case_match; [done|].
  case_match; by rewrite ?reCalc_records.
Qed.

Lemma append_SDKs_other now c m e r id :
  id <> c -> st_SDKs (rp_status (appendRecord now c m e r)) !! id = st_SDKs (rp_status r) !! id.
Proof.
  intros Hid. unfold appendRecord. repeat case_match; rewrite ?reCalc_SDKs; simpl; try done.
  all: by rewrite lookup_insert_ne by done.
Qed.

(** a report to an SDK that is not named as the cache *)
Lemma append_SDK_same now c m e r sdk :
  c <> Cache -> st_SDKs (rp_status r) !! c = Some sdk ->
  let recs := trim (default [] (rp_records r !! c) ++ [mk_record now m e]) in
  st_SDKs (rp_status (appendRecord now c m e r)) !! c = Some
    {| ss_SdkKey := ss_SdkKey sdk; ss_Mode := ss_Mode sdk;
       ss_Source := {| src_Type := src_Type (ss_Source sdk);
                       src_Status := next_status (src_Status (ss_Source sdk)) (checkStatus recs).2;
                       src_Records := (checkStatus recs).1 |} |}.
Proof.
  intros Hc Hs recs. unfold appendRecord. fold (mk_record now m e). cbv zeta.
  fold (trim (default [] (rp_records r !! c) ++ [mk_record now m e])). fold recs. destruct (checkStatus recs) as [rec stat].
  rewrite bool_decide_eq_false_2 by done. simpl. rewrite Hs, reCalc_SDKs. simpl.
  by rewrite lookup_insert_eq.
Qed.

(** a report for the cache *)
Lemma append_cache now m e r :
  st_SDKs (rp_status (appendRecord now Cache m e r)) = st_SDKs (rp_status r) /\
  st_Status (rp_status (appendRecord now Cache m e r)) = st_Status (rp_status r).
Proof. unfold appendRecord. by destruct (checkStatus _). Qed.

Lemma append_cache_records now m e r :
  cs_Records (st_Cache (rp_status (appendRecord now Cache m e r))) =
  (checkStatus (trim (default [] (rp_records r !! Cache) ++ [mk_record now m e]))).1.
Proof.
  unfold appendRecord. fold (mk_record now m e). cbv zeta.
  fold (trim (default [] (rp_records r !! Cache) ++ [mk_record now m e])). by destruct (checkStatus _).
Qed.

(** a report for anything else leaves the cache's status *)
Lemma reCalc_Cache r : st_Cache (rp_status (reCalcStatus r)) = st_Cache (rp_status r).
Proof. unfold reCalcStatus. by repeat case_match. Qed.

Lemma append_other_cache now c m e r :
  c <> Cache -> st_Cache (rp_status (appendRecord now c m e r)) = st_Cache (rp_status r).
Proof.
  intros Hc. unfold appendRecord. cbv zeta. destruct (checkStatus _) as [rec stat].
  rewrite bool_decide_eq_false_2 by done. case_match; [by rewrite reCalc_Cache | done].
Qed.

(** a report for an SDK that is not registered *)
Lemma append_SDK_none now c m e r :
  c <> Cache -> st_SDKs (rp_status r) !! c = None -> st_SDKs (rp_status (appendRecord now c m e r)) !! c = None.
Proof.
  intros Hc Hs. unfold appendRecord. cbv zeta. destruct (checkStatus _) as [rec stat].
  rewrite bool_decide_eq_false_2 by done. simpl. by rewrite Hs.
Qed.

Lemma Obfuscate_5 s : exists k, Obfuscate s 5 = Ret k.
Proof. unfold Obfuscate. case_match; eauto. Qed.

Lemma exec_panics (r : reporter) (c : call) :
  (exists r', exec r c = Ret r') \/
  (exec r c = Panic /\ exists sid conf, c = CUpdate sid conf /\ st_SDKs (rp_status r) !! sid = None).
Proof.
  destruct c as [now sid conf | sid conf | sid | now sid m e]; simpl.
  - left. unfold RegisterSdk. destruct (Obfuscate_5 (sdk_Key conf)) as [k ->]. by eexists.
  - unfold UpdateSdk. destruct (_ !! sid) eqn:Hs; [left | right; eauto].
    destruct (Obfuscate_5 (sdk_Key conf)) as [k ->]. by eexists.
  - left. by eexists.
  - left. by eexists.
Qed.

Definition sdk_mode (o : OfflineConfig) : SDKMode := if off_Enabled o then Offline else Online.
Definition sdk_source (o : OfflineConfig) : SDKSource :=
  if off_Enabled o
  then if bool_decide (local_FilePath (off_Local o) <> "") then FileSrc else CacheSrc
  else RemoteSrc.

Lemma RegisterSdk_shape now sid conf r :
  exists k r1,
  RegisterSdk now sid conf r = Ret (if registered_without_cache (rp_conf r) conf
    then appendRecord now sid "cache offline source enabled without a configured cache" true r1 else r1) /\
  Obfuscate (sdk_Key conf) 5 = Ret k /\
  rp_records r1 = rp_records r /\ rp_conf r1 = rp_conf r /\
  st_SDKs (rp_status r1) = <[sid := {| ss_SdkKey := k; ss_Mode := sdk_mode (sdk_Offline conf);
    ss_Source := {| src_Type := sdk_source (sdk_Offline conf); src_Status := Initializing;
                    src_Records := [] |} |}]> (st_SDKs (rp_status r)) /\
  cs_Records (st_Cache (rp_status r1)) = cs_Records (st_Cache (rp_status r)).
Proof.
  destruct (Obfuscate_5 (sdk_Key conf)) as [k Hk]. exists k.
  unfold RegisterSdk, registered_without_cache, sdk_mode, sdk_source. rewrite Hk. simpl.
  destruct (off_Enabled (sdk_Offline conf)); simpl;
    [destruct (decide (local_FilePath (off_Local (sdk_Offline conf)) = "")) as [He|He]|].
  - rewrite (bool_decide_eq_false_2 (_ <> _)) by tauto. rewrite (bool_decide_eq_true_2 (_ = "")) by done.
    simpl. destruct (cache_IsSet (rp_conf r)); simpl; eexists; (split; [reflexivity | by split_and!]).
  - rewrite (bool_decide_eq_true_2 (_ <> _)) by done. rewrite (bool_decide_eq_false_2 (_ = "")) by done.
    simpl. rewrite andb_false_r. destruct (cache_IsSet (rp_conf r)); simpl; eexists; (split; [reflexivity | by split_and!]).
  - rewrite andb_false_r. destruct (cache_IsSet (rp_conf r)); simpl; eexists; (split; [reflexivity | by split_and!]).
Qed.

(** *** The records are the tail of the history *)
Lemma trim_lastn h x : trim (lastn maxRecordCount h ++ [x]) = lastn maxRecordCount (h ++ [x]).
Proof. unfold trim. apply (lastn_snoc maxRecordCount h x). unfold maxRecordCount. lia. Qed.

Lemma exec_conf r c r' : exec r c = Ret r' -> rp_conf r' = rp_conf r.
Proof.
  destruct c as [now sid conf | sid conf | sid | now sid m e]; simpl.
  - destruct (RegisterSdk_shape now sid conf r) as (k & r1 & -> & _ & _ & Hc & _). intros [= <-].
    case_match; by rewrite ?append_conf.
  - unfold UpdateSdk. destruct (_ !! sid); [|done].
    destruct (Obfuscate_5 (sdk_Key conf)) as [k ->]. by intros [= <-].
  - intros [= <-]. unfold RemoveSdk. by rewrite reCalc_conf.
  - intros [= <-]. apply append_conf.
Qed.

Lemma exec_records r c r' comp :
  exec r c = Ret r' ->
  forall h, default [] (rp_records r !! comp) = lastn maxRecordCount h ->
  default [] (rp_records r' !! comp) = lastn maxRecordCount (history_step (rp_conf r) comp h c).
Proof.
  assert (Happ : forall now id m e r h, default [] (rp_records r !! comp) = lastn maxRecordCount h ->
    default [] (rp_records (appendRecord now id m e r) !! comp) =
    lastn maxRecordCount (if bool_decide (id = comp) then h ++ [mk_record now m e] else h)).
  { intros now id m e r0 h Hh. rewrite append_records. case_bool_decide as Hid.
    - subst id. by rewrite lookup_insert_eq, Hh, <- trim_lastn.
    - by rewrite lookup_insert_ne. }
  intros Hexec h Hh. destruct c as [now sid conf | sid conf | sid | now sid m e]; simpl in *.
  - destruct (RegisterSdk_shape now sid conf r) as (k & r1 & Hret & _ & Hr & _ & _).
    rewrite Hret in Hexec. injection Hexec as <-. rewrite <- Hr in Hh.
    destruct (registered_without_cache _ _); rewrite ?andb_true_r, ?andb_false_r; [|done].
    by apply Happ.
  - unfold UpdateSdk in Hexec. destruct (_ !! sid); [|done].
    destruct (Obfuscate_5 (sdk_Key conf)) as [k Hk]. rewrite Hk in Hexec. by injection Hexec as <-.
  - injection Hexec as <-. unfold RemoveSdk. rewrite reCalc_records. simpl. case_bool_decide as Hid.
    + subst. by rewrite lookup_delete_eq.
    + by rewrite lookup_delete_ne.
  - injection Hexec as <-. by apply Happ.
Qed.

Lemma run_records calls r r' conf comp h :
  rp_conf r = conf -> go_fold exec r calls = Ret r' ->
  default [] (rp_records r !! comp) = lastn maxRecordCount h ->
  default [] (rp_records r' !! comp) = lastn maxRecordCount (fold_left (history_step conf comp) calls h).
Proof.
  revert r h. induction calls as [|c calls IH]; intros r h Hconf Hrun Hh; simpl in *.
  - by injection Hrun as <-.
  - apply go_bind_ret in Hrun as (r1 & Hc & Hrun).
    apply (IH r1); [by rewrite (exec_conf _ _ _ Hc)|done|].
    rewrite <- Hconf. by apply (exec_records _ _ _ _ Hc).
Qed.

(** *** What is shown of a component follows its trail *)
Lemma lastn_fmap {A B} (f : A -> B) n l : f <$> lastn n l = lastn n (f <$> l).
Proof. unfold lastn. by rewrite fmap_drop, length_fmap. Qed.

Lemma trail_report_all x t : tr_all (trail_report x t) = tr_all t ++ [x].
Proof. unfold trail_report, tr_all. destruct (tr_registered t); simpl; by rewrite ?app_nil_r, ?app_assoc. Qed.

(** [shows id t sdk]: the SDK shows what its trail calls for. *)
Definition shows (id : string) (t : trail) (sdk : SdkStatus) : Prop :=
  id <> Cache ->
  src_Status (ss_Source sdk) = source_state (rec_isError <$> tr_before t) (rec_isError <$> tr_since t) /\
  src_Records (ss_Source sdk) = shown_records t.

(** [tracks id r t]: the reporter knows and shows of [id] what its trail [t]
    calls for. *)
Definition tracks (id : string) (r : reporter) (t : trail) : Prop :=
  default [] (rp_records r !! id) = lastn maxRecordCount (tr_all t) /\
  match st_SDKs (rp_status r) !! id with
  | Some sdk => tr_registered t = true /\ shows id t sdk
  | None => tr_registered t = false
  end.

Lemma tracks_report id now m e r t :
  tracks id r t -> tracks id (appendRecord now id m e r) (trail_report (mk_record now m e) t).
Proof.
  intros [Hrec Hsdk]. split.
  { by rewrite append_records, lookup_insert_eq, Hrec, trail_report_all, <- trim_lastn. }
  destruct (decide (id = Cache)) as [->|Hid].
  { rewrite (proj1 (append_cache now m e r)). unfold trail_report.
    destruct (st_SDKs (rp_status r) !! Cache); [destruct Hsdk as [-> _]; by split | by rewrite Hsdk]. }
  destruct (st_SDKs (rp_status r) !! id) as [sdk|] eqn:Hs.
  - destruct Hsdk as [Hreg Hshow]. destruct (Hshow Hid) as [Hst _].
    rewrite (append_SDK_same _ _ _ _ _ _ Hid Hs), Hrec, trim_lastn.
    unfold trail_report. rewrite Hreg. split; [done|]. intros _. cbn [ss_Source src_Status src_Records tr_before tr_since].
    rewrite Hst, checkStatus_status, lastn_fmap, failing_lastn by (unfold maxRecordCount; lia).
    unfold shown_records, tr_all. cbn [tr_before tr_since]. rewrite bool_decide_eq_false_2 by (by destruct (tr_since t)).
    rewrite <- app_assoc, !fmap_app. cbn [fmap list_fmap mk_record rec_isError]. by rewrite source_state_snoc.
  - rewrite append_SDK_none by done. unfold trail_report. by rewrite Hsdk.
Qed.

Lemma tracks_report_other id id' now m e r t :
  id' <> id -> tracks id r t -> tracks id (appendRecord now id' m e r) t.
Proof.
  intros Hid [Hrec Hsdk]. split.
  - by rewrite append_records, lookup_insert_ne.
  - by rewrite append_SDKs_other.
Qed.

Lemma tracks_register id now conf r r' t :
  RegisterSdk now id conf r = Ret r' -> tracks id r t ->
  tracks id r' (trail_step (rp_conf r) id t (CRegister now id conf)).
Proof.
  intros Hreg [Hrec _]. destruct (RegisterSdk_shape now id conf r) as (k & r1 & Hret & _ & Hr & _ & Hs & _).
  rewrite Hret in Hreg. injection Hreg as <-. simpl. rewrite bool_decide_eq_true_2 by done.
  assert (Ht : tracks id r1 (trail_register t)).
  { split; [by unfold tr_all; simpl; rewrite app_nil_r, Hr|]. rewrite Hs, lookup_insert_eq. split; done. }
  destruct (registered_without_cache _ _); [by apply tracks_report | done].
Qed.

Lemma tracks_exec id r c r' t :
  exec r c = Ret r' -> tracks id r t -> tracks id r' (trail_step (rp_conf r) id t c).
Proof.
  intros Hexec Ht. destruct c as [now sid conf | sid conf | sid | now sid m e].
  - destruct (decide (sid = id)) as [->|Hne]; [by eapply tracks_register|].
    simpl. rewrite bool_decide_eq_false_2 by done.
    destruct (RegisterSdk_shape now sid conf r) as (k & r1 & Hret & _ & Hr & _ & Hs & _).
    simpl in Hexec. rewrite Hret in Hexec. injection Hexec as <-.
    assert (tracks id r1 t) by (unfold tracks; rewrite Hr, Hs, lookup_insert_ne by done; exact Ht).
    case_match; [by apply tracks_report_other | done].
  - simpl in *. unfold UpdateSdk in Hexec. destruct (_ !! sid) as [s|] eqn:Hs; [|done].
    destruct (Obfuscate_5 (sdk_Key conf)) as [k Hk]. rewrite Hk in Hexec. injection Hexec as <-.
    destruct Ht as [Hrec Hsdk]. split; [done|]. simpl.
    destruct (decide (sid = id)) as [->|Hne]; [|by rewrite lookup_insert_ne].
    rewrite lookup_insert_eq. rewrite Hs in Hsdk. exact Hsdk.
  - simpl in *. injection Hexec as <-. unfold tracks, RemoveSdk. rewrite reCalc_records, reCalc_SDKs. simpl.
    case_bool_decide as Hid; [subst; by rewrite !lookup_delete_eq | by rewrite !lookup_delete_ne].
  - simpl in *. injection Hexec as <-. case_bool_decide as Hsid.
    + subst. by apply tracks_report.
    + by apply tracks_report_other.
Qed.

Lemma tracks_run id calls conf r r' t :
  rp_conf r = conf -> go_fold exec r calls = Ret r' -> tracks id r t ->
  tracks id r' (fold_left (trail_step conf id) calls t).
Proof.
  revert r t. induction calls as [|c calls IH]; intros r t Hconf Hrun Ht; simpl in *.
  - by injection Hrun as <-.
  - apply go_bind_ret in Hrun as (r1 & Hexec & Hrun).
    apply (IH r1); [by rewrite (exec_conf _ _ _ Hexec) | done |].
    rewrite <- Hconf. by apply tracks_exec.
Qed.

Lemma trail_history conf id calls : tr_all (trail_of conf id calls) = history conf id calls.
Proof.
  unfold trail_of, history. change (@nil record) with (tr_all no_trail). generalize no_trail.
  induction calls as [|c calls IH]; intros t; [done|]. simpl. rewrite IH. f_equal.
  destruct c; simpl; repeat case_match; rewrite ?trail_report_all; unfold tr_all; simpl; rewrite ?app_nil_r; try done.
Qed.

Lemma tracks_trail id calls conf r :
  go_fold exec (NewReporter conf) calls = Ret r -> tracks id r (trail_of conf id calls).
Proof. intros Hrun. by apply (tracks_run id calls conf (NewReporter conf) r no_trail). Qed.

(** *** The records the cache is shown with *)
Definition keeps_cache (c : call) : Prop := c <> CRemove Cache.

Lemma exec_cache_records r c r' h :
  keeps_cache c -> exec r c = Ret r' -> default [] (rp_records r !! Cache) = lastn maxRecordCount h ->
  cs_Records (st_Cache (rp_status r)) = (checkStatus (lastn maxRecordCount h)).1 ->
  cs_Records (st_Cache (rp_status r')) = (checkStatus (lastn maxRecordCount (history_step (rp_conf r) Cache h c))).1.
Proof.
  intros Hc Hexec Hrec Hs. destruct c as [now sid conf | sid conf | sid | now sid m e]; simpl in *.
  - destruct (RegisterSdk_shape now sid conf r) as (k & r1 & Hret & _ & Hr & _ & _ & Hs1).
    rewrite Hret in Hexec. injection Hexec as <-.
    destruct (registered_without_cache _ _); rewrite ?andb_true_r, ?andb_false_r; [|by rewrite Hs1].
    case_bool_decide as Hid.
    + subst sid. by rewrite append_cache_records, Hr, Hrec, trim_lastn.
    + by rewrite append_other_cache, Hs1.
  - unfold UpdateSdk in Hexec. destruct (_ !! sid); [|done].
    destruct (Obfuscate_5 (sdk_Key conf)) as [k Hk]. rewrite Hk in Hexec. by injection Hexec as <-.
  - injection Hexec as <-. rewrite bool_decide_eq_false_2 by (intros ->; by apply Hc).
    unfold RemoveSdk. by rewrite reCalc_Cache.
  - injection Hexec as <-. case_bool_decide as Hid.
    + subst sid. by rewrite append_cache_records, Hrec, trim_lastn.
    + by rewrite append_other_cache.
Qed.

Lemma run_cache_records calls conf r r' h :
  rp_conf r = conf -> Forall keeps_cache calls -> go_fold exec r calls = Ret r' ->
  default [] (rp_records r !! Cache) = lastn maxRecordCount h ->
  cs_Records (st_Cache (rp_status r)) = (checkStatus (lastn maxRecordCount h)).1 ->
  cs_Records (st_Cache (rp_status r')) =
    (checkStatus (lastn maxRecordCount (fold_left (history_step conf Cache) calls h))).1.
Proof.
  revert r h. induction calls as [|c calls IH]; intros r h Hconf Hk Hrun Hrec Hs; simpl in *.
  - by injection Hrun as <-.
  - apply Forall_cons in Hk as [Hc Hk]. apply go_bind_ret in Hrun as (r1 & Hexec & Hrun).
    apply (IH r1); [by rewrite (exec_conf _ _ _ Hexec) | done | done | |]; rewrite <- Hconf.
    + by eapply exec_records.
    + by apply exec_cache_records.
Qed.

(** *** The SDKs a reporter knows *)
Lemma append_dom now c m e r :
  dom (st_SDKs (rp_status (appendRecord now c m e r))) = dom (st_SDKs (rp_status r)).
Proof.
  unfold appendRecord. cbv zeta. destruct (checkStatus _) as [rec stat].
  case_match; [done|]. case_match; [|done]. rewrite reCalc_SDKs. simpl.
  apply dom_insert_lookup_L. eauto.
Qed.

Lemma RegisterSdk_dom now sid conf r :
  exists r', RegisterSdk now sid conf r = Ret r' /\
    dom (st_SDKs (rp_status r')) = {[sid]} ∪ dom (st_SDKs (rp_status r)).
Proof.
  destruct (RegisterSdk_shape now sid conf r) as (k & r1 & -> & _ & _ & _ & Hs & _).
  eexists. split; [done|]. case_match; rewrite ?append_dom, Hs; apply dom_insert_L.
Qed.

Lemma UpdateSdk_dom sid conf r :
  sid ∈ dom (st_SDKs (rp_status r)) ->
  exists r', UpdateSdk sid conf r = Ret r' /\
    dom (st_SDKs (rp_status r')) = dom (st_SDKs (rp_status r)).
Proof.
  intros [s Hs]%elem_of_dom. unfold UpdateSdk. rewrite Hs.
  destruct (Obfuscate_5 (sdk_Key conf)) as [k ->]. simpl. eexists. split; [done|]. simpl.
  apply dom_insert_lookup_L. eauto.
Qed.

Lemma RemoveSdk_dom sid r :
  dom (st_SDKs (rp_status (RemoveSdk sid r))) = dom (st_SDKs (rp_status r)) ∖ {[sid]}.
Proof. unfold RemoveSdk. rewrite reCalc_SDKs. apply dom_delete_L. Qed.

(** ** Properties *)

(** C20: in every sequence of calls to a new reporter, the records it keeps of a
    component are the last five of the outcomes reported for it since it was last
    removed, in the order of their reports. An SDK (not named as the cache
    component) is shown with exactly these records once an outcome has been
    reported since its last registration, and with none before, even when earlier
    ones are kept; the cache is shown with exactly these records as long as no SDK
    of its name is removed. *)
Theorem records_are_the_latest (conf : CacheConfig) (calls : list call) (r : reporter) (comp : string)
    (Hrun : go_fold exec (NewReporter conf) calls = Ret r) :
  let latest c := lastn maxRecordCount (history conf c calls) in
  default [] (rp_records r !! comp) = latest comp /\
  (forall sdk, comp <> Cache -> st_SDKs (GetStatus r) !! comp = Some sdk ->
     src_Records (ss_Source sdk) =
       if bool_decide (tr_since (trail_of conf comp calls) = []) then [] else (checkStatus (latest comp)).1) /\
  (Forall keeps_cache calls -> cs_Records (st_Cache (GetStatus r)) = (checkStatus (latest Cache)).1).
Proof.
  split_and!.
  - by eapply (run_records calls (NewReporter conf)).
  - intros sdk Hc Hs. destruct (tracks_trail comp calls conf r Hrun) as [_ Ht].
    unfold GetStatus in Hs. rewrite Hs in Ht. destruct Ht as [_ Hshow]. destruct (Hshow Hc) as [_ ->].
    unfold shown_records. by rewrite trail_history.
  - intros Hk. by eapply (run_cache_records calls conf (NewReporter conf) r []).
Qed.

Definition six_reports : list call :=
  CRegister 0 "a" zero_SDKConfig :: ((fun m => CReport 0 "a" m false) <$> ["1"; "2"; "3"; "4"; "5"; "6"]).

Definition ret_or {A} (d : A) (m : go A) : A := match m with Ret a => a | _ => d end.
Definition after_six : reporter := ret_or NewEmptyReporter (go_fold exec NewEmptyReporter six_reports).

Lemma records_are_the_latest_witness :
  exists sdk, st_SDKs (GetStatus after_six) !! "a" = Some sdk /\
    length (src_Records (ss_Source sdk)) = 5%nat /\
    cs_Records (st_Cache (GetStatus after_six)) = [].
Proof.
  destruct (records_are_the_latest zero_CacheConfig six_reports after_six "a") as (_ & Hshown & Hcache).
  - vm_compute. reflexivity.
  - eexists. split; [vm_compute; reflexivity|]. split.
    + rewrite (Hshown _); [vm_compute; reflexivity | discriminate | vm_compute; reflexivity].
    + rewrite Hcache; [vm_compute; reflexivity | repeat constructor; discriminate].
Defined.

(** C21: in every sequence of calls to a new reporter, the reporter shows exactly
    the SDKs that were registered and not removed since. The source of each (not
    named as the cache component) is [initializing] before the first outcome since
    its registration, [healthy] unless its latest two outcomes (or its only one)
    are errors, and when they are, [down] while every outcome since its
    registration was an error and so was the one before it, if there was one, and
    [degraded] after a success. Outcomes reported before the registration count,
    as the latest of two; those before a removal do not. *)
Theorem source_state_machine (conf : CacheConfig) (calls : list call) (r : reporter) (id : string)
    (Hrun : go_fold exec (NewReporter conf) calls = Ret r) :
  let t := trail_of conf id calls in
  (is_Some (st_SDKs (GetStatus r) !! id) <-> tr_registered t = true) /\
  forall sdk, id <> Cache -> st_SDKs (GetStatus r) !! id = Some sdk ->
    src_Status (ss_Source sdk) = source_state (rec_isError <$> tr_before t) (rec_isError <$> tr_since t).
Proof.
  intros t. destruct (tracks_trail id calls conf r Hrun) as [_ Ht]. fold t in Ht. unfold GetStatus. split.
  - destruct (st_SDKs (rp_status r) !! id); [split; [by destruct Ht | by eexists]|]. rewrite Ht. split; [by intros [? ?] | done].
  - intros sdk Hid Hs. rewrite Hs in Ht. destruct Ht as [_ Hshow]. by destruct (Hshow Hid).
Qed.

(** an SDK that a success is reported for before it is registered: its first error
    then leaves it healthy *)
Definition early_success : list call :=
  [CReport 0 "t" "m" false; CRegister 0 "t" zero_SDKConfig; CReport 1 "u" "m" true; CReport 1 "t" "m" true].
Definition outage : list call := early_success ++ [CReport 2 "t" "m" true].
Definition after_outage : reporter := ret_or NewEmptyReporter (go_fold exec NewEmptyReporter outage).
Definition after_early_success : reporter := ret_or NewEmptyReporter (go_fold exec NewEmptyReporter early_success).

Lemma source_state_machine_witness :
  (exists sdk, st_SDKs (GetStatus after_outage) !! "t" = Some sdk /\ src_Status (ss_Source sdk) = Degraded) /\
  exists sdk, st_SDKs (GetStatus after_early_success) !! "t" = Some sdk /\ src_Status (ss_Source sdk) = Healthy.
Proof.
  split.
  - destruct (source_state_machine zero_CacheConfig outage after_outage "t") as [_ Hst];
      [vm_compute; reflexivity|].
    eexists. split; [vm_compute; reflexivity|].
    rewrite (Hst _); [vm_compute; reflexivity | discriminate | vm_compute; reflexivity].
  - destruct (source_state_machine zero_CacheConfig early_success after_early_success "t") as [_ Hst];
      [vm_compute; reflexivity|].
    eexists. split; [vm_compute; reflexivity|].
    rewrite (Hst _); [vm_compute; reflexivity | discriminate | vm_compute; reflexivity].
Defined.

(** the overall state that the states of the sources call for *)
Definition overall (sdks : gmap string SdkStatus) (h : HealthStatus) : Prop :=
  let all s := forall id sdk, sdks !! id = Some sdk -> src_Status (ss_Source sdk) = s in
  (h = Down <-> all Down) /\
  (h = Healthy <-> sdks <> ∅ /\ all Healthy) /\
  (h = Down \/ h = Healthy \/ h = Degraded).

Lemma sdks_forall (P : HealthStatus -> Prop) (m : gmap string SdkStatus) :
  Forall (fun sdk => P (src_Status (ss_Source sdk))) (map_to_list m).*2 <->
  forall id sdk, m !! id = Some sdk -> P (src_Status (ss_Source sdk)).
Proof.
  rewrite Forall_fmap, Forall_forall. split.
  - intros Hl id sdk Hs. by apply (Hl (id, sdk)), elem_of_map_to_list.
  - intros Hm [id sdk] Hin%elem_of_map_to_list. by apply (Hm id).
Qed.

Lemma overall_reCalc r : overall (st_SDKs (rp_status r)) (st_Status (rp_status (reCalcStatus r))).
Proof.
  unfold overall. rewrite <- !(sdks_forall (fun h => h = _)). unfold reCalcStatus.
  rewrite <- map_to_list_empty_iff. set (m := map_to_list (st_SDKs (rp_status r))).
  assert (Hd : forallb (fun sdk => bool_decide (src_Status (ss_Source sdk) = Down)) m.*2 = true <->
               Forall (fun sdk => src_Status (ss_Source sdk) = Down) m.*2).
  { rewrite <- Is_true_true, forallb_True. apply Forall_iff. intros s. apply bool_decide_spec. }
  assert (Hh : existsb (fun sdk => bool_decide (src_Status (ss_Source sdk) <> Healthy)) m.*2 = false <->
               Forall (fun sdk => src_Status (ss_Source sdk) = Healthy) m.*2).
  { clear Hd. generalize m.*2. induction l as [|s l IH]; simpl; [by split|].
    rewrite orb_false_iff, Forall_cons, IH, bool_decide_eq_false.
    destruct (decide (src_Status (ss_Source s) = Healthy)); tauto. }
  assert (Hdh : Forall (fun sdk => src_Status (ss_Source sdk) = Down) m.*2 ->
                Forall (fun sdk => src_Status (ss_Source sdk) = Healthy) m.*2 -> m = []).
  { destruct m as [|[id s] m']; [done|]. simpl. intros [Hs1 _]%Forall_cons [Hs2 _]%Forall_cons. congruence. }
  assert (Hnil : m = [] -> Forall (fun sdk => src_Status (ss_Source sdk) = Down) m.*2) by (by intros ->).
  destruct (forallb _ m.*2), (existsb _ m.*2); simpl; naive_solver.
Qed.

Lemma append_overall now c m e r sdk :
  c <> Cache -> st_SDKs (rp_status r) !! c = Some sdk ->
  let r' := appendRecord now c m e r in overall (st_SDKs (rp_status r')) (st_Status (rp_status r')).
Proof.
  intros Hc Hs. cbv zeta. unfold appendRecord. cbv zeta. destruct (checkStatus _) as [rec stat].
  rewrite bool_decide_eq_false_2 by done. simpl. rewrite Hs, reCalc_SDKs. apply overall_reCalc.
Qed.

(** After a report for a registered SDK and after the removal of an SDK,
    the overall state is [down] exactly when every SDK is down (so also when
    none is left), [healthy] exactly when there is an SDK and all are healthy,
    and [degraded] in every other case. *)
Theorem overall_state_is_current (r : reporter) (now : Z) (id : string) (e : exchange) :
  (let r' := RemoveSdk id r in overall (st_SDKs (GetStatus r')) (st_Status (GetStatus r'))) /\
  (id <> Cache -> is_Some (st_SDKs (GetStatus r) !! id) ->
   let r' := RoundTrip now id e r in overall (st_SDKs (GetStatus r')) (st_Status (GetStatus r'))).
Proof.
  split; cbv zeta.
  - unfold RemoveSdk, GetStatus. rewrite reCalc_SDKs. apply overall_reCalc.
  - intros Hid [sdk Hs]. unfold RoundTrip, ReportOk, ReportError, GetStatus.
    repeat case_match; by eapply append_overall.
Qed.

Lemma overall_state_is_current_witness :
  let r' := RoundTrip 9 "t" (Response 500 "500 Internal Server Error") after_outage in
  overall (st_SDKs (GetStatus r')) (st_Status (GetStatus r')).
Proof.
  refine (proj2 (overall_state_is_current after_outage 9 "t"
            (Response 500 "500 Internal Server Error")) _ _).
  - done.
  - eexists. vm_compute. reflexivity.
Defined.

(** The cache component and the SDKs share one name space: the outcomes
    reported for an SDK named [cache] go to the cache's status, and that SDK
    keeps the state it was registered with. *)
Theorem sdk_named_cache_is_shadowed (calls : list (Z * string * bool)) (r : reporter) :
  let report r '(now, msg, isError) :=
    if isError : bool then ReportError now Cache msg r else ReportOk now Cache msg r in
  let r' := fold_left report calls r in
  st_SDKs (GetStatus r') = st_SDKs (GetStatus r) /\ st_Status (GetStatus r') = st_Status (GetStatus r).
Proof.
  intros report r'. subst r'. revert r. induction calls as [|[[now msg] e] calls IH]; intros r; [done|].
  destruct (IH (report r (now, msg, e))) as [IH1 IH2].
  assert (Hr : st_SDKs (rp_status (report r (now, msg, e))) = st_SDKs (rp_status r) /\
               st_Status (rp_status (report r (now, msg, e))) = st_Status (rp_status r))
    by (destruct e; apply append_cache).
  split; (etrans; [eassumption | apply Hr]).
Qed.
