(* ===== verification/Http.v ===== *)
(** [net/http], as the handlers use it: a request, the operations a handler does
    on its [ResponseWriter], the response they produce, and [ServeMux]'s routing.

    A handler is the list of the operations it does on the writer it is given
    (no handler of the program reads back from it), so a wrapping writer such as
    [gzipWriter] is a transformation of that list. [Did e] marks an effect
    outside the response, such as a refresh of an SDK. *)
From S2P Require Import Prelude Go.
From Stdlib Require Import Ascii.
Open Scope Z_scope.

(** ** Headers *)
Module Header.
Definition is_lower (a : ascii) : bool := in_range 97 122 (byte_val a).
Definition is_upper (a : ascii) : bool := in_range 65 90 (byte_val a).
Definition is_token (a : ascii) : bool :=
  is_lower a || is_upper a || in_range 48 57 (byte_val a) ||
  bool_decide (a ∈ String.list_ascii_of_string "!#$%&'*+-.^_`|~").
Definition lower (a : ascii) : ascii := if is_upper a then byte_chr (byte_val a + 32) else a.
Definition upper (a : ascii) : ascii := if is_lower a then byte_chr (byte_val a - 32) else a.
Fixpoint canonical_from (start : bool) (s : string) : string :=
  match s with
  | EmptyString => EmptyString
  | String a s => String (if start then upper a else lower a) (canonical_from (bool_decide (a = "-"%char)) s)
  end.
Definition canonical (k : string) : string :=
  if forallb is_token (String.list_ascii_of_string k) then canonical_from true k else k.

Definition t : Type := gmap string (list string).
Definition Get (h : t) (k : string) : string := default "" (head (default [] (h !! canonical k))).
Definition Set_ (k v : string) (h : t) : t := <[canonical k := [v]]> h.
Definition Add (k v : string) (h : t) : t := <[canonical k := default [] (h !! canonical k) ++ [v]]> h.
Definition Del (k : string) (h : t) : t := delete (canonical k) h.

Lemma lookup_Set_eq k v (h : t) : Set_ k v h !! canonical k = Some [v].
Proof. apply (lookup_insert_eq (M := gmap string)). Qed.
Lemma lookup_Set_ne k v (h : t) k' : canonical k <> k' -> Set_ k v h !! k' = h !! k'.
Proof. apply (lookup_insert_ne (M := gmap string)). Qed.
Lemma lookup_Add_ne k v (h : t) k' : canonical k <> k' -> Add k v h !! k' = h !! k'.
Proof. apply (lookup_insert_ne (M := gmap string)). Qed.
Lemma lookup_Del_ne k (h : t) k' : canonical k <> k' -> Del k h !! k' = h !! k'.
Proof. apply (lookup_delete_ne (M := gmap string)). Qed.
Lemma Get_Set k v (h : t) : Get (Set_ k v h) k = v.
Proof. unfold Get. by rewrite lookup_Set_eq. Qed.
Lemma Get_Set_ne k k' v (h : t) : canonical k <> canonical k' -> Get (Set_ k v h) k' = Get h k'.
Proof. intros Hk. unfold Get. by rewrite lookup_Set_ne. Qed.
Lemma Get_empty k : Get ∅ k = "".
Proof. exact (f_equal (fun o => default "" (head (default [] o))) (lookup_empty (M := gmap string) (canonical k))). Qed.
Lemma Get_singleton k v : canonical k = k -> Get {[k := [v]]} k = v.
Proof.
  intros Hk. unfold Get. rewrite Hk.
  exact (f_equal (fun o => default "" (head (default [] o))) (lookup_singleton_eq (M := gmap string) k [v])).
Qed.
End Header.

(** ** Requests *)
Record URL := { u_Path : string; u_Query : gmap string (list string) }.
Record request := {
  rq_Method : string;
  rq_URL : option URL;
  rq_Header : Header.t;
  rq_Body : go string;                     (** what [io.ReadAll(r.Body)] gives *)
  rq_PathValue : gmap string string        (** set by the router *)
}.

(** [r.Header.Get(k)], [r.PathValue(name)], [r.URL.Query().Get(name)] *)
Definition header_of (r : request) (k : string) : string := Header.Get (rq_Header r) k.
Definition PathValue (r : request) (name : string) : string := default "" (rq_PathValue r !! name).
Definition query_of (u : URL) (name : string) : string := default "" (head (default [] (u_Query u !! name))).

Definition MethodGet : string := "GET".
Definition MethodHead : string := "HEAD".
Definition MethodPost : string := "POST".
Definition MethodOptions : string := "OPTIONS".
Definition MethodConnect : string := "CONNECT".

Module Status.
Definition OK : Z := 200.
Definition NoContent : Z := 204.
Definition MovedPermanently : Z := 301.
Definition NotModified : Z := 304.
Definition BadRequest : Z := 400.
Definition Unauthorized : Z := 401.
Definition NotFound : Z := 404.
Definition MethodNotAllowed : Z := 405.
Definition Teapot : Z := 418.
Definition InternalServerError : Z := 500.
Definition NotImplemented : Z := 501.
End Status.

(** ** Responses *)
Section response.
Context {E : Type}.

Inductive op :=
| SetHeader (k v : string)
| AddHeader (k v : string)
| DelHeader (k : string)
| WriteHeader (code : Z)
| Write (b : string)
| Flush
| Did (e : E)
| Finished (status length : Z).    (** the line of [DebugLog] *)

Definition handler : Type := request -> list op.

(** What the connection has: the header map, the status and the headers once
    they are sent, the body, and the effects. *)
Record response := {
  rs_Header : Header.t;
  rs_sent : option (Z * Header.t);
  rs_Body : string;
  rs_did : list E
}.
Definition fresh : response := {| rs_Header := ∅; rs_sent := None; rs_Body := ""; rs_did := [] |}.

Definition on_rs_Header f rs :=
  {| rs_Header := f (rs_Header rs); rs_sent := rs_sent rs; rs_Body := rs_Body rs; rs_did := rs_did rs |}.
(** An informational status is sent on its own and leaves the final one open; a
    superfluous call is ignored. *)
Definition informational (code : Z) : bool := in_range 100 199 code && negb (code =? 101).
Definition send_header (code : Z) (rs : response) : response :=
  match rs_sent rs with
  | Some _ => rs
  | None => if informational code then rs else {| rs_Header := rs_Header rs; rs_sent := Some (code, rs_Header rs); rs_Body := rs_Body rs; rs_did := rs_did rs |}
  end.

(** [bodyAllowedForStatus]: [Write] fails under the other statuses *)
Definition body_allowed (code : Z) : bool :=
  negb (in_range 100 199 code) && negb (code =? 204) && negb (code =? 304).

Definition status (rs : response) : Z := match rs_sent rs with Some (code, _) => code | None => Status.OK end.
Definition sent_headers (rs : response) : Header.t := match rs_sent rs with Some (_, h) => h | None => rs_Header rs end.

Definition write_body (b : string) (rs : response) : response :=
  let rs := send_header Status.OK rs in
  if body_allowed (status rs)
  then {| rs_Header := rs_Header rs; rs_sent := rs_sent rs; rs_Body := rs_Body rs +:+ b; rs_did := rs_did rs |}
  else rs.

Definition apply_op (rs : response) (o : op) : response :=
  match o with
  | SetHeader k v => on_rs_Header (Header.Set_ k v) rs
  | AddHeader k v => on_rs_Header (Header.Add k v) rs
  | DelHeader k => on_rs_Header (Header.Del k) rs
  | WriteHeader code => send_header code rs
  | Write b => write_body b rs
  | Flush => send_header Status.OK rs
  | Did e => {| rs_Header := rs_Header rs; rs_sent := rs_sent rs; rs_Body := rs_Body rs; rs_did := rs_did rs ++ [e] |}
  | Finished _ _ => rs
  end.
Definition apply_ops (rs : response) (ops : list op) : response := fold_left apply_op ops rs.
Definition respond (ops : list op) : response := apply_ops fresh ops.

(** [http.Error(w, error, code)] *)
Definition Error (error : string) (code : Z) : list op :=
  [DelHeader "Content-Length"; SetHeader "Content-Type" "text/plain; charset=utf-8";
   SetHeader "X-Content-Type-Options" "nosniff"; WriteHeader code; Write (error +:+ str1 newline)].

(** The response of a handler that only calls [http.Error]. *)
Definition error_response (error : string) (code : Z) : response := respond (Error error code).

Lemma apply_ops_app rs l k : apply_ops rs (l ++ k) = apply_ops (apply_ops rs l) k.
Proof. apply fold_left_app. Qed.

(** ** ServeMux *)
Inductive segment := Lit (s : string) | Wild (name : string) | Multi (name : string).

Definition parse_segment (s : string) : segment :=
  if Str.HasPrefix s "{" then
    let name := Str.TrimSuffix (Str.TrimPrefix s "{") "}" in
    if Str.HasPrefix (Str.rev name) "..." then Multi (Str.TrimSuffix name "...") else Wild name
  else Lit s.

(** The segments of a path: those after each slash. *)
Definition segments (path : string) : list string := tail (Str.SplitByte "/" path).

(** A pattern that ends in a slash matches every path under it. *)
Fixpoint parse_segments (xs : list string) : list segment :=
  match xs with
  | [] => []
  | [x] => if bool_decide (x = "") then [Multi ""] else [parse_segment x]
  | x :: xs => parse_segment x :: parse_segments xs
  end.

(** [METHOD /path], or [/path] for every method *)
Definition parse_pattern (p : string) : string * list segment :=
  match Str.cut " " p with
  | Some (method, path) => (method, parse_segments (segments path))
  | None => ("", parse_segments (segments p))
  end.

(** A segment that is empty is a trailing slash, which a single wildcard does
    not match. *)
Fixpoint match_segments (ps : list segment) (xs : list string) : option (gmap string string) :=
  match ps, xs with
  | [], [] => Some ∅
  | Lit s :: ps, x :: xs => if bool_decide (s = x) then match_segments ps xs else None
  | Wild name :: ps, x :: xs =>
      if bool_decide (x = "") then None else <[name := x]> <$> match_segments ps xs
  | [Multi name], _ :: _ => Some {[name := Str.Join xs "/"]}
  | _, _ => None
  end.

(** a GET pattern also serves HEAD, one without a method everything *)
Definition method_matches (pattern method : string) : bool :=
  bool_decide (pattern = "") || bool_decide (pattern = method) || (bool_decide (pattern = MethodGet) && bool_decide (method = MethodHead)).

Definition mux : Type := list (string * handler).

Fixpoint find_route (m : mux) (method : string) (xs : list string) : option (gmap string string * handler) :=
  match m with
  | [] => None
  | (p, h) :: m =>
      let '(pm, ps) := parse_pattern p in
      match (if method_matches pm method then match_segments ps xs else None) with
      | Some vars => Some (vars, h)
      | None => find_route m method xs
      end
  end.

(** [path.Clean] of a rooted path, keeping a trailing slash *)
Fixpoint clean_segments (acc xs : list string) : list string :=
  match xs with
  | [] => reverse acc
  | x :: xs =>
      if bool_decide (x = "" \/ x = ".") then clean_segments acc xs
      else if bool_decide (x = "..") then clean_segments (tail acc) xs
      else clean_segments (x :: acc) xs
  end.
Definition cleanPath (path : string) : string :=
  let root := "/" +:+ Str.Join (clean_segments [] (segments path)) "/" in
  if bool_decide (Str.last path = Some "/"%char) && negb (bool_decide (root = "/")) then root +:+ "/" else root.

(** A route whose multi wildcard would match the path with a slash added. *)
Fixpoint ends_in_empty_multi (ps : list segment) (xs : list string) : bool :=
  match ps, xs with
  | [Multi _], [] => true
  | Lit s :: ps, x :: xs => bool_decide (s = x) && ends_in_empty_multi ps xs
  | Wild _ :: ps, x :: xs => negb (bool_decide (x = "")) && ends_in_empty_multi ps xs
  | _, _ => false
  end.
Definition slash_route (m : mux) (method : string) (xs : list string) : bool :=
  existsb (fun r => let '(pm, ps) := parse_pattern r.1 in
                    method_matches pm method && ends_in_empty_multi ps xs) m.

(** [matchingMethods]: those of the patterns that match the path, in order *)
Definition allowed_methods (m : mux) (xs : list string) : list string :=
  let ms := omap (fun r => let '(pm, ps) := parse_pattern r.1 in
                           match match_segments ps xs with Some _ => Some pm | None => None end) m in
  let ms := if bool_decide (MethodGet ∈ ms) then MethodHead :: ms else ms in
  merge_sort (fun a b => Is_true (String.leb a b)) (remove_dups ms).

Inductive routed :=
| Handle (vars : gmap string string) (h : handler)
| Redirect (path : string)
| NotAllowed (methods : list string)
| NoRoute.

(** The decision of [ServeMux.ServeHTTP] for a method other than CONNECT. *)
Definition route (m : mux) (method path : string) : routed :=
  let clean := cleanPath path in
  let xs := segments clean in
  match find_route m method xs with
  | Some (vars, h) => if bool_decide (clean = path) then Handle vars h else Redirect clean
  | None =>
      if slash_route m method xs then Redirect (clean +:+ "/")
      else if negb (bool_decide (clean = path)) then Redirect clean
      else match allowed_methods m xs with
           | [] => NoRoute
           | methods => NotAllowed methods
           end
  end.

Definition set_path_values (vars : gmap string string) (r : request) : request :=
  {| rq_Method := rq_Method r; rq_URL := rq_URL r; rq_Header := rq_Header r; rq_Body := rq_Body r;
     rq_PathValue := vars |}.

Definition mux_ServeHTTP (m : mux) : handler := fun r =>
  match rq_URL r with
  | None => []
  | Some u =>
      match route m (rq_Method r) (u_Path u) with
      | Handle vars h => h (set_path_values vars r)
      | Redirect path => [SetHeader "Location" path; WriteHeader Status.MovedPermanently]
      | NotAllowed methods =>
          SetHeader "Allow" (Str.Join methods ", ") :: Error "Method Not Allowed" Status.MethodNotAllowed
      | NoRoute => Error "404 page not found" Status.NotFound
      end
  end.
End response.
Arguments op : clear implicits.
Arguments response : clear implicits.
Arguments handler : clear implicits.
Arguments mux : clear implicits.
Arguments routed : clear implicits.

(** Two patterns no path matches both of. *)
Fixpoint disjoint_segments (ps qs : list segment) : bool :=
  match ps, qs with
  | Multi _ :: _, [] | [], Multi _ :: _ => true
  | Multi _ :: _, _ | _, Multi _ :: _ => false
  | [], [] => false
  | [], _ | _, [] => true
  | Lit a :: ps, Lit b :: qs => negb (bool_decide (a = b)) || disjoint_segments ps qs
  | Lit a :: ps, Wild _ :: qs | Wild _ :: ps, Lit a :: qs => bool_decide (a = "") || disjoint_segments ps qs
  | Wild _ :: ps, Wild _ :: qs => disjoint_segments ps qs
  end.

Lemma disjoint_segments_sound ps qs xs v w :
  disjoint_segments ps qs = true -> match_segments ps xs = Some v -> match_segments qs xs = Some w -> False.
Proof.
  revert qs xs v w. induction ps as [|p ps IH]; intros qs xs v w Hd Hv Hw.
  - destruct xs; [|done]. destruct qs as [|[] qs]; try done. by destruct qs.
  - destruct xs as [|x xs]; [by destruct p; [| |destruct ps]|]. destruct qs as [|q qs]; [done|].
    destruct p as [a|n|n], q as [b|m'|m']; simpl in *; try done; bool_prop;
      repeat case_bool_decide; simplify_eq/=; try done;
      repeat match goal with Hf : _ <$> _ = Some _ |- _ => apply fmap_Some in Hf as (? & ? & ->) end;
      try (by eapply IH); try (destruct Hd as [Hd|Hd]; [done|by eapply IH]).
Qed.
