(* ===== verification/Telemetry.v ===== *)
(** [diag/telemetry]: the reporter that hands metrics and traces to
    OpenTelemetry. The OpenTelemetry libraries are third-party; what the proxy
    asks them for is data (exporters, provider options, measurements), and
    whether they comply is the class [Otel]. *)
From S2P Require Import Prelude Go Log ConfigTypes Config Validate Http.
Open Scope Z_scope.

(** [diag/telemetry/reporter.go:27-40] K, V, KV *)
Definition KV : Type := string * string.

(** What a set-up step writes to the log. *)
Inductive line := LError (msg : string) | LReport (msg : string).

(** A set-up that can give up, with the lines it has logged. *)
Definition setup (A : Type) : Type := option A * list line.
#[export] Instance setup_ret : MRet setup := fun A a => (Some a, []).
#[export] Instance setup_bind : MBind setup := fun A B k m =>
  match m with
  | (Some a, l) => let '(b, l') := k a in (b, l ++ l')
  | (None, l) => (None, l)
  end.
Definition say (l : line) : setup unit := (Some tt, [l]).
Definition give_up_with {A} (l : line) : setup A := (None, [l]).

(** ** What the proxy asks OpenTelemetry for *)
Inductive signal_kind := Metrics | Traces.
Inductive otlp_option := WithEndpoint (endpoint : string) | WithInsecure.
Inductive exporter :=
| PrometheusExporter (namespace : string)
| OtlpGrpcExporter (s : signal_kind) (opts : list otlp_option)
| OtlpHttpExporter (s : signal_kind) (opts : list otlp_option).

#[export] Instance signal_kind_eq_dec : EqDecision signal_kind.
Proof. solve_decision. Defined.
#[export] Instance otlp_option_eq_dec : EqDecision otlp_option.
Proof. solve_decision. Defined.
#[export] Instance exporter_eq_dec : EqDecision exporter.
Proof. solve_decision. Defined.

(** a meter or tracer provider: the version in its resource and the exporters
    it feeds *)
Record provider := { pv_version : string; pv_exporters : list exporter }.

(** Constructors of the libraries: the error they return, if any. *)
Class Otel := {
  otel_exporter : exporter -> option string;
  otel_runtime_Start : provider -> option string;
  otel_host_Start : provider -> option string;
  otel_instrument : string -> option string;
  otel_ForceFlush : provider -> option string;
  otel_Shutdown : provider -> option string
}.

(** [diag/telemetry/metrics.go:21-29] metricsHandler *)
Record metricsHandler := { mh_provider : provider; mh_log : logger; mh_cancelled : bool }.

(** [diag/telemetry/traces.go:20-23] traceHandler *)
Record traceHandler := { th_provider : provider; th_log : logger }.

(** a measurement: the instrument, the number and the attributes *)
Inductive measurement :=
| MRecord (gauge : string) (count : Z) (attrs : list KV)
| MAdd (counter : string) (count : Z) (attrs : list KV).

Section telemetry.
Context `{otel : Otel}.

Definition when_error (e : option string) (k : string -> line) : setup unit :=
  match e with Some err => say (k err) | None => mret () end.

(** [exporter, err := New(...); if err != nil { log; return nil }] *)
Definition new_exporter (e : exporter) (what : string) : setup exporter :=
  match otel_exporter e with
  | Some err => give_up_with (LError ("failed to configure " +:+ what +:+ ": " +:+ err))
  | None => mret e
  end.

Definition endpoint_option (o : OtlpExporterConfig) : list otlp_option :=
  if bool_decide (otlp_Endpoint o <> "") then [WithEndpoint (otlp_Endpoint o)] else [].

(** [diag/telemetry/metrics.go:53-82] the OTLP exporter: the [switch] over the
    protocol; there is none for another protocol *)
Definition otlp_exporters (s : signal_kind) (o : OtlpExporterConfig) : setup (list exporter) :=
  if bool_decide (otlp_Protocol o = "grpc") then
    e ← new_exporter (OtlpGrpcExporter s (endpoint_option o ++ [WithInsecure])) "OTLP gRPC exporter";
    mret [e]
  else if bool_decide (otlp_Protocol o = "http") || bool_decide (otlp_Protocol o = "https") then
    let opts := endpoint_option o ++ (if bool_decide (otlp_Protocol o = "http") then [WithInsecure] else []) in
    e ← new_exporter (OtlpHttpExporter s opts) "OTLP HTTP exporter";
    mret [e]
  else mret [].

(** [diag/telemetry/metrics.go:83-87] the line about the OTLP exporter *)
Definition otlp_line (o : OtlpExporterConfig) : line :=
  let ep := if bool_decide (otlp_Endpoint o <> "") then " to " +:+ otlp_Endpoint o else "" in
  LReport ("otlp exporter enabled over " +:+ otlp_Protocol o +:+ ep).

(** [diag/telemetry/metrics.go:92-129] newMetricsHandlerWithOpts *)
Definition newMetricsHandlerWithOpts (pv : provider) (logger : logger) : setup metricsHandler :=
  _ ← when_error (otel_runtime_Start pv) (fun e => LError ("failed to start runtime metrics: " +:+ e));
  _ ← when_error (otel_host_Start pv) (fun e => LError ("failed to start host metrics: " +:+ e));
  match otel_instrument "stream.connections" with
  | Some e => give_up_with (LError ("failed to configure connections gauge: " +:+ e))
  | None =>
      match otel_instrument "stream.msg.sent.total" with
      | Some e => give_up_with (LError ("failed to configure stream message sent counter: " +:+ e))
      | None => mret {| mh_provider := pv; mh_log := logger; mh_cancelled := false |}
      end
  end.

(** [diag/telemetry/metrics.go:35-90] newMetricsHandler *)
Definition newMetricsHandler (version : string) (conf : MetricsConfig) (log : logger) : setup metricsHandler :=
  if negb (prom_Enabled (metrics_Prometheus conf)) && negb (otlp_Enabled (metrics_Otlp conf)) then (None, [])
  else
    prometheus ← (if prom_Enabled (metrics_Prometheus conf) then
                    e ← new_exporter (PrometheusExporter "configcat") "Prometheus exporter";
                    _ ← say (LReport "prometheus exporter enabled on /metrics");
                    mret [e]
                  else mret []);
    otlp ← (if otlp_Enabled (metrics_Otlp conf) then
              es ← otlp_exporters Metrics (metrics_Otlp conf);
              _ ← say (otlp_line (metrics_Otlp conf));
              mret es
            else mret []);
    newMetricsHandlerWithOpts {| pv_version := version; pv_exporters := prometheus ++ otlp |}
      (WithPrefix log "metrics").

(** [diag/telemetry/traces.go:25-73] newTraceHandler *)
Definition newTraceHandler (version : string) (conf : TraceConfig) (log : logger) : setup traceHandler :=
  if negb (otlp_Enabled (trace_Otlp conf)) then (None, [])
  else
    es ← otlp_exporters Traces (trace_Otlp conf);
    _ ← say (otlp_line (trace_Otlp conf));
    mret {| th_provider := {| pv_version := version; pv_exporters := es |}; th_log := WithPrefix log "traces" |}.

(** [diag/telemetry/metrics.go:131-137] recordConnections *)
Definition recordConnections (count : Z) (sdkId streamType flag : string) : measurement :=
  MRecord "stream.connections" count [("sdk", sdkId); ("type", streamType); ("flag", flag)].

(** [diag/telemetry/metrics.go:139-145] addSentMessageCount *)
Definition addSentMessageCount (count : Z) (sdkId streamType flag : string) : measurement :=
  MAdd "stream.msg.sent.total" (i64 count) [("sdk", sdkId); ("type", streamType); ("flag", flag)].

(** [diag/telemetry/metrics.go:147-159] shutdown *)
Definition metrics_shutdown (m : metricsHandler) : metricsHandler * list line :=
  ({| mh_provider := mh_provider m; mh_log := mh_log m; mh_cancelled := true |},
   [LReport "initiating server shutdown"]
   ++ match otel_Shutdown (mh_provider m) with Some e => [LError ("shutdown error: " +:+ e)] | None => [] end
   ++ [LReport "server shutdown complete"]).

(** [diag/telemetry/traces.go:75-86] Shutdown *)
Definition trace_shutdown (t : traceHandler) : list line :=
  [LReport "initiating server shutdown"]
  ++ match otel_Shutdown (th_provider t) with Some e => [LError ("shutdown error: " +:+ e)] | None => [] end
  ++ [LReport "server shutdown complete"].

(** [diag/telemetry/reporter.go:68-74] reporter; the logger of the empty
    reporter is nil *)
Record Reporter := {
  tr_metricsHandler : option metricsHandler;
  tr_traceHandler : option traceHandler;
  tr_tracer : option provider;
  tr_log : option logger
}.

(** [diag/telemetry/reporter.go:76-106] NewReporter *)
Definition NewReporter (conf : DiagConfig) (version : string) (log : logger) : Reporter * list line :=
  let logger := WithPrefix log "telemetry" in
  let '(mh, l1) := if IsMetricsEnabled conf then newMetricsHandler version (diag_Metrics conf) logger
                   else (None, []) in
  let '(th, l2) := if IsTracesEnabled conf then newTraceHandler version (diag_Traces conf) logger
                   else (None, []) in
  ({| tr_metricsHandler := mh; tr_traceHandler := th; tr_tracer := th_provider <$> th;
      tr_log := Some logger |}, l1 ++ l2).

(** [diag/telemetry/reporter.go:108-110] NewEmptyReporter *)
Definition NewEmptyReporter : Reporter :=
  {| tr_metricsHandler := None; tr_traceHandler := None; tr_tracer := None; tr_log := None |}.

(** [r.log.Errorf(...)]; a call on a nil interface panics *)
Definition report_error (r : Reporter) (msg : string) (e : option string) : go (list line) :=
  match e with
  | None => Ret []
  | Some err => match tr_log r with Some _ => Ret [LError (msg +:+ ": " +:+ err)] | None => Panic end
  end.

(** [diag/telemetry/reporter.go:116-129] ForceFlush *)
Definition ForceFlush (r : Reporter) : go (list line) :=
  l1 <-? match tr_metricsHandler r with
         | Some m => report_error r "failed to force flush metrics" (otel_ForceFlush (mh_provider m))
         | None => Ret []
         end;
  l2 <-? match tr_traceHandler r with
         | Some t => report_error r "failed to force flush traces" (otel_ForceFlush (th_provider t))
         | None => Ret []
         end;
  Ret (l1 ++ l2).

(** [diag/telemetry/reporter.go:131-136] RecordConnections *)
Definition RecordConnections (r : Reporter) (count : Z) (sdkId streamType flag : string) : list measurement :=
  match tr_metricsHandler r with
  | None => []
  | Some _ => [recordConnections count sdkId streamType flag]
  end.

(** [diag/telemetry/reporter.go:138-143] AddSentMessageCount *)
Definition AddSentMessageCount (r : Reporter) (count : Z) (sdkId streamType flag : string) : list measurement :=
  match tr_metricsHandler r with
  | None => []
  | Some _ => [addSentMessageCount count sdkId streamType flag]
  end.

(** [diag/telemetry/reporter.go:249-255] toAttributeArray *)
Definition toAttributeArray (attributes : list KV) : list KV :=
  fold_left (fun result attr => result ++ [attr]) attributes [].

(** a span: the tracer it is of, if not the no-op one, its name and attributes *)
Record span := { sp_tracer : option provider; sp_name : string; sp_attributes : list KV }.

(** [diag/telemetry/reporter.go:145-150] StartSpan *)
Definition StartSpan (r : Reporter) (name : string) (attributes : list KV) : span :=
  match tr_tracer r with
  | None => {| sp_tracer := None; sp_name := "noop"; sp_attributes := toAttributeArray attributes |}
  | Some t => {| sp_tracer := Some t; sp_name := name; sp_attributes := toAttributeArray attributes |}
  end.

(** the options of the instrumentation libraries *)
Inductive otel_option :=
| WithMeterProvider (p : provider)
| WithMetricAttributesFn (f : request -> list KV)
| WithTracerProvider (p : provider).

Definition HTTPRoute (r : request) : KV := ("http.route", default "" (u_Path <$> rq_URL r)).

Definition tracer_option (r : Reporter) : list otel_option :=
  match tr_traceHandler r with Some t => [WithTracerProvider (th_provider t)] | None => [] end.

(** [diag/telemetry/reporter.go:152-166] InstrumentHttp; [NewHandler] is
    [otelhttp]'s *)
Definition InstrumentHttp {E} (NewHandler : handler E -> string -> list otel_option -> handler E)
    (r : Reporter) (operation method : string) (handler : handler E) : Http.handler E :=
  let otelOpts :=
    match tr_metricsHandler r with
    | Some m => [WithMeterProvider (mh_provider m); WithMetricAttributesFn (fun r => [HTTPRoute r])]
    | None => []
    end ++ tracer_option r in
  match otelOpts with
  | [] => handler
  | _ => NewHandler handler ("HTTP " +:+ method +:+ " " +:+ operation) otelOpts
  end.

(** [diag/telemetry/reporter.go:168-186] InstrumentHttpClient; [NewTransport] is
    [otelhttp]'s *)
Definition InstrumentHttpClient {RoundTripper} (NewTransport : RoundTripper -> list otel_option -> RoundTripper)
    (r : Reporter) (handler : RoundTripper) (attributes : list KV) : RoundTripper :=
  let otelOpts :=
    match tr_metricsHandler r with
    | Some m =>
        WithMeterProvider (mh_provider m) ::
        (if Nat.ltb 0 (length attributes)
         then [WithMetricAttributesFn (fun r => toAttributeArray attributes ++ [HTTPRoute r])] else [])
    | None => []
    end ++ tracer_option r in
  match otelOpts with [] => handler | _ => NewTransport handler otelOpts end.

(** [diag/telemetry/reporter.go:188-200] InstrumentGrpc; [StatsHandler] makes a
    server option of the instrumentation *)
Definition InstrumentGrpc {ServerOption} (StatsHandler : list otel_option -> ServerOption)
    (r : Reporter) (opts : list ServerOption) : list ServerOption :=
  let otelOpts :=
    match tr_metricsHandler r with Some m => [WithMeterProvider (mh_provider m)] | None => [] end
    ++ tracer_option r in
  match otelOpts with [] => opts | _ => opts ++ [StatsHandler otelOpts] end.

(** [diag/telemetry/reporter.go:202-215] InstrumentRedis; the errors of the two
    [redisotel] calls *)
Definition InstrumentRedis (instrument : otel_option -> option string) (r : Reporter) : go (list line) :=
  let call p := report_error r "failed to instrument redis" (instrument p) in
  l1 <-? match tr_metricsHandler r with Some m => call (WithMeterProvider (mh_provider m)) | None => Ret [] end;
  l2 <-? match tr_traceHandler r with Some t => call (WithTracerProvider (th_provider t)) | None => Ret [] end;
  Ret (l1 ++ l2).

(** [diag/telemetry/reporter.go:217-221] InstrumentMongoDb: the monitor of the
    client options *)
Definition InstrumentMongoDb (r : Reporter) (monitor : option provider) : option provider :=
  match tr_traceHandler r with Some t => Some (th_provider t) | None => monitor end.

(** [diag/telemetry/reporter.go:223-227] InstrumentAws: the middlewares of the
    AWS configuration *)
Definition InstrumentAws (r : Reporter) (middlewares : list provider) : list provider :=
  match tr_traceHandler r with Some t => middlewares ++ [th_provider t] | None => middlewares end.

(** [diag/telemetry/reporter.go:229-236] Shutdown *)
Definition Shutdown (r : Reporter) : Reporter * list line :=
  let '(mh, l1) := match tr_metricsHandler r with
                   | Some m => let '(m, l) := metrics_shutdown m in (Some m, l)
                   | None => (None, [])
                   end in
  let l2 := match tr_traceHandler r with Some t => trace_shutdown t | None => [] end in
  ({| tr_metricsHandler := mh; tr_traceHandler := tr_traceHandler r; tr_tracer := tr_tracer r;
      tr_log := tr_log r |}, l1 ++ l2).

(** ** Specification *)

(** the exporters that a configuration asks for *)
Definition otlp_wanted (s : signal_kind) (o : OtlpExporterConfig) : list exporter :=
  if negb (otlp_Enabled o) then []
  else if bool_decide (otlp_Protocol o = "grpc") then [OtlpGrpcExporter s (endpoint_option o ++ [WithInsecure])]
  else [OtlpHttpExporter s (endpoint_option o ++
          (if bool_decide (otlp_Protocol o = "http") then [WithInsecure] else []))].

Definition metrics_wanted (d : DiagConfig) : list exporter :=
  if IsMetricsEnabled d then
    (if prom_Enabled (metrics_Prometheus (diag_Metrics d)) then [PrometheusExporter "configcat"] else [])
    ++ otlp_wanted Metrics (metrics_Otlp (diag_Metrics d))
  else [].

Definition traces_wanted (d : DiagConfig) : list exporter :=
  if IsTracesEnabled d then otlp_wanted Traces (trace_Otlp (diag_Traces d)) else [].

Definition all_available (es : list exporter) : Prop := Forall (fun e => otel_exporter e = None) es.
Definition instruments_available : Prop :=
  otel_instrument "stream.connections" = None /\ otel_instrument "stream.msg.sent.total" = None.

(** what the set-up of a telemetry component does, its log lines aside: the
    result when everything it needs is available *)
Definition outcome {A} (m : setup A) : option A := m.1.

Lemma outcome_bind {A B} (m : setup A) (k : A -> setup B) :
  outcome (m ≫= k) = a ← outcome m; outcome (k a).
Proof. unfold outcome, mbind, setup_bind. destruct m as [[a|] l]; simpl; [|done]. by destruct (k a). Qed.

Lemma outcome_when_error e k : outcome (when_error e k) = Some tt.
Proof. by destruct e. Qed.

Lemma outcome_new_exporter e what :
  outcome (new_exporter e what) = if decide (otel_exporter e = None) then Some e else None.
Proof. unfold new_exporter. by destruct (otel_exporter e). Qed.

#[export] Instance all_available_dec es : Decision (all_available es).
Proof. unfold all_available. apply _. Defined.

Lemma outcome_otlp s o : otlp_Enabled o = true -> valid_otlp o ->
  outcome (otlp_exporters s o) = if decide (all_available (otlp_wanted s o)) then Some (otlp_wanted s o) else None.
Proof.
  intros Hen Hv. unfold otlp_exporters, otlp_wanted. rewrite Hen. simpl.
  destruct (decide (otlp_Protocol o = "grpc")) as [Hg|Hg].
  - rewrite bool_decide_eq_true_2 by done. rewrite outcome_bind, outcome_new_exporter.
    unfold all_available. repeat case_decide; rewrite ?Forall_singleton in *; simpl; tauto.
  - rewrite bool_decide_eq_false_2 by done.
    assert (bool_decide (otlp_Protocol o = "http") || bool_decide (otlp_Protocol o = "https") = true) as ->.
    { unfold valid_otlp in Hv. rewrite orb_true_iff, !bool_decide_eq_true. set_solver. }
    rewrite outcome_bind, outcome_new_exporter.
    unfold all_available. repeat case_decide; rewrite ?Forall_singleton in *; simpl; tauto.
Qed.
#[export] Instance instruments_available_dec : Decision instruments_available.
Proof. unfold instruments_available. apply _. Defined.

Lemma outcome_withOpts pv l :
  outcome (newMetricsHandlerWithOpts pv l) =
  if decide instruments_available then Some {| mh_provider := pv; mh_log := l; mh_cancelled := false |} else None.
Proof.
  unfold newMetricsHandlerWithOpts. rewrite outcome_bind, outcome_when_error. simpl.
  rewrite outcome_bind, outcome_when_error. simpl.
  case_decide as Hi; unfold instruments_available in Hi.
  - by destruct Hi as [-> ->].
  - destruct (otel_instrument "stream.connections"); [done|].
    destruct (otel_instrument "stream.msg.sent.total"); [done|tauto].
Qed.

Lemma outcome_prometheus (enabled : bool) :
  outcome (if enabled then
             e ← new_exporter (PrometheusExporter "configcat") "Prometheus exporter";
             _ ← say (LReport "prometheus exporter enabled on /metrics");
             mret [e]
           else mret []) =
  let wanted := if enabled then [PrometheusExporter "configcat"] else [] in
  if decide (all_available wanted) then Some wanted else None.
Proof.
  unfold all_available. destruct enabled; simpl; [|done].
  rewrite outcome_bind, outcome_new_exporter. repeat case_decide; rewrite ?Forall_singleton in *; simpl; tauto.
Qed.

Lemma outcome_otlp_if s o : (otlp_Enabled o = true -> valid_otlp o) ->
  outcome (if otlp_Enabled o then
             es ← otlp_exporters s o;
             _ ← say (otlp_line o);
             mret es
           else mret []) =
  if decide (all_available (otlp_wanted s o)) then Some (otlp_wanted s o) else None.
Proof.
  intros Hv. destruct (otlp_Enabled o) eqn:Ho.
  - rewrite outcome_bind, (outcome_otlp s o Ho (Hv eq_refl)). by case_decide.
  - unfold otlp_wanted. rewrite Ho. done.
Qed.

(** the result of [newMetricsHandler] and of [newTraceHandler] *)
Lemma outcome_metrics version conf log :
  (otlp_Enabled (metrics_Otlp conf) = true -> valid_otlp (metrics_Otlp conf)) ->
  let wanted := (if prom_Enabled (metrics_Prometheus conf) then [PrometheusExporter "configcat"] else [])
                ++ otlp_wanted Metrics (metrics_Otlp conf) in
  ((fun m => pv_exporters (mh_provider m)) <$> outcome (newMetricsHandler version conf log)) =
  if decide (wanted <> [] /\ all_available wanted /\ instruments_available) then Some wanted else None.
Proof.
  intros Hv. cbv zeta. unfold newMetricsHandler.
  destruct (negb _ && negb _) eqn:Hnone.
  - apply andb_true_iff in Hnone as [Hp Ho]. unfold otlp_wanted. rewrite Ho.
    destruct (prom_Enabled _); [done|]. done.
  - rewrite outcome_bind, outcome_prometheus. cbv zeta.
    assert (Hne : (if prom_Enabled (metrics_Prometheus conf) then [PrometheusExporter "configcat"] else [])
                  ++ otlp_wanted Metrics (metrics_Otlp conf) <> []).
    { unfold otlp_wanted. destruct (prom_Enabled _); [done|]. simpl in Hnone.
      rewrite Hnone. by repeat case_match. }
    case_decide as Hp; simpl.
    + rewrite outcome_bind, outcome_otlp_if by done. case_decide as Ho; simpl.
      * rewrite outcome_withOpts. unfold all_available in *.
        case_decide; simpl; [rewrite decide_True | rewrite decide_False]; rewrite ?Forall_app; try tauto; done.
      * unfold all_available in *. rewrite decide_False; [done|]. rewrite Forall_app. tauto.
    + unfold all_available in *. rewrite decide_False; [done|]. rewrite Forall_app. tauto.
Qed.

Lemma outcome_traces version conf log :
  (otlp_Enabled (trace_Otlp conf) = true -> valid_otlp (trace_Otlp conf)) ->
  let wanted := otlp_wanted Traces (trace_Otlp conf) in
  ((fun t => pv_exporters (th_provider t)) <$> outcome (newTraceHandler version conf log)) =
  if decide (wanted <> [] /\ all_available wanted) then Some wanted else None.
Proof.
  intros Hv. cbv zeta. unfold newTraceHandler. destruct (otlp_Enabled (trace_Otlp conf)) eqn:Ho; simpl.
  - rewrite outcome_bind, (outcome_otlp Traces _ Ho (Hv eq_refl)).
    assert (Hne : otlp_wanted Traces (trace_Otlp conf) <> []).
    { unfold otlp_wanted. rewrite Ho. by repeat case_match. }
    repeat case_decide; simpl; tauto.
  - unfold otlp_wanted. rewrite Ho. done.
Qed.
End telemetry.

(** ** Properties *)

(** C38: when the configuration is valid, the reporter measures exactly when
    metrics are enabled with at least one exporter and everything that the
    OpenTelemetry libraries are asked for is available; it then feeds every
    exporter the configuration enables, under its own protocol, and no other.
    The same holds for traces, and there is a tracer exactly when there are
    traces. A single missing exporter gives up all of them. *)
Theorem reporter_feeds_enabled_exporters `{Otel} (conf : DiagConfig) (version : string) (log : logger)
    (Hvalid : valid_diag conf) :
  let r := (NewReporter conf version log).1 in
  ((fun m => pv_exporters (mh_provider m)) <$> tr_metricsHandler r =
     if decide (metrics_wanted conf <> [] /\ all_available (metrics_wanted conf) /\ instruments_available)
     then Some (metrics_wanted conf) else None) /\
  ((fun t => pv_exporters (th_provider t)) <$> tr_traceHandler r =
     if decide (traces_wanted conf <> [] /\ all_available (traces_wanted conf))
     then Some (traces_wanted conf) else None) /\
  tr_tracer r = th_provider <$> tr_traceHandler r.
Proof.
  destruct Hvalid as (_ & Hm & Ht). unfold NewReporter, metrics_wanted, traces_wanted.
  pose proof (outcome_metrics version (diag_Metrics conf) (WithPrefix log "telemetry")) as Om.
  pose proof (outcome_traces version (diag_Traces conf) (WithPrefix log "telemetry")) as Ot.
  unfold outcome in *.
  destruct (IsMetricsEnabled conf) eqn:Em, (IsTracesEnabled conf) eqn:Et;
    try destruct (newMetricsHandler _ _ _) as [mh l1];
    try destruct (newTraceHandler _ _ _) as [th l2]; simpl in *;
    rewrite ?Om, ?Ot by auto; split_and!; try done; by rewrite decide_False by tauto.
Qed.

(** The OpenTelemetry of the witness has everything. *)
Definition demo_otel : Otel := {|
  otel_exporter _ := None; otel_runtime_Start _ := None; otel_host_Start _ := None;
  otel_instrument _ := None; otel_ForceFlush _ := None; otel_Shutdown _ := None |}.
Definition demo_diag : DiagConfig := {|
  diag_Port := 8051; diag_Enabled := true;
  diag_Metrics := {| metrics_Enabled := true; metrics_Prometheus := {| prom_Enabled := true |};
                     metrics_Otlp := {| otlp_Enabled := true; otlp_Protocol := "grpc"; otlp_Endpoint := "" |} |};
  diag_Traces := {| trace_Enabled := true;
                    trace_Otlp := {| otlp_Enabled := true; otlp_Protocol := "https"; otlp_Endpoint := "otel:4318" |} |};
  diag_Status := {| status_Enabled := true |} |}.

Lemma demo_diag_valid : valid_diag demo_diag.
Proof. split; [unfold valid_port; simpl; lia|]. unfold valid_otlp. simpl. split; set_solver. Qed.

Lemma reporter_feeds_enabled_exporters_witness :
  let r := (@NewReporter demo_otel demo_diag "1.0" NewNullLogger).1 in
  ((fun m => pv_exporters (mh_provider m)) <$> tr_metricsHandler r) =
    Some [PrometheusExporter "configcat"; OtlpGrpcExporter Metrics [WithInsecure]] /\
  ((fun t => pv_exporters (th_provider t)) <$> tr_traceHandler r) =
    Some [OtlpHttpExporter Traces [WithEndpoint "otel:4318"]].
Proof.
  intros r.
  destruct (@reporter_feeds_enabled_exporters demo_otel demo_diag "1.0" NewNullLogger demo_diag_valid)
    as (Hm & Ht & _).
  split; [exact (eq_trans Hm eq_refl) | exact (eq_trans Ht eq_refl)].
Defined.

(** An OTLP exporter with a protocol outside the three known ones is silently
    missing, while the log says that it is enabled; only the validation of the
    configuration rules it out. *)
Lemma unknown_protocol_has_no_exporter `{Otel} (s : signal_kind) (o : OtlpExporterConfig) :
  ~ valid_otlp o -> otlp_exporters s o = (Some [], []).
Proof.
  intros Hv. unfold otlp_exporters, valid_otlp in *.
  rewrite !bool_decide_eq_false_2 by set_solver. done.
Qed.

(** The empty reporter measures nothing, wraps nothing and never touches the
    logger that it lacks. *)
Theorem empty_reporter_is_transparent `{Otel} {E RT Opt : Type} (NewHandler : handler E -> string -> list otel_option -> handler E)
    (NewTransport : RT -> list otel_option -> RT) (StatsHandler : list otel_option -> Opt)
    (redis : otel_option -> option string) :
  let r := NewEmptyReporter in
  (forall op m h, InstrumentHttp NewHandler r op m h = h) /\
  (forall t attrs, InstrumentHttpClient NewTransport r t attrs = t) /\
  (forall opts, InstrumentGrpc StatsHandler r opts = opts) /\
  (forall n id ty flag, RecordConnections r n id ty flag = [] /\ AddSentMessageCount r n id ty flag = []) /\
  (forall name attrs, sp_tracer (StartSpan r name attrs) = None) /\
  ForceFlush r = Ret [] /\ InstrumentRedis redis r = Ret [] /\ Shutdown r = (r, []).
Proof. split_and!; done. Qed.
