(* ===== verification/Pubsub.v ===== *)
(** [pubsub/publisher.go]: the publisher that clients and registrars embed. Its
    goroutine, the callers of its methods and the subscribers run concurrently,
    so the model is a step relation: a step is one channel operation, and any
    enabled one can come next. A subscriber's channel has a buffer, and a send to
    it waits for room. *)
From S2P Require Import Prelude.

(** [pubsub/publisher.go:27] NewPublisher, the capacity of the [pub] channel *)
Definition pub_capacity : nat := 64.

Section pubsub.
Context {T : Type} `{Countable Chan}.

(** the capacity of a subscriber's channel; the proxy makes them with one place *)
Context (capacity : Chan -> nat).

(** [pubsub/publisher.go:14-20] pubSub: its subscriptions, the contents of the
    buffered [pub] channel and whether [stop] is closed. [ps_sending] is where
    [run] is: between two [select]s, or in the loop that sends a value to the
    channels left. [ps_queue] are the buffers of the subscribers' channels, and
    [ps_inbox] records what has been received from each. *)
Record pubSub := {
  ps_subscriptions : gset Chan;
  ps_pub : list T;
  ps_stop : bool;
  ps_sending : option (T * list Chan);
  ps_running : bool;
  ps_queue : gmap Chan (list T);
  ps_inbox : Chan -> list T
}.

(** [pubsub/publisher.go:22-32] NewPublisher *)
Definition NewPublisher : pubSub :=
  {| ps_subscriptions := ∅; ps_pub := []; ps_stop := false; ps_sending := None;
     ps_running := true; ps_queue := ∅; ps_inbox := fun _ => [] |}.

Definition queue (p : pubSub) (c : Chan) : list T := default [] (ps_queue p !! c).

Definition set_pub pub (p : pubSub) : pubSub :=
  {| ps_subscriptions := ps_subscriptions p; ps_pub := pub; ps_stop := ps_stop p; ps_sending := ps_sending p;
     ps_running := ps_running p; ps_queue := ps_queue p; ps_inbox := ps_inbox p |}.
Definition set_subs subs (p : pubSub) : pubSub :=
  {| ps_subscriptions := subs; ps_pub := ps_pub p; ps_stop := ps_stop p; ps_sending := ps_sending p;
     ps_running := ps_running p; ps_queue := ps_queue p; ps_inbox := ps_inbox p |}.
Definition set_run stop sending running (p : pubSub) : pubSub :=
  {| ps_subscriptions := ps_subscriptions p; ps_pub := ps_pub p; ps_stop := stop; ps_sending := sending;
     ps_running := running; ps_queue := ps_queue p; ps_inbox := ps_inbox p |}.
Definition set_chan c q inbox (p : pubSub) : pubSub :=
  {| ps_subscriptions := ps_subscriptions p; ps_pub := ps_pub p; ps_stop := ps_stop p; ps_sending := ps_sending p;
     ps_running := ps_running p; ps_queue := <[c := q]> (ps_queue p);
     ps_inbox := fun c' => if decide (c' = c) then inbox else ps_inbox p c' |}.

(** What a step is to an observer. *)
Inductive event :=
| EPublish (data : T)       (* a [Publish] call put its value into the buffer *)
| ESubscribe (ch : Chan)    (* [run] took the channel of a [Subscribe] call *)
| EUnsubscribe (ch : Chan)
| EClose
| EReceive (ch : Chan)      (* a subscriber received from its channel *)
| EInternal                 (* [run] took a value, sent it, or ended its loop over the subscribers *)
| EReturn.

(** [pubsub/publisher.go:34-80] run, Publish, Subscribe, Unsubscribe, Close.
    A call made after [stop] is closed returns at once; one that is past its
    check may still complete its send, so the [Publish] step asks for space in
    the buffer only. [Close] on a closed publisher panics and is no step. *)
Inductive step : pubSub -> event -> pubSub -> Prop :=
| step_publish p data :
    length (ps_pub p) < pub_capacity -> step p (EPublish data) (set_pub (ps_pub p ++ [data]) p)
| step_take p data rest order :
    ps_running p = true -> ps_sending p = None -> ps_pub p = data :: rest ->
    order ≡ₚ elements (ps_subscriptions p) ->
    step p EInternal (set_run (ps_stop p) (Some (data, order)) true (set_pub rest p))
| step_send p data sub order :
    ps_running p = true -> ps_sending p = Some (data, sub :: order) -> length (queue p sub) < capacity sub ->
    step p EInternal (set_run (ps_stop p) (Some (data, order)) true
                        (set_chan sub (queue p sub ++ [data]) (ps_inbox p sub) p))
| step_sent p data :
    ps_running p = true -> ps_sending p = Some (data, []) ->
    step p EInternal (set_run (ps_stop p) None true p)
| step_subscribe p ch :
    ps_running p = true -> ps_sending p = None -> step p (ESubscribe ch) (set_subs ({[ch]} ∪ ps_subscriptions p) p)
| step_unsubscribe p ch :
    ps_running p = true -> ps_sending p = None -> step p (EUnsubscribe ch) (set_subs (ps_subscriptions p ∖ {[ch]}) p)
| step_receive p ch data rest :
    queue p ch = data :: rest -> step p (EReceive ch) (set_chan ch rest (ps_inbox p ch ++ [data]) p)
| step_close p :
    ps_stop p = false -> step p EClose (set_run true (ps_sending p) (ps_running p) p)
| step_return p :
    ps_running p = true -> ps_sending p = None -> ps_stop p = true -> step p EReturn (set_run true None false p).

Inductive steps : pubSub -> list event -> pubSub -> Prop :=
| steps_nil p : steps p [] p
| steps_snoc p1 tr p2 e p3 : steps p1 tr p2 -> step p2 e p3 -> steps p1 (tr ++ [e]) p3.

(** ** Specification *)

(** the values a run has published, in the order of their sends *)
Definition published (tr : list event) : list T :=
  omap (fun e => match e with EPublish d => Some d | _ => None end) tr.

Definition keeps (c : Chan) (e : event) : Prop := e <> EUnsubscribe c.

(** the value that [run] still has to send to [c] *)
Definition in_flight (c : Chan) (p : pubSub) : list T :=
  match ps_sending p with
  | Some (data, order) => if decide (c ∈ order) then [data] else []
  | None => []
  end.

(** every channel of the send loop appears in it once and is a subscriber; no
    buffer holds more than it can *)
Record ok (p : pubSub) : Prop := {
  ok_order : match ps_sending p with
             | Some (_, order) => NoDup order /\ (forall c, c ∈ order -> c ∈ ps_subscriptions p)
             | None => True
             end;
  ok_pub : length (ps_pub p) <= pub_capacity;
  ok_queue : forall c, length (queue p c) <= capacity c
}.

Lemma queue_set_chan c q inbox p c' :
  queue (set_chan c q inbox p) c' = if decide (c' = c) then q else queue p c'.
Proof.
  unfold queue. simpl. case_decide as Heq; [by rewrite Heq, lookup_insert_eq|by rewrite lookup_insert_ne].
Qed.

Lemma ok_step p e p' : step p e p' -> ok p -> ok p'.
Proof.
  destruct 1 as [p d Hlen|p d rest order Hr Hs Hp Ho|p d sub order Hr Hs Hroom|p d Hr Hs|p ch Hr Hs|p ch Hr Hs
    |p ch d rest Hq|p Hst|p Hr Hs Hst]; intros [Hord Hpub Hque]; split; simpl; auto.
  - rewrite length_app. simpl. lia.
  - rewrite Ho. split; [apply NoDup_elements|]. intros c Hc. rewrite Ho in Hc. set_solver.
  - rewrite Hp in Hpub. simpl in Hpub. lia.
  - rewrite Hs in Hord. destruct Hord as [[Hn1 Hn2]%NoDup_cons Hin]. split; [done|set_solver].
  - intros c. change (length (queue (set_chan sub (queue p sub ++ [d]) (ps_inbox p sub) p) c) <= capacity c).
    rewrite queue_set_chan. case_decide as Heq; [|done]. subst. rewrite length_app. simpl. lia.
  - by rewrite Hs.
  - by rewrite Hs.
  - intros c. rewrite queue_set_chan. case_decide as Heq; [|done]. subst. specialize (Hque ch). rewrite Hq in Hque.
    simpl in Hque. lia.
Qed.

Lemma ok_steps p tr p' : steps p tr p' -> ok p -> ok p'.
Proof. induction 1; [done|]. intros. eapply ok_step; eauto. Qed.

Lemma ok_new : ok NewPublisher.
Proof. split; simpl; [done|lia|]. intros c. unfold queue. simpl. rewrite lookup_empty. simpl. lia. Qed.

(** What a subscriber has got, is about to get and will get, as one list. *)
Definition stream_of (c : Chan) (p : pubSub) : list T := ps_inbox p c ++ queue p c ++ in_flight c p ++ ps_pub p.

(** putting a value on a channel, or receiving it, moves it along the list *)
Lemma stream_of_step c p e p' :
  ok p -> c ∈ ps_subscriptions p -> keeps c e -> step p e p' ->
  c ∈ ps_subscriptions p' /\ stream_of c p' = stream_of c p ++ published [e].
Proof.
  intros [Hok _ _] Hc Hk Hstep. unfold stream_of, in_flight, keeps in *.
  destruct Hstep as [p d Hlen|p d rest order Hr Hs Hp Ho|p d sub order Hr Hs Hroom|p d Hr Hs|p ch Hr Hs|p ch Hr Hs
    |p ch d rest Hq|p Hst|p Hr Hs Hst]; rewrite ?app_nil_r.
  - split; [done|]. simpl. by rewrite <- !app_assoc.
  - simpl. rewrite Hs, Hp. rewrite decide_True by (rewrite Ho; set_solver). done.
  - rewrite Hs in *. destruct Hok as [[Hn1 Hn2]%NoDup_cons Hin]. split; [done|].
    change (queue (set_run (ps_stop p) (Some (d, order)) true ?x) c) with (queue x c). rewrite queue_set_chan. simpl.
    destruct (decide (c = sub)) as [->|Hne].
    + rewrite decide_False by done. rewrite (decide_True (P := sub ∈ sub :: order)) by set_solver. by rewrite <- !app_assoc.
    + do 3 f_equal. destruct (decide (c ∈ order)); [rewrite decide_True by set_solver; done|].
      rewrite decide_False by set_solver. done.
  - simpl. rewrite Hs. rewrite decide_False by set_solver. done.
  - simpl. set_solver.
  - simpl. set_solver.
  - split; [done|]. rewrite queue_set_chan. simpl. case_decide as Heq; [|done]. subst. rewrite Hq. by rewrite <- app_assoc.
  - done.
  - simpl. by rewrite Hs.
Qed.

Lemma published_app tr1 tr2 : published (tr1 ++ tr2) = published tr1 ++ published tr2.
Proof. apply omap_app. Qed.

Lemma stream_of_steps c p tr p' :
  steps p tr p' -> ok p -> c ∈ ps_subscriptions p -> Forall (keeps c) tr ->
  c ∈ ps_subscriptions p' /\ stream_of c p' = stream_of c p ++ published tr.
Proof.
  induction 1 as [|p1 tr p2 e p3 Hs IH He]; intros Hok Hc Hk.
  - by rewrite app_nil_r.
  - apply Forall_app in Hk as [Hk1 Hk2]. apply Forall_cons in Hk2 as [Hk2 _].
    destruct IH as [Hc2 Heq]; [done..|].
    destruct (stream_of_step c p2 e p3) as [Hc3 Heq3]; [by eapply ok_steps|done..|].
    split; [done|]. by rewrite Heq3, Heq, <- app_assoc, published_app.
Qed.

(** ** Progress *)

(** the steps that bring the values of the buffer to the subscribers *)
Definition serving (e : event) : Prop := match e with EInternal | EReceive _ => True | _ => False end.

(** a value in the buffer is taken, sent to each subscriber and received by each *)
Definition work (p : pubSub) : nat :=
  length (ps_pub p) * (2 * size (ps_subscriptions p) + 2) +
  match ps_sending p with Some (_, order) => 2 * length order + 1 | None => 0 end +
  total length (ps_queue p).

Lemma total_queue p c q :
  total length (<[c := q]> (ps_queue p)) + length (queue p c) = total length (ps_queue p) + length q.
Proof.
  unfold queue. destruct (ps_queue p !! c) as [q0|] eqn:Hc; simpl; [by apply total_update|].
  rewrite (total_delete _ (<[c := q]> (ps_queue p)) c q) by apply lookup_insert_eq.
  rewrite delete_insert_id by done. lia.
Qed.

Lemma serving_decreases p e p' : step p e p' -> serving e -> work p' < work p.
Proof.
  destruct 1 as [p d Hlen|p d rest order Hr Hs Hp Ho|p d sub order Hr Hs Hroom|p d Hr Hs|p ch Hr Hs|p ch Hr Hs
    |p ch d rest Hq|p Hst|p Hr Hs Hst]; try done; intros _; unfold work; simpl.
  - rewrite Hs, Hp. apply Permutation_length in Ho. change (length order = size (ps_subscriptions p)) in Ho.
    simpl. lia.
  - pose proof (total_queue p sub (queue p sub ++ [d])) as Ht. rewrite length_app in Ht. rewrite Hs. simpl in *. lia.
  - rewrite Hs. simpl. lia.
  - pose proof (total_queue p ch rest) as Ht. rewrite Hq in Ht. simpl in Ht. lia.
Qed.

Lemma serving_steps p tr p' :
  steps p tr p' -> Forall serving tr ->
  length tr + work p' <= work p /\ ps_running p' = ps_running p /\ published tr = [].
Proof.
  induction 1 as [p|p1 tr p2 e p3 _ IH He]; [intros _; split; [simpl; lia|done]|].
  intros [Hs1 Hs2]%Forall_app. apply Forall_cons in Hs2 as [Hs2 _]. destruct (IH Hs1) as (Hw & Hr & Hp).
  pose proof (serving_decreases p2 e p3 He Hs2). rewrite length_app, published_app, Hp. simpl.
  split; [lia|]. destruct He; try done; simpl in *; by split; [congruence|].
Qed.

(** no step that serves is possible *)
Definition idle (p : pubSub) : Prop := forall e p', serving e -> ~ step p e p'.

Lemma idle_drained p :
  ok p -> idle p -> ps_running p = true -> (forall c, c ∈ ps_subscriptions p -> 0 < capacity c) ->
  ps_sending p = None /\ ps_pub p = [] /\ forall c, queue p c = [].
Proof.
  intros [Hord _ _] Hidle Hr Hcap.
  assert (Hq : forall c, queue p c = []).
  { intros c. destruct (queue p c) as [|d rest] eqn:Hq; [done|].
    by destruct (Hidle (EReceive c) _ I (step_receive p c d rest Hq)). }
  assert (Hs : ps_sending p = None).
  { destruct (ps_sending p) as [[d [|sub order]]|] eqn:Hs; [| |done].
    - by destruct (Hidle EInternal _ I (step_sent p d Hr Hs)).
    - assert (Hsub : sub ∈ ps_subscriptions p) by (apply Hord; set_solver).
      assert (Hroom : length (queue p sub) < capacity sub) by (rewrite Hq; by apply Hcap).
      by destruct (Hidle EInternal _ I (step_send p d sub order Hr Hs Hroom)). }
  split; [done|]. split; [|done]. destruct (ps_pub p) as [|d rest] eqn:Hp; [done|].
  by destruct (Hidle EInternal _ I (step_take p d rest _ Hr Hs Hp (reflexivity _))).
Qed.

(** ** A subscriber that does not receive *)

(** [run] is at the send to [c], whose buffer is full *)
Definition blocked_on (c : Chan) (p : pubSub) : Prop :=
  match ps_sending p with
  | Some (_, sub :: _) => sub = c /\ capacity c <= length (queue p c)
  | _ => False
  end.

(** what stays as it is while [run] waits *)
Definition waits (c : Chan) (p p' : pubSub) (tr : list event) : Prop :=
  blocked_on c p' /\ ps_sending p' = ps_sending p /\ ps_subscriptions p' = ps_subscriptions p /\
  ps_pub p' = ps_pub p ++ published tr /\
  forall c', ps_inbox p' c' ++ queue p' c' = ps_inbox p c' ++ queue p c'.

Lemma blocked_step c p e p' : step p e p' -> blocked_on c p -> e <> EReceive c -> waits c p p' [e].
Proof.
  unfold waits, blocked_on. intros Hstep Hb Hne.
  destruct Hstep as [p d Hlen|p d rest order Hr Hs Hp Ho|p d sub order Hr Hs Hroom|p d Hr Hs|p ch Hr Hs|p ch Hr Hs
    |p ch d rest Hq|p Hst|p Hr Hs Hst]; try by rewrite Hs in Hb.
  - done.
  - rewrite Hs in Hb. destruct Hb as [-> Hb]. lia.
  - simpl. rewrite app_nil_r. split.
    + destruct (ps_sending p) as [[d0 [|sub order]]|]; try done. destruct Hb as [-> Hb]. split; [done|].
      rewrite queue_set_chan. case_decide; [congruence|done].
    + split_and!; try done. intros c'. rewrite queue_set_chan. case_decide as Heq; [|done].
      subst. rewrite Hq. by rewrite <- app_assoc.
  - simpl. by rewrite app_nil_r.
Qed.

Lemma blocked_steps c p tr p' :
  steps p tr p' -> blocked_on c p -> EReceive c ∉ tr -> waits c p p' tr.
Proof.
  intros Hsteps Hb. induction Hsteps as [p|p1 tr p2 e p3 _ IH He].
  - intros _. unfold waits. simpl. by rewrite app_nil_r.
  - rewrite not_elem_of_app, not_elem_of_cons. intros (Hno & Hne & _).
    destruct (IH Hb Hno) as (Hb2 & Hs2 & Hsub2 & Hp2 & Hi2).
    destruct (blocked_step c p2 e p3 He Hb2 (not_eq_sym Hne)) as (Hb3 & Hs3 & Hsub3 & Hp3 & Hi3).
    split; [done|]. split; [congruence|]. split; [congruence|]. split.
    + by rewrite Hp3, Hp2, published_app, <- app_assoc.
    + intros c'. by rewrite Hi3.
Qed.
End pubsub.

(** ** Properties *)

(** C31: from the moment [run] takes its subscription to the moment it takes an
    unsubscription, a subscriber receives the values that were in the buffer
    when it subscribed and then every value published since, each exactly once
    and in the order of publication; what it has still to receive is in the
    buffer of its channel, being sent, or in the publisher's buffer, at most 65
    values more than its own channel holds. *)
Theorem subscriber_receives_in_order {T} `{Countable Chan} (capacity : Chan -> nat) (c : Chan)
    (tr1 tr2 : list (@event T Chan)) (p1 p2 p3 : @pubSub T Chan _ _)
    (Hbefore : steps capacity NewPublisher tr1 p1) (Hsub : step capacity p1 (ESubscribe c) p2)
    (Hafter : steps capacity p2 tr2 p3) (Hkeep : Forall (keeps c) tr2) :
  exists rest, length rest <= capacity c + 1 + pub_capacity /\
    ps_inbox p3 c ++ rest = ps_inbox p1 c ++ queue p1 c ++ ps_pub p1 ++ published tr2.
Proof.
  assert (Hok2 : ok capacity p2).
  { eapply ok_step; [exact Hsub|]. eapply ok_steps; [exact Hbefore|apply ok_new]. }
  assert (Hc2 : c ∈ ps_subscriptions p2 /\ stream_of c p2 = ps_inbox p1 c ++ queue p1 c ++ ps_pub p1).
  { inversion Hsub as [| | | | ? ? ? Hs Ha Hb Hc| | | |]; subst. unfold stream_of, in_flight. simpl. rewrite Hs.
    split; [set_solver|done]. }
  destruct Hc2 as [Hc2 Hs2]. destruct (stream_of_steps capacity c p2 tr2 p3 Hafter Hok2 Hc2 Hkeep) as [_ Hs3].
  destruct (ok_steps capacity p2 tr2 p3 Hafter Hok2) as [_ Hpub Hque].
  exists (queue p3 c ++ in_flight c p3 ++ ps_pub p3). split.
  - rewrite !length_app. specialize (Hque c). unfold in_flight.
    destruct (ps_sending p3) as [[d order]|]; simpl; [case_decide; simpl|]; lia.
  - change (stream_of c p3 = ps_inbox p1 c ++ queue p1 c ++ ps_pub p1 ++ published tr2).
    by rewrite Hs3, Hs2, <- !app_assoc.
Qed.

(** C32: while its goroutine runs, nobody publishes and every subscriber's channel
    has room for a value at least, a publisher drains: in whatever order [run]
    sends and the subscribers receive, these steps come to an end, and when none
    is possible any more the buffer is empty, no send is pending, and every
    subscriber has received all that it was owed. *)
Theorem publisher_drains {T} `{Countable Chan} (capacity : Chan -> nat) (tr tr' : list (@event T Chan))
    (p p' : @pubSub T Chan _ _) (Hreach : steps capacity NewPublisher tr p) (Hrunning : ps_running p = true)
    (Hsteps : steps capacity p tr' p') (Hserving : Forall serving tr')
    (Hcap : forall c, c ∈ ps_subscriptions p' -> 0 < capacity c) :
  length tr' + work p' <= work p /\
  (idle capacity p' -> ps_sending p' = None /\ ps_pub p' = [] /\
     forall c, c ∈ ps_subscriptions p -> ps_inbox p' c = stream_of c p).
Proof.
  destruct (serving_steps capacity p tr' p' Hsteps Hserving) as (Hwork & Hr & Hpubl). split; [done|]. intros Hidle.
  assert (Hok : ok capacity p) by (eapply ok_steps; [exact Hreach|apply ok_new]).
  destruct (idle_drained capacity p') as (Hs & Hp & Hq); [by eapply ok_steps|done|congruence|done|].
  split; [done|]. split; [done|]. intros c Hc.
  destruct (stream_of_steps capacity c p tr' p' Hsteps Hok Hc) as [_ Heq].
  { eapply Forall_impl; [exact Hserving|]. by intros []. }
  unfold stream_of at 1, in_flight in Heq. by rewrite Hs, Hp, Hq, Hpubl, !app_nil_r in Heq.
Qed.

(** One subscriber that does not receive holds up all: as long as nothing is
    received from the full channel [run] sends to, nothing is sent to any
    subscriber, no subscription changes, and at most 64 values can be published. *)
Theorem slow_subscriber_blocks {T} `{Countable Chan} (capacity : Chan -> nat) (c : Chan)
    (tr1 tr2 : list (@event T Chan)) (p p' : @pubSub T Chan _ _)
    (Hreach : steps capacity NewPublisher tr1 p) (Hblocked : blocked_on capacity c p)
    (Hsteps : steps capacity p tr2 p') (Hno : (EReceive c) ∉ tr2) :
  blocked_on capacity c p' /\ ps_subscriptions p' = ps_subscriptions p /\
  length (published tr2) <= pub_capacity - length (ps_pub p) /\
  forall c', ps_inbox p' c' ++ queue p' c' = ps_inbox p c' ++ queue p c'.
Proof.
  destruct (blocked_steps capacity c p tr2 p' Hsteps Hblocked Hno) as (Hb & _ & Hsub & Hp & Hi).
  split; [done|]. split; [done|]. split; [|done].
  assert (Hok : ok capacity p') by (do 2 (eapply ok_steps; [eassumption|]); apply ok_new).
  pose proof (ok_pub _ _ Hok) as Hl. rewrite Hp, length_app in Hl. lia.
Qed.

(** Two values are published to one subscriber with a channel of one place. *)
Definition two_values : list (@event nat nat) := [EPublish 1; EPublish 2; EInternal; EInternal; EInternal; EInternal].
Definition one_place (_ : nat) : nat := 1.

Lemma two_values_run : exists p1 p2 : @pubSub nat nat _ _,
  step one_place NewPublisher (ESubscribe 7) p1 /\ steps one_place p1 two_values p2 /\
  ps_subscriptions p1 = {[7]} /\ ps_subscriptions p2 = {[7]} /\ ps_inbox p1 7 = [] /\ queue p1 7 = [] /\ ps_pub p1 = [] /\
  ps_running p2 = true /\ ps_sending p2 = Some (2, [7]) /\ queue p2 7 = [1] /\ ps_inbox p2 7 = [] /\ ps_pub p2 = [].
Proof.
  eexists. eexists. split; [by constructor|]. split.
  - unfold two_values.
    eapply (steps_snoc _ _ [EPublish 1; EPublish 2; EInternal; EInternal; EInternal]).
    { eapply (steps_snoc _ _ [EPublish 1; EPublish 2; EInternal; EInternal]).
      { eapply (steps_snoc _ _ [EPublish 1; EPublish 2; EInternal]).
        { eapply (steps_snoc _ _ [EPublish 1; EPublish 2]).
          { eapply (steps_snoc _ _ [EPublish 1]); [eapply (steps_snoc _ _ []); [constructor|]|].
            - constructor. simpl. unfold pub_capacity. lia.
            - constructor. simpl. unfold pub_capacity. lia. }
          by eapply (step_take _ _ 1 [2] [7]). }
        eapply (step_send _ _ 1 7 []); [done|done|]. vm_compute. lia. }
      by eapply (step_sent _ _ 1). }
    by eapply (step_take _ _ 2 [] [7]).
  - done.
Qed.

Lemma steps_trans {T} `{Countable Chan} (capacity : Chan -> nat) (p1 p2 p3 : @pubSub T Chan _ _) tr1 tr2 :
  steps capacity p1 tr1 p2 -> steps capacity p2 tr2 p3 -> steps capacity p1 (tr1 ++ tr2) p3.
Proof.
  intros H1 H2. induction H2 as [|p2 tr p3 e p4 _ IH He]; [by rewrite app_nil_r|].
  rewrite app_assoc. econstructor; eauto.
Qed.

Lemma steps_one {T} `{Countable Chan} (capacity : Chan -> nat) (p p' : @pubSub T Chan _ _) e :
  step capacity p e p' -> steps capacity p [e] p'.
Proof. intros He. eapply (steps_snoc _ p [] p e p'); [constructor|done]. Qed.

Lemma subscriber_receives_in_order_witness :
  exists p1 p2 : @pubSub nat nat _ _,
    step one_place NewPublisher (ESubscribe 7) p1 /\ steps one_place p1 two_values p2 /\
    exists rest, length rest <= 66 /\ ps_inbox p2 7 ++ rest = [1; 2].
Proof.
  destruct two_values_run as (p1 & p2 & Hsub & Hrun & _). exists p1, p2. split; [exact Hsub|]. split; [exact Hrun|].
  eapply (subscriber_receives_in_order one_place 7 [] two_values NewPublisher p1 p2);
    [constructor|exact Hsub|exact Hrun|by repeat constructor].
Defined.

Lemma publisher_drains_witness :
  exists p2 p3 : @pubSub nat nat _ _, steps one_place NewPublisher (ESubscribe 7 :: two_values) p2 /\
    steps one_place p2 [EReceive 7] p3 /\ 1 + work p3 <= work p2.
Proof.
  destruct two_values_run as (p1 & p2 & Hsub & Hrun & _ & Hsubs & _ & _ & _ & Hr & _ & Hq & _ & _).
  pose proof (step_receive one_place p2 7 1 [] Hq) as Hrec.
  assert (Hreach : steps one_place NewPublisher (ESubscribe 7 :: two_values) p2).
  { by apply (steps_trans one_place NewPublisher p1 p2 [ESubscribe 7] two_values); [apply steps_one|]. }
  exists p2. eexists. split; [exact Hreach|]. split; [apply steps_one; exact Hrec|].
  eapply (publisher_drains one_place _ [EReceive 7] p2 _ Hreach Hr (steps_one _ _ _ _ Hrec));
    [by repeat constructor|]. intros c _. unfold one_place. lia.
Defined.

Lemma slow_subscriber_blocks_witness :
  exists p2 p3 : @pubSub nat nat _ _, steps one_place NewPublisher (ESubscribe 7 :: two_values) p2 /\
    steps one_place p2 [EPublish 3] p3 /\ blocked_on one_place 7 p3.
Proof.
  destruct two_values_run as (p1 & p2 & Hsub & Hrun & _ & _ & _ & _ & _ & _ & Hs & Hq & _ & Hp).
  assert (Hreach : steps one_place NewPublisher (ESubscribe 7 :: two_values) p2).
  { by apply (steps_trans one_place NewPublisher p1 p2 [ESubscribe 7] two_values); [apply steps_one|]. }
  assert (Hb : blocked_on one_place 7 p2) by (unfold blocked_on; rewrite Hs, Hq; done).
  assert (Hpub : steps one_place p2 [EPublish 3] (set_pub (ps_pub p2 ++ [3]) p2)).
  { apply steps_one. constructor. rewrite Hp. simpl. unfold pub_capacity. lia. }
  eexists. eexists. split; [exact Hreach|]. split; [exact Hpub|].
  apply (slow_subscriber_blocks one_place 7 _ [EPublish 3] p2 _ Hreach Hb Hpub).
  by apply not_elem_of_cons; split; [|apply not_elem_of_nil].
Defined.
