(* ===== verification/Store.v ===== *)
(** [sdk/store], [sdk/store/file]: the stores an SDK client keeps its
    configuration JSON in, and the watchers that tell the client about a change.
    The ConfigCat SDK's own cache format and its JSON schema are third-party:
    they are the class [ConfigCatFormat]. Every operation is a function of the
    state it reads and of what the file system or the external cache answers. *)
From S2P Require Import Prelude Go Utils ConfigTypes Config Status.
Open Scope Z_scope.

(** [configcat.ConfigJson] with its JSON encoding, and [configcatcache]. *)
Class ConfigCatFormat := {
  ConfigJson : Type;
  zero_ConfigJson : ConfigJson;
  config_unmarshal : string -> go ConfigJson;
  config_marshal : ConfigJson -> string;
  CacheSegmentsFromBytes : string -> go (Z * string * string);
  CacheSegmentsToBytes : Z -> string -> string -> string;
  ProduceCacheKey : string -> string
}.

(** [time.Time{}], in seconds since 1970 *)
Definition zero_Time : Z := -62135596800.

(** [sdk/store/entries.go:19-24] EntryWithEtag *)
Record EntryWithEtag := { en_ConfigJson : string; en_ETag : string; en_FetchTime : Z; en_Empty : bool }.

#[export] Instance EntryWithEtag_eq_dec : EqDecision EntryWithEtag.
Proof. solve_decision. Defined.

Section store.
Context `{xxh : XXHash, cf : ConfigCatFormat}.

(** [sdk/store/entries.go:54-60] entryWithEtag *)
Definition entryWithEtag (configJson : string) (fetchTime : Z) (eTag : string) (empty : bool) : EntryWithEtag :=
  {| en_ConfigJson := configJson; en_ETag := eTag; en_FetchTime := fetchTime; en_Empty := empty |}.

(** [sdk/store/entries.go:31-39] NewEntryStore; an entry store is its atomic
    pointer, so its state is the entry *)
Definition NewEntryStore : EntryWithEtag :=
  let initial := config_marshal zero_ConfigJson in
  entryWithEtag initial zero_Time (GenerateEtag initial) true.

(** [sdk/store/entries.go:45-48] ComposeBytes *)
Definition ComposeBytes (entry : EntryWithEtag) : string :=
  CacheSegmentsToBytes (en_FetchTime entry) (en_ETag entry) (en_ConfigJson entry).

(** [sdk/store/entries.go:50-52] StoreEntry *)
Definition StoreEntry (configJson : string) (fetchTime : Z) (eTag : string) : EntryWithEtag :=
  entryWithEtag configJson fetchTime eTag false.

(** ** The store over an external cache *)

(** [sdk/store/store.go:37-45] Get; [got] is what the external cache answers *)
Definition cacheStore_Get (now : Z) (got : go string) (r : reporter) : go string * reporter :=
  (got, match got with
        | Fail _ => ReportError now Cache "cache read failed" r
        | _ => ReportOk now Cache "cache read succeeded" r
        end).

(** [sdk/store/store.go:47-61] Set; [set_result] is what the external cache
    answers to the write *)
Definition cacheStore_Set (now : Z) (value : string) (set_result : go unit)
    (entry : EntryWithEtag) (r : reporter) : go unit * EntryWithEtag * reporter :=
  match CacheSegmentsFromBytes value with
  | Ret (fetchTime, etag, configJson) =>
      let entry := StoreEntry configJson fetchTime etag in
      match set_result with
      | Fail err => (Fail err, entry, ReportError now Cache "cache write failed" r)
      | _ => (Ret tt, entry, ReportOk now Cache "cache write succeeded" r)
      end
  | Fail err => (Fail err, entry, ReportError now Cache "cache write failed" r)
  | Panic => (Panic, entry, r)
  end.

(** ** The in-memory store *)

(** [sdk/store/store.go:71-76] Get *)
Definition inMemoryStore_Get (entry : EntryWithEtag) : go string :=
  if en_Empty entry then Fail "no entry in cache" else Ret (ComposeBytes entry).

(** [sdk/store/store.go:78-82] Set; the error is dropped, and the results of a
    failed call are the zero values *)
Definition inMemoryStore_Set (value : string) (entry : EntryWithEtag) : go unit * EntryWithEtag :=
  match CacheSegmentsFromBytes value with
  | Ret (fetchTime, etag, configJson) => (Ret tt, StoreEntry configJson fetchTime etag)
  | Fail _ => (Ret tt, StoreEntry "" zero_Time "")
  | Panic => (Panic, entry)
  end.

(** ** The notifier *)

(** [sdk/store/notifier.go:12-16] notifier: whether its context is done, and
    whether the one-place [modified] channel is full *)
Record notifier := { nt_done : bool; nt_modified : bool }.

(** [sdk/store/notifier.go:18-24] NewNotifier *)
Definition NewNotifier : notifier := {| nt_done := false; nt_modified := false |}.

(** [sdk/store/notifier.go:34-41] Notify; [None] is a call that blocks until the
    receiver takes the pending signal *)
Definition Notify (n : notifier) : option notifier :=
  if nt_done n then Some n
  else if nt_modified n then None
  else Some {| nt_done := false; nt_modified := true |}.

(** [sdk/store/notifier.go:43-45] Close *)
Definition notifier_Close (n : notifier) : notifier :=
  {| nt_done := true; nt_modified := nt_modified n |}.

(** ** The polling store over an external cache *)

(** [sdk/store/cache_notify.go:16-25] notifyingCacheStore *)
Record notifyingCacheStore := {
  nc_entry : EntryWithEtag;
  nc_notifier : notifier;
  nc_sdkId : string;
  nc_cacheKey : string
}.

Definition on_nc_entry f (n : notifyingCacheStore) :=
  {| nc_entry := f (nc_entry n); nc_notifier := nc_notifier n; nc_sdkId := nc_sdkId n;
     nc_cacheKey := nc_cacheKey n |}.

(** [sdk/store/cache_notify.go:63-94] reload; [cache] is the external cache's [Get] *)
Definition cache_reload (now : Z) (cache : string -> go string) (n : notifyingCacheStore) (r : reporter) :
    bool * notifyingCacheStore * reporter :=
  let '(got, r) := cacheStore_Get now (cache (nc_cacheKey n)) r in
  match got with
  | Ret data =>
      match CacheSegmentsFromBytes data with
      | Ret (fetchTime, eTag, configJson) =>
          if bool_decide (en_ETag (nc_entry n) = eTag)
          then (false, n, ReportOk now (nc_sdkId n) "config from cache not modified" r)
          else match config_unmarshal configJson with
               | Ret _ => (true, on_nc_entry (fun _ => StoreEntry configJson fetchTime eTag) n,
                           ReportOk now (nc_sdkId n) "reload from cache succeeded" r)
               | _ => (false, n, ReportError now (nc_sdkId n) "failed to parse JSON from cache" r)
               end
      | _ => (false, n, ReportError now (nc_sdkId n) "failed to recognise the cache format" r)
      end
  | _ => (false, n, ReportError now (nc_sdkId n) "failed to read from cache" r)
  end.

(** [sdk/store/cache_notify.go:27-42] NewNotifyingCacheStore *)
Definition NewNotifyingCacheStore (now : Z) (sdkId cacheKey : string) (cache : string -> go string)
    (r : reporter) : notifyingCacheStore * reporter :=
  let n := {| nc_entry := NewEntryStore; nc_notifier := NewNotifier; nc_sdkId := sdkId;
              nc_cacheKey := cacheKey |} in
  let '(_, n, r) := cache_reload now cache n r in (n, r).

(** [sdk/store/cache_notify.go:96-98] Get *)
Definition notifyingCacheStore_Get (n : notifyingCacheStore) : go string := Ret (ComposeBytes (nc_entry n)).

(** [sdk/store/cache_notify.go:100-102] Set *)
Definition notifyingCacheStore_Set (value : string) (n : notifyingCacheStore) :
    go unit * notifyingCacheStore := (Ret tt, n).

(** [sdk/store/cache_notify.go:52-56] run, one tick; [None] when the signal blocks *)
Definition cache_tick (now : Z) (cache : string -> go string) (n : notifyingCacheStore) (r : reporter) :
    option (notifyingCacheStore * reporter) :=
  let '(changed, n, r) := cache_reload now cache n r in
  if changed
  then (fun nt => ({| nc_entry := nc_entry n; nc_notifier := nt; nc_sdkId := nc_sdkId n;
                      nc_cacheKey := nc_cacheKey n |}, r)) <$> Notify (nc_notifier n)
  else Some (n, r).

(** [sdk/store/cache_notify.go:45-48] run, the interval, in seconds *)
Definition cache_poll_interval (interval : Z) : Z :=
  if interval <? 1 then DefaultCachePollInterval else interval.

(** ** The store over a local file *)

(** [sdk/store/file/file.go:27-38] fileStore; [stored] is nil until the first
    successful load, which [bytes.Equal] takes for empty *)
Record fileStore := {
  fs_entry : EntryWithEtag;
  fs_notifier : notifier;
  fs_stored : string;
  fs_conf : LocalConfig;
  fs_sdkId : string
}.

(** [sdk/store/file/file.go:83-106] reload; [read] is the result of reading the
    file and [now] the time *)
Definition file_reload (now : Z) (read : string -> go string) (f : fileStore) (r : reporter) :
    bool * fileStore * reporter :=
  match read (local_FilePath (fs_conf f)) with
  | Ret data =>
      if bool_decide (fs_stored f = data)
      then (false, f, ReportOk now (fs_sdkId f) "config from file not modified" r)
      else match config_unmarshal data with
           | Ret root =>
               let ser := config_marshal root in
               (true, {| fs_entry := StoreEntry ser now (GenerateEtag ser);
                         fs_notifier := fs_notifier f; fs_stored := data; fs_conf := fs_conf f;
                         fs_sdkId := fs_sdkId f |},
                ReportOk now (fs_sdkId f) "file source reloaded" r)
           | _ => (false, f, ReportError now (fs_sdkId f) "failed to parse JSON from file" r)
           end
  | _ => (false, f, ReportError now (fs_sdkId f) "failed to read file" r)
  end.

(** Which watcher a file store got. *)
Inductive watcher := PollWatcher | FileWatcher | NullWatcher.

(** [sdk/store/file/file.go:42-54] NewFileStore, the choice of the watcher; the
    arguments say whether the watchers could be created *)
Definition choose_watcher (conf : LocalConfig) (file_ok poll_ok : bool) : watcher :=
  if negb (local_Polling conf) && file_ok then FileWatcher
  else if poll_ok then PollWatcher else NullWatcher.

(** [sdk/store/file/file.go:55-68] NewFileStore, the store *)
Definition NewFileStore (now : Z) (sdkId : string) (conf : LocalConfig) (read : string -> go string)
    (r : reporter) : fileStore * reporter :=
  let f := {| fs_entry := NewEntryStore; fs_notifier := NewNotifier; fs_stored := "";
              fs_conf := conf; fs_sdkId := sdkId |} in
  let '(_, f, r) := file_reload now read f r in (f, r).

(** [sdk/store/file/file.go:72-76] run, one modification of the file *)
Definition file_modified (now : Z) (read : string -> go string) (f : fileStore) (r : reporter) :
    option (fileStore * reporter) :=
  let '(changed, f, r) := file_reload now read f r in
  if changed
  then (fun nt => ({| fs_entry := fs_entry f; fs_notifier := nt; fs_stored := fs_stored f;
                      fs_conf := fs_conf f; fs_sdkId := fs_sdkId f |}, r)) <$> Notify (fs_notifier f)
  else Some (f, r).

(** [sdk/store/file/file.go:108-110] Get *)
Definition fileStore_Get (f : fileStore) : go string := Ret (ComposeBytes (fs_entry f)).

(** [sdk/store/file/file.go:112-114] Set *)
Definition fileStore_Set (value : string) (f : fileStore) : go unit * fileStore := (Ret tt, f).

(** ** The polling watcher *)

(** [sdk/store/file/poll_watcher.go:13-20] pollWatcher *)
Record pollWatcher := {
  pw_notifier : notifier;
  pw_realFilePath : string;
  pw_lastModifiedDate : Z;
  pw_lastSize : Z
}.

(** [sdk/store/file/poll_watcher.go:22-44] newPollWatcher *)
Definition newPollWatcher `{os : OS} (conf : LocalConfig) : go pollWatcher :=
  match os_stat (local_FilePath conf) with
  | StatOk mtime size =>
      realPath <-? filepath_eval_symlinks (local_FilePath conf);
      Ret {| pw_notifier := NewNotifier; pw_realFilePath := realPath;
             pw_lastModifiedDate := mtime; pw_lastSize := size |}
  | StatNotExist err | StatErr err => Fail err
  end.

(** [sdk/store/file/poll_watcher.go:55-65] run, one tick; [None] when the signal blocks *)
Definition poll_tick `{os : OS} (p : pollWatcher) : option pollWatcher :=
  match os_stat (pw_realFilePath p) with
  | StatOk mtime size =>
      if negb (mtime =? pw_lastModifiedDate p) || negb (size =? pw_lastSize p)
      then (fun nt => {| pw_notifier := nt; pw_realFilePath := pw_realFilePath p;
                         pw_lastModifiedDate := mtime; pw_lastSize := size |}) <$> Notify (pw_notifier p)
      else Some p
  | _ => Some p
  end.

(** [sdk/store/file/file_watcher.go:58-61] run, one event of the file system;
    [write] tells whether the event has the write bit *)
Definition file_event (realFilePath name : string) (write : bool) (n : notifier) : option notifier :=
  if bool_decide (name = realFilePath) && write then Notify n else Some n.

(** ** Specification *)

(** a configuration that parses *)
Definition parses (json : string) : bool :=
  match config_unmarshal json with Ret _ => true | _ => false end.

(** the configuration an external cache holds for a key, if it holds a valid one *)
Definition cached_entry (cache : string -> go string) (key : string) : option EntryWithEtag :=
  match cache key with
  | Ret data =>
      match CacheSegmentsFromBytes data with
      | Ret (fetchTime, eTag, configJson) =>
          if parses configJson then Some (StoreEntry configJson fetchTime eTag) else None
      | _ => None
      end
  | _ => None
  end.

(** the contents of the latest read that gave a configuration that parses *)
Definition last_good (reads : list (go string)) : option string :=
  last (omap (fun r => match r with Ret d => if parses d then Some d else None | _ => None end) reads).

(** the entry of a file store for the contents it has loaded, at some time *)
Definition entry_for (contents : option string) (e : EntryWithEtag) : Prop :=
  match contents with
  | None => e = NewEntryStore
  | Some d => exists root now, config_unmarshal d = Ret root /\
      e = StoreEntry (config_marshal root) now (GenerateEtag (config_marshal root))
  end.

Lemma last_good_snoc reads r :
  last_good (reads ++ [r]) =
  match r with Ret d => if parses d then Some d else last_good reads | _ => last_good reads end.
Proof.
  unfold last_good. rewrite omap_app. simpl. destruct r as [d| |]; simpl; rewrite ?app_nil_r; try done.
  destruct (parses d); simpl; [by rewrite last_snoc | by rewrite app_nil_r].
Qed.

(** The loads of a file store: the contents it sees, at the times it looks. *)
Fixpoint file_reloads (reads : list (Z * go string)) (f : fileStore) (r : reporter) : fileStore * reporter :=
  match reads with
  | [] => (f, r)
  | (now, read) :: reads =>
      let '(_, f, r) := file_reload now (fun _ => read) f r in file_reloads reads f r
  end.

Definition holds_latest (reads : list (go string)) (f : fileStore) : Prop :=
  fs_stored f = default "" (last_good reads) /\ entry_for (last_good reads) (fs_entry f).

Lemma file_reload_latest now read reads f r :
  parses "" = false -> holds_latest reads f ->
  holds_latest (reads ++ [read]) (file_reload now (fun _ => read) f r).1.2.
Proof.
  intros Hempty [Hs He]. unfold holds_latest, file_reload. rewrite last_good_snoc.
  destruct read as [d| |]; [|done..].
  case_bool_decide as Hd; simpl.
  - subst d. destruct (parses (fs_stored f)) eqn:Hp; [|done].
    destruct (last_good reads) as [d'|]; simpl in *; [subst d'; done | congruence].
  - unfold parses. destruct (config_unmarshal d) as [root| |] eqn:Hu; simpl; [|done..].
    split; [done|]. exists root, now. done.
Qed.

Lemma file_reloads_latest l reads f r :
  parses "" = false -> holds_latest reads f ->
  holds_latest (reads ++ l.*2) (file_reloads l f r).1.
Proof.
  intros Hempty. revert reads f r. induction l as [|[now read] l IH]; intros reads f r Hh; simpl.
  - by rewrite app_nil_r.
  - pose proof (file_reload_latest now read reads f r Hempty Hh) as Hstep.
    destruct (file_reload now (fun _ => read) f r) as [[b f1] r1].
    change (list_fmap _ _ snd l) with (l.*2). rewrite (cons_middle read reads), app_assoc. by apply IH.
Qed.
End store.

(** ** Properties *)

(** A reload from the external cache moves the store to the configuration
    the cache holds if that one is well-formed, parses and has another ETag
    than the current one, keeps the current one in every other case, and
    reports a change exactly when the ETag it serves has changed; a second
    reload of the same cache changes nothing. *)
Theorem cache_reload_follows_cache `{XXHash, ConfigCatFormat} (now now' : Z) (cache : string -> go string)
    (n : notifyingCacheStore) (r r2 : reporter) :
  let '(changed, n', _) := cache_reload now cache n r in
  nc_entry n' = match cached_entry cache (nc_cacheKey n) with
                | Some e => if decide (en_ETag e = en_ETag (nc_entry n)) then nc_entry n else e
                | None => nc_entry n
                end /\
  (changed = true <-> en_ETag (nc_entry n') <> en_ETag (nc_entry n)) /\
  nc_cacheKey n' = nc_cacheKey n /\ nc_notifier n' = nc_notifier n /\
  (cache_reload now' cache n' r2).1 = (false, n').
Proof.
  destruct n as [e nt id key]. unfold cached_entry, cache_reload, parses. simpl.
  destruct (cache key) as [data| |] eqn:Hc; simpl; rewrite ?Hc; try by split_and!.
  destruct (CacheSegmentsFromBytes data) as [[[t etag] json]| |] eqn:Hf; simpl; rewrite ?Hc; simpl;
    rewrite ?Hf; try by split_and!.
  case_bool_decide as He; simpl.
  - subst etag. rewrite Hc. simpl. rewrite Hf. rewrite bool_decide_eq_true_2 by done. simpl.
    split_and!; try done. destruct (config_unmarshal json); simpl; try done. by rewrite decide_True.
  - destruct (config_unmarshal json) as [root| |] eqn:Hu; simpl; rewrite ?Hc; simpl; rewrite Hf.
    + rewrite decide_False by congruence. rewrite bool_decide_eq_true_2 by done.
      split_and!; try done; congruence.
    + rewrite bool_decide_eq_false_2 by done. rewrite Hu. by split_and!.
    + rewrite bool_decide_eq_false_2 by done. rewrite Hu. by split_and!.
Qed.

(** C33: after any sequence of reads of its file, a file store holds the
    configuration of the latest read whose contents parse, re-serialized and
    under the ETag of that serialization, and none while no read has given one;
    reads that fail or do not parse in between are skipped. Empty contents are
    assumed not to parse, as JSON text is never empty. *)
Theorem file_store_holds_latest `{XXHash, ConfigCatFormat} (now : Z) (sdkId : string) (conf : LocalConfig)
    (first : go string) (reads : list (Z * go string)) (r : reporter)
    (Hempty : parses "" = false) :
  let '(f0, r0) := NewFileStore now sdkId conf (fun _ => first) r in
  let f := (file_reloads reads f0 r0).1 in
  fs_stored f = default "" (last_good (first :: reads.*2)) /\
  entry_for (last_good (first :: reads.*2)) (fs_entry f).
Proof.
  unfold NewFileStore. set (f := {| fs_entry := NewEntryStore; fs_conf := conf |}).
  assert (Hh : holds_latest [] f) by done.
  pose proof (file_reload_latest now first [] f r Hempty Hh) as Hstep.
  destruct (file_reload now (fun _ => first) f r) as [[b f1] r1]. simpl in Hstep.
  apply (file_reloads_latest reads [first] f1 r1 Hempty Hstep).
Qed.

(** A toy cache format and schema for the witnesses: a JSON text is a
    configuration when it is not empty, and a cached value is its JSON. *)
Definition toy_hash : XXHash := {| xxhash64 := fun b => 0; xxhash64_range := fun b => conj (Z.le_refl 0) eq_refl |}.
Definition toy_format : ConfigCatFormat :=
  {| ConfigJson := string; zero_ConfigJson := "{}";
     config_unmarshal := fun s => if decide (s = "") then Fail "unexpected end of JSON input" else Ret s;
     config_marshal := fun s => s;
     CacheSegmentsFromBytes := fun s => if decide (s = "") then Fail "number of values is fewer than expected"
                                        else Ret (0, "etag", s);
     CacheSegmentsToBytes := fun _ _ s => s;
     ProduceCacheKey := fun k => k |}.

Lemma file_store_holds_latest_witness :
  let conf := {| local_FilePath := "f.json"; local_Polling := false; local_PollInterval := 5 |} in
  let '(f0, r0) := @NewFileStore toy_hash toy_format 0 "t" conf (fun _ => Ret "{a}") NewEmptyReporter in
  let f := (@file_reloads toy_hash toy_format [(1, Fail "gone"); (2, Ret "{b}"); (3, Ret "")] f0 r0).1 in
  fs_stored f = "{b}".
Proof.
  intros conf.
  pose proof (@file_store_holds_latest toy_hash toy_format 0 "t" conf (Ret "{a}")
    [(1, Fail "gone"); (2, Ret "{b}"); (3, Ret "")] NewEmptyReporter eq_refl) as Hf.
  destruct (NewFileStore 0 "t" conf (fun _ => Ret "{a}") NewEmptyReporter) as [f0 r0].
  destruct Hf as [Hs _]. exact Hs.
Defined.

(** Writing through the cache store keeps the SDK's own copy current: the
    store serves the written configuration whenever its bytes are well-formed,
    even when the external cache rejects the write; the call fails exactly when
    the bytes are malformed or the external cache rejects them, and a malformed
    value leaves the copy alone. *)
Theorem cacheStore_Set_spec `{XXHash, ConfigCatFormat} (now : Z) (value : string) (set_result : go unit)
    (e : EntryWithEtag) (r : reporter)
    (Hcache : set_result <> Panic) (Hformat : CacheSegmentsFromBytes value <> Panic) :
  let '(result, e', r') := cacheStore_Set now value set_result e r in
  (e' = match CacheSegmentsFromBytes value with
        | Ret (fetchTime, etag, json) => StoreEntry json fetchTime etag
        | _ => e
        end) /\
  (result = Ret tt <-> (exists seg, CacheSegmentsFromBytes value = Ret seg) /\ set_result = Ret tt) /\
  (exists msg isError, r' = appendRecord now Cache msg isError r /\ (isError = true <-> result <> Ret tt)).
Proof.
  unfold cacheStore_Set. destruct (CacheSegmentsFromBytes value) as [[[t etag] json]|err|]; [|..|done].
  - destruct set_result as [[]|err|]; [..|done].
    + split_and!; [done | by split; eauto | by exists "cache write succeeded", false; split_and!].
    + split_and!; [done | split; [done | by intros [_ ?]] |].
      by exists "cache write failed", true; split_and!.
  - split_and!; [done | split; [done | by intros [[??] ?]] |].
    by exists "cache write failed", true; split_and!.
Qed.

Lemma cacheStore_Set_spec_witness :
  let e := @NewEntryStore toy_hash toy_format in
  let '(result, e', _) := @cacheStore_Set toy_format 0 "{a}" (Fail "down") e NewEmptyReporter in
  result <> Ret tt /\ en_ConfigJson e' = "{a}".
Proof.
  intros e.
  pose proof (@cacheStore_Set_spec toy_hash toy_format 0 "{a}" (Fail "down") e NewEmptyReporter) as Hset.
  destruct (cacheStore_Set 0 "{a}" (Fail "down") e NewEmptyReporter) as [[result e'] r'] eqn:Heq.
  destruct Hset as (-> & Hres & _); [done|done|]. split; [|reflexivity].
  intros Hr. apply Hres in Hr as [_ Hr]. done.
Defined.

(** An empty local file counts as unmodified: the source of the SDK is reported
    as working although there is no configuration. *)
Lemma file_reload_empty `{XXHash, ConfigCatFormat} (now now' : Z) (sdkId : string) (conf : LocalConfig) (r : reporter) :
  let f := {| fs_entry := NewEntryStore; fs_notifier := NewNotifier; fs_stored := "";
              fs_conf := conf; fs_sdkId := sdkId |} in
  NewFileStore now sdkId conf (fun _ => Ret "") r =
    (f, ReportOk now sdkId "config from file not modified" r) /\
  en_Empty (fs_entry f) = true.
Proof. done. Qed.

(** The in-memory store takes malformed bytes for an empty configuration. *)
Lemma inMemoryStore_Set_malformed `{XXHash, ConfigCatFormat} (value err : string) (e : EntryWithEtag) :
  CacheSegmentsFromBytes value = Fail err ->
  inMemoryStore_Set value e = (Ret tt, StoreEntry "" zero_Time "").
Proof. unfold inMemoryStore_Set. by intros ->. Qed.
