(* ===== verification/Sdk.v ===== *)
(** [sdk/sdk.go], [sdk/user_agent.go]: the SDK client of the proxy, a wrapper of
    the ConfigCat SDK's client. That client is third-party: a snapshot of it
    evaluates flags through the class [ConfigCatSDK]; what the proxy configures
    it with and when it is told to refresh are modelled. *)
From S2P Require Import Prelude Go Utils Model Log ConfigTypes Config Status Store.
Open Scope Z_scope.

(** The parts of [configcat.EvaluationDetails] the proxy reads. *)
Record EvaluationDetails := {
  ed_Key : string;
  ed_Value : value;
  ed_VariationID : string;
  ed_User : option (gmap string value);
  ed_Error : option eval_error;
  ed_MatchedPercentageOption : bool;   (* not nil *)
  ed_MatchedTargetingRule : bool       (* not nil *)
}.

(** A ready ConfigCat SDK client and its snapshots for a user. *)
Class ConfigCatSDK := {
  CC : Type;
  GetValueDetails : CC -> option (gmap string value) -> string -> EvaluationDetails;
  GetAllValueDetails : CC -> option (gmap string value) -> list EvaluationDetails;
  GetAllKeys : CC -> list string
}.

(** The external cache ([configcat.ConfigCache]), its state explicit. *)
Class ExternalCache := {
  XC : Type;
  xc_get : XC -> string -> go string;
  xc_set : XC -> string -> string -> go unit * XC
}.

(** [sdk/sdk.go:24-26] validEmptySdkKey *)
Definition validEmptySdkKey : string := "0000000000000000000000/0000000000000000000000".

(** The stores a client can have. *)
Inductive storage :=
| FileStorage (f : fileStore)
| NotifyingStorage (n : notifyingCacheStore)
| CacheStorage (entry : EntryWithEtag)
| InMemoryStorage (entry : EntryWithEtag).

Inductive DataGovernance := Global | EUOnly.

(** [sdk/sdk.go:99-138] NewClient, the [configcat.Config] it builds; the hooks
    and the interception of the transport by what they do *)
Record ClientConfig := {
  cc_Offline : bool;
  cc_BaseURL : string;
  cc_SDKKey : string;
  cc_DataGovernance : DataGovernance;
  cc_LogLevel : ConfigCatLevel;
  cc_OnConfigChanged : bool;     (* the change hook calls [signal] *)
  cc_ReportsFetches : bool       (* the transport is the status interceptor *)
}.

(** [sdk/sdk.go:45-55] Context, without the reporters and the transport *)
Record Context := {
  cx_SdkId : string;
  cx_SecondarySdkKey : option string;
  cx_SDKConf : SDKConfig;
  cx_GlobalDefaultAttrs : option (gmap string value)
}.

(** [sdk/sdk.go:57-70] client; [cl_closed] tells whether [Close] has run *)
Record client := {
  cl_config : ClientConfig;
  cl_defaultAttrs : option (gmap string value);
  cl_cache : storage;
  cl_sdkCtx : Context;
  cl_initialized : bool;
  cl_closed : bool
}.

Section sdk.
Context `{xxh : XXHash, cf : ConfigCatFormat, os : OS, mr : MapRange, xc : ExternalCache, cc : ConfigCatSDK}.

(** [sdk/sdk.go:77-89] NewClient, the choice of the store *)
Definition choose_storage (now : Z) (cx : Context) (cache : option XC) (r : reporter) : storage * reporter :=
  let conf := cx_SDKConf cx in
  let o := sdk_Offline conf in
  if off_Enabled o && bool_decide (local_FilePath (off_Local o) <> "") then
    let '(f, r) := NewFileStore now (cx_SdkId cx) (off_Local o) os_read_file r in (FileStorage f, r)
  else match cache with
       | Some c =>
           if off_Enabled o && off_UseCache o then
             let '(n, r) := NewNotifyingCacheStore now (cx_SdkId cx) (ProduceCacheKey (sdk_Key conf))
                              (xc_get c) r in
             (NotifyingStorage n, r)
           else if negb (off_Enabled o) then (CacheStorage NewEntryStore, r)
           else (InMemoryStorage NewEntryStore, r)
       | None => (InMemoryStorage NewEntryStore, r)
       end.

(** [sdk/sdk.go:73-138] NewClient, the configuration of the ConfigCat client *)
Definition client_config (cx : Context) (log : logger) : ClientConfig :=
  let conf := cx_SDKConf cx in
  let o := sdk_Offline conf in
  let sdkLog := WithPrefix (WithLevel log (GetLevel (sdk_Log conf))) (cx_SdkId cx) in
  {| cc_Offline := off_Enabled o;
     cc_BaseURL := sdk_BaseUrl conf;
     cc_SDKKey := if off_Enabled o && bool_decide (local_FilePath (off_Local o) <> "")
                  then validEmptySdkKey else sdk_Key conf;
     cc_DataGovernance := if bool_decide (sdk_DataGovernance conf = "eu") then EUOnly else Global;
     cc_LogLevel := GetConfigCatLevel sdkLog;
     cc_OnConfigChanged := negb (off_Enabled o);
     cc_ReportsFetches := negb (off_Enabled o) |}.

(** [sdk/sdk.go:72-154] NewClient; the first refresh and the polling run in the
    background *)
Definition NewClient (now : Z) (cx : Context) (cache : option XC) (log : logger) (r : reporter) :
    client * reporter :=
  let '(store, r) := choose_storage now cx cache r in
  ({| cl_config := client_config cx log;
      cl_defaultAttrs := MergeUserAttrs (cx_GlobalDefaultAttrs cx) (sdk_DefaultAttrs (cx_SDKConf cx));
      cl_cache := store; cl_sdkCtx := cx; cl_initialized := false; cl_closed := false |}, r).

(** [sdk/sdk.go:168-171] poll, the interval in seconds *)
Definition sdk_poll_interval (interval : Z) : Z :=
  if interval <? 1 then DefaultSdkPollInterval else interval.

(** What a client does to its ConfigCat client and its subscribers. *)
Inductive action := ARefresh | APublish.

(** [sdk/sdk.go:186-197] signal *)
Definition signal (c : client) : client * list action :=
  let offline := off_Enabled (sdk_Offline (cx_SDKConf (cl_sdkCtx c))) in
  if negb offline && negb (cl_initialized c) then
    ({| cl_config := cl_config c; cl_defaultAttrs := cl_defaultAttrs c; cl_cache := cl_cache c;
        cl_sdkCtx := cl_sdkCtx c; cl_initialized := true; cl_closed := cl_closed c |}, [])
  else (c, (if offline then [ARefresh] else []) ++ [APublish]).

Definition eval_data (details : EvaluationDetails) : EvalData :=
  {| d_Value := ed_Value details; d_VariationId := ed_VariationID details; d_Error := ed_Error details;
     d_User := ed_User details;
     d_IsTargeting := ed_MatchedPercentageOption details || ed_MatchedTargetingRule details |}.

(** [sdk/sdk.go:208-214] Eval; [cc] is the ConfigCat client once it is ready *)
Definition Eval (c : client) (cc : CC) (key : string) (user : option (gmap string value)) : EvalData :=
  eval_data (GetValueDetails cc (MergeUserAttrs (cl_defaultAttrs c) user) key).

(** [sdk/sdk.go:216-226] EvalAll *)
Definition EvalAll (c : client) (cc : CC) (user : option (gmap string value)) : gmap string EvalData :=
  fold_left (fun result details => <[ed_Key details := eval_data details]> result)
    (GetAllValueDetails cc (MergeUserAttrs (cl_defaultAttrs c) user)) ∅.

(** [sdk/sdk.go:228-231] Keys *)
Definition Keys (cc : CC) : list string := GetAllKeys cc.

(** [sdk/sdk.go:233-242] HasKey *)
Fixpoint has_key (key : string) (keys : list string) : bool :=
  match keys with
  | [] => false
  | k :: keys => if bool_decide (k = key) then true else has_key key keys
  end.
Definition HasKey (cc : CC) (key : string) : bool := has_key key (GetAllKeys cc).

(** [sdk/sdk.go:244-247] GetCachedJson *)
Definition GetCachedJson (c : client) : EntryWithEtag :=
  match cl_cache c with
  | FileStorage f => fs_entry f
  | NotifyingStorage n => nc_entry n
  | CacheStorage e | InMemoryStorage e => e
  end.

(** [sdk/sdk.go:256-259] SdkKeys *)
Definition SdkKeys (c : client) : string * option string :=
  (sdk_Key (cx_SDKConf (cl_sdkCtx c)), cx_SecondarySdkKey (cl_sdkCtx c)).

(** [sdk/sdk.go:261-264] SetSecondarySdkKey *)
Definition SetSecondarySdkKey (sdkKey : string) (c : client) : client :=
  let cx := cl_sdkCtx c in
  {| cl_config := cl_config c; cl_defaultAttrs := cl_defaultAttrs c; cl_cache := cl_cache c;
     cl_sdkCtx := {| cx_SdkId := cx_SdkId cx; cx_SecondarySdkKey := Some sdkKey;
                     cx_SDKConf := cx_SDKConf cx; cx_GlobalDefaultAttrs := cx_GlobalDefaultAttrs cx |};
     cl_initialized := cl_initialized c; cl_closed := cl_closed c |}.

(** [sdk/sdk.go:266-268] WebhookSigningKey *)
Definition WebhookSigningKey (c : client) : string := sdk_WebhookSigningKey (cx_SDKConf (cl_sdkCtx c)).

(** [sdk/sdk.go:270-272] WebhookSignatureValidFor *)
Definition WebhookSignatureValidFor (c : client) : Z :=
  sdk_WebhookSignatureValidFor (cx_SDKConf (cl_sdkCtx c)).

(** [sdk/sdk.go:274-276] IsInValidState *)
Definition IsInValidState (c : client) : bool := negb (en_Empty (GetCachedJson c)).

(** [sdk/sdk.go:283-285] Close, the notifier of the store *)
Definition close_storage (s : storage) : storage :=
  match s with
  | FileStorage f =>
      FileStorage {| fs_entry := fs_entry f; fs_notifier := notifier_Close (fs_notifier f);
                     fs_stored := fs_stored f; fs_conf := fs_conf f; fs_sdkId := fs_sdkId f |}
  | NotifyingStorage n =>
      NotifyingStorage {| nc_entry := nc_entry n; nc_notifier := notifier_Close (nc_notifier n);
                          nc_sdkId := nc_sdkId n; nc_cacheKey := nc_cacheKey n |}
  | _ => s
  end.

(** [sdk/sdk.go:282-292] Close; closing the publisher a second time panics *)
Definition Close (c : client) : go client :=
  if cl_closed c then Panic
  else Ret {| cl_config := cl_config c; cl_defaultAttrs := cl_defaultAttrs c;
              cl_cache := close_storage (cl_cache c); cl_sdkCtx := cl_sdkCtx c;
              cl_initialized := cl_initialized c; cl_closed := true |}.

Lemma has_key_spec key keys : has_key key keys = true <-> key ∈ keys.
Proof.
  induction keys as [|k keys IH]; simpl; [set_solver|].
  case_bool_decide; [set_solver|]. rewrite IH. set_solver.
Qed.

(** the changes an SDK client hears of, and what they make it do *)
Fixpoint signals (n : nat) (c : client) : client * list action :=
  match n with
  | O => (c, [])
  | S n => let '(c, a) := signal c in let '(c, a') := signals n c in (c, a ++ a')
  end.

Lemma signals_online n c :
  off_Enabled (sdk_Offline (cx_SDKConf (cl_sdkCtx c))) = false -> cl_initialized c = true ->
  (signals n c).2 = replicate n APublish.
Proof.
  intros Ho Hi. induction n as [|n IH]; simpl; [done|].
  unfold signal. rewrite Ho, Hi. simpl. destruct (signals n c). simpl in *. by rewrite IH.
Qed.

Lemma signals_offline n c :
  off_Enabled (sdk_Offline (cx_SDKConf (cl_sdkCtx c))) = true ->
  (signals n c).2 = concat (replicate n [ARefresh; APublish]).
Proof.
  intros Ho. induction n as [|n IH]; simpl; [done|].
  unfold signal. rewrite Ho. simpl. destruct (signals n c). simpl in *. by rewrite IH.
Qed.
End sdk.

Lemma NewNotifyingCacheStore_key `{XXHash, ConfigCatFormat} now id key cache r :
  nc_cacheKey (NewNotifyingCacheStore now id key cache r).1 = key.
Proof. unfold NewNotifyingCacheStore, cache_reload, cacheStore_Get. repeat case_match; by simplify_eq/=. Qed.

Lemma NewFileStore_conf `{XXHash, ConfigCatFormat} now id conf read r :
  fs_conf (NewFileStore now id conf read r).1 = conf.
Proof. unfold NewFileStore, file_reload. repeat case_match; by simplify_eq/=. Qed.

(** creating a client registers no SDK with the status reporter *)
Lemma NewClient_dom `{XXHash, ConfigCatFormat, OS, MapRange, ExternalCache} now cx cache log r :
  dom (st_SDKs (rp_status (NewClient now cx cache log r).2)) = dom (st_SDKs (rp_status r)).
Proof.
  unfold NewClient, choose_storage, NewFileStore, NewNotifyingCacheStore, file_reload, cache_reload,
    cacheStore_Get, ReportOk, ReportError.
  repeat case_match; simplify_eq/=; by rewrite ?append_dom.
Qed.

Lemma NewClient_ctx `{XXHash, ConfigCatFormat, OS, MapRange, ExternalCache} now cx cache log r :
  cl_sdkCtx (NewClient now cx cache log r).1 = cx /\ cl_closed (NewClient now cx cache log r).1 = false.
Proof. unfold NewClient. by destruct (choose_storage now cx cache r). Qed.

Lemma EvalAll_fold (l : list EvaluationDetails) (m : gmap string EvalData) k :
  NoDup (ed_Key <$> l) ->
  fold_left (fun result details => <[ed_Key details := eval_data details]> result) l m !! k =
  match list_find (fun d => ed_Key d = k) l with Some (_, d) => Some (eval_data d) | None => m !! k end.
Proof.
  revert m. induction l as [|d l IH]; intros m Hnd; simpl; [done|].
  apply NoDup_cons in Hnd as [Hd Hnd]. rewrite IH by done.
  destruct (decide (ed_Key d = k)) as [<-|Hne].
  - destruct (list_find _ l) as [[i d']|] eqn:Hf.
    + apply list_find_Some in Hf as (Hi & Hk & _). exfalso. apply Hd. rewrite <- Hk.
      apply list_elem_of_fmap. exists d'. split; [done|]. by eapply list_elem_of_lookup_2.
    + by rewrite lookup_insert_eq.
  - destruct (list_find _ l) as [[i d']|]; simpl; [done|]. by rewrite lookup_insert_ne.
Qed.

(** ** Properties *)

(** A new client reaches the network only when its SDK is online: in
    offline mode the ConfigCat client is created offline, with a file store
    when a local file is set (and then with a placeholder key instead of the
    SDK key), else with the polled external cache when there is one and it is
    enabled, else with the empty memory store; online it writes through to the
    external cache when there is one. *)
Theorem NewClient_storage `{XXHash, ConfigCatFormat, OS, MapRange, ExternalCache} (now : Z) (cx : Context)
    (cache : option XC) (log : logger) (r : reporter) :
  let c := (NewClient now cx cache log r).1 in
  let o := sdk_Offline (cx_SDKConf cx) in
  let file := local_FilePath (off_Local o) in
  cc_Offline (cl_config c) = off_Enabled o /\
  (cc_SDKKey (cl_config c) = validEmptySdkKey <->
     (off_Enabled o = true /\ file <> "") \/ sdk_Key (cx_SDKConf cx) = validEmptySdkKey) /\
  match cl_cache c with
  | FileStorage f => off_Enabled o = true /\ file <> "" /\ fs_conf f = off_Local o
  | NotifyingStorage n => off_Enabled o = true /\ file = "" /\ off_UseCache o = true /\ is_Some cache /\
      nc_cacheKey n = ProduceCacheKey (sdk_Key (cx_SDKConf cx))
  | CacheStorage _ => off_Enabled o = false /\ is_Some cache
  | InMemoryStorage e => cache = None /\ (off_Enabled o = true -> file = "") \/
      off_Enabled o = true /\ file = "" /\ off_UseCache o = false
  end.
Proof.
  unfold NewClient, choose_storage, client_config. cbv zeta.
  destruct (off_Enabled (sdk_Offline (cx_SDKConf cx))) eqn:Ho; simpl.
  - destruct (decide (local_FilePath (off_Local (sdk_Offline (cx_SDKConf cx))) = "")) as [Hf|Hf].
    + rewrite bool_decide_eq_false_2 by tauto. simpl. destruct cache as [c|]; simpl.
      * destruct (off_UseCache _) eqn:Hu; simpl; [|split; [done|split; naive_solver]].
        pose proof (NewNotifyingCacheStore_key now (cx_SdkId cx) (ProduceCacheKey (sdk_Key (cx_SDKConf cx)))
                      (xc_get c) r) as Hk.
        destruct (NewNotifyingCacheStore _ _ _ _ _) as [n r']. simpl.
        split; [done|split; naive_solver].
      * split; [done|split; [naive_solver|]]. by left.
    + rewrite bool_decide_eq_true_2 by done. simpl.
      pose proof (NewFileStore_conf now (cx_SdkId cx) (off_Local (sdk_Offline (cx_SDKConf cx)))
                    os_read_file r) as Hk.
      destruct (NewFileStore _ _ _ _ _) as [f r']. simpl. split; [done|split; naive_solver].
  - destruct cache; simpl; (split; [|split]); try done; naive_solver.
Qed.

(** An online client swallows the first change it hears of, the one its own
    start causes, and publishes one notification for each later change; an
    offline client refreshes and then publishes for every change. *)
Theorem signal_notifications `{XXHash, ConfigCatFormat, OS, MapRange, ExternalCache} (now : Z) (cx : Context)
    (cache : option XC) (log : logger) (r : reporter) (n : nat) :
  let c := (NewClient now cx cache log r).1 in
  (signals n c).2 = if off_Enabled (sdk_Offline (cx_SDKConf cx))
                    then concat (replicate n [ARefresh; APublish])
                    else replicate (pred n) APublish.
Proof.
  unfold NewClient. destruct (choose_storage now cx cache r) as [st r'].
  destruct (off_Enabled _) eqn:Ho; [by apply signals_offline|].
  destruct n as [|n]; [done|]. simpl. unfold signal. simpl. rewrite Ho. simpl.
  match goal with |- context [signals n ?c] =>
    pose proof (signals_online n c Ho eq_refl) as Hs; destruct (signals n c) end.
  exact Hs.
Qed.

(** [EvalAll] agrees with [Eval] flag by flag: it has an entry for exactly
    the flags the SDK lists, each the one [Eval] gives for the same user. The
    SDK's listing is assumed to have one entry per flag, equal to the flag's own
    evaluation. *)
Theorem EvalAll_agrees `{MapRange, ConfigCatSDK} (c : client) (cc : CC) (user : option (gmap string value))
    (Hunique : forall u, NoDup (ed_Key <$> GetAllValueDetails cc u))
    (Hsame : forall u d, d ∈ GetAllValueDetails cc u -> GetValueDetails cc u (ed_Key d) = d) (k : string) :
  let listed := GetAllValueDetails cc (MergeUserAttrs (cl_defaultAttrs c) user) in
  EvalAll c cc user !! k = if bool_decide (k ∈ ed_Key <$> listed) then Some (Eval c cc k user) else None.
Proof.
  intros listed. unfold EvalAll, Eval. rewrite EvalAll_fold by apply Hunique. fold listed.
  destruct (list_find _ listed) as [[i d]|] eqn:Hf.
  - apply list_find_Some in Hf as (Hi & Hk & _). apply list_elem_of_lookup_2 in Hi.
    rewrite bool_decide_eq_true_2 by (rewrite <- Hk; by apply list_elem_of_fmap_2).
    rewrite <- Hk, Hsame by done. done.
  - apply list_find_None in Hf. rewrite bool_decide_eq_false_2; [by rewrite lookup_empty|].
    intros (d & -> & Hd)%list_elem_of_fmap. rewrite Forall_forall in Hf. by apply (Hf d).
Qed.

(** A ConfigCat SDK with two flags, for the witness. *)
Definition two_flags (u : option (gmap string value)) (k : string) : EvaluationDetails :=
  {| ed_Key := k; ed_Value := VBool (bool_decide (k = "a")); ed_VariationID := "v"; ed_User := u; ed_Error := None;
     ed_MatchedPercentageOption := false; ed_MatchedTargetingRule := false |}.
Definition two_flag_sdk : ConfigCatSDK :=
  {| CC := unit; GetValueDetails := fun _ => two_flags;
     GetAllValueDetails := fun _ u => [two_flags u "a"; two_flags u "b"]; GetAllKeys := fun _ => ["a"; "b"] |}.

Lemma EvalAll_agrees_witness (c : client) :
  @EvalAll canonical_range two_flag_sdk c tt None !! "b" = Some (@Eval canonical_range two_flag_sdk c tt "b" None).
Proof.
  rewrite (@EvalAll_agrees canonical_range two_flag_sdk c tt None).
  - reflexivity.
  - intros u. simpl. repeat constructor; set_solver.
  - intros u d. simpl. intros [-> | [-> | []%elem_of_nil]%elem_of_cons]%elem_of_cons; reflexivity.
Defined.

(** The attributes an evaluation uses are the request's where it has them,
    else the SDK's defaults, else the proxy's global defaults. *)
Theorem Eval_attribute_precedence `{XXHash, ConfigCatFormat, OS, MapRange, ExternalCache, ConfigCatSDK} (now : Z)
    (cx : Context) (cache : option XC) (log : logger) (r : reporter) (cc : CC)
    (key : string) (user : option (gmap string value)) :
  let c := (NewClient now cx cache log r).1 in
  exists u, Eval c cc key user = eval_data (GetValueDetails cc u key) /\
    forall a, default ∅ u !! a =
      match default ∅ user !! a with
      | Some v => Some v
      | None => match default ∅ (sdk_DefaultAttrs (cx_SDKConf cx)) !! a with
                | Some v => Some v
                | None => default ∅ (cx_GlobalDefaultAttrs cx) !! a
                end
      end.
Proof.
  unfold NewClient, Eval. destruct (choose_storage now cx cache r) as [st r']. simpl.
  eexists. split; [done|]. intros a. by rewrite !merged_lookup.
Qed.
