(* ===== verification/Cache.v ===== *)
(** [cache]: the external caches behind the SDK stores and the profile, one of
    Redis, MongoDB and DynamoDB. The database drivers are third-party: each is a
    class with the calls that the proxy makes and, apart, the documented
    behaviour of these calls. The result is the interface [ExternalCache] that
    the stores and the registrar are written against. The log lines are left
    out. *)
From S2P Require Import Prelude Go Utils Log ConfigTypes Config Store Sdk Telemetry.
Open Scope Z_scope.

(** [cache/cache.go:13-16] keyName, payloadName *)
Definition keyName : string := "key".
Definition payloadName : string := "payload".

(** ** The drivers *)

(** [redis.UniversalOptions], the fields that are set *)
Record UniversalOptions := {
  uo_Addrs : list string; uo_Username : string; uo_Password : string; uo_DB : Z;
  uo_TLSConfig : option TlsOptions
}.

Class RedisDriver := {
  RDB : Type;
  redis_NewUniversalClient : UniversalOptions -> RDB;
  redisotel_Instrument : RDB -> otel_option -> option string;
  redis_Get : RDB -> string -> go string;
  redis_Set : RDB -> string -> string -> Z -> go unit * RDB;   (** the last argument is the expiration *)
  redis_Close : RDB -> go unit
}.

(** [cache/mongodb.go:21-24] entry *)
Record entry := { e_Key : string; e_Payload : string }.

(** A filter is a field and its value; a collection is named by its database and
    its own name. *)
Class MongoDriver := {
  MDB : Type;
  mongo_Connect : string -> option provider -> option TlsOptions -> go MDB;
  mongo_CreateIndex : MDB -> string * string -> string -> bool -> go unit * MDB;
  mongo_FindOne : MDB -> string * string -> string * string -> go entry;
  mongo_ReplaceOne : MDB -> string * string -> string * string -> entry -> bool -> go unit * MDB;
  mongo_Disconnect : MDB -> go unit
}.

(** [types.AttributeValue]; the members that the proxy does not use are one *)
Inductive AttributeValue := MemberS (v : string) | MemberB (v : string) | MemberOther.

Class DynamoDriver := {
  AwsConfig : Type;
  DDB : Type;
  aws_LoadDefaultConfig : go AwsConfig;
  aws_Instrument : list provider -> AwsConfig -> AwsConfig;
  dynamo_NewFromConfig : AwsConfig -> option string -> DDB;   (** the base endpoint, if it is set *)
  dynamo_GetItem : DDB -> string -> gmap string AttributeValue -> bool -> go (gmap string AttributeValue);
  dynamo_PutItem : DDB -> string -> gmap string AttributeValue -> go unit * DDB
}.

Section cache.
Context `{rd : RedisDriver, md : MongoDriver, dd : DynamoDriver}.
Context (load_key_pair : string -> string -> go unit).

(** [cache/redis.go:12-15] redisStore, [cache/mongodb.go:15-19] mongoDbStore,
    [cache/dynamodb.go:16-20] dynamoDbStore *)
Inductive External :=
| RedisStore (redisDb : RDB)
| MongoDbStore (mongoDb : MDB) (collection : string * string)
| DynamoDbStore (dynamoDb : DDB) (table : string).

(** [if conf.Tls.Enabled { t, err := conf.Tls.LoadTlsOptions() ... }] *)
Definition tls_options (t : TlsConfig) : go (option TlsOptions) :=
  if tls_Enabled t then o <-? LoadTlsOptions load_key_pair t; Ret (Some o) else Ret None.

(** ** Redis *)

(** [cache/redis.go:17-41] newRedis *)
Definition newRedis (conf : RedisConfig) (r : Reporter) : go External :=
  tls <-? tls_options (redis_Tls conf);
  let rdb := redis_NewUniversalClient
    {| uo_Addrs := redis_Addresses conf; uo_Username := redis_User conf; uo_Password := redis_Password conf;
       uo_DB := redis_DB conf; uo_TLSConfig := tls |} in
  try? InstrumentRedis (redisotel_Instrument rdb) r;
  Ret (RedisStore rdb).

(** [cache/redis.go:43-45] Get of redisStore *)
Definition redisStore_Get (db : RDB) (key : string) : go string := redis_Get db key.

(** [cache/redis.go:47-49] Set of redisStore *)
Definition redisStore_Set (db : RDB) (key value : string) : go unit * RDB := redis_Set db key value 0.

(** [if err != nil { log.Errorf("shutdown error: %s", err) }] *)
Definition shutdown_error (e : go unit) : option string :=
  match e with Fail err => Some ("shutdown error: " +:+ err) | _ => None end.

(** [cache/redis.go:51-57] Shutdown of redisStore: the error it logs *)
Definition redisStore_Shutdown (db : RDB) : option string := shutdown_error (redis_Close db).

(** ** MongoDB *)

(** [cache/mongodb.go:26-57] newMongoDb *)
Definition newMongoDb (conf : MongoDbConfig) (r : Reporter) : go External :=
  let monitor := InstrumentMongoDb r None in
  tls <-? tls_options (mongo_Tls conf);
  client <-? mongo_Connect (mongo_Url conf) monitor tls;
  let collection := (mongo_Database conf, mongo_Collection conf) in
  let '(err, client) := mongo_CreateIndex client collection keyName true in
  try? err;
  Ret (MongoDbStore client collection).

(** [cache/mongodb.go:59-63] Get of mongoDbStore *)
Definition mongoDbStore_Get (db : MDB) (coll : string * string) (key : string) : go string :=
  result <-? mongo_FindOne db coll (keyName, key); Ret (e_Payload result).

(** [cache/mongodb.go:65-68] Set of mongoDbStore *)
Definition mongoDbStore_Set (db : MDB) (coll : string * string) (key value : string) : go unit * MDB :=
  mongo_ReplaceOne db coll (keyName, key) {| e_Key := key; e_Payload := value |} true.

(** [cache/mongodb.go:70-79] Shutdown of mongoDbStore *)
Definition mongoDbStore_Shutdown (db : MDB) : option string := shutdown_error (mongo_Disconnect db).

(** ** DynamoDB *)

(** [cache/dynamodb.go:22-41] newDynamoDb *)
Definition newDynamoDb (conf : DynamoDbConfig) (r : Reporter) : go External :=
  awsCtx <-? aws_LoadDefaultConfig;
  let awsCtx := aws_Instrument (InstrumentAws r []) awsCtx in
  let endpoint := if bool_decide (dynamo_Url conf <> "") then Some (dynamo_Url conf) else None in
  Ret (DynamoDbStore (dynamo_NewFromConfig awsCtx endpoint) (dynamo_Table conf)).

(** [cache/dynamodb.go:43-63] Get of dynamoDbStore *)
Definition dynamoDb_Get (d : DDB) (table key : string) : go string :=
  item <-? dynamo_GetItem d table {[keyName := MemberS key]} true;
  match item !! payloadName with
  | Some (MemberB v) => Ret v
  | Some _ => Fail ("invalid item under key '" +:+ key +:+ "'")
  | None => Fail ("cache item not found for key '" +:+ key +:+ "'")
  end.

(** [cache/dynamodb.go:65-74] Set of dynamoDbStore *)
Definition dynamoDb_Set (d : DDB) (table key value : string) : go unit * DDB :=
  dynamo_PutItem d table {[keyName := MemberS key; payloadName := MemberB value]}.

(** ** The interface *)

(** [cache/cache.go:18-23] External, its methods by the kind of cache *)
Definition External_Get (x : External) (key : string) : go string :=
  match x with
  | RedisStore db => redisStore_Get db key
  | MongoDbStore db coll => mongoDbStore_Get db coll key
  | DynamoDbStore d table => dynamoDb_Get d table key
  end.

Definition External_Set (x : External) (key value : string) : go unit * External :=
  match x with
  | RedisStore db => let '(err, db) := redisStore_Set db key value in (err, RedisStore db)
  | MongoDbStore db coll => let '(err, db) := mongoDbStore_Set db coll key value in (err, MongoDbStore db coll)
  | DynamoDbStore d table => let '(err, d) := dynamoDb_Set d table key value in (err, DynamoDbStore d table)
  end.

(** [cache/dynamodb.go:76-78] Shutdown of DynamoDB does nothing *)
Definition External_Shutdown (x : External) : option string :=
  match x with
  | RedisStore db => redisStore_Shutdown db
  | MongoDbStore db _ => mongoDbStore_Shutdown db
  | DynamoDbStore _ _ => None
  end.

#[export] Instance external_cache : ExternalCache :=
  {| XC := External; xc_get := External_Get; xc_set := External_Set |}.

(** [cache/cache.go:25-51] SetupExternalCache *)
Definition SetupExternalCache (conf : CacheConfig) (r : Reporter) : go (option External) :=
  if redis_Enabled (cache_Redis conf) then x <-? newRedis (cache_Redis conf) r; Ret (Some x)
  else if mongo_Enabled (cache_MongoDb conf) then x <-? newMongoDb (cache_MongoDb conf) r; Ret (Some x)
  else if dynamo_Enabled (cache_DynamoDb conf) then x <-? newDynamoDb (cache_DynamoDb conf) r; Ret (Some x)
  else Ret None.
End cache.

(** ** The abstract cache

    What the stores and the registrar may assume of a cache: a map that can be
    unreachable. A read that returns a value returns the current one; a write
    that succeeds stores its value; one that fails may have stored it too, as
    when the answer is lost. *)
Class CacheLaws (x : ExternalCache) := {
  cache_view : XC -> gmap string string;
  cache_up : XC -> Prop;
  get_sound : forall c k v, xc_get c k = Ret v -> cache_view c !! k = Some v;
  get_up : forall c k v, cache_up c -> cache_view c !! k = Some v -> xc_get c k = Ret v;
  get_no_panic : forall c k, xc_get c k <> Panic;
  set_ok : forall c k v c', xc_set c k v = (Ret tt, c') -> cache_view c' = <[k := v]> (cache_view c);
  set_fail : forall c k v e c', xc_set c k v = (Fail e, c') ->
    cache_view c' = cache_view c \/ cache_view c' = <[k := v]> (cache_view c);
  set_up : forall c k v, cache_up c -> exists c', xc_set c k v = (Ret tt, c') /\ cache_up c';
  set_no_panic : forall c k v, (xc_set c k v).1 <> Panic
}.

(** ** The documented behaviour of the drivers *)

(** Redis: string keys; an expiration of zero means that there is none. *)
Class RedisLaws (rd : RedisDriver) := {
  redis_view : RDB -> gmap string string;
  redis_up : RDB -> Prop;
  redis_Get_sound : forall db k v, redis_Get db k = Ret v -> redis_view db !! k = Some v;
  redis_Get_up : forall db k v, redis_up db -> redis_view db !! k = Some v -> redis_Get db k = Ret v;
  redis_Get_no_panic : forall db k, redis_Get db k <> Panic;
  redis_Set_ok : forall db k v db', redis_Set db k v 0 = (Ret tt, db') -> redis_view db' = <[k := v]> (redis_view db);
  redis_Set_fail : forall db k v e db', redis_Set db k v 0 = (Fail e, db') ->
    redis_view db' = redis_view db \/ redis_view db' = <[k := v]> (redis_view db);
  redis_Set_up : forall db k v, redis_up db -> exists db', redis_Set db k v 0 = (Ret tt, db') /\ redis_up db';
  redis_Set_no_panic : forall db k v, (redis_Set db k v 0).1 <> Panic
}.

(** MongoDB: documents of a collection with a unique index on their key; a
    replacement with [upsert] inserts a missing document. *)
Class MongoLaws (md : MongoDriver) := {
  mongo_docs : MDB -> string * string -> gmap string entry;
  mongo_up : MDB -> Prop;
  mongo_FindOne_sound : forall db coll k e,
    mongo_FindOne db coll (keyName, k) = Ret e -> mongo_docs db coll !! k = Some e;
  mongo_FindOne_up : forall db coll k e,
    mongo_up db -> mongo_docs db coll !! k = Some e -> mongo_FindOne db coll (keyName, k) = Ret e;
  mongo_FindOne_no_panic : forall db coll f, mongo_FindOne db coll f <> Panic;
  mongo_ReplaceOne_ok : forall db coll k e db', mongo_ReplaceOne db coll (keyName, k) e true = (Ret tt, db') ->
    mongo_docs db' coll = <[k := e]> (mongo_docs db coll);
  mongo_ReplaceOne_fail : forall db coll k e err db',
    mongo_ReplaceOne db coll (keyName, k) e true = (Fail err, db') ->
    mongo_docs db' coll = mongo_docs db coll \/ mongo_docs db' coll = <[k := e]> (mongo_docs db coll);
  mongo_ReplaceOne_up : forall db coll k e, mongo_up db ->
    exists db', mongo_ReplaceOne db coll (keyName, k) e true = (Ret tt, db') /\ mongo_up db';
  mongo_ReplaceOne_no_panic : forall db coll k e, (mongo_ReplaceOne db coll (keyName, k) e true).1 <> Panic
}.

(** DynamoDB: a table whose partition key is the attribute [key], of type
    string; a put replaces the whole item; a read that finds nothing returns no
    attributes. *)
Class DynamoLaws (dd : DynamoDriver) := {
  dynamo_items : DDB -> string -> gmap string (gmap string AttributeValue);
  dynamo_up : DDB -> Prop;
  dynamo_GetItem_sound : forall d table k item,
    dynamo_GetItem d table {[keyName := MemberS k]} true = Ret item ->
    item = default ∅ (dynamo_items d table !! k);
  dynamo_GetItem_up : forall d table k, dynamo_up d ->
    dynamo_GetItem d table {[keyName := MemberS k]} true = Ret (default ∅ (dynamo_items d table !! k));
  dynamo_GetItem_no_panic : forall d table k b, dynamo_GetItem d table k b <> Panic;
  dynamo_PutItem_ok : forall d table k item d', item !! keyName = Some (MemberS k) ->
    dynamo_PutItem d table item = (Ret tt, d') -> dynamo_items d' table = <[k := item]> (dynamo_items d table);
  dynamo_PutItem_fail : forall d table k item e d', item !! keyName = Some (MemberS k) ->
    dynamo_PutItem d table item = (Fail e, d') ->
    dynamo_items d' table = dynamo_items d table \/ dynamo_items d' table = <[k := item]> (dynamo_items d table);
  dynamo_PutItem_up : forall d table k item, item !! keyName = Some (MemberS k) -> dynamo_up d ->
    exists d', dynamo_PutItem d table item = (Ret tt, d') /\ dynamo_up d';
  dynamo_PutItem_no_panic : forall d table item, (dynamo_PutItem d table item).1 <> Panic
}.

Definition binary_payload (item : gmap string AttributeValue) : option string :=
  match item !! payloadName with Some (MemberB v) => Some v | _ => None end.

Section laws.
Context `{rd : RedisDriver, md : MongoDriver, dd : DynamoDriver}.
Context {rl : RedisLaws rd} {ml : MongoLaws md} {dl : DynamoLaws dd}.

(** what a cache holds, as a map *)
Definition External_view (x : External) : gmap string string :=
  match x with
  | RedisStore db => redis_view db
  | MongoDbStore db coll => e_Payload <$> mongo_docs db coll
  | DynamoDbStore d table => omap binary_payload (dynamo_items d table)
  end.

Definition External_up (x : External) : Prop :=
  match x with
  | RedisStore db => redis_up db
  | MongoDbStore db _ => mongo_up db
  | DynamoDbStore d _ => dynamo_up d
  end.

Lemma dynamoDb_Get_view d table key v :
  dynamoDb_Get d table key = Ret v -> omap binary_payload (dynamo_items d table) !! key = Some v.
Proof.
  unfold dynamoDb_Get. destruct (dynamo_GetItem _ _ _ _) as [item| |] eqn:Hg; simpl; [|done..].
  apply dynamo_GetItem_sound in Hg. rewrite lookup_omap. subst item. unfold binary_payload.
  destruct (dynamo_items d table !! key) as [item|]; simpl; [|by rewrite lookup_empty].
  by destruct (item !! payloadName) as [[]|]; intros [= ->].
Qed.

Lemma dynamoDb_Get_up d table key v : dynamo_up d ->
  omap binary_payload (dynamo_items d table) !! key = Some v -> dynamoDb_Get d table key = Ret v.
Proof.
  intros Hup. unfold dynamoDb_Get. rewrite dynamo_GetItem_up by done. rewrite lookup_omap. simpl.
  destruct (dynamo_items d table !! key) as [item|]; simpl; [|done]. unfold binary_payload.
  by destruct (item !! payloadName) as [[]|]; intros [= ->].
Qed.

Definition dynamo_item (key value : string) : gmap string AttributeValue :=
  {[keyName := MemberS key; payloadName := MemberB value]}.
Lemma dynamo_item_key key value : dynamo_item key value !! keyName = Some (MemberS key).
Proof. done. Qed.
Lemma dynamo_item_payload key value : binary_payload (dynamo_item key value) = Some value.
Proof. done. Qed.

Lemma External_set_ok x k v x' : External_Set x k v = (Ret tt, x') ->
  External_view x' = <[k := v]> (External_view x).
Proof.
  destruct x as [db|db coll|d table]; simpl.
  - destruct (redisStore_Set db k v) as [e db'] eqn:Hs. intros [= -> <-]. by apply redis_Set_ok.
  - destruct (mongoDbStore_Set db coll k v) as [e db'] eqn:Hs. intros [= -> <-]. simpl.
    apply mongo_ReplaceOne_ok in Hs. by rewrite Hs, fmap_insert.
  - destruct (dynamoDb_Set d table k v) as [e d'] eqn:Hs. intros [= -> <-]. simpl.
    apply (dynamo_PutItem_ok _ _ k) in Hs; [|apply dynamo_item_key].
    rewrite Hs. by rewrite (omap_insert_Some _ _ _ _ v).
Qed.

Lemma External_set_fail x k v e x' : External_Set x k v = (Fail e, x') ->
  External_view x' = External_view x \/ External_view x' = <[k := v]> (External_view x).
Proof.
  destruct x as [db|db coll|d table]; simpl.
  - destruct (redisStore_Set db k v) as [e' db'] eqn:Hs. intros [= -> <-]. by eapply redis_Set_fail.
  - destruct (mongoDbStore_Set db coll k v) as [e' db'] eqn:Hs. intros [= -> <-]. simpl.
    apply mongo_ReplaceOne_fail in Hs as [->| ->]; [by left|right; by rewrite fmap_insert].
  - destruct (dynamoDb_Set d table k v) as [e' d'] eqn:Hs. intros [= -> <-]. simpl.
    apply (dynamo_PutItem_fail _ _ k) in Hs as [->| ->]; [by left|right|apply dynamo_item_key].
    by rewrite (omap_insert_Some _ _ _ _ v).
Qed.

Lemma External_set_up x k v : External_up x -> exists x', External_Set x k v = (Ret tt, x') /\ External_up x'.
Proof.
  destruct x as [db|db coll|d table]; simpl; intros Hup.
  - destruct (redis_Set_up db k v Hup) as (db' & Hs & Hup'). exists (RedisStore db').
    unfold redisStore_Set. by rewrite Hs.
  - destruct (mongo_ReplaceOne_up db coll k {| e_Key := k; e_Payload := v |} Hup) as (db' & Hs & Hup').
    exists (MongoDbStore db' coll). unfold mongoDbStore_Set. by rewrite Hs.
  - destruct (dynamo_PutItem_up d table k (dynamo_item k v) (dynamo_item_key k v) Hup) as (d' & Hs & Hup').
    exists (DynamoDbStore d' table). unfold dynamoDb_Set. fold (dynamo_item k v). by rewrite Hs.
Qed.

(** every kind of cache is a map that can be unreachable *)
#[export, refine] Instance external_cache_laws : CacheLaws external_cache :=
  {| cache_view := External_view; cache_up := External_up |}.
Proof.
  - intros [db|db coll|d table] k v; simpl.
    + apply redis_Get_sound.
    + unfold mongoDbStore_Get. destruct (mongo_FindOne _ _ _) as [e| |] eqn:Hf; intros [= <-].
      apply mongo_FindOne_sound in Hf. by rewrite lookup_fmap, Hf.
    + apply dynamoDb_Get_view.
  - intros [db|db coll|d table] k v; simpl.
    + apply redis_Get_up.
    + intros Hup. rewrite lookup_fmap, fmap_Some. intros (e & Hf & ->).
      unfold mongoDbStore_Get. by rewrite (mongo_FindOne_up _ _ _ _ Hup Hf).
    + apply dynamoDb_Get_up.
  - intros [db|db coll|d table] k; simpl.
    + apply redis_Get_no_panic.
    + unfold mongoDbStore_Get. pose proof (mongo_FindOne_no_panic db coll (keyName, k)).
      by destruct (mongo_FindOne _ _ _).
    + unfold dynamoDb_Get. pose proof (dynamo_GetItem_no_panic d table {[keyName := MemberS k]} true).
      destruct (dynamo_GetItem _ _ _ _) as [item| |]; simpl; [|done..].
      by destruct (item !! payloadName) as [[]|].
  - intros x k v x'. apply External_set_ok.
  - intros x k v e x'. apply External_set_fail.
  - intros x k v. apply External_set_up.
  - intros [db|db coll|d table] k v; simpl.
    + pose proof (redis_Set_no_panic db k v). unfold redisStore_Set. by destruct (redis_Set _ _ _ _).
    + pose proof (mongo_ReplaceOne_no_panic db coll k {| e_Key := k; e_Payload := v |}).
      unfold mongoDbStore_Set. by destruct (mongo_ReplaceOne _ _ _ _ _).
    + pose proof (dynamo_PutItem_no_panic d table (dynamo_item k v)). unfold dynamoDb_Set.
      fold (dynamo_item k v). by destruct (dynamo_PutItem _ _ _).
Defined.
End laws.

(** ** Drivers in memory, for the witnesses *)
Definition toy_redis : RedisDriver := {|
  RDB := gmap string string;
  redis_NewUniversalClient _ := ∅;
  redisotel_Instrument _ _ := None;
  redis_Get db k := match db !! k with Some v => Ret v | None => Fail "redis: nil" end;
  redis_Set db k v _ := (Ret tt, <[k := v]> db);
  redis_Close _ := Ret tt
|}.
#[refine] Definition toy_redis_laws : RedisLaws toy_redis :=
  {| redis_view := (fun db : gmap string string => db) : @RDB toy_redis -> _; redis_up _ := True |}.
Proof.
  all: simpl.
  - intros db k v. by destruct (db !! k); intros [= ->].
  - by intros db k v _ ->.
  - intros db k. by destruct (db !! k).
  - by intros db k v db' [= <-].
  - done.
  - intros db k v _. by eexists.
  - done.
Defined.

Definition toy_mongo : MongoDriver := {|
  MDB := gmap (string * string) (gmap string entry);
  mongo_Connect _ _ _ := Ret ∅;
  mongo_CreateIndex db _ _ _ := (Ret tt, db);
  mongo_FindOne db coll f :=
    match default ∅ (db !! coll) !! f.2 with Some e => Ret e | None => Fail "mongo: no documents in result" end;
  mongo_ReplaceOne db coll f e _ := (Ret tt, <[coll := <[f.2 := e]> (default ∅ (db !! coll))]> db);
  mongo_Disconnect _ := Ret tt
|}.
#[refine] Definition toy_mongo_laws : MongoLaws toy_mongo :=
  {| mongo_docs := (fun (db : gmap (string * string) (gmap string entry)) coll => default ∅ (db !! coll))
                   : @MDB toy_mongo -> _;
     mongo_up _ := True |}.
Proof.
  all: simpl.
  - intros db coll k e. by destruct (default ∅ (db !! coll) !! k); intros [= ->].
  - by intros db coll k e _ ->.
  - intros db coll f. by destruct (default ∅ (db !! coll) !! f.2).
  - intros db coll k e db' [= <-]. by rewrite lookup_insert_eq.
  - done.
  - intros db coll k e _. by eexists.
  - done.
Defined.

Definition item_key (item : gmap string AttributeValue) : string :=
  match item !! keyName with Some (MemberS k) => k | _ => "" end.
Definition toy_dynamo : DynamoDriver := {|
  AwsConfig := unit; DDB := gmap string (gmap string (gmap string AttributeValue));
  aws_LoadDefaultConfig := Ret tt; aws_Instrument _ c := c;
  dynamo_NewFromConfig _ _ := ∅;
  dynamo_GetItem d table item _ := Ret (default ∅ (default ∅ (d !! table) !! item_key item));
  dynamo_PutItem d table item := (Ret tt, <[table := <[item_key item := item]> (default ∅ (d !! table))]> d)
|}.
#[refine] Definition toy_dynamo_laws : DynamoLaws toy_dynamo :=
  {| dynamo_items := (fun (d : gmap string (gmap string (gmap string AttributeValue))) table =>
                        default ∅ (d !! table)) : @DDB toy_dynamo -> _;
     dynamo_up _ := True |}.
Proof.
  all: simpl.
  - by intros d table k item [= <-].
  - done.
  - done.
  - intros d table k item d' Hk [= <-]. unfold item_key. by rewrite Hk, lookup_insert_eq.
  - done.
  - intros d table k item _ _. by eexists.
  - done.
Defined.

(** ** Properties *)

Inductive kind := KRedis | KMongoDb | KDynamoDb.
Definition kind_of `{RedisDriver, MongoDriver, DynamoDriver} (x : External) : kind :=
  match x with RedisStore _ => KRedis | MongoDbStore _ _ => KMongoDb | DynamoDbStore _ _ => KDynamoDb end.

(** writes that all succeed, one after the other *)
Fixpoint writes `{ExternalCache} (ws : list (string * string)) (c : XC) : option XC :=
  match ws with
  | [] => Some c
  | (k, v) :: ws => match xc_set c k v with (Ret _, c) => writes ws c | _ => None end
  end.

Definition written (ws : list (string * string)) (m : gmap string string) : gmap string string :=
  fold_left (fun m kv => <[kv.1 := kv.2]> m) ws m.

Lemma writes_view {x : ExternalCache} {cl : CacheLaws x} ws c c' : writes ws c = Some c' -> cache_view c' = written ws (cache_view c).
Proof.
  revert c. induction ws as [|[k v] ws IH]; intros c; simpl; [by intros [= ->]|].
  destruct (xc_set c k v) as [[[]| |] c1] eqn:Hs; [|done..]. intros Hw.
  rewrite (IH _ Hw). by rewrite (set_ok _ _ _ _ Hs).
Qed.

Lemma writes_kind `{RedisDriver, MongoDriver, DynamoDriver} ws c c' :
  writes ws c = Some c' -> kind_of c' = kind_of c.
Proof.
  revert c. induction ws as [|[k v] ws IH]; intros c; simpl; [by intros [= ->]|].
  destruct (External_Set c k v) as [[| |] c1] eqn:Hs; [|done..]. intros Hw. rewrite (IH _ Hw).
  unfold External_Set in Hs. by destruct c; case_match; simplify_eq.
Qed.

Lemma SetupExternalCache_kind `{RedisDriver, MongoDriver, DynamoDriver} load_key_pair conf r o :
  SetupExternalCache load_key_pair conf r = Ret o ->
  kind_of <$> o = if redis_Enabled (cache_Redis conf) then Some KRedis
                  else if mongo_Enabled (cache_MongoDb conf) then Some KMongoDb
                  else if dynamo_Enabled (cache_DynamoDb conf) then Some KDynamoDb else None.
Proof.
  unfold SetupExternalCache, newRedis, newMongoDb, newDynamoDb.
  destruct (redis_Enabled _); [|destruct (mongo_Enabled _); [|destruct (dynamo_Enabled _); [|by intros [= <-]]]];
    rewrite go_bind_ret; intros (x & Hx & [= <-]); apply go_bind_ret in Hx as (y & _ & Hx).
  - apply go_bind_ret in Hx as (? & _ & [= <-]). done.
  - apply go_bind_ret in Hx as (client & _ & Hx). destruct (mongo_CreateIndex _ _ _ _) as [err db].
    apply go_bind_ret in Hx as (? & _ & [= <-]). done.
  - by injection Hx as <-.
Qed.

(** C14: the external cache that is set up is Redis when Redis is enabled, else
    MongoDB, else DynamoDB, and there is none only when none is enabled.
    Whichever it is, it behaves as one map: after any sequence of successful
    writes, a key reads as the value last written to it, or as what the database
    already held, and while the database is reachable every such read succeeds. *)
Theorem external_cache_is_a_map `{RedisDriver, MongoDriver, DynamoDriver}
    {rl : RedisLaws _} {ml : MongoLaws _} {dl : DynamoLaws _}
    (load_key_pair : string -> string -> go unit) (conf : CacheConfig) (r : Reporter)
    (o : option External) (Hsetup : SetupExternalCache load_key_pair conf r = Ret o) :
  (kind_of <$> o = if redis_Enabled (cache_Redis conf) then Some KRedis
                   else if mongo_Enabled (cache_MongoDb conf) then Some KMongoDb
                   else if dynamo_Enabled (cache_DynamoDb conf) then Some KDynamoDb else None) /\
  (forall c ws c', o = Some c -> writes ws c = Some c' ->
     let m := written ws (External_view c) in
     kind_of c' = kind_of c /\
     (forall k v, External_Get c' k = Ret v -> m !! k = Some v) /\
     (forall k v, External_up c' -> m !! k = Some v -> External_Get c' k = Ret v)).
Proof.
  split; [by eapply SetupExternalCache_kind|].
  intros c ws c' -> Hw m.
  pose proof (writes_view ws c c' Hw : External_view c' = m) as Hv.
  split; [by eapply writes_kind|]. rewrite <- Hv.
  split; intros k v; [exact (@get_sound _ external_cache_laws c' k v) | exact (@get_up _ external_cache_laws c' k v)].
Qed.

Definition no_tls : TlsConfig :=
  {| tls_Enabled := false; tls_MinVersion := {| f64_bits := 0 |}; tls_ServerName := ""; tls_Certificates := [] |}.
Definition demo_cache_conf : CacheConfig := {|
  cache_Redis := {| redis_Enabled := false; redis_Addresses := []; redis_DB := 0; redis_User := "";
                    redis_Password := ""; redis_Tls := no_tls |};
  cache_MongoDb := {| mongo_Enabled := false; mongo_Url := ""; mongo_Database := ""; mongo_Collection := "";
                      mongo_Tls := no_tls |};
  cache_DynamoDb := {| dynamo_Enabled := true; dynamo_Url := ""; dynamo_Table := "cache" |} |}.

Lemma external_cache_is_a_map_witness :
  exists c c', @SetupExternalCache toy_redis toy_mongo toy_dynamo (fun _ _ => Ret tt) demo_cache_conf
                 NewEmptyReporter = Ret (Some c) /\
    @writes external_cache [("a", "1"); ("b", "2"); ("a", "3")] c = Some c' /\
    External_Get c' "a" = Ret "3".
Proof.
  destruct (@SetupExternalCache toy_redis toy_mongo toy_dynamo (fun _ _ => Ret tt) demo_cache_conf
              NewEmptyReporter) as [[c|]| |] eqn:Hs; try discriminate Hs.
  destruct (@external_cache_is_a_map toy_redis toy_mongo toy_dynamo toy_redis_laws toy_mongo_laws
              toy_dynamo_laws (fun _ _ => Ret tt) demo_cache_conf NewEmptyReporter (Some c) Hs) as [_ Hmap].
  injection Hs as <-. eexists _, _. split; [reflexivity|]. split; [reflexivity|].
  destruct (Hmap _ [("a", "1"); ("b", "2"); ("a", "3")] _ eq_refl eq_refl) as (_ & _ & Hup).
  apply Hup; [exact I|reflexivity].
Defined.
