(* ===== verification/Watch.v ===== *)
(** [sdk/store/notifier.go], and the loops on its two sides: the goroutines of
    the stores and watchers, which wake up, look at their source and call
    [Notify] when it has changed ([cache_notify.go], [file/file.go],
    [file/poll_watcher.go], [file/file_watcher.go]), and the goroutines that wait
    for [Modified] ([listen] of [sdk.go], [run] of [file/file.go]). The two
    goroutines and the one that closes them interleave, so they are a step
    relation. *)
From S2P Require Import Prelude Go Utils ConfigTypes Config Status Store Sdk.
Open Scope Z_scope.

(** Where the goroutine that notifies is: in its [select], in [Notify] before
    its check of the context, in [Notify] at the send, or gone. *)
Inductive producer := PSelect | PNotify | PSend | PReturned.

(** [sdk/sdk.go:156-165] listen: in its [select], at work on a change, or gone *)
Inductive consumer := CSelect | CWork | CReturned.

#[export] Instance producer_eq_dec : EqDecision producer.
Proof. solve_decision. Defined.
#[export] Instance consumer_eq_dec : EqDecision consumer.
Proof. solve_decision. Defined.

Section watch.
(** What the notifying goroutine keeps ([St]), what wakes it up ([Ev]), and what
    it does then: its new state, and whether it has to notify. *)
Context {St Ev : Type} (react : Ev -> St -> bool * St).

(** [w_stop] is the context of the waiting goroutine; that of the notifying one
    is in the notifier. *)
Record state := {
  w_store : St;
  w_notifier : notifier;
  w_producer : producer;
  w_consumer : consumer;
  w_stop : bool
}.

Definition start (st : St) : state :=
  {| w_store := st; w_notifier := NewNotifier; w_producer := PSelect; w_consumer := CSelect; w_stop := false |}.

Inductive event :=
| EReact (e : Ev)
| ETake (st : St)       (* the waiting goroutine receives; [st] is what the store holds then *)
| EClose                (* [Close] of the notifier *)
| EStop
| EInternal.

Definition with_notifier (n : notifier) (p : producer) (s : state) : state :=
  {| w_store := w_store s; w_notifier := n; w_producer := p; w_consumer := w_consumer s; w_stop := w_stop s |}.
Definition with_consumer (c : consumer) (s : state) : state :=
  {| w_store := w_store s; w_notifier := w_notifier s; w_producer := w_producer s; w_consumer := c; w_stop := w_stop s |}.

(** [sdk/store/notifier.go:34-41] Notify, with the two [select] loops around it *)
Inductive step : state -> event -> state -> Prop :=
| step_react s e changed st :
    w_producer s = PSelect -> react e (w_store s) = (changed, st) ->
    step s (EReact e)
      {| w_store := st; w_notifier := w_notifier s; w_producer := if changed : bool then PNotify else PSelect;
         w_consumer := w_consumer s; w_stop := w_stop s |}
| step_notify_done s :
    w_producer s = PNotify -> nt_done (w_notifier s) = true ->
    step s EInternal (with_notifier (w_notifier s) PSelect s)
| step_notify_open s :
    w_producer s = PNotify -> nt_done (w_notifier s) = false ->
    step s EInternal (with_notifier (w_notifier s) PSend s)
| step_send s :
    w_producer s = PSend -> nt_modified (w_notifier s) = false ->
    step s EInternal (with_notifier {| nt_done := nt_done (w_notifier s); nt_modified := true |} PSelect s)
| step_producer_return s :
    w_producer s = PSelect -> nt_done (w_notifier s) = true ->
    step s EInternal (with_notifier (w_notifier s) PReturned s)
| step_take s :
    w_consumer s = CSelect -> nt_modified (w_notifier s) = true ->
    step s (ETake (w_store s))
      (with_consumer CWork
         (with_notifier {| nt_done := nt_done (w_notifier s); nt_modified := false |} (w_producer s) s))
| step_worked s :
    w_consumer s = CWork -> step s EInternal (with_consumer CSelect s)
| step_consumer_return s :
    w_consumer s = CSelect -> w_stop s = true -> step s EInternal (with_consumer CReturned s)
| step_close s :
    step s EClose (with_notifier (notifier_Close (w_notifier s)) (w_producer s) s)
| step_stop s :
    step s EStop {| w_store := w_store s; w_notifier := w_notifier s; w_producer := w_producer s;
                    w_consumer := w_consumer s; w_stop := true |}.

Inductive steps : state -> list event -> state -> Prop :=
| steps_nil s : steps s [] s
| steps_snoc s1 tr s2 e s3 : steps s1 tr s2 -> step s2 e s3 -> steps s1 (tr ++ [e]) s3.

(** [Notify] as one call: its steps are those of the function of [Store] *)
Lemma Notify_steps s n' : w_producer s = PNotify -> Notify (w_notifier s) = Some n' ->
  exists tr, steps s tr (with_notifier n' PSelect s).
Proof.
  intros Hp. unfold Notify. destruct (nt_done (w_notifier s)) eqn:Hd; [|destruct (nt_modified (w_notifier s)) eqn:Hm].
  - intros [= <-]. exists [EInternal]. apply (steps_snoc s [] s); [constructor|]. by apply step_notify_done.
  - done.
  - intros [= <-]. exists [EInternal; EInternal].
    pose proof (step_send (with_notifier (w_notifier s) PSend s) eq_refl Hm) as Hs. simpl in Hs. rewrite Hd in Hs.
    apply (steps_snoc s [EInternal] (with_notifier (w_notifier s) PSend s)); [|exact Hs].
    apply (steps_snoc s [] s); [constructor|]. by apply step_notify_open.
Qed.

(** ** Nothing is lost *)

(** what the store held when the waiting goroutine last heard of it *)
Definition last_heard (st0 : St) (tr : list event) : St :=
  default st0 (last (omap (fun e => match e with ETake st => Some st | _ => None end) tr)).

Lemma last_heard_snoc st0 tr e :
  last_heard st0 (tr ++ [e]) = match e with ETake st => st | _ => last_heard st0 tr end.
Proof.
  unfold last_heard. rewrite omap_app. by destruct e; simpl; rewrite ?app_nil_r, ?last_snoc.
Qed.

(** Nothing waits to be heard: the goroutine is in its [select] and the channel
    is empty. *)
Definition quiet (s : state) : Prop := w_producer s = PSelect /\ nt_modified (w_notifier s) = false.

(** a part of the store that an unreported reaction leaves alone *)
Definition reported {X} (f : St -> X) : Prop :=
  forall e st st', react e st = (false, st') -> f st' = f st.

Definition current {X} (f : St -> X) (st0 : St) (tr : list event) (s : state) : Prop :=
  nt_done (w_notifier s) = false ->
  (w_producer s = PSelect \/ w_producer s = PReturned) -> nt_modified (w_notifier s) = false ->
  f (w_store s) = f (last_heard st0 tr).

(** a pending or ongoing notification covers every change *)
Lemma current_step {X} (f : St -> X) st0 tr s e s' : reported f ->
  step s e s' -> current f st0 tr s -> current f st0 (tr ++ [e]) s'.
Proof.
  intros Hrep Hstep Hcur. unfold current in *. rewrite last_heard_snoc.
  destruct Hstep as [s e changed st Hp Hr|s Hp Hd|s Hp Hd|s Hp Hm|s Hp Hd|s Hc Hm|s Hc|s Hc Hs|s|s]; simpl;
    intros Hopen Hprod Hmod; try congruence; try (by apply Hcur).
  - destruct changed; [by destruct Hprod|]. rewrite (Hrep _ _ _ Hr). apply Hcur; auto.
  - by destruct Hprod.
Qed.

Lemma current_steps {X} (f : St -> X) st0 tr s : reported f -> steps (start st0) tr s -> current f st0 tr s.
Proof.
  intros Hrep Hs. remember (start st0) as s0 eqn:H0.
  induction Hs as [s|s1 tr s2 e s3 Hs IH Hstep]; [by subst|].
  eapply current_step; eauto.
Qed.

(** ** Nothing waits for ever while both goroutines run *)

Definition hears (tr : list event) : Prop := exists st, ETake st ∈ tr.

(** the steps of the two goroutines on their own: nothing wakes them up or
    closes them *)
Definition works (e : event) : Prop := match e with EReact _ | EClose | EStop => False | _ => True end.

Lemma steps_single s e s' : step s e s' -> steps s [e] s'.
Proof. intros Hs. apply (steps_snoc s [] s); [constructor|done]. Qed.

Lemma steps_cons s1 e s2 tr s3 : step s1 e s2 -> steps s2 tr s3 -> steps s1 (e :: tr) s3.
Proof.
  intros H1 H2. induction H2 as [s|s tr s' e' s'' Hs IH Hstep]; [by apply steps_single|].
  rewrite app_comm_cons. eapply steps_snoc; [by apply IH|done].
Qed.

Definition pending (s : state) : Prop :=
  nt_modified (w_notifier s) = true \/ w_producer s = PNotify \/ w_producer s = PSend.

(** from a state whose channel is full and whose waiting goroutine runs *)
Lemma take_soon s : nt_modified (w_notifier s) = true -> w_consumer s <> CReturned ->
  exists tr s', steps s tr s' /\ hears tr /\ Forall works tr /\ (length tr <= 2)%nat.
Proof.
  intros Hm Hc. destruct (w_consumer s) eqn:Hcs; [..|done].
  - eexists [_], _. split; [by apply steps_single, step_take|].
    split_and!; [by eexists; left | by repeat constructor | simpl; lia].
  - eexists [EInternal; _], _. split.
    + eapply steps_cons; [by apply step_worked|]. apply steps_single, step_take; [done|exact Hm].
    + split_and!; [by eexists; right; left | by repeat constructor | simpl; lia].
Qed.

Lemma heard_soon s : pending s -> nt_done (w_notifier s) = false -> w_consumer s <> CReturned ->
  exists tr s', steps s tr s' /\ hears tr /\ Forall works tr /\ (length tr <= 4)%nat.
Proof.
  intros Hp Hd Hc. destruct (nt_modified (w_notifier s)) eqn:Hm.
  { destruct (take_soon s Hm Hc) as (tr & s' & ? & ? & ? & ?). exists tr, s'. split_and!; auto with lia. }
  assert (Hsend : forall s, w_producer s = PSend -> nt_modified (w_notifier s) = false -> w_consumer s <> CReturned ->
    exists tr s', steps s tr s' /\ hears tr /\ Forall works tr /\ (length tr <= 3)%nat).
  { clear. intros s Hs Hm Hc.
    destruct (take_soon (with_notifier {| nt_done := nt_done (w_notifier s); nt_modified := true |} PSelect s))
      as (tr & s' & Hst & (st & Hh) & Hn & Hl); [done|done|].
    exists (EInternal :: tr), s'. split; [eapply steps_cons; [by apply step_send|done]|].
    split_and!; [exists st; by right | by constructor | simpl; lia]. }
  destruct Hp as [?|[Hp|Hp]]; [congruence|..].
  - destruct (Hsend (with_notifier (w_notifier s) PSend s)) as (tr & s' & Hst & (st & Hh) & Hn & Hl); [done..|].
    exists (EInternal :: tr), s'. split; [eapply steps_cons; [by apply step_notify_open|done]|].
    split_and!; [exists st; by right | by constructor | simpl; lia].
  - destruct (Hsend s) as (tr & s' & ? & ? & ? & ?); [done..|]. exists tr, s'. split_and!; auto with lia.
Qed.

(** ** Shutting down *)

Definition shut (s : state) : Prop := nt_done (w_notifier s) = true /\ w_stop s = true.

(** the steps that a closed pair of goroutines still has in it, when nothing
    wakes it up *)
Definition remaining (s : state) : nat :=
  (match w_producer s with PSelect => 1 | PNotify => 2 | PSend => 4 | PReturned => 0 end
   + (if nt_modified (w_notifier s) then 2 else 0)
   + match w_consumer s with CSelect => 1 | CWork => 2 | CReturned => 0 end)%nat.

Lemma shut_step s e s' : step s e s' -> works e -> shut s -> shut s' /\ (remaining s' < remaining s)%nat.
Proof.
  intros Hstep Hw [Hd Hst]. unfold shut, remaining.
  destruct Hstep as [s e changed st Hp Hr|s Hp Hd'|s Hp Hd'|s Hp Hm|s Hp Hd'|s Hc Hm|s Hc|s Hc Hs|s|s]; simpl in *;
    try done; try congruence; rewrite ?Hp, ?Hm, ?Hc; (split; [split; congruence | simpl; lia]).
Qed.

Lemma shut_steps s tr s' : steps s tr s' -> Forall works tr -> shut s ->
  shut s' /\ (length tr + remaining s' <= remaining s)%nat.
Proof.
  induction 1 as [s|s1 tr s2 e s3 Hs IH Hstep]; intros Hw Hsh; [split; [done|simpl; lia]|].
  apply Forall_app in Hw as [Hw He]. rewrite Forall_singleton in He.
  destruct (IH Hw Hsh) as [Hsh2 Hl]. destruct (shut_step _ _ _ Hstep He Hsh2) as [Hsh3 Hl3].
  split; [done|]. rewrite length_app. simpl. lia.
Qed.

(** the states from which nothing more happens by itself *)
Definition stuck (s : state) : Prop := forall e s', works e -> ~ step s e s'.

(** the notifying goroutine waits at its send for a receiver that is gone *)
Definition leaked (s : state) : Prop :=
  w_producer s = PSend /\ nt_modified (w_notifier s) = true /\ w_consumer s = CReturned.

Lemma stuck_shut s : shut s -> stuck s ->
  w_consumer s = CReturned /\ (w_producer s = PReturned \/ leaked s).
Proof.
  intros [Hd Hst] Hstuck.
  assert (Hc : w_consumer s = CReturned).
  { destruct (w_consumer s) eqn:Hc; [..|done].
    - exfalso. by eapply (Hstuck EInternal); [|apply step_consumer_return].
    - exfalso. by eapply (Hstuck EInternal); [|apply step_worked]. }
  split; [done|]. destruct (w_producer s) eqn:Hp; [..|by left].
  - exfalso. by eapply (Hstuck EInternal); [|apply step_producer_return].
  - exfalso. by eapply (Hstuck EInternal); [|apply step_notify_done].
  - right. split; [done|]. split; [|done]. destruct (nt_modified (w_notifier s)) eqn:Hm; [done|].
    exfalso. by eapply (Hstuck EInternal); [|apply step_send].
Qed.

Lemma producer_returned_done st0 tr s : steps (start st0) tr s ->
  w_producer s = PReturned -> nt_done (w_notifier s) = true.
Proof.
  intros Hs. remember (start st0) as s0 eqn:H0.
  induction Hs as [s|s1 tr s2 e s3 Hs IH Hstep]; [by subst|]. specialize (IH H0).
  destruct Hstep as [s e changed st Hp Hr|s Hp Hd|s Hp Hd|s Hp Hm|s Hp Hd|s Hc Hm|s Hc|s Hc Hs'|s|s]; simpl;
    try (by auto).
  by destruct changed.
Qed.

(** a closed pair either has a step of its own left or is stuck *)
Lemma shut_progress s : shut s -> (exists e s', works e /\ step s e s') \/ stuck s.
Proof.
  intros [Hd Hst].
  assert (Hdec : leaked s \/ ~ leaked s) by (unfold leaked; destruct (decide (w_producer s = PSend)),
    (decide (nt_modified (w_notifier s) = true)), (decide (w_consumer s = CReturned)); tauto).
  destruct (w_consumer s) eqn:Hc.
  - left. exists EInternal. eexists. split; [done|]. by apply step_consumer_return.
  - left. exists EInternal. eexists. split; [done|]. by apply step_worked.
  - destruct (w_producer s) eqn:Hp.
    + left. exists EInternal. eexists. split; [done|]. by apply step_producer_return.
    + left. exists EInternal. eexists. split; [done|]. by apply step_notify_done.
    + destruct (nt_modified (w_notifier s)) eqn:Hm.
      * right. intros e s' Hw Hstep. destruct Hstep; simpl in *; congruence.
      * left. exists EInternal. eexists. split; [done|]. by apply step_send.
    + right. intros e s' Hw Hstep. destruct Hstep; simpl in *; congruence.
Qed.

Lemma shut_reaches_stuck s : shut s -> exists tr s', steps s tr s' /\ Forall works tr /\ stuck s'.
Proof.
  remember (remaining s) as n eqn:Hn. revert s Hn.
  induction (lt_wf n) as [n _ IH]. intros s -> Hsh.
  destruct (shut_progress s Hsh) as [(e & s' & Hw & Hstep)|Hstuck].
  - destruct (shut_step _ _ _ Hstep Hw Hsh) as [Hsh' Hlt].
    destruct (IH _ Hlt s' eq_refl Hsh') as (tr & s'' & Hs & Htr & Hend).
    exists (e :: tr), s''. split_and!; [by eapply steps_cons | by constructor | done].
  - exists [], s. split_and!; [constructor|constructor|done].
Qed.

(** With its channel full and a second change under way, a notifying goroutine
    whose receiver obeys the shutdown first stays at its send for ever. *)
Lemma notifier_can_leak st0 e1 st1 e2 st2 :
  react e1 st0 = (true, st1) -> react e2 st1 = (true, st2) ->
  exists tr s, steps (start st0) tr s /\ shut s /\ stuck s /\ leaked s.
Proof.
  intros H1 H2.
  exists [EReact e1; EInternal; EInternal; EReact e2; EInternal; EClose; EStop; EInternal].
  exists {| w_store := st2; w_notifier := {| nt_done := true; nt_modified := true |}; w_producer := PSend;
            w_consumer := CReturned; w_stop := true |}.
  split; [|split_and!; try done; intros e s' Hw Hstep; inversion Hstep; subst; simpl in *; try done; congruence].
  eapply steps_cons; [by eapply step_react|]. simpl.
  eapply steps_cons; [by apply step_notify_open|]. simpl.
  eapply steps_cons; [by apply step_send|]. simpl.
  eapply steps_cons; [by eapply step_react|]. simpl.
  eapply steps_cons; [by apply step_notify_open|]. simpl.
  eapply steps_cons; [by apply step_close|]. simpl.
  eapply steps_cons; [by apply step_stop|]. simpl.
  apply steps_single. by apply step_consumer_return.
Qed.
End watch.

(** ** The goroutines of the stores and watchers *)

(** [time.NewTicker]: a period that is not positive panics *)
Definition NewTicker (d : Z) : go Z := if d <=? 0 then Panic else Ret d.

Section loops.
Context `{xxh : XXHash, cf : ConfigCatFormat, os : OS}.

(** [sdk/store/cache_notify.go:44-61] run: the period of its ticker *)
Definition cache_run_period (interval : Z) : go Z := NewTicker (seconds (cache_poll_interval interval)).

(** [sdk/store/file/poll_watcher.go:46-52] run: the period of its ticker *)
Definition poll_run_period (interval : Z) : go Z :=
  let inter := if interval <? 1 then DefaultCachePollInterval else interval in
  NewTicker (seconds inter).

(** [sdk/sdk.go:167-184] poll: the period of its ticker *)
Definition sdk_poll_period (interval : Z) : go Z := NewTicker (seconds (sdk_poll_interval interval)).

(** [sdk/sdk_auto_registrar.go:154-160] run: the period of its ticker *)
Definition registrar_run_period (interval : Z) : go Z :=
  let inter := if interval <? 1 then DefaultAutoSdkPollInterval else interval in
  NewTicker (seconds inter).

(** [sdk/store/file/poll_watcher.go:53-70] run, one tick: what the notifying
    goroutine of a polled file does *)
Definition poll_react (stat : stat_result) (p : pollWatcher) : bool * pollWatcher :=
  match stat with
  | StatOk mtime size =>
      if negb (mtime =? pw_lastModifiedDate p) || negb (size =? pw_lastSize p)
      then (true, {| pw_notifier := pw_notifier p; pw_realFilePath := pw_realFilePath p;
                     pw_lastModifiedDate := mtime; pw_lastSize := size |})
      else (false, p)
  | _ => (false, p)
  end.

(** What fsnotify delivers: an event, with its write bit, or an error. *)
Inductive fs_event := FsEvent (name : string) (write : bool) | FsError (err : string).

(** [sdk/store/file/file_watcher.go:12-18] fileWatcher *)
Record fileWatcher := { fw_notifier : notifier; fw_realFilePath : string }.

(** [sdk/store/file/file_watcher.go:56-68] run, one event *)
Definition fs_react (e : fs_event) (f : fileWatcher) : bool * fileWatcher :=
  match e with
  | FsEvent name write => (bool_decide (name = fw_realFilePath f) && write, f)
  | FsError _ => (false, f)
  end.

(** [filepath.Dir], [filepath.Base] and [filepath.Join], and the library's
    watcher: whether it can be created and can watch a directory. *)
Class FsNotify := {
  filepath_Dir : string -> string;
  filepath_Base : string -> string;
  filepath_Join : string -> string -> string;
  fsnotify_NewWatcher : go unit;
  fsnotify_Add : string -> go unit
}.

(** [sdk/store/file/file_watcher.go:20-54] newFileWatcher *)
Definition newFileWatcher `{FsNotify} (conf : LocalConfig) : go fileWatcher :=
  match os_stat (local_FilePath conf) with
  | StatNotExist err | StatErr err => Fail err
  | StatOk _ _ =>
      try? fsnotify_NewWatcher;
      let dirPath := filepath_Dir (local_FilePath conf) in
      realPath <-? filepath_eval_symlinks dirPath;
      try? fsnotify_Add realPath;
      Ret {| fw_notifier := NewNotifier;
             fw_realFilePath := filepath_Join realPath (filepath_Base (local_FilePath conf)) |}
  end.

(** [sdk/store/file/file_watcher.go:70-74] Close *)
Definition fileWatcher_Close (f : fileWatcher) : fileWatcher :=
  {| fw_notifier := notifier_Close (fw_notifier f); fw_realFilePath := fw_realFilePath f |}.

(** [sdk/store/file/poll_watcher.go:72-75] Close *)
Definition pollWatcher_Close (p : pollWatcher) : pollWatcher :=
  {| pw_notifier := notifier_Close (pw_notifier p); pw_realFilePath := pw_realFilePath p;
     pw_lastModifiedDate := pw_lastModifiedDate p; pw_lastSize := pw_lastSize p |}.

(** [sdk/store/file/file.go:42-54] NewFileStore, the watcher it ends up with *)
Inductive some_watcher := AFileWatcher (f : fileWatcher) | APollWatcher (p : pollWatcher) | ANullWatcher (closed : bool).

Definition new_watcher `{FsNotify} (conf : LocalConfig) : some_watcher :=
  let poll := match newPollWatcher conf with Ret p => APollWatcher p | _ => ANullWatcher false end in
  if local_Polling conf then poll
  else match newFileWatcher conf with Ret f => AFileWatcher f | _ => poll end.

(** [sdk/store/file/file.go:122-124] Close of the null watcher; the channel can
    be closed once *)
Definition watcher_Close (w : some_watcher) : go some_watcher :=
  match w with
  | AFileWatcher f => Ret (AFileWatcher (fileWatcher_Close f))
  | APollWatcher p => Ret (APollWatcher (pollWatcher_Close p))
  | ANullWatcher closed => if closed then Panic else Ret (ANullWatcher true)
  end.

(** [sdk/store/file/file.go:116-120] Close of the file store, with its watcher *)
Definition fileStore_Close (f : fileStore) (w : some_watcher) : go (fileStore * some_watcher) :=
  w <-? watcher_Close w;
  Ret ({| fs_entry := fs_entry f; fs_notifier := notifier_Close (fs_notifier f); fs_stored := fs_stored f;
          fs_conf := fs_conf f; fs_sdkId := fs_sdkId f |}, w).

(** [sdk/store/file/file.go:70-81] run, and [sdk/store/cache_notify.go:52-60]
    run: what the goroutine of a client's store does when it wakes up; the
    other stores have none *)
Definition storage_react (e : Z * (string -> go string)) (st : storage * reporter) : bool * (storage * reporter) :=
  let '(now, source) := e in
  match st with
  | (FileStorage f, r) =>
      let '(changed, f, r) := file_reload now source f r in (changed, (FileStorage f, r))
  | (NotifyingStorage n, r) =>
      let '(changed, n, r) := cache_reload now source n r in (changed, (NotifyingStorage n, r))
  | _ => (false, st)
  end.

(** the configuration that a client serves from its store *)
Definition served (st : storage * reporter) : EntryWithEtag :=
  match st.1 with
  | FileStorage f => fs_entry f
  | NotifyingStorage n => nc_entry n
  | CacheStorage e | InMemoryStorage e => e
  end.

Lemma served_GetCachedJson c r : served (cl_cache c, r) = GetCachedJson c.
Proof. by destruct c as [? ? []]. Qed.

Lemma storage_reported : reported storage_react served.
Proof.
  intros [now source] [[f|n|e|e] r] st'; simpl; unfold file_reload, cache_reload, cacheStore_Get.
  3, 4: by intros [= <-].
  all: repeat case_match; intros Hr; by simplify_eq/=.
Qed.

Lemma poll_reported : reported poll_react (fun p => (pw_lastModifiedDate p, pw_lastSize p)).
Proof. intros [mtime size| |] p p'; simpl; repeat case_match; by intros [= <-]. Qed.
End loops.

(** *** Tickers *)
Lemma NewTicker_small z : 1 <= z <= 9223372036 -> NewTicker (seconds z) = Ret (z * 1000000000).
Proof.
  intros Hz. unfold NewTicker, seconds, i64. rewrite wrap_s_id by lia. by rewrite (proj2 (Z.leb_gt _ _)) by lia.
Qed.

Lemma NewTicker_big z : 9223372037 <= z <= 18446744073 -> NewTicker (seconds z) = Panic.
Proof.
  intros Hz. unfold NewTicker, seconds, i64, wrap_s.
  replace (z * 1000000000 + 2 ^ (64 - 1)) with (z * 1000000000 - 2 ^ 63 + 1 * 2 ^ 64) by lia.
  rewrite Z.mod_add, Z.mod_small by lia. by rewrite (proj2 (Z.leb_le _ _)) by lia.
Qed.

(** an interval of up to 292 years *)
Definition interval_fits (interval : Z) : Prop := interval <= 9223372036.

Lemma ticker_fits default_interval interval : 1 <= default_interval <= 9223372036 -> interval_fits interval ->
  exists d, NewTicker (seconds (if interval <? 1 then default_interval else interval)) = Ret d.
Proof.
  unfold interval_fits. intros Hd Hi. destruct (Z.ltb_spec interval 1); rewrite NewTicker_small by lia; eauto.
Qed.

(** ** Properties *)

(** C12: the subscribers of an offline client miss no change of its store,
    however the polling of the file or of the cache, the signals and the work on
    them interleave: as long as the store is not closed, either nothing is
    pending and the client has last been signalled with exactly the
    configuration it now serves, or, while its listener runs, at most four steps
    of the two goroutines make it hear of the current one. *)
Theorem offline_client_hears_changes `{XXHash, ConfigCatFormat} (st0 : storage * reporter)
    (tr : list event) (s : state)
    (Hrun : steps storage_react (start st0) tr s) (Hopen : nt_done (w_notifier s) = false) :
  (quiet s -> served (w_store s) = served (last_heard st0 tr)) /\
  (~ quiet s -> w_consumer s <> CReturned ->
     exists tr' s', steps storage_react s tr' s' /\ hears tr' /\ Forall works tr' /\ (length tr' <= 4)%nat).
Proof.
  split.
  - intros [Hp Hm]. apply (current_steps storage_react served st0 tr s storage_reported Hrun); auto.
  - intros Hq Hc. apply heard_soon; [|done..]. unfold pending, quiet in *.
    destruct (nt_modified (w_notifier s)) eqn:Hm; [by left|]. right.
    destruct (w_producer s) eqn:Hp; [tauto|by left|by right|].
    pose proof (producer_returned_done _ _ _ _ Hrun Hp). congruence.
Qed.

(** a cached value [x,j] of the demonstration has the ETag [x] and the JSON [j] *)
Definition demo_format : ConfigCatFormat :=
  {| ConfigJson := string; zero_ConfigJson := "{}"; config_unmarshal := Ret; config_marshal := fun s => s;
     CacheSegmentsFromBytes := fun s =>
       match Str.cut (Ascii.ascii_of_nat 44) s with Some (etag, json) => Ret (0, etag, json) | None => Fail "format" end;
     CacheSegmentsToBytes := fun _ etag json => etag +:+ "," +:+ json;
     ProduceCacheKey := fun k => k |}.
Definition demo_store : storage * reporter :=
  (NotifyingStorage (@NewNotifyingCacheStore toy_hash demo_format 0 "sdk" "key" (fun _ => Ret "1,a") NewEmptyReporter).1,
   NewEmptyReporter).

Lemma offline_client_hears_changes_witness :
  exists tr s, @steps _ _ (@storage_react toy_hash demo_format) (start demo_store) tr s /\
    en_ConfigJson (served (w_store s)) = "b" /\
    exists tr' s', @steps _ _ (@storage_react toy_hash demo_format) s tr' s' /\ hears tr'.
Proof.
  pose (st := (@storage_react toy_hash demo_format (1, fun _ => Ret "2,b") demo_store).2).
  pose (s := {| w_store := st; w_notifier := NewNotifier; w_producer := PNotify; w_consumer := CSelect;
                w_stop := false |}).
  assert (Hrun : @steps _ _ (@storage_react toy_hash demo_format) (start demo_store)
                   [EReact (1, fun _ => Ret "2,b")] s).
  { apply steps_single. by apply (step_react _ (start demo_store) _ true st). }
  destruct (@offline_client_hears_changes toy_hash demo_format demo_store _ s Hrun eq_refl) as [_ Hhear].
  destruct Hhear as (tr' & s' & ? & ? & _); [by intros [? _]|done|].
  eexists _, s. split; [exact Hrun|]. split; [reflexivity|]. by exists tr', s'.
Defined.

(** C25: closing a store stops its two goroutines. Once the notifier and the
    listener's context are closed, they take at most nine more steps unless the
    source wakes them up again, whatever the state they are in; and when neither
    has a step left, the listener has returned, and so has the notifying
    goroutine, or else it is at its send with the channel full and nobody left
    to receive. *)
Theorem closed_loops_terminate {St Ev} (react : Ev -> St -> bool * St) (s : state) (Hshut : shut s) :
  (forall tr s', steps react s tr s' -> Forall works tr -> (length tr <= 9)%nat) /\
  (exists tr s', steps react s tr s' /\ Forall works tr /\ stuck react s') /\
  (forall tr s', steps react s tr s' -> Forall works tr -> stuck react s' ->
     w_consumer s' = CReturned /\ (w_producer s' = PReturned \/ leaked s')).
Proof.
  split_and!.
  - intros tr s' Hs Hw. destruct (shut_steps react s tr s' Hs Hw Hshut) as [_ Hl].
    enough (remaining s <= 8)%nat by lia. unfold remaining. repeat case_match; simpl; lia.
  - by apply shut_reaches_stuck.
  - intros tr s' Hs Hw Hstuck. destruct (shut_steps react s tr s' Hs Hw Hshut) as [Hshut' _].
    by apply (stuck_shut react).
Qed.

Lemma closed_loops_terminate_witness :
  let s := {| w_store := tt; w_notifier := {| nt_done := true; nt_modified := false |}; w_producer := PSelect;
              w_consumer := CWork; w_stop := true |} in
  exists tr s', steps (fun (_ : unit) (_ : unit) => (false, tt)) s tr s' /\ w_consumer s' = CReturned.
Proof.
  intros s.
  destruct (closed_loops_terminate (fun (_ : unit) (_ : unit) => (false, tt)) s (conj eq_refl eq_refl))
    as (_ & (tr & s' & Hs & Hw & Hst) & Hend).
  exists tr, s'. split; [exact Hs|]. by destruct (Hend tr s' Hs Hw Hst).
Defined.

(** C26: the polling goroutines (of a client, of its cache, of a watched file, and
    of the automatic registrar) start for every interval up to 9223372036 seconds,
    with a period of exactly that many seconds, or of the goroutine's own default
    when the interval is below 1; but the product in nanoseconds is a 64-bit
    integer, so any interval from there to twice as much gives a negative period,
    on which [time.NewTicker] panics and takes the process down. *)
Theorem poll_periods (interval default_interval : Z) (run : Z -> go Z)
    (Hrun : (run, default_interval) ∈
       [(cache_run_period, DefaultCachePollInterval); (poll_run_period, DefaultCachePollInterval);
        (sdk_poll_period, DefaultSdkPollInterval); (registrar_run_period, DefaultAutoSdkPollInterval)]) :
  (interval < 1 -> run interval = Ret (default_interval * 1000000000)) /\
  (1 <= interval <= 9223372036 -> run interval = Ret (interval * 1000000000)) /\
  (9223372037 <= interval <= 18446744073 -> run interval = Panic).
Proof.
  rewrite !elem_of_cons in Hrun. destruct Hrun as [[= -> ->]|[[= -> ->]|[[= -> ->]|[[= -> ->]|[]%elem_of_nil]]]].
  all: unfold cache_run_period, poll_run_period, sdk_poll_period, registrar_run_period,
    cache_poll_interval, sdk_poll_interval; split_and!; intros Hi;
    [rewrite (proj2 (Z.ltb_lt _ _)) by lia; by apply NewTicker_small
    | rewrite (proj2 (Z.ltb_ge _ _)) by lia; by apply NewTicker_small
    | rewrite (proj2 (Z.ltb_ge _ _)) by lia; by apply NewTicker_big].
Qed.

Lemma poll_periods_witness :
  sdk_poll_period 60 = Ret 60000000000 /\ registrar_run_period 0 = Ret 300000000000 /\
  sdk_poll_period 10000000000 = Panic.
Proof.
  split; [|split].
  - apply (poll_periods 60 DefaultSdkPollInterval sdk_poll_period); [set_solver|done].
  - apply (poll_periods 0 DefaultAutoSdkPollInterval registrar_run_period); [set_solver|done].
  - apply (poll_periods 10000000000 DefaultSdkPollInterval sdk_poll_period); [set_solver|done].
Defined.
