(* ===== verification/Registrar.v ===== *)
(** [sdk/sdk_registrar.go], [sdk/sdk_auto_registrar.go]: the registrars, which
    own the SDK clients. The automatic one keeps its clients in step with a
    remote profile. Clients are shared by several maps and mutated in place, so
    they live in a heap and the maps hold locations. A refresh runs in the
    registrar's only goroutine and is a function on its state; the time, the
    external cache and the HTTP exchange are its inputs. *)
From S2P Require Import Prelude Go Utils Model Log ConfigTypes Config Status Store Sdk.
Open Scope Z_scope.

(** What the profile endpoint answers: a response, or the error of the request. *)
Record http_response := { hr_StatusCode : Z; hr_ETag : string; hr_Body : go string }.
Record http_request := { hq_url : string; hq_IfNoneMatch : option string; hq_Authorization : string }.

(** [json.Unmarshal] into a [model.ProxyConfigModel] *)
Class ProfileJSON := { profile_unmarshal : string -> go ProxyConfigModel }.

(** ** The cached form of a profile *)

(** [sdk/sdk_auto_registrar.go:454-471] cacheSegmentsFromBytes: the
    configuration and the ETag *)
Definition cacheSegmentsFromBytes (cacheBytes : string) : go (string * string) :=
  match Str.cut newline cacheBytes with
  | None => Fail "number of values is fewer than expected"
  | Some (eTagBytes, configBytes) =>
      if bool_decide (eTagBytes = "") then Fail "empty eTag value"
      else if bool_decide (configBytes = "") then Fail "empty configuration JSON"
      else Ret (configBytes, eTagBytes)
  end.

(** [sdk/sdk_auto_registrar.go:473-478] cacheSegmentsToBytes *)
Definition cacheSegmentsToBytes (eTag config : string) : string :=
  eTag +:+ str1 newline +:+ config.

Section registrar.
Context `{xxh : XXHash, cf : ConfigCatFormat, os : OS, mr : MapRange, xc : ExternalCache, pj : ProfileJSON}.
Context (conf : Config) (log : logger).

(** [sdk/sdk_auto_registrar.go:30-47] autoRegistrar; [rg_heap] holds the
    clients, [rg_published] the SDK ids handed to the embedded publisher *)
Record autoRegistrar := {
  rg_options : OptionsModel;
  rg_etag : string;
  rg_sdkClients : gmap string nat;
  rg_sdkClientsBySdkKey : gmap string nat;
  rg_cache : option XC;
  rg_statusReporter : reporter;
  rg_heap : list client;
  rg_published : list string
}.

Definition set_options o (r : autoRegistrar) :=
  {| rg_options := o; rg_etag := rg_etag r; rg_sdkClients := rg_sdkClients r;
     rg_sdkClientsBySdkKey := rg_sdkClientsBySdkKey r; rg_cache := rg_cache r;
     rg_statusReporter := rg_statusReporter r; rg_heap := rg_heap r; rg_published := rg_published r |}.
Definition set_etag e (r : autoRegistrar) :=
  {| rg_options := rg_options r; rg_etag := e; rg_sdkClients := rg_sdkClients r;
     rg_sdkClientsBySdkKey := rg_sdkClientsBySdkKey r; rg_cache := rg_cache r;
     rg_statusReporter := rg_statusReporter r; rg_heap := rg_heap r; rg_published := rg_published r |}.
Definition on_sdkClients f (r : autoRegistrar) :=
  {| rg_options := rg_options r; rg_etag := rg_etag r; rg_sdkClients := f (rg_sdkClients r);
     rg_sdkClientsBySdkKey := rg_sdkClientsBySdkKey r; rg_cache := rg_cache r;
     rg_statusReporter := rg_statusReporter r; rg_heap := rg_heap r; rg_published := rg_published r |}.
Definition on_bySdkKey f (r : autoRegistrar) :=
  {| rg_options := rg_options r; rg_etag := rg_etag r; rg_sdkClients := rg_sdkClients r;
     rg_sdkClientsBySdkKey := f (rg_sdkClientsBySdkKey r); rg_cache := rg_cache r;
     rg_statusReporter := rg_statusReporter r; rg_heap := rg_heap r; rg_published := rg_published r |}.
Definition set_cache c (r : autoRegistrar) :=
  {| rg_options := rg_options r; rg_etag := rg_etag r; rg_sdkClients := rg_sdkClients r;
     rg_sdkClientsBySdkKey := rg_sdkClientsBySdkKey r; rg_cache := c;
     rg_statusReporter := rg_statusReporter r; rg_heap := rg_heap r; rg_published := rg_published r |}.
Definition set_reporter s (r : autoRegistrar) :=
  {| rg_options := rg_options r; rg_etag := rg_etag r; rg_sdkClients := rg_sdkClients r;
     rg_sdkClientsBySdkKey := rg_sdkClientsBySdkKey r; rg_cache := rg_cache r;
     rg_statusReporter := s; rg_heap := rg_heap r; rg_published := rg_published r |}.
Definition on_heap f (r : autoRegistrar) :=
  {| rg_options := rg_options r; rg_etag := rg_etag r; rg_sdkClients := rg_sdkClients r;
     rg_sdkClientsBySdkKey := rg_sdkClientsBySdkKey r; rg_cache := rg_cache r;
     rg_statusReporter := rg_statusReporter r; rg_heap := f (rg_heap r); rg_published := rg_published r |}.
Definition Publish (sdkId : string) (r : autoRegistrar) :=
  {| rg_options := rg_options r; rg_etag := rg_etag r; rg_sdkClients := rg_sdkClients r;
     rg_sdkClientsBySdkKey := rg_sdkClientsBySdkKey r; rg_cache := rg_cache r;
     rg_statusReporter := rg_statusReporter r; rg_heap := rg_heap r;
     rg_published := rg_published r ++ [sdkId] |}.

(** ** Loading the profile *)

(** [sdk/sdk_auto_registrar.go:67] newAutoRegistrar, the cache key *)
Definition cacheKey : string := "configcat-proxy-profile-" +:+ profile_Key (c_Profile conf).

(** [sdk/sdk_auto_registrar.go:427-439] readCache: the ETag it returns in every
    case, and the configuration or the error *)
Definition readCache (r : autoRegistrar) : string * go string :=
  match rg_cache r with
  | None => (rg_etag r, Fail "cache is not configured")
  | Some c =>
      match xc_get c cacheKey with
      | Ret cached =>
          if bool_decide (cached = "") then ("", Fail "no valid proxy profile found in cache")
          else match cacheSegmentsFromBytes cached with
               | Ret (config, eTag) => (eTag, Ret config)
               | Fail err => ("", Fail err)
               | Panic => ("", Panic)
               end
      | Fail err => (rg_etag r, Fail err)
      | Panic => (rg_etag r, Panic)
      end
  end.

(** [sdk/sdk_auto_registrar.go:441-450] writeCache *)
Definition writeCache (config etag : string) (r : autoRegistrar) : go unit * autoRegistrar :=
  match rg_cache r with
  | None => (Fail "cache is not configured", r)
  | Some c => let '(err, c) := xc_set c cacheKey (cacheSegmentsToBytes etag config) in
              (err, set_cache (Some c) r)
  end.

(** [sdk/sdk_auto_registrar.go:265-278] fetchConfig, the request; no header for
    an empty ETag *)
Definition profile_request (etag : string) : http_request :=
  {| hq_url := profile_BaseUrl (c_Profile conf) +:+ "/v1/proxy/config/" +:+ profile_Key (c_Profile conf);
     hq_IfNoneMatch := if bool_decide (etag <> "") then Some etag else None;
     hq_Authorization := "Bearer " +:+ profile_Secret (c_Profile conf) |}.

(** [sdk/sdk_auto_registrar.go:265-298] fetchConfig: no body for a 304; [do]
    answers the request *)
Definition fetchConfig (do : http_request -> go http_response) (etag : string) : go (option string * string) :=
  match do (profile_request etag) with
  | Fail err => Fail ("error during fetching proxy profile: " +:+ err)
  | Panic => Panic
  | Ret response =>
      if hr_StatusCode response =? 304 then Ret (None, "")
      else if negb (hr_StatusCode response =? 200) then
        Fail ("error during fetching proxy profile, status code: " +:+ Itoa (hr_StatusCode response))
      else
        let receivedEtag := hr_ETag response in
        let receivedEtag := if Str.HasPrefix receivedEtag "W/" then Str.drop 2 receivedEtag else receivedEtag in
        match hr_Body response with
        | Fail err => Fail ("error during reading proxy profile response: " +:+ err)
        | Panic => Panic
        | Ret body => Ret (Some body, receivedEtag)
        end
  end.

(** [sdk/sdk_auto_registrar.go:252-263] parseConfig: nothing when the ETag is
    the one in use *)
Definition parseConfig (body etag : string) (r : autoRegistrar) :
    go (option ProxyConfigModel) * autoRegistrar :=
  if bool_decide (etag = rg_etag r) then (Ret None, r)
  else match profile_unmarshal body with
       | Fail err => (Fail ("error during parsing proxy profile: " +:+ err), r)
       | Panic => (Panic, r)
       | Ret parsed => (Ret (Some parsed), set_etag etag r)
       end.

(** [sdk/sdk_auto_registrar.go:220-250] getConfig; the configuration that comes
    with a cache error is nil, so its bytes are empty *)
Definition getConfig (do : http_request -> go http_response) (r : autoRegistrar) :
    go (option ProxyConfigModel) * autoRegistrar :=
  let '(cachedEtag, cached) := readCache r in
  let cachedConfig := match cached with Ret config => config | _ => "" end in
  let from_cache :=
    match cached with
    | Fail cacheErr => (Fail ("could not load proxy profile from cache: " +:+ cacheErr), r)
    | Panic => (Panic, r)
    | Ret config => parseConfig config cachedEtag r
    end in
  if goff_Enabled (c_GlobalOfflineConfig conf) then from_cache
  else match cached with
       | Panic => (Panic, r)
       | _ =>
           match fetchConfig do cachedEtag with
           | Panic => (Panic, r)
           | Fail _ => from_cache
           | Ret (None, _) => parseConfig cachedConfig cachedEtag r
           | Ret (Some fetched, fetchedEtag) =>
               let '(_, r) := writeCache fetched fetchedEtag r in
               parseConfig fetched fetchedEtag r
           end
       end.

(** ** Creating clients *)

(** [sdk/sdk_auto_registrar.go:300-322] buildSdkConfig; [sdkModel] and the local
    SDK configuration are pointers *)
Definition buildSdkConfig (sdkId : string) (sdkModel : option SdkConfigModel) (r : autoRegistrar) : go SDKConfig :=
  match sdkModel with
  | None => Panic
  | Some sdkModel =>
      let p := c_Profile conf in
      let g := c_GlobalOfflineConfig conf in
      let sdkConfig := {|
        sdk_Key := m_Key1 sdkModel;
        sdk_BaseUrl := psdk_BaseUrl (profile_SDKs p);
        sdk_PollInterval := o_PollInterval (rg_options r);
        sdk_DataGovernance := o_DataGovernance (rg_options r);
        sdk_WebhookSignatureValidFor := profile_WebhookSignatureValidFor p;
        sdk_WebhookSigningKey := profile_WebhookSigningKey p;
        sdk_DefaultAttrs := None;
        sdk_Offline := zero_OfflineConfig;
        sdk_Log := psdk_Log (profile_SDKs p) |} in
      sdkConfig <-?
        match c_SDKs conf !! sdkId with
        | Some None => Panic
        | Some (Some local) =>
            Ret {| sdk_Key := sdk_Key sdkConfig; sdk_BaseUrl := sdk_BaseUrl sdkConfig;
                   sdk_PollInterval := sdk_PollInterval sdkConfig;
                   sdk_DataGovernance := sdk_DataGovernance sdkConfig;
                   sdk_WebhookSignatureValidFor := sdk_WebhookSignatureValidFor sdkConfig;
                   sdk_WebhookSigningKey := sdk_WebhookSigningKey sdkConfig;
                   sdk_DefaultAttrs := sdk_DefaultAttrs local;
                   sdk_Offline := sdk_Offline local; sdk_Log := sdk_Log local |}
        | None => Ret sdkConfig
        end;
      Ret (if goff_Enabled g && negb (off_Enabled (sdk_Offline sdkConfig)) then
             on_sdk_Offline (fun o => {| off_Enabled := true; off_UseCache := true;
               off_CachePollInterval := goff_CachePollInterval g; off_Log := goff_Log g;
               off_Local := off_Local o |}) sdkConfig
           else sdkConfig)
  end.

(** [sdk/sdk_auto_registrar.go:324-338] buildSdkClient: the location of the new
    client *)
Definition buildSdkClient (now : Z) (sdkId : string) (sdkConfig : SDKConfig) (sdkModel : SdkConfigModel)
    (r : autoRegistrar) : nat * autoRegistrar :=
  let ctx := {|
    cx_SdkId := sdkId;
    cx_SecondarySdkKey := if 0 <? len (m_Key2 sdkModel) then Some (m_Key2 sdkModel) else None;
    cx_SDKConf := sdkConfig;
    cx_GlobalDefaultAttrs := c_DefaultAttrs conf |} in
  let '(c, s) := NewClient now ctx (rg_cache r) log (rg_statusReporter r) in
  (length (rg_heap r), on_heap (fun heap => heap ++ [c]) (set_reporter s r)).

(** [if key != "" { r.sdkClientsBySdkKey.Store(key, client) }] *)
Definition store_key (key : string) (l : nat) (r : autoRegistrar) : autoRegistrar :=
  if bool_decide (key <> "") then on_bySdkKey <[key := l]> r else r.

(** [if key != "" { r.sdkClientsBySdkKey.Delete(key) }] *)
Definition delete_key (key : string) (r : autoRegistrar) : autoRegistrar :=
  if bool_decide (key <> "") then on_bySdkKey (delete key) r else r.

(** the client at a location; a map only holds locations of the heap *)
Definition at_loc (l : nat) (r : autoRegistrar) : go client :=
  match rg_heap r !! l with Some c => Ret c | None => Panic end.

Definition close_at (l : nat) (r : autoRegistrar) : go autoRegistrar :=
  c <-? at_loc l r; c <-? Close c; Ret (on_heap <[l := c]> r).

(** [sdk/sdk_auto_registrar.go:401-407] resetSdkClients and deleteSdkClients,
    removing the keys of a client from the index *)
Definition delete_keys_of (c : client) (r : autoRegistrar) : autoRegistrar :=
  let '(key1, key2) := SdkKeys c in
  let r := delete_key key1 r in
  match key2 with Some key2 => delete_key key2 r | None => r end.

(** [sdk/sdk_auto_registrar.go:347-360] deleteSdkClients, one SDK *)
Definition deleteSdkClient (r : autoRegistrar) (sdkId : string) : go autoRegistrar :=
  match rg_sdkClients r !! sdkId with
  | None => Ret r
  | Some l =>
      let r := on_sdkClients (delete sdkId) r in
      c <-? at_loc l r;
      let r := delete_keys_of c r in
      r <-? close_at l r;
      let r := set_reporter (RemoveSdk sdkId (rg_statusReporter r)) r in
      Ret (Publish sdkId r)
  end.

(** [sdk/sdk_auto_registrar.go:340-361] deleteSdkClients *)
Definition deleteSdkClients (sdkIds : list string) (r : autoRegistrar) : go autoRegistrar :=
  go_fold deleteSdkClient r sdkIds.

(** [sdk/sdk_auto_registrar.go:370-386] addSdkClients, one SDK *)
Definition addSdkClient (now : Z) (config : ProxyConfigModel) (r : autoRegistrar) (sdkId : string) :
    go autoRegistrar :=
  match p_SDKs config !! sdkId with
  | None => Ret r
  | Some sdkModel =>
      sdkConfig <-? buildSdkConfig sdkId sdkModel r;
      match sdkModel, rg_sdkClients r !! sdkId with
      | Some sdkModel, None =>
          let '(l, r) := buildSdkClient now sdkId sdkConfig sdkModel r in
          let r := on_sdkClients <[sdkId := l]> r in
          let r := store_key (m_Key1 sdkModel) l r in
          let r := store_key (m_Key2 sdkModel) l r in
          s <-? RegisterSdk now sdkId sdkConfig (rg_statusReporter r);
          Ret (Publish sdkId (set_reporter s r))
      | _, _ => Ret r
      end
  end.

(** [sdk/sdk_auto_registrar.go:363-387] addSdkClients *)
Definition addSdkClients (now : Z) (config : ProxyConfigModel) (sdkIds : list string) (r : autoRegistrar) :
    go autoRegistrar :=
  go_fold (addSdkClient now config) r sdkIds.

(** [sdk/sdk_auto_registrar.go:396-419] resetSdkClients, one SDK *)
Definition resetSdkClient (now : Z) (config : ProxyConfigModel) (r : autoRegistrar) (sdkId : string) :
    go autoRegistrar :=
  match p_SDKs config !! sdkId with
  | None => Ret r
  | Some sdkModel =>
      sdkConfig <-? buildSdkConfig sdkId sdkModel r;
      match sdkModel with
      | None => Panic
      | Some sdkModel =>
          let '(l, r) := buildSdkClient now sdkId sdkConfig sdkModel r in
          let existing := rg_sdkClients r !! sdkId in
          let r := on_sdkClients <[sdkId := l]> r in
          r <-? match existing with
                | None => Ret r
                | Some old =>
                    c <-? at_loc old r;
                    let r := delete_keys_of c r in
                    r <-? close_at old r;
                    s <-? UpdateSdk sdkId sdkConfig (rg_statusReporter r);
                    Ret (Publish sdkId (set_reporter s r))
                end;
          Ret (store_key (m_Key2 sdkModel) l (store_key (m_Key1 sdkModel) l r))
      end
  end.

(** [sdk/sdk_auto_registrar.go:389-420] resetSdkClients *)
Definition resetSdkClients (now : Z) (config : ProxyConfigModel) (sdkIds : list string) (r : autoRegistrar) :
    go autoRegistrar :=
  go_fold (resetSdkClient now config) r sdkIds.

(** [sdk/sdk_auto_registrar.go:422-425] shouldUpdateOptions *)
Definition shouldUpdateOptions (options : OptionsModel) (r : autoRegistrar) : bool :=
  negb (o_PollInterval (rg_options r) =? o_PollInterval options) ||
  bool_decide (o_DataGovernance (rg_options r) <> o_DataGovernance options).

(** ** Refreshing *)

(** [sdk/sdk_auto_registrar.go:191-211] refreshConfig, one remaining SDK; the
    list collects the SDKs to reset *)
Definition updateKeys (config : ProxyConfigModel) (st : autoRegistrar * list string) (sdkId : string) :
    go (autoRegistrar * list string) :=
  let '(r, resetKeys) := st in
  match rg_sdkClients r !! sdkId, p_SDKs config !! sdkId with
  | Some l, Some sdkConfig =>
      c <-? at_loc l r;
      let '(key1, key2) := SdkKeys c in
      match sdkConfig with
      | None => Panic
      | Some sdkConfig =>
          if bool_decide (key1 <> m_Key1 sdkConfig) then Ret (r, resetKeys ++ [sdkId])
          else
            let update r := on_heap <[l := SetSecondarySdkKey (m_Key2 sdkConfig) c]> r in
            Ret (match key2 with
                 | None =>
                     if bool_decide (m_Key2 sdkConfig <> "") then
                       Publish sdkId (on_bySdkKey <[m_Key2 sdkConfig := l]> (update r))
                     else r
                 | Some key2 =>
                     if bool_decide (key2 <> m_Key2 sdkConfig) then
                       Publish sdkId (on_bySdkKey (fun m => <[m_Key2 sdkConfig := l]> (delete key2 m)) (update r))
                     else r
                 end, resetKeys)
      end
  | _, _ => Ret st
  end.

(** [sdk/sdk_auto_registrar.go:178-216] refreshConfig, applying a new profile *)
Definition applyConfig (now : Z) (autoConfig : ProxyConfigModel) (r : autoRegistrar) : go autoRegistrar :=
  let existingKeys := KeysOfSyncMap (rg_sdkClients r) in
  let remoteKeys := KeysOfMap (p_SDKs autoConfig) in
  let toAddKeys := Except remoteKeys existingKeys in
  let toDeleteKeys := Except existingKeys remoteKeys in
  let remainingKeys := Except remoteKeys toAddKeys in
  r <-? deleteSdkClients toDeleteKeys r;
  r <-? (if shouldUpdateOptions (p_Options autoConfig) r then
           resetSdkClients now autoConfig remainingKeys (set_options (p_Options autoConfig) r)
         else
           st <-? go_fold (updateKeys autoConfig) (r, []) remainingKeys;
           resetSdkClients now autoConfig st.2 st.1);
  addSdkClients now autoConfig toAddKeys r.

(** [sdk/sdk_auto_registrar.go:173-218] refreshConfig *)
Definition refreshConfig (now : Z) (do : http_request -> go http_response) (r : autoRegistrar) : go autoRegistrar :=
  match getConfig do r with
  | (Fail _, r) => Ret r
  | (Panic, _) => Panic
  | (Ret None, r) => Ret r
  | (Ret (Some autoConfig), r) => applyConfig now autoConfig r
  end.

(** [sdk/sdk_auto_registrar.go:80-92] newAutoRegistrar, one SDK of the first
    profile *)
Definition initSdk (now : Z) (r : autoRegistrar) (kv : string * option SdkConfigModel) : go autoRegistrar :=
  let '(sdkId, sdkModel) := kv in
  sdkConfig <-? buildSdkConfig sdkId sdkModel r;
  s <-? RegisterSdk now sdkId sdkConfig (rg_statusReporter r);
  match sdkModel with
  | None => Panic
  | Some sdkModel =>
      let '(l, r) := buildSdkClient now sdkId sdkConfig sdkModel (set_reporter s r) in
      let r := on_sdkClients <[sdkId := l]> r in
      Ret (store_key (m_Key2 sdkModel) l (store_key (m_Key1 sdkModel) l r))
  end.

Definition zero_OptionsModel : OptionsModel := {| o_PollInterval := 0; o_DataGovernance := "" |}.

(** [sdk/sdk_auto_registrar.go:49-101] newAutoRegistrar; [options] is nil before
    the first profile, and [&autoConfig.Options] of a nil profile panics *)
Definition newAutoRegistrar (now : Z) (do : http_request -> go http_response) (cache : option XC) (s : reporter) :
    go autoRegistrar :=
  let registrar := {|
    rg_options := zero_OptionsModel; rg_etag := "initial"; rg_sdkClients := ∅; rg_sdkClientsBySdkKey := ∅;
    rg_cache := cache; rg_statusReporter := s; rg_heap := []; rg_published := [] |} in
  match getConfig do registrar with
  | (Fail err, _) => Fail err
  | (Panic, _) | (Ret None, _) => Panic
  | (Ret (Some autoConfig), r) =>
      go_fold (initSdk now) (set_options (p_Options autoConfig) r) (range (p_SDKs autoConfig))
  end.

(** [sdk/sdk_auto_registrar.go:93-98] newAutoRegistrar, the interval it gives
    [run] *)
Definition refresh_interval : Z :=
  if goff_Enabled (c_GlobalOfflineConfig conf)
  then goff_CachePollInterval (c_GlobalOfflineConfig conf)
  else profile_PollInterval (c_Profile conf).

(** [sdk/sdk_auto_registrar.go:103-108] GetSdkOrNil *)
Definition GetSdkOrNil (key : string) (r : autoRegistrar) : option nat := rg_sdkClients r !! key.

(** [sdk/sdk_auto_registrar.go:110-115] GetSdkByKeyOrNil *)
Definition GetSdkByKeyOrNil (sdkKey : string) (r : autoRegistrar) : option nat :=
  rg_sdkClientsBySdkKey r !! sdkKey.

(** [sdk/sdk_auto_registrar.go:124-131] GetAll *)
Definition GetAll (r : autoRegistrar) : gmap string nat :=
  fold_left (fun all '(key, value) => <[key := value]> all) (range (rg_sdkClients r)) ∅.

(** [sdk/sdk_auto_registrar.go:145-149] Close, one SDK *)
Definition close_entry (r : autoRegistrar) (kv : string * nat) : go autoRegistrar :=
  r <-? close_at kv.2 r; Ret (on_sdkClients (delete kv.1) r).

(** [sdk/sdk_auto_registrar.go:142-152] Close *)
Definition Close_registrar (r : autoRegistrar) : go autoRegistrar :=
  r <-? go_fold close_entry r (range (rg_sdkClients r));
  Ret (on_bySdkKey (fun _ => ∅) r).

(** ** Specification *)

(** the keys of a client and of a profile entry; no secondary key is the empty
    one *)
Definition client_keys (c : client) : string * string :=
  let '(key1, key2) := SdkKeys c in (key1, default "" key2).
Definition model_keys (m : SdkConfigModel) : string * string := (m_Key1 m, m_Key2 m).

(** the SDKs a registrar serves, each with the keys of its client *)
Definition view (r : autoRegistrar) (id : string) : option (string * string) :=
  l ← rg_sdkClients r !! id; client_keys <$> rg_heap r !! l.

(** the SDKs a profile calls for *)
Definition remote (config : ProxyConfigModel) (id : string) : option (string * string) :=
  m ← p_SDKs config !! id; model_keys <$> m.

(** The well-formedness of a registrar: its map holds the open clients, each
    under its own id, every open client is in it, and the status reporter knows
    exactly its SDKs. *)
Record WF (r : autoRegistrar) : Prop := {
  wf_open : forall id l, rg_sdkClients r !! id = Some l ->
    exists c, rg_heap r !! l = Some c /\ cl_closed c = false /\ cx_SdkId (cl_sdkCtx c) = id;
  wf_closed : forall l c, rg_heap r !! l = Some c -> cl_closed c = false ->
    rg_sdkClients r !! cx_SdkId (cl_sdkCtx c) = Some l;
  wf_status : dom (st_SDKs (rp_status (rg_statusReporter r))) = dom (rg_sdkClients r)
}.

Definition has_key_of (k : string) (ks : string * string) : Prop := k = ks.1 \/ k = ks.2.

(** no SDK key is shared by two SDKs, nor used twice by one *)
Definition keys_disjoint (v : string -> option (string * string)) : Prop :=
  (forall id1 id2 ks1 ks2 k, k <> "" -> v id1 = Some ks1 -> v id2 = Some ks2 ->
   has_key_of k ks1 -> has_key_of k ks2 -> id1 = id2) /\
  (forall id ks, v id = Some ks -> ks.1 = ks.2 -> ks.1 = "").

(** the index leads from every SDK key to the client of its SDK, and nowhere else *)
Definition index_ok (r : autoRegistrar) : Prop :=
  forall k l, k <> "" ->
    GetSdkByKeyOrNil k r = Some l <->
    exists id ks, rg_sdkClients r !! id = Some l /\ view r id = Some ks /\ has_key_of k ks.

(** the half of it that no profile can break: an entry leads to the client of an
    SDK with that key *)
Definition index_sound (r : autoRegistrar) : Prop :=
  forall k l, k <> "" -> GetSdkByKeyOrNil k r = Some l ->
    exists id ks, rg_sdkClients r !! id = Some l /\ view r id = Some ks /\ has_key_of k ks.

Lemma index_ok_sound r : index_ok r -> index_sound r.
Proof. intros Hix k l Hk Hl. by apply Hix. Qed.

(** [r'] is [r] with the keys of one SDK replaced and some ids published. *)
Record moved (id : string) (ks : option (string * string)) (pub : list string) (r r' : autoRegistrar) : Prop := {
  mv_wf : WF r';
  mv_view : forall k, view r' k = if decide (k = id) then ks else view r k;
  mv_published : rg_published r' = rg_published r ++ pub;
  mv_options : rg_options r' = rg_options r;
  mv_etag : rg_etag r' = rg_etag r;
  mv_heap : (length (rg_heap r) <= length (rg_heap r'))%nat;
  mv_clients : forall k, k <> id -> rg_sdkClients r' !! k = rg_sdkClients r !! k;
  mv_index : keys_disjoint (view r) -> keys_disjoint (view r') -> index_ok r -> index_ok r';
  mv_sound : index_sound r -> index_sound r'
}.

(** ** Lemmas *)
Lemma view_is_Some r id : WF r -> is_Some (view r id) <-> is_Some (rg_sdkClients r !! id).
Proof.
  intros Hwf. unfold view. destruct (rg_sdkClients r !! id) as [l|] eqn:Hl; simpl; [|by split].
  destruct (wf_open r Hwf id l Hl) as (c & -> & _). simpl. split; eauto.
Qed.

Lemma view_client r id l c :
  rg_sdkClients r !! id = Some l -> rg_heap r !! l = Some c -> view r id = Some (client_keys c).
Proof. unfold view. intros -> Hc. simpl. by rewrite Hc. Qed.

Lemma wf_inj r id1 id2 l : WF r ->
  rg_sdkClients r !! id1 = Some l -> rg_sdkClients r !! id2 = Some l -> id1 = id2.
Proof.
  intros Hwf H1 H2. destruct (wf_open r Hwf _ _ H1) as (c1 & Hc1 & _ & <-).
  destruct (wf_open r Hwf _ _ H2) as (c2 & Hc2 & _ & <-). by simplify_eq.
Qed.

Lemma buildSdkConfig_ok id m r :
  c_SDKs conf !! id <> Some None ->
  exists sc, buildSdkConfig id (Some m) r = Ret sc /\ sdk_Key sc = m_Key1 m.
Proof.
  intros Hc. unfold buildSdkConfig. destruct (c_SDKs conf !! id) as [[local|]|]; simpl; [|done|].
  - eexists. split; [done|]. by case_match.
  - eexists. split; [done|]. by case_match.
Qed.

(** the heap after a client was built *)
Lemma buildSdkClient_ok now id sc m r :
  sdk_Key sc = m_Key1 m ->
  exists c s, buildSdkClient now id sc m r =
      (length (rg_heap r), on_heap (fun heap => heap ++ [c]) (set_reporter s r)) /\
    dom (st_SDKs (rp_status s)) = dom (st_SDKs (rp_status (rg_statusReporter r))) /\
    client_keys c = model_keys m /\ cl_closed c = false /\ cx_SdkId (cl_sdkCtx c) = id.
Proof.
  intros Hkey. unfold buildSdkClient. cbv zeta.
  match goal with |- context [NewClient now ?cx _ _ _] =>
    pose proof (NewClient_ctx now cx (rg_cache r) log (rg_statusReporter r)) as [Hcx Hcl];
    pose proof (NewClient_dom now cx (rg_cache r) log (rg_statusReporter r)) as Hdom;
    destruct (NewClient now cx (rg_cache r) log (rg_statusReporter r)) as [c s] end.
  simpl in *. exists c, s. split_and!; try done.
  - unfold client_keys, SdkKeys. rewrite Hcx. simpl. rewrite Hkey. unfold model_keys. f_equal.
    destruct (m_Key2 m) as [|a k]; [done|]. destruct (Z.ltb_spec 0 (len (String a k))) as [|Hl]; [done|].
    unfold len in Hl. simpl in Hl. lia.
  - by rewrite Hcx.
Qed.

#[local] Instance has_key_of_dec k ks : Decision (has_key_of k ks).
Proof. unfold has_key_of. apply _. Defined.

Lemma delete_key_lookup key r k :
  k <> "" -> rg_sdkClientsBySdkKey (delete_key key r) !! k =
             if decide (k = key) then None else rg_sdkClientsBySdkKey r !! k.
Proof.
  intros Hk. unfold delete_key. case_bool_decide as Hkey; simpl; case_decide; subst.
  - by rewrite lookup_delete_eq.
  - by rewrite lookup_delete_ne.
  - done.
  - done.
Qed.

Lemma delete_key_shape key r :
  delete_key key r = on_bySdkKey (fun _ => rg_sdkClientsBySdkKey (delete_key key r)) r.
Proof. unfold delete_key. case_match; by destruct r. Qed.

Lemma delete_keys_shape c r :
  exists m, delete_keys_of c r = on_bySdkKey (fun _ => m) r /\
  forall k, k <> "" -> m !! k = if decide (has_key_of k (client_keys c)) then None
                                else rg_sdkClientsBySdkKey r !! k.
Proof.
  unfold delete_keys_of, client_keys. destruct (SdkKeys c) as [key1 key2].
  exists (rg_sdkClientsBySdkKey (match key2 with
    Some key2 => delete_key key2 (delete_key key1 r) | None => delete_key key1 r end)). split.
  - destruct key2 as [key2|]; [|apply delete_key_shape].
    unfold delete_key. repeat case_match; by destruct r.
  - intros k Hk. unfold has_key_of. simpl.
    destruct key2 as [key2|]; simpl; rewrite !delete_key_lookup by done;
      repeat case_decide; naive_solver.
Qed.

Lemma store_keys_shape k1 k2 l r :
  exists m, store_key k2 l (store_key k1 l r) = on_bySdkKey (fun _ => m) r /\
  forall k, k <> "" -> m !! k = if decide (has_key_of k (k1, k2)) then Some l
                                else rg_sdkClientsBySdkKey r !! k.
Proof.
  exists (rg_sdkClientsBySdkKey (store_key k2 l (store_key k1 l r))). split.
  - unfold store_key. repeat case_match; by destruct r.
  - intros k Hk. unfold store_key, has_key_of. simpl.
    repeat case_bool_decide; simpl; repeat case_decide; simplify_eq; rewrite ?lookup_insert; repeat case_decide;
      naive_solver.
Qed.

Lemma Close_ok c : cl_closed c = false ->
  exists c', Close c = Ret c' /\ cl_closed c' = true /\ client_keys c' = client_keys c /\
    cl_sdkCtx c' = cl_sdkCtx c.
Proof. intros Hc. unfold Close. rewrite Hc. by eexists. Qed.

Lemma deleteSdkClient_moved r id :
  WF r -> is_Some (view r id) ->
  exists r', deleteSdkClient r id = Ret r' /\ moved id None [id] r r'.
Proof.
  intros Hwf [l Hl]%view_is_Some; [|done].
  destruct (wf_open r Hwf id l Hl) as (c & Hc & Hopen & Hid).
  destruct (Close_ok c Hopen) as (c' & Hclose & Hclosed & _ & Hctx).
  unfold deleteSdkClient. rewrite Hl. unfold at_loc. simpl. rewrite Hc. simpl.
  destruct (delete_keys_shape c (on_sdkClients (delete id) r)) as (m & -> & Hm).
  unfold close_at, at_loc. simpl. rewrite Hc. simpl. rewrite Hclose. simpl.
  eexists. split; [done|].
  assert (Hview : forall k, view (Publish id (set_reporter (RemoveSdk id (rg_statusReporter r))
      (on_heap <[l:=c']> (on_bySdkKey (fun _ => m) (on_sdkClients (delete id) r))))) k =
      if decide (k = id) then None else view r k).
  { intros k. unfold view. simpl. case_decide as Hk.
    - subst. by rewrite lookup_delete_eq.
    - rewrite lookup_delete_ne by done. destruct (rg_sdkClients r !! k) as [l'|] eqn:Hl'; simpl; [|done].
      rewrite list_lookup_insert_ne; [done|]. intros ->. apply Hk. by eapply wf_inj. }
  split; try done.
  - split; simpl.
    + intros k l' [Hne Hk]%lookup_delete_Some. destruct (wf_open r Hwf k l' Hk) as (c1 & Hc1 & ? & ?).
      exists c1. rewrite list_lookup_insert_ne; [done|]. intros ->. apply Hne. by eapply wf_inj.
    + intros l' c1 Hc1 Hopen1. apply list_lookup_insert_Some in Hc1 as [(-> & -> & _)|[Hne Hc1]]; [congruence|].
      pose proof (wf_closed r Hwf l' c1 Hc1 Hopen1) as Hl'. rewrite lookup_delete_ne; [done|].
      intros ->. congruence.
    + by rewrite RemoveSdk_dom, dom_delete_L, (wf_status r Hwf).
  - simpl. by rewrite length_insert.
  - intros k Hk. simpl. by rewrite lookup_delete_ne.
  - intros [Hdis _] _ Hidx k l' Hk. unfold GetSdkByKeyOrNil. simpl. rewrite Hm by done. simpl.
    assert (Hvid : view r id = Some (client_keys c)) by (by eapply view_client).
    assert (Hold : forall l', rg_sdkClientsBySdkKey r !! k = Some l' <-> _) by (intros; by apply Hidx).
    case_decide as Hhas.
    + split; [done|]. intros (id' & ks & Hl' & Hv & Hks). exfalso.
      rewrite Hview in Hv. case_decide as Hid'; [done|]. apply Hid'. by eapply Hdis.
    + rewrite Hold. split; intros (id' & ks & Hl' & Hv & Hks).
      * assert (id' <> id) by (intros ->; rewrite Hvid in Hv; by simplify_eq).
        exists id', ks. rewrite lookup_delete_ne, Hview, decide_False by done. done.
      * rewrite Hview in Hv. case_decide as Hid'; [done|]. rewrite lookup_delete_ne in Hl' by done.
        exists id', ks. done.
  - intros Hsound k l' Hk. unfold GetSdkByKeyOrNil. simpl. rewrite Hm by done. simpl.
    case_decide as Hhas; [done|]. intros (id' & ks & Hl' & Hv & Hks)%Hsound; [|done].
    assert (id' <> id) by (intros ->; rewrite (view_client r id l c Hl Hc) in Hv; by simplify_eq).
    exists id', ks. by rewrite lookup_delete_ne, Hview, decide_False.
Qed.

(** a client added to the heap and the map *)
Lemma install_WF r r' id c :
  let l := length (rg_heap r) in
  let old := rg_sdkClients r !! id in
  WF r -> cl_closed c = false -> cx_SdkId (cl_sdkCtx c) = id ->
  rg_sdkClients r' = <[id := l]> (rg_sdkClients r) ->
  length (rg_heap r') = S l -> rg_heap r' !! l = Some c ->
  (forall l1, l1 < l -> old <> Some l1 -> rg_heap r' !! l1 = rg_heap r !! l1)%nat ->
  (forall l1 c1, old = Some l1 -> rg_heap r' !! l1 = Some c1 -> cl_closed c1 = true) ->
  dom (st_SDKs (rp_status (rg_statusReporter r'))) = {[id]} ∪ dom (rg_sdkClients r) ->
  (forall k l1, k <> id -> rg_sdkClients r !! k = Some l1 -> rg_heap r' !! l1 = rg_heap r !! l1) ->
  WF r'.
Proof.
  intros l old Hwf Hopen Hid Hclients Hlen Hl Hheap Hold Hdom Hother. split.
  - intros k l1. rewrite Hclients. intros [[<- <-]|[Hk Hl1]]%lookup_insert_Some; [eauto|].
    rewrite (Hother k) by done. by apply (wf_open r Hwf).
  - intros l1 c1 Hc1 Hopen1. rewrite Hclients. destruct (decide (l1 = l)) as [->|Hne].
    + rewrite Hl in Hc1. simplify_eq. by rewrite lookup_insert_eq.
    + assert (l1 < l)%nat by (apply lookup_lt_Some in Hc1; lia).
      destruct (decide (old = Some l1)) as [Ho|Ho]; [by rewrite (Hold _ _ Ho Hc1) in Hopen1|].
      rewrite Hheap in Hc1 by done. pose proof (wf_closed r Hwf l1 c1 Hc1 Hopen1) as Hl1.
      rewrite lookup_insert_ne; [done|]. intros Heq. apply Ho. unfold old. by rewrite Heq.
  - by rewrite Hdom, Hclients, dom_insert_L.
Qed.

(** A new client takes over an SDK, in place of [old] if there was one. *)
Lemma install_moved r r' id c pub :
  let l := length (rg_heap r) in
  let old := rg_sdkClients r !! id in
  WF r -> cl_closed c = false -> cx_SdkId (cl_sdkCtx c) = id ->
  rg_sdkClients r' = <[id := l]> (rg_sdkClients r) ->
  length (rg_heap r') = S l -> rg_heap r' !! l = Some c ->
  (forall l1, l1 < l -> old <> Some l1 -> rg_heap r' !! l1 = rg_heap r !! l1)%nat ->
  (forall l1 c1, old = Some l1 -> rg_heap r' !! l1 = Some c1 -> cl_closed c1 = true) ->
  dom (st_SDKs (rp_status (rg_statusReporter r'))) = {[id]} ∪ dom (rg_sdkClients r) ->
  rg_published r' = rg_published r ++ pub -> rg_options r' = rg_options r -> rg_etag r' = rg_etag r ->
  (forall k, k <> "" -> rg_sdkClientsBySdkKey r' !! k =
     if decide (has_key_of k (client_keys c)) then Some l
     else match view r id with
          | Some oks => if decide (has_key_of k oks) then None else rg_sdkClientsBySdkKey r !! k
          | None => rg_sdkClientsBySdkKey r !! k
          end) ->
  moved id (Some (client_keys c)) pub r r'.
Proof.
  intros l old Hwf Hopen Hid Hclients Hlen Hl Hheap Hold Hdom Hpub Hopt Hetag Hidx.
  assert (Hlt : forall k l1, rg_sdkClients r !! k = Some l1 -> (l1 < l)%nat).
  { intros k l1 Hk. destruct (wf_open r Hwf k l1 Hk) as (c1 & Hc1 & _). by eapply lookup_lt_Some. }
  assert (Hother : forall k l1, k <> id -> rg_sdkClients r !! k = Some l1 -> rg_heap r' !! l1 = rg_heap r !! l1).
  { intros k l1 Hk Hk1. apply Hheap; [by eapply Hlt|]. intros Ho. apply Hk. by eapply wf_inj. }
  assert (Hview : forall k, view r' k = if decide (k = id) then Some (client_keys c) else view r k).
  { intros k. unfold view. rewrite Hclients. case_decide as Hk.
    - subst. rewrite lookup_insert_eq. simpl. by rewrite Hl.
    - rewrite lookup_insert_ne by done. destruct (rg_sdkClients r !! k) as [l1|] eqn:Hl1; [|done].
      simpl. by rewrite (Hother k). }
  split; try done.
  - by apply (install_WF r r' id c).
  - lia.
  - intros k Hk. by rewrite Hclients, lookup_insert_ne.
  - intros [Hdis _] [Hdis' _] Hix k l1 Hk. unfold GetSdkByKeyOrNil. rewrite Hidx by done.
    assert (Hix' : forall l1, rg_sdkClientsBySdkKey r !! k = Some l1 <-> _) by (intros; by apply Hix).
    case_decide as Hnew.
    + split.
      * intros [= <-]. exists id, (client_keys c). rewrite Hview, decide_True by done.
        by rewrite Hclients, lookup_insert_eq.
      * intros (id' & ks & Hl' & Hv & Hks). replace id' with id in *;
          [rewrite Hclients, lookup_insert_eq in Hl'; congruence|].
        apply (Hdis' id id' (client_keys c) ks k); try done. by rewrite Hview, decide_True.
    + assert (Hrest : (exists id' ks, rg_sdkClients r' !! id' = Some l1 /\ view r' id' = Some ks /\ has_key_of k ks) <->
        exists id' ks, id' <> id /\ rg_sdkClients r !! id' = Some l1 /\ view r id' = Some ks /\ has_key_of k ks).
      { split; intros (id' & ks & Hrest).
        - rewrite Hview, Hclients in Hrest. case_decide as Hid'; [naive_solver|].
          rewrite lookup_insert_ne in Hrest by done. eauto.
        - exists id', ks. rewrite Hview, Hclients, decide_False, lookup_insert_ne by naive_solver. tauto. }
      rewrite Hrest. destruct (view r id) as [oks|] eqn:Hv; [case_decide as Hoks|].
      * split; [done|]. intros (id' & ks & Hne & _ & Hv' & Hks). exfalso. apply Hne. by eapply Hdis.
      * rewrite Hix'. split; intros (id' & ks & Hx); exists id', ks; [|tauto].
        split; [|done]. intros ->. destruct Hx as (_ & Hx & Hks). by simplify_eq.
      * rewrite Hix'. split; intros (id' & ks & Hx); exists id', ks; [|tauto].
        split; [|done]. intros ->. by rewrite Hv in Hx; destruct Hx as (_ & ? & _).
  - intros Hsound k l1 Hk. unfold GetSdkByKeyOrNil. rewrite Hidx by done. case_decide as Hnew.
    + intros [= <-]. exists id, (client_keys c). by rewrite Hview, decide_True, Hclients, lookup_insert_eq.
    + intros Hl1. assert (Hold1 : rg_sdkClientsBySdkKey r !! k = Some l1 /\
        forall oks, view r id = Some oks -> ~ has_key_of k oks)
        by (destruct (view r id); [case_decide; [done|]|]; naive_solver).
      destruct Hold1 as [Hl1' Hno]. destruct (Hsound k l1 Hk Hl1') as (id' & ks & Hl' & Hv & Hks).
      assert (id' <> id) by (intros ->; by apply (Hno ks)).
      exists id', ks. by rewrite Hview, decide_False, Hclients, lookup_insert_ne.
Qed.

Lemma addSdkClient_moved now config r id m :
  WF r -> c_SDKs conf !! id <> Some None -> p_SDKs config !! id = Some (Some m) -> view r id = None ->
  exists r', addSdkClient now config r id = Ret r' /\ moved id (Some (model_keys m)) [id] r r'.
Proof.
  intros Hwf Hconf Hm Hnone.
  assert (Hcl : rg_sdkClients r !! id = None).
  { destruct (rg_sdkClients r !! id) eqn:Hl; [|done].
    destruct (proj2 (view_is_Some r id Hwf)) as [? ?]; [eauto|congruence]. }
  destruct (buildSdkConfig_ok id m r Hconf) as (sc & Hsc & Hkey).
  destruct (buildSdkClient_ok now id sc m r Hkey) as (c & s & Hb & Hdom & Hkeys & Hopen & Hid).
  unfold addSdkClient. rewrite Hm, Hsc. simpl. rewrite Hcl, Hb.
  match goal with |- context [store_key _ ?l (store_key _ ?l ?x)] =>
    destruct (store_keys_shape (m_Key1 m) (m_Key2 m) l x) as (mm & -> & Hmm) end.
  simpl. destruct (RegisterSdk_dom now id sc s) as (s' & -> & Hdom'). simpl.
  eexists. split; [done|]. rewrite <- Hkeys. apply install_moved; simpl; try done.
  - rewrite length_app. simpl. lia.
  - by rewrite lookup_app_r, Nat.sub_diag by lia.
  - intros l1 Hl1 _. by rewrite lookup_app_l by lia.
  - intros l1 c1 Hl1. congruence.
  - by rewrite Hdom', Hdom, (wf_status r Hwf).
  - intros k Hk. rewrite Hmm by done. simpl. rewrite Hkeys, Hnone. done.
Qed.

Lemma resetSdkClient_moved now config r id m :
  WF r -> c_SDKs conf !! id <> Some None -> p_SDKs config !! id = Some (Some m) -> is_Some (view r id) ->
  exists r', resetSdkClient now config r id = Ret r' /\ moved id (Some (model_keys m)) [id] r r'.
Proof.
  intros Hwf Hconf Hm [old Hold]%view_is_Some; [|done].
  destruct (wf_open r Hwf id old Hold) as (oc & Hoc & Hocopen & Hocid).
  destruct (Close_ok oc Hocopen) as (oc' & Hclose & Hclosed & _ & _).
  pose proof (view_client r id old oc Hold Hoc) as Hview.
  pose proof (lookup_lt_Some _ _ _ Hoc) as Hlt.
  destruct (buildSdkConfig_ok id m r Hconf) as (sc & Hsc & Hkey).
  destruct (buildSdkClient_ok now id sc m r Hkey) as (c & s & Hb & Hdom & Hkeys & Hopen & Hid).
  unfold resetSdkClient. rewrite Hm, Hsc. simpl. rewrite Hb. simpl. rewrite Hold.
  unfold at_loc. simpl. rewrite lookup_app_l, Hoc by done. simpl.
  match goal with |- context [delete_keys_of oc ?x] => destruct (delete_keys_shape oc x) as (m1 & -> & Hm1) end.
  unfold close_at, at_loc. simpl. rewrite lookup_app_l, Hoc by done. simpl. rewrite Hclose. simpl.
  destruct (UpdateSdk_dom id sc s) as (s' & -> & Hdom').
  { rewrite Hdom, (wf_status r Hwf). apply elem_of_dom. eauto. }
  simpl. match goal with |- context [store_key _ ?l (store_key _ ?l ?x)] =>
    destruct (store_keys_shape (m_Key1 m) (m_Key2 m) l x) as (mm & -> & Hmm) end.
  eexists. split; [done|]. rewrite <- Hkeys. apply install_moved; simpl; try done.
  - rewrite length_insert, length_app. simpl. lia.
  - rewrite list_lookup_insert_ne by lia. by rewrite lookup_app_r, Nat.sub_diag by lia.
  - intros l1 Hl1 Hne. rewrite list_lookup_insert_ne by congruence. by rewrite lookup_app_l by lia.
  - intros l1 c1 Hl1. rewrite Hold in Hl1. injection Hl1 as <-.
    rewrite list_lookup_insert_eq by (rewrite length_app; lia). by intros [= <-].
  - rewrite Hdom', Hdom, (wf_status r Hwf). symmetry. apply subseteq_union_1_L.
    apply singleton_subseteq_l, elem_of_dom. eauto.
  - intros k Hk. rewrite Hmm by done. simpl. rewrite Hkeys, Hview. unfold model_keys.
    case_decide; [done|]. by rewrite Hm1.
Qed.

Lemma moved_refl id ks r : WF r -> view r id = ks -> moved id ks [] r r.
Proof.
  intros Hwf Hv. split; try done; [|by rewrite app_nil_r].
  intros k. case_decide; [by subst|done].
Qed.

(** the secondary key of a client is replaced in place *)
Lemma update_moved r id l c key2 m :
  WF r -> rg_sdkClients r !! id = Some l -> rg_heap r !! l = Some c ->
  (forall k, k <> "" -> m !! k = if decide (k = key2) then Some l
                                 else if decide (k = (client_keys c).2) then None
                                 else rg_sdkClientsBySdkKey r !! k) ->
  moved id (Some ((client_keys c).1, key2)) [id] r
    (Publish id (on_bySdkKey (fun _ => m) (on_heap <[l := SetSecondarySdkKey key2 c]> r))).
Proof.
  intros Hwf Hl Hc Hm. pose proof (lookup_lt_Some _ _ _ Hc) as Hlt.
  pose proof (view_client r id l c Hl Hc) as Hvid.
  destruct (wf_open r Hwf id l Hl) as (c0 & Hc0 & Hopen & Hid). simplify_eq.
  match goal with |- moved ?id ?ks ?pub ?r ?r' =>
    assert (Hview : forall k, view r' k = if decide (k = id) then ks else view r k) end.
  { intros k. unfold view. simpl. case_decide as Hk.
    - subst. rewrite Hl. simpl. by rewrite list_lookup_insert_eq.
    - destruct (rg_sdkClients r !! k) as [l1|] eqn:Hl1; simpl; [|done].
      rewrite list_lookup_insert_ne; [done|]. intros ->. apply Hk. by eapply wf_inj. }
  split; try done.
  - split; simpl; [| |apply (wf_status r Hwf)].
    + intros k l1 Hk. destruct (decide (l1 = l)) as [->|Hne].
      * rewrite list_lookup_insert_eq by done. eexists. split; [done|]. split; [done|]. simpl. by eapply wf_inj.
      * rewrite list_lookup_insert_ne by done. by apply (wf_open r Hwf).
    + intros l1 c1 Hc1 Hopen1. apply list_lookup_insert_Some in Hc1 as [(<- & <- & _)|[Hne Hc1]]; [done|].
      by apply (wf_closed r Hwf).
  - simpl. by rewrite length_insert.
  - intros [Hdis Htwice] [Hdis' Htwice'] Hix k l1 Hk. unfold GetSdkByKeyOrNil. simpl. rewrite Hm by done.
    assert (Hix' : forall l1, rg_sdkClientsBySdkKey r !! k = Some l1 <-> _) by (intros; by apply Hix).
    assert (Hown : has_key_of k ((client_keys c).1, key2) -> l1 = l <-> exists id' ks,
      rg_sdkClients r !! id' = Some l1 /\ (if decide (id' = cx_SdkId (cl_sdkCtx c))
        then Some ((client_keys c).1, key2) else view r id') = Some ks /\ has_key_of k ks).
    { intros Hhas. split.
      - intros ->. eexists. eexists. rewrite decide_True by done. done.
      - intros (id' & ks & Hl1 & Hv & Hks). rewrite <- Hview in Hv.
        replace id' with (cx_SdkId (cl_sdkCtx c)) in Hl1; [congruence|].
        eapply (Hdis' _ id' _ ks k Hk); [|exact Hv|exact Hhas|exact Hks]. rewrite Hview. by rewrite decide_True. }
    setoid_rewrite Hview. case_decide as Hk2.
    + rewrite <- Hown by (right; done). split; [by intros [= ->] | by intros ->].
    + case_decide as Hold.
      * split; [done|]. intros (id' & ks & Hl1 & Hv & Hks). exfalso. case_decide as Hid'.
        -- injection Hv as <-. destruct Hks as [Hks|Hks]; [|done].
           change (k = (client_keys c).1) in Hks. apply Hk. rewrite Hks.
           apply (Htwice _ (client_keys c) Hvid). congruence.
        -- apply Hid'. eapply (Hdis id'); [exact Hk|exact Hv|exact Hvid|exact Hks|]. by right.
      * rewrite Hix'. split; intros (id' & ks & Hl1 & Hv & Hks).
        -- exists id'. case_decide as Hid'; [|eauto]. subst id'. eexists. split; [done|]. split; [done|].
           rewrite Hvid in Hv. simplify_eq. destruct Hks; [by left|done].
        -- exists id'. case_decide as Hid'; [|eauto]. subst id'. eexists. split; [done|]. split; [exact Hvid|].
           simplify_eq. destruct Hks; [by left|done].
  - intros Hsound k l1 Hk. unfold GetSdkByKeyOrNil. simpl. rewrite Hm by done. setoid_rewrite Hview.
    case_decide as Hk2; [|case_decide as Hold; [done|]].
    + intros [= <-]. eexists _, _. split; [exact Hl|]. rewrite decide_True by done. split; [done|]. by right.
    + intros (id' & ks & Hl1 & Hv & Hks)%Hsound; [|done]. exists id'. case_decide as Hid'; [|eauto].
      subst id'. eexists. split; [done|]. split; [done|]. rewrite Hvid in Hv. simplify_eq. destruct Hks; [by left|done].
Qed.

Lemma updateKeys_ok config r resets id m ks :
  WF r -> p_SDKs config !! id = Some (Some m) -> view r id = Some ks ->
  exists r', updateKeys config (r, resets) id =
      Ret (r', if decide (ks.1 = m_Key1 m) then resets else resets ++ [id]) /\
    rg_sdkClients r' = rg_sdkClients r /\
    if decide (ks.1 = m_Key1 m)
    then moved id (Some (model_keys m)) (if decide (ks.2 = m_Key2 m) then [] else [id]) r r'
    else r' = r.
Proof.
  intros Hwf Hm Hv. destruct (proj1 (view_is_Some r id Hwf)) as [l Hl]; [eauto|].
  destruct (wf_open r Hwf id l Hl) as (c & Hc & Hopen & Hid).
  pose proof (view_client r id l c Hl Hc) as Hvc. rewrite Hv in Hvc. injection Hvc as ->.
  unfold updateKeys. rewrite Hl, Hm. unfold at_loc. rewrite Hc. simpl.
  pose proof (fun k2 mm => update_moved r id l c k2 mm Hwf Hl Hc) as Hupd.
  unfold client_keys, SdkKeys in *. simpl in *.
  destruct (decide (sdk_Key (cx_SDKConf (cl_sdkCtx c)) = m_Key1 m)) as [Hk1|Hne].
  2:{ rewrite bool_decide_eq_true_2 by done. eauto. }
  rewrite bool_decide_eq_false_2 by tauto. eexists. split; [done|].
  split; [by repeat case_match|]. rewrite Hk1 in *.
  destruct (cx_SecondarySdkKey (cl_sdkCtx c)) as [key2|]; simpl in *.
  - destruct (decide (key2 = m_Key2 m)) as [->|Hk2].
    + rewrite bool_decide_eq_false_2 by tauto. by apply moved_refl.
    + rewrite bool_decide_eq_true_2 by done.
      specialize (Hupd (m_Key2 m) (<[m_Key2 m := l]> (delete key2 (rg_sdkClientsBySdkKey r)))).
      apply Hupd. intros k Hk. repeat case_decide; subst; rewrite ?lookup_insert_eq; try done.
      * by rewrite lookup_insert_ne, lookup_delete_eq by done.
      * by rewrite lookup_insert_ne, lookup_delete_ne by done.
  - destruct (decide ("" = m_Key2 m)) as [Hk2|Hk2].
    + rewrite <- Hk2. rewrite bool_decide_eq_false_2 by tauto. apply moved_refl; [done|].
      rewrite Hv. unfold model_keys. by rewrite <- Hk2.
    + rewrite bool_decide_eq_true_2 by done.
      specialize (Hupd (m_Key2 m) (<[m_Key2 m := l]> (rg_sdkClientsBySdkKey r))).
      apply Hupd. intros k Hk. repeat case_decide; subst; rewrite ?lookup_insert_eq; try done.
      by rewrite lookup_insert_ne by done.
Qed.

(** *** Sequences of moves towards a target *)

(** every mix of two views gives no key to two SDKs: no key moves between SDKs *)
Definition mix_disjoint (v w : string -> option (string * string)) : Prop :=
  forall u, (forall k, u k = v k \/ u k = w k) -> keys_disjoint u.

(** [r'] is [r] with the keys of the SDKs in [ids] replaced by the target's. *)
Record moved_all (target : string -> option (string * string)) (ids pub : list string)
    (r r' : autoRegistrar) : Prop := {
  ma_wf : WF r';
  ma_view : forall k, view r' k = if decide (k ∈ ids) then target k else view r k;
  ma_published : rg_published r' = rg_published r ++ pub;
  ma_options : rg_options r' = rg_options r;
  ma_etag : rg_etag r' = rg_etag r;
  ma_heap : (length (rg_heap r) <= length (rg_heap r'))%nat;
  ma_clients : forall k, k ∉ ids -> rg_sdkClients r' !! k = rg_sdkClients r !! k;
  ma_index : mix_disjoint (view r) target -> index_ok r -> index_ok r';
  ma_sound : index_sound r -> index_sound r'
}.

Lemma moved_all_refl target r : WF r -> moved_all target [] [] r r.
Proof. intros Hwf. split; try done; by rewrite app_nil_r. Qed.

Lemma moved_all_trans target ids1 ids2 pub1 pub2 r1 r2 r3 :
  moved_all target ids1 pub1 r1 r2 -> moved_all target ids2 pub2 r2 r3 ->
  moved_all target (ids1 ++ ids2) (pub1 ++ pub2) r1 r3.
Proof.
  intros H1 H2. split.
  - apply H2.
  - intros k. rewrite (ma_view _ _ _ _ _ H2), (ma_view _ _ _ _ _ H1).
    repeat case_decide; set_solver.
  - by rewrite (ma_published _ _ _ _ _ H2), (ma_published _ _ _ _ _ H1), app_assoc.
  - by rewrite (ma_options _ _ _ _ _ H2), (ma_options _ _ _ _ _ H1).
  - by rewrite (ma_etag _ _ _ _ _ H2), (ma_etag _ _ _ _ _ H1).
  - etrans; [apply (ma_heap _ _ _ _ _ H1)|apply (ma_heap _ _ _ _ _ H2)].
  - intros k Hk. rewrite (ma_clients _ _ _ _ _ H2), (ma_clients _ _ _ _ _ H1); [done|set_solver..].
  - intros Hmix Hix. apply (ma_index _ _ _ _ _ H2); [|by apply (ma_index _ _ _ _ _ H1)].
    intros u Hu. apply Hmix. intros k. destruct (Hu k) as [Hk|Hk]; [|by right].
    rewrite Hk, (ma_view _ _ _ _ _ H1). case_decide; [by right|by left].
  - intros Hs. by apply (ma_sound _ _ _ _ _ H2), (ma_sound _ _ _ _ _ H1).
Qed.

(** only the members of the list of ids matter *)
Lemma moved_all_ids target ids1 ids2 pub r r' :
  moved_all target ids1 pub r r' -> (forall k, k ∈ ids1 <-> k ∈ ids2) -> moved_all target ids2 pub r r'.
Proof.
  intros H Hids. split; try apply H.
  - intros k. rewrite (ma_view _ _ _ _ _ H). specialize (Hids k). repeat case_decide; tauto.
  - intros k Hk. apply (ma_clients _ _ _ _ _ H). by rewrite Hids.
Qed.

Lemma moved_all_one target id pub r r' : moved id (target id) pub r r' -> moved_all target [id] pub r r'.
Proof.
  intros H. split; try apply H.
  - intros k. rewrite (mv_view _ _ _ _ _ H). repeat case_decide; set_solver.
  - intros k Hk. apply (mv_clients _ _ _ _ _ H). set_solver.
  - intros Hmix. apply (mv_index _ _ _ _ _ H).
    + apply Hmix. by left.
    + apply Hmix. intros k. rewrite (mv_view _ _ _ _ _ H). case_decide; [subst; by right|by left].
Qed.

Lemma loop_moved (f : autoRegistrar -> string -> go autoRegistrar) target ids r0 :
  (forall r id, WF r -> id ∈ ids -> view r id = view r0 id ->
    exists r', f r id = Ret r' /\ moved id (target id) [id] r r') ->
  NoDup ids -> WF r0 ->
  exists r', go_fold f r0 ids = Ret r' /\ moved_all target ids ids r0 r'.
Proof.
  intros Hf Hnd Hwf.
  enough (Hgen : forall done r, moved_all target done done r0 r -> (forall id, id ∈ ids -> id ∉ done) ->
    exists r', go_fold f r ids = Ret r' /\ moved_all target (done ++ ids) (done ++ ids) r0 r').
  { apply (Hgen [] r0); [by apply moved_all_refl|set_solver]. }
  induction Hnd as [|id ids Hid Hnd IH]; intros done r Hr Hdone; simpl.
  - rewrite app_nil_r. eauto.
  - destruct (Hf r id) as (r1 & -> & Hmv).
    { apply Hr. } { set_solver. }
    { rewrite (ma_view _ _ _ _ _ Hr). rewrite decide_False by set_solver. done. }
    simpl. rewrite cons_middle, app_assoc. apply IH.
    + intros r2 id2 Hwf2 Hid2. apply Hf; [done|set_solver].
    + eapply moved_all_trans; [exact Hr|by apply moved_all_one].
    + intros k Hk. specialize (Hdone k). set_solver.
Qed.

Definition no_nil_model (config : ProxyConfigModel) : Prop := forall id, p_SDKs config !! id <> Some None.
Definition no_nil_sdk : Prop := forall id, c_SDKs conf !! id <> Some None.

Lemma remote_Some config id ks :
  remote config id = Some ks -> exists m, p_SDKs config !! id = Some (Some m) /\ ks = model_keys m.
Proof.
  unfold remote. destruct (p_SDKs config !! id) as [[m|]|]; simpl; [|done..]. intros [= <-]. eauto.
Qed.

Lemma remote_is_Some config id : no_nil_model config ->
  is_Some (remote config id) <-> is_Some (p_SDKs config !! id).
Proof.
  intros Hn. unfold remote. specialize (Hn id).
  destruct (p_SDKs config !! id) as [[m|]|]; simpl; [|done|]; split; intros [? ?]; eauto; done.
Qed.

Lemma delete_loop target ids r :
  (forall id, id ∈ ids -> is_Some (view r id) /\ target id = None) -> NoDup ids -> WF r ->
  exists r', deleteSdkClients ids r = Ret r' /\ moved_all target ids ids r r'.
Proof.
  intros Hids Hnd Hwf. apply loop_moved; [|done|done].
  intros r1 id Hwf1 Hid Hv. destruct (Hids id Hid) as [Hs ->].
  apply deleteSdkClient_moved; [done|by rewrite Hv].
Qed.

Lemma reset_loop now config ids r :
  no_nil_sdk -> (forall id, id ∈ ids -> is_Some (view r id) /\ is_Some (remote config id)) -> NoDup ids -> WF r ->
  exists r', resetSdkClients now config ids r = Ret r' /\ moved_all (remote config) ids ids r r'.
Proof.
  intros Hconf Hids Hnd Hwf. apply loop_moved; [|done|done].
  intros r1 id Hwf1 Hid Hv. destruct (Hids id Hid) as [Hs [ks Hr]].
  rewrite Hr. apply remote_Some in Hr as (m & Hm & ->).
  apply resetSdkClient_moved; [done|apply Hconf|done|by rewrite Hv].
Qed.

Lemma add_loop now config ids r :
  no_nil_sdk -> (forall id, id ∈ ids -> view r id = None /\ is_Some (remote config id)) -> NoDup ids -> WF r ->
  exists r', addSdkClients now config ids r = Ret r' /\ moved_all (remote config) ids ids r r'.
Proof.
  intros Hconf Hids Hnd Hwf. apply loop_moved; [|done|done].
  intros r1 id Hwf1 Hid Hv. destruct (Hids id Hid) as [Hs [ks Hr]].
  rewrite Hr. apply remote_Some in Hr as (m & Hm & ->).
  apply addSdkClient_moved; [done|apply Hconf|done|by rewrite Hv].
Qed.

(** the SDKs of a list whose primary key is kept, those whose secondary key is
    not, and those whose primary key changes *)
Definition same_primary config (r : autoRegistrar) (id : string) : Prop :=
  fst <$> view r id = fst <$> remote config id.

#[local] Instance same_primary_dec config r id : Decision (same_primary config r id).
Proof. unfold same_primary. apply _. Defined.

Lemma update_loop config ids r0 :
  (forall id, id ∈ ids -> is_Some (view r0 id) /\ is_Some (remote config id)) -> NoDup ids -> WF r0 ->
  exists r', go_fold (updateKeys config) (r0, []) ids =
      Ret (r', filter (fun id => ~ same_primary config r0 id) ids) /\
    moved_all (remote config) (filter (same_primary config r0) ids)
      (filter (fun id => view r0 id <> remote config id) (filter (same_primary config r0) ids)) r0 r' /\
    rg_sdkClients r' = rg_sdkClients r0.
Proof.
  intros Hids Hnd Hwf.
  enough (Hgen : forall done r resets pub, moved_all (remote config) done pub r0 r ->
    rg_sdkClients r = rg_sdkClients r0 -> (forall id, id ∈ ids -> id ∉ done) ->
    exists r', go_fold (updateKeys config) (r, resets) ids =
      Ret (r', resets ++ filter (fun id => ~ same_primary config r0 id) ids) /\
    moved_all (remote config) (done ++ filter (same_primary config r0) ids)
      (pub ++ filter (fun id => view r0 id <> remote config id) (filter (same_primary config r0) ids)) r0 r' /\
    rg_sdkClients r' = rg_sdkClients r0).
  { apply (Hgen [] r0 [] []); [by apply moved_all_refl|done|set_solver]. }
  induction Hnd as [|id ids Hid Hnd IH]; intros done r resets pub Hr Hsame0 Hdone; cbn [go_fold].
  - rewrite !app_nil_r. eauto.
  - rewrite !filter_cons. destruct (Hids id) as [[ks Hks] [ks' Hks']]; [set_solver|].
    pose proof Hks' as (m & Hm & ->)%remote_Some.
    assert (Hv : view r id = Some ks).
    { rewrite (ma_view _ _ _ _ _ Hr), decide_False by set_solver. done. }
    destruct (updateKeys_ok config r resets id m ks (ma_wf _ _ _ _ _ Hr) Hm Hv) as (r1 & -> & Hcl1 & Hmv).
    assert (Hsame : same_primary config r0 id <-> ks.1 = m_Key1 m).
    { unfold same_primary. rewrite Hks, Hks'. simpl. split; congruence. }
    cbn [mbind go_bind]. destruct (decide (ks.1 = m_Key1 m)) as [Hk1|Hk1].
    + rewrite (decide_False (P := ~ same_primary config r0 id)) by tauto.
      rewrite (decide_True (P := same_primary config r0 id)) by tauto. rewrite filter_cons, Hks, Hks'.
      assert (Hmv' : moved_all (remote config) [id] (if decide (ks.2 = m_Key2 m) then [] else [id]) r r1).
      { apply moved_all_one. by rewrite Hks'. }
      pose proof (moved_all_trans _ _ _ _ _ _ _ _ Hr Hmv') as Hr1.
      destruct (IH ltac:(set_solver) (done ++ [id]) r1 resets _ Hr1) as (r' & Hgo & Hr' & Hcl').
      { congruence. } { intros k Hk. specialize (Hdone k). set_solver. }
      exists r'. split; [done|]. split; [|done]. rewrite <- !app_assoc in Hr'. simpl in Hr'.
      replace (if decide (Some ks <> Some (model_keys m)) then id :: _ else _)
        with ((if decide (ks.2 = m_Key2 m) then [] else [id]) ++
          filter (fun id => view r0 id <> remote config id) (filter (same_primary config r0) ids)); [done|].
      destruct ks as [k1 k2]. unfold model_keys. simpl in *. repeat case_decide; naive_solver.
    + rewrite (decide_True (P := ~ same_primary config r0 id)) by tauto.
      rewrite (decide_False (P := same_primary config r0 id)) by tauto.
      subst r1. destruct (IH ltac:(set_solver) done r (resets ++ [id]) pub Hr) as (r' & Hgo & Hr').
      { done. } { intros k Hk. apply Hdone. set_solver. }
      exists r'. split; [|done]. rewrite Hgo, <- app_assoc. done.
Qed.

(** the SDKs a new profile touches: those whose keys differ, and all that stay
    when the options differ *)
Definition changed (config : ProxyConfigModel) (r : autoRegistrar) (id : string) : Prop :=
  view r id <> remote config id \/
  (rg_options r <> p_Options config /\ is_Some (view r id) /\ is_Some (remote config id)).

#[local] Instance OptionsModel_eq_dec : EqDecision OptionsModel.
Proof. solve_decision. Defined.

Lemma shouldUpdateOptions_spec o r : shouldUpdateOptions o r = true <-> rg_options r <> o.
Proof.
  unfold shouldUpdateOptions. destruct (rg_options r) as [p1 g1], o as [p2 g2]. simpl.
  rewrite orb_true_iff, negb_true_iff, Z.eqb_neq, bool_decide_eq_true. split; [naive_solver|].
  intros Hne. destruct (decide (p1 = p2)), (decide (g1 = g2)); naive_solver.
Qed.

Lemma view_set_options o r id : view (set_options o r) id = view r id.
Proof. done. Qed.

Lemma WF_set_options o r : WF r -> WF (set_options o r).
Proof. intros Hwf. split; apply Hwf. Qed.

(** the middle part of a refresh: the SDKs that stay *)
Lemma remaining_ok now config ids r :
  no_nil_sdk -> (forall id, id ∈ ids -> is_Some (view r id) /\ is_Some (remote config id)) -> NoDup ids -> WF r ->
  exists r' pub, (if shouldUpdateOptions (p_Options config) r then
       resetSdkClients now config ids (set_options (p_Options config) r)
     else
       st <-? go_fold (updateKeys config) (r, []) ids;
       resetSdkClients now config st.2 st.1) = Ret r' /\
    moved_all (remote config) ids pub (set_options (p_Options config) r) r' /\
    NoDup pub /\ (forall id, id ∈ pub <-> id ∈ ids /\ changed config r id) /\
    (forall id, id ∉ pub -> rg_sdkClients r' !! id = rg_sdkClients r !! id).
Proof.
  intros Hconf Hids Hnd Hwf. destruct (shouldUpdateOptions _ r) eqn:Hopt.
  - apply shouldUpdateOptions_spec in Hopt.
    destruct (reset_loop now config ids (set_options (p_Options config) r)) as (r' & -> & Hr');
      [done|done|done|by apply WF_set_options|].
    exists r', ids. split; [done|]. split; [done|]. split; [done|]. split.
    + intros id. unfold changed. naive_solver.
    + intros id Hid. by apply (ma_clients _ _ _ _ _ Hr').
  - assert (Ho : rg_options r = p_Options config).
    { destruct (decide (rg_options r = p_Options config)); [done|].
      rewrite (proj2 (shouldUpdateOptions_spec _ r)) in Hopt by done. done. }
    destruct (update_loop config ids r Hids Hnd Hwf) as (r1 & -> & Hr1 & Hcl1). cbn [mbind go_bind fst snd].
    destruct (reset_loop now config (filter (fun id => ~ same_primary config r id) ids) r1) as (r2 & -> & Hr2).
    + done.
    + intros id [Hs Hid]%list_elem_of_filter. split; [|by apply Hids].
      rewrite (ma_view _ _ _ _ _ Hr1). rewrite decide_False by (rewrite list_elem_of_filter; tauto).
      by apply Hids.
    + by apply NoDup_filter.
    + apply Hr1.
    + eexists. eexists. split; [done|].
      pose proof (moved_all_trans _ _ _ _ _ _ _ _ Hr1 Hr2) as Hr.
      assert (Hset : set_options (p_Options config) r = r) by (rewrite <- Ho; by destruct r).
      rewrite Hset. split; [|split; [|split]].
      * apply (moved_all_ids _ _ _ _ _ _ Hr). intros k. rewrite elem_of_app, !list_elem_of_filter.
        destruct (decide (same_primary config r k)); tauto.
      * apply NoDup_app. split_and!; [by do 2 apply NoDup_filter| |by apply NoDup_filter].
        intros id Hid. rewrite !list_elem_of_filter in *. tauto.
      * intros id. rewrite elem_of_app, !list_elem_of_filter. unfold changed.
        assert (~ same_primary config r id -> view r id <> remote config id) by (intros Hn Heq; apply Hn;
          unfold same_primary; by rewrite Heq).
        destruct (decide (same_primary config r id)); tauto.
      * intros id. rewrite elem_of_app. intros Hid. rewrite (ma_clients _ _ _ _ _ Hr2), Hcl1; [done|tauto].
Qed.

Lemma changed_cases config r id :
  changed config r id <->
  (is_Some (view r id) /\ ~ is_Some (remote config id)) \/
  ((is_Some (remote config id) /\ is_Some (view r id)) /\ changed config r id) \/
  (is_Some (remote config id) /\ ~ is_Some (view r id)).
Proof.
  unfold changed. destruct (view r id) as [ks|], (remote config id) as [ks'|];
    rewrite ?is_Some_alt; simpl; naive_solver.
Qed.

(** the three parts of a refresh together: [D] removed, [M] staying, [A] added *)
Lemma moved_thrice config r r1 r2 r3 D M A pub :
  let target := remote config in
  moved_all target D D r r1 -> moved_all target M pub (set_options (p_Options config) r1) r2 ->
  moved_all target A A r2 r3 ->
  (forall id, id ∈ D <-> is_Some (view r id) /\ ~ is_Some (target id)) ->
  (forall id, id ∈ M <-> is_Some (target id) /\ is_Some (view r id)) ->
  (forall id, id ∈ A <-> is_Some (target id) /\ ~ is_Some (view r id)) ->
  WF r3 /\ (forall id, view r3 id = target id) /\ rg_published r3 = rg_published r ++ D ++ pub ++ A /\
  rg_options r3 = p_Options config /\ rg_etag r3 = rg_etag r /\
  (mix_disjoint (view r) target -> index_ok r -> index_ok r3) /\
  (length (rg_heap r) <= length (rg_heap r3))%nat /\ (index_sound r -> index_sound r3).
Proof.
  intros target H1 H2 H3 HD HM HA. split; [apply H3|]. split; [|split; [|split; [|split; [|split; [|split]]]]].
  - intros id. rewrite (ma_view _ _ _ _ _ H3), (ma_view _ _ _ _ _ H2), view_set_options, (ma_view _ _ _ _ _ H1).
    repeat case_decide; try done. rewrite HA, HM, HD in *. rewrite <- !not_eq_None_Some in *.
    destruct (view r id), (target id); naive_solver.
  - rewrite (ma_published _ _ _ _ _ H3), (ma_published _ _ _ _ _ H2). simpl.
    rewrite (ma_published _ _ _ _ _ H1). by rewrite <- !app_assoc.
  - rewrite (ma_options _ _ _ _ _ H3). by rewrite (ma_options _ _ _ _ _ H2).
  - rewrite (ma_etag _ _ _ _ _ H3), (ma_etag _ _ _ _ _ H2). apply H1.
  - intros Hmix Hix. assert (Hsub : forall v, (forall k, v k = view r k \/ v k = target k) -> mix_disjoint v target).
    { intros v Hv u Hu. apply Hmix. intros k. destruct (Hu k) as [->|]; [apply Hv|by right]. }
    apply (ma_index _ _ _ _ _ H3), (ma_index _ _ _ _ _ H2), (ma_index _ _ _ _ _ H1); try done; apply Hsub; intros k.
    + rewrite (ma_view _ _ _ _ _ H2), view_set_options, (ma_view _ _ _ _ _ H1). repeat case_decide; auto.
    + rewrite view_set_options, (ma_view _ _ _ _ _ H1). case_decide; auto.
  - etrans; [apply H1|]. etrans; [apply (ma_heap _ _ _ _ _ H2)|apply H3].
  - intros Hs. apply (ma_sound _ _ _ _ _ H3), (ma_sound _ _ _ _ _ H2). by apply (ma_sound _ _ _ _ _ H1).
Qed.

Lemma applyConfig_ok now config r :
  no_nil_sdk -> no_nil_model config -> WF r ->
  exists r' pub, applyConfig now config r = Ret r' /\ WF r' /\ (forall id, view r' id = remote config id) /\
    rg_published r' = rg_published r ++ pub /\ NoDup pub /\ (forall id, id ∈ pub <-> changed config r id) /\
    rg_options r' = p_Options config /\ rg_etag r' = rg_etag r /\
    (mix_disjoint (view r) (remote config) -> index_ok r -> index_ok r') /\
    (forall id, id ∉ pub -> rg_sdkClients r' !! id = rg_sdkClients r !! id) /\
    (length (rg_heap r) <= length (rg_heap r'))%nat /\ (index_sound r -> index_sound r').
Proof.
  intros Hconf Hmod Hwf. unfold applyConfig. rewrite KeysOfSyncMap_eq.
  set (existing := KeysOfMap (rg_sdkClients r)). set (remotes := KeysOfMap (p_SDKs config)).
  set (D := Except existing remotes). set (A := Except remotes existing). set (M := Except remotes A).
  assert (Hex : forall id, id ∈ existing <-> is_Some (view r id)).
  { intros id. unfold existing. by rewrite elem_of_KeysOfMap, view_is_Some. }
  assert (Hre : forall id, id ∈ remotes <-> is_Some (remote config id)).
  { intros id. unfold remotes. by rewrite elem_of_KeysOfMap, remote_is_Some. }
  assert (HD : forall id, id ∈ D <-> is_Some (view r id) /\ ~ is_Some (remote config id)).
  { intros id. unfold D. by rewrite elem_of_Except, Hex, Hre. }
  assert (HA : forall id, id ∈ A <-> is_Some (remote config id) /\ ~ is_Some (view r id)).
  { intros id. unfold A. by rewrite elem_of_Except, Hex, Hre. }
  assert (HM : forall id, id ∈ M <-> is_Some (remote config id) /\ is_Some (view r id)).
  { intros id. unfold M. rewrite elem_of_Except, HA, Hre. destruct (decide (is_Some (view r id))); tauto. }
  assert (Hnd : NoDup D /\ NoDup A /\ NoDup M).
  { assert (NoDup existing /\ NoDup remotes) as [] by (split; apply NoDup_KeysOfMap).
    unfold D, A, M. split_and!; auto with proxy. }
  destruct Hnd as (HndD & HndA & HndM).
  destruct (delete_loop (remote config) D r) as (r1 & -> & Hr1); [|done|done|]; cbn [mbind go_bind].
  { intros id [Hin Hnot]%HD. split; [done|by apply eq_None_not_Some]. }
  assert (Hv1 : forall id, is_Some (remote config id) -> view r1 id = view r id).
  { intros id Hid. rewrite (ma_view _ _ _ _ _ Hr1), decide_False; [done|]. rewrite HD. tauto. }
  destruct (remaining_ok now config M r1) as (r2 & pub & -> & Hr2 & Hndp & Hpub & Hcl2); [done| |done|apply Hr1|];
    cbn [mbind go_bind].
  { intros id [Hin1 Hin2]%HM. by rewrite Hv1. }
  destruct (add_loop now config A r2) as (r3 & -> & Hr3); [done| |done|apply Hr2|].
  { intros id [Hin Hnot]%HA. split; [|done]. rewrite (ma_view _ _ _ _ _ Hr2), decide_False by (rewrite HM; tauto).
    rewrite view_set_options, Hv1 by done. by apply eq_None_not_Some. }
  exists r3, (D ++ pub ++ A).
  destruct (moved_thrice config r r1 r2 r3 D M A pub Hr1 Hr2 Hr3 HD HM HA) as (Hwf3 & Hv3 & Hp3 & Ho3 & He3 & Hi3 & Hl3 & Hs3).
  split_and!; try done.
  - rewrite !NoDup_app. split_and!; try done.
    + intros id. rewrite elem_of_app, Hpub, HM, HD, HA. tauto.
    + intros id. rewrite Hpub, HM, HA. tauto.
  - intros id. rewrite !elem_of_app, Hpub, HM, HD, HA, (changed_cases config r id).
    assert (Hch : is_Some (remote config id) -> changed config r1 id <-> changed config r id).
    { intros Hid. unfold changed. by rewrite (ma_options _ _ _ _ _ Hr1), (Hv1 id). }
    tauto.
  - intros id. rewrite !elem_of_app. intros Hid.
    rewrite (ma_clients _ _ _ _ _ Hr3), Hcl2, (ma_clients _ _ _ _ _ Hr1); tauto.
Qed.

(** *** Loading a profile leaves the clients alone *)

(** the parts of a registrar that hold its clients *)
Definition clients_of (r : autoRegistrar) :=
  (rg_sdkClients r, rg_sdkClientsBySdkKey r, rg_heap r, rg_statusReporter r, rg_published r, rg_options r).

Lemma parseConfig_clients body etag r : clients_of (parseConfig body etag r).2 = clients_of r.
Proof. unfold parseConfig. by repeat case_match. Qed.

Lemma writeCache_clients c e r : clients_of (writeCache c e r).2 = clients_of r.
Proof. unfold writeCache. by repeat case_match. Qed.

Lemma getConfig_clients do r : clients_of (getConfig do r).2 = clients_of r.
Proof.
  unfold getConfig. destruct (readCache r) as [etag cached].
  assert (Hw : forall f fe, clients_of (let '(_, r) := writeCache f fe r in parseConfig f fe r).2 = clients_of r).
  { intros f fe. pose proof (writeCache_clients f fe r) as Hw. destruct (writeCache f fe r) as [e r1].
    by rewrite parseConfig_clients. }
  destruct (goff_Enabled _), cached; simpl; rewrite ?parseConfig_clients; try done;
    destruct (fetchConfig do etag) as [[[f|] fe]|e|]; simpl; rewrite ?parseConfig_clients; auto.
Qed.

Lemma clients_of_same r r1 : clients_of r1 = clients_of r ->
  (WF r -> WF r1) /\ (forall id, view r1 id = view r id) /\ rg_published r1 = rg_published r /\
  rg_options r1 = rg_options r /\ (index_ok r -> index_ok r1) /\ (index_sound r -> index_sound r1).
Proof.
  destruct r, r1. unfold clients_of. simpl. intros [= -> -> -> -> -> ->].
  split; [|by split_and!]. intros Hwf. split; apply Hwf.
Qed.

(** *** The first profile *)
Lemma initSdk_moved now r id m :
  WF r -> c_SDKs conf !! id <> Some None -> view r id = None ->
  exists r', initSdk now r (id, Some m) = Ret r' /\ moved id (Some (model_keys m)) [] r r'.
Proof.
  intros Hwf Hconf Hnone.
  destruct (buildSdkConfig_ok id m r Hconf) as (sc & Hsc & Hkey).
  unfold initSdk. rewrite Hsc. simpl.
  destruct (RegisterSdk_dom now id sc (rg_statusReporter r)) as (s & -> & Hdom). simpl.
  destruct (buildSdkClient_ok now id sc m (set_reporter s r) Hkey) as (c & s' & Hb & Hdom' & Hkeys & Hopen & Hid).
  rewrite Hb. match goal with |- context [store_key _ ?l (store_key _ ?l ?x)] =>
    destruct (store_keys_shape (m_Key1 m) (m_Key2 m) l x) as (mm & -> & Hmm) end.
  assert (Hcl : rg_sdkClients r !! id = None).
  { destruct (rg_sdkClients r !! id) eqn:Hl; [|done].
    destruct (proj2 (view_is_Some r id Hwf)) as [? ?]; [eauto|congruence]. }
  eexists. split; [done|]. rewrite <- Hkeys. apply install_moved; simpl; try done.
  - rewrite length_app. simpl. lia.
  - by rewrite lookup_app_r, Nat.sub_diag by lia.
  - intros l1 Hl1 _. by rewrite lookup_app_l by lia.
  - intros l1 c1 Hl1. congruence.
  - by rewrite Hdom', <- (wf_status r Hwf).
  - by rewrite app_nil_r.
  - intros k Hk. rewrite Hmm by done. simpl. rewrite Hkeys, Hnone. done.
Qed.

Lemma init_loop now config l r :
  no_nil_sdk -> no_nil_model config -> (forall id m, (id, m) ∈ l -> p_SDKs config !! id = Some m) -> NoDup l.*1 ->
  (forall id, id ∈ l.*1 -> view r id = None) -> WF r ->
  exists r', go_fold (initSdk now) r l = Ret r' /\ moved_all (remote config) l.*1 [] r r'.
Proof.
  intros Hconf Hmod. revert r. induction l as [|[id m] l IH]; intros r Hl Hnd Hnone Hwf.
  - exists r. split; [done|]. by apply moved_all_refl.
  - apply NoDup_cons in Hnd as [Hid Hnd]. pose proof (Hl id m ltac:(set_solver)) as Hm.
    destruct m as [m|]; [|by destruct (Hmod id)].
    destruct (initSdk_moved now r id m) as (r1 & Hr1 & Hmv); [done|apply Hconf|apply Hnone; set_solver|].
    assert (Hrem : remote config id = Some (model_keys m)) by (unfold remote; by rewrite Hm).
    destruct (IH r1) as (r' & Hr' & Hall).
    + set_solver.
    + done.
    + intros k Hk. rewrite (mv_view _ _ _ _ _ Hmv), decide_False by set_solver. set_solver.
    + apply Hmv.
    + exists r'. cbn [go_fold]. rewrite Hr1. split; [done|].
      rewrite fmap_cons. change [] with ([] ++ [] : list string).
      apply (moved_all_trans _ [id] l.*1 [] [] r r1 r'); [|done].
      apply moved_all_one. by rewrite Hrem.
Qed.

Definition empty_registrar (cache : option XC) (s : reporter) : autoRegistrar :=
  {| rg_options := zero_OptionsModel; rg_etag := "initial"; rg_sdkClients := ∅; rg_sdkClientsBySdkKey := ∅;
     rg_cache := cache; rg_statusReporter := s; rg_heap := []; rg_published := [] |}.

Lemma empty_WF cache s : st_SDKs (rp_status s) = ∅ -> WF (empty_registrar cache s).
Proof. intros Hs. split; simpl; [done..|]. by rewrite Hs, !dom_empty_L. Qed.

Lemma keys_disjoint_sub u w : keys_disjoint w -> (forall k, u k = None \/ u k = w k) -> keys_disjoint u.
Proof.
  intros [Hd Ht] Hu. split.
  - intros id1 id2 ks1 ks2 k Hk H1 H2. apply Hd; [done|..].
    + destruct (Hu id1); congruence.
    + destruct (Hu id2); congruence.
  - intros id ks Hid. apply (Ht id). destruct (Hu id); congruence.
Qed.

Lemma newAutoRegistrar_ok now do cache s config r1 :
  no_nil_sdk -> no_nil_model config -> st_SDKs (rp_status s) = ∅ ->
  getConfig do (empty_registrar cache s) = (Ret (Some config), r1) ->
  exists r, newAutoRegistrar now do cache s = Ret r /\ WF r /\ (forall id, view r id = remote config id) /\
    rg_published r = [] /\ rg_options r = p_Options config /\
    (keys_disjoint (remote config) -> index_ok r) /\ index_sound r.
Proof.
  intros Hconf Hmod Hs Hget. unfold newAutoRegistrar. fold (empty_registrar cache s). rewrite Hget.
  pose proof (getConfig_clients do (empty_registrar cache s)) as Hc. rewrite Hget in Hc. simpl in Hc.
  destruct (clients_of_same _ _ Hc) as (Hwf & Hview & Hpub & _ & Hix & Hsound).
  destruct (init_loop now config (range (p_SDKs config)) (set_options (p_Options config) r1))
    as (r & -> & Hr); [done|done| |apply range_NoDup_fst| | |].
  - intros id m Hin. by apply elem_of_range.
  - intros id _. rewrite view_set_options, Hview. done.
  - apply WF_set_options, Hwf. by apply empty_WF.
  - exists r. split; [done|]. split; [apply Hr|]. split; [|split; [|split; [|split]]].
    + intros id. rewrite (ma_view _ _ _ _ _ Hr), view_set_options, Hview. case_decide as Hid; [done|].
      rewrite elem_of_range_keys, <- remote_is_Some in Hid by done.
      symmetry. by apply eq_None_not_Some.
    + rewrite (ma_published _ _ _ _ _ Hr). simpl. by rewrite Hpub.
    + apply Hr.
    + intros Hdis. apply (ma_index _ _ _ _ _ Hr).
      * intros u Hu. apply (keys_disjoint_sub u (remote config)); [done|]. intros k.
        destruct (Hu k) as [->|]; [left; by rewrite view_set_options, Hview|by right].
      * apply Hix. intros k l Hk. split; [done|]. by intros (id & ks & ? & _).
    + apply (ma_sound _ _ _ _ _ Hr), Hsound. intros k l Hk. done.
Qed.

(** *** Closing *)
Lemma close_entry_ok r id loc c :
  rg_heap r !! loc = Some c -> cl_closed c = false ->
  exists c', cl_closed c' = true /\
    close_entry r (id, loc) = Ret (on_sdkClients (delete id) (on_heap <[loc := c']> r)).
Proof.
  intros Hc Hopen. destruct (Close_ok c Hopen) as (c' & Hclose & Hclosed & _). exists c'. split; [done|].
  unfold close_entry, close_at, at_loc. simpl. rewrite Hc. simpl. by rewrite Hclose.
Qed.

Lemma close_loop l r :
  NoDup l.*2 -> (forall id loc, (id, loc) ∈ l -> exists c, rg_heap r !! loc = Some c /\ cl_closed c = false) ->
  exists r', go_fold close_entry r l = Ret r' /\
    (forall k, rg_sdkClients r' !! k = if decide (k ∈ l.*1) then None else rg_sdkClients r !! k) /\
    (forall loc c, rg_heap r' !! loc = Some c -> cl_closed c = false ->
       (loc ∉ l.*2) /\ rg_heap r !! loc = Some c).
Proof.
  revert r. induction l as [|[id loc] l IH]; intros r Hnd Hl.
  - exists r. split; [done|]. split; [done|]. intros loc c Hc Ho. split; [set_solver|done].
  - apply NoDup_cons in Hnd as [Hloc Hnd]. destruct (Hl id loc) as (c & Hc & Hopen); [set_solver|].
    destruct (close_entry_ok r id loc c Hc Hopen) as (c' & Hclosed & Hclose).
    cbn [go_fold]. rewrite Hclose. cbn [mbind go_bind].
    pose proof (lookup_lt_Some _ _ _ Hc) as Hlt.
    edestruct (IH (on_sdkClients (delete id) (on_heap <[loc:=c']> r))) as (r' & -> & Hcl & Hheap); [done| |].
    { intros id1 loc1 Hin. simpl. rewrite list_lookup_insert_ne; [apply (Hl id1); set_solver|].
      intros ->. apply Hloc. apply list_elem_of_fmap. by exists (id1, loc1). }
    exists r'. split; [done|]. split.
    + intros k. rewrite Hcl. simpl. destruct (decide (k = id)) as [->|Hk].
      * rewrite lookup_delete_eq. repeat case_decide; set_solver.
      * rewrite lookup_delete_ne by done. repeat case_decide; set_solver.
    + intros loc1 c1 Hc1 Ho1. destruct (Hheap loc1 c1 Hc1 Ho1) as [Hnot Hin]. simpl in *.
      apply list_lookup_insert_Some in Hin as [(-> & -> & _)|[Hne Hin]]; [congruence|].
      split; [set_solver|done].
Qed.
End registrar.

(** A way to see that no key moves between SDKs: every key tells its SDK. *)
Lemma mix_disjoint_owner (own : string -> string) (v w : string -> option (string * string)) :
  (forall id ks, v id = Some ks \/ w id = Some ks ->
     (forall k, k <> "" -> has_key_of k ks -> own k = id) /\ (ks.1 = ks.2 -> ks.1 = "")) ->
  mix_disjoint v w.
Proof.
  intros Hown u Hu. assert (Hks : forall id ks, u id = Some ks -> v id = Some ks \/ w id = Some ks).
  { intros id ks Hid. destruct (Hu id) as [Hx|Hx]; rewrite Hid in Hx; auto. }
  split.
  - intros id1 id2 ks1 ks2 k Hk H1 H2 Hk1 Hk2.
    rewrite <- (proj1 (Hown id1 ks1 (Hks _ _ H1)) k Hk Hk1). by apply (Hown id2 ks2 (Hks _ _ H2)).
  - intros id ks Hid. by apply (Hown id ks (Hks _ _ Hid)).
Qed.

Definition keys_owned (own : string -> string) (id : string) (m : option SdkConfigModel) : Prop :=
  match m with
  | None => False
  | Some m => (m_Key1 m = "" \/ own (m_Key1 m) = id) /\ (m_Key2 m = "" \/ own (m_Key2 m) = id) /\
              (m_Key1 m <> m_Key2 m \/ m_Key1 m = "")
  end.
#[export] Instance keys_owned_dec own id m : Decision (keys_owned own id m).
Proof. destruct m; unfold keys_owned; apply _. Defined.

Lemma remote_owned own config id ks :
  map_Forall (keys_owned own) (p_SDKs config) -> remote config id = Some ks ->
  (forall k, k <> "" -> has_key_of k ks -> own k = id) /\ (ks.1 = ks.2 -> ks.1 = "").
Proof.
  intros Hall Hid. apply remote_Some in Hid as (m & Hm & ->). destruct (Hall id _ Hm) as (H1 & H2 & H3).
  split; [|simpl; tauto]. intros k Hk [->| ->]; simpl in *; tauto.
Qed.

Lemma owned_no_nil own config : map_Forall (keys_owned own) (p_SDKs config) -> no_nil_model config.
Proof. intros Hall id Hid. by apply (Hall id None). Qed.

(** A configuration with a profile, and a small world for the witnesses: no
    files, no external cache, and two profiles that differ in every way. *)
Module Toy.
Definition os : OS :=
  {| os_getenv := fun _ => ""; os_stat := fun _ => StatNotExist ""; os_read_file := fun _ => Fail "";
     filepath_eval_symlinks := fun _ => Fail ""; runtime_goos := "linux" |}.
Definition xc : ExternalCache :=
  {| XC := gmap string string;
     xc_get := fun c k => match c !! k with Some v => Ret v | None => Fail "not found" end;
     xc_set := fun c k v => (Ret tt, <[k := v]> c) |}.
Definition options n := {| o_PollInterval := n; o_DataGovernance := "global" |}.
Definition sdk k1 k2 := Some {| m_Key1 := k1; m_Key2 := k2 |}.
(** from the first profile to the second, [a] is removed, [b] rotates its
    primary key, [c] gets a secondary key, [d] is added, and [e] stays *)
Definition profile1 : ProxyConfigModel :=
  {| p_SDKs := {["a" := sdk "a1" ""; "b" := sdk "b1" "b2"; "c" := sdk "c1" ""; "e" := sdk "e1" "e2"]};
     p_Options := options 60 |}.
Definition profile2 : ProxyConfigModel :=
  {| p_SDKs := {["b" := sdk "b2" "b3"; "c" := sdk "c1" "c2"; "d" := sdk "d1" ""; "e" := sdk "e1" "e2"]};
     p_Options := options 60 |}.
Definition own (k : string) : string := Str.take 1 k.
(** [profile1] with the keys of two SDKs exchanged *)
Definition profile_swap : ProxyConfigModel :=
  {| p_SDKs := {["b" := sdk "c1" ""; "c" := sdk "b1" ""]}; p_Options := options 60 |}.
Definition pj : ProfileJSON :=
  {| profile_unmarshal := fun s => if decide (s = "profile1") then Ret profile1
       else if decide (s = "profile2") then Ret profile2
       else if decide (s = "swap") then Ret profile_swap
       else Fail "invalid character" |}.
Definition conf : Config := on_c_Profile (fun p => {| profile_Key := "k"; profile_Secret := "s";
  profile_BaseUrl := profile_BaseUrl p; profile_PollInterval := 0; profile_WebhookSignatureValidFor := 300;
  profile_WebhookSigningKey := ""; profile_Log := profile_Log p; profile_SDKs := profile_SDKs p |}) zero_Config.
Definition served (etag body : string) : http_request -> go http_response :=
  fun _ => Ret {| hr_StatusCode := 200; hr_ETag := etag; hr_Body := Ret body |}.
Definition not_modified : http_request -> go http_response :=
  fun _ => Ret {| hr_StatusCode := 304; hr_ETag := ""; hr_Body := Ret "" |}.
Definition answered (do : http_request -> go http_response) : Prop :=
  do = not_modified \/ exists etag body, do = served etag body.
End Toy.

Module ToyInstances.
#[export] Existing Instance toy_hash.
#[export] Existing Instance toy_format.
#[export] Existing Instance Toy.os.
#[export] Existing Instance canonical_range.
#[export] Existing Instance Toy.xc.
#[export] Existing Instance Toy.pj.
End ToyInstances.
Import ToyInstances.

Definition toy_registrar : autoRegistrar :=
  ret_or (empty_registrar None NewEmptyReporter)
    (newAutoRegistrar Toy.conf NewNullLogger 0 (Toy.served "1" "profile1") (Some ∅) NewEmptyReporter).

Lemma toy_no_nil : no_nil_sdk Toy.conf.
Proof. done. Qed.
Lemma toy_owned1 : map_Forall (keys_owned Toy.own) (p_SDKs Toy.profile1).
Proof. apply (bool_decide_unpack _). by vm_compute. Qed.
Lemma toy_owned2 : map_Forall (keys_owned Toy.own) (p_SDKs Toy.profile2).
Proof. apply (bool_decide_unpack _). by vm_compute. Qed.

Lemma toy_registrar_ok :
  WF toy_registrar /\ (forall id, view toy_registrar id = remote Toy.profile1 id) /\ index_ok toy_registrar.
Proof.
  destruct (newAutoRegistrar_ok Toy.conf NewNullLogger 0 (Toy.served "1" "profile1") (Some ∅) NewEmptyReporter
    Toy.profile1 (getConfig Toy.conf (Toy.served "1" "profile1") (empty_registrar (Some ∅) NewEmptyReporter)).2)
    as (r & Hr & Hwf & Hv & _ & _ & Hix & _).
  - apply toy_no_nil.
  - apply (owned_no_nil Toy.own), toy_owned1.
  - done.
  - reflexivity.
  - assert (toy_registrar = r) as -> by (unfold toy_registrar; by rewrite Hr).
    split; [done|]. split; [done|]. apply Hix.
    assert (Howned : forall id ks, remote Toy.profile1 id = Some ks ->
      (forall k, k <> "" -> has_key_of k ks -> Toy.own k = id) /\ (ks.1 = ks.2 -> ks.1 = "")).
    { intros id ks Hks. apply (remote_owned Toy.own Toy.profile1 id ks toy_owned1 Hks). }
    refine (mix_disjoint_owner Toy.own (remote Toy.profile1) (remote Toy.profile1) _ (remote Toy.profile1) _).
    + intros id ks [Hks|Hks]; apply (Howned id ks Hks).
    + intros k. left. reflexivity.
Qed.
