(* ===== verification/Refresh.v ===== *)
(** The refreshes of the automatic registrar ([Registrar]): what one does, what
    any sequence of them leaves, and the cached form of a profile. The goroutine
    that performs them, and closing while it runs, are in [Lifecycle]. *)
From S2P Require Import Prelude Go Utils Model Log ConfigTypes Config Status Store Sdk Registrar.
Open Scope Z_scope.
Import ToyInstances.

(** ** Runs *)
Section runs.
Context `{xxh : XXHash, cf : ConfigCatFormat, os : OS, mr : MapRange, xc : ExternalCache, pj : ProfileJSON}.
Context (conf : Config) (log : logger).

(** The code outside the proxy returns, with a result or an error, and profiles
    hold no null SDK. *)
Record well_behaved (dos : list (http_request -> go http_response)) : Prop := {
  wb_http : forall do q, do ∈ dos -> do q <> Panic;
  wb_body : forall do q resp, do ∈ dos -> do q = Ret resp -> hr_Body resp <> Panic;
  wb_json : forall body, profile_unmarshal body <> Panic;
  wb_cache : forall c k, xc_get c k <> Panic;
  wb_models : forall body config, profile_unmarshal body = Ret config -> no_nil_model config;
  wb_sdks : no_nil_sdk conf
}.

Lemma parseConfig_outcome body etag r :
  profile_unmarshal body <> Panic ->
  (exists err, (parseConfig body etag r).1 = Fail err) \/ (parseConfig body etag r).1 = Ret None \/
  exists config, (parseConfig body etag r).1 = Ret (Some config) /\ profile_unmarshal body = Ret config.
Proof.
  intros Hp. unfold parseConfig. case_match; [by auto|].
  destruct (profile_unmarshal body) as [config|err|]; simpl; [right; right; eauto|eauto|done].
Qed.

Lemma getConfig_outcome dos do r :
  well_behaved dos -> do ∈ dos ->
  (exists err, (getConfig conf do r).1 = Fail err) \/ (getConfig conf do r).1 = Ret None \/
  exists config body, (getConfig conf do r).1 = Ret (Some config) /\ profile_unmarshal body = Ret config.
Proof.
  intros Hwb Hdo.
  assert (Hp : forall body etag r, (exists err, (parseConfig body etag r).1 = Fail err) \/
    (parseConfig body etag r).1 = Ret None \/
    exists config body', (parseConfig body etag r).1 = Ret (Some config) /\ profile_unmarshal body' = Ret config).
  { intros body etag r0. destruct (parseConfig_outcome body etag r0 (wb_json _ Hwb body)) as [?|[?|(c & ? & ?)]];
      eauto 8. }
  unfold getConfig. destruct (readCache conf r) as [etag cached] eqn:Hc.
  assert (Hcached : cached <> Panic).
  { unfold readCache in Hc. destruct (rg_cache r) as [c|]; [|by simplify_eq].
    pose proof (wb_cache _ Hwb c (cacheKey conf)) as Hx. destruct (xc_get _ _) as [v| |]; [|by simplify_eq|done].
    case_bool_decide; [by simplify_eq|]. unfold cacheSegmentsFromBytes in Hc. repeat case_match; by simplify_eq. }
  assert (Hfetch : fetchConfig conf do etag <> Panic).
  { unfold fetchConfig. pose proof (wb_http _ Hwb do (profile_request conf etag) Hdo) as Hh.
    pose proof (fun resp => wb_body _ Hwb do (profile_request conf etag) resp Hdo) as Hb.
    destruct (do _) as [resp| |]; [|done..]. specialize (Hb resp eq_refl).
    repeat case_match; congruence. }
  destruct (goff_Enabled _), cached as [config|err|]; simpl; try done; eauto;
    destruct (fetchConfig conf do etag) as [[[f|] fe]|e|]; simpl; eauto; try done;
    destruct (writeCache conf f fe r) as [w r1]; auto.
Qed.

(** what every registrar that a run can reach satisfies *)
Definition serves_a_profile (r : autoRegistrar) : Prop :=
  WF r /\ exists config body, profile_unmarshal body = Ret config /\ forall id, view r id = remote config id.

Lemma refresh_serves dos now do r :
  well_behaved dos -> do ∈ dos -> serves_a_profile r ->
  exists r', refreshConfig conf log now do r = Ret r' /\ serves_a_profile r'.
Proof.
  intros Hwb Hdo [Hwf (config0 & body0 & Hb0 & Hv0)].
  pose proof (getConfig_clients conf do r) as Hc. unfold refreshConfig.
  pose proof (getConfig_outcome dos do r Hwb Hdo) as Hout.
  destruct (getConfig conf do r) as [m r1]. simpl in *.
  destruct (clients_of_same _ _ Hc) as (Hwf1 & Hv1 & _).
  assert (Hsame : serves_a_profile r1).
  { split; [auto|]. exists config0, body0. split; [done|]. intros id. by rewrite Hv1. }
  destruct Hout as [[err ->]|[->|(config & body & -> & Hb)]]; [eauto|eauto|].
  destruct (applyConfig_ok conf log now config r1) as (r' & pub & -> & Hwf' & Hv' & _);
    [apply Hwb|by eapply wb_models|auto|].
  exists r'. split; [done|]. split; [done|]. eauto.
Qed.

Lemma refreshes_serve dos l r :
  well_behaved dos -> l.*2 ⊆ dos -> serves_a_profile r ->
  exists r', go_fold (fun r nd => refreshConfig conf log nd.1 nd.2 r) r l = Ret r' /\ serves_a_profile r'.
Proof.
  intros Hwb. revert r. induction l as [|[now do] l IH]; intros r Hl Hr; [eauto|].
  destruct (refresh_serves dos now do r) as (r1 & Hr1 & Hs1); [done|apply Hl; left|done|].
  cbn [go_fold fst snd]. rewrite Hr1. apply IH; [|done]. intros d Hd. apply Hl. by right.
Qed.
End runs.

(** ** Properties *)

(** what a refresh with a new profile does, the common part of the properties
    below *)
Lemma refresh_effect `{XXHash, ConfigCatFormat, OS, MapRange, ExternalCache, ProfileJSON}
    conf log now do r r1 config :
  no_nil_sdk conf -> no_nil_model config -> WF r -> getConfig conf do r = (Ret (Some config), r1) ->
  exists r' pub, refreshConfig conf log now do r = Ret r' /\ WF r' /\
    (forall id, view r' id = remote config id) /\
    rg_published r' = rg_published r ++ pub /\ NoDup pub /\ (forall id, id ∈ pub <-> changed config r id) /\
    rg_options r' = p_Options config /\
    (mix_disjoint (view r) (remote config) -> index_ok r -> index_ok r') /\ (index_sound r -> index_sound r').
Proof.
  intros Hconf Hmodels Hwf Hget.
  pose proof (getConfig_clients conf do r) as Hc. unfold refreshConfig. rewrite Hget in *. simpl in Hc.
  destruct (clients_of_same _ _ Hc) as (Hwf1 & Hv1 & Hpub1 & Hopt1 & Hix1 & Hsound1).
  destruct (applyConfig_ok conf log now config r1) as (r' & pub & Hr' & Hwf' & Hv & Hpub & Hnd & Hch & Hopt & _ & Hix & _ & _ & Hsound);
    [done|done|auto|].
  exists r', pub. split_and!; try done; [by rewrite Hpub, Hpub1| | |auto].
  - intros id. rewrite Hch. unfold changed. by rewrite Hv1, Hopt1.
  - intros Hdis Hindex. apply Hix; [|auto]. intros u Hu. apply Hdis. intros id.
    destruct (Hu id) as [->|]; [left; apply Hv1|by right].
Qed.

(** C3: when a refresh obtains a new profile, the registrar ends up serving
    exactly the SDKs of that profile, each with a client that is open and has
    the profile's keys; the clients of removed and replaced SDKs are closed and
    no other client is; the status reporter knows exactly the served SDKs; and
    the ids published are those of the SDKs whose keys appeared, disappeared or
    changed, or of every SDK that stays when the global options changed, each
    once. *)
Theorem refresh_serves_profile `{XXHash, ConfigCatFormat, OS, MapRange, ExternalCache, ProfileJSON}
    (conf : Config) (log : logger) (now : Z) (do : http_request -> go http_response) (r r1 : autoRegistrar)
    (config : ProxyConfigModel)
    (Hconf : no_nil_sdk conf) (Hmodels : no_nil_model config) (Hwf : WF r)
    (Hget : getConfig conf do r = (Ret (Some config), r1)) :
  exists r' pub, refreshConfig conf log now do r = Ret r' /\ WF r' /\
    (forall id, view r' id = remote config id) /\
    rg_published r' = rg_published r ++ pub /\ NoDup pub /\ (forall id, id ∈ pub <-> changed config r id) /\
    rg_options r' = p_Options config.
Proof.
  destruct (refresh_effect conf log now do r r1 config Hconf Hmodels Hwf Hget)
    as (r' & pub & ? & ? & ? & ? & ? & ? & ? & _). by exists r', pub.
Qed.

Lemma refresh_serves_profile_witness :
  exists r' pub, refreshConfig Toy.conf NewNullLogger 9 (Toy.served "2" "profile2") toy_registrar = Ret r' /\
    rg_published r' = pub /\ "d" ∈ pub /\ view r' "b" = Some ("b2", "b3").
Proof.
  destruct (refresh_serves_profile Toy.conf NewNullLogger 9 (Toy.served "2" "profile2") toy_registrar
    (getConfig Toy.conf (Toy.served "2" "profile2") toy_registrar).2 Toy.profile2)
    as (r' & pub & Hr & _ & Hv & Hpub & _ & Hch & _).
  - apply toy_no_nil.
  - apply (owned_no_nil Toy.own), toy_owned2.
  - apply toy_registrar_ok.
  - vm_compute. reflexivity.
  - exists r', pub. split; [exact Hr|]. split; [exact Hpub|]. split.
    + apply Hch. left. vm_compute. discriminate.
    + rewrite Hv. vm_compute. reflexivity.
Defined.

(** As long as no SDK key moves from one SDK to another, the index by SDK
    key stays exact through a refresh: a key leads to a client exactly when it
    is a key of an SDK of the new profile, and then to that SDK's client. *)
Theorem refresh_keeps_index `{XXHash, ConfigCatFormat, OS, MapRange, ExternalCache, ProfileJSON}
    (conf : Config) (log : logger) (now : Z) (do : http_request -> go http_response) (r r1 : autoRegistrar)
    (config : ProxyConfigModel)
    (Hconf : no_nil_sdk conf) (Hmodels : no_nil_model config) (Hwf : WF r)
    (Hget : getConfig conf do r = (Ret (Some config), r1))
    (Hdis : mix_disjoint (view r) (remote config)) (Hindex : index_ok r) :
  exists r', refreshConfig conf log now do r = Ret r' /\
    forall k l, k <> "" -> GetSdkByKeyOrNil k r' = Some l <->
      exists id ks, GetSdkOrNil id r' = Some l /\ remote config id = Some ks /\ has_key_of k ks.
Proof.
  destruct (refresh_effect conf log now do r r1 config Hconf Hmodels Hwf Hget)
    as (r' & pub & Hr' & _ & Hv & _ & _ & _ & _ & Hix & _).
  exists r'. split; [done|]. intros k l Hk. rewrite (Hix Hdis Hindex k l Hk). by setoid_rewrite Hv.
Qed.

Lemma refresh_keeps_index_witness :
  exists r', refreshConfig Toy.conf NewNullLogger 9 (Toy.served "2" "profile2") toy_registrar = Ret r' /\
    GetSdkByKeyOrNil "b1" r' = None.
Proof.
  destruct (refresh_keeps_index Toy.conf NewNullLogger 9 (Toy.served "2" "profile2") toy_registrar
    (getConfig Toy.conf (Toy.served "2" "profile2") toy_registrar).2 Toy.profile2) as (r' & Hr & Hix).
  - apply toy_no_nil.
  - apply (owned_no_nil Toy.own), toy_owned2.
  - apply toy_registrar_ok.
  - vm_compute. reflexivity.
  - apply (mix_disjoint_owner Toy.own). intros id ks [Hks|Hks].
    + apply (remote_owned Toy.own Toy.profile1); [exact toy_owned1|]. by rewrite <- (proj1 (proj2 toy_registrar_ok)).
    + apply (remote_owned Toy.own Toy.profile2); [exact toy_owned2|exact Hks].
  - apply toy_registrar_ok.
  - exists r'. split; [exact Hr|]. destruct (GetSdkByKeyOrNil "b1" r') as [l|] eqn:Hl; [|reflexivity].
    apply Hix in Hl as (id & ks & _ & Hks & Hb1); [|discriminate].
    pose proof (proj1 (remote_owned Toy.own Toy.profile2 id ks toy_owned2 Hks) "b1" ltac:(discriminate) Hb1) as Hid.
    rewrite <- Hid in Hks. vm_compute in Hks. injection Hks as <-. by destruct Hb1.
Defined.

(** the exchanges of the small world *)
Lemma toy_well_behaved dos : Forall Toy.answered dos -> well_behaved Toy.conf dos.
Proof.
  intros Hdos. rewrite Forall_forall in Hdos. split.
  - intros do q [->|(etag & body & ->)]%Hdos; discriminate.
  - intros do q resp [->|(etag & body & ->)]%Hdos; intros [= <-]; discriminate.
  - intros body. cbv [profile_unmarshal Toy.pj]. repeat case_decide; discriminate.
  - intros c k. simpl. case_match; discriminate.
  - intros body config. cbv [profile_unmarshal Toy.pj]. repeat case_decide; try done; intros <-%(inj Ret).
    + apply (owned_no_nil Toy.own), toy_owned1.
    + apply (owned_no_nil Toy.own), toy_owned2.
    + apply (owned_no_nil (fun k => if decide (k = "c1") then "b" else "c")). apply (bool_decide_unpack _). by vm_compute.
  - apply toy_no_nil.
Qed.

(** A registrar that started with a profile keeps serving one through every
    sequence of refreshes, whatever the endpoint and the cache answer: its
    clients are those of a profile that was parsed, its map and heap stay
    well-formed, and no refresh panics. *)
Theorem refreshes_keep_serving `{XXHash, ConfigCatFormat, OS, MapRange, ExternalCache, ProfileJSON}
    (conf : Config) (log : logger) (now : Z) (do0 : http_request -> go http_response)
    (dos : list (Z * (http_request -> go http_response))) (cache : option XC) (s : reporter)
    (config : ProxyConfigModel) (r1 : autoRegistrar)
    (Hwb : well_behaved conf (do0 :: dos.*2)) (Hs : st_SDKs (rp_status s) = ∅)
    (Hget : getConfig conf do0 (empty_registrar cache s) = (Ret (Some config), r1)) :
  exists r0 r, newAutoRegistrar conf log now do0 cache s = Ret r0 /\
    (forall id, view r0 id = remote config id) /\
    go_fold (fun r nd => refreshConfig conf log nd.1 nd.2 r) r0 dos = Ret r /\ serves_a_profile r.
Proof.
  pose proof (getConfig_outcome conf (do0 :: dos.*2) do0 (empty_registrar cache s) Hwb ltac:(left)) as Hout.
  rewrite Hget in Hout. destruct Hout as [[err ?]|[?|(config' & body & [= <-] & Hb)]]; [done..|].
  destruct (newAutoRegistrar_ok conf log now do0 cache s config r1) as (r0 & Hr0 & Hwf0 & Hv0 & _);
    [apply Hwb|by eapply wb_models|done|done|].
  destruct (refreshes_serve conf log (do0 :: dos.*2) dos r0) as (r & Hr & Hserve); [done|by right|by split; eauto|].
  eauto 8.
Qed.

Lemma refreshes_keep_serving_witness :
  exists r0 r, newAutoRegistrar Toy.conf NewNullLogger 0 (Toy.served "1" "profile1") (Some ∅) NewEmptyReporter = Ret r0 /\
    go_fold (fun r nd => refreshConfig Toy.conf NewNullLogger nd.1 nd.2 r) r0
      [(1, Toy.not_modified); (2, Toy.served "2" "broken"); (3, Toy.served "3" "profile2")] = Ret r /\
    serves_a_profile r.
Proof.
  destruct (refreshes_keep_serving Toy.conf NewNullLogger 0 (Toy.served "1" "profile1")
    [(1, Toy.not_modified); (2, Toy.served "2" "broken"); (3, Toy.served "3" "profile2")] (Some ∅) NewEmptyReporter
    Toy.profile1 (getConfig Toy.conf (Toy.served "1" "profile1") (empty_registrar (Some ∅) NewEmptyReporter)).2)
    as (r0 & r & Hr0 & _ & Hr & Hserve).
  - apply toy_well_behaved. repeat apply Forall_cons_2; unfold Toy.answered; eauto.
  - reflexivity.
  - reflexivity.
  - exists r0, r. split; [exact Hr0|]. split; [exact Hr|exact Hserve].
Defined.

Lemma segments_Some b config etag :
  cacheSegmentsFromBytes b = Ret (config, etag) <->
  b = cacheSegmentsToBytes etag config /\ etag <> "" /\ config <> "" /\
  newline ∉ String.list_ascii_of_string etag.
Proof.
  unfold cacheSegmentsFromBytes, cacheSegmentsToBytes. split.
  - destruct (Str.cut newline b) as [[e c]|] eqn:Hcut; [|done].
    apply cut_Some in Hcut as [-> He]. repeat case_bool_decide; [done..|]. by intros [= <- <-].
  - intros (-> & He & Hc & Hnl). unfold str1. rewrite str_app_cons, str_app_nil_l.
    rewrite (proj2 (cut_Some newline _ etag config)) by done.
    by rewrite !bool_decide_eq_false_2.
Qed.

(** C27: the cached form of a profile decodes to what was encoded, for every
    non-empty ETag without a line break and every non-empty document, and it is
    the only form that decodes to it: whatever decodes successfully is the
    encoding of the result. *)
Theorem cacheSegments_roundtrip (etag config : string) :
  (cacheSegmentsFromBytes (cacheSegmentsToBytes etag config) = Ret (config, etag) <->
   etag <> "" /\ config <> "" /\ newline ∉ String.list_ascii_of_string etag) /\
  (forall b, cacheSegmentsFromBytes b = Ret (config, etag) -> b = cacheSegmentsToBytes etag config) /\
  (forall b, cacheSegmentsFromBytes b <> Panic).
Proof.
  split; [rewrite segments_Some; tauto|]. split; [by intros b [-> _]%segments_Some|].
  intros b. unfold cacheSegmentsFromBytes. repeat case_match; done.
Qed.

(** C23: under global offline mode the registrar never uses the network: loading
    the profile does not depend on what the endpoint would answer, and every SDK
    configuration it builds is offline. *)
Theorem offline_registrar_is_offline `{XXHash, ConfigCatFormat, OS, MapRange, ExternalCache, ProfileJSON}
    (conf : Config) (log : logger) (r : autoRegistrar) (do1 do2 : http_request -> go http_response) (now : Z)
    (sdkId : string) (m : option SdkConfigModel) (sc : SDKConfig)
    (Hoffline : goff_Enabled (c_GlobalOfflineConfig conf) = true) :
  getConfig conf do1 r = getConfig conf do2 r /\
  refreshConfig conf log now do1 r = refreshConfig conf log now do2 r /\
  (buildSdkConfig conf sdkId m r = Ret sc -> off_Enabled (sdk_Offline sc) = true).
Proof.
  assert (Hget : getConfig conf do1 r = getConfig conf do2 r) by (unfold getConfig; by rewrite Hoffline).
  split; [done|]. split; [unfold refreshConfig; by rewrite Hget|].
  unfold buildSdkConfig. rewrite Hoffline. destruct m as [m|]; [|done].
  intros (sc' & _ & [= <-])%go_bind_ret. destruct (off_Enabled (sdk_Offline sc')) eqn:Ho; [done|reflexivity].
Qed.

Lemma offline_registrar_is_offline_witness :
  let conf := on_c_GlobalOfflineConfig (fun g => {| goff_Enabled := true; goff_CachePollInterval := 5;
                                                    goff_Log := goff_Log g |}) Toy.conf in
  getConfig conf (Toy.served "1" "profile1") toy_registrar = getConfig conf Toy.not_modified toy_registrar.
Proof.
  intros conf. eapply (offline_registrar_is_offline conf NewNullLogger toy_registrar
    (Toy.served "1" "profile1") Toy.not_modified 0 "a" None zero_SDKConfig). reflexivity.
Defined.

(** C28: a fetched document goes to the cache before it is parsed. When a 200
    response carries a document that does not parse, the refresh fails and the
    cache keeps the bad document under the response's ETag; as long as the
    endpoint then answers 304, every further load fails as well, and the
    previous good document is gone from the cache. (The cache is assumed to
    return what was written.) *)
Theorem bad_profile_poisons_cache `{XXHash, ConfigCatFormat, OS, MapRange, ExternalCache, ProfileJSON}
    (conf : Config) (r : autoRegistrar) (c c' : XC) (etag body err : string)
    (do1 do2 : http_request -> go http_response)
    (Honline : goff_Enabled (c_GlobalOfflineConfig conf) = false)
    (Hcache : rg_cache r = Some c)
    (Hget : xc_get c (cacheKey conf) <> Panic)
    (Hset : xc_set c (cacheKey conf) (cacheSegmentsToBytes etag body) = (Ret tt, c'))
    (Hwritten : xc_get c' (cacheKey conf) = Ret (cacheSegmentsToBytes etag body))
    (Hetag : etag <> "" /\ (newline ∉ String.list_ascii_of_string etag) /\ Str.HasPrefix etag "W/" = false /\
             etag <> rg_etag r)
    (Hbody : body <> "") (Hbad : profile_unmarshal body = Fail err)
    (H200 : forall q, do1 q = Ret {| hr_StatusCode := 200; hr_ETag := etag; hr_Body := Ret body |})
    (H304 : forall q, exists e b, do2 q = Ret {| hr_StatusCode := 304; hr_ETag := e; hr_Body := b |}) :
  let fails := Fail ("error during parsing proxy profile: " +:+ err) in
  let r' := set_cache (Some c') r in
  getConfig conf do1 r = (fails, r') /\ getConfig conf do2 r' = (fails, r').
Proof.
  intros fails r'. destruct Hetag as (He & Hnl & Hw & Hne).
  assert (Hparse : forall r0, rg_etag r0 = rg_etag r -> parseConfig body etag r0 = (fails, r0)).
  { intros r0 Hr0. unfold parseConfig. rewrite bool_decide_eq_false_2 by congruence. by rewrite Hbad. }
  split.
  - unfold getConfig. rewrite Honline. destruct (readCache conf r) as [cetag cached] eqn:Hread.
    assert (Hnp : cached <> Panic).
    { unfold readCache in Hread. rewrite Hcache in Hread.
      destruct (xc_get c (cacheKey conf)) as [v|e|]; [|by simplify_eq|done].
      case_bool_decide; [by simplify_eq|]. unfold cacheSegmentsFromBytes in Hread. repeat case_match; by simplify_eq. }
    unfold fetchConfig. rewrite H200. simpl. rewrite Hw. unfold writeCache. rewrite Hcache, Hset.
    destruct cached; [| |done]; by apply Hparse.
  - unfold getConfig. rewrite Honline. unfold readCache. simpl. rewrite Hwritten.
    rewrite bool_decide_eq_false_2 by (unfold cacheSegmentsToBytes; by destruct etag).
    rewrite (proj2 (segments_Some _ body etag)) by done.
    unfold fetchConfig. destruct (H304 (profile_request conf etag)) as (e & b & ->). simpl. by apply Hparse.
Qed.

Lemma bad_profile_poisons_cache_witness :
  let bad := "1" +:+ str1 newline +:+ "broken" in
  getConfig Toy.conf Toy.not_modified
    (set_cache (Some {["configcat-proxy-profile-k" := bad]}) (empty_registrar (Some ∅) NewEmptyReporter)) =
  (Fail "error during parsing proxy profile: invalid character",
   set_cache (Some {["configcat-proxy-profile-k" := bad]}) (empty_registrar (Some ∅) NewEmptyReporter)).
Proof.
  intros bad. refine (proj2 (bad_profile_poisons_cache Toy.conf (empty_registrar (Some ∅) NewEmptyReporter)
    ∅ {["configcat-proxy-profile-k" := bad]} "1" "broken" "invalid character"
    (Toy.served "1" "broken") Toy.not_modified _ _ _ _ _ _ _ _ _ _)).
  - reflexivity.
  - reflexivity.
  - discriminate.
  - reflexivity.
  - reflexivity.
  - split_and!; [discriminate|vm_compute; set_solver|reflexivity|discriminate].
  - discriminate.
  - reflexivity.
  - intros q. reflexivity.
  - intros q. eexists. eexists. reflexivity.
Defined.

(** Closing the registrar closes every client it ever made that was still
    open, once each, and leaves both maps empty. *)
Theorem Close_closes_every_client `{XXHash, ConfigCatFormat, OS, MapRange, ExternalCache, ProfileJSON}
    (r : autoRegistrar) (Hwf : WF r) :
  exists r', Close_registrar r = Ret r' /\ rg_sdkClients r' = ∅ /\ rg_sdkClientsBySdkKey r' = ∅ /\
    Forall (fun c => cl_closed c = true) (rg_heap r').
Proof.
  destruct (close_loop (range (rg_sdkClients r)) r) as (r' & Hr' & Hcl & Hheap).
  - rewrite range_perm. apply NoDup_fmap_2_strong; [|apply NoDup_map_to_list].
    intros [id1 l1] [id2 l2] Hin1%elem_of_map_to_list Hin2%elem_of_map_to_list Heq. simpl in Heq. subst l2.
    f_equal. by eapply wf_inj.
  - intros id l Hin%elem_of_range. destruct (wf_open r Hwf id l Hin) as (c & ? & ? & _). eauto.
  - unfold Close_registrar. rewrite Hr'. eexists. split; [done|]. split; [|split; [done|]].
    + apply map_empty. intros k. simpl. rewrite Hcl. case_decide as Hk; [done|].
      rewrite elem_of_range_keys in Hk. by apply eq_None_not_Some.
    + apply Forall_lookup. intros l c Hc. simpl in Hc. destruct (cl_closed c) eqn:Ho; [done|].
      destruct (Hheap l c Hc Ho) as [Hnot Hin]. exfalso. apply Hnot.
      pose proof (wf_closed r Hwf l c Hin Ho) as Hl.
      apply list_elem_of_fmap. exists (cx_SdkId (cl_sdkCtx c), l). split; [done|]. by apply elem_of_range.
Qed.

Lemma Close_closes_every_client_witness :
  exists r', Close_registrar toy_registrar = Ret r' /\ rg_sdkClients r' = ∅.
Proof.
  destruct (Close_closes_every_client toy_registrar) as (r' & Hr & Hc & _).
  - apply toy_registrar_ok.
  - exists r'. split; [exact Hr|exact Hc].
Defined.

(** Two SDKs that exchange their keys lose an index entry: the second reset
    deletes the entry the first one just stored. The client of [b], whose key
    is now [c1], is not found by it. *)
Lemma key_swap_loses_index_entry :
  let r' := ret_or toy_registrar
              (refreshConfig Toy.conf NewNullLogger 9 (Toy.served "2" "swap") toy_registrar) in
  (fst <$> view r' "b", fst <$> view r' "c") = (Some "c1", Some "b1") /\
  (GetSdkByKeyOrNil "c1" r' = None \/ GetSdkByKeyOrNil "b1" r' = None).
Proof. vm_compute. split; [reflexivity|]. first [by left | by right]. Qed.

(** [Close] visits the map while the registrar's goroutine may still be in a
    refresh: between closing a client and removing its entry, a refresh that
    removes the same SDK closes the client again, which panics. *)
Lemma close_races_with_refresh `{XXHash, ConfigCatFormat, OS, MapRange, ExternalCache, ProfileJSON}
    (r r1 : autoRegistrar) (id : string) (l : nat) :
  rg_sdkClients r !! id = Some l -> close_at l r = Ret r1 -> deleteSdkClient r1 id = Panic.
Proof.
  intros Hl. unfold close_at, at_loc. destruct (rg_heap r !! l) as [c|] eqn:Hc; [|done].
  simpl. unfold Close at 1. destruct (cl_closed c); [done|]. intros [= <-].
  unfold deleteSdkClient. simpl. rewrite Hl. unfold close_at, at_loc. simpl.
  pose proof (lookup_lt_Some _ _ _ Hc) as Hlt.
  rewrite list_lookup_insert_eq by done. simpl.
  match goal with |- context [delete_keys_of ?c0 ?r0] =>
    destruct (delete_keys_shape c0 r0) as (m & -> & _) end.
  simpl. by rewrite list_lookup_insert_eq by done.
Qed.
