(* ===== verification/Lifecycle.v ===== *)
(** [sdk/sdk_auto_registrar.go]: the life of the automatic registrar, its
    goroutine ([run]), the callers of [Refresh], and [Close]. A refresh is taken
    one SDK at a time and [Close] one client at a time, so that they interleave;
    [Refresh] and [Registrar] say what a whole refresh does. Closing a client
    is one step ([Ready] shows that it returns), and the publisher takes every id
    until it is closed ([Delivery] shows when it does not). *)
From S2P Require Import Prelude Go Utils Model Log ConfigTypes Config Status Store Sdk Watch Registrar Refresh.
Open Scope Z_scope.
Import ToyInstances.

Section lifecycle.
Context `{xxh : XXHash, cf : ConfigCatFormat, os : OS, mr : MapRange, xc : ExternalCache, pj : ProfileJSON}.
Context (conf : Config) (log : logger).

(** ** The goroutine *)

(** [sdk/sdk_auto_registrar.go:154-171] run: in its [select], in one of the four
    loops of a refresh with the SDKs that are left for it and for the later ones,
    or gone *)
Inductive run_pc :=
| RSelect
| RDelete (now : Z) (config : ProxyConfigModel) (ids remainingKeys toAddKeys : list string)
| RUpdate (now : Z) (config : ProxyConfigModel) (ids resetKeys toAddKeys : list string)
| RReset (now : Z) (config : ProxyConfigModel) (ids toAddKeys : list string)
| RAdd (now : Z) (config : ProxyConfigModel) (ids : list string)
| RReturned.

(** [sdk/sdk_auto_registrar.go:173-184] refreshConfig, up to its loops *)
Definition begin_refresh (now : Z) (do : http_request -> go http_response) (r : autoRegistrar) :
    go (run_pc * autoRegistrar) :=
  match getConfig conf do r with
  | (Fail _, r) | (Ret None, r) => Ret (RSelect, r)
  | (Panic, _) => Panic
  | (Ret (Some autoConfig), r) =>
      let existingKeys := KeysOfSyncMap (rg_sdkClients r) in
      let remoteKeys := KeysOfMap (p_SDKs autoConfig) in
      let toAddKeys := Except remoteKeys existingKeys in
      let toDeleteKeys := Except existingKeys remoteKeys in
      let remainingKeys := Except remoteKeys toAddKeys in
      Ret (RDelete now autoConfig toDeleteKeys remainingKeys toAddKeys, r)
  end.

(** [sdk/sdk_auto_registrar.go:185-216] refreshConfig, the next SDK of its loop,
    or on to the next loop *)
Definition refresh_next (pc : run_pc) (r : autoRegistrar) : go (run_pc * autoRegistrar) :=
  match pc with
  | RDelete now config (id :: ids) remaining toAdd =>
      r <-? deleteSdkClient r id; Ret (RDelete now config ids remaining toAdd, r)
  | RDelete now config [] remaining toAdd =>
      Ret (if shouldUpdateOptions (p_Options config) r
           then (RReset now config remaining toAdd, set_options (p_Options config) r)
           else (RUpdate now config remaining [] toAdd, r))
  | RUpdate now config (id :: ids) resetKeys toAdd =>
      st <-? updateKeys config (r, resetKeys) id; Ret (RUpdate now config ids st.2 toAdd, st.1)
  | RUpdate now config [] resetKeys toAdd => Ret (RReset now config resetKeys toAdd, r)
  | RReset now config (id :: ids) toAdd =>
      r <-? resetSdkClient conf log now config r id; Ret (RReset now config ids toAdd, r)
  | RReset now config [] toAdd => Ret (RAdd now config toAdd, r)
  | RAdd now config (id :: ids) =>
      r <-? addSdkClient conf log now config r id; Ret (RAdd now config ids, r)
  | RAdd now config [] => Ret (RSelect, r)
  | RSelect | RReturned => Ret (pc, r)
  end.

Definition in_refresh (pc : run_pc) : Prop := match pc with RSelect | RReturned => False | _ => True end.
#[export] Instance in_refresh_dec pc : Decision (in_refresh pc).
Proof. destruct pc; apply _. Defined.

(** ** Closing *)

(** What [Range] of the map of clients has done. It calls its function once for
    each key at most, with a value the key had at some time since it began, and
    it does not leave out a key that was there all the time. *)
Record range_state := {
  ra_held : list (string * nat);   (* the entries the map has had *)
  ra_stable : gset string;         (* the keys that were in it all the time *)
  ra_visited : gset string
}.

(** [sdk/sdk_auto_registrar.go:142-152] Close: not called; with the context
    cancelled; in [Range]; in its function, with a client closed whose entry is
    still there; done *)
Inductive closer :=
| CIdle
| CCancelled
| CRange (ra : range_state)
| CEntry (ra : range_state) (id : string)
| CClosed.

(** [sdk/sdk_auto_registrar.go:30-47] autoRegistrar, with its goroutine and who
    closes it; [au_waiting] counts the callers of [Refresh] that are at their
    send, [au_panicked] says that a goroutine has panicked, which ends the
    process *)
Record auto := {
  au_registrar : autoRegistrar;
  au_waiting : nat;
  au_run : run_pc;
  au_closer : closer;
  au_panicked : bool
}.

(** [sdk/sdk_auto_registrar.go:99] newAutoRegistrar, and [154-160] run up to its
    loop: its ticker *)
Definition start_run (r : autoRegistrar) : auto :=
  {| au_registrar := r; au_waiting := 0; au_run := RSelect; au_closer := CIdle;
     au_panicked := match registrar_run_period (refresh_interval conf) with Ret _ => false | _ => true end |}.

Definition panic (a : auto) : auto :=
  {| au_registrar := au_registrar a; au_waiting := au_waiting a; au_run := au_run a; au_closer := au_closer a;
     au_panicked := true |}.
Definition with_closer (c : closer) (r : autoRegistrar) (a : auto) : auto :=
  {| au_registrar := r; au_waiting := au_waiting a; au_run := au_run a; au_closer := c;
     au_panicked := au_panicked a |}.

(** what [Range] sees of a change of the map *)
Definition range_sees (m : gmap string nat) (ra : range_state) : range_state :=
  {| ra_held := ra_held ra ++ map_to_list m; ra_stable := ra_stable ra ∩ dom m; ra_visited := ra_visited ra |}.
Definition closer_sees (m : gmap string nat) (c : closer) : closer :=
  match c with
  | CRange ra => CRange (range_sees m ra)
  | CEntry ra id => CEntry (range_sees m ra) id
  | _ => c
  end.

Definition set_published (ids : list string) (r : autoRegistrar) : autoRegistrar :=
  {| rg_options := rg_options r; rg_etag := rg_etag r; rg_sdkClients := rg_sdkClients r;
     rg_sdkClientsBySdkKey := rg_sdkClientsBySdkKey r; rg_cache := rg_cache r;
     rg_statusReporter := rg_statusReporter r; rg_heap := rg_heap r; rg_published := ids |}.

(** nothing is published any more once the publisher is closed *)
Definition published_by (c : closer) (r r' : autoRegistrar) : autoRegistrar :=
  match c with CIdle | CCancelled => r' | _ => set_published (rg_published r) r' end.

(** a step of [run] that leaves [waiting] callers *)
Definition run_moves (waiting : nat) (m : go (run_pc * autoRegistrar)) (a : auto) : auto :=
  match m with
  | Ret (pc, r) =>
      {| au_registrar := published_by (au_closer a) (au_registrar a) r; au_waiting := waiting; au_run := pc;
         au_closer := closer_sees (rg_sdkClients r) (au_closer a); au_panicked := false |}
  | _ => panic a
  end.

(** [sdk/sdk_auto_registrar.go:133-140] Refresh: past its check it waits for [run] *)
Definition call_refresh (a : auto) : auto :=
  match au_closer a with
  | CIdle => {| au_registrar := au_registrar a; au_waiting := S (au_waiting a); au_run := au_run a;
                au_closer := au_closer a; au_panicked := au_panicked a |}
  | _ => a
  end.

(** [sdk/sdk_auto_registrar.go:143] Close, the context is cancelled *)
Definition close_cancel (a : auto) : option auto :=
  match au_closer a with CIdle => Some (with_closer CCancelled (au_registrar a) a) | _ => None end.

(** [sdk/sdk_auto_registrar.go:144-145] Close, the publisher, and [Range] begins *)
Definition close_publisher (a : auto) : option auto :=
  let m := rg_sdkClients (au_registrar a) in
  match au_closer a with
  | CCancelled => Some (with_closer (CRange {| ra_held := map_to_list m; ra_stable := dom m; ra_visited := ∅ |})
                          (au_registrar a) a)
  | _ => None
  end.

(** [sdk/sdk_auto_registrar.go:146] Close, the client of an entry *)
Definition close_client (id : string) (l : nat) (a : auto) : option auto :=
  match au_closer a with
  | CRange ra =>
      guard ((id, l) ∈ ra_held ra);; guard (id ∉ ra_visited ra);;
      Some match close_at l (au_registrar a) with
           | Ret r => with_closer (CEntry {| ra_held := ra_held ra; ra_stable := ra_stable ra;
                                             ra_visited := {[id]} ∪ ra_visited ra |} id) r a
           | _ => panic a
           end
  | _ => None
  end.

(** [sdk/sdk_auto_registrar.go:147] Close, its entry *)
Definition close_delete (a : auto) : option auto :=
  match au_closer a with
  | CEntry ra id =>
      let r := on_sdkClients (delete id) (au_registrar a) in
      Some (with_closer (CRange (range_sees (rg_sdkClients r) ra)) r a)
  | _ => None
  end.

(** [sdk/sdk_auto_registrar.go:149-151] Close, after [Range] *)
Definition close_index (a : auto) : option auto :=
  match au_closer a with
  | CRange ra => guard (ra_stable ra ⊆ ra_visited ra);;
                 Some (with_closer CClosed (on_bySdkKey (fun _ => ∅) (au_registrar a)) a)
  | _ => None
  end.

(** ** Steps *)
Inductive label :=
| CallRefresh                                                    (* a webhook calls Refresh *)
| Tick (now : Z) (do : http_request -> go http_response)         (* run hears the ticker *)
| TakeRefresh (now : Z) (do : http_request -> go http_response)  (* run takes a Refresh call *)
| Work                                                           (* run goes on with its refresh *)
| Return                                                         (* run returns *)
| Cancel | ClosePublisher | CloseClient (id : string) (l : nat) | DeleteEntry | ClearIndex.

(** [sdk/sdk_auto_registrar.go:161-170] run: what its [select] takes, a refresh
    under way, or the end *)
Definition run_step (l : label) (a : auto) : option auto :=
  match l with
  | Tick now do =>
      match au_run a with
      | RSelect => Some (run_moves (au_waiting a) (begin_refresh now do (au_registrar a)) a)
      | _ => None
      end
  | TakeRefresh now do =>
      match au_run a, au_waiting a with
      | RSelect, S n => Some (run_moves n (begin_refresh now do (au_registrar a)) a)
      | _, _ => None
      end
  | Work => guard (in_refresh (au_run a));;
            Some (run_moves (au_waiting a) (refresh_next (au_run a) (au_registrar a)) a)
  | Return =>
      match au_run a, au_closer a with
      | RSelect, CIdle => None
      | RSelect, _ => Some {| au_registrar := au_registrar a; au_waiting := au_waiting a; au_run := RReturned;
                              au_closer := au_closer a; au_panicked := au_panicked a |}
      | _, _ => None
      end
  | _ => None
  end.

(** [sdk/sdk_auto_registrar.go:133-171] Refresh, Close and run: one step; none
    after a panic *)
Definition life_step (l : label) (a : auto) : option auto :=
  guard (au_panicked a = false);;
  match l with
  | CallRefresh => Some (call_refresh a)
  | Cancel => close_cancel a
  | ClosePublisher => close_publisher a
  | CloseClient id loc => close_client id loc a
  | DeleteEntry => close_delete a
  | ClearIndex => close_index a
  | _ => run_step l a
  end.

(** ** Specification *)

(** what is left of a refresh, as one function *)
Definition rest (pc : run_pc) (r : autoRegistrar) : go autoRegistrar :=
  match pc with
  | RSelect | RReturned => Ret r
  | RDelete now config ids remaining toAdd =>
      r <-? deleteSdkClients ids r;
      r <-? (if shouldUpdateOptions (p_Options config) r then
               resetSdkClients conf log now config remaining (set_options (p_Options config) r)
             else
               st <-? go_fold (updateKeys config) (r, []) remaining;
               resetSdkClients conf log now config st.2 st.1);
      addSdkClients conf log now config toAdd r
  | RUpdate now config ids resetKeys toAdd =>
      st <-? go_fold (updateKeys config) (r, resetKeys) ids;
      r <-? resetSdkClients conf log now config st.2 st.1;
      addSdkClients conf log now config toAdd r
  | RReset now config ids toAdd =>
      r <-? resetSdkClients conf log now config ids r; addSdkClients conf log now config toAdd r
  | RAdd now config ids => addSdkClients conf log now config ids r
  end.

(** how many steps are left of it, at most *)
Definition steps_left (pc : run_pc) : nat :=
  match pc with
  | RSelect | RReturned => 0
  | RDelete _ _ ids remaining toAdd => length ids + 2 * length remaining + length toAdd + 4
  | RUpdate _ _ ids resetKeys toAdd => 2 * length ids + length resetKeys + length toAdd + 3
  | RReset _ _ ids toAdd => length ids + length toAdd + 2
  | RAdd _ _ ids => length ids + 1
  end.

(** the map holds exactly the open clients *)
Definition owns (r : autoRegistrar) : Prop :=
  (forall id l, rg_sdkClients r !! id = Some l ->
     exists c, rg_heap r !! l = Some c /\ cl_closed c = false /\ cx_SdkId (cl_sdkCtx c) = id) /\
  (forall l c, rg_heap r !! l = Some c -> cl_closed c = false ->
     rg_sdkClients r !! cx_SdkId (cl_sdkCtx c) = Some l).

(** the labels of [Close] *)
Definition closing (l : label) : Prop :=
  match l with Cancel | ClosePublisher | CloseClient _ _ | DeleteEntry | ClearIndex => True | _ => False end.

(** no refresh begins *)
Definition calm (l : label) : Prop := match l with Tick _ _ | TakeRefresh _ _ => False | _ => True end.

(** the exchanges of the refreshes of a run *)
Definition exchanges (ls : list label) : list (http_request -> go http_response) :=
  omap (fun l => match l with Tick _ do | TakeRefresh _ do => Some do | _ => None end) ls.

(** ** A refresh in steps is a refresh *)
Lemma go_bind_assoc {A B C} (m : go A) (f : A -> go B) (g : B -> go C) :
  (y <-? (x <-? m; f x); g y) = (x <-? m; y <-? f x; g y).
Proof. by destruct m. Qed.

Lemma begin_rest now do r : refreshConfig conf log now do r = st <-? begin_refresh now do r; rest st.1 st.2.
Proof. unfold refreshConfig, begin_refresh. by destruct (getConfig conf do r) as [[[config|]| |] r1]. Qed.

Lemma next_rest pc r : in_refresh pc -> rest pc r = st <-? refresh_next pc r; rest st.1 st.2.
Proof.
  destruct pc as [|now config [|id ids] rem add|now config [|id ids] resets add|now config [|id ids] add|now config [|id ids]|];
    intros Hpc; try done; cbn [rest refresh_next].
  - unfold deleteSdkClients. cbn [go_fold mbind go_bind]. by destruct (shouldUpdateOptions _ _); cbn; rewrite ?go_bind_assoc.
  - unfold deleteSdkClients. cbn [go_fold]. by rewrite !go_bind_assoc.
  - cbn [go_fold]. rewrite !go_bind_assoc. by destruct (updateKeys config (r, resets) id) as [[]| |].
  - unfold resetSdkClients. cbn [go_fold]. by rewrite !go_bind_assoc.
  - unfold addSdkClients. cbn [go_fold]. by rewrite !go_bind_assoc.
Qed.

Lemma updateKeys_resets config r resets id st :
  updateKeys config (r, resets) id = Ret st -> (length st.2 <= S (length resets))%nat.
Proof.
  unfold updateKeys. intros Hst.
  destruct (rg_sdkClients r !! id), (p_SDKs config !! id) as [sc|]; try (injection Hst as <-; simpl; lia).
  apply go_bind_ret in Hst as (c & _ & Hst). destruct (SdkKeys c) as [k1 k2], sc as [sc|]; [|done].
  case_bool_decide; injection Hst as <-; simpl; rewrite ?length_app; simpl; lia.
Qed.

Lemma next_less pc r pc' r' : in_refresh pc -> refresh_next pc r = Ret (pc', r') ->
  (steps_left pc' < steps_left pc)%nat /\ pc' <> RReturned.
Proof.
  destruct pc as [|now config [|id ids] rem add|now config [|id ids] resets add|now config [|id ids] add|now config [|id ids]|];
    intros Hpc; try done; cbn [refresh_next]; intros Hn.
  2: apply go_bind_ret in Hn as (r1 & _ & Hn).
  4: apply go_bind_ret in Hn as (st & Hst%updateKeys_resets & Hn).
  6: apply go_bind_ret in Hn as (r1 & _ & Hn).
  8: apply go_bind_ret in Hn as (r1 & _ & Hn).
  1: destruct (shouldUpdateOptions _ _).
  all: injection Hn as <- <-; (split; [simpl; lia | done]).
Qed.

(** ** Until Close is called *)

(** no goroutine has panicked, and the refresh under way, if there is one, leaves
    the clients of a profile *)
Definition sound (a : auto) : Prop :=
  au_panicked a = false /\ au_run a <> RReturned /\
  exists r, rest (au_run a) (au_registrar a) = Ret r /\ serves_a_profile r.

Lemma run_moves_sound n m a r :
  au_closer a = CIdle -> (st <-? m; rest st.1 st.2) = Ret r -> (forall st, m = Ret st -> st.1 <> RReturned) ->
  serves_a_profile r -> sound (run_moves n m a) /\ exists st, m = Ret st /\ au_run (run_moves n m a) = st.1.
Proof.
  intros Hc Hm Hpc Hs. apply go_bind_ret in Hm as ([pc r1] & -> & Hr). specialize (Hpc _ eq_refl).
  split; [|by eexists]. unfold run_moves. rewrite Hc. split; [done|]. split; [done|]. by exists r.
Qed.

Lemma begin_sound dos now do n a :
  well_behaved conf dos -> do ∈ dos -> au_closer a = CIdle -> au_run a = RSelect -> sound a ->
  sound (run_moves n (begin_refresh now do (au_registrar a)) a).
Proof.
  intros Hwb Hdo Hc Hr (_ & _ & r & Hrest & Hs). rewrite Hr in Hrest. injection Hrest as <-.
  destruct (refresh_serves conf log dos now do (au_registrar a) Hwb Hdo Hs) as (r' & Hr' & Hs').
  rewrite begin_rest in Hr'. apply (run_moves_sound n _ a r'); try done.
  unfold begin_refresh. intros st Hst. by destruct (getConfig conf do _) as [[[config|]| |] r1]; simplify_eq.
Qed.

Lemma next_sound a : au_closer a = CIdle -> in_refresh (au_run a) -> sound a ->
  let a' := run_moves (au_waiting a) (refresh_next (au_run a) (au_registrar a)) a in
  sound a' /\ (steps_left (au_run a') < steps_left (au_run a))%nat.
Proof.
  intros Hc Hr (_ & _ & r & Hrest & Hs) a'. rewrite (next_rest _ _ Hr) in Hrest.
  destruct (run_moves_sound (au_waiting a) _ a r Hc Hrest) as [Hsound ([pc r1] & Hst & Hpc)]; [|done|].
  - intros [pc r1] Hst. by destruct (next_less _ _ _ _ Hr Hst).
  - split; [done|]. unfold a'. rewrite Hpc. by destruct (next_less _ _ _ _ Hr Hst).
Qed.

(** what an exchange of [l] may be *)
Definition among (dos : list (http_request -> go http_response)) (l : label) : Prop :=
  match l with Tick _ do | TakeRefresh _ do => do ∈ dos | _ => True end.

Lemma exchanges_among ls : Forall (among (exchanges ls)) ls.
Proof.
  apply Forall_forall. intros l Hl. destruct l as [|now do|now do| | | | | | |]; try done; simpl.
  - apply list_elem_of_omap. by exists (Tick now do).
  - apply list_elem_of_omap. by exists (TakeRefresh now do).
Qed.

Lemma among_sub dos dos' ls : dos ⊆ dos' -> Forall (among dos) ls -> Forall (among dos') ls.
Proof. intros Hsub Hls. eapply Forall_impl; [exact Hls|]. intros []; simpl; auto. Qed.

Lemma run_moves_closer n m a : au_closer (run_moves n m a) = CIdle -> au_closer a = CIdle.
Proof. unfold run_moves. destruct m as [[pc r]| |]; simpl; [|done..]. by destruct (au_closer a). Qed.

Lemma life_step_closer l a a' : life_step l a = Some a' -> au_closer a' = CIdle -> au_closer a = CIdle.
Proof.
  intros (_ & _ & Hs)%bind_Some Hc. destruct (au_closer a) eqn:Ha; [done|exfalso..].
  all: destruct l; simpl in Hs; unfold call_refresh, close_cancel, close_publisher, close_client, close_delete,
    close_index in Hs; rewrite ?Ha in Hs; repeat case_match; simplify_option_eq; try done.
  all: try congruence; try (apply run_moves_closer in Hc; congruence).
Qed.

Lemma runs_closer ls a a' : runs life_step ls a = Some a' -> au_closer a' = CIdle -> au_closer a = CIdle.
Proof.
  revert a. induction ls as [|l ls IH]; intros a; simpl; [by intros [= <-]|].
  intros (a1 & Hstep & Hrun)%bind_Some Hc. eapply life_step_closer; [done|]. by apply IH.
Qed.

Lemma life_step_sound dos l a a' :
  well_behaved conf dos -> among dos l -> life_step l a = Some a' -> au_closer a' = CIdle -> sound a -> sound a'.
Proof.
  intros Hwb Hl Hstep Hc' Hs. pose proof (life_step_closer _ _ _ Hstep Hc') as Hc. unfold life_step in Hstep.
  apply bind_Some in Hstep as (_ & _ & Hstep). destruct l as [|now do|now do| | | | | | |]; simpl in Hstep.
  - unfold call_refresh in Hstep. rewrite Hc in Hstep. injection Hstep as <-. exact Hs.
  - destruct (au_run a) eqn:Hr; simplify_eq. by eapply begin_sound.
  - destruct (au_run a) eqn:Hr; try done. destruct (au_waiting a) as [|n]; [done|]. injection Hstep as <-.
    by eapply begin_sound.
  - apply bind_Some in Hstep as (Hr & _ & [= <-]). by apply next_sound.
  - rewrite Hc in Hstep. by destruct (au_run a).
  - unfold close_cancel in Hstep. rewrite Hc in Hstep. by simplify_eq.
  - unfold close_publisher in Hstep. by rewrite Hc in Hstep.
  - unfold close_client in Hstep. by rewrite Hc in Hstep.
  - unfold close_delete in Hstep. by rewrite Hc in Hstep.
  - unfold close_index in Hstep. by rewrite Hc in Hstep.
Qed.

Lemma life_sound dos ls a a' :
  well_behaved conf dos -> Forall (among dos) ls -> runs life_step ls a = Some a' -> au_closer a' = CIdle ->
  sound a -> sound a'.
Proof.
  intros Hwb. revert a. induction ls as [|l ls IH]; intros a Hls; simpl; [by intros [= <-]|].
  apply Forall_cons in Hls as [Hl Hls]. destruct (life_step l a) as [a1|] eqn:Hstep; [|done]. simpl.
  intros Hrun Hc Hs. apply (IH a1); [done..|]. eapply life_step_sound; try done.
  by eapply runs_closer.
Qed.

(** a refresh comes to its end *)
Lemma refresh_ends a : au_closer a = CIdle -> sound a ->
  exists n a', (n <= steps_left (au_run a))%nat /\ runs life_step (replicate n Work) a = Some a' /\
    au_run a' = RSelect /\ serves_a_profile (au_registrar a').
Proof.
  remember (steps_left (au_run a)) as k eqn:Hk. revert a Hk. induction (lt_wf k) as [k _ IH].
  intros a -> Hc Hs. destruct (decide (in_refresh (au_run a))) as [Hr|Hr].
  - destruct (next_sound a Hc Hr Hs) as [Hs1 Hlt].
    set (a1 := run_moves _ _ _) in Hs1, Hlt. destruct (IH _ Hlt a1 eq_refl) as (n & a' & Hn & Hrun & Hend); [|done|].
    { unfold a1, run_moves. destruct (refresh_next _ _) as [[]| |]; simpl; by rewrite Hc. }
    exists (S n), a'. split; [lia|]. split; [|done]. cbn [replicate runs].
    assert (Hstep : life_step Work a = Some a1).
    { destruct Hs as (Hp & _). unfold life_step. rewrite Hp. simpl. by rewrite option_guard_True by done. }
    rewrite Hstep. exact Hrun.
  - destruct Hs as (_ & Hret & r & Hrest & Hsr). exists 0%nat, a. split; [lia|]. split; [done|].
    destruct (au_run a) eqn:Hpc; try (by destruct Hr). split; [done|]. by injection Hrest as <-.
Qed.

(** ** After the goroutine has returned *)

Definition unchanged (r r' : autoRegistrar) : Prop :=
  rg_sdkClients r' ⊆ rg_sdkClients r /\ rg_options r' = rg_options r /\ rg_etag r' = rg_etag r /\
  rg_cache r' = rg_cache r /\ rg_statusReporter r' = rg_statusReporter r /\ rg_published r' = rg_published r /\
  length (rg_heap r') = length (rg_heap r).

#[local] Instance unchanged_preorder : PreOrder unchanged.
Proof.
  split; [intros r; by split_and!|]. intros r1 r2 r3 (Hsub & ? & ? & ? & ? & ? & ?) (Hsub' & ? & ? & ? & ? & ? & ?).
  split; [by etrans|]. split_and!; congruence.
Qed.

(** only [Close] still does something, and who waits keeps waiting *)
Definition only_closes (a a' : auto) : Prop :=
  au_run a = RReturned ->
  au_run a' = RReturned /\ (au_waiting a <= au_waiting a')%nat /\ unchanged (au_registrar a) (au_registrar a').

#[local] Instance only_closes_preorder : PreOrder only_closes.
Proof.
  split.
  - intros a Hr. split_and!; [done|lia|]. by split_and!.
  - intros a1 a2 a3 H12 H23 Hr. destruct (H12 Hr) as (Hr2 & Hw & Hc). destruct (H23 Hr2) as (Hr3 & Hw3 & Hc3).
    split_and!; [done|lia|]. by etrans.
Qed.

Lemma close_at_shape l r r' : close_at l r = Ret r' ->
  exists c c', rg_heap r !! l = Some c /\ cl_closed c = false /\ cl_closed c' = true /\
    r' = on_heap <[l := c']> r.
Proof.
  unfold close_at, at_loc. destruct (rg_heap r !! l) as [c|] eqn:Hc; [|done]. simpl. unfold Close.
  destruct (cl_closed c) eqn:Ho; [done|]. intros [= <-]. exists c. eexists. split; [done|].
  split; [done|]. split; [|reflexivity]. done.
Qed.

Lemma only_closes_to a a' : au_run a' = RReturned -> (au_waiting a <= au_waiting a')%nat ->
  unchanged (au_registrar a) (au_registrar a') ->
  au_run a' = RReturned /\ (au_waiting a <= au_waiting a')%nat /\ unchanged (au_registrar a) (au_registrar a').
Proof. done. Qed.

Lemma life_step_only_closes l a a' : life_step l a = Some a' -> only_closes a a'.
Proof.
  intros (_ & _ & Hs)%bind_Some Hr. pose proof (reflexivity (au_registrar a) : unchanged _ _) as Hsame.
  revert Hr. destruct l; simpl in Hs; intros Hr; rewrite ?Hr in Hs; try done.
  - injection Hs as <-. unfold call_refresh. case_match; (apply only_closes_to; simpl; [done|lia|done]).
  - unfold close_cancel in Hs. case_match; simplify_eq. by apply only_closes_to.
  - unfold close_publisher in Hs. case_match; simplify_eq. by apply only_closes_to.
  - unfold close_client in Hs. case_match; simplify_option_eq.
    destruct (close_at _ _) as [r| |] eqn:Hat; [|by apply only_closes_to..].
    apply close_at_shape in Hat as (c & c' & _ & _ & _ & ->). apply only_closes_to; try done.
    split_and!; try done. simpl. by rewrite length_insert.
  - unfold close_delete in Hs. case_match; simplify_eq. apply only_closes_to; try done.
    split_and!; try done. apply delete_subseteq.
  - unfold close_index in Hs. case_match; simplify_option_eq. by apply only_closes_to.
Qed.

Lemma only_closes_run ls a a' : runs life_step ls a = Some a' -> only_closes a a'.
Proof.
  intros Hrun. apply (runs_rel life_step (fun _ => True) only_closes ls a a'); [|done|by apply Forall_true].
  intros l a1 a2 Hs _. by eapply life_step_only_closes.
Qed.

(** ** Close without a refresh *)

(** [Range] is in step with the map, which holds the open clients *)
Record range_ok (ra : range_state) (r : autoRegistrar) : Prop := {
  ro_owns : owns r;
  ro_held : forall id l, rg_sdkClients r !! id = Some l <-> (id, l) ∈ ra_held ra /\ id ∉ ra_visited ra;
  ro_stable : dom (rg_sdkClients r) ⊆ ra_stable ra;
  ro_visited : ra_stable ra ⊆ dom (rg_sdkClients r) ∪ ra_visited ra
}.

Definition closes_well (a : auto) : Prop :=
  au_panicked a = false /\ (au_run a = RSelect \/ au_run a = RReturned) /\
  match au_closer a with
  | CIdle | CCancelled => owns (au_registrar a)
  | CRange ra => range_ok ra (au_registrar a)
  | CEntry ra id => range_ok ra (on_sdkClients (delete id) (au_registrar a))
  | CClosed => rg_sdkClients (au_registrar a) = ∅ /\ rg_sdkClientsBySdkKey (au_registrar a) = ∅ /\
               Forall (fun c => cl_closed c = true) (rg_heap (au_registrar a))
  end.

Lemma owns_close r id l c' : owns r -> rg_sdkClients r !! id = Some l -> cl_closed c' = true ->
  owns (on_sdkClients (delete id) (on_heap <[l := c']> r)).
Proof.
  intros [Hopen Hmap] Hl Hc'. destruct (Hopen id l Hl) as (c & Hc & _ & Hid). split; simpl.
  - intros id1 l1 [Hne Hl1]%lookup_delete_Some. rewrite list_lookup_insert_ne; [by apply Hopen|].
    intros ->. destruct (Hopen id1 l1 Hl1) as (c1 & Hc1 & _ & Hid1). congruence.
  - intros l1 c1 Hc1 Ho1. apply list_lookup_insert_Some in Hc1 as [(-> & -> & _)|[Hne Hc1]]; [congruence|].
    rewrite lookup_delete_ne; [by apply Hmap|]. intros Heq. specialize (Hmap l1 c1 Hc1 Ho1). congruence.
Qed.

Lemma range_ok_sees ra r : range_ok ra r -> range_ok (range_sees (rg_sdkClients r) ra) r.
Proof.
  intros [Ho Hh Hs Hv]. split; simpl; [done| |set_solver|set_solver].
  intros id l. rewrite elem_of_app, elem_of_map_to_list. specialize (Hh id l). tauto.
Qed.

Lemma close_client_ok id l ra r :
  range_ok ra r -> (id, l) ∈ ra_held ra -> id ∉ ra_visited ra ->
  exists r', close_at l r = Ret r' /\
    range_ok {| ra_held := ra_held ra; ra_stable := ra_stable ra; ra_visited := {[id]} ∪ ra_visited ra |}
      (on_sdkClients (delete id) r').
Proof.
  intros [Ho Hh Hs Hv] Hin Hnot. assert (Hl : rg_sdkClients r !! id = Some l) by (by apply Hh).
  destruct (proj1 Ho id l Hl) as (c & Hc & Hopen & Hid). destruct (Close_ok c Hopen) as (c' & Hclose & Hclosed & _).
  exists (on_heap <[l := c']> r). split; [unfold close_at, at_loc; rewrite Hc; simpl; by rewrite Hclose|].
  split; simpl.
  - by apply owns_close.
  - intros id1 l1. rewrite lookup_delete_Some, Hh. set_solver.
  - rewrite dom_delete_L. set_solver.
  - rewrite dom_delete_L. intros k Hk%Hv. destruct (decide (k = id)); set_solver.
Qed.

Lemma range_done ra r : range_ok ra r -> ra_stable ra ⊆ ra_visited ra ->
  rg_sdkClients r = ∅ /\ Forall (fun c => cl_closed c = true) (rg_heap r).
Proof.
  intros [Ho Hh Hs _] Hsub. assert (Hempty : rg_sdkClients r = ∅).
  { apply map_empty. intros id. destruct (rg_sdkClients r !! id) as [l|] eqn:Hl; [|done].
    apply elem_of_dom_2 in Hl as Hdom. apply Hh in Hl as [_ Hnot]. set_solver. }
  split; [done|]. apply Forall_lookup. intros l c Hc. destruct (cl_closed c) eqn:Hopen; [done|].
  pose proof (proj2 Ho l c Hc Hopen) as Hin. by rewrite Hempty in Hin.
Qed.

Lemma life_step_closes l a a' : calm l -> life_step l a = Some a' -> closes_well a -> closes_well a'.
Proof.
  intros Hcalm (_ & _ & Hs)%bind_Some (Hp & Hr & Hc). destruct l; simpl in Hs; try done.
  - injection Hs as <-. unfold call_refresh. destruct (au_closer a) eqn:Ha; unfold closes_well; simpl; rewrite ?Ha; auto.
  - apply bind_Some in Hs as (Hin & _ & _). destruct Hr as [Hr|Hr]; by rewrite Hr in Hin.
  - destruct (au_run a), (au_closer a) eqn:Ha; simplify_eq; (split; [done|]; split; [by right|]; simpl; rewrite ?Ha; exact Hc).
  - unfold close_cancel in Hs. destruct (au_closer a); simplify_eq. by split_and!.
  - unfold close_publisher in Hs. destruct (au_closer a); simplify_eq. split_and!; [done..|]. simpl. split; simpl; try set_solver.
    intros id l. rewrite elem_of_map_to_list. set_solver.
  - unfold close_client in Hs. destruct (au_closer a) as [| |ra| |]; try done. simplify_option_eq.
    destruct (close_client_ok id l ra (au_registrar a) Hc) as (r & -> & Hok); [done..|]. by split_and!.
  - unfold close_delete in Hs. destruct (au_closer a); simplify_eq. split_and!; [done..|]. simpl.
    exact (range_ok_sees ra (on_sdkClients (delete id) (au_registrar a)) Hc).
  - unfold close_index in Hs. destruct (au_closer a) as [| |ra| |]; try done. simplify_option_eq.
    destruct (range_done ra (au_registrar a) Hc) as [Hm Hall]; [done|]. by split_and!.
Qed.

Lemma calm_run ls a a' : Forall calm ls -> runs life_step ls a = Some a' -> closes_well a -> closes_well a'.
Proof.
  intros Hcalm. revert a. induction ls as [|l ls IH]; intros a; simpl; [by intros [= <-]|].
  apply Forall_cons in Hcalm as [Hl Hls]. intros (a1 & Hstep & Hrun)%bind_Some Ha. apply (IH Hls a1 Hrun).
  by eapply life_step_closes.
Qed.

(** [Close] can be completed from [a] *)
Definition completes (a : auto) : Prop :=
  exists ls a', Forall closing ls /\ runs life_step ls a = Some a' /\ au_closer a' = CClosed.

Lemma completes_step l a a' : closing l -> life_step l a = Some a' -> completes a' -> completes a.
Proof.
  intros Hl Hs (ls & a2 & Hls & Hrun & Hc). exists (l :: ls), a2. split; [by constructor|].
  split; [|done]. simpl. by rewrite Hs.
Qed.

Lemma close_step a l o : au_panicked a = false -> closing l ->
  life_step l a = match l with
                  | Cancel => close_cancel a | ClosePublisher => close_publisher a
                  | CloseClient id loc => close_client id loc a | DeleteEntry => close_delete a
                  | ClearIndex => close_index a | _ => o
                  end.
Proof. intros Hp Hl. unfold life_step. rewrite Hp. by destruct l. Qed.

Lemma entry_completes a ra id : closes_well a -> au_closer a = CEntry ra id ->
  (forall a1, closes_well a1 -> (exists ra1, au_closer a1 = CRange ra1) ->
     rg_sdkClients (au_registrar a1) = delete id (rg_sdkClients (au_registrar a)) -> completes a1) -> completes a.
Proof.
  intros Hw Hc Hnext. assert (Hs : life_step DeleteEntry a = close_delete a) by (by rewrite (close_step _ _ None (proj1 Hw))).
  unfold close_delete in Hs. rewrite Hc in Hs. eapply (completes_step DeleteEntry); [done|exact Hs|].
  apply Hnext; [by eapply (life_step_closes DeleteEntry)|by eexists|done].
Qed.

Lemma range_completes a ra : closes_well a -> au_closer a = CRange ra -> completes a.
Proof.
  remember (size (rg_sdkClients (au_registrar a))) as n eqn:Hn. revert a ra Hn.
  induction (lt_wf n) as [n _ IH]. intros a ra -> Hw Hc.
  assert (Hok : range_ok ra (au_registrar a)) by (destruct Hw as (_ & _ & Hw); by rewrite Hc in Hw).
  destruct (map_choose_or_empty (rg_sdkClients (au_registrar a))) as [(id & l & Hl)|Hempty].
  - pose proof (proj1 (ro_held _ _ Hok id l) Hl) as [Hin Hnot].
    destruct (close_client_ok id l ra (au_registrar a) Hok Hin Hnot) as (r & Hr & _).
    assert (Hs : life_step (CloseClient id l) a = close_client id l a) by (by rewrite (close_step _ _ None (proj1 Hw))).
    unfold close_client in Hs. rewrite Hc, !option_guard_True, Hr in Hs by done. cbn in Hs.
    eapply (completes_step (CloseClient id l)); [done|exact Hs|].
    eapply entry_completes; [by eapply (life_step_closes (CloseClient id l))|done|].
    intros a1 Hw1 [ra1 Hc1] Hm1. refine (IH _ _ a1 ra1 eq_refl Hw1 Hc1). rewrite Hm1. simpl.
    apply close_at_shape in Hr as (c & c' & _ & _ & _ & ->). simpl. rewrite map_size_delete_Some by eauto.
    assert (size (rg_sdkClients (au_registrar a)) <> 0)%nat; [|lia]. intros Hz%map_size_empty_inv. by rewrite Hz in Hl.
  - assert (Hs : life_step ClearIndex a = close_index a) by (by rewrite (close_step _ _ None (proj1 Hw))).
    unfold close_index in Hs. rewrite Hc, option_guard_True in Hs.
    + eapply (completes_step ClearIndex); [done|exact Hs|]. exists [], (with_closer CClosed (on_bySdkKey (fun _ => ∅) (au_registrar a)) a).
      done.
    + pose proof (ro_visited _ _ Hok) as Hv. rewrite Hempty, dom_empty_L in Hv. set_solver.
Qed.

Lemma close_completes a : closes_well a -> completes a.
Proof.
  intros Hw. pose proof (proj1 Hw) as Hp.
  assert (Hcancelled : forall a, closes_well a -> au_closer a = CCancelled -> completes a).
  { clear. intros a Hw Hc. assert (Hs : life_step ClosePublisher a = close_publisher a) by (by rewrite (close_step _ _ None (proj1 Hw))).
    unfold close_publisher in Hs. rewrite Hc in Hs. eapply (completes_step ClosePublisher); [done|exact Hs|].
    eapply range_completes; [by eapply (life_step_closes ClosePublisher)|done]. }
  destruct (au_closer a) as [| |ra|ra id|] eqn:Hc.
  - assert (Hs : life_step Cancel a = close_cancel a) by (by rewrite (close_step _ _ None Hp)).
    unfold close_cancel in Hs. rewrite Hc in Hs. eapply (completes_step Cancel); [done|exact Hs|].
    apply Hcancelled; [by eapply (life_step_closes Cancel)|done].
  - by apply Hcancelled.
  - by eapply range_completes.
  - eapply entry_completes; [done|done|]. intros a1 Hw1 [ra1 Hc1] _. by eapply range_completes.
  - exists [], a. split_and!; [done|done|done].
Qed.
End lifecycle.

(** ** Properties *)

(** C22: the life of a registrar that started with a profile, however the ticks,
    the calls of [Refresh], the steps of its refreshes and those of [Close]
    interleave, and whatever the endpoint and the cache answer: for polling
    intervals of at most 292 years, profiles without a null SDK (the code panics
    on one) and a publisher that takes every id. As long as [Close] has not been
    called, no step panics, a refresh under way comes to its end within the steps
    it has left, and between two refreshes the clients are those of a profile that
    was parsed, and a tick or a waiting call makes it refresh. When [Close] is
    called between two refreshes and none begins after that, it panics nowhere,
    can always be completed, and then every client is closed and both maps are
    empty. Once the goroutine has returned, only [Close] changes anything, by
    closing clients and dropping their entries, and a call of [Refresh] that was
    waiting by then waits for ever. *)
Theorem registrar_keeps_serving `{XXHash, ConfigCatFormat, OS, MapRange, ExternalCache, ProfileJSON}
    (conf : Config) (log : logger) (now : Z) (do0 do : http_request -> go http_response)
    (ls ls' : list label) (cache : option XC) (s : reporter) (config : ProxyConfigModel) (r0 r1 : autoRegistrar)
    (a a' : auto)
    (Hinterval : interval_fits (refresh_interval conf))
    (Hwb : well_behaved conf (do0 :: do :: exchanges ls)) (Hs : st_SDKs (rp_status s) = ∅)
    (Hget : getConfig conf do0 (empty_registrar cache s) = (Ret (Some config), r1))
    (Hnew : newAutoRegistrar conf log now do0 cache s = Ret r0)
    (Hrun : runs (life_step conf log) ls (start_run conf r0) = Some a)
    (Hrun' : runs (life_step conf log) ls' a = Some a') :
  (au_closer a = CIdle ->
     au_panicked a = false /\
     (exists n a2, (n <= steps_left (au_run a))%nat /\ runs (life_step conf log) (replicate n Work) a = Some a2 /\
        au_run a2 = RSelect /\ serves_a_profile (au_registrar a2)) /\
     (au_run a = RSelect -> serves_a_profile (au_registrar a) /\ is_Some (life_step conf log (Tick now do) a) /\
        (au_waiting a <> 0%nat -> is_Some (life_step conf log (TakeRefresh now do) a)))) /\
  (au_closer a = CIdle -> au_run a = RSelect -> Forall calm ls' ->
     au_panicked a' = false /\ completes conf log a' /\
     (au_closer a' = CClosed ->
        rg_sdkClients (au_registrar a') = ∅ /\ rg_sdkClientsBySdkKey (au_registrar a') = ∅ /\
        Forall (fun c => cl_closed c = true) (rg_heap (au_registrar a')))) /\
  (au_run a = RReturned ->
     au_run a' = RReturned /\ (au_waiting a <= au_waiting a')%nat /\
     unchanged (au_registrar a) (au_registrar a')).
Proof.
  pose proof (getConfig_outcome conf _ do0 (empty_registrar cache s) Hwb ltac:(left)) as Hout.
  rewrite Hget in Hout. destruct Hout as [[err ?]|[?|(config' & body & [= <-] & Hb)]]; [done..|].
  destruct (newAutoRegistrar_ok conf log now do0 cache s config r1) as (r2 & Hr2 & Hwf & Hv & _);
    [apply Hwb|by eapply wb_models|done|done|].
  rewrite Hnew in Hr2. injection Hr2 as <-.
  assert (Hstart : sound conf log (start_run conf r0)).
  { split; [|split; [done|]].
    - simpl. unfold registrar_run_period.
      by destruct (ticker_fits DefaultAutoSdkPollInterval (refresh_interval conf)) as [d ->].
    - exists r0. split; [done|]. split; [done|]. by exists config, body. }
  assert (Hsound : au_closer a = CIdle -> sound conf log a).
  { intros Hc. apply (life_sound conf log (do0 :: do :: exchanges ls) ls (start_run conf r0)); try done.
    apply (among_sub (exchanges ls)); [set_solver|apply exchanges_among]. }
  split; [|split].
  - intros Hc. destruct (Hsound Hc) as (Hp & _ & r & Hrest & Hserve). split; [done|].
    split; [by apply refresh_ends; [|apply Hsound]|]. intros Hr. rewrite Hr in Hrest. injection Hrest as <-.
    split; [done|]. unfold life_step. rewrite Hp. simpl. rewrite Hr. split; [by eexists|].
    intros Hn. destruct (au_waiting a); [done|by eexists].
  - intros Hc Hr Hcalm. assert (Hw : closes_well a).
    { destruct (Hsound Hc) as (Hp & _ & r & Hrest & [Hwfr _]). rewrite Hr in Hrest. injection Hrest as <-.
      split; [done|]. split; [by left|]. rewrite Hc. split; apply Hwfr. }
    pose proof (calm_run conf log ls' a a' Hcalm Hrun' Hw) as Hw'.
    split; [apply Hw'|]. split; [by apply close_completes|]. intros Hc'.
    destruct Hw' as (_ & _ & Hend). by rewrite Hc' in Hend.
  - by apply (only_closes_run conf log ls').
Qed.

(** A refresh by the ticker, one by a call that replaces the clients, and a call
    that comes too late; and then the closing. *)
Definition toy_labels : list label :=
  [CallRefresh; Tick 1 Toy.not_modified; TakeRefresh 2 (Toy.served "3" "profile2")] ++ replicate 10 Work ++
  [CallRefresh].
Definition toy_close : list label := [Cancel; Return; ClosePublisher].
Definition toy_after (ls : list label) : auto :=
  default (start_run Toy.conf toy_registrar) (runs (life_step Toy.conf NewNullLogger) ls (start_run Toy.conf toy_registrar)).

Lemma toy_served_ok : well_behaved Toy.conf
  (Toy.served "1" "profile1" :: Toy.not_modified :: exchanges toy_labels).
Proof.
  change (exchanges toy_labels) with [Toy.not_modified; Toy.served "3" "profile2"].
  apply toy_well_behaved. repeat apply Forall_cons_2; unfold Toy.answered; eauto.
Qed.

Lemma registrar_keeps_serving_witness :
  let a := toy_after toy_labels in
  serves_a_profile (au_registrar a) /\ au_waiting a = 1%nat /\
  (exists ls2 a2, runs (life_step Toy.conf NewNullLogger) ls2 (toy_after (toy_labels ++ toy_close)) = Some a2 /\
     au_closer a2 = CClosed /\ (1 <= au_waiting a2)%nat).
Proof.
  intros a.
  assert (Hrun : runs (life_step Toy.conf NewNullLogger) toy_labels (start_run Toy.conf toy_registrar) = Some a)
    by (vm_compute; reflexivity).
  assert (Hclose : runs (life_step Toy.conf NewNullLogger) toy_close a = Some (toy_after (toy_labels ++ toy_close)))
    by (vm_compute; reflexivity).
  assert (Hstate : au_closer a = CIdle /\ au_run a = RSelect /\ au_waiting a = 1%nat) by (vm_compute; auto).
  destruct Hstate as (Hc & Hr & Hw).
  destruct (registrar_keeps_serving Toy.conf NewNullLogger 0 (Toy.served "1" "profile1") Toy.not_modified toy_labels
    toy_close (Some ∅) NewEmptyReporter Toy.profile1 toy_registrar
    (getConfig Toy.conf (Toy.served "1" "profile1") (empty_registrar (Some ∅) NewEmptyReporter)).2 a
    (toy_after (toy_labels ++ toy_close)))
    as (Hopen & Hclosing & _); [discriminate|exact toy_served_ok|reflexivity|reflexivity|vm_compute; reflexivity
      |exact Hrun|exact Hclose|].
  split; [exact (proj1 (proj2 (proj2 (Hopen Hc)) Hr))|]. split; [exact Hw|].
  destruct (Hclosing Hc Hr ltac:(repeat constructor)) as (_ & (ls2 & a2 & _ & Hrun2 & Hc2) & _).
  exists ls2, a2. split; [exact Hrun2|]. split; [exact Hc2|].
  assert (Hret : au_run (toy_after (toy_labels ++ toy_close)) = RReturned /\
                 au_waiting (toy_after (toy_labels ++ toy_close)) = 1%nat) by (vm_compute; auto).
  destruct (only_closes_run Toy.conf NewNullLogger ls2 _ a2 Hrun2 (proj1 Hret)) as (_ & Hle & _).
  rewrite (proj2 Hret) in Hle. exact Hle.
Defined.

(** [Close] that overlaps with a refresh: [Range] closes the client of [a], and
    before its entry is deleted the refresh removes [a] and closes its client
    again, which panics. *)
Definition toy_race : list label :=
  [Tick 2 (Toy.served "3" "profile2"); Cancel; ClosePublisher;
   CloseClient "a" (default 0%nat (rg_sdkClients toy_registrar !! "a")); Work].

Example close_during_refresh_panics : au_panicked (toy_after toy_race) = true.
Proof. vm_compute. reflexivity. Qed.
