(* ===== verification/Client.v ===== *)
(** The [sdk.Client] interface ([sdk/sdk.go]) as the streams and the web and
    gRPC handlers use it, and its implementation by the SDK client. The
    consumers' definitions and theorems are stated for any implementation. *)
From S2P Require Import Prelude Go Utils Model Log ConfigTypes Config Status Store Sdk.
Open Scope Z_scope.

(** [sdk/sdk.go:28-43] Client, the methods that read *)
Class Client := {
  SC : Type;
  c_Eval : SC -> string -> option (gmap string value) -> EvalData;
  c_EvalAll : SC -> option (gmap string value) -> gmap string EvalData;
  c_Keys : SC -> list string;
  c_HasKey : SC -> string -> bool;
  c_GetCachedJson : SC -> EntryWithEtag;
  c_SdkKeys : SC -> string * option string;
  c_WebhookSigningKey : SC -> string;
  c_WebhookSignatureValidFor : SC -> Z;
  c_IsInValidState : SC -> bool
}.

(** the type of a flag's value: boolean, text or number *)
Definition scalar (v : value) : Prop :=
  match v with VStrings _ | VArray _ | VObject _ => False | _ => True end.

(** What the consumers may rely on. *)
Class ClientLaws (C : Client) := {
  Eval_scalar : forall c k u, scalar (d_Value (c_Eval c k u));
  EvalAll_Eval : forall c u k d, c_EvalAll c u !! k = Some d -> d = c_Eval c k u;
  HasKey_Keys : forall c k, c_HasKey c k = true <-> k ∈ c_Keys c;
  IsInValidState_entry : forall c, c_IsInValidState c = negb (en_Empty (c_GetCachedJson c))
}.

(** The SDK client together with its ready ConfigCat client. *)
Section client.
Context `{mr : MapRange, cc : ConfigCatSDK}.

#[export] Instance sdk_client : Client := {|
  SC := client * CC;
  c_Eval c key u := Eval c.1 c.2 key u;
  c_EvalAll c u := EvalAll c.1 c.2 u;
  c_Keys c := Keys c.2;
  c_HasKey c key := HasKey c.2 key;
  c_GetCachedJson c := GetCachedJson c.1;
  c_SdkKeys c := SdkKeys c.1;
  c_WebhookSigningKey c := WebhookSigningKey c.1;
  c_WebhookSignatureValidFor c := WebhookSignatureValidFor c.1;
  c_IsInValidState c := IsInValidState c.1
|}.

Lemma sdk_client_laws :
  (forall cc u, NoDup (ed_Key <$> GetAllValueDetails cc u)) ->
  (forall cc u d, d ∈ GetAllValueDetails cc u -> GetValueDetails cc u (ed_Key d) = d) ->
  (forall cc u k, scalar (ed_Value (GetValueDetails cc u k))) ->
  ClientLaws sdk_client.
Proof.
  intros Hunique Hsame Hscalar. split; simpl.
  - intros [c cc0] k u. apply Hscalar.
  - intros [c cc0] u k d. simpl. unfold EvalAll, Eval. rewrite EvalAll_fold by apply Hunique.
    destruct (list_find _ _) as [[i d']|] eqn:Hf; [|by rewrite lookup_empty].
    apply list_find_Some in Hf as (Hi & Hk & _). intros [= <-].
    rewrite <- Hk, Hsame by (by eapply list_elem_of_lookup_2). done.
  - intros [c cc0] k. apply has_key_spec.
  - done.
Qed.
End client.

(** [sdk/sdk_registrar.go:15-21] Registrar: the lookups a request handler does, on
    the registrar as it is when the request is handled *)
Record registrar `{Client} := {
  rg_GetSdkOrNil : string -> option SC;
  rg_GetSdkByKeyOrNil : string -> option SC
}.

(** [sdk/sdk.go:34-34] Refresh: the error it returns, which depends on the network *)
Class Refresher `{Client} := { c_Refresh : SC -> option string }.
