(* ===== verification/Ready.v ===== *)
(** [sdk/sdk.go]: the goroutines of one SDK client around the first refresh: the
    one that performs it, those that evaluate and wait for it in [ensureReady],
    the poller, and one that closes the client. A labelled step function; a step
    is one operation on a channel, the mutex or the [sync.Once], or the return of
    a refresh of the ConfigCat client. *)
From S2P Require Import Prelude.

(** [sdk/sdk.go:140-145] NewClient, the goroutine of the first refresh *)
Inductive first :=
| FStart        (* at the lock *)
| FRefreshing   (* in Refresh *)
| FRefreshed    (* about to close ready and to unlock *)
| FDone.

(** [sdk/sdk.go:199-206] ensureReady: where a caller is; the first one through
    [readyOnce] runs the function, the others wait for it *)
Inductive reader :=
| RCalling      (* at readyOnce.Do *)
| RSelect       (* at the select *)
| RThrough.     (* has returned *)

(** [sdk/sdk.go:167-184] poll *)
Inductive poller := PWaiting | PRefreshing | PReturned.

(** [sdk/sdk.go:282-292] Close *)
Inductive closer :=
| CNone         (* not called *)
| CClosing      (* before ctxCancel *)
| CCancelled    (* at the lock *)
| CLocked       (* about to close the ConfigCat client and to unlock *)
| CDone.

Inductive once := OnceNew | OnceRunning (id : nat) | OnceDone.
Inductive holder := HFirst | HCloser.

#[export] Instance first_eq_dec : EqDecision first.
Proof. solve_decision. Defined.
#[export] Instance reader_eq_dec : EqDecision reader.
Proof. solve_decision. Defined.
#[export] Instance poller_eq_dec : EqDecision poller.
Proof. solve_decision. Defined.
#[export] Instance closer_eq_dec : EqDecision closer.
Proof. solve_decision. Defined.
#[export] Instance once_eq_dec : EqDecision once.
Proof. solve_decision. Defined.

(** [sdk/sdk.go:57-70] client: [k_ready], [k_cancelled]: the channel [ready] is
    closed, the context is cancelled; [k_closed]: the ConfigCat client is closed *)
Record clients := {
  k_mu : option holder;
  k_ready : bool;
  k_cancelled : bool;
  k_once : once;
  k_closed : bool;
  k_first : first;
  k_poller : poller;
  k_closer : closer;
  k_readers : gmap nat reader
}.

(** [sdk/sdk.go:72-154] NewClient, the goroutines it starts *)
Definition started : clients :=
  {| k_mu := None; k_ready := false; k_cancelled := false; k_once := OnceNew; k_closed := false;
     k_first := FStart; k_poller := PWaiting; k_closer := CNone; k_readers := ∅ |}.

Inductive label :=
| Call (id : nat)     (* an evaluation begins *)
| Enter (id : nat)    (* it is the first one at readyOnce *)
| Wake (id : nat)     (* it leaves the select *)
| Follow (id : nat)   (* it finds readyOnce done *)
| FirstLock | FirstReturns | FirstReady
| Tick | PollReturns | PollStops
| CallClose | Cancel | CloseLock | CloseReturns.

Definition set_first (mu : option holder) ready f (k : clients) : clients :=
  {| k_mu := mu; k_ready := ready; k_cancelled := k_cancelled k; k_once := k_once k; k_closed := k_closed k;
     k_first := f; k_poller := k_poller k; k_closer := k_closer k; k_readers := k_readers k |}.
Definition set_poller p (k : clients) : clients :=
  {| k_mu := k_mu k; k_ready := k_ready k; k_cancelled := k_cancelled k; k_once := k_once k; k_closed := k_closed k;
     k_first := k_first k; k_poller := p; k_closer := k_closer k; k_readers := k_readers k |}.
Definition set_closer (mu : option holder) cancelled closed c (k : clients) : clients :=
  {| k_mu := mu; k_ready := k_ready k; k_cancelled := cancelled; k_once := k_once k; k_closed := closed;
     k_first := k_first k; k_poller := k_poller k; k_closer := c; k_readers := k_readers k |}.
Definition set_reader o id r (k : clients) : clients :=
  {| k_mu := k_mu k; k_ready := k_ready k; k_cancelled := k_cancelled k; k_once := o; k_closed := k_closed k;
     k_first := k_first k; k_poller := k_poller k; k_closer := k_closer k; k_readers := <[id := r]> (k_readers k) |}.

(** [sdk/sdk.go:199-206] ensureReady, the steps of a caller *)
Definition reader_step (l : label) (k : clients) : option clients :=
  match l with
  | Call id => guard (k_readers k !! id = None);; Some (set_reader (k_once k) id RCalling k)
  | Enter id => guard (k_readers k !! id = Some RCalling);; guard (k_once k = OnceNew);;
                Some (set_reader (OnceRunning id) id RSelect k)
  | Wake id => guard (k_readers k !! id = Some RSelect);; guard (k_ready k || k_cancelled k = true);;
               Some (set_reader OnceDone id RThrough k)
  | Follow id => guard (k_readers k !! id = Some RCalling);; guard (k_once k = OnceDone);;
                 Some (set_reader OnceDone id RThrough k)
  | _ => None
  end.

(** [sdk/sdk.go:140-145] NewClient, the steps of the first refresh *)
Definition first_step (l : label) (k : clients) : option clients :=
  match l with
  | FirstLock => guard (k_first k = FStart);; guard (k_mu k = None);;
                 Some (set_first (Some HFirst) (k_ready k) FRefreshing k)
  | FirstReturns => guard (k_first k = FRefreshing);; Some (set_first (k_mu k) (k_ready k) FRefreshed k)
  | FirstReady => guard (k_first k = FRefreshed);; Some (set_first None true FDone k)
  | _ => None
  end.

(** [sdk/sdk.go:167-184] poll, its steps: its refreshes do not take the mutex *)
Definition poller_step (l : label) (k : clients) : option clients :=
  match l with
  | Tick => guard (k_poller k = PWaiting);; Some (set_poller PRefreshing k)
  | PollReturns => guard (k_poller k = PRefreshing);; Some (set_poller PWaiting k)
  | PollStops => guard (k_poller k = PWaiting);; guard (k_cancelled k = true);; Some (set_poller PReturned k)
  | _ => None
  end.

(** [sdk/sdk.go:282-292] Close, its steps; the notifier and the publisher are
    closed first *)
Definition closer_step (l : label) (k : clients) : option clients :=
  match l with
  | CallClose => guard (k_closer k = CNone);; Some (set_closer (k_mu k) (k_cancelled k) (k_closed k) CClosing k)
  | Cancel => guard (k_closer k = CClosing);; Some (set_closer (k_mu k) true (k_closed k) CCancelled k)
  | CloseLock => guard (k_closer k = CCancelled);; guard (k_mu k = None);;
                 Some (set_closer (Some HCloser) (k_cancelled k) (k_closed k) CLocked k)
  | CloseReturns => guard (k_closer k = CLocked);; Some (set_closer None (k_cancelled k) true CDone k)
  | _ => None
  end.

(** [sdk/sdk.go:140-151] NewClient: a step of one of the goroutines it starts or
    of a caller *)
Definition step (l : label) (k : clients) : option clients :=
  match l with
  | Call _ | Enter _ | Wake _ | Follow _ => reader_step l k
  | FirstLock | FirstReturns | FirstReady => first_step l k
  | Tick | PollReturns | PollStops => poller_step l k
  | CallClose | Cancel | CloseLock | CloseReturns => closer_step l k
  end.

(** ** The invariant *)

(** who is inside [readyOnce] *)
Definition readers_ok (open : bool) (o : once) (readers : gmap nat reader) : Prop :=
  match o with
  | OnceNew => forall id r, readers !! id = Some r -> r = RCalling
  | OnceRunning h => readers !! h = Some RSelect /\
      forall id r, readers !! id = Some r -> id <> h -> r = RCalling
  | OnceDone => open = true /\ forall id, readers !! id <> Some RSelect
  end.

(** who holds the mutex, and what the channels and flags say, by where the
    goroutines are *)
Definition holder_of (f : first) (c : closer) : option holder :=
  match f, c with
  | (FRefreshing | FRefreshed), _ => Some HFirst
  | _, CLocked => Some HCloser
  | _, _ => None
  end.
Definition exclusive (f : first) (c : closer) : bool :=
  match f, c with (FRefreshing | FRefreshed), CLocked => false | _, _ => true end.
Definition cancelled_at (c : closer) : bool := match c with CNone | CClosing => false | _ => true end.

Record Inv (k : clients) : Prop := {
  i_once : readers_ok (k_ready k || k_cancelled k) (k_once k) (k_readers k);
  i_mu : k_mu k = holder_of (k_first k) (k_closer k);
  i_exclusive : exclusive (k_first k) (k_closer k) = true;
  i_ready : k_ready k = bool_decide (k_first k = FDone);
  i_cancelled : k_cancelled k = cancelled_at (k_closer k);
  i_closed : k_closed k = bool_decide (k_closer k = CDone)
}.

Lemma Inv_started : Inv started.
Proof. by split. Qed.

Lemma readers_ok_mono open open' o readers :
  readers_ok open o readers -> (open = true -> open' = true) -> readers_ok open' o readers.
Proof. destruct o; simpl; try done. intros [-> ?]; auto. Qed.

(** the fields by the places of the goroutines *)
Ltac by_places :=
  match goal with k : clients |- _ =>
    let f := fresh "f" in let c := fresh "c" in
    destruct k as [? ? ? ? ? f ? c ?]; simpl in *; destruct f, c; simplify_eq/=; done
  end.

Lemma Inv_first l k k' : first_step l k = Some k' -> Inv k -> Inv k'.
Proof.
  intros Hstep Hinv. destruct l; try done; simpl in Hstep; simplify_option_eq.
  all: destruct Hinv as [Ho Hm He Hr Hc Hx]; split; simpl; try done; try by by_places.
  by eapply readers_ok_mono.
Qed.

Lemma Inv_poller l k k' : poller_step l k = Some k' -> Inv k -> Inv k'.
Proof.
  intros Hstep Hinv. destruct l; try done; simpl in Hstep; simplify_option_eq.
  all: destruct Hinv; split; done.
Qed.

Lemma Inv_closer l k k' : closer_step l k = Some k' -> Inv k -> Inv k'.
Proof.
  intros Hstep Hinv. destruct l; try done; simpl in Hstep; simplify_option_eq.
  all: destruct Hinv as [Ho Hm He Hr Hc Hx]; split; simpl; try done; try by by_places.
  by eapply readers_ok_mono; [|rewrite orb_true_r].
Qed.

Lemma Inv_reader l k k' : reader_step l k = Some k' -> Inv k -> Inv k'.
Proof.
  intros Hstep Hinv. destruct l as [id|id|id|id| | | | | | | | | |]; try done; simpl in Hstep; simplify_option_eq.
  all: destruct Hinv as [Ho Hm He Hr Hc Hx]; split; simpl; try done.
  - destruct (k_once k) as [|h|]; simpl in *.
    + intros id1 r [[_ <-]|[_ Hr1]]%lookup_insert_Some; eauto.
    + destruct Ho as [Hh Hothers]. split; [rewrite lookup_insert_ne; congruence|].
      intros id1 r [[_ <-]|[_ Hr1]]%lookup_insert_Some; eauto.
    + destruct Ho as [Hopen Hno]. split; [done|]. intros id1. rewrite lookup_insert. destruct (decide (id = id1)); [done|apply Hno].
  - destruct (k_once k); simplify_eq. simpl in Ho. split; [apply lookup_insert_eq|].
    intros id1 r [[-> _]|[_ Hr1]]%lookup_insert_Some; [done|]. eauto.
  - split; [done|]. intros id1. rewrite lookup_insert. destruct (decide (id = id1)) as [|Heq]; [done|].
    destruct (k_once k) as [|h|]; simpl in Ho.
    + intros Hs. by specialize (Ho id1 _ Hs).
    + destruct Ho as [Hh Hothers]. intros Hs. destruct (decide (id = h)) as [->|Hne].
      * by specialize (Hothers id1 _ Hs (not_eq_sym Heq)).
      * match goal with H : k_readers k !! id = Some RSelect |- _ => by specialize (Hothers id _ H Hne) end.
    + by apply Ho.
  - destruct (k_once k); simplify_eq. simpl in Ho. destruct Ho as [Hopen Hno]. split; [done|].
    intros id1. rewrite lookup_insert. destruct (decide (id = id1)); [done|apply Hno].
Qed.

Lemma Inv_step l k k' : step l k = Some k' -> Inv k -> Inv k'.
Proof.
  intros Hstep.
  assert (Hone : reader_step l k = Some k' \/ first_step l k = Some k' \/ poller_step l k = Some k' \/
                 closer_step l k = Some k') by (destruct l; auto).
  destruct Hone as [H|[H|[H|H]]]; [by eapply Inv_reader|by eapply Inv_first|by eapply Inv_poller|by eapply Inv_closer].
Qed.

Lemma Inv_runs ls k : runs step ls started = Some k -> Inv k.
Proof. intros Hrun. by eapply runs_invariant; [apply Inv_step|done|apply Inv_started]. Qed.

(** ** Progress *)

(** the steps that a goroutine takes by itself once its operation can go on *)
Definition internal (l : label) : Prop :=
  match l with Call _ | CallClose | Tick => False | _ => True end.

Definition reader_work (r : reader) : nat := match r with RCalling => 2 | RSelect => 1 | RThrough => 0 end.
Definition first_work (f : first) : nat :=
  match f with FStart => 3 | FRefreshing => 2 | FRefreshed => 1 | FDone => 0 end.
Definition poller_work (p : poller) : nat := match p with PWaiting => 1 | PRefreshing => 2 | PReturned => 0 end.
Definition closer_work (c : closer) : nat :=
  match c with CNone => 4 | CClosing => 3 | CCancelled => 2 | CLocked => 1 | CDone => 0 end.
Definition work (k : clients) : nat :=
  first_work (k_first k) + poller_work (k_poller k) + closer_work (k_closer k) + total reader_work (k_readers k).

Lemma reader_work_step k o id r r' :
  k_readers k !! id = Some r -> reader_work r' < reader_work r -> work (set_reader o id r' k) < work k.
Proof.
  intros Hid Hlt. unfold work. simpl. pose proof (total_update reader_work _ id r r' Hid). lia.
Qed.

Lemma step_work l k k' : step l k = Some k' -> internal l -> work k' < work k.
Proof.
  intros Hstep Hl. destruct l as [id|id|id|id| | | | | | | | | |]; try done; simpl in Hstep; simplify_option_eq.
  1-3: eapply reader_work_step; [done|simpl; lia].
  all: unfold work; simpl.
  all: repeat match goal with
       | H : k_first _ = _ |- _ => rewrite H; clear H
       | H : k_poller _ = _ |- _ => rewrite H; clear H
       | H : k_closer _ = _ |- _ => rewrite H; clear H
       end; simpl; lia.
Qed.

(** no goroutine can go on by itself *)
Definition idle (k : clients) : Prop := forall l, internal l -> step l k = None.

Ltac not_enabled Hidle l := pose proof (Hidle l I); simpl in *; by simplify_option_eq.

Lemma idle_places k : Inv k -> idle k -> k_first k = FDone /\ (k_closer k = CNone \/ k_closer k = CDone).
Proof.
  intros Hinv Hidle.
  assert (k_first k <> FRefreshing) by (intros E; not_enabled Hidle FirstReturns).
  assert (k_first k <> FRefreshed) by (intros E; not_enabled Hidle FirstReady).
  assert (k_closer k <> CLocked) by (intros E; not_enabled Hidle CloseReturns).
  assert (Hmu : k_mu k = None).
  { rewrite (i_mu k Hinv). by destruct (k_first k), (k_closer k). }
  assert (k_first k <> FStart) by (intros E; not_enabled Hidle FirstLock).
  assert (k_closer k <> CClosing) by (intros E; not_enabled Hidle Cancel).
  assert (k_closer k <> CCancelled) by (intros E; not_enabled Hidle CloseLock).
  destruct (k_first k), (k_closer k); auto; done.
Qed.

Lemma idle_readers k id r : Inv k -> idle k -> k_readers k !! id = Some r -> r = RThrough.
Proof.
  intros Hinv Hidle Hr. destruct (idle_places k Hinv Hidle) as [Hfirst _].
  assert (Hopen : k_ready k || k_cancelled k = true) by (by rewrite (i_ready k Hinv), Hfirst).
  assert (Hsel : forall id, k_readers k !! id <> Some RSelect) by (intros id1 E; not_enabled Hidle (Wake id1)).
  pose proof (i_once k Hinv) as Ho. destruct r; [|by destruct (Hsel id)|done]. exfalso.
  destruct (k_once k) as [|h|] eqn:Honce; simpl in Ho.
  - not_enabled Hidle (Enter id).
  - destruct Ho as [Hh _]. by destruct (Hsel h).
  - not_enabled Hidle (Follow id).
Qed.

(** ** Properties *)

(** C10: whatever the interleaving of the goroutines of a client, an evaluation
    that has passed [ensureReady] comes after the first refresh has returned,
    unless the client is being closed; at most one evaluation waits for it inside
    [readyOnce]; and the ConfigCat client is never closed while the first refresh
    runs. *)
Theorem evaluations_wait_for_refresh (ls : list label) (k : clients) (Hrun : runs step ls started = Some k) :
  (forall id, k_readers k !! id = Some RThrough ->
     k_first k = FDone \/ (k_closer k <> CNone /\ k_closer k <> CClosing)) /\
  (forall id1 id2, k_readers k !! id1 = Some RSelect -> k_readers k !! id2 = Some RSelect -> id1 = id2) /\
  (k_closer k = CLocked -> k_first k <> FRefreshing /\ k_first k <> FRefreshed).
Proof.
  destruct (Inv_runs ls k Hrun) as [Ho _ He Hr Hc _]. split_and!.
  - intros id Hid. assert (Hopen : k_ready k || k_cancelled k = true).
    { destruct (k_once k) as [|h|]; simpl in Ho; [|destruct Ho as [Hh Hothers]|by destruct Ho].
      - by specialize (Ho id _ Hid).
      - destruct (decide (id = h)) as [->|Hne]; [congruence|by specialize (Hothers id _ Hid Hne)]. }
    rewrite Hr, Hc in Hopen. apply orb_true_iff in Hopen as [Hopen|Hopen]; [left|right].
    + by apply bool_decide_eq_true in Hopen.
    + by destruct (k_closer k).
  - intros id1 id2 H1 H2. destruct (k_once k) as [|h|]; simpl in Ho.
    + by specialize (Ho id1 _ H1).
    + destruct Ho as [_ Hothers]. destruct (decide (id1 = h)) as [->|Hne1]; [|by specialize (Hothers id1 _ H1 Hne1)].
      destruct (decide (id2 = h)) as [->|Hne2]; [done|by specialize (Hothers id2 _ H2 Hne2)].
    + by destruct Ho as [_ Hno]; destruct (Hno id1).
  - intros Hl. rewrite Hl in He. by destruct (k_first k).
Qed.

(** C11: no goroutine of a client is left waiting: in any state it can reach, the
    steps that its goroutines take by themselves (the ConfigCat client's refresh
    returns) are bounded in number, and when none is possible any more the first
    refresh is over, every evaluation has gone through [ensureReady], and [Close]
    has returned if it was called. *)
Theorem clients_start_and_close (ls ls' : list label) (k k' : clients)
    (Hreach : runs step ls started = Some k) (Hrun : runs step ls' k = Some k') (Hint : Forall internal ls') :
  length ls' + work k' <= work k /\
  (idle k' -> k_first k' = FDone /\ (forall id r, k_readers k' !! id = Some r -> r = RThrough) /\
              (k_closer k' = CNone \/ k_closer k' = CDone)).
Proof.
  split; [by eapply runs_bounded; [apply step_work|..]|]. intros Hidle.
  assert (Hinv : Inv k') by (eapply runs_invariant; [apply Inv_step|exact Hrun|by eapply Inv_runs]).
  destruct (idle_places k' Hinv Hidle). split_and!; try done. intros id r. by apply idle_readers.
Qed.

(** Two evaluations begin, the first refresh returns, the client is closed. *)
Definition short_life : list label :=
  [Call 1; Enter 1; Call 2; FirstLock; CallClose; FirstReturns; FirstReady; Wake 1; Follow 2; Cancel; PollStops].
Definition after_life : clients := default started (runs step short_life started).

Lemma evaluations_wait_for_refresh_witness :
  runs step short_life started = Some after_life /\ k_readers after_life !! 2 = Some RThrough /\
  k_first after_life = FDone.
Proof.
  assert (Hrun : runs step short_life started = Some after_life) by (vm_compute; reflexivity).
  split; [done|]. assert (H2 : k_readers after_life !! 2 = Some RThrough) by (vm_compute; reflexivity).
  split; [done|]. by destruct (proj1 (evaluations_wait_for_refresh short_life after_life Hrun) 2 H2).
Defined.

Lemma clients_start_and_close_witness :
  exists k, runs step [CloseLock; CloseReturns] after_life = Some k /\ 2 + work k <= work after_life /\
    k_closer k = CDone.
Proof.
  eexists. split; [vm_compute; reflexivity|]. split; [|reflexivity].
  eapply (clients_start_and_close short_life [CloseLock; CloseReturns] after_life);
    [vm_compute; reflexivity|vm_compute; reflexivity|by repeat constructor].
Defined.

(** The poller's refresh does not take the mutex: it may still run when the
    ConfigCat client is closed. *)
Lemma poll_races_with_close :
  exists ls k, runs step ls started = Some k /\ k_poller k = PRefreshing /\ k_closed k = true.
Proof.
  eexists [FirstLock; FirstReturns; FirstReady; Tick; CallClose; Cancel; CloseLock; CloseReturns], _.
  split; [reflexivity|]. done.
Qed.
