(* ===== verification/Manual.v ===== *)
(** [sdk/sdk_registrar.go], [sdk/user_agent.go]: the registrar of a fixed
    configuration, the transport its clients share, and the interface that both
    registrars offer to the request handlers. *)
From S2P Require Import Prelude Go Utils Model Log ConfigTypes Config Status Store Sdk Registrar Client.
From S2P Require Import Http.
Open Scope Z_scope.

(** ** The transport *)

(** The settings of the HTTP transport that are not the default: the proxy. *)
Record transport := { tp_Proxy : option string }.

(** [sdk/user_agent.go:13-20] userAgentInterceptor, OverrideUserAgent *)
Record userAgentInterceptor := { ua_RoundTripper : transport; ua_userAgent : string }.
Definition OverrideUserAgent (proxyVersion : string) (t : transport) : userAgentInterceptor :=
  {| ua_RoundTripper := t; ua_userAgent := "ConfigCat-Proxy/" +:+ proxyVersion |}.

(** [sdk/user_agent.go:7-9] configCatUserAgentHeader *)
Definition configCatUserAgentHeader : string := "X-ConfigCat-UserAgent".

(** [sdk/user_agent.go:22-28] RoundTrip: the headers of the request it passes on *)
Definition user_agent_RoundTrip (i : userAgentInterceptor) (h : Header.t) : Header.t :=
  let h := if bool_decide (Header.Get h configCatUserAgentHeader <> "")
           then Header.Set_ configCatUserAgentHeader (ua_userAgent i) h else h in
  Header.Set_ "User-Agent" (ua_userAgent i) h.

(** [sdk/sdk_registrar.go:81-93] buildTransport; [url_Parse] is [url.Parse] of
    [net/url], with the URL it stands for as its text *)
Definition buildTransport (url_Parse : string -> go string) (proxyVersion : string) (proxyConf : HttpProxyConfig) :
    userAgentInterceptor :=
  let t := {| tp_Proxy := None |} in
  OverrideUserAgent proxyVersion
    (if bool_decide (hp_Url proxyConf <> "") then
       match url_Parse (hp_Url proxyConf) with
       | Ret proxyUrl => {| tp_Proxy := Some proxyUrl |}
       | _ => t
       end
     else t).

(** ** The registrar of a fixed configuration *)
Section manual.
Context `{xxh : XXHash, cf : ConfigCatFormat, os : OS, mr : MapRange, xc : ExternalCache, pj : ProfileJSON}.
Context (conf : Config) (log : logger).

(** [sdk/sdk_registrar.go:23-26] manualRegistrar; both maps hold locations of
    the heap of clients *)
Record manualRegistrar := {
  mn_sdkClients : gmap string nat;
  mn_sdkClientsBySdkKey : gmap string nat;
  mn_heap : list client;
  mn_statusReporter : reporter
}.

(** [sdk/sdk_registrar.go:40-53] newManualRegistrar, one SDK *)
Definition init_manual (now : Z) (cache : option XC) (r : manualRegistrar) (kv : string * option SDKConfig) :
    go manualRegistrar :=
  let '(key, sdkConf) := kv in
  match sdkConf with
  | None => Panic
  | Some sdkConf =>
      s <-? RegisterSdk now key sdkConf (mn_statusReporter r);
      let '(c, s) := NewClient now {| cx_SdkId := key; cx_SecondarySdkKey := None; cx_SDKConf := sdkConf;
                                      cx_GlobalDefaultAttrs := c_DefaultAttrs conf |} cache log s in
      let l := length (mn_heap r) in
      Ret {| mn_sdkClients := <[key := l]> (mn_sdkClients r);
             mn_sdkClientsBySdkKey := <[sdk_Key sdkConf := l]> (mn_sdkClientsBySdkKey r);
             mn_heap := mn_heap r ++ [c]; mn_statusReporter := s |}
  end.

Definition empty_manual (s : reporter) : manualRegistrar :=
  {| mn_sdkClients := ∅; mn_sdkClientsBySdkKey := ∅; mn_heap := []; mn_statusReporter := s |}.

(** [sdk/sdk_registrar.go:35-55] newManualRegistrar *)
Definition newManualRegistrar (now : Z) (cache : option XC) (s : reporter) : go manualRegistrar :=
  go_fold (init_manual now cache) (empty_manual s) (range (c_SDKs conf)).

(** [sdk/sdk_registrar.go:57-59] GetSdkOrNil *)
Definition manual_GetSdkOrNil (id : string) (r : manualRegistrar) : option nat := mn_sdkClients r !! id.

(** [sdk/sdk_registrar.go:61-63] GetSdkByKeyOrNil *)
Definition manual_GetSdkByKeyOrNil (sdkKey : string) (r : manualRegistrar) : option nat :=
  mn_sdkClientsBySdkKey r !! sdkKey.

(** [sdk/sdk_registrar.go:65-69] RefreshAll: the clients it refreshes, in order *)
Definition manual_RefreshAll (r : manualRegistrar) : list nat := (range (mn_sdkClients r)).*2.

(** [sdk/sdk_registrar.go:71-73] GetAll *)
Definition manual_GetAll (r : manualRegistrar) : gmap string nat := mn_sdkClients r.

(** [sdk/sdk_registrar.go:75-79] Close *)
Definition manual_Close (r : manualRegistrar) : go manualRegistrar :=
  go_fold (fun r kv =>
    match mn_heap r !! kv.2 with
    | None => Panic
    | Some c => c <-? Close c;
                Ret {| mn_sdkClients := mn_sdkClients r; mn_sdkClientsBySdkKey := mn_sdkClientsBySdkKey r;
                       mn_heap := <[kv.2 := c]> (mn_heap r); mn_statusReporter := mn_statusReporter r |}
    end) r (range (mn_sdkClients r)).

(** [sdk/sdk_registrar.go:28-33] NewRegistrar *)
Inductive Registrar := ARegistrar (r : autoRegistrar) | MRegistrar (r : manualRegistrar).
Definition NewRegistrar (now : Z) (do : http_request -> go http_response) (cache : option XC) (s : reporter) :
    go Registrar :=
  if profile_IsSet (c_Profile conf) then r <-? newAutoRegistrar conf log now do cache s; Ret (ARegistrar r)
  else r <-? newManualRegistrar now cache s; Ret (MRegistrar r).

Definition Registrar_Close (r : Registrar) : go Registrar :=
  match r with
  | ARegistrar r => r <-? Close_registrar r; Ret (ARegistrar r)
  | MRegistrar r => r <-? manual_Close r; Ret (MRegistrar r)
  end.

Definition Registrar_heap (r : Registrar) : list client :=
  match r with ARegistrar r => rg_heap r | MRegistrar r => mn_heap r end.
Definition Registrar_GetSdkOrNil (id : string) (r : Registrar) : option nat :=
  match r with ARegistrar r => GetSdkOrNil id r | MRegistrar r => manual_GetSdkOrNil id r end.
Definition Registrar_GetSdkByKeyOrNil (sdkKey : string) (r : Registrar) : option nat :=
  match r with ARegistrar r => GetSdkByKeyOrNil sdkKey r | MRegistrar r => manual_GetSdkByKeyOrNil sdkKey r end.

(** [sdk/sdk_auto_registrar.go:117-122] RefreshAll: the clients it refreshes, in
    order *)
Definition auto_RefreshAll (r : autoRegistrar) : list nat := (range (rg_sdkClients r)).*2.

(** ** Specification *)

Definition context_of (id : string) (sc : SDKConfig) : Context :=
  {| cx_SdkId := id; cx_SecondarySdkKey := None; cx_SDKConf := sc; cx_GlobalDefaultAttrs := c_DefaultAttrs conf |}.

(** the registrar serves these SDKs: one open client each, no other clients, and
    an index with their keys *)
Record serves (sdks : list (string * SDKConfig)) (r : manualRegistrar) : Prop := {
  sv_client : forall id sc, (id, sc) ∈ sdks -> exists l c,
    mn_sdkClients r !! id = Some l /\ mn_heap r !! l = Some c /\
    cl_sdkCtx c = context_of id sc /\ cl_closed c = false;
  sv_only : forall id l, mn_sdkClients r !! id = Some l -> id ∈ sdks.*1;
  sv_heap : forall l c, mn_heap r !! l = Some c -> mn_sdkClients r !! cx_SdkId (cl_sdkCtx c) = Some l;
  sv_index : forall key l, mn_sdkClientsBySdkKey r !! key = Some l ->
    exists id sc, (id, sc) ∈ sdks /\ sdk_Key sc = key /\ mn_sdkClients r !! id = Some l;
  sv_indexed : forall id sc, (id, sc) ∈ sdks -> is_Some (mn_sdkClientsBySdkKey r !! sdk_Key sc)
}.

Lemma empty_serves s : serves [] (empty_manual s).
Proof. split; simpl; try done; intros ?; set_solver. Qed.

Lemma init_manual_serves now cache sdks r id sc :
  serves sdks r -> id ∉ sdks.*1 ->
  exists r', init_manual now cache r (id, Some sc) = Ret r' /\ serves (sdks ++ [(id, sc)]) r'.
Proof.
  intros Hr Hid. unfold init_manual.
  destruct (RegisterSdk_dom now id sc (mn_statusReporter r)) as (s & -> & _). cbn [mbind go_bind].
  fold (context_of id sc).
  pose proof (NewClient_ctx now (context_of id sc) cache log s) as [Hcx Hcl].
  destruct (NewClient now (context_of id sc) cache log s) as [c s']. simpl in Hcx, Hcl.
  eexists. split; [done|].
  assert (Hnone : mn_sdkClients r !! id = None).
  { destruct (mn_sdkClients r !! id) eqn:Hl; [|done]. by apply (sv_only _ _ Hr) in Hl. }
  assert (Hlt : forall l c0, mn_heap r !! l = Some c0 -> (l < length (mn_heap r))%nat) by apply lookup_lt_Some.
  assert (Hne : forall id' sc', (id', sc') ∈ sdks -> id' <> id).
  { intros id' sc' Hin ->. apply Hid. apply list_elem_of_fmap. by exists (id, sc'). }
  split; simpl.
  - intros id' sc' [Hin|Hin%list_elem_of_singleton]%elem_of_app.
    + destruct (sv_client _ _ Hr id' sc' Hin) as (l & c' & Hl & Hc' & ? & ?). exists l, c'.
      rewrite lookup_insert_ne by (intros <-; by eapply Hne). by rewrite lookup_app_l by eauto.
    + injection Hin as -> ->. exists (length (mn_heap r)), c. rewrite lookup_insert_eq.
      by rewrite lookup_app_r, Nat.sub_diag by lia.
  - intros id' l. rewrite fmap_app, lookup_insert. case_decide; [set_solver|].
    intros Hl%(sv_only _ _ Hr). set_solver.
  - intros l c' [Hl|[Hge Hl]]%lookup_app_Some.
    + pose proof (sv_heap _ _ Hr l c' Hl) as Hin.
      rewrite lookup_insert_ne; [done|]. intros Heq; rewrite <- Heq in Hin; congruence.
    + apply list_lookup_singleton_Some in Hl as [Hl <-]. rewrite Hcx. simpl.
      rewrite lookup_insert_eq. f_equal. lia.
  - intros key l. rewrite lookup_insert. case_decide as Hk.
    + intros [= <-]. exists id, sc. rewrite lookup_insert_eq. set_solver.
    + intros Hl. destruct (sv_index _ _ Hr key l Hl) as (id' & sc' & Hin & ? & ?). exists id', sc'.
      rewrite lookup_insert_ne by (intros <-; by eapply Hne). set_solver.
  - intros id' sc' [Hin|Hin%list_elem_of_singleton]%elem_of_app.
    + rewrite lookup_insert. case_decide; [done|]. by apply (sv_indexed _ _ Hr id').
    + injection Hin as -> ->. by rewrite lookup_insert_eq.
Qed.

Lemma manual_loop now cache kvs sdks r :
  (forall id o, (id, o) ∈ kvs -> o <> None) -> NoDup kvs.*1 -> serves sdks r ->
  (forall id, id ∈ kvs.*1 -> id ∉ sdks.*1) ->
  exists r', go_fold (init_manual now cache) r kvs = Ret r' /\
    serves (sdks ++ omap (fun kv => (kv.1,.) <$> kv.2) kvs) r'.
Proof.
  revert sdks r. induction kvs as [|[id o] kvs IH]; intros sdks r Hsome Hnd Hr Hdis.
  - exists r. simpl. by rewrite app_nil_r.
  - apply NoDup_cons in Hnd as [Hid Hnd].
    destruct o as [sc|]; [|by destruct (Hsome id None); [left|]].
    destruct (init_manual_serves now cache sdks r id sc Hr) as (r1 & Hr1 & Hs1); [apply Hdis; simpl; set_solver|].
    destruct (IH (sdks ++ [(id, sc)]) r1) as (r' & Hr' & Hs').
    + intros ??; set_solver.
    + done.
    + done.
    + intros id' Hin. rewrite fmap_app. intros [Hold|Hnew%list_elem_of_singleton]%elem_of_app.
      * by apply (Hdis id'); [simpl; set_solver|].
      * simpl in Hnew. by subst id'.
    + exists r'. cbn [go_fold]. rewrite Hr1. split; [done|]. simpl. by rewrite (cons_middle (id, sc)), app_assoc.
Qed.

(** the SDKs of a configuration, in the order in which they are visited *)
Definition configured : list (string * SDKConfig) := omap (fun kv => (kv.1,.) <$> kv.2) (range (c_SDKs conf)).

Lemma elem_of_configured id sc : (id, sc) ∈ configured <-> c_SDKs conf !! id = Some (Some sc).
Proof.
  unfold configured. rewrite list_elem_of_omap. split.
  - intros ([id' o] & Hin%elem_of_range & Ho). simpl in Ho. apply fmap_Some in Ho as (sc' & -> & [= -> ->]). done.
  - intros Hin. exists (id, Some sc). split; [by apply elem_of_range|done].
Qed.

Lemma newManualRegistrar_serves now cache s : no_nil_sdk conf ->
  exists r, newManualRegistrar now cache s = Ret r /\ serves configured r.
Proof.
  intros Hno. apply (manual_loop now cache (range (c_SDKs conf)) [] (empty_manual s)).
  - intros id o Hin%elem_of_range ->. by apply (Hno id).
  - apply range_NoDup_fst.
  - apply empty_serves.
  - set_solver.
Qed.

(** closing a list of distinct open clients closes those and no others *)
Lemma manual_close_loop (l : list (string * nat)) r :
  NoDup l.*2 -> (forall id loc, (id, loc) ∈ l -> exists c, mn_heap r !! loc = Some c /\ cl_closed c = false) ->
  exists r', go_fold (fun r kv =>
      match mn_heap r !! kv.2 with
      | None => Panic
      | Some c => c <-? Close c;
                  Ret {| mn_sdkClients := mn_sdkClients r; mn_sdkClientsBySdkKey := mn_sdkClientsBySdkKey r;
                         mn_heap := <[kv.2 := c]> (mn_heap r); mn_statusReporter := mn_statusReporter r |}
      end) r l = Ret r' /\
    (forall loc c, mn_heap r' !! loc = Some c -> cl_closed c = false ->
       (loc ∉ l.*2) /\ mn_heap r !! loc = Some c).
Proof.
  revert r. induction l as [|[id loc] l IH]; intros r Hnd Hl.
  - exists r. split; [done|]. intros loc c Hc Ho. split; [set_solver|done].
  - apply NoDup_cons in Hnd as [Hloc Hnd]. destruct (Hl id loc) as (c & Hc & Hopen); [set_solver|].
    destruct (Close_ok c Hopen) as (c' & Hclose & Hclosed & _).
    cbn [go_fold]. simpl snd. rewrite Hc, Hclose. cbn [mbind go_bind].
    edestruct (IH {| mn_sdkClients := mn_sdkClients r; mn_sdkClientsBySdkKey := mn_sdkClientsBySdkKey r;
                     mn_heap := <[loc := c']> (mn_heap r); mn_statusReporter := mn_statusReporter r |})
      as (r' & Hr' & Hheap); [done| |].
    { intros id1 loc1 Hin. simpl. rewrite list_lookup_insert_ne; [apply (Hl id1); set_solver|].
      intros ->. apply Hloc. apply list_elem_of_fmap. by exists (id1, loc1). }
    exists r'. split; [exact Hr'|]. intros loc1 c1 Hc1 Ho1.
    destruct (Hheap loc1 c1 Hc1 Ho1) as [Hnot Hin]. simpl in Hin.
    apply list_lookup_insert_Some in Hin as [(-> & -> & _)|[Hne Hin]]; [congruence|].
    split; [simpl; set_solver|done].
Qed.

Lemma serves_inj sdks r id1 id2 l : serves sdks r ->
  mn_sdkClients r !! id1 = Some l -> mn_sdkClients r !! id2 = Some l -> id1 = id2.
Proof.
  intros Hr H1 H2.
  assert (Hid : forall id, mn_sdkClients r !! id = Some l ->
    exists c, mn_heap r !! l = Some c /\ cx_SdkId (cl_sdkCtx c) = id).
  { intros id Hl. pose proof (sv_only _ _ Hr id l Hl) as Hin.
    apply list_elem_of_fmap in Hin as ([id' sc] & -> & Hin).
    destruct (sv_client _ _ Hr _ _ Hin) as (l' & c & Hl' & Hc & Hcx & _). simpl in Hl.
    assert (l' = l) as -> by congruence. exists c. by rewrite Hcx. }
  destruct (Hid _ H1) as (c1 & Hc1 & <-), (Hid _ H2) as (c2 & Hc2 & <-). congruence.
Qed.

Lemma manual_Close_serves sdks r : serves sdks r ->
  exists r', manual_Close r = Ret r' /\ Forall (fun c => cl_closed c = true) (mn_heap r').
Proof.
  intros Hr. destruct (manual_close_loop (range (mn_sdkClients r)) r) as (r' & Hr' & Hheap).
  - rewrite range_perm. apply NoDup_fmap_2_strong; [|apply NoDup_map_to_list].
    intros [id1 l1] [id2 l2] Hin1%elem_of_map_to_list Hin2%elem_of_map_to_list Heq. simpl in Heq. subst l2.
    f_equal. by eapply serves_inj.
  - intros id l Hin%elem_of_range. pose proof (sv_only _ _ Hr id l Hin) as Hid.
    apply list_elem_of_fmap in Hid as ([id' sc] & -> & Hin').
    destruct (sv_client _ _ Hr _ _ Hin') as (l' & c & Hl' & Hc & _ & Ho). simpl in Hin. exists c.
    assert (l' = l) as -> by congruence. done.
  - exists r'. split; [exact Hr'|]. apply Forall_lookup. intros l c Hc.
    destruct (cl_closed c) eqn:Ho; [done|]. destruct (Hheap l c Hc Ho) as [Hnot Hold]. exfalso. apply Hnot.
    apply list_elem_of_fmap. exists (cx_SdkId (cl_sdkCtx c), l). split; [done|].
    apply elem_of_range. by apply (sv_heap _ _ Hr).
Qed.
End manual.

(** ** The view of the request handlers *)
Section views.
Context `{mr : MapRange, cc : ConfigCatSDK, xc : ExternalCache}.

(** the client at a location with its ConfigCat client; [ready] holds the
    latter, once they are ready *)
Definition client_at (ready : nat -> CC) (heap : list client) (l : option nat) : option (client * CC) :=
  l ← l; c ← heap !! l; Some (c, ready l).

(** [sdk/sdk_registrar.go:15-21] the interface [Registrar], of either registrar *)
Definition handler_registrar (ready : nat -> CC) (r : Registrar) : registrar (H := sdk_client) :=
  Build_registrar sdk_client
    (fun sdkId => client_at ready (Registrar_heap r) (Registrar_GetSdkOrNil sdkId r))
    (fun sdkKey => client_at ready (Registrar_heap r) (Registrar_GetSdkByKeyOrNil sdkKey r)).
End views.

(** ** Properties *)

(** C24: without a profile the registrar serves exactly the SDKs of the
    configuration: each id leads to an open client made from that SDK's
    settings, an unknown id to none; an SDK key leads to a client with that key,
    and every configured key leads to one; and closing the registrar closes
    every client it made, once each. It holds for every order in which the SDKs
    are visited, and whatever the status reporter and the cache hold. *)
Theorem manual_registrar_serves_configuration
    `{XXHash, ConfigCatFormat, OS, MapRange, ExternalCache, ProfileJSON}
    (conf : Config) (log : logger) (now : Z) (do : http_request -> go http_response) (cache : option XC) (s : reporter)
    (Hprofile : profile_Key (c_Profile conf) = "") (Hsdks : no_nil_sdk conf) :
  exists r, NewRegistrar conf log now do cache s = Ret (MRegistrar r) /\
  (forall id, match c_SDKs conf !! id with
              | Some (Some sc) => exists l c, manual_GetSdkOrNil id r = Some l /\ mn_heap r !! l = Some c /\
                  cl_sdkCtx c = context_of conf id sc /\ cl_closed c = false
              | _ => manual_GetSdkOrNil id r = None
              end) /\
  (forall key l, manual_GetSdkByKeyOrNil key r = Some l ->
     exists id sc, c_SDKs conf !! id = Some (Some sc) /\ sdk_Key sc = key /\ manual_GetSdkOrNil id r = Some l) /\
  (forall id sc, c_SDKs conf !! id = Some (Some sc) -> is_Some (manual_GetSdkByKeyOrNil (sdk_Key sc) r)) /\
  exists r', Registrar_Close (MRegistrar r) = Ret r' /\ Forall (fun c => cl_closed c = true) (Registrar_heap r').
Proof.
  destruct (newManualRegistrar_serves conf log now cache s Hsdks) as (r & Hr & Hs).
  exists r. unfold NewRegistrar, profile_IsSet. rewrite Hprofile, bool_decide_eq_false_2 by tauto. rewrite Hr.
  split; [done|]. split_and!.
  - intros id. destruct (c_SDKs conf !! id) as [[sc|]|] eqn:Hid; [|by destruct (Hsdks id)|].
    + apply (sv_client _ _ _ Hs). by apply elem_of_configured.
    + unfold manual_GetSdkOrNil. destruct (mn_sdkClients r !! id) as [l|] eqn:Hl; [|done].
      pose proof (sv_only _ _ _ Hs id l Hl) as Hin. apply list_elem_of_fmap in Hin as ([id' sc] & -> & Hin).
      apply elem_of_configured in Hin. simpl in Hid. congruence.
  - intros key l Hl. destruct (sv_index _ _ _ Hs key l Hl) as (id & sc & Hin%elem_of_configured & ? & ?). eauto.
  - intros id sc Hin. apply (sv_indexed _ _ _ Hs id). by apply elem_of_configured.
  - destruct (manual_Close_serves conf _ r Hs) as (r' & Hc & Hall). exists (MRegistrar r').
    unfold Registrar_Close. rewrite Hc. done.
Qed.

Definition demo_sdk (key : string) : SDKConfig :=
  {| sdk_Key := key; sdk_BaseUrl := ""; sdk_PollInterval := 60; sdk_DataGovernance := "global";
     sdk_WebhookSignatureValidFor := 300; sdk_WebhookSigningKey := ""; sdk_DefaultAttrs := None;
     sdk_Offline := zero_OfflineConfig; sdk_Log := {| log_Level := "" |} |}.
Definition demo_conf : Config :=
  on_c_SDKs (fun _ => {["a" := Some (demo_sdk "key-a"); "b" := Some (demo_sdk "key-b")]}) zero_Config.

Import ToyInstances.

Lemma manual_registrar_serves_configuration_witness :
  exists r, NewRegistrar demo_conf NewNullLogger 0 Toy.not_modified None NewEmptyReporter = Ret (MRegistrar r) /\
    is_Some (manual_GetSdkByKeyOrNil "key-b" r) /\ manual_GetSdkOrNil "c" r = None.
Proof.
  assert (Hsdks : no_nil_sdk demo_conf).
  { assert (Hall : map_Forall (fun _ o => o <> None) (c_SDKs demo_conf)) by (apply (bool_decide_unpack _); by vm_compute).
    intros id Hid. exact (Hall id None Hid eq_refl). }
  destruct (manual_registrar_serves_configuration demo_conf NewNullLogger 0 Toy.not_modified None NewEmptyReporter
              eq_refl Hsdks) as (r & Hr & Hid & _ & Hkey & _).
  exists r. split; [exact Hr|]. split; [apply (Hkey "b" (demo_sdk "key-b")); reflexivity | exact (Hid "c")].
Defined.

(** Every request of an SDK or of the registrar goes out under the proxy's own
    user agent; the SDK's own agent header is replaced where it is present and
    never added. *)
Theorem user_agent_is_overridden (url_Parse : string -> go string) (version : string) (proxyConf : HttpProxyConfig)
    (h : Header.t) :
  let i := buildTransport url_Parse version proxyConf in
  let h' := user_agent_RoundTrip i h in
  let agent := "ConfigCat-Proxy/" +:+ version in
  Header.Get h' "User-Agent" = agent /\
  Header.Get h' configCatUserAgentHeader = (if bool_decide (Header.Get h configCatUserAgentHeader <> "")
                                            then agent else "") /\
  (tp_Proxy (ua_RoundTripper i) = if bool_decide (hp_Url proxyConf <> "") then
                                    match url_Parse (hp_Url proxyConf) with Ret u => Some u | _ => None end
                                  else None).
Proof.
  cbv zeta. unfold user_agent_RoundTrip, buildTransport. simpl ua_userAgent. split_and!.
  - apply Header.Get_Set.
  - rewrite Header.Get_Set_ne by done. case_bool_decide as Ha; [apply Header.Get_Set|].
    by destruct (decide (Header.Get h configCatUserAgentHeader = "")) as [->|?].
  - simpl. case_bool_decide; [|done]. by destruct (url_Parse _).
Qed.
