(* ===== verification/Restart.v ===== *)
(** The external cache ([cache], module [Cache]) and the automatic registrar
    ([sdk/sdk_auto_registrar.go], module [Registrar]) together: a profile that
    one process has fetched is there for the next one. The proofs use the cache
    through its laws only. *)
From S2P Require Import Prelude Go Utils Model Log ConfigTypes Config Status Store Sdk Cache Registrar Refresh.
Open Scope Z_scope.

Section restart.
Context `{xxh : XXHash, cf : ConfigCatFormat, os : OS, mr : MapRange, pj : ProfileJSON}.
Context {x : ExternalCache} {cl : CacheLaws x}.

(** the endpoint answers every request with this document under this ETag *)
Definition answers (do : http_request -> go http_response) (etag body : string) : Prop :=
  forall q, do q = Ret {| hr_StatusCode := 200; hr_ETag := etag; hr_Body := Ret body |}.

(** no request gets an answer *)
Definition unreachable (do : http_request -> go http_response) : Prop := forall q, exists err, do q = Fail err.

(** [W/] before an ETag is dropped *)
Definition strong_etag (etag : string) : string := if Str.HasPrefix etag "W/" then Str.drop 2 etag else etag.

(** an ETag and a document that the cached form can hold, and that do not look
    like those the registrar starts with *)
Definition cacheable (etag body : string) : Prop :=
  etag <> "" /\ (newline ∉ String.list_ascii_of_string etag) /\ etag <> "initial" /\ body <> "".

Lemma fetch_answers conf do etag body e0 : answers do etag body ->
  fetchConfig conf do e0 = Ret (Some body, strong_etag etag).
Proof. intros Hdo. unfold fetchConfig. by rewrite Hdo. Qed.

Lemma fetch_unreachable conf do e0 : unreachable do -> exists err, fetchConfig conf do e0 = Fail err.
Proof. intros Hdo. unfold fetchConfig. destruct (Hdo (profile_request conf e0)) as [err ->]. eauto. Qed.

Lemma readCache_no_panic conf r : (readCache conf r).2 <> Panic.
Proof.
  unfold readCache. destruct (rg_cache r) as [c|]; [|done].
  pose proof (get_no_panic c (cacheKey conf)). destruct (xc_get c _); simpl; [|done..].
  case_bool_decide; [done|]. unfold cacheSegmentsFromBytes. by repeat case_match.
Qed.

(** an online load stores what it fetched *)
Lemma getConfig_stores conf do r c etag body :
  goff_Enabled (c_GlobalOfflineConfig conf) = false -> rg_cache r = Some c -> cache_up c ->
  answers do etag body ->
  exists c', rg_cache (getConfig conf do r).2 = Some c' /\ cache_up c' /\
    cache_view c' !! cacheKey conf = Some (cacheSegmentsToBytes (strong_etag etag) body).
Proof.
  intros Hon Hc Hup Hdo. unfold getConfig.
  pose proof (readCache_no_panic conf r) as Hnp. destruct (readCache conf r) as [cachedEtag cached].
  rewrite Hon, (fetch_answers conf do etag body cachedEtag Hdo).
  unfold writeCache. rewrite Hc.
  destruct (set_up c (cacheKey conf) (cacheSegmentsToBytes (strong_etag etag) body) Hup) as (c' & Hset & Hup').
  rewrite Hset. exists c'. split; [|split; [done|]].
  - destruct cached; [..|done]; unfold parseConfig; simpl; repeat case_match; done.
  - rewrite (set_ok _ _ _ _ Hset). apply lookup_insert_eq.
Qed.

(** a load without the network gives what the cache holds *)
Lemma getConfig_restores conf do s c etag body config :
  goff_Enabled (c_GlobalOfflineConfig conf) = true \/ unreachable do ->
  cache_up c -> cache_view c !! cacheKey conf = Some (cacheSegmentsToBytes etag body) ->
  cacheable etag body -> profile_unmarshal body = Ret config ->
  exists r, getConfig conf do (empty_registrar (Some c) s) = (Ret (Some config), r).
Proof.
  intros Hoff Hup Hc (He & Hnl & Hinit & Hb) Hjson. unfold getConfig.
  assert (Hread : readCache conf (empty_registrar (Some c) s) = (etag, Ret body)).
  { unfold readCache. simpl. rewrite (get_up _ _ _ Hup Hc).
    rewrite bool_decide_eq_false_2 by (unfold cacheSegmentsToBytes; by destruct etag).
    by rewrite (proj2 (segments_Some _ body etag)). }
  rewrite Hread.
  assert (Hparse : exists r, parseConfig body etag (empty_registrar (Some c) s) = (Ret (Some config), r)).
  { unfold parseConfig. simpl. rewrite bool_decide_eq_false_2 by done. rewrite Hjson. eauto. }
  destruct (goff_Enabled _) eqn:Hg; [done|]. destruct Hoff as [?|Hdo]; [done|].
  by destruct (fetch_unreachable conf do etag Hdo) as [err ->].
Qed.

(** ** Properties *)

(** C13: a profile survives a restart without the network. Once an online
    registrar has fetched a profile while its external cache was reachable, a new
    registrar over that cache, for the same profile, in global offline mode or
    with the endpoint unreachable, starts and serves exactly the SDKs of that
    profile, with their keys; and it stays well-formed. The ETag has to be
    non-empty, without a line break and other than [initial], and the document
    non-empty. *)
Theorem profile_survives_restart (conf conf' : Config) (log' : logger) (r : autoRegistrar) (c : XC)
    (do do' : http_request -> go http_response) (etag body : string) (config : ProxyConfigModel)
    (now' : Z) (s' : reporter)
    (Honline : goff_Enabled (c_GlobalOfflineConfig conf) = false)
    (Hcache : rg_cache r = Some c) (Hup : cache_up c)
    (Hdo : answers do etag body) (Hetag : cacheable (strong_etag etag) body)
    (Hjson : profile_unmarshal body = Ret config) (Hmodels : no_nil_model config)
    (Hprofile : profile_Key (c_Profile conf') = profile_Key (c_Profile conf))
    (Hdown : goff_Enabled (c_GlobalOfflineConfig conf') = true \/ unreachable do')
    (Hsdks : no_nil_sdk conf') (Hs : st_SDKs (rp_status s') = ∅) :
  exists r', newAutoRegistrar conf' log' now' do' (rg_cache (getConfig conf do r).2) s' = Ret r' /\ WF r' /\
    (forall id, view r' id = remote config id) /\ rg_options r' = p_Options config.
Proof.
  destruct (getConfig_stores conf do r c etag body Honline Hcache Hup Hdo) as (c' & -> & Hup' & Hview).
  replace (cacheKey conf) with (cacheKey conf') in Hview by (unfold cacheKey; by rewrite Hprofile).
  destruct (getConfig_restores conf' do' s' c' _ body config Hdown Hup' Hview Hetag Hjson) as [r1 Hr1].
  destruct (newAutoRegistrar_ok conf' log' now' do' (Some c') s' config r1 Hsdks Hmodels Hs Hr1)
    as (r' & Hr' & Hwf & Hv & _ & Ho & _).
  exists r'. done.
Qed.
End restart.

Import ToyInstances.

Lemma toy_cache_laws : CacheLaws Toy.xc.
Proof.
  refine {| cache_view := (fun c : gmap string string => c) : @XC Toy.xc -> _; cache_up _ := True |}.
  all: simpl.
  - intros c k v. by destruct (c !! k); intros [= ->].
  - by intros c k v _ ->.
  - intros c k. by destruct (c !! k).
  - by intros c k v c' [= <-].
  - done.
  - intros c k v _. by eexists.
  - done.
Defined.

Lemma profile_survives_restart_witness :
  exists r', newAutoRegistrar Toy.conf NewNullLogger 7 (fun _ => Fail "unreachable")
               (rg_cache (getConfig Toy.conf (Toy.served "W/2" "profile2") (empty_registrar (Some ∅) NewEmptyReporter)).2)
               NewEmptyReporter = Ret r' /\ view r' "d" = Some ("d1", "").
Proof.
  destruct (profile_survives_restart (cl := toy_cache_laws) Toy.conf Toy.conf NewNullLogger
              (empty_registrar (Some ∅) NewEmptyReporter) ∅ (Toy.served "W/2" "profile2")
              (fun _ => Fail "unreachable") "W/2" "profile2" Toy.profile2 7 NewEmptyReporter)
    as (r' & Hr' & _ & Hv & _).
  - reflexivity.
  - reflexivity.
  - exact I.
  - intros q. reflexivity.
  - split; [done|]. split; [|done]. apply (bool_decide_unpack _). by vm_compute.
  - reflexivity.
  - apply (owned_no_nil Toy.own), toy_owned2.
  - reflexivity.
  - right. intros q. by eexists.
  - apply toy_no_nil.
  - reflexivity.
  - exists r'. split; [exact Hr'|]. rewrite Hv. reflexivity.
Defined.
