(* ===== verification/Stream.v ===== *)
(** [stream/channel.go], [stream/connection.go], [stream/stream.go]: the stream
    of one SDK. Its goroutine takes one event at a time (a connection opened or
    closed, a configuration change), so a run is a fold of the events over the
    state. Connections with the same flag key and the same user discriminator
    share a channel. What is sent to the connections is kept as a log; [Delivery]
    carries it through the buffers of the connections. *)
From S2P Require Import Prelude Go Utils Model Store Client.
Open Scope Z_scope.

(** [stream/channel.go:8] AllFlagsDiscriminator *)
Definition AllFlagsDiscriminator : string := "[ALL]".

(** [stream/connection.go:3-6] Connection; [cn_id] is its identity (the pointer) *)
Record Connection := { cn_id : nat; cn_discriminator : Z }.

#[export] Instance Connection_eq_dec : EqDecision Connection.
Proof. solve_decision. Defined.

(** What a connection receives. *)
Inductive message :=
| MSingle (p : option ResponsePayload)
| MAll (ps : gmap string ResponsePayload).

(** [stream/channel.go:18-33] singleFlagChannel, allFlagsChannel: the last
    payload, the connections and the user of the [connectionHolder] *)
Inductive payload :=
| PSingle (lastPayload : option ResponsePayload)
| PAll (lastPayload : gmap string ResponsePayload).
Record channel := {
  ch_payload : payload;
  ch_connections : list Connection;
  ch_user : option (gmap string value)
}.

(** [stream/stream.go:24-28] connEstablished *)
Record connEstablished := { es_conn : Connection; es_user : option (gmap string value); es_key : string }.

(** [stream/stream.go:30-33] connClosed *)
Record connClosed := { cd_conn : Connection; cd_key : string }.

Section stream.
Context `{mr : MapRange, ft : FloatText, C : Client}.

Definition payloads (values : gmap string EvalData) : gmap string ResponsePayload :=
  fold_left (fun final '(key, val) => <[key := PayloadFromEvalData val]> final) (range values) ∅.

(** [stream/channel.go:35-49] createChannel *)
Definition createChannel (established : connEstablished) (sdkClient : SC) : channel :=
  {| ch_payload :=
       if bool_decide (es_key established = AllFlagsDiscriminator)
       then PAll (payloads (c_EvalAll sdkClient (es_user established)))
       else PSingle (Some (PayloadFromEvalData (c_Eval sdkClient (es_key established) (es_user established))));
     ch_connections := []; ch_user := es_user established |}.

(** [stream/channel.go:51-57] LastPayload *)
Definition LastPayload (ch : channel) : message :=
  match ch_payload ch with PSingle p => MSingle p | PAll ps => MAll ps end.

(** a message to every connection of a channel, in order *)
Definition send_all (ch : channel) (m : message) : list (nat * message) :=
  (fun conn => (cn_id conn, m)) <$> ch_connections ch.

Definition set_payload (p : payload) (ch : channel) : channel :=
  {| ch_payload := p; ch_connections := ch_connections ch; ch_user := ch_user ch |}.

(** [sf.lastPayload == nil || val.Value != sf.lastPayload.Value]; the comparison
    of two values of one uncomparable type panics *)
Definition value_changed (val : EvalData) (last : option ResponsePayload) : go bool :=
  match last with
  | None => Ret true
  | Some p => match iface_eqb (d_Value val) (r_Value p) with
              | Some b => Ret (negb b)
              | None => Panic
              end
  end.

(** [stream/channel.go:59-95] Notify: the channel afterwards and what it sends *)
Definition Notify (sdkClient : SC) (key : string) (ch : channel) : go (channel * list (nat * message)) :=
  match ch_payload ch with
  | PSingle last =>
      let val := c_Eval sdkClient key (ch_user ch) in
      match d_Error val with
      | Some _ => Ret (ch, [])
      | None =>
          chg <-? value_changed val last;
          if chg : bool then
            let payload := Some (PayloadFromEvalData val) in
            Ret (set_payload (PSingle payload) ch, send_all ch (MSingle payload))
          else Ret (ch, [])
      end
  | PAll _ =>
      let values := c_EvalAll sdkClient (ch_user ch) in
      if Nat.eqb (size values) 0 then Ret (ch, [])
      else
        let final := payloads values in
        Ret (set_payload (PAll final) ch,
             if negb (Nat.eqb (size final) 0) then send_all ch (MAll final) else [])
  end.

(** [stream/channel.go:97-99] AddConnection *)
Definition AddConnection (conn : Connection) (ch : channel) : channel :=
  {| ch_payload := ch_payload ch; ch_connections := ch_connections ch ++ [conn]; ch_user := ch_user ch |}.

(** [stream/channel.go:101-113] RemoveConnection, the search and the removal *)
Fixpoint remove_first (conn : Connection) (l : list Connection) : list Connection :=
  match l with
  | [] => []
  | c :: l => if decide (c = conn) then l else c :: remove_first conn l
  end.
Definition RemoveConnection (conn : Connection) (ch : channel) : channel :=
  {| ch_payload := ch_payload ch; ch_connections := remove_first conn (ch_connections ch);
     ch_user := ch_user ch |}.

(** [stream/channel.go:115-117] IsEmpty *)
Definition IsEmpty (ch : channel) : bool := Nat.eqb (length (ch_connections ch)) 0.

(** [stream/stream.go:35-48] stream; [sm_sent] logs the sends to connections *)
Record stream := {
  sm_sdkClient : SC;
  sm_channels : gmap string (gmap Z channel);
  sm_connCount : Z;
  sm_sent : list (nat * message)
}.

(** [stream/stream.go:50-68] NewStream *)
Definition NewStream (sdkClient : SC) : stream :=
  {| sm_sdkClient := sdkClient; sm_channels := ∅; sm_connCount := 0; sm_sent := [] |}.

Definition set_channels m (s : stream) :=
  {| sm_sdkClient := sm_sdkClient s; sm_channels := m; sm_connCount := sm_connCount s; sm_sent := sm_sent s |}.
Definition add_sent l (s : stream) :=
  {| sm_sdkClient := sm_sdkClient s; sm_channels := sm_channels s; sm_connCount := sm_connCount s;
     sm_sent := sm_sent s ++ l |}.
Definition add_count d (s : stream) :=
  {| sm_sdkClient := sm_sdkClient s; sm_channels := sm_channels s; sm_connCount := i64 (sm_connCount s + d);
     sm_sent := sm_sent s |}.

(** [stream/stream.go:106-111] CreateConnection, the discriminator; [h] is the
    digest under the stream's seed *)
Definition connection_discriminator (h : string -> Z) (user : option (gmap string value)) : Z :=
  match user with Some _ => Discriminator h user | None => 0 end.

(** [stream/stream.go:106-119] CreateConnection, the connection and the event it
    hands to the goroutine; [id] is the new pointer *)
Definition CreateConnection (h : string -> Z) (id : nat) (key : string) (user : option (gmap string value)) :
    connEstablished :=
  {| es_conn := {| cn_id := id; cn_discriminator := connection_discriminator h user |};
     es_user := user; es_key := key |}.

(** [stream/stream.go:151-166] addConnection *)
Definition addConnection (established : connEstablished) (s : stream) : stream :=
  let d := cn_discriminator (es_conn established) in
  let bucket := match sm_channels s !! es_key established with
                | Some bucket => bucket
                | None => {[d := createChannel established (sm_sdkClient s)]}
                end in
  let ch := match bucket !! d with
            | Some ch => ch
            | None => createChannel established (sm_sdkClient s)
            end in
  let ch := AddConnection (es_conn established) ch in
  add_sent [(cn_id (es_conn established), LastPayload ch)]
    (set_channels (<[es_key established := <[d := ch]> bucket]> (sm_channels s)) s).

(** [stream/stream.go:168-184] removeConnection *)
Definition removeConnection (closed : connClosed) (s : stream) : stream :=
  let d := cn_discriminator (cd_conn closed) in
  match sm_channels s !! cd_key closed with
  | None => s
  | Some bucket =>
      match bucket !! d with
      | None => s
      | Some ch =>
          let ch := RemoveConnection (cd_conn closed) ch in
          let bucket := if IsEmpty ch then delete d bucket else <[d := ch]> bucket in
          set_channels (if Nat.eqb (size bucket) 0 then delete (cd_key closed) (sm_channels s)
                        else <[cd_key closed := bucket]> (sm_channels s)) s
      end
  end.

(** [stream/stream.go:190-194] notifyConnections, one channel; the channel is
    updated in place *)
Definition notify_channel (key : string) (st : gmap Z channel * list (nat * message)) (e : Z * channel)
    (sdkClient : SC) : go (gmap Z channel * list (nat * message)) :=
  let '(bucket, sent) := st in
  r <-? Notify sdkClient key e.2;
  Ret (<[e.1 := r.1]> bucket, sent ++ r.2).

(** [stream/stream.go:189-195] notifyConnections, one bucket *)
Definition notify_bucket (sdkClient : SC) (s : stream) (kb : string * gmap Z channel) : go stream :=
  r <-? go_fold (fun st e => notify_channel kb.1 st e sdkClient) (kb.2, []) (range kb.2);
  Ret (add_sent r.2 (set_channels (<[kb.1 := r.1]> (sm_channels s)) s)).

(** [stream/stream.go:186-199] notifyConnections *)
Definition notifyConnections (s : stream) : go stream :=
  go_fold (notify_bucket (sm_sdkClient s)) s (range (sm_channels s)).

(** [stream/stream.go:130-139] ResetSdk, the swap of the client *)
Definition ResetSdk (client : SC) (s : stream) : stream :=
  {| sm_sdkClient := client; sm_channels := sm_channels s; sm_connCount := sm_connCount s; sm_sent := sm_sent s |}.

(** [stream/stream.go:94-96] CanEval *)
Definition CanEval (key : string) (s : stream) : bool := c_HasKey (sm_sdkClient s) key.

(** [stream/stream.go:98-100] SdkKeys *)
Definition stream_SdkKeys (s : stream) : string * option string := c_SdkKeys (sm_sdkClient s).

(** [stream/stream.go:102-104] IsInValidState *)
Definition stream_IsInValidState (s : stream) : bool := c_IsInValidState (sm_sdkClient s).

(** The events of the goroutine, and the swap of the client by another one. *)
Inductive event :=
| Established (e : connEstablished)
| Closed (e : connClosed)
| SdkConfigChanged
| Reset (client : SC).

(** [stream/stream.go:70-92] run, one event *)
Definition handle (s : stream) (e : event) : go stream :=
  match e with
  | Established e => Ret (add_count 1 (addConnection e s))
  | Closed e => Ret (add_count (-1) (removeConnection e s))
  | SdkConfigChanged => notifyConnections s
  | Reset client => Ret (ResetSdk client s)
  end.

(** ** Specification *)

(** the channel of a flag and a discriminator *)
Definition chan (s : stream) (key : string) (d : Z) : option channel :=
  b ← sm_channels s !! key; b !! d.

(** the latest message a connection was sent *)
Definition last_msg (s : stream) (id : nat) : option message :=
  snd <$> last (filter (fun p => p.1 = id) (sm_sent s)).

(** the connections that a run has left open *)
Definition is_open (c : connClosed) (e : connEstablished) : Prop :=
  es_conn e = cd_conn c /\ es_key e = cd_key c.
#[export] Instance is_open_dec c e : Decision (is_open c e).
Proof. unfold is_open. apply _. Defined.

Definition open_step (o : list connEstablished) (e : event) : list connEstablished :=
  match e with
  | Established e => o ++ [e]
  | Closed c => filter (fun e => ~ is_open c e) o
  | _ => o
  end.
Definition opened (events : list event) : list connEstablished := fold_left open_step events [].

(** How the servers use a stream: a new connection has an identity of its own,
    and a connection is closed once, under the flag it was opened for. *)
Definition valid_event (o : list connEstablished) (e : event) : Prop :=
  match e with
  | Established e => forall e', e' ∈ o -> cn_id (es_conn e') <> cn_id (es_conn e)
  | Closed c => Exists (is_open c) o
  | _ => True
  end.
Fixpoint valid_from (o : list connEstablished) (events : list event) : Prop :=
  match events with
  | [] => True
  | e :: events => valid_event o e /\ valid_from (open_step o e) events
  end.

(** the open connections of one flag and discriminator, in the order of opening *)
Definition members (o : list connEstablished) (key : string) (d : Z) : list Connection :=
  es_conn <$> filter (fun e => es_key e = key /\ cn_discriminator (es_conn e) = d) o.

Lemma payloads_fmap values : payloads values = PayloadFromEvalData <$> values.
Proof. apply (range_fold_fmap PayloadFromEvalData). Qed.

(** ** The channels after each operation *)
Lemma chan_set k d (ch : option channel) b m s :
  (b = default ∅ (sm_channels s !! k)) -> m = <[k := partial_alter (fun _ => ch) d b]> (sm_channels s) ->
  forall k' d', chan (set_channels m s) k' d' =
    if decide (k' = k /\ d' = d) then ch else chan s k' d'.
Proof.
  intros -> -> k' d'. unfold chan. simpl. destruct (decide (k' = k)) as [->|Hk].
  - rewrite lookup_insert_eq. simpl. destruct (decide (d' = d)) as [->|Hd].
    + rewrite decide_True by done. by rewrite lookup_partial_alter_eq.
    + rewrite decide_False by tauto. rewrite lookup_partial_alter_ne by done.
      by destruct (sm_channels s !! k).
  - rewrite lookup_insert_ne by done. by rewrite decide_False by tauto.
Qed.

Lemma chan_add_sent l s k d : chan (add_sent l s) k d = chan s k d.
Proof. done. Qed.
Lemma chan_add_count n s k d : chan (add_count n s) k d = chan s k d.
Proof. done. Qed.

Definition buckets_ok (s : stream) : Prop := forall k b, sm_channels s !! k = Some b -> b <> ∅.

Lemma addConnection_chan e s k' d' :
  let k := es_key e in let d := cn_discriminator (es_conn e) in
  chan (addConnection e s) k' d' =
  if decide (k' = k /\ d' = d)
  then Some (AddConnection (es_conn e) (default (createChannel e (sm_sdkClient s)) (chan s k d)))
  else chan s k' d'.
Proof.
  intros k d. unfold addConnection. rewrite chan_add_sent. fold k d.
  erewrite (chan_set k d _ _ _ s eq_refl); [reflexivity|]. f_equal.
  unfold chan. destruct (sm_channels s !! k) as [b|]; simpl.
  - reflexivity.
  - rewrite lookup_singleton_eq. apply map_eq. intros d1. destruct (decide (d1 = d)) as [->|Hd].
    + by rewrite lookup_insert_eq, lookup_partial_alter_eq.
    + by rewrite lookup_insert_ne, lookup_singleton_ne, lookup_partial_alter_ne by done.
Qed.

Lemma addConnection_buckets e s : buckets_ok s -> buckets_ok (addConnection e s).
Proof.
  intros Hok k b. unfold addConnection. simpl. intros [[<- <-]|[_ Hb]]%lookup_insert_Some; [|by apply (Hok k)].
  apply insert_non_empty.
Qed.

Lemma removeConnection_chan c s k' d' :
  let k := cd_key c in let d := cn_discriminator (cd_conn c) in
  chan (removeConnection c s) k' d' =
  if decide (k' = k /\ d' = d)
  then ch ← chan s k d; let ch := RemoveConnection (cd_conn c) ch in if IsEmpty ch then None else Some ch
  else chan s k' d'.
Proof.
  intros k d. unfold removeConnection. fold k d.
  assert (Hid : chan s k d = None -> chan s k' d' = if decide (k' = k /\ d' = d) then None else chan s k' d').
  { intros Hn. case_decide as Hx; [|done]. by destruct Hx as [-> ->]. }
  unfold chan in Hid at 1 |- * at 2. destruct (sm_channels s !! k) as [b|] eqn:Hb; simpl in *; [|by apply Hid].
  destruct (b !! d) as [ch|] eqn:Hd; simpl; [|by apply Hid]. clear Hid.
  set (ch' := RemoveConnection _ ch). set (b' := if IsEmpty ch' then delete d b else <[d:=ch']> b).
  assert (Hb' : b' = partial_alter (fun _ => if IsEmpty ch' then None else Some ch') d b).
  { unfold b'. by destruct (IsEmpty ch'). }
  destruct (Nat.eqb (size b') 0) eqn:Hsize.
  - apply Nat.eqb_eq, map_size_empty_inv in Hsize.
    unfold chan. simpl. destruct (decide (k' = k)) as [->|Hk].
    + rewrite lookup_delete_eq. simpl. destruct (decide (d' = d)) as [->|Hdd].
      * rewrite decide_True by done. symmetry. transitivity (b' !! d); [|by rewrite Hsize].
        by rewrite Hb', lookup_partial_alter_eq.
      * rewrite decide_False by tauto. rewrite Hb. simpl. transitivity (b' !! d'); [by rewrite Hsize|].
        by rewrite Hb', lookup_partial_alter_ne.
    + rewrite lookup_delete_ne by done. by rewrite decide_False by tauto.
  - apply (chan_set k d _ b); [by rewrite Hb|]. by rewrite Hb'.
Qed.

Lemma removeConnection_buckets c s : buckets_ok s -> buckets_ok (removeConnection c s).
Proof.
  intros Hok k b. unfold removeConnection.
  destruct (sm_channels s !! cd_key c) as [b0|]; [|apply Hok].
  destruct (b0 !! _) as [ch|]; [|apply Hok]. simpl.
  set (b' := if IsEmpty _ then _ else _). destruct (Nat.eqb (size b') 0) eqn:Hsize.
  - intros [_ Hb]%lookup_delete_Some. by apply (Hok k).
  - intros [[_ <-]|[_ Hb]]%lookup_insert_Some; [|by apply (Hok k)].
    intros Hb'. rewrite Hb' in Hsize. by rewrite map_size_empty in Hsize.
Qed.

(** ** Notifying *)
Context `{!ClientLaws C}.

Lemma iface_eqb_scalar v w : scalar v -> iface_eqb v w <> None.
Proof. destruct v, w; simpl; try done; tauto. Qed.

(** a channel is left as it is, or takes a new payload and sends it to all *)
Lemma Notify_cases c key ch :
  Notify c key ch = Ret (ch, []) \/
  exists p, let ch' := set_payload p ch in Notify c key ch = Ret (ch', send_all ch' (LastPayload ch')).
Proof.
  unfold Notify. destruct (ch_payload ch) as [last|ps] eqn:Hp.
  - set (p := PSingle (Some (PayloadFromEvalData (c_Eval c key (ch_user ch))))).
    destruct (d_Error _); [by left|]. destruct last as [lp|]; [|right; by exists p]. unfold value_changed.
    pose proof (iface_eqb_scalar (d_Value (c_Eval c key (ch_user ch))) (r_Value lp) (Eval_scalar c key _)) as Hs.
    destruct (iface_eqb _ _) as [[]|]; [by left|right; by exists p|done].
  - destruct (Nat.eqb (size _) 0) eqn:Hsize; [by left|]. right.
    exists (PAll (payloads (c_EvalAll c (ch_user ch)))).
    rewrite (payloads_fmap (c_EvalAll c (ch_user ch))), map_size_fmap. by rewrite Hsize.
Qed.

Definition notified (c : SC) (key : string) (ch : channel) : channel * list (nat * message) :=
  match Notify c key ch with Ret r => r | _ => (ch, []) end.

Lemma Notify_notified c key ch : Notify c key ch = Ret (notified c key ch).
Proof. unfold notified. by destruct (Notify_cases c key ch) as [-> | [p ->]]. Qed.

Lemma notified_connections c key ch : ch_connections (notified c key ch).1 = ch_connections ch.
Proof. unfold notified. by destruct (Notify_cases c key ch) as [-> | [p ->]]. Qed.

Lemma notified_user c key ch : ch_user (notified c key ch).1 = ch_user ch.
Proof. unfold notified. by destruct (Notify_cases c key ch) as [-> | [p ->]]. Qed.

Lemma notified_kind c key ch :
  match ch_payload (notified c key ch).1, ch_payload ch with
  | PSingle _, PSingle _ | PAll _, PAll _ => True
  | _, _ => False
  end.
Proof.
  unfold notified, Notify. destruct (ch_payload ch) as [last|ps] eqn:Hp.
  - destruct (d_Error _); simpl; [by rewrite Hp|].
    destruct (value_changed _ last) as [[]| |]; simpl; by rewrite ?Hp.
  - destruct (Nat.eqb _ 0); simpl; by rewrite ?Hp.
Qed.

(** after a notification the payload is that of the current configuration *)
Lemma notified_single c key ch last :
  ch_payload ch = PSingle last -> let ev := c_Eval c key (ch_user ch) in
  d_Error ev = None ->
  exists p, LastPayload (notified c key ch).1 = MSingle (Some p) /\
    (iface_eqb (d_Value ev) (r_Value p) = Some true \/ p = PayloadFromEvalData ev).
Proof.
  intros Hp ev Herr. unfold notified, Notify. rewrite Hp. fold ev. rewrite Herr.
  destruct last as [p|]; simpl; [|eexists; split; [reflexivity|by right]].
  pose proof (iface_eqb_scalar (d_Value ev) (r_Value p) (Eval_scalar c key _)) as Hs.
  destruct (iface_eqb _ _) as [[]|] eqn:Heq; simpl; [|eexists; split; [reflexivity|by right]|done].
  exists p. unfold LastPayload. rewrite Hp. auto.
Qed.

Lemma notified_all c key ch ps :
  ch_payload ch = PAll ps -> c_EvalAll c (ch_user ch) <> ∅ ->
  LastPayload (notified c key ch).1 = MAll (PayloadFromEvalData <$> c_EvalAll c (ch_user ch)).
Proof.
  intros Hp Hne. unfold notified, Notify. rewrite Hp.
  destruct (Nat.eqb_spec (size (c_EvalAll c (ch_user ch))) 0) as [Hz|Hz]; simpl.
  - by apply map_size_empty_inv in Hz.
  - unfold LastPayload. simpl. by rewrite payloads_fmap.
Qed.

(** the messages of one bucket, and of all *)
Definition bucket_sends (c : SC) (key : string) (l : list (Z * channel)) : list (nat * message) :=
  concat ((fun e => (notified c key e.2).2) <$> l).

Lemma bucket_loop c key l bucket sent :
  NoDup l.*1 -> (forall d ch, (d, ch) ∈ l -> bucket !! d = Some ch) ->
  exists bucket', go_fold (fun st e => notify_channel key st e c) (bucket, sent) l =
      Ret (bucket', sent ++ bucket_sends c key l) /\
    forall d, bucket' !! d = if decide (d ∈ l.*1) then (fun ch => (notified c key ch).1) <$> bucket !! d
                             else bucket !! d.
Proof.
  revert bucket sent. induction l as [|[d ch] l IH]; intros bucket sent Hnd Hl.
  - exists bucket. unfold bucket_sends. simpl. by rewrite app_nil_r.
  - apply NoDup_cons in Hnd as [Hd Hnd].
    destruct (IH (<[d := (notified c key ch).1]> bucket) (sent ++ (notified c key ch).2)) as (bucket' & Hgo & Hb).
    { done. }
    { intros d1 ch1 Hin. rewrite lookup_insert_ne; [apply Hl; by right|].
      intros ->. apply Hd. apply list_elem_of_fmap. by exists (d1, ch1). }
    exists bucket'. cbn [go_fold notify_channel snd fst]. rewrite Notify_notified. cbn [mbind go_bind].
    rewrite Hgo. split; [unfold bucket_sends; by rewrite fmap_cons, <- app_assoc|].
    intros d1. rewrite Hb, fmap_cons. simpl. destruct (decide (d1 = d)) as [->|Hne].
    + rewrite (decide_False (P := d ∈ l.*1)) by done. rewrite decide_True by set_solver.
      rewrite lookup_insert_eq, (Hl d ch) by (by left). done.
    + rewrite lookup_insert_ne by done. destruct (decide (d1 ∈ l.*1)) as [Hin|Hin].
      * rewrite decide_True by set_solver. done.
      * rewrite decide_False by set_solver. done.
Qed.

Lemma notify_bucket_ok c s key b :
  sm_channels s !! key = Some b ->
  exists s', notify_bucket c s (key, b) = Ret s' /\
    sm_channels s' = <[key := (fun ch => (notified c key ch).1) <$> b]> (sm_channels s) /\
    sm_sent s' = sm_sent s ++ bucket_sends c key (range b) /\
    sm_sdkClient s' = sm_sdkClient s /\ sm_connCount s' = sm_connCount s.
Proof.
  intros Hb. unfold notify_bucket. simpl.
  destruct (bucket_loop c key (range b) b []) as (b' & -> & Hb'); [apply range_NoDup_fst| |].
  { intros d ch. apply elem_of_range. }
  simpl. eexists. split; [done|]. simpl. split; [|done]. f_equal.
  apply map_eq. intros d. rewrite Hb', lookup_fmap. case_decide as Hd; [done|].
  rewrite elem_of_range_keys in Hd. apply eq_None_not_Some in Hd. by rewrite Hd.
Qed.

Definition all_sends (c : SC) (l : list (string * gmap Z channel)) : list (nat * message) :=
  concat ((fun kb => bucket_sends c kb.1 (range kb.2)) <$> l).

Lemma notify_loop c l s :
  NoDup l.*1 -> (forall k b, (k, b) ∈ l -> sm_channels s !! k = Some b) ->
  exists s', go_fold (notify_bucket c) s l = Ret s' /\
    (forall k, sm_channels s' !! k =
       if decide (k ∈ l.*1) then (fmap (fun ch => (notified c k ch).1)) <$> sm_channels s !! k
       else sm_channels s !! k) /\
    sm_sent s' = sm_sent s ++ all_sends c l /\
    sm_sdkClient s' = sm_sdkClient s /\ sm_connCount s' = sm_connCount s.
Proof.
  revert s. induction l as [|[k b] l IH]; intros s Hnd Hl.
  - exists s. unfold all_sends. simpl. by rewrite app_nil_r.
  - apply NoDup_cons in Hnd as [Hk Hnd].
    destruct (notify_bucket_ok c s k b) as (s1 & Hs1 & Hch1 & Hsent1 & Hc1 & Hn1); [apply Hl; by left|].
    destruct (IH s1) as (s' & Hgo & Hch & Hsent & Hc & Hn); [done| |].
    { intros k1 b1 Hin. rewrite Hch1, lookup_insert_ne; [apply Hl; by right|].
      intros ->. apply Hk. apply list_elem_of_fmap. by exists (k1, b1). }
    exists s'. cbn [go_fold]. rewrite Hs1. cbn [mbind go_bind]. rewrite Hgo.
    split; [done|]. split; [|split; [|by rewrite Hc, Hn]].
    + intros k1. rewrite Hch, Hch1, fmap_cons. simpl. destruct (decide (k1 = k)) as [->|Hne].
      * rewrite (decide_False (P := k ∈ l.*1)) by done. rewrite decide_True by set_solver.
        rewrite lookup_insert_eq, (Hl k b) by (by left). done.
      * rewrite lookup_insert_ne by done. destruct (decide (k1 ∈ l.*1)) as [Hin|Hin].
        -- rewrite decide_True by set_solver. done.
        -- rewrite decide_False by set_solver. done.
    + rewrite Hsent, Hsent1. unfold all_sends. by rewrite fmap_cons, <- app_assoc.
Qed.

Lemma notifyConnections_ok s :
  exists s', notifyConnections s = Ret s' /\
    (forall k d, chan s' k d = (fun ch => (notified (sm_sdkClient s) k ch).1) <$> chan s k d) /\
    (buckets_ok s -> buckets_ok s') /\
    (exists sent, sm_sent s' = sm_sent s ++ sent /\ forall p, p ∈ sent <-> exists k d ch,
       chan s k d = Some ch /\ p ∈ (notified (sm_sdkClient s) k ch).2) /\
    sm_sdkClient s' = sm_sdkClient s /\ sm_connCount s' = sm_connCount s.
Proof.
  unfold notifyConnections.
  destruct (notify_loop (sm_sdkClient s) (range (sm_channels s)) s) as (s' & -> & Hch & Hsent & Hc & Hn).
  { apply range_NoDup_fst. } { intros k b. apply elem_of_range. }
  exists s'. assert (Hall : forall k, sm_channels s' !! k =
    (fmap (fun ch => (notified (sm_sdkClient s) k ch).1)) <$> sm_channels s !! k).
  { intros k. rewrite Hch. case_decide as Hk; [done|]. rewrite elem_of_range_keys in Hk.
    apply eq_None_not_Some in Hk. by rewrite Hk. }
  split; [done|]. split; [|split; [|split; [|done]]].
  - intros k d. unfold chan. rewrite Hall. destruct (sm_channels s !! k); simpl; [by rewrite lookup_fmap|done].
  - intros Hok k b. rewrite Hall. destruct (sm_channels s !! k) as [b0|] eqn:Hb0; simpl; [|done].
    intros [= <-] He. apply fmap_empty_inv in He. by apply (Hok k b0).
  - eexists. split; [exact Hsent|]. intros p. unfold all_sends, bucket_sends.
    rewrite list_elem_of_In, in_concat. setoid_rewrite <- list_elem_of_In. split.
    + intros (l & Hl & Hp). apply list_elem_of_fmap in Hl as ([k b] & -> & Hkb%elem_of_range).
      rewrite list_elem_of_In, in_concat in Hp. setoid_rewrite <- list_elem_of_In in Hp.
      destruct Hp as (l' & Hl' & Hp). apply list_elem_of_fmap in Hl' as ([d ch] & -> & Hd%elem_of_range).
      exists k, d, ch. unfold chan. rewrite Hkb. done.
    + intros (k & d & ch & Hkd & Hp). unfold chan in Hkd.
      destruct (sm_channels s !! k) as [b|] eqn:Hb; simpl in Hkd; [|done].
      eexists. split; [apply list_elem_of_fmap; exists (k, b); split; [done|by apply elem_of_range]|].
      rewrite list_elem_of_In, in_concat. setoid_rewrite <- list_elem_of_In.
      eexists. split; [apply list_elem_of_fmap; exists (d, ch); split; [done|by apply elem_of_range]|]. done.
Qed.

(** ** The invariant *)

(** [est] is every connection ever opened, [o] those still open. *)
Record Inv (est o : list connEstablished) (s : stream) : Prop := {
  inv_channels : forall k d, ch_connections <$> chan s k d =
    if decide (members o k d = []) then None else Some (members o k d);
  inv_buckets : buckets_ok s;
  inv_count : sm_connCount s = i64 (Z.of_nat (length o));
  inv_ids : NoDup ((fun e => cn_id (es_conn e)) <$> o);
  inv_last : forall k d ch conn, chan s k d = Some ch -> conn ∈ ch_connections ch ->
    last_msg s (cn_id conn) = Some (LastPayload ch);
  inv_user : forall k d ch, chan s k d = Some ch -> exists e, e ∈ est /\
    es_key e = k /\ cn_discriminator (es_conn e) = d /\ es_user e = ch_user ch;
  inv_open : forall e, e ∈ o -> e ∈ est;
  inv_kind : forall k d ch, chan s k d = Some ch ->
    match ch_payload ch with PAll _ => k = AllFlagsDiscriminator | PSingle _ => k <> AllFlagsDiscriminator end
}.

Lemma elem_of_members o k d conn :
  conn ∈ members o k d <->
  exists e, e ∈ o /\ es_conn e = conn /\ es_key e = k /\ cn_discriminator (es_conn e) = d.
Proof.
  unfold members. rewrite list_elem_of_fmap. setoid_rewrite list_elem_of_filter. naive_solver.
Qed.

Lemma chan_members est o s k d ch conn :
  Inv est o s -> chan s k d = Some ch -> conn ∈ ch_connections ch <-> conn ∈ members o k d.
Proof.
  intros Hinv Hch. pose proof (inv_channels _ _ _ Hinv k d) as Hc. rewrite Hch in Hc. simpl in Hc.
  case_decide; [done|]. by injection Hc as ->.
Qed.

(** an open connection is in one channel only *)
Lemma member_unique o k1 d1 k2 d2 c1 c2 :
  NoDup ((fun e => cn_id (es_conn e)) <$> o) ->
  c1 ∈ members o k1 d1 -> c2 ∈ members o k2 d2 -> cn_id c1 = cn_id c2 -> c1 = c2 /\ k1 = k2 /\ d1 = d2.
Proof.
  intros Hnd (e1 & He1 & <- & <- & <-)%elem_of_members (e2 & He2 & <- & <- & <-)%elem_of_members Hid.
  assert (e1 = e2) as ->; [|done].
  apply list_elem_of_lookup in He1 as [i1 He1]. apply list_elem_of_lookup in He2 as [i2 He2].
  assert (i1 = i2) as ->; [|congruence].
  eapply (NoDup_lookup _ i1 i2 (cn_id (es_conn e1)) Hnd); rewrite list_lookup_fmap.
  - by rewrite He1.
  - by rewrite He2, Hid.
Qed.

Lemma wrap_s_add w a b : 0 < w -> wrap_s w (wrap_s w a + b) = wrap_s w (a + b).
Proof.
  intros Hw. unfold wrap_s.
  replace ((a + 2 ^ (w - 1)) mod 2 ^ w - 2 ^ (w - 1) + b + 2 ^ (w - 1))
    with ((a + 2 ^ (w - 1)) mod 2 ^ w + b) by lia.
  rewrite Zplus_mod_idemp_l. do 2 f_equal. lia.
Qed.

Lemma last_msg_snoc l s id i m :
  sm_sent s = l ++ [(i, m)] ->
  last_msg s id = if decide (i = id) then Some m else snd <$> last (filter (fun p => p.1 = id) l).
Proof.
  intros Hs. unfold last_msg. rewrite Hs, filter_app, filter_cons, filter_nil. simpl.
  case_decide; [by rewrite last_snoc|by rewrite app_nil_r].
Qed.

Lemma members_snoc o e k d :
  members (o ++ [e]) k d =
  members o k d ++ if decide (es_key e = k /\ cn_discriminator (es_conn e) = d) then [es_conn e] else [].
Proof. unfold members. rewrite filter_app, fmap_app, filter_cons, filter_nil. by case_decide. Qed.

(** the channel of a connection that has been opened: it joins [ch0] *)
Definition joined (s : stream) (e : connEstablished) : channel :=
  default (createChannel e (sm_sdkClient s)) (chan s (es_key e) (cn_discriminator (es_conn e))).

Lemma joined_connections est o s e :
  Inv est o s -> ch_connections (joined s e) = members o (es_key e) (cn_discriminator (es_conn e)).
Proof.
  intros Hinv. unfold joined. pose proof (inv_channels _ _ _ Hinv (es_key e) (cn_discriminator (es_conn e))) as Hc.
  destruct (chan s _ _) as [ch|]; simpl in *; case_decide; congruence.
Qed.

Lemma addConnection_sent e s :
  sm_sent (add_count 1 (addConnection e s)) =
  sm_sent s ++ [(cn_id (es_conn e), LastPayload (AddConnection (es_conn e) (joined s e)))].
Proof.
  unfold addConnection, joined, chan. simpl. do 3 f_equal.
  destruct (sm_channels s !! es_key e) as [b|]; simpl; [by destruct (b !! _)|by rewrite lookup_singleton_eq].
Qed.

Lemma joined_last est o s e conn :
  Inv est o s -> valid_event o (Established e) -> conn ∈ ch_connections (AddConnection (es_conn e) (joined s e)) ->
  last_msg (add_count 1 (addConnection e s)) (cn_id conn) = Some (LastPayload (AddConnection (es_conn e) (joined s e))).
Proof.
  intros Hinv Hfresh. rewrite (last_msg_snoc _ _ _ _ _ (addConnection_sent e s)). simpl.
  rewrite (joined_connections est o s e Hinv).
  intros [Hin|Heq%list_elem_of_singleton]%elem_of_app; [|subst conn; by rewrite decide_True].
  apply elem_of_members in Hin as Hin'. destruct Hin' as (e' & He' & <- & _).
  rewrite decide_False by (intros Heq; by apply (Hfresh e')).
  change (last_msg s (cn_id (es_conn e')) = Some (LastPayload (joined s e))).
  rewrite <- (joined_connections est o s e Hinv) in Hin. unfold joined in *.
  destruct (chan s (es_key e) (cn_discriminator (es_conn e))) as [ch|] eqn:Hch; simpl in *; [|set_solver].
  by apply (inv_last _ _ _ Hinv (es_key e) (cn_discriminator (es_conn e)) ch).
Qed.

Lemma Inv_established est o s e :
  Inv est o s -> valid_event o (Established e) ->
  Inv (est ++ [e]) (o ++ [e]) (add_count 1 (addConnection e s)).
Proof.
  intros Hinv Hfresh. set (k := es_key e). set (d := cn_discriminator (es_conn e)).
  assert (Hchan : forall k' d', chan (add_count 1 (addConnection e s)) k' d' =
    if decide (k' = k /\ d' = d) then Some (AddConnection (es_conn e) (joined s e)) else chan s k' d')
    by (intros; rewrite chan_add_count; apply addConnection_chan).
  split.
  - intros k' d'. rewrite Hchan, members_snoc. fold k d. case_decide as Hkd.
    + destruct Hkd as [-> ->]. rewrite (decide_True (P := k = k /\ d = d)) by done.
      simpl. rewrite (joined_connections est o s e Hinv), decide_False by (by destruct (members o k d)). done.
    + rewrite (decide_False (P := k = k' /\ d = d')) by naive_solver. rewrite app_nil_r. apply Hinv.
  - intros k' b. apply (addConnection_buckets e s). apply Hinv.
  - simpl. rewrite (inv_count _ _ _ Hinv). unfold i64. rewrite wrap_s_add by done.
    rewrite length_app. simpl. f_equal. lia.
  - rewrite fmap_app. apply NoDup_app. split_and!; [apply Hinv| |apply NoDup_singleton].
    intros i (e' & -> & He')%list_elem_of_fmap. simpl. rewrite list_elem_of_singleton. by apply Hfresh.
  - intros k' d' ch conn. rewrite Hchan. case_decide as Hkd; [intros [= <-]; by apply (joined_last est o)|].
    intros Hch Hin. rewrite (last_msg_snoc _ _ _ _ _ (addConnection_sent e s)), decide_False.
    + by apply (inv_last _ _ _ Hinv k' d' ch).
    + rewrite (chan_members _ _ _ _ _ _ _ Hinv Hch) in Hin.
      apply elem_of_members in Hin as (e' & He' & <- & _). intros Heq. by apply (Hfresh e').
  - intros k' d' ch. rewrite Hchan. case_decide as Hkd.
    + intros [= <-]. destruct Hkd as [-> ->]. simpl. unfold joined. fold k d. destruct (chan s k d) as [ch|] eqn:Hch; simpl.
      * destruct (inv_user _ _ _ Hinv k d ch Hch) as (e' & ? & ?). exists e'. split; [set_solver|done].
      * exists e. split; [set_solver|done].
    + intros Hch. destruct (inv_user _ _ _ Hinv k' d' ch Hch) as (e' & ? & ?). exists e'. split; [set_solver|done].
  - intros e' [He'|He'%list_elem_of_singleton]%elem_of_app; [|set_solver].
    apply (inv_open _ _ _ Hinv) in He'. set_solver.
  - intros k' d' ch. rewrite Hchan. case_decide as Hkd; [|apply Hinv].
    intros [= <-]. destruct Hkd as [-> ->]. simpl. unfold joined. fold k d. destruct (chan s k d) as [ch|] eqn:Hch; simpl.
    + by apply (inv_kind _ _ _ Hinv k d).
    + fold k. by case_bool_decide.
Qed.

Lemma remove_first_NoDup conn l : NoDup l -> remove_first conn l = filter (fun c => c <> conn) l.
Proof.
  induction 1 as [|c l Hc Hnd IH]; simpl; [done|]. rewrite filter_cons.
  destruct (decide (c = conn)) as [->|Hne].
  - rewrite decide_False by tauto. symmetry. apply list_filter_all. intros c' Hc' ->. done.
  - rewrite decide_True by done. by rewrite IH.
Qed.

Lemma NoDup_members o k d : NoDup ((fun e => cn_id (es_conn e)) <$> o) -> NoDup (members o k d).
Proof.
  intros Hnd. unfold members. apply (NoDup_fmap_1 cn_id). rewrite <- list_fmap_compose.
  induction o as [|e o IH]; [constructor|]. apply NoDup_cons in Hnd as [He Hnd].
  rewrite filter_cons. case_decide; [|by apply IH]. rewrite fmap_cons. constructor; [|by apply IH].
  intros (e' & Heq & [_ Hin]%list_elem_of_filter)%list_elem_of_fmap. apply He.
  apply list_elem_of_fmap. eauto.
Qed.

Lemma members_closed c o k d :
  members (filter (fun e => ~ is_open c e) o) k d =
  if decide (k = cd_key c /\ d = cn_discriminator (cd_conn c))
  then filter (fun conn => conn <> cd_conn c) (members o k d) else members o k d.
Proof.
  unfold members. induction o as [|e o IH]; [by case_decide|].
  rewrite !filter_cons. unfold is_open at 1.
  destruct (decide (~ (es_conn e = cd_conn c /\ es_key e = cd_key c))) as [Hopen|Hclosed].
  - rewrite filter_cons. destruct (decide (es_key e = k /\ cn_discriminator (es_conn e) = d)) as [Hk|Hk]; [|apply IH].
    rewrite !fmap_cons, IH. case_decide as Hkd; [|done].
    rewrite filter_cons. rewrite decide_True; [done|]. intros Heq. apply Hopen.
    destruct Hkd as [-> ->], Hk as [-> _]. done.
  - rewrite IH. destruct (decide (es_key e = k /\ cn_discriminator (es_conn e) = d)) as [Hk|Hk].
    + assert (es_conn e = cd_conn c /\ es_key e = cd_key c) as [He Hkey] by
        (destruct (decide (es_conn e = cd_conn c)), (decide (es_key e = cd_key c)); tauto).
      destruct Hk as [<- <-]. rewrite !decide_True by (by rewrite He, Hkey).
      rewrite fmap_cons, filter_cons. by rewrite decide_False by tauto.
    + done.
Qed.

Lemma length_closed c o :
  NoDup ((fun e => cn_id (es_conn e)) <$> o) -> Exists (is_open c) o ->
  length o = S (length (filter (fun e => ~ is_open c e) o)).
Proof.
  intros Hnd Hex. induction o as [|e o IH]; [by apply Exists_nil in Hex|].
  apply NoDup_cons in Hnd as [He Hnd]. rewrite filter_cons. destruct (decide (is_open c e)) as [Ho|Ho].
  - rewrite decide_False by tauto. simpl. f_equal. f_equal. symmetry. apply list_filter_all.
    intros e' He' [Hc' _]. apply He. apply list_elem_of_fmap. exists e'. split; [|done].
    destruct Ho as [Hc _]. congruence.
  - rewrite decide_True by done. simpl. f_equal. apply IH; [done|].
    apply Exists_cons in Hex as [?|?]; [done|done].
Qed.

Lemma Inv_closed est o s c :
  Inv est o s -> valid_event o (Closed c) ->
  Inv est (filter (fun e => ~ is_open c e) o) (add_count (-1) (removeConnection c s)).
Proof.
  intros Hinv Hvalid. set (k := cd_key c). set (d := cn_discriminator (cd_conn c)).
  assert (Hchan : forall k' d', chan (add_count (-1) (removeConnection c s)) k' d' =
    if decide (k' = k /\ d' = d)
    then ch ← chan s k d; let ch := RemoveConnection (cd_conn c) ch in if IsEmpty ch then None else Some ch
    else chan s k' d') by (intros; rewrite chan_add_count; apply removeConnection_chan).
  assert (Hsub : forall k' d' ch', chan (add_count (-1) (removeConnection c s)) k' d' = Some ch' ->
    exists ch, chan s k' d' = Some ch /\ ch_connections ch' ⊆ ch_connections ch /\
      ch_payload ch' = ch_payload ch /\ ch_user ch' = ch_user ch).
  { intros k' d' ch'. rewrite Hchan. case_decide as Hkd; [|by eauto].
    destruct Hkd as [-> ->]. destruct (chan s k d) as [ch|]; simpl; [|done].
    destruct (IsEmpty _); [done|]. intros [= <-]. exists ch. split; [done|]. simpl. split; [|done].
    clear. induction (ch_connections ch) as [|x l IH]; simpl; [done|]. case_decide; set_solver. }
  assert (Hsent : forall id, last_msg (add_count (-1) (removeConnection c s)) id = last_msg s id).
  { intros id. unfold last_msg, removeConnection. simpl. by repeat case_match. }
  pose proof (inv_ids _ _ _ Hinv) as Hnd. split.
  - intros k' d'. rewrite Hchan, members_closed. fold k d.
    pose proof (inv_channels _ _ _ Hinv k d) as Hc.
    destruct (decide (k' = k /\ d' = d)) as [[-> ->]|Hkd]; [|apply Hinv].
    destruct (chan s k d) as [ch|]; simpl in *.
    + case_decide as Hm; [done|]. injection Hc as Hc.
      rewrite <- (remove_first_NoDup _ _ (NoDup_members o k d Hnd)). 
      unfold IsEmpty, RemoveConnection. simpl. rewrite Hc.
      by destruct (remove_first (cd_conn c) (members o k d)) as [|x l].
    + case_decide as Hm; [|done]. rewrite Hm. done.
  - apply (removeConnection_buckets c s). apply Hinv.
  - simpl. replace (sm_connCount (removeConnection c s)) with (sm_connCount s)
      by (unfold removeConnection; by repeat case_match).
    rewrite (inv_count _ _ _ Hinv). unfold i64. rewrite wrap_s_add by done.
    rewrite (length_closed c o Hnd Hvalid). f_equal. lia.
  - clear -Hnd. induction o as [|e o IH]; [constructor|]. apply NoDup_cons in Hnd as [He Hnd].
    rewrite filter_cons. case_decide; [|by apply IH]. rewrite fmap_cons. constructor; [|by apply IH].
    intros (e' & Heq & [_ Hin]%list_elem_of_filter)%list_elem_of_fmap. apply He.
    apply list_elem_of_fmap. eauto.
  - intros k' d' ch' conn Hch' Hin. destruct (Hsub _ _ _ Hch') as (ch & Hch & Hsubset & Hpay & _).
    rewrite Hsent. unfold LastPayload. rewrite Hpay. apply (inv_last _ _ _ Hinv k' d' ch); auto.
  - intros k' d' ch' Hch'. destruct (Hsub _ _ _ Hch') as (ch & Hch & _ & _ & ->). by apply (inv_user _ _ _ Hinv k' d').
  - intros e [_ He]%list_elem_of_filter. by apply (inv_open _ _ _ Hinv).
  - intros k' d' ch' Hch'. destruct (Hsub _ _ _ Hch') as (ch & Hch & _ & -> & _). by apply (inv_kind _ _ _ Hinv k' d').
Qed.

(** *** A change *)
Lemma last_filter_const {B} (l : list (nat * B)) id b :
  (exists b', (id, b') ∈ l) -> (forall b', (id, b') ∈ l -> b' = b) ->
  snd <$> last (filter (fun p => p.1 = id) l) = Some b.
Proof.
  intros [b' Hb'] Hall. destruct (last (filter (fun p => p.1 = id) l)) as [[i x]|] eqn:Hlast.
  - apply last_Some_elem_of, list_elem_of_filter in Hlast as [Hi Hx]. simpl in *. subst i. by rewrite (Hall x).
  - apply last_None in Hlast. exfalso. apply (not_elem_of_nil (id, b')). rewrite <- Hlast.
    by apply list_elem_of_filter.
Qed.

Lemma last_msg_app s s' sent id :
  sm_sent s' = sm_sent s ++ sent ->
  (forall m, (id, m) ∉ sent) -> last_msg s' id = last_msg s id.
Proof.
  intros Hs Hno. unfold last_msg. rewrite Hs, filter_app.
  replace (filter (fun p => p.1 = id) sent) with (@nil (nat * message)); [by rewrite app_nil_r|].
  symmetry. apply list_filter_none. intros [i m] Hin Hi. simpl in Hi. subst i. by apply (Hno m).
Qed.

Lemma last_msg_app_const s s' sent id m :
  sm_sent s' = sm_sent s ++ sent -> (exists m', (id, m') ∈ sent) -> (forall m', (id, m') ∈ sent -> m' = m) ->
  last_msg s' id = Some m.
Proof.
  intros Hs Hex Hall. pose proof (last_filter_const sent id m Hex Hall) as Hl.
  unfold last_msg. rewrite Hs, filter_app, last_app.
  destruct (last (filter (fun p => p.1 = id) sent)); [done|done].
Qed.

(** what a notification of a channel sends: its payload, to its connections *)
Lemma notified_sends c key ch p :
  p ∈ (notified c key ch).2 ->
  exists conn, conn ∈ ch_connections ch /\ p = (cn_id conn, LastPayload (notified c key ch).1).
Proof.
  unfold notified. destruct (Notify_cases c key ch) as [-> | [pl ->]]; simpl; [set_solver|].
  intros (conn & -> & Hconn)%list_elem_of_fmap. eauto.
Qed.

Lemma notified_reaches c key ch conn :
  conn ∈ ch_connections ch ->
  (notified c key ch = (ch, [])) \/ (cn_id conn, LastPayload (notified c key ch).1) ∈ (notified c key ch).2.
Proof.
  intros Hconn. unfold notified. destruct (Notify_cases c key ch) as [-> | [pl ->]]; [by left|right].
  apply list_elem_of_fmap. by exists conn.
Qed.

(** after a change the last message of a connection is its channel's payload *)
Lemma changed_last est o s s' sent k d ch conn :
  Inv est o s -> sm_sent s' = sm_sent s ++ sent ->
  (forall p, p ∈ sent <-> exists k d ch, chan s k d = Some ch /\ p ∈ (notified (sm_sdkClient s) k ch).2) ->
  chan s k d = Some ch -> conn ∈ ch_connections ch ->
  last_msg s' (cn_id conn) = Some (LastPayload (notified (sm_sdkClient s) k ch).1).
Proof.
  intros Hinv Hsent Hin Hch Hconn.
  assert (Hown : forall m, (cn_id conn, m) ∈ sent -> m = LastPayload (notified (sm_sdkClient s) k ch).1 /\
    (cn_id conn, m) ∈ (notified (sm_sdkClient s) k ch).2).
  { intros m (k1 & d1 & ch1 & Hch1 & Hm)%Hin.
    destruct (notified_sends _ _ _ _ Hm) as (c1 & Hc1 & [= Hid Heq]).
    rewrite (chan_members _ _ _ _ _ _ _ Hinv Hch1) in Hc1.
    rewrite (chan_members _ _ _ _ _ _ _ Hinv Hch) in Hconn.
    destruct (member_unique o k1 d1 k d c1 conn (inv_ids _ _ _ Hinv) Hc1 Hconn (eq_sym Hid)) as (_ & -> & ->).
    rewrite Hch in Hch1. injection Hch1 as <-. done. }
  destruct (notified_reaches (sm_sdkClient s) k ch conn Hconn) as [Hsame|Hm].
  - rewrite (last_msg_app s s' sent _ Hsent), Hsame; [by apply (inv_last _ _ _ Hinv k d)|].
    intros m [_ Hm]%Hown. rewrite Hsame in Hm. set_solver.
  - apply (last_msg_app_const s s' sent _ _ Hsent); [|by intros m []%Hown].
    eexists. apply Hin. eauto.
Qed.

Lemma Inv_changed est o s :
  Inv est o s -> exists s', notifyConnections s = Ret s' /\ Inv est o s' /\
    sm_sdkClient s' = sm_sdkClient s /\
    (forall k d, chan s' k d = (fun ch => (notified (sm_sdkClient s) k ch).1) <$> chan s k d).
Proof.
  intros Hinv. destruct (notifyConnections_ok s) as (s' & Hret & Hchan & Hb & (sent & Hsent & Hin) & Hc & Hn).
  exists s'. split; [done|]. split; [|done]. split.
  - intros k d. rewrite Hchan, <- (inv_channels _ _ _ Hinv k d).
    destruct (chan s k d) as [ch|]; simpl; [by rewrite notified_connections|done].
  - apply Hb, Hinv.
  - rewrite Hn. apply Hinv.
  - apply Hinv.
  - intros k d ch' conn. rewrite Hchan. destruct (chan s k d) as [ch|] eqn:Hch; simpl; [|done].
    intros [= <-]. rewrite notified_connections. by apply (changed_last est o s s' sent k d ch).
  - intros k d ch'. rewrite Hchan. destruct (chan s k d) as [ch|] eqn:Hch; simpl; [|done].
    intros [= <-]. rewrite notified_user. by apply (inv_user _ _ _ Hinv k d).
  - apply Hinv.
  - intros k d ch'. rewrite Hchan. destruct (chan s k d) as [ch|] eqn:Hch; simpl; [|done].
    intros [= <-]. pose proof (inv_kind _ _ _ Hinv k d ch Hch) as Hkind.
    pose proof (notified_kind (sm_sdkClient s) k ch) as Hsame.
    by destruct (ch_payload (notified _ k ch).1), (ch_payload ch).
Qed.

Definition est_step (est : list connEstablished) (e : event) : list connEstablished :=
  match e with Established e => est ++ [e] | _ => est end.
Definition established (events : list event) : list connEstablished := fold_left est_step events [].

Lemma Inv_handle est o s e :
  Inv est o s -> valid_event o e ->
  exists s', handle s e = Ret s' /\ Inv (est_step est e) (open_step o e) s'.
Proof.
  intros Hinv Hv. destruct e as [e|c| |client]; simpl.
  - eexists. split; [done|]. by apply Inv_established.
  - eexists. split; [done|]. by apply Inv_closed.
  - destruct (Inv_changed est o s Hinv) as (s' & Hs' & Hinv' & _). eauto.
  - eexists. split; [done|]. split; apply Hinv.
Qed.

Lemma Inv_run est o s events :
  Inv est o s -> valid_from o events ->
  exists s', go_fold handle s events = Ret s' /\ Inv (fold_left est_step events est) (fold_left open_step events o) s'.
Proof.
  revert est o s. induction events as [|e events IH]; intros est o s Hinv Hv; [by eexists|].
  destruct Hv as [He Hv]. destruct (Inv_handle est o s e Hinv He) as (s1 & Hs1 & Hinv1).
  cbn [go_fold fold_left]. rewrite Hs1. by apply IH.
Qed.

Lemma Inv_new client : Inv [] [] (NewStream client).
Proof. split; try done. constructor. Qed.
End stream.

(** ** Properties *)

(** C6: a stream's bookkeeping is exact: after any sequence of events in which
    connections have distinct identities and are closed once, under the flag
    they were opened for, every channel holds exactly the open connections of
    its flag and discriminator in the order they were opened, there is no empty
    channel and no empty bucket, the connection count is the number of open
    connections, and every open connection was last sent its channel's current
    payload. *)
Theorem stream_tracks_open_connections `{MapRange, FloatText, C : Client, !ClientLaws C} (client : SC)
    (events : list event) (Hvalid : valid_from [] events) :
  exists s, go_fold handle (NewStream client) events = Ret s /\
    (forall k d, ch_connections <$> chan s k d =
       if decide (members (opened events) k d = []) then None else Some (members (opened events) k d)) /\
    (forall k b, sm_channels s !! k = Some b -> b <> ∅) /\
    sm_connCount s = i64 (Z.of_nat (length (opened events))) /\
    (forall e, e ∈ opened events -> exists ch,
       chan s (es_key e) (cn_discriminator (es_conn e)) = Some ch /\
       last_msg s (cn_id (es_conn e)) = Some (LastPayload ch)).
Proof.
  destruct (Inv_run [] [] (NewStream client) events (Inv_new client) Hvalid) as (s & Hs & Hinv).
  exists s. split; [done|]. split; [apply Hinv|]. split; [apply Hinv|]. split; [apply Hinv|].
  intros e He. assert (Hm : es_conn e ∈ members (opened events) (es_key e) (cn_discriminator (es_conn e))).
  { apply elem_of_members. eauto. }
  pose proof (inv_channels _ _ _ Hinv (es_key e) (cn_discriminator (es_conn e))) as Hc.
  destruct (chan s _ _) as [ch|] eqn:Hch; simpl in Hc; case_decide as Hd; try done.
  - exists ch. split; [done|]. apply (inv_last _ _ _ Hinv _ _ _ _ Hch). injection Hc as ->. exact Hm.
  - unfold opened in Hm. rewrite Hd in Hm. by apply not_elem_of_nil in Hm.
Qed.

(** C5: when the stream has handled a configuration change, every open
    connection is up to date: the last message of a connection to one flag
    carries the value the flag now has for the connection's user (when it
    evaluates without error), and that of a connection to all flags the whole
    current evaluation (when it is not empty). This needs the discriminator to
    separate users: users that share a channel must evaluate alike. *)
Theorem connections_follow_configuration `{MapRange, FloatText, C : Client, !ClientLaws C} (client : SC)
    (events : list event) (s : stream) (e : connEstablished)
    (Hvalid : valid_from [] events) (Hrun : go_fold handle (NewStream client) events = Ret s)
    (Hopen : e ∈ opened events)
    (Hdisc : forall e', e' ∈ established events -> es_key e' = es_key e ->
       cn_discriminator (es_conn e') = cn_discriminator (es_conn e) ->
       c_Eval (sm_sdkClient s) (es_key e) (es_user e') = c_Eval (sm_sdkClient s) (es_key e) (es_user e) /\
       c_EvalAll (sm_sdkClient s) (es_user e') = c_EvalAll (sm_sdkClient s) (es_user e)) :
  exists s', handle s SdkConfigChanged = Ret s' /\
  let ev := c_Eval (sm_sdkClient s) (es_key e) (es_user e) in
  let all := c_EvalAll (sm_sdkClient s) (es_user e) in
  if decide (es_key e = AllFlagsDiscriminator)
  then all <> ∅ -> last_msg s' (cn_id (es_conn e)) = Some (MAll (PayloadFromEvalData <$> all))
  else d_Error ev = None -> exists p, last_msg s' (cn_id (es_conn e)) = Some (MSingle (Some p)) /\
         (iface_eqb (d_Value ev) (r_Value p) = Some true \/ p = PayloadFromEvalData ev).
Proof.
  destruct (Inv_run [] [] (NewStream client) events (Inv_new client) Hvalid) as (s0 & Hs0 & Hinv).
  rewrite Hrun in Hs0. injection Hs0 as <-.
  destruct (Inv_changed _ _ _ Hinv) as (s' & Hs' & Hinv' & _ & Hchan). exists s'. split; [done|].
  set (k := es_key e) in *. set (d := cn_discriminator (es_conn e)) in *.
  assert (Hm : es_conn e ∈ members (opened events) k d) by (apply elem_of_members; eauto).
  pose proof (inv_channels _ _ _ Hinv k d) as Hc.
  destruct (chan s k d) as [ch|] eqn:Hch; simpl in Hc;
    [|case_decide as Hd; [unfold opened in Hm; rewrite Hd in Hm; by apply not_elem_of_nil in Hm|done]].
  assert (Hlast : last_msg s' (cn_id (es_conn e)) = Some (LastPayload (notified (sm_sdkClient s) k ch).1)).
  { apply (inv_last _ _ _ Hinv' k d); [by rewrite Hchan, Hch|]. rewrite notified_connections.
    by apply (chan_members _ _ _ _ _ _ _ Hinv Hch). }
  destruct (inv_user _ _ _ Hinv k d ch Hch) as (e' & He' & Hk' & Hd' & Hu').
  destruct (Hdisc e' He' Hk' Hd') as [Heval Hall]. rewrite Hu' in Heval, Hall.
  pose proof (inv_kind _ _ _ Hinv k d ch Hch) as Hkind. rewrite Hlast.
  destruct (ch_payload ch) as [last|ps] eqn:Hp; [rewrite decide_False by done|rewrite decide_True by done]; cbv zeta.
  - intros Herr. destruct (notified_single (sm_sdkClient s) k ch last Hp) as (p & -> & Hval); [by rewrite Heval|].
    rewrite Heval in Hval. eauto.
  - intros Hne. rewrite (notified_all (sm_sdkClient s) k ch ps Hp); [by rewrite Hall|]. by rewrite Hall.
Qed.

(** A client whose configuration is a number: flag [f] has that value. *)
Definition number_client : Client := {|
  SC := Z;
  c_Eval c key u := {| d_Value := VInt c; d_VariationId := key; d_Error := None; d_User := u; d_IsTargeting := false |};
  c_EvalAll c u := {["f" := {| d_Value := VInt c; d_VariationId := "f"; d_Error := None; d_User := u;
                               d_IsTargeting := false |}]};
  c_Keys c := ["f"]; c_HasKey c key := bool_decide (key = "f");
  c_GetCachedJson c := {| en_ConfigJson := ""; en_ETag := ""; en_FetchTime := 0; en_Empty := false |};
  c_SdkKeys c := ("", None); c_WebhookSigningKey c := ""; c_WebhookSignatureValidFor c := 0;
  c_IsInValidState c := true |}.

Lemma number_client_laws : ClientLaws number_client.
Proof.
  split; simpl.
  - done.
  - intros c u k d Hd. apply lookup_singleton_Some in Hd as [<- <-]. done.
  - intros c k. rewrite bool_decide_eq_true. set_solver.
  - done.
Qed.

Definition no_float_text : FloatText := {| parse_float := fun _ => Fail ""; format_float := fun _ => "" |}.

Section witnesses.
Existing Instances canonical_range no_float_text number_client number_client_laws.

Definition conn1 : connEstablished := {| es_conn := {| cn_id := 1; cn_discriminator := 0 |}; es_user := None; es_key := "f" |}.
Definition conn2 : connEstablished :=
  {| es_conn := {| cn_id := 2; cn_discriminator := 0 |}; es_user := None; es_key := "[ALL]" |}.
Definition two_connections : list event :=
  [Established conn1; Established conn2; Closed {| cd_conn := es_conn conn2; cd_key := "[ALL]" |}; Reset 7].

Lemma two_connections_valid : valid_from [] two_connections.
Proof.
  simpl. split_and!; try done.
  - intros e' He'. set_solver.
  - intros e' He'. apply list_elem_of_singleton in He' as ->. done.
  - apply Exists_exists. exists conn2. split; [set_solver|]. done.
Qed.

Lemma stream_tracks_open_connections_witness :
  exists s, go_fold handle (NewStream (C := number_client) 3) two_connections = Ret s /\ sm_connCount s = 1.
Proof.
  destruct (stream_tracks_open_connections (C := number_client) 3 two_connections two_connections_valid) as (s & Hs & _ & _ & Hc & _).
  exists s. split; [exact Hs|]. rewrite Hc. vm_compute. reflexivity.
Defined.

Lemma connections_follow_configuration_witness :
  exists s s', go_fold handle (NewStream (C := number_client) 3) two_connections = Ret s /\ handle s SdkConfigChanged = Ret s' /\
    exists p, last_msg s' 1 = Some (MSingle (Some p)).
Proof.
  eexists. edestruct (connections_follow_configuration (C := number_client) 3 two_connections) as (s' & Hs' & Hlast).
  - exact two_connections_valid.
  - vm_compute. reflexivity.
  - instantiate (1 := conn1). vm_compute. left.
  - intros e' He' _ _. change (e' ∈ [conn1; conn2]) in He'.
    apply elem_of_cons in He' as [->|He']; [split; reflexivity|].
    apply list_elem_of_singleton in He' as ->. split; reflexivity.
  - exists s'. split; [vm_compute; reflexivity|]. split; [exact Hs'|].
    destruct (Hlast eq_refl) as (p & Hp & _). exists p. exact Hp.
Defined.
End witnesses.
