(* ===== verification/Delivery.v ===== *)
(** [stream/stream.go], [stream/connection.go] with the handlers that wait on a
    connection ([web/sse/sse.go], [grpc/flag_service.go]): the goroutine of a
    stream, its buffered channels and one goroutine per connection, as a labelled
    step function. [Stream] says what the stream's goroutine does with an event;
    here its sends go through buffers of 64 messages and can block. The
    evaluations for one event see one configuration, as in [Stream]. *)
From S2P Require Import Prelude Go Utils Model Store Client Stream.

(** [stream/connection.go:8-13] newConnection, the capacity of [receive] *)
Definition receive_capacity : nat := 64.

(** Where the goroutine of a handler is. *)
Inductive position :=
| Creating   (* in CreateConnection, at the send to the stream *)
| Reading    (* at the select of its loop *)
| Writing    (* writing a message to its client *)
| Closing    (* in CloseConnection, at the send to the stream *)
| Returned.

#[export] Instance position_eq_dec : EqDecision position.
Proof. solve_decision. Defined.

(** [stream/connection.go:3-6] Connection, with the handler that holds it;
    [co_taken] is what the handler has received, in order *)
Record conn := {
  co_est : connEstablished;
  co_position : position;
  co_receive : list message;
  co_taken : list message
}.

Section delivery.
Context `{mr : MapRange, ft : FloatText, C : Client}.

(** [stream/stream.go:35-48] stream: [dl_pending] are the sends to connections
    that the current event has left, empty at the [select] of [run];
    [dl_stop], [dl_server_stop]: the [stop] channels of the stream and of the
    server are closed; [dl_changed]: [sdkConfigChanged] holds a signal *)
Record delivery := {
  dl_stream : stream;
  dl_pending : list (nat * message);
  dl_running : bool;
  dl_stop : bool;
  dl_server_stop : bool;
  dl_changed : bool;
  dl_conns : gmap nat conn
}.

(** [stream/stream.go:50-68] NewStream, the goroutine and its channels *)
Definition NewDelivery (client : SC) : delivery :=
  {| dl_stream := NewStream client; dl_pending := []; dl_running := true; dl_stop := false;
     dl_server_stop := false; dl_changed := false; dl_conns := ∅ |}.

Inductive label :=
| Connect (id : nat) (key : string) (user : option (gmap string value)) (* a handler calls CreateConnection *)
| Establish (id : nat)   (* the stream takes the new connection *)
| Signal                 (* the publisher of the client sends to sdkConfigChanged *)
| TakeSignal
| Swap (client : SC)     (* the stream server gives the stream another client *)
| Send                   (* the stream sends to a connection *)
| Receive (id : nat)
| Written (id : nat)
| Leave (id : nat)       (* the client of the connection has gone *)
| TakeClosed (id : nat)  (* the stream takes the closed connection *)
| Quit (id : nat)        (* a handler sees that the stream or the server is closed *)
| StopServer | Stop
| Return.                (* the stream's goroutine ends *)

Definition on_conns f (d : delivery) : delivery :=
  {| dl_stream := dl_stream d; dl_pending := dl_pending d; dl_running := dl_running d; dl_stop := dl_stop d;
     dl_server_stop := dl_server_stop d; dl_changed := dl_changed d; dl_conns := f (dl_conns d) |}.
Definition set_changed b (d : delivery) : delivery :=
  {| dl_stream := dl_stream d; dl_pending := dl_pending d; dl_running := dl_running d; dl_stop := dl_stop d;
     dl_server_stop := dl_server_stop d; dl_changed := b; dl_conns := dl_conns d |}.
Definition set_run s pending running (d : delivery) : delivery :=
  {| dl_stream := s; dl_pending := pending; dl_running := running; dl_stop := dl_stop d;
     dl_server_stop := dl_server_stop d; dl_changed := dl_changed d; dl_conns := dl_conns d |}.
Definition set_stops stop server (d : delivery) : delivery :=
  {| dl_stream := dl_stream d; dl_pending := dl_pending d; dl_running := dl_running d; dl_stop := stop;
     dl_server_stop := server; dl_changed := dl_changed d; dl_conns := dl_conns d |}.

Definition move (p : position) (c : conn) : conn :=
  {| co_est := co_est c; co_position := p; co_receive := co_receive c; co_taken := co_taken c |}.

(** the handler of [id] goes from one position to another *)
Definition go_to (id : nat) (from to : position) (d : delivery) : option delivery :=
  c ← dl_conns d !! id;
  guard (co_position c = from);; Some (on_conns (<[id := move to c]>) d).

Definition closed_of (e : connEstablished) : connClosed := {| cd_conn := es_conn e; cd_key := es_key e |}.

(** [stream/stream.go:70-92] run, one event taken at the [select]: its effect,
    and the sends it makes. A panic ends the process and is no step. *)
Definition take_event (ev : event) (d : delivery) : option delivery :=
  guard (dl_running d = true);; guard (dl_pending d = []);;
  match handle (dl_stream d) ev with
  | Ret s => Some (set_run s (drop (length (sm_sent (dl_stream d))) (sm_sent s)) true d)
  | _ => None
  end.

(** [stream/stream.go:106-119] CreateConnection: after [stop] the connection is
    not handed to the stream *)
Definition connect (h : string -> Z) (id : nat) (key : string) (user : option (gmap string value)) (d : delivery) :
    option delivery :=
  guard (dl_conns d !! id = None);;
  Some (on_conns (<[id := {| co_est := CreateConnection h id key user;
                             co_position := if dl_stop d then Reading else Creating;
                             co_receive := []; co_taken := [] |}]>) d).

(** [stream/channel.go:70-73] Notify, one send to a connection, when its buffer
    has room; those of lines 91-93 and of [addConnection] are alike *)
Definition send (d : delivery) : option delivery :=
  match dl_pending d with
  | [] => None
  | (id, m) :: rest =>
      c ← dl_conns d !! id;
      guard (length (co_receive c) < receive_capacity)%nat;;
      Some (set_run (dl_stream d) rest (dl_running d)
        (on_conns (<[id := {| co_est := co_est c; co_position := co_position c;
                              co_receive := co_receive c ++ [m]; co_taken := co_taken c |}]>) d))
  end.

(** [web/sse/sse.go:96-98] listenAndRespond, the receive; also
    [grpc/flag_service.go:44-46] EvalFlagStream *)
Definition receive (id : nat) (d : delivery) : option delivery :=
  c ← dl_conns d !! id;
  guard (co_position c = Reading);;
  match co_receive c with
  | [] => None
  | m :: rest => Some (on_conns (<[id := {| co_est := co_est c; co_position := Writing;
                                            co_receive := rest; co_taken := co_taken c ++ [m] |}]>) d)
  end.

(** [stream/stream.go:121-128] CloseConnection, called when the context of the
    request is done *)
Definition leave (id : nat) (d : delivery) : option delivery :=
  go_to id Reading (if dl_stop d then Returned else Closing) d.

(** [stream/stream.go:70-92] run, one step of it or of one of the handlers that
    wait on its connections *)
Definition step (h : string -> Z) (l : label) (d : delivery) : option delivery :=
  match l with
  | Connect id key user => connect h id key user d
  | Establish id =>
      c ← dl_conns d !! id; d ← go_to id Creating Reading d; take_event (Established (co_est c)) d
  | Signal => guard (dl_changed d = false);; Some (set_changed true d)
  | TakeSignal => guard (dl_changed d = true);; take_event SdkConfigChanged (set_changed false d)
  | Swap client => Some (set_run (ResetSdk client (dl_stream d)) (dl_pending d) (dl_running d) d)
  | Send => send d
  | Receive id => receive id d
  | Written id => go_to id Writing Reading d
  | Leave id => leave id d
  | TakeClosed id =>
      c ← dl_conns d !! id; d ← go_to id Closing Returned d; take_event (Closed (closed_of (co_est c))) d
  | Quit id => guard (dl_stop d || dl_server_stop d = true);; go_to id Reading Returned d
  | StopServer => Some (set_stops (dl_stop d) true d)
  | Stop => guard (dl_stop d = false);; Some (set_stops true (dl_server_stop d) d)
  | Return => guard (dl_stop d = true);; guard (dl_pending d = []);; guard (dl_running d = true);;
              Some (set_run (dl_stream d) [] false d)
  end.

Definition run (h : string -> Z) : list label -> delivery -> option delivery := runs (step h).

(** ** The invariant *)

(** the messages of a log for one connection *)
Definition to (id : nat) (l : list (nat * message)) : list message := snd <$> filter (fun p => p.1 = id) l.

(** the handlers, when the stream holds the connections [o] *)
Record Pos (o : list connEstablished) (stop : bool) (conns : gmap nat conn) : Prop := {
  pos_open : forall e, e ∈ o -> exists c, conns !! cn_id (es_conn e) = Some c /\
    co_est c = e /\ co_position c <> Creating;
  pos_conns : forall id c, conns !! id = Some c -> cn_id (es_conn (co_est c)) = id /\
    match co_position c with
    | Creating | Returned => True
    | Reading | Writing => co_est c ∈ o \/ stop = true
    | Closing => co_est c ∈ o
    end
}.

(** the messages sent: received, in the buffer or still to be sent *)
Record Log (o : list connEstablished) (d : delivery) : Prop := {
  log_stream : exists est, Stream.Inv est o (dl_stream d);
  log_messages : forall id c, dl_conns d !! id = Some c -> (length (co_receive c) <= receive_capacity)%nat /\
    co_taken c ++ co_receive c ++ to id (dl_pending d) = to id (sm_sent (dl_stream d));
  log_known : forall p, p ∈ sm_sent (dl_stream d) -> is_Some (dl_conns d !! p.1);
  log_pending : dl_pending d ⊆ sm_sent (dl_stream d)
}.

Definition Inv (d : delivery) : Prop := exists o, Pos o (dl_stop d) (dl_conns d) /\ Log o d.

Lemma to_app id l1 l2 : to id (l1 ++ l2) = to id l1 ++ to id l2.
Proof. unfold to. by rewrite filter_app, fmap_app. Qed.

Lemma to_cons id p l : to id (p :: l) = (if decide (p.1 = id) then [p.2] else []) ++ to id l.
Proof. unfold to. rewrite filter_cons. by case_decide. Qed.

Lemma to_nil id l : (forall p, p ∈ l -> p.1 <> id) -> to id l = [].
Proof. intros Hl. unfold to. by rewrite list_filter_none. Qed.

Lemma last_to id s : last (to id (sm_sent s)) = last_msg s id.
Proof. unfold to, last_msg. by rewrite fmap_last. Qed.

Context `{!ClientLaws C}.

(** what an event sends goes to connections that are open after it *)
Lemma handle_sends est o s ev :
  Stream.Inv est o s -> valid_event o ev ->
  exists s' sent, handle s ev = Ret s' /\ Stream.Inv (est_step est ev) (open_step o ev) s' /\
    sm_sent s' = sm_sent s ++ sent /\
    forall p, p ∈ sent -> exists e, e ∈ open_step o ev /\ cn_id (es_conn e) = p.1.
Proof.
  intros Hinv Hv. destruct (Inv_handle est o s ev Hinv Hv) as (s' & Hs' & Hinv').
  exists s'. destruct ev as [e|c| |client]; simpl in *.
  - injection Hs' as <-. eexists. split; [done|]. split; [done|]. split; [reflexivity|].
    intros p ->%list_elem_of_singleton. exists e. split; [set_solver|done].
  - injection Hs' as <-. exists []. split; [done|]. split; [done|]. split; [|set_solver].
    rewrite app_nil_r. unfold removeConnection. simpl. by repeat case_match.
  - destruct (notifyConnections_ok s) as (s1 & Hs1 & _ & _ & (sent & Hsent & Hto) & _).
    rewrite Hs' in Hs1. injection Hs1 as <-. exists sent. split; [done|]. split; [done|]. split; [done|].
    intros p (k & d & ch & Hch & Hp)%Hto. apply notified_sends in Hp as (conn & Hconn & ->).
    rewrite (chan_members _ _ _ _ _ _ _ Hinv Hch) in Hconn.
    apply elem_of_members in Hconn as (e & He & <- & _). eauto.
  - injection Hs' as <-. exists []. split; [done|]. split; [done|]. split; [by rewrite app_nil_r|set_solver].
Qed.

(** *** The handlers *)
Lemma Pos_move o stop conns id c c' :
  Pos o stop conns -> conns !! id = Some c -> co_est c' = co_est c ->
  match co_position c' with
  | Creating => False
  | Reading | Writing => co_est c ∈ o \/ stop = true
  | Closing => co_est c ∈ o
  | Returned => True
  end -> Pos o stop (<[id := c']> conns).
Proof.
  intros [Ho Hc] Hid He Hp. split.
  - intros e Hin. destruct (Ho e Hin) as (c1 & Hc1 & Hest & Hpos).
    destruct (decide (cn_id (es_conn e) = id)) as [<-|Hne]; [|rewrite lookup_insert_ne by done; eauto].
    rewrite lookup_insert_eq. exists c'. split; [done|]. split; [congruence|]. by intros Heq; rewrite Heq in Hp.
  - intros id1 c1 [[<- <-]|[_ Hc1]]%lookup_insert_Some; [|by apply Hc].
    rewrite He. split; [by apply (Hc id c)|]. by destruct (co_position c').
Qed.

Lemma Pos_same o stop conns id c c' :
  Pos o stop conns -> conns !! id = Some c -> co_est c' = co_est c -> co_position c' = co_position c ->
  Pos o stop (<[id := c']> conns).
Proof.
  intros [Ho Hc] Hid He Hp. split.
  - intros e Hin. destruct (Ho e Hin) as (c1 & Hc1 & Hest & Hpos). rewrite lookup_insert. case_decide as Heq; [|eauto].
    exists c'. split; [done|]. rewrite Heq, Hc1 in Hid. injection Hid as ->. by rewrite He, Hp.
  - intros id1 c1 [[<- <-]|[_ Hc1]]%lookup_insert_Some; [|by apply Hc]. rewrite He, Hp. by apply Hc.
Qed.

Lemma Pos_connect o stop conns h id key user :
  Pos o stop conns -> conns !! id = None ->
  Pos o stop (<[id := {| co_est := CreateConnection h id key user;
                         co_position := if stop then Reading else Creating;
                         co_receive := []; co_taken := [] |}]> conns).
Proof.
  intros [Ho Hc] Hid. split.
  - intros e Hin. destruct (Ho e Hin) as (c1 & Hc1 & Hpos). exists c1.
    rewrite lookup_insert_ne by congruence. done.
  - intros id1 c1 [[<- <-]|[_ Hc1]]%lookup_insert_Some; [|by apply Hc]. simpl. destruct stop; auto.
Qed.

Lemma Pos_stop o stop conns : Pos o stop conns -> Pos o true conns.
Proof.
  intros [Ho Hc]. split; [done|]. intros id c Hid. destruct (Hc id c Hid) as [Hi Hp].
  split; [done|]. destruct (co_position c); auto.
Qed.

Lemma Pos_establish o stop conns id c :
  Pos o stop conns -> conns !! id = Some c -> co_position c = Creating ->
  valid_event o (Established (co_est c)) /\ Pos (o ++ [co_est c]) stop (<[id := move Reading c]> conns).
Proof.
  intros [Ho Hc] Hid Hp. destruct (Hc id c Hid) as [Hi _].
  assert (Hfresh : forall e, e ∈ o -> cn_id (es_conn e) <> id).
  { intros e Hin Heq. destruct (Ho e Hin) as (c1 & Hc1 & _ & Hpos). congruence. }
  split; [intros e Hin; rewrite Hi; by apply Hfresh|]. split.
  - intros e [Hin| ->%list_elem_of_singleton]%elem_of_app.
    + rewrite lookup_insert_ne by (by apply not_eq_sym, Hfresh). by apply Ho.
    + rewrite Hi, lookup_insert_eq. by eexists.
  - intros id1 c1 [[<- <-]|[_ Hc1]]%lookup_insert_Some; [simpl; set_solver|].
    destruct (Hc id1 c1 Hc1) as [Hi1 Hp1]. split; [done|]. destruct (co_position c1); set_solver.
Qed.

Lemma Pos_closed o stop conns id c :
  Pos o stop conns -> conns !! id = Some c -> co_position c = Closing ->
  valid_event o (Closed (closed_of (co_est c))) /\
  Pos (filter (fun e => ~ is_open (closed_of (co_est c)) e) o) stop (<[id := move Returned c]> conns).
Proof.
  intros [Ho Hc] Hid Hp. destruct (Hc id c Hid) as [Hi Hin]. rewrite Hp in Hin.
  split; [apply Exists_exists; by exists (co_est c)|]. split.
  - intros e [Hopen He]%list_elem_of_filter. destruct (Ho e He) as (c1 & Hc1 & Hest & Hpos). exists c1.
    rewrite lookup_insert_ne; [done|]. intros Heq. apply Hopen. rewrite <- Heq, Hid in Hc1.
    injection Hc1 as <-. by rewrite Hest.
  - intros id1 c1 [[<- <-]|[Hne Hc1]]%lookup_insert_Some; [done|].
    destruct (Hc id1 c1 Hc1) as [Hi1 Hp1]. split; [done|].
    assert (Hn : ~ is_open (closed_of (co_est c)) (co_est c1)) by (intros [Heq _]; simpl in Heq; congruence).
    destruct (co_position c1); rewrite ?list_elem_of_filter; tauto.
Qed.

(** *** The messages *)
Lemma Log_conn o d id c c' :
  Log o d -> dl_conns d !! id = Some c -> (length (co_receive c') <= receive_capacity)%nat ->
  co_taken c' ++ co_receive c' = co_taken c ++ co_receive c -> Log o (on_conns (<[id := c']>) d).
Proof.
  intros [Hs Hm Hk Hp] Hid Hlen Heq. split; try done; simpl.
  - intros id1 c1 [[<- <-]|[_ Hc1]]%lookup_insert_Some; [|by apply Hm].
    split; [done|]. rewrite app_assoc, Heq, <- app_assoc. by apply Hm.
  - intros p [x Hx]%Hk. rewrite lookup_insert. case_decide; eauto.
Qed.

Lemma Log_connect o d id e p :
  Log o d -> dl_conns d !! id = None ->
  Log o (on_conns (<[id := {| co_est := e; co_position := p; co_receive := []; co_taken := [] |}]>) d).
Proof.
  intros [Hs Hm Hk Hp] Hid.
  assert (Hnone : forall p, p ∈ sm_sent (dl_stream d) -> p.1 <> id).
  { intros q [x Hx]%Hk Heq. congruence. }
  split; try done; simpl.
  - intros id1 c1 [[<- <-]|[_ Hc1]]%lookup_insert_Some; [|by apply Hm].
    simpl. rewrite !to_nil; [split; [lia|done]|done|]. intros q Hq. apply Hnone. by apply Hp.
  - intros q Hq. rewrite lookup_insert_ne by (by apply not_eq_sym, Hnone). by apply Hk.
Qed.

Lemma Log_event o d ev d' :
  Log o d -> valid_event o ev ->
  (forall e, e ∈ open_step o ev -> is_Some (dl_conns d !! cn_id (es_conn e))) ->
  take_event ev d = Some d' ->
  Log (open_step o ev) d' /\ dl_conns d' = dl_conns d /\ dl_stop d' = dl_stop d.
Proof.
  intros [[est Hs] Hm Hk Hp] Hv Hopen Htake.
  destruct (handle_sends est o (dl_stream d) ev Hs Hv) as (s' & sent & Hret & Hinv & Hsent & Hto).
  unfold take_event in Htake. rewrite Hret, Hsent, drop_app_length in Htake.
  destruct (decide (dl_pending d = [])) as [Hnil|]; simplify_option_eq. split; [|done]. split; simpl.
  - by eexists.
  - intros id c Hc. destruct (Hm id c Hc) as [Hlen Heq]. split; [done|].
    by rewrite Hsent, to_app, <- Heq, Hnil, <- !app_assoc.
  - intros p. rewrite Hsent. intros [Hin|(x & Hx & <-)%Hto]%elem_of_app; auto.
  - rewrite Hsent. intros p Hin. apply elem_of_app. by right.
Qed.

Lemma Log_send o d d' :
  Log o d -> send d = Some d' ->
  Log o d' /\ exists id c m, dl_conns d !! id = Some c /\ dl_stop d' = dl_stop d /\
    dl_conns d' = <[id := {| co_est := co_est c; co_position := co_position c;
                             co_receive := co_receive c ++ [m]; co_taken := co_taken c |}]> (dl_conns d).
Proof.
  intros [Hs Hm Hk Hp]. unfold send. destruct (dl_pending d) as [|[id m] rest] eqn:Hpend; [done|]. intros Hd.
  destruct (dl_conns d !! id) as [c|] eqn:Hc; simplify_option_eq. split; [|by exists id, c, m]. split; simpl.
  - done.
  - intros id1 c1 [[<- <-]|[Hne Hc1]]%lookup_insert_Some; simpl.
    + destruct (Hm id c Hc) as [Hlen <-]. rewrite length_app, to_cons. simpl. rewrite decide_True by done.
      split; [lia|by rewrite <- app_assoc].
    + destruct (Hm id1 c1 Hc1) as [Hlen Heq]. rewrite to_cons in Heq. simpl in Heq.
      rewrite decide_False in Heq by done. done.
  - intros p [x Hx]%Hk. rewrite lookup_insert. case_decide; eauto.
  - intros p Hin. apply Hp. set_solver.
Qed.

Lemma go_to_Some id from to d d' :
  go_to id from to d = Some d' ->
  exists c, dl_conns d !! id = Some c /\ co_position c = from /\ d' = on_conns (<[id := move to c]>) d.
Proof. unfold go_to. intros H. destruct (dl_conns d !! id); simplify_option_eq. eauto. Qed.

(** a handler moves on without touching the messages *)
Lemma Inv_go_to o d id from to d' :
  Pos o (dl_stop d) (dl_conns d) -> Log o d -> go_to id from to d = Some d' ->
  (forall c, dl_conns d !! id = Some c -> co_position c = from ->
     match to with
     | Creating => False
     | Reading | Writing => co_est c ∈ o \/ dl_stop d = true
     | Closing => co_est c ∈ o
     | Returned => True
     end) -> Inv d'.
Proof.
  intros Hpos Hlog (c & Hc & Hfrom & ->)%go_to_Some Hok. exists o. split.
  - apply (Pos_move o _ _ id c); [done..|]. by apply Hok.
  - destruct (log_messages o d Hlog id c Hc). by apply (Log_conn o d id c).
Qed.

(** a handler hands its connection to the stream, or back *)
Lemma Inv_take o d id from to d1 ev d' c :
  Log o d -> dl_conns d !! id = Some c -> go_to id from to d = Some d1 ->
  valid_event o ev -> Pos (open_step o ev) (dl_stop d) (<[id := move to c]> (dl_conns d)) ->
  take_event ev d1 = Some d' -> Inv d'.
Proof.
  intros Hlog Hc (c1 & Hc1 & _ & ->)%go_to_Some Hv Hpos Htake. rewrite Hc in Hc1. injection Hc1 as <-.
  destruct (log_messages o d Hlog id c Hc) as [Hlen _].
  destruct (Log_event o (on_conns (<[id := move to c]>) d) ev d') as (Hlog' & Hconns & Hstop); [|done| |done|].
  - by apply (Log_conn o d id c).
  - intros e (c1 & Hc1 & _)%(pos_open _ _ _ Hpos). eauto.
  - exists (open_step o ev). split; [|done]. by rewrite Hconns, Hstop.
Qed.

Lemma Inv_send o d d' : Pos o (dl_stop d) (dl_conns d) -> Log o d -> send d = Some d' -> Inv d'.
Proof.
  intros Hpos Hlog Hsend. destruct (Log_send o d d' Hlog Hsend) as (Hlog' & id & c & m & Hc & Hstop & Hconns).
  exists o. split; [|done]. rewrite Hconns, Hstop. by apply (Pos_same o _ _ id c).
Qed.

Lemma Inv_receive o d id d' : Pos o (dl_stop d) (dl_conns d) -> Log o d -> receive id d = Some d' -> Inv d'.
Proof.
  intros Hpos Hlog. unfold receive. intros Hd. destruct (dl_conns d !! id) as [c|] eqn:Hc; simplify_option_eq.
  destruct (co_receive c) as [|m rest] eqn:Hr; [done|]. injection Hd as <-. exists o.
  destruct (log_messages o d Hlog id c Hc) as [Hlen _]. rewrite Hr in Hlen. simpl in Hlen. split.
  - apply (Pos_move o _ _ id c); [done..|]. simpl. destruct (pos_conns _ _ _ Hpos id c Hc) as [_ Hp].
    by destruct (co_position c).
  - apply (Log_conn o d id c); [done|done|simpl; lia|]. simpl. by rewrite Hr, <- app_assoc.
Qed.

Lemma delivery_Inv_step h l d d' : step h l d = Some d' -> Inv d -> Inv d'.
Proof.
  intros Hstep (o & Hpos & Hlog).
  pose proof (fun id c Hc => proj2 (pos_conns _ _ _ Hpos id c Hc)) as Hat.
  destruct l as [id key user|id| |  |client| |id|id|id|id|id| | | ]; simpl in Hstep.
  - unfold connect in Hstep. simplify_option_eq. exists o. split; [by apply Pos_connect|by apply Log_connect].
  - destruct (dl_conns d !! id) as [c|] eqn:Hc; [|done]. simpl in Hstep.
    destruct (go_to id Creating Reading d) as [d1|] eqn:Hg; [|done]. simpl in Hstep.
    destruct (go_to_Some _ _ _ _ _ Hg) as (c1 & Hc1 & Hcr & _). rewrite Hc in Hc1. injection Hc1 as <-.
    destruct (Pos_establish o _ _ id c Hpos Hc Hcr). by eapply Inv_take.
  - simplify_option_eq. exists o. split; [done|]. by destruct Hlog; split.
  - simplify_option_eq. destruct (Log_event o (set_changed false d) SdkConfigChanged d') as (Hl & Hconns & Hstop);
      [by destruct Hlog; split|done| |done|].
    + intros e (c & Hc & _)%(pos_open _ _ _ Hpos). eauto.
    + exists o. split; [|done]. by rewrite Hconns, Hstop.
  - injection Hstep as <-. exists o. split; [done|]. destruct Hlog as [[est Hs] ? ? ?]. split; try done.
    exists est. by destruct Hs; split.
  - by eapply Inv_send.
  - by eapply Inv_receive.
  - eapply Inv_go_to; [done..|]. intros c Hc Hp. specialize (Hat id c Hc). by rewrite Hp in Hat.
  - eapply Inv_go_to; [done..|]. intros c Hc Hp. specialize (Hat id c Hc). rewrite Hp in Hat.
    destruct (dl_stop d); [done|]. by destruct Hat.
  - destruct (dl_conns d !! id) as [c|] eqn:Hc; [|done]. simpl in Hstep.
    destruct (go_to id Closing Returned d) as [d1|] eqn:Hg; [|done]. simpl in Hstep.
    destruct (go_to_Some _ _ _ _ _ Hg) as (c1 & Hc1 & Hcl & _). rewrite Hc in Hc1. injection Hc1 as <-.
    destruct (Pos_closed o _ _ id c Hpos Hc Hcl). by eapply Inv_take.
  - simplify_option_eq. by eapply Inv_go_to.
  - injection Hstep as <-. exists o. split; [done|]. by destruct Hlog; split.
  - simplify_option_eq. exists o. split; [by eapply Pos_stop|]. by destruct Hlog; split.
  - destruct (decide (dl_pending d = [])) as [Hnil|]; simplify_option_eq. exists o. split; [done|].
    destruct Hlog as [? Hm ? ?]. split; try done; simpl; [|apply list_subseteq_nil].
    intros id c Hc. destruct (Hm id c Hc) as [Hlen Heq]. split; [done|]. by rewrite <- Heq, Hnil.
Qed.

Lemma delivery_Inv_new client : Inv (NewDelivery client).
Proof.
  exists []. split; split; simpl; try done.
  - intros e He. by apply not_elem_of_nil in He.
  - exists []. apply Stream.Inv_new.
  - intros p Hp. by apply not_elem_of_nil in Hp.
Qed.

Lemma delivery_Inv_run h ls d d' : run h ls d = Some d' -> Inv d -> Inv d'.
Proof. apply runs_invariant, delivery_Inv_step. Qed.
End delivery.

(** ** Progress *)
Section progress.
Context `{mr : MapRange, ft : FloatText, C : Client}.

(** the steps that bring the messages of the current event to the handlers *)
Definition serving (l : label) : Prop :=
  match l with Send | Receive _ | Written _ => True | _ => False end.

(** the handler still takes messages *)
Definition live (c : conn) : Prop := co_position c = Reading \/ co_position c = Writing.

(** the steps a connection needs: two for every message in its buffer, one to
    finish the message it writes *)
Definition conn_work (c : conn) : nat :=
  2 * length (co_receive c) + (if decide (co_position c = Writing) then 1 else 0).
Definition buffered (m : gmap nat conn) : nat := total conn_work m.
Definition work (d : delivery) : nat := 3 * length (dl_pending d) + buffered (dl_conns d).

Lemma buffered_update m id c c' :
  m !! id = Some c -> (buffered (<[id := c']> m) + conn_work c = buffered m + conn_work c')%nat.
Proof. apply total_update. Qed.

Definition all_live (d : delivery) : Prop :=
  forall p, p ∈ dl_pending d -> exists c, dl_conns d !! p.1 = Some c /\ live c.

Lemma serving_work h l d d' :
  step h l d = Some d' -> serving l -> (work d' < work d)%nat.
Proof.
  intros Hstep Hl. destruct l; try done; simpl in Hstep.
  - unfold send in Hstep. destruct (dl_pending d) as [|[id m] rest] eqn:Hp; [done|].
    destruct (dl_conns d !! id) as [c|] eqn:Hc; simplify_option_eq. unfold work. simpl. rewrite Hp. simpl.
    match goal with |- context [buffered (<[id := ?c']> _)] => pose proof (buffered_update _ id c c' Hc) as Ht end.
    unfold conn_work in Ht. simpl in Ht. rewrite length_app in Ht. simpl in Ht. lia.
  - unfold receive in Hstep. destruct (dl_conns d !! id) as [c|] eqn:Hc; simplify_option_eq.
    destruct (co_receive c) as [|m rest] eqn:Hr; [done|]. injection Hstep as <-. unfold work. simpl.
    match goal with |- context [buffered (<[id := ?c']> _)] => pose proof (buffered_update _ id c c' Hc) as Ht end.
    unfold conn_work in Ht. simpl in Ht. rewrite Hr in Ht. simpl in Ht. rewrite decide_False in Ht by congruence. lia.
  - apply go_to_Some in Hstep as (c & Hc & Hpos & ->). unfold work. simpl.
    pose proof (buffered_update _ id c (move Reading c) Hc) as Ht. unfold conn_work in Ht. simpl in Ht.
    rewrite decide_True in Ht by done. lia.
Qed.

(** a live handler stays live, and nothing is added to what is to be sent *)
Definition serves (d d' : delivery) : Prop :=
  dl_pending d' ⊆ dl_pending d /\
  forall id c, dl_conns d !! id = Some c -> live c -> exists c', dl_conns d' !! id = Some c' /\ live c'.

#[local] Instance serves_preorder : PreOrder serves.
Proof.
  split; [intros d; split; eauto|]. intros d1 d2 d3 [Hp1 Hc1] [Hp2 Hc2]. split; [set_solver|].
  intros id c Hc Hl. destruct (Hc1 id c Hc Hl) as (c2 & Hid2 & Hl2). by apply (Hc2 id c2).
Qed.

Lemma serves_conn id c c' d :
  dl_conns d !! id = Some c -> (live c -> live c') -> serves d (on_conns (<[id := c']>) d).
Proof.
  intros Hc Hl. split; [done|]. intros id1 c1 Hc1 Hl1. simpl. rewrite lookup_insert.
  case_decide as Heq; [|eauto]. exists c'. split; [done|]. apply Hl. congruence.
Qed.

Lemma serving_serves h l d d' : step h l d = Some d' -> serving l -> serves d d'.
Proof.
  intros Hstep Hl. destruct l as [| | | | | |id|id| | | | | |]; try done; simpl in Hstep.
  - unfold send in Hstep. destruct (dl_pending d) as [|[id m] rest] eqn:Hp; [done|].
    destruct (dl_conns d !! id) as [c|] eqn:Hc; simplify_option_eq.
    match goal with |- context [<[id := ?c']>] => destruct (serves_conn id c c' d Hc (fun H => H)) as [_ Hs] end.
    split; [simpl; rewrite Hp; set_solver|exact Hs].
  - unfold receive in Hstep. destruct (dl_conns d !! id) as [c|] eqn:Hc; simplify_option_eq.
    destruct (co_receive c); [done|]. injection Hstep as <-. apply (serves_conn id c); [done|]. by right.
  - apply go_to_Some in Hstep as (c & Hc & _ & ->). apply (serves_conn id c); [done|]. by left.
Qed.

Lemma serving_run h ls d d' :
  run h ls d = Some d' -> Forall serving ls -> (length ls + work d' <= work d)%nat /\ serves d d'.
Proof.
  intros Hrun Hs. split.
  - eapply runs_bounded; [apply serving_work|done..].
  - eapply (runs_rel _ serving serves); [apply serving_serves|done..].
Qed.

(** a live handler that cannot go on waits for a message *)
Lemma idle_live h d id c :
  (forall l, serving l -> step h l d = None) -> dl_conns d !! id = Some c -> live c ->
  co_position c = Reading /\ co_receive c = [].
Proof.
  intros Hidle Hc [Hp|Hp].
  - split; [done|]. pose proof (Hidle (Receive id) I) as Hr. simpl in Hr. unfold receive in Hr.
    rewrite Hc in Hr. simpl in Hr. rewrite Hp in Hr. by destruct (co_receive c).
  - pose proof (Hidle (Written id) I) as Hw. simpl in Hw. unfold go_to in Hw. rewrite Hc in Hw. simpl in Hw.
    by rewrite Hp in Hw.
Qed.

Lemma idle_sent h d : (forall l, serving l -> step h l d = None) -> all_live d -> dl_pending d = [].
Proof.
  intros Hidle Hlive. destruct (dl_pending d) as [|[id m] rest] eqn:Hp; [done|].
  destruct (Hlive (id, m)) as (c & Hc & Hl); [rewrite Hp; set_solver|].
  destruct (idle_live h d id c Hidle Hc Hl) as [_ Hempty].
  pose proof (Hidle Send I) as Hs. simpl in Hs. unfold send in Hs. rewrite Hp in Hs. simpl in Hc.
  rewrite Hc in Hs. simpl in Hs. by rewrite Hempty in Hs.
Qed.

(** ** A stream that is stuck *)

(** The stream has ended, or is at a send to a connection whose buffer is full
    and whose handler does not receive any more. *)
Definition stuck (d : delivery) : Prop :=
  match dl_pending d with
  | [] => dl_running d = false
  | (id, _) :: _ => exists c, dl_conns d !! id = Some c /\ (receive_capacity <= length (co_receive c))%nat /\
                     (co_position c = Closing \/ co_position c = Returned)
  end.

(** nothing is sent any more, and who waits for the stream keeps waiting *)
Record frozen (d d' : delivery) : Prop := {
  fr_pending : dl_pending d' = dl_pending d;
  fr_running : dl_running d' = dl_running d;
  fr_sent : sm_sent (dl_stream d') = sm_sent (dl_stream d);
  fr_conns : forall id c, dl_conns d !! id = Some c -> exists c', dl_conns d' !! id = Some c' /\
    co_taken c' ++ co_receive c' = co_taken c ++ co_receive c /\
    (co_position c = Creating \/ co_position c = Closing \/ co_position c = Returned -> c' = c)
}.

#[local] Instance frozen_preorder : PreOrder frozen.
Proof.
  split; [intros d; split; eauto|]. intros d1 d2 d3 [? ? ? H1] [? ? ? H2]. split; try congruence.
  intros id c Hc. destruct (H1 id c Hc) as (c2 & Hc2 & Hm2 & Hp2). destruct (H2 id c2 Hc2) as (c3 & Hc3 & Hm3 & Hp3).
  exists c3. split; [done|]. split; [congruence|]. intros Hp. specialize (Hp2 Hp). subst. auto.
Qed.

Lemma frozen_stuck d d' : frozen d d' -> stuck d -> stuck d'.
Proof.
  intros [Hp Hr _ Hc]. unfold stuck. rewrite Hp, Hr. destruct (dl_pending d) as [|[id m] rest]; [done|].
  intros (c & Hid & Hfull & Hpos). destruct (Hc id c Hid) as (c' & Hid' & _ & Heq). exists c'.
  rewrite Heq by tauto. rewrite Heq in Hid' by tauto. done.
Qed.

Lemma frozen_conn id c c' d :
  dl_conns d !! id = Some c -> co_position c = Reading \/ co_position c = Writing ->
  co_taken c' ++ co_receive c' = co_taken c ++ co_receive c -> frozen d (on_conns (<[id := c']>) d).
Proof.
  intros Hc Hp Hm. split; try done. intros id1 c1 Hc1. simpl. rewrite lookup_insert.
  case_decide as Heq; [|eauto]. subst id1. rewrite Hc in Hc1. injection Hc1 as <-. exists c'.
  split; [done|]. split; [done|]. intros [|[]]; destruct Hp; congruence.
Qed.

Lemma frozen_go_to id from to d d' :
  go_to id from to d = Some d' -> from = Reading \/ from = Writing -> frozen d d'.
Proof. intros (c & Hc & <- & ->)%go_to_Some Hp. by apply (frozen_conn id c). Qed.

Lemma stuck_take d d1 ev :
  stuck d -> dl_pending d1 = dl_pending d -> dl_running d1 = dl_running d -> take_event ev d1 = None.
Proof.
  unfold stuck, take_event. intros Hs -> ->. destruct (dl_pending d) as [|[id m] rest].
  - by rewrite Hs.
  - apply eq_None_not_Some. intros [d' Hd']. by simplify_option_eq.
Qed.

Lemma stuck_go_to d id from to ev : stuck d -> (d1 ← go_to id from to d; take_event ev d1) = None.
Proof.
  intros Hs. destruct (go_to id from to d) as [d1|] eqn:Hg; [|done].
  apply go_to_Some in Hg as (c & _ & _ & ->). by apply (stuck_take d).
Qed.

Lemma stuck_send d : stuck d -> send d = None.
Proof.
  unfold stuck, send. destruct (dl_pending d) as [|[id m] rest]; [done|]. intros (c & -> & Hfull & _).
  apply eq_None_not_Some. intros [d' Hd']. simplify_option_eq. lia.
Qed.

Lemma stuck_step h l d d' : step h l d = Some d' -> stuck d -> frozen d d'.
Proof.
  intros Hstep Hs. destruct l as [id key user|id| |  |client| |id|id|id|id|id| | | ]; simpl in Hstep.
  - unfold connect in Hstep. simplify_option_eq. split; try done. intros id1 c1 Hc1. exists c1. simpl.
    by rewrite lookup_insert_ne by congruence.
  - destruct (dl_conns d !! id); simpl in Hstep; [|done]. by rewrite stuck_go_to in Hstep.
  - simplify_option_eq. split; eauto.
  - simplify_option_eq. by rewrite (stuck_take d) in Hstep.
  - injection Hstep as <-. split; eauto.
  - by rewrite stuck_send in Hstep.
  - unfold receive in Hstep. destruct (dl_conns d !! id) as [c|] eqn:Hc; simplify_option_eq.
    destruct (co_receive c) as [|m rest] eqn:Hr; [done|]. injection Hstep as <-.
    apply (frozen_conn id c); [done|by left|]. simpl. by rewrite Hr, <- app_assoc.
  - by eapply frozen_go_to; [|right].
  - by eapply frozen_go_to; [|left].
  - destruct (dl_conns d !! id); simpl in Hstep; [|done]. by rewrite stuck_go_to in Hstep.
  - simplify_option_eq. by eapply frozen_go_to; [|left].
  - injection Hstep as <-. split; eauto.
  - simplify_option_eq. split; eauto.
  - unfold stuck in Hs. exfalso. destruct (dl_pending d); simplify_option_eq; congruence.
Qed.

Lemma stuck_run h ls d d' : run h ls d = Some d' -> stuck d -> frozen d d'.
Proof.
  intros Hrun Hs. apply (runs_invariant (step h) (fun d' => frozen d d') ls d d'); [|done|done].
  intros l d1 d2 Hl Hf. etrans; [done|]. eapply stuck_step; [done|]. by eapply frozen_stuck.
Qed.
End progress.

(** ** Properties *)

(** C7: whatever the schedule of the goroutines, a connection's handler receives
    exactly the messages the stream sends to it, each once and in order: those
    received, those in its buffer (at most 64) and those the stream has still to
    send make up its part of the log. So the handler of an open connection that
    has nothing more to come has received the current payload of its channel
    last. *)
Theorem connections_receive_in_order `{MapRange, FloatText, C : Client, !ClientLaws C} (h : string -> Z)
    (client : SC) (ls : list label) (d : delivery) (Hrun : run h ls (NewDelivery client) = Some d) :
  (forall id c, dl_conns d !! id = Some c -> (length (co_receive c) <= receive_capacity)%nat /\
     co_taken c ++ co_receive c ++ to id (dl_pending d) = to id (sm_sent (dl_stream d))) /\
  (forall key disc ch conn, chan (dl_stream d) key disc = Some ch -> conn ∈ ch_connections ch ->
     exists c, dl_conns d !! cn_id conn = Some c /\
       (to (cn_id conn) (dl_pending d) = [] -> co_receive c = [] -> last (co_taken c) = Some (LastPayload ch))).
Proof.
  destruct (delivery_Inv_run h ls _ d Hrun (delivery_Inv_new client)) as (o & Hpos & [[est Hinv] Hm Hk _]).
  split; [exact Hm|]. intros k disc ch conn Hch Hconn.
  pose proof (inv_last _ _ _ Hinv k disc ch conn Hch Hconn) as Hlast.
  rewrite (chan_members _ _ _ _ _ _ _ Hinv Hch) in Hconn.
  apply elem_of_members in Hconn as (e & He & <- & _).
  destruct (pos_open _ _ _ Hpos e He) as (c & Hc & _). exists c. split; [done|]. intros Hp Hr.
  destruct (Hm _ c Hc) as [_ Heq]. rewrite Hp, Hr, !app_nil_r in Heq. by rewrite Heq, last_to.
Qed.

(** C8: an event's messages arrive as long as the handlers they go to take
    messages: whatever the order in which the stream sends and the handlers
    receive and write, these steps come to an end, after three steps per message
    to send, two per message in a buffer and one per handler that is already
    writing at most, and when none is possible any more everything has been sent
    and received. *)
Theorem deliveries_complete `{MapRange, FloatText, C : Client} (h : string -> Z) (ls : list label)
    (d d' : delivery) (Hlive : all_live d) (Hrun : run h ls d = Some d') (Hserving : Forall serving ls) :
  (length ls + work d' <= work d)%nat /\
  ((forall l, serving l -> step h l d' = None) ->
   dl_pending d' = [] /\
   forall p, p ∈ dl_pending d -> exists c, dl_conns d' !! p.1 = Some c /\ co_position c = Reading /\ co_receive c = []).
Proof.
  destruct (serving_run h ls d d' Hrun Hserving) as [Hwork [Hsub Hkeep]]. split; [done|]. intros Hidle.
  assert (Hlive' : all_live d').
  { intros p Hp. destruct (Hlive p) as (c & Hc & Hl); [by apply Hsub|]. eauto. }
  split; [by apply (idle_sent h)|]. intros p Hp. destruct (Hlive p Hp) as (c & Hc & Hl).
  destruct (Hkeep p.1 c Hc Hl) as (c' & Hc' & Hl'). exists c'. split; [done|]. by apply (idle_live h d' p.1).
Qed.

(** C9: a stream whose next message is for a connection with a full buffer and a
    handler that has gone on to close it is stuck for good, as the handler waits
    for the stream in turn; likewise one that has ended. Then no connection of the
    SDK is sent anything any more, and no handler that is opening or closing a
    connection ever returns, whatever else happens, the closing of the stream
    included. *)
Theorem stuck_streams_stay_stuck `{MapRange, FloatText, C : Client} (h : string -> Z) (ls : list label)
    (d d' : delivery) (Hstuck : stuck d) (Hrun : run h ls d = Some d') :
  stuck d' /\ dl_pending d' = dl_pending d /\ sm_sent (dl_stream d') = sm_sent (dl_stream d) /\
  forall id c, dl_conns d !! id = Some c -> exists c', dl_conns d' !! id = Some c' /\
    co_taken c' ++ co_receive c' = co_taken c ++ co_receive c /\
    (co_position c = Creating \/ co_position c = Closing -> c' = c).
Proof.
  pose proof (stuck_run h ls d d' Hrun Hstuck) as Hf. pose proof (frozen_stuck d d' Hf Hstuck).
  destruct Hf as [Hp _ Hs Hc]. split_and!; try done.
  intros id c Hid. destruct (Hc id c Hid) as (c' & Hc' & Hm & Heq). exists c'. split; [done|]. split; [done|].
  intros Hpos. apply Heq. tauto.
Qed.

(** ** A small world for the witnesses *)
#[local] Existing Instances canonical_range no_float_text number_client number_client_laws.

Definition no_digest : string -> Z := fun _ => 0.

(** A connection to all flags and one to flag [f]; both read their first message. *)
Definition opening : list label :=
  [Connect 1 "[ALL]" None; Establish 1; Send; Receive 1; Written 1; Connect 2 "f" None; Establish 2; Send].

(** [n] changes of the configuration that the first connection does not read *)
Definition unread (n : nat) : list label := concat (replicate n [Signal; TakeSignal; Send]).

Definition after (ls : list label) : delivery := default (NewDelivery (C := number_client) 3) (run no_digest ls (NewDelivery 3)).

Lemma connections_receive_in_order_witness :
  let d := after (opening ++ unread 2) in
  run no_digest (opening ++ unread 2) (NewDelivery 3) = Some d /\
  exists c, dl_conns d !! 1%nat = Some c /\ length (co_receive c) = 2%nat /\
    co_taken c ++ co_receive c = to 1 (sm_sent (dl_stream d)).
Proof.
  intros d. assert (Hrun : run no_digest (opening ++ unread 2) (NewDelivery 3) = Some d) by (vm_compute; reflexivity).
  destruct (dl_conns d !! 1%nat) as [c|] eqn:Hc; [|vm_compute in Hc; discriminate].
  destruct (connections_receive_in_order no_digest _ _ d Hrun) as [Hm _].
  destruct (Hm 1%nat c Hc) as [_ Heq]. split; [done|]. exists c. split; [done|]. split.
  - vm_compute in Hc. by injection Hc as <-.
  - change (to 1 (dl_pending d)) with (@nil message) in Heq. by rewrite app_nil_r in Heq.
Defined.

Lemma deliveries_complete_witness :
  let d := after (opening ++ [Signal; TakeSignal]) in
  dl_pending d <> [] /\
  forall ls d', run no_digest ls d = Some d' -> Forall serving ls -> (length ls <= 5)%nat.
Proof.
  intros d. split; [vm_compute; discriminate|]. intros ls d' Hrun Hs.
  assert (Hlive : all_live d).
  { intros p Hp. assert (Hid : p.1 = 1%nat).
    { revert p Hp. apply Forall_forall. vm_compute. by repeat constructor. }
    rewrite Hid. destruct (dl_conns d !! 1%nat) as [c|] eqn:Hc; vm_compute in Hc; [|discriminate].
    injection Hc as <-. eexists. split; [done|]. by left. }
  destruct (deliveries_complete no_digest ls d d' Hlive Hrun Hs) as [Hw _].
  assert (Hwork : work d = 5%nat) by (vm_compute; reflexivity). lia.
Defined.

(** The handler of the first connection does not finish a write; the
    configuration changes 65 times; then its client is found to have gone. *)
Definition slow_reader : list label :=
  opening ++ unread 63 ++ [Receive 1; Signal; TakeSignal; Send; Signal; TakeSignal; Send;
                           Signal; TakeSignal; Written 1; Leave 1].

Lemma slow_reader_state :
  let d := after slow_reader in
  run no_digest slow_reader (NewDelivery 3) = Some d /\ stuck d /\ dl_pending d <> [] /\
  exists c, dl_conns d !! 1%nat = Some c /\ co_position c = Closing.
Proof.
  split; [vm_compute; reflexivity|]. split; [|split].
  - vm_compute. eexists. split; [reflexivity|]. split; [lia|by left].
  - vm_compute. discriminate.
  - eexists. split; vm_compute; reflexivity.
Qed.

Lemma stuck_streams_stay_stuck_witness :
  let d := after slow_reader in
  run no_digest slow_reader (NewDelivery 3) = Some d /\ stuck d /\
  forall ls d', run no_digest (Swap 7 :: Signal :: ls) d = Some d' ->
    dl_pending d' <> [] /\ sm_sent (dl_stream d') = sm_sent (dl_stream d) /\
    co_position <$> dl_conns d' !! 1%nat = Some Closing.
Proof.
  destruct slow_reader_state as (Hreach & Hstuck & Hpend & c & Hc & Hp).
  split; [exact Hreach|]. split; [exact Hstuck|]. intros ls d' Hrun.
  destruct (stuck_streams_stay_stuck no_digest _ (after slow_reader) d' Hstuck Hrun) as (_ & -> & -> & Hconns).
  split; [exact Hpend|]. split; [reflexivity|].
  destruct (Hconns 1%nat c Hc) as (c' & -> & _ & Heq). rewrite Heq by (right; exact Hp). simpl. by rewrite Hp.
Defined.
