(* ===== verification/StreamServer.v ===== *)
(** [stream/server.go]: the stream server, which keeps one stream per SDK of the
    registrar and follows the ids the registrar publishes. A stream is seen here
    as the client it is bound to and whether it is closed; the streams are in a
    heap and refer to clients by their location in the registrar's heap, so the
    keys of a stream are those its client has now. *)
From S2P Require Import Prelude Go Utils Model Log ConfigTypes Config Status Store Sdk Registrar Manual.
Open Scope Z_scope.

(** [stream/stream.go:35-48] stream, as the server sees it *)
Record stream_handle := { sh_client : nat; sh_closed : bool }.

(** [stream/server.go:17-26] server *)
Record server := {
  sv_streams : gmap string nat;
  sv_streamsBySdkKey : gmap string nat;
  sv_heap : list stream_handle
}.

Section server.
Context `{xxh : XXHash, cf : ConfigCatFormat, os : OS, mr : MapRange, xc : ExternalCache, pj : ProfileJSON}.

Definition on_sv_streams f (s : server) :=
  {| sv_streams := f (sv_streams s); sv_streamsBySdkKey := sv_streamsBySdkKey s; sv_heap := sv_heap s |}.
Definition on_sv_index f (s : server) :=
  {| sv_streams := sv_streams s; sv_streamsBySdkKey := f (sv_streamsBySdkKey s); sv_heap := sv_heap s |}.
Definition on_sv_heap f (s : server) :=
  {| sv_streams := sv_streams s; sv_streamsBySdkKey := sv_streamsBySdkKey s; sv_heap := f (sv_heap s) |}.

(** [str.SdkKeys()] and [sdkClient.SdkKeys()], on the registrar's heap *)
Definition keys_at (r : autoRegistrar) (l : nat) : go (string * option string) :=
  c <-? at_loc l r; Ret (SdkKeys c).

Definition stream_at (t : nat) (s : server) : go stream_handle :=
  match sv_heap s !! t with Some h => Ret h | None => Panic end.

(** [if key1 != "" { ...Delete(key1) }; if key2 != nil && *key2 != "" { ...Delete( *key2) }] *)
Definition delete_keys (keys : string * option string) (m : gmap string nat) : gmap string nat :=
  let m := if bool_decide (keys.1 <> "") then delete keys.1 m else m in
  match keys.2 with
  | Some key2 => if bool_decide (key2 <> "") then delete key2 m else m
  | None => m
  end.
Definition store_keys (keys : string * option string) (t : nat) (m : gmap string nat) : gmap string nat :=
  let m := if bool_decide (keys.1 <> "") then <[keys.1 := t]> m else m in
  match keys.2 with
  | Some key2 => if bool_decide (key2 <> "") then <[key2 := t]> m else m
  | None => m
  end.

(** [stream/server.go:32-42] NewServer, one SDK; [keys_of] are the keys of a
    client *)
Definition init_stream (keys_of : nat -> go (string * option string)) (s : server) (kv : string * nat) : go server :=
  let '(id, l) := kv in
  let t := length (sv_heap s) in
  keys <-? keys_of l;
  Ret (on_sv_index (store_keys keys t) (on_sv_streams <[id := t]>
        (on_sv_heap (fun h => h ++ [{| sh_client := l; sh_closed := false |}]) s))).

Definition no_streams : server := {| sv_streams := ∅; sv_streamsBySdkKey := ∅; sv_heap := [] |}.

(** [stream/server.go:28-58] NewServer, for the automatic registrar *)
Definition NewServer (r : autoRegistrar) : go server :=
  go_fold (init_stream (keys_at r)) no_streams (range (GetAll r)).

(** [stream/server.go:28-58] NewServer, for either registrar *)
Definition NewServer_for (r : Registrar) : go server :=
  match r with
  | ARegistrar r => NewServer r
  | MRegistrar r =>
      go_fold (init_stream (fun l => match mn_heap r !! l with Some c => Ret (SdkKeys c) | None => Panic end))
        no_streams (range (manual_GetAll r))
  end.

(** [stream/stream.go:130-139] ResetSdk *)
Definition ResetSdk (l t : nat) (h : stream_handle) (s : server) : server :=
  if sh_closed h then s else on_sv_heap <[t := {| sh_client := l; sh_closed := false |}]> s.

(** [stream/stream.go:141-145] Close; closing twice panics *)
Definition close_stream (t : nat) (h : stream_handle) (s : server) : go server :=
  if sh_closed h then Panic
  else Ret (on_sv_heap <[t := {| sh_client := sh_client h; sh_closed := true |}]> s).

(** [stream/server.go:71-106] handleSdkId *)
Definition handleSdkId (r : autoRegistrar) (s : server) (sdkId : string) : go server :=
  match GetSdkOrNil sdkId r with
  | Some l =>
      st <-? match sv_streams s !! sdkId with
             | Some t =>
                 h <-? stream_at t s;
                 keys <-? keys_at r (sh_client h);
                 Ret (t, ResetSdk l t h (on_sv_index (delete_keys keys) s))
             | None =>
                 let t := length (sv_heap s) in
                 Ret (t, on_sv_streams <[sdkId := t]>
                           (on_sv_heap (fun heap => heap ++ [{| sh_client := l; sh_closed := false |}]) s))
             end;
      keys <-? keys_at r l;
      Ret (on_sv_index (store_keys keys st.1) st.2)
  | None =>
      match sv_streams s !! sdkId with
      | Some t =>
          let s := on_sv_streams (delete sdkId) s in
          h <-? stream_at t s;
          keys <-? keys_at r (sh_client h);
          close_stream t h (on_sv_index (delete_keys keys) s)
      | None => Ret s
      end
  end.

(** [stream/server.go:108-111] GetStreamOrNil *)
Definition GetStreamOrNil (sdkId : string) (s : server) : option nat := sv_streams s !! sdkId.

(** [stream/server.go:113-116] GetStreamBySdkKeyOrNil *)
Definition GetStreamBySdkKeyOrNil (sdkKey : string) (s : server) : option nat := sv_streamsBySdkKey s !! sdkKey.

(** [stream/server.go:123-127] Close, one stream *)
Definition close_stream_entry (s : server) (kv : string * nat) : go server :=
  h <-? stream_at kv.2 s;
  s <-? close_stream kv.2 h s;
  Ret (on_sv_streams (delete kv.1) s).

(** [stream/server.go:118-130] Close *)
Definition Close_server (s : server) : go server :=
  s <-? go_fold close_stream_entry s (range (sv_streams s));
  Ret (on_sv_index (fun _ => ∅) s).

(** ** The servers that own a stream server *)

(** [web/sse/sse.go:18-23] Server, [grpc/flag_service.go:19-25] flagService: the
    stream server and whether the stop channel is closed *)
Record front := { fr_streams : server; fr_stopped : bool }.

(** [web/sse/sse.go:25-33] NewServer *)
Definition NewFront (r : Registrar) : go front :=
  s <-? NewServer_for r; Ret {| fr_streams := s; fr_stopped := false |}.

(** [grpc/flag_service.go:27-34] newFlagService *)
Definition newFlagService (r : Registrar) : go front :=
  s <-? NewServer_for r; Ret {| fr_streams := s; fr_stopped := false |}.

(** [web/sse/sse.go:86-89] Close; a channel can be closed once *)
Definition front_Close (f : front) : go front :=
  if fr_stopped f then Panic
  else s <-? Close_server (fr_streams f); Ret {| fr_streams := s; fr_stopped := true |}.

(** ** Specification *)

(** the client a stream of the server is bound to, and that it is open *)
Definition bound (s : server) (id : string) : option stream_handle := t ← sv_streams s !! id; sv_heap s !! t.

(** The server's streams: locations of its heap, one stream per id, those in the
    map open and no other; and bound to clients of the registrar. *)
Record SWF (r : autoRegistrar) (s : server) : Prop := {
  sw_heap : forall id t, sv_streams s !! id = Some t ->
    exists h, sv_heap s !! t = Some h /\ sh_closed h = false /\ is_Some (rg_heap r !! sh_client h);
  sw_inj : forall id1 id2 t, sv_streams s !! id1 = Some t -> sv_streams s !! id2 = Some t -> id1 = id2;
  sw_closed : forall t h, sv_heap s !! t = Some h -> sh_closed h = false -> exists id, sv_streams s !! id = Some t
}.

(** the server serves what the registrar serves, for an SDK *)
Definition in_step (r : autoRegistrar) (s : server) (id : string) : Prop :=
  sh_client <$> bound s id = GetSdkOrNil id r.

Lemma keys_at_ok r l : is_Some (rg_heap r !! l) -> exists keys, keys_at r l = Ret keys.
Proof. intros [c Hc]. unfold keys_at, at_loc. rewrite Hc. by eexists. Qed.

Lemma SWF_index r f s : SWF r s -> SWF r (on_sv_index f s).
Proof. intros Hs. split; apply Hs. Qed.

(** what an operation on the SDK [id] makes of the streams *)
Definition rebound (r : autoRegistrar) (id : string) (h : option stream_handle) (s s' : server) : Prop :=
  SWF r s' /\ forall id', bound s' id' = if decide (id' = id) then h else bound s id'.

(** the stream of the SDK gets another client *)
Lemma rebound_reset r s id t l f :
  SWF r s -> sv_streams s !! id = Some t -> is_Some (rg_heap r !! l) ->
  let h := {| sh_client := l; sh_closed := false |} in
  rebound r id (Some h) s (on_sv_index f (on_sv_heap <[t := h]> s)).
Proof.
  intros Hs Ht Hl h. destruct (sw_heap r s Hs id t Ht) as (h0 & Hh & _). pose proof (lookup_lt_Some _ _ _ Hh) as Hlt.
  split; [split; simpl|].
  - intros id' t' Ht'. destruct (decide (t' = t)) as [->|Hne].
    + rewrite list_lookup_insert_eq by done. by exists h.
    + rewrite list_lookup_insert_ne by done. by apply (sw_heap r s Hs id').
  - apply (sw_inj r s Hs).
  - intros t' h' Hh' Ho'. apply list_lookup_insert_Some in Hh' as [(<- & <- & _)|[Hne Hh']]; [eauto|].
    by apply (sw_closed r s Hs t' h').
  - intros id'. unfold bound. simpl. case_decide as Heq.
    + subst. rewrite Ht. simpl. by apply list_lookup_insert_eq.
    + destruct (sv_streams s !! id') as [t'|] eqn:Ht'; simpl; [|done].
      rewrite list_lookup_insert_ne; [done|]. intros ->. apply Heq. by eapply (sw_inj r s Hs).
Qed.

(** the SDK gets a stream *)
Lemma rebound_new r s id l f :
  SWF r s -> sv_streams s !! id = None -> is_Some (rg_heap r !! l) ->
  let h := {| sh_client := l; sh_closed := false |} in
  rebound r id (Some h) s (on_sv_index f (on_sv_streams <[id := length (sv_heap s)]>
                                            (on_sv_heap (fun heap => heap ++ [h]) s))).
Proof.
  intros Hs Ht Hl h.
  assert (Hfresh : forall id', sv_streams s !! id' <> Some (length (sv_heap s))).
  { intros id' Ht'. destruct (sw_heap r s Hs id' _ Ht') as (h0 & Hh & _). apply lookup_lt_Some in Hh. lia. }
  split; [split; simpl|].
  - intros id' t' [[<- <-]|[Hne Ht']]%lookup_insert_Some.
    + rewrite lookup_app_r, Nat.sub_diag by lia. by exists h.
    + destruct (sw_heap r s Hs id' t' Ht') as (h0 & Hh & Hrest). exists h0. by rewrite (lookup_app_l_Some _ _ _ _ Hh).
  - intros id1 id2 t' [[<- <-]|[? H1]]%lookup_insert_Some [[<- Heq]|[? H2]]%lookup_insert_Some; subst; try done.
    + by destruct (Hfresh id2).
    + by destruct (Hfresh id1).
    + by eapply (sw_inj r s Hs).
  - intros t' h' Hh' Ho'. apply lookup_snoc_Some in Hh' as [[Hlt Hh']|[-> _]].
    + destruct (sw_closed r s Hs t' h' Hh' Ho') as [id' Hid']. exists id'.
      rewrite lookup_insert_ne; [done|]. intros ->. congruence.
    + exists id. by rewrite lookup_insert_eq.
  - intros id'. unfold bound. simpl. case_decide as Heq.
    + subst. rewrite lookup_insert_eq. simpl. by rewrite lookup_app_r, Nat.sub_diag by lia.
    + rewrite lookup_insert_ne by done. destruct (sv_streams s !! id') as [t'|] eqn:Ht'; simpl; [|done].
      destruct (sw_heap r s Hs id' t' Ht') as (h0 & Hh & _). rewrite Hh. by rewrite (lookup_app_l_Some _ _ _ _ Hh).
Qed.

(** the stream of the SDK is closed *)
Lemma rebound_closed r s id t l f :
  SWF r s -> sv_streams s !! id = Some t ->
  rebound r id None s (on_sv_index f (on_sv_streams (delete id)
                         (on_sv_heap <[t := {| sh_client := l; sh_closed := true |}]> s))).
Proof.
  intros Hs Ht. split; [split; simpl|].
  - intros id' t' [Hne Ht']%lookup_delete_Some. rewrite list_lookup_insert_ne; [by apply (sw_heap r s Hs id')|].
    intros ->. apply Hne. by eapply (sw_inj r s Hs).
  - intros id1 id2 t' [_ Hin1]%lookup_delete_Some [_ Hin2]%lookup_delete_Some. by eapply (sw_inj r s Hs).
  - intros t' h' Hh' Ho'. apply list_lookup_insert_Some in Hh' as [(-> & <- & _)|[Hne Hh']]; [done|].
    destruct (sw_closed r s Hs t' h' Hh' Ho') as [id' Hid']. exists id'.
    rewrite lookup_delete_ne; [done|]. intros ->. congruence.
  - intros id'. unfold bound. simpl. case_decide as Heq; [by rewrite Heq, lookup_delete_eq|].
    rewrite lookup_delete_ne by done. destruct (sv_streams s !! id') as [t'|] eqn:Ht'; simpl; [|done].
    rewrite list_lookup_insert_ne; [done|]. intros ->. apply Heq. by eapply (sw_inj r s Hs).
Qed.

Lemma handleSdkId_ok r s id :
  WF r -> SWF r s ->
  exists s', handleSdkId r s id = Ret s' /\ SWF r s' /\ in_step r s' id /\
    (forall id', id' <> id -> bound s' id' = bound s id').
Proof.
  intros Hwf Hs.
  enough (exists s' h, handleSdkId r s id = Ret s' /\ rebound r id h s s' /\ sh_client <$> h = GetSdkOrNil id r)
    as (s' & h & Hret & [Hs' Hb] & Hh).
  { exists s'. split; [done|]. split; [done|]. split.
    - unfold in_step. by rewrite Hb, decide_True by done.
    - intros id' Hne. by rewrite Hb, decide_False by done. }
  unfold handleSdkId. destruct (GetSdkOrNil id r) as [l|] eqn:Hl, (sv_streams s !! id) as [t|] eqn:Ht.
  - destruct (wf_open r Hwf id l Hl) as (c & Hc & _). destruct (keys_at_ok r l) as [keys Hkeys]; [eauto|].
    destruct (sw_heap r s Hs id t Ht) as (h & Hh & Hopen & [keys0 Hkeys0]%keys_at_ok).
    unfold stream_at. rewrite Hh. simpl. rewrite Hkeys0. simpl. rewrite Hkeys. simpl. unfold ResetSdk. rewrite Hopen.
    eexists. exists (Some {| sh_client := l; sh_closed := false |}). split; [reflexivity|]. split; [|reflexivity].
    by apply (rebound_reset r (on_sv_index (delete_keys keys0) s) id t l); [apply SWF_index| |eexists].
  - destruct (wf_open r Hwf id l Hl) as (c & Hc & _). destruct (keys_at_ok r l) as [keys Hkeys]; [eauto|].
    rewrite Hkeys. simpl. eexists. exists (Some {| sh_client := l; sh_closed := false |}). split; [reflexivity|]. split; [|reflexivity].
    by apply rebound_new; [| |eexists].
  - destruct (sw_heap r s Hs id t Ht) as (h & Hh & Hopen & [keys0 Hkeys0]%keys_at_ok).
    unfold stream_at. simpl. rewrite Hh. simpl. rewrite Hkeys0. simpl. unfold close_stream. rewrite Hopen.
    eexists. exists None. split; [reflexivity|]. split; [|done]. by apply (rebound_closed r s id t).
  - exists s, None. split; [done|]. split; [|done]. split; [done|]. intros id'. case_decide as Heq; [|done].
    unfold bound. by rewrite Heq, Ht.
Qed.

Lemma SWF_grow r r' s : (length (rg_heap r) <= length (rg_heap r'))%nat -> SWF r s -> SWF r' s.
Proof.
  intros Hlen Hs. split; [|apply (sw_inj r s Hs)|apply (sw_closed r s Hs)].
  intros id t Ht. destruct (sw_heap r s Hs id t Ht) as (h & Hh & Ho & Hc). exists h. split_and!; try done.
  apply lookup_lt_is_Some in Hc. apply lookup_lt_is_Some. lia.
Qed.

Lemma handle_all_ok r s ids :
  WF r -> SWF r s -> (forall id, id ∉ ids -> in_step r s id) ->
  exists s', go_fold (handleSdkId r) s ids = Ret s' /\ SWF r s' /\ forall id, in_step r s' id.
Proof.
  intros Hwf. revert s. induction ids as [|id ids IH]; intros s Hs Hids.
  - exists s. split; [done|]. split; [done|]. intros id. apply Hids. apply not_elem_of_nil.
  - destruct (handleSdkId_ok r s id Hwf Hs) as (s1 & Hs1 & Hswf1 & Hin & Hother).
    cbn [go_fold]. rewrite Hs1. apply IH; [done|]. intros id' Hid'.
    destruct (decide (id' = id)) as [->|Hne]; [done|]. unfold in_step. rewrite Hother by done.
    apply Hids. by apply not_elem_of_cons.
Qed.

Lemma init_streams_ok r l s :
  WF r -> SWF r s -> NoDup l.*1 -> (forall id c, (id, c) ∈ l -> rg_sdkClients r !! id = Some c) ->
  (forall id, sv_streams s !! id = None \/ id ∉ l.*1) ->
  (forall id, id ∉ l.*1 -> in_step r s id) ->
  exists s', go_fold (init_stream (keys_at r)) s l = Ret s' /\ SWF r s' /\ forall id, in_step r s' id.
Proof.
  intros Hwf. revert s. induction l as [|[id c] l IH]; intros s Hs Hnd Hl Hfresh Hin.
  - exists s. split; [done|]. split; [done|]. intros id. apply Hin. apply not_elem_of_nil.
  - apply NoDup_cons in Hnd as [Hid Hnd].
    assert (Hc : rg_sdkClients r !! id = Some c) by (apply Hl; by left).
    assert (Hnone : sv_streams s !! id = None).
    { destruct (Hfresh id) as [?|Hn]; [done|]. rewrite fmap_cons in Hn. simpl in Hn. set_solver. }
    destruct (handleSdkId_ok r s id Hwf Hs) as (s1 & Hs1 & Hswf1 & Hin1 & Hother).
    assert (Hinit : init_stream (keys_at r) s (id, c) = Ret s1).
    { rewrite <- Hs1. unfold init_stream, handleSdkId, GetSdkOrNil. rewrite Hc, Hnone. simpl.
      by destruct (keys_at r c). }
    cbn [go_fold]. rewrite Hinit. apply IH; [done|done|set_solver| |].
    + intros id'. destruct (decide (id' = id)) as [->|Hne]; [by right|].
      destruct (Hfresh id') as [Hn|Hn]; [left|right; rewrite fmap_cons in Hn; simpl in Hn; set_solver].
      unfold init_stream in Hinit. destruct (keys_at r c) as [keys| |]; [|done..]. simpl in Hinit.
      injection Hinit as <-. simpl. by rewrite lookup_insert_ne.
    + intros id' Hid'. destruct (decide (id' = id)) as [->|Hne]; [done|].
      unfold in_step. rewrite Hother by done. apply Hin. rewrite fmap_cons. simpl. set_solver.
Qed.

Lemma GetAll_eq (r : autoRegistrar) : GetAll r = rg_sdkClients r.
Proof.
  unfold GetAll. assert (Hl : forall (l : list (string * nat)) (m : gmap string nat), NoDup l.*1 ->
    (forall k v, (k, v) ∈ l -> rg_sdkClients r !! k = Some v) ->
    forall k, fold_left (fun all '(key, value) => <[key := value]> all) l m !! k =
      if decide (k ∈ l.*1) then rg_sdkClients r !! k else m !! k).
  { induction l as [|[k v] l IH]; intros m Hnd Hv k0; [done|].
    apply NoDup_cons in Hnd as [Hk Hnd]. simpl. rewrite IH; [|done|set_solver].
    destruct (decide (k0 = k)) as [->|Hne].
    - rewrite (decide_False (P := k ∈ l.*1)) by done. rewrite decide_True by (by left).
      by rewrite lookup_insert_eq, (Hv k v) by (by left).
    - rewrite lookup_insert_ne by done. repeat case_decide; set_solver. }
  apply map_eq. intros k. rewrite Hl; [|apply range_NoDup_fst|intros ? ?; apply elem_of_range].
  case_decide as Hk; [done|]. rewrite elem_of_range_keys in Hk. apply eq_None_not_Some in Hk. by rewrite Hk.
Qed.

Lemma NewServer_ok r : WF r -> exists s, NewServer r = Ret s /\ SWF r s /\ forall id, in_step r s id.
Proof.
  intros Hwf. unfold NewServer. rewrite GetAll_eq. apply init_streams_ok; try done.
  - apply range_NoDup_fst.
  - intros id c. apply elem_of_range.
  - intros id. by left.
  - intros id Hid. rewrite elem_of_range_keys in Hid. apply eq_None_not_Some in Hid.
    unfold in_step, bound, GetSdkOrNil. simpl. by rewrite Hid.
Qed.

(** *** Closing *)

(** one open stream for each id, and no other open stream *)
Record streams_ok (s : server) : Prop := {
  so_open : forall id t, sv_streams s !! id = Some t -> exists h, sv_heap s !! t = Some h /\ sh_closed h = false;
  so_inj : forall id1 id2 t, sv_streams s !! id1 = Some t -> sv_streams s !! id2 = Some t -> id1 = id2;
  so_closed : forall t h, sv_heap s !! t = Some h -> sh_closed h = false -> exists id, sv_streams s !! id = Some t
}.

Definition all_closed (s : server) : Prop :=
  sv_streams s = ∅ /\ sv_streamsBySdkKey s = ∅ /\ Forall (fun h => sh_closed h = true) (sv_heap s).

Lemma close_stream_entry_ok s id t : streams_ok s -> sv_streams s !! id = Some t ->
  exists s', close_stream_entry s (id, t) = Ret s' /\ streams_ok s' /\ sv_streams s' = delete id (sv_streams s).
Proof.
  intros Hs Ht. destruct (so_open s Hs id t Ht) as (h & Hh & Ho).
  unfold close_stream_entry, stream_at. simpl. rewrite Hh. simpl. unfold close_stream. rewrite Ho. simpl.
  eexists. split; [done|]. split; [|done]. split; simpl.
  - intros id' t' [Hne Ht']%lookup_delete_Some. rewrite list_lookup_insert_ne; [by apply (so_open s Hs id')|].
    intros ->. apply Hne. by eapply (so_inj s Hs).
  - intros id1 id2 t' [_ Hin1]%lookup_delete_Some [_ Hin2]%lookup_delete_Some. by eapply (so_inj s Hs).
  - intros t' h' Hh' Ho'. apply list_lookup_insert_Some in Hh' as [(-> & <- & _)|[Hne Hh']]; [done|].
    destruct (so_closed s Hs t' h' Hh' Ho') as [id' Hid']. exists id'.
    rewrite lookup_delete_ne; [done|]. intros ->. congruence.
Qed.

Lemma close_streams_loop l s : streams_ok s -> NoDup l.*1 ->
  (forall id t, (id, t) ∈ l -> sv_streams s !! id = Some t) ->
  exists s', go_fold close_stream_entry s l = Ret s' /\ streams_ok s' /\
    forall id, sv_streams s' !! id = if decide (id ∈ l.*1) then None else sv_streams s !! id.
Proof.
  revert s. induction l as [|[id t] l IH]; intros s Hs Hnd Hl; [by exists s|].
  apply NoDup_cons in Hnd as [Hid Hnd]. destruct (close_stream_entry_ok s id t Hs) as (s1 & Hs1 & Hok1 & Hm1); [set_solver|].
  cbn [go_fold]. rewrite Hs1. cbn [mbind go_bind].
  destruct (IH s1 Hok1 Hnd) as (s' & Hs' & Hok' & Hm').
  { intros id' t' Hin. rewrite Hm1, lookup_delete_ne; [apply Hl; by right|]. intros <-. apply Hid.
    apply list_elem_of_fmap. by exists (id, t'). }
  exists s'. split; [done|]. split; [done|]. intros id'. rewrite Hm', Hm1. simpl.
  destruct (decide (id' = id)) as [->|Hne].
  - rewrite lookup_delete_eq. repeat case_decide; set_solver.
  - rewrite lookup_delete_ne by done. repeat case_decide; set_solver.
Qed.

Lemma Close_server_ok s : streams_ok s -> exists s', Close_server s = Ret s' /\ all_closed s'.
Proof.
  intros Hs. destruct (close_streams_loop (range (sv_streams s)) s Hs) as (s' & Hs' & Hok & Hm).
  - apply range_NoDup_fst.
  - intros id t. apply elem_of_range.
  - unfold Close_server. rewrite Hs'. eexists. split; [done|].
    assert (Hempty : sv_streams s' = ∅).
    { apply map_empty. intros id. rewrite Hm. case_decide as Hin; [done|].
      rewrite elem_of_range_keys in Hin. by apply eq_None_not_Some. }
    split; [done|]. split; [done|]. simpl. apply Forall_lookup. intros t h Hh.
    destruct (sh_closed h) eqn:Ho; [done|]. destruct (so_closed s' Hok t h Hh Ho) as [id Hid]. by rewrite Hempty in Hid.
Qed.

(** a server as it is started *)
Lemma init_streams_open keys_of l s :
  (forall id c, (id, c) ∈ l -> exists keys, keys_of c = Ret keys) -> NoDup l.*1 ->
  (forall id, id ∈ l.*1 -> sv_streams s !! id = None) -> streams_ok s ->
  exists s', go_fold (init_stream keys_of) s l = Ret s' /\ streams_ok s'.
Proof.
  revert s. induction l as [|[id c] l IH]; intros s Hkeys Hnd Hfresh Hs; [by exists s|].
  apply NoDup_cons in Hnd as [Hid Hnd]. destruct (Hkeys id c) as [keys Hk]; [by left|].
  cbn [go_fold init_stream]. rewrite Hk. cbn [mbind go_bind].
  assert (Hnew : forall id', sv_streams s !! id' <> Some (length (sv_heap s))).
  { intros id' Ht'. destruct (so_open s Hs id' _ Ht') as (h0 & Hh & _). apply lookup_lt_Some in Hh. lia. }
  apply IH; [set_solver|done| |].
  - intros id' Hin. simpl. rewrite lookup_insert_ne; [apply Hfresh; by right|]. by intros ->.
  - split; simpl.
    + intros id' t' [[<- <-]|[Hne Ht']]%lookup_insert_Some.
      * rewrite lookup_app_r, Nat.sub_diag by lia. by eexists.
      * destruct (so_open s Hs id' t' Ht') as (h0 & Hh & Ho). exists h0. by rewrite (lookup_app_l_Some _ _ _ _ Hh).
    + intros id1 id2 t' [[<- <-]|[? H1]]%lookup_insert_Some [[<- Heq]|[? H2]]%lookup_insert_Some; subst; try done.
      * by destruct (Hnew id2).
      * by destruct (Hnew id1).
      * by eapply (so_inj s Hs).
    + intros t' h' Hh' Ho'. apply lookup_snoc_Some in Hh' as [[Hlt Hh']|[-> _]].
      * destruct (so_closed s Hs t' h' Hh' Ho') as [id' Hid']. exists id'.
        rewrite lookup_insert_ne; [done|]. intros ->. rewrite Hfresh in Hid'; [done|by left].
      * exists id. by rewrite lookup_insert_eq.
Qed.

Lemma NewServer_for_manual r : (forall id l, mn_sdkClients r !! id = Some l -> is_Some (mn_heap r !! l)) ->
  exists s, NewServer_for (MRegistrar r) = Ret s /\ streams_ok s.
Proof.
  intros Hheap. unfold NewServer_for, manual_GetAll. apply init_streams_open.
  - intros id l Hl%elem_of_range. destruct (Hheap id l Hl) as [c ->]. by eexists.
  - apply range_NoDup_fst.
  - done.
  - by split.
Qed.
End server.

(** ** Properties *)

(** C4: the stream server follows the registrar: a server that serves a stream
    for every SDK, bound to the SDK's client, and that handles the ids a refresh
    published, ends with exactly one open stream for every SDK the refresh left,
    bound to the client the registrar now has for it, and with every other
    stream it ever made closed. *)
Theorem streams_follow_registrar `{XXHash, ConfigCatFormat, OS, MapRange, ExternalCache, ProfileJSON}
    (conf : Config) (log : logger) (now : Z) (do : http_request -> go http_response) (r r1 r' : autoRegistrar)
    (config : ProxyConfigModel) (pub : list string) (s : server)
    (Hconf : no_nil_sdk conf) (Hmodels : no_nil_model config) (Hwf : WF r)
    (Hget : getConfig conf do r = (Ret (Some config), r1))
    (Hrefresh : refreshConfig conf log now do r = Ret r') (Hpub : rg_published r' = rg_published r ++ pub)
    (Hs : SWF r s) (Hstep : forall id, in_step r s id) :
  exists s', go_fold (handleSdkId r') s pub = Ret s' /\ SWF r' s' /\ (forall id, in_step r' s' id) /\
    (forall id, is_Some (GetStreamOrNil id s') <-> is_Some (p_SDKs config !! id)).
Proof.
  pose proof (getConfig_clients conf do r) as Hc. unfold refreshConfig in Hrefresh. rewrite Hget in *. simpl in Hc.
  destruct (clients_of_same _ _ Hc) as (Hwf1 & Hv1 & Hpub1 & _).
  destruct (applyConfig_ok conf log now config r1) as
    (r2 & pub2 & Hr2 & Hwf2 & Hv & Hpub2 & _ & _ & _ & _ & _ & Hsame & Hgrow & _); [done|done|auto|].
  rewrite Hrefresh in Hr2. injection Hr2 as <-.
  assert (pub2 = pub) as -> by (rewrite Hpub2, Hpub1 in Hpub; by apply app_inv_head in Hpub).
  assert (Hheap1 : rg_heap r1 = rg_heap r /\ rg_sdkClients r1 = rg_sdkClients r)
    by (unfold clients_of in Hc; by injection Hc).
  destruct Hheap1 as [Hheap1 Hcl1].
  destruct (handle_all_ok r' s pub Hwf2) as (s' & Hs' & Hswf' & Hin').
  - apply (SWF_grow r); [by rewrite <- Hheap1|done].
  - intros id Hid. unfold in_step, GetSdkOrNil. rewrite (Hsame id Hid), Hcl1. apply Hstep.
  - exists s'. split; [done|]. split; [done|]. split; [done|]. intros id.
    rewrite <- (remote_is_Some config id Hmodels), <- Hv, (view_is_Some r' id Hwf2).
    unfold GetStreamOrNil. specialize (Hin' id). unfold in_step, bound, GetSdkOrNil in Hin'. rewrite <- Hin'.
    destruct (sv_streams s' !! id) as [t|] eqn:Ht; simpl; [|done].
    destruct (sw_heap r' s' Hswf' id t Ht) as (h & -> & _). simpl. split; eauto.
Qed.

Import ToyInstances.

Definition toy_server : server :=
  ret_or no_streams (NewServer toy_registrar).
Definition toy_refreshed : autoRegistrar :=
  ret_or toy_registrar (refreshConfig Toy.conf NewNullLogger 9 (Toy.served "2" "profile2") toy_registrar).

Lemma toy_server_ok : SWF toy_registrar toy_server /\ forall id, in_step toy_registrar toy_server id.
Proof.
  destruct (NewServer_ok toy_registrar) as (s & Hs & Hrest); [apply toy_registrar_ok|].
  unfold toy_server. rewrite Hs. exact Hrest.
Qed.

Lemma streams_follow_registrar_witness :
  exists s', go_fold (handleSdkId toy_refreshed) toy_server (rg_published toy_refreshed) = Ret s' /\
    is_Some (GetStreamOrNil "d" s') /\ GetStreamOrNil "a" s' = None.
Proof.
  destruct (streams_follow_registrar Toy.conf NewNullLogger 9 (Toy.served "2" "profile2") toy_registrar
    (getConfig Toy.conf (Toy.served "2" "profile2") toy_registrar).2 toy_refreshed Toy.profile2
    (rg_published toy_refreshed) toy_server) as (s' & Hs' & _ & _ & Hdom).
  - apply toy_no_nil.
  - apply (owned_no_nil Toy.own), toy_owned2.
  - apply toy_registrar_ok.
  - vm_compute. reflexivity.
  - vm_compute. reflexivity.
  - vm_compute. reflexivity.
  - apply toy_server_ok.
  - apply toy_server_ok.
  - exists s'. split; [exact Hs'|]. split.
    + apply Hdom. vm_compute. eauto.
    + apply eq_None_not_Some. rewrite Hdom. vm_compute. by intros [? ?].
Defined.

(** When the profile replaces the secondary key of an SDK and nothing else, the
    registrar keeps the client and changes its key in place; the stream server,
    told afterwards, asks that same client for the keys to forget, gets the new
    ones, and keeps the stream under the old key. *)
Definition profile_rotated : ProxyConfigModel :=
  {| p_SDKs := {["a" := Toy.sdk "a1" ""; "b" := Toy.sdk "b1" "b9"; "c" := Toy.sdk "c1" ""; "e" := Toy.sdk "e1" "e2"]};
     p_Options := Toy.options 60 |}.
Definition toy_rotated : autoRegistrar :=
  ret_or toy_registrar (applyConfig Toy.conf NewNullLogger 9 profile_rotated toy_registrar).

Lemma stream_index_keeps_old_secondary_key :
  rg_published toy_rotated = ["b"] /\
  GetSdkByKeyOrNil "b2" toy_rotated = None /\ is_Some (GetSdkByKeyOrNil "b9" toy_rotated) /\
  match go_fold (handleSdkId toy_rotated) toy_server (rg_published toy_rotated) with
  | Ret s' => GetStreamBySdkKeyOrNil "b2" s' = GetStreamOrNil "b" s' /\
              GetStreamBySdkKeyOrNil "b9" s' = GetStreamOrNil "b" s' /\ is_Some (GetStreamOrNil "b" s')
  | _ => False
  end.
Proof. vm_compute. repeat split; eauto. Qed.
