(* ===== verification/Crypto.v ===== *)
(** [crypto/sha256] and [crypto/hmac] of the Go standard library, as the basic
    authentication and the webhook signature use them: executable, so that the
    witnesses run on real digests. Checked on the test vectors of FIPS 180-4 and
    RFC 4231. *)
From S2P Require Import Prelude Go.
Open Scope Z_scope.

Module Sha256.
Definition word (z : Z) : Z := z mod 2 ^ 32.
Definition rotr (n x : Z) : Z := Z.lor (Z.shiftr x n) (word (Z.shiftl x (32 - n))).
Definition not32 (x : Z) : Z := Z.lxor x 4294967295.
Definition ch (x y z : Z) : Z := Z.lxor (Z.land x y) (Z.land (not32 x) z).
Definition maj (x y z : Z) : Z := Z.lxor (Z.lxor (Z.land x y) (Z.land x z)) (Z.land y z).
Definition big_sigma0 (x : Z) : Z := Z.lxor (Z.lxor (rotr 2 x) (rotr 13 x)) (rotr 22 x).
Definition big_sigma1 (x : Z) : Z := Z.lxor (Z.lxor (rotr 6 x) (rotr 11 x)) (rotr 25 x).
Definition sigma0 (x : Z) : Z := Z.lxor (Z.lxor (rotr 7 x) (rotr 18 x)) (Z.shiftr x 3).
Definition sigma1 (x : Z) : Z := Z.lxor (Z.lxor (rotr 17 x) (rotr 19 x)) (Z.shiftr x 10).

Definition init : list Z :=
  [1779033703; 3144134277; 1013904242; 2773480762; 1359893119; 2600822924;
   528734635; 1541459225].
Definition round_constants : list Z :=
  [1116352408; 1899447441; 3049323471; 3921009573; 961987163; 1508970993;
   2453635748; 2870763221; 3624381080; 310598401; 607225278; 1426881987;
   1925078388; 2162078206; 2614888103; 3248222580; 3835390401; 4022224774;
   264347078; 604807628; 770255983; 1249150122; 1555081692; 1996064986;
   2554220882; 2821834349; 2952996808; 3210313671; 3336571891; 3584528711;
   113926993; 338241895; 666307205; 773529912; 1294757372; 1396182291;
   1695183700; 1986661051; 2177026350; 2456956037; 2730485921; 2820302411;
   3259730800; 3345764771; 3516065817; 3600352804; 4094571909; 275423344;
   430227734; 506948616; 659060556; 883997877; 958139571; 1322822218;
   1537002063; 1747873779; 1955562222; 2024104815; 2227730452; 2361852424;
   2428436474; 2756734187; 3204031479; 3329325298].

(** The message schedule; the words are kept latest first. *)
Definition next_word (w : list Z) : Z :=
  word (sigma1 (nth 1 w 0) + nth 6 w 0 + sigma0 (nth 14 w 0) + nth 15 w 0).
Fixpoint extend (n : nat) (w : list Z) : list Z :=
  match n with O => w | S n => extend n (next_word w :: w) end.

Definition round (st : list Z) (kw : Z * Z) : list Z :=
  match st with
  | [a; b; c; d; e; f; g; h] =>
      let t1 := word (h + big_sigma1 e + ch e f g + kw.1 + kw.2) in
      let t2 := word (big_sigma0 a + maj a b c) in
      [word (t1 + t2); a; b; c; word (d + t1); e; f; g]
  | _ => st
  end.

Definition compress (st block : list Z) : list Z :=
  let w := reverse (extend 48 (reverse block)) in
  zip_with (fun x y => word (x + y)) st (fold_left round (zip round_constants w) st).

(** Big-endian words, and the blocks of sixteen of them. *)
Fixpoint words (l : list Z) : list Z :=
  match l with
  | a :: b :: c :: d :: l => (((a * 256 + b) * 256 + c) * 256 + d) :: words l
  | _ => []
  end.
Fixpoint blocks (n : nat) (l : list Z) : list (list Z) :=
  match n with O => [] | S n => take 16 l :: blocks n (drop 16 l) end.

Definition padded (l : list Z) : list Z :=
  let n := length l in
  l ++ [128] ++ replicate ((119 - n mod 64) mod 64)%nat 0 ++ be_bytes 8 (8 * Z.of_nat n).

(** [sha256.Sum256] *)
Definition sum256 (l : list Z) : list Z :=
  let w := words (padded l) in
  fold_left compress (blocks (length w / 16) w) init ≫= be_bytes 4.
End Sha256.

(** [sha256.Sum256([]byte(s))] *)
Definition Sum256 (s : string) : list Z := Sha256.sum256 (bytes s).

(** [hmac.New(sha256.New, key)], one [Write] of the message, [Sum(nil)] *)
Definition hmac_key (key : list Z) : list Z :=
  let k := if (64 <? length key)%nat then Sha256.sum256 key else key in
  k ++ replicate (64 - length k) 0.
Definition hmac_sha256 (key msg : string) : string :=
  let k := hmac_key (bytes key) in
  let inner := Sha256.sum256 ((Z.lxor 54 <$> k) ++ bytes msg) in
  of_bytes (Sha256.sum256 ((Z.lxor 92 <$> k) ++ inner)).

(** A digest has 32 bytes. *)
Lemma length_round st kw : length st = 8%nat -> length (Sha256.round st kw) = 8%nat.
Proof. by do 8 (destruct st as [|? st]; [done|]); destruct st. Qed.
Lemma length_compress st block : length st = 8%nat -> length (Sha256.compress st block) = 8%nat.
Proof.
  intros Hst. unfold Sha256.compress. rewrite length_zip_with.
  assert (Hf : forall l st, length st = 8%nat -> length (fold_left Sha256.round l st) = 8%nat).
  { induction l as [|kw l IH]; intros st' Hst'; [done|]. by apply IH, length_round. }
  rewrite Hf by done. lia.
Qed.
Lemma length_sum256 l : length (Sha256.sum256 l) = 32%nat.
Proof.
  unfold Sha256.sum256. generalize (Sha256.blocks (length (Sha256.words (Sha256.padded l)) / 16) (Sha256.words (Sha256.padded l))).
  intros bs. assert (Hf : forall bs st, length st = 8%nat -> length (fold_left Sha256.compress bs st) = 8%nat).
  { clear. induction bs as [|b bs IH]; intros st Hst; [done|]. by apply IH, length_compress. }
  specialize (Hf bs Sha256.init eq_refl). revert Hf. generalize (fold_left Sha256.compress bs Sha256.init). intros st Hst.
  by do 8 (destruct st as [|? st]; [done|]); destruct st.
Qed.

Example Sum256_empty : hex_encode (Sum256 "") =
  "e3b0c44298fc1c149afbf4c8996fb92427ae41e4649b934ca495991b7852b855".
Proof. vm_compute. reflexivity. Qed.
Example Sum256_two_blocks :
  hex_encode (Sum256 "abcdbcdecdefdefgefghfghighijhijkijkljklmklmnlmnomnopnopq") =
  "248d6a61d20638b8e5c026930c3e6039a33ce45964ff2167f6ecedd419db06c1".
Proof. vm_compute. reflexivity. Qed.
Example hmac_rfc4231 : hex_encode (bytes (hmac_sha256 "Jefe" "what do ya want for nothing?")) =
  "5bdcc146bf60754e6a042426089575c75a003f089d2739839dec58b964ec3843".
Proof. vm_compute. reflexivity. Qed.
