(* ===== verification/Mware.v ===== *)
(** [web/mware/]: the middlewares of the HTTP routes. A middleware takes the
    handler it wraps; a wrapping [ResponseWriter] transforms the operations the
    wrapped handler does. Debug lines other than those of [DebugLog] are left
    out. *)
From S2P Require Import Prelude Go Crypto Utils Model Log ConfigTypes Config Http.
From Stdlib Require Import Ascii.
Open Scope Z_scope.

(** [compress/gzip]: what a [Writer] emits, up to its [Close], for what was
    written to it and flushed. *)
Inductive gzip_call := GWrite (b : string) | GFlush.
Class Gzip := { gzip : list gzip_call -> string }.

Section mware.
Context {E : Type}.
Implicit Types next : handler E.

(** ** Authentication *)

(** [r.BasicAuth()] *)
Definition parseBasicAuth (auth : string) : option (string * string) :=
  let prefix := "Basic " in
  if bool_decide (Str.map Header.lower (Str.take 6 auth) = Str.map Header.lower prefix) then
    match Base64.DecodeString Base64.StdEncoding (Str.drop 6 auth) with
    | Ret cs => Str.cut ":" cs
    | _ => None
    end
  else None.
Definition request_BasicAuth (r : request) : option (string * string) :=
  let auth := header_of r "Authorization" in
  if bool_decide (auth = "") then None else parseBasicAuth auth.

(** [web/mware/auth.go:11-33] BasicAuth *)
Definition BasicAuth (user pass : string) next : handler E := fun r =>
  match request_BasicAuth r with
  | None => Error "Unauthorized" Status.Unauthorized
  | Some (username, password) =>
      let userMatch := bool_decide (Sum256 username = Sum256 user) in
      let passMatch := bool_decide (Sum256 password = Sum256 pass) in
      if negb userMatch || negb passMatch then Error "Unauthorized" Status.Unauthorized
      else next r
  end.

(** [web/mware/auth.go:37-44] HeaderAuth, its loop *)
Fixpoint check_headers (authHeaders : list (string * string)) next (r : request) : list (op E) :=
  match authHeaders with
  | [] => next r
  | (k, v) :: authHeaders =>
      if negb (bool_decide (header_of r k = v)) then Error "Unauthorized" Status.Unauthorized
      else check_headers authHeaders next r
  end.

(** [web/mware/auth.go:35-47] HeaderAuth *)
Definition HeaderAuth `{MapRange} (authHeaders : gmap string string) next : handler E := fun r =>
  check_headers (range authHeaders) next r.

(** ** Compression *)

(** [web/mware/compress.go:17-22] gzipWriter: what was written to its gzip writer *)
Record gzipWriter := { gz_written : list gzip_call; gz_headersDone : bool }.

(** [web/mware/compress.go:42-46] WriteHeader *)
Definition gz_WriteHeader (code : Z) (w : gzipWriter) : gzipWriter * list (op E) :=
  ({| gz_written := gz_written w; gz_headersDone := true |}, [DelHeader "Content-Length"; WriteHeader code]).

(** [web/mware/compress.go:48-53] Write *)
Definition gz_Write (b : string) (w : gzipWriter) : gzipWriter * list (op E) :=
  let '(w, ops) := if gz_headersDone w then (w, []) else gz_WriteHeader Status.OK w in
  ({| gz_written := gz_written w ++ [GWrite b]; gz_headersDone := gz_headersDone w |}, ops).

(** [web/mware/compress.go:55-60] Flush; the compressed bytes are accounted to [Close] *)
Definition gz_Flush (w : gzipWriter) : gzipWriter * list (op E) :=
  ({| gz_written := gz_written w ++ [GFlush]; gz_headersDone := gz_headersDone w |}, [Flush]).

(** [web/mware/compress.go:62-65] Close *)
Definition gz_Close `{Gzip} (w : gzipWriter) : list (op E) := [Write (gzip (gz_written w))].

(** the operations of the wrapped handler, on the wrapping writer *)
Definition gz_op (w : gzipWriter) (o : op E) : gzipWriter * list (op E) :=
  match o with
  | WriteHeader code => gz_WriteHeader code w
  | Write b => gz_Write b w
  | Flush => gz_Flush w
  | _ => (w, [o])
  end.
Fixpoint gz_run `{Gzip} (w : gzipWriter) (ops : list (op E)) : list (op E) :=
  match ops with
  | [] => gz_Close w
  | o :: ops => let '(w, out) := gz_op w o in out ++ gz_run w ops
  end.

(** [web/mware/compress.go:24-40] GZip *)
Definition GZip `{Gzip} next : handler E := fun r =>
  if Str.Contains (header_of r "Accept-Encoding") "gzip" then
    [SetHeader "Content-Encoding" "gzip"; SetHeader "Vary" "Accept-Encoding"]
    ++ gz_run {| gz_written := []; gz_headersDone := false |} (next r)
  else next r.

(** ** CORS *)

(** [web/mware/cors.go:12-18] defaultAllowedHeaders *)
Definition defaultAllowedHeaders : list string :=
  ["Cache-Control"; "Content-Type"; "Content-Length"; "Accept-Encoding"; "If-None-Match"].

(** [web/mware/cors.go:20-25] defaultExposedHeaders *)
Definition defaultExposedHeaders : list string := ["Content-Length"; "ETag"; "Date"; "Content-Encoding"].

(** [web/mware/cors.go:27-27] defaultAllowedOrigin *)
Definition defaultAllowedOrigin : string := "*".

(** [web/mware/cors.go:95-99] determineOrigin, the loop over the patterns *)
Fixpoint any_regex `{RegexpEngine} (regexes : list Regexp) (requestOrigin : string) : bool :=
  match regexes with
  | [] => false
  | regex :: regexes => if regexp_match regex requestOrigin then true else any_regex regexes requestOrigin
  end.

(** [web/mware/cors.go:81-106] determineOrigin *)
Definition determineOrigin `{RegexpEngine} (requestOrigin : string) (allowedOrigins : list string)
    (originRegexConfig : option OriginRegexConfig) : string :=
  let defaultResult := defaultAllowedOrigin in
  let hasAllowedOriginsSet := negb (Nat.eqb (length allowedOrigins) 0) in
  let hasOriginRegexSet := match originRegexConfig with
                           | Some c => negb (Nat.eqb (length (re_Regexes c)) 0)
                           | None => false
                           end in
  if hasAllowedOriginsSet && bool_decide (requestOrigin ∈ allowedOrigins) then requestOrigin
  else
    let defaultResult := if hasAllowedOriginsSet then default "" (head allowedOrigins) else defaultResult in
    let regexes := match originRegexConfig with Some c => re_Regexes c | None => [] end in
    if hasOriginRegexSet && any_regex regexes requestOrigin then requestOrigin
    else
      let defaultResult := if hasOriginRegexSet
                           then match originRegexConfig with Some c => re_IfNoMatch c | None => "" end
                           else defaultResult in
      if negb hasAllowedOriginsSet && negb hasOriginRegexSet && negb (bool_decide (requestOrigin = ""))
      then requestOrigin
      else defaultResult.

(** [web/mware/cors.go:56-63] setDefaultCORSHeaders *)
Definition setDefaultCORSHeaders `{RegexpEngine} (requestOrigin : string) (allowedOrigins : list string)
    (exposedHeaders : string) (originRegexConfig : option OriginRegexConfig) : list (op E) :=
  [SetHeader "Access-Control-Allow-Origin" (determineOrigin requestOrigin allowedOrigins originRegexConfig);
   SetHeader "Access-Control-Expose-Headers" exposedHeaders].

(** [web/mware/cors.go:65-79] setOptionsCORSHeaders *)
Definition setOptionsCORSHeaders `{RegexpEngine} (requestOrigin : string) (allowedOrigins : list string)
    (originRegexConfig : option OriginRegexConfig) (allowedMethods : list string)
    (exposeHeaders allowedHeaders : string) : list (op E) :=
  setDefaultCORSHeaders requestOrigin allowedOrigins exposeHeaders originRegexConfig
  ++ [SetHeader "Access-Control-Allow-Credentials" "false";
      SetHeader "Access-Control-Max-Age" "600";
      SetHeader "Access-Control-Allow-Headers" allowedHeaders]
  ++ (if negb (Nat.eqb (length allowedMethods) 0)
      then [SetHeader "Access-Control-Allow-Methods" (Str.Join allowedMethods ",")] else []).

(** [web/mware/cors.go:30-40] CORS, the header lists *)
Definition header_list (defaults extra : list string) : list string :=
  if negb (Nat.eqb (length extra) 0) then DedupStringSlice (defaults ++ extra) else defaults.

(** [web/mware/cors.go:29-54] CORS *)
Definition CORS `{RegexpEngine} (allowedMethods allowedOrigins responseHeaders requestHeaders : list string)
    (originRegexConfig : option OriginRegexConfig) next : handler E := fun r =>
  let exposedHeadersString := Str.Join (header_list defaultExposedHeaders responseHeaders) "," in
  let allowedHeadersString := Str.Join (header_list defaultAllowedHeaders requestHeaders) "," in
  let origin := header_of r "Origin" in
  (if bool_decide (rq_Method r = MethodOptions)
   then setOptionsCORSHeaders origin allowedOrigins originRegexConfig allowedMethods
          exposedHeadersString allowedHeadersString
   else setDefaultCORSHeaders origin allowedOrigins exposedHeadersString originRegexConfig)
  ++ next r.

(** ** Headers, options, logging *)

(** [web/mware/headers.go:5-12] ExtraHeaders *)
Definition ExtraHeaders `{MapRange} (headers : gmap string string) next : handler E := fun r =>
  ((fun kv => SetHeader kv.1 kv.2) <$> range headers) ++ next r.

(** [web/mware/options.go:5-13] AutoOptions *)
Definition AutoOptions next : handler E := fun r =>
  if bool_decide (rq_Method r = MethodOptions) then [WriteHeader Status.NoContent] else next r.

(** [web/mware/reqlog.go:10-15] requestInterceptor *)
Record requestInterceptor := { ri_statusCode : Z; ri_responseLength : Z }.

(** [web/mware/reqlog.go:17-25] WriteHeader, Write *)
Definition intercept (ri : requestInterceptor) (o : op E) : requestInterceptor :=
  match o with
  | WriteHeader statusCode => {| ri_statusCode := statusCode; ri_responseLength := ri_responseLength ri |}
  | Write data => {| ri_statusCode := ri_statusCode ri; ri_responseLength := u64 (ri_responseLength ri + len data) |}
  | _ => ri
  end.

(** [web/mware/reqlog.go:33-44] DebugLog; of the two lines it logs, the status
    and the length of the second *)
Definition DebugLog next : handler E := fun r =>
  let ops := next r in
  let ri := fold_left intercept ops {| ri_statusCode := Status.OK; ri_responseLength := 0 |} in
  ops ++ [Finished (ri_statusCode ri) (ri_responseLength ri)].
End mware.

(** ** Specification *)

(** what the wrapped gzip writer was given, in order *)
Fixpoint written (calls : list gzip_call) : string :=
  match calls with
  | [] => ""
  | GWrite b :: calls => b +:+ written calls
  | GFlush :: calls => written calls
  end.

Definition header_name {E} (o : op E) : option string :=
  match o with SetHeader k _ | AddHeader k _ | DelHeader k => Some (Header.canonical k) | _ => None end.

(** an operation that leaves the content encoding alone and sends no
    informational response *)
Definition compressible {E} (o : op E) : Prop :=
  header_name o <> Some "Content-Encoding" /\
  match o with WriteHeader code => informational code = false | _ => True end.

Definition auth_header (user pass : string) : string :=
  "Basic " +:+ Base64.EncodeToString Base64.StdEncoding (user +:+ ":" +:+ pass).

(** the origins a route lets through *)
Definition origin_allowed `{RegexpEngine} (requestOrigin : string) (allowedOrigins : list string)
    (regexes : list Regexp) : bool :=
  bool_decide (requestOrigin ∈ allowedOrigins) || existsb (fun re => regexp_match re requestOrigin) regexes.

Section facts.
Context {E : Type}.
Implicit Types next : handler E.

Lemma written_app l k : written (l ++ k) = written l +:+ written k.
Proof. induction l as [|[b|] l IH]; simpl; [done| |done]. rewrite IH. by rewrite str_app_assoc. Qed.

Lemma check_headers_spec l next r :
  check_headers l next r =
  if forallb (fun kv => bool_decide (header_of r kv.1 = kv.2)) l then next r
  else Error "Unauthorized" Status.Unauthorized.
Proof. induction l as [|[k v] l IH]; simpl; [done|]. by case_bool_decide. Qed.

Lemma HeaderAuth_spec `{MapRange} m next r :
  HeaderAuth m next r =
  if decide (map_Forall (fun k v => header_of r k = v) m) then next r
  else Error "Unauthorized" Status.Unauthorized.
Proof.
  unfold HeaderAuth. rewrite check_headers_spec. case_decide as Hm.
  - rewrite (proj2 (forallb_forall _ _)); [done|]. intros [k v] Hin. apply bool_decide_eq_true_2. simpl.
    apply (Hm k v). by apply elem_of_range, list_elem_of_In.
  - rewrite (not_true_is_false (forallb _ _)); [done|]. intros Hall. apply Hm. intros k v Hkv.
    rewrite forallb_forall in Hall. specialize (Hall (k, v)). simpl in Hall. bool_prop.
    eapply bool_decide_eq_true_1, Hall. by apply list_elem_of_In, elem_of_range.
Qed.

(** *** Compression *)
Record gz_related (w : gzipWriter) (rs1 rs2 : response E) : Prop := {
  gr_did : rs_did rs1 = rs_did rs2;
  gr_sent : fst <$> rs_sent rs1 = fst <$> rs_sent rs2;
  gr_done : gz_headersDone w = true -> rs_sent rs2 <> None;
  gr_unsent : rs_sent rs2 = None -> written (gz_written w) = "";
  gr_body1 : rs_Body rs1 = "";
  gr_body2 : rs_Body rs2 = if body_allowed (status rs2) then written (gz_written w) else "";
  gr_encoding : rs_Header rs1 !! "Content-Encoding" = Some ["gzip"];
  gr_sent_encoding : sent_headers rs1 !! "Content-Encoding" = Some ["gzip"]
}.

Lemma status_sent (rs1 rs2 : response E) : fst <$> rs_sent rs1 = fst <$> rs_sent rs2 -> status rs1 = status rs2.
Proof. unfold status. destruct (rs_sent rs1) as [[]|], (rs_sent rs2) as [[]|]; simpl; congruence. Qed.

Lemma status_send_OK (rs : response E) : status (send_header Status.OK rs) = status rs.
Proof. unfold send_header, status. by destruct (rs_sent rs) as [[]|] eqn:Hs; rewrite ?Hs. Qed.
Lemma did_send_header code (rs : response E) : rs_did (send_header code rs) = rs_did rs.
Proof. unfold send_header. destruct (rs_sent rs); [done|]. by destruct (informational code). Qed.

Lemma send_header_related w code rs1 rs2 :
  informational code = false -> gz_related w rs1 rs2 ->
  gz_related w (send_header code rs1) (send_header code rs2).
Proof.
  intros Hc [Hdid Hsent Hdone Hun Hb1 Hb2 He Hse]. unfold send_header. rewrite Hc.
  unfold status, sent_headers in *. destruct rs1 as [h1 [[c1 s1]|] b1 d1], rs2 as [h2 [[c2 s2]|] b2 d2]; simpl in *;
    try done; try (by split).
  assert (Hw : written (gz_written w) = "") by auto.
  split; simpl; try done. unfold status. simpl. rewrite Hb2, Hw. by destruct (body_allowed code).
Qed.

Lemma on_header_related f g w rs1 rs2 :
  f (rs_Header rs1) !! "Content-Encoding" = Some ["gzip"] -> gz_related w rs1 rs2 ->
  gz_related w (on_rs_Header f rs1) (on_rs_Header g rs2).
Proof.
  intros Hf [Hdid Hsent Hdone Hun Hb1 Hb2 He Hse].
  unfold status, sent_headers in *. destruct rs1 as [h1 [[c1 s1]|] b1 d1], rs2 as [h2 [[c2 s2]|] b2 d2]; simpl in *;
    try done; by split.
Qed.

Lemma gz_WriteHeader_related w code rs1 rs2 :
  informational code = false -> gz_related w rs1 rs2 ->
  gz_related (gz_WriteHeader (E := E) code w).1 (apply_ops rs1 (gz_WriteHeader code w).2) (send_header code rs2).
Proof.
  intros Hc Hr. assert (Hr' : gz_related w (apply_ops rs1 (gz_WriteHeader code w).2) (send_header code rs2)).
  { simpl. apply (send_header_related w code (on_rs_Header (Header.Del "Content-Length") rs1)); [done|].
    replace rs2 with (on_rs_Header id rs2) by by destruct rs2. apply on_header_related; [|done].
    rewrite Header.lookup_Del_ne by by vm_compute. apply (gr_encoding _ _ _ Hr). }
  destruct Hr' as [Hdid Hsent Hdone Hun Hb1 Hb2 He Hse]. split; try done. intros _.
  unfold send_header. rewrite Hc. destruct (rs_sent rs2) eqn:Hs; [by rewrite Hs|done].
Qed.

Lemma gz_Write_related w b rs1 rs2 :
  gz_related w rs1 rs2 ->
  gz_related (gz_Write (E := E) b w).1 (apply_ops rs1 (gz_Write b w).2) (write_body b rs2).
Proof.
  intros Hr. unfold gz_Write, write_body. destruct (gz_headersDone w) eqn:Hd.
  - destruct Hr as [Hdid Hsent Hdone Hun Hb1 Hb2 He Hse]. simpl.
    assert (Hs2 : rs_sent rs2 <> None) by auto.
    unfold send_header. destruct (rs_sent rs2) as [[c2 h2]|] eqn:Hs; [|done].
    unfold status in *. rewrite Hs in *.
    destruct (body_allowed c2) eqn:Hc; split; simpl; rewrite ?Hs, ?Hc, ?written_app; simpl; rewrite ?str_app_nil_r; try done.
    all: unfold status; simpl; rewrite ?Hs, ?Hc; try done; by rewrite ?Hb2.
  - pose proof (gz_WriteHeader_related w Status.OK rs1 rs2 eq_refl Hr) as Hr'.
    destruct (gz_WriteHeader (E := E) Status.OK w) as [w' out]. simpl in *.
    destruct Hr' as [Hdid Hsent Hdone Hun Hb1 Hb2 He Hse].
    unfold status in *. destruct (rs_sent (send_header Status.OK rs2)) as [[c2 h2]|] eqn:Hs.
    + destruct (body_allowed c2) eqn:Hc; split; simpl; rewrite ?Hs, ?Hc, ?written_app; simpl; rewrite ?str_app_nil_r; try done.
      all: unfold status; simpl; rewrite ?Hs, ?Hc; try done; by rewrite ?Hb2.
    + unfold send_header in Hs. simpl in Hs. destruct (rs_sent rs2) eqn:Hs2; [congruence|done].
Qed.

Lemma gz_op_related w o rs1 rs2 :
  compressible o -> gz_related w rs1 rs2 ->
  gz_related (gz_op (E := E) w o).1 (apply_ops rs1 (gz_op w o).2) (apply_op rs2 o).
Proof.
  intros [Hn Hc] Hr. assert (He := gr_encoding _ _ _ Hr).
  destruct o as [k v|k v|k|code|b| |e|st n]; simpl in *.
  - apply on_header_related; [|done]. rewrite Header.lookup_Set_ne; [done|congruence].
  - apply on_header_related; [|done]. rewrite Header.lookup_Add_ne; [done|congruence].
  - apply on_header_related; [|done]. rewrite Header.lookup_Del_ne; [done|congruence].
  - by apply gz_WriteHeader_related.
  - by apply gz_Write_related.
  - destruct (send_header_related w Status.OK rs1 rs2 eq_refl Hr) as [Hdid Hsent Hdone Hun Hb1 Hb2 He' Hse].
    split; simpl; rewrite ?written_app; simpl; rewrite ?str_app_nil_r; done.
  - destruct Hr. by split; simpl; [congruence|..].
  - done.
Qed.

Lemma gz_run_related `{Gzip} ops w rs1 rs2 :
  Forall compressible ops -> gz_related w rs1 rs2 ->
  exists w' rs1', gz_related w' rs1' (apply_ops rs2 ops) /\ apply_ops rs1 (gz_run w ops) = apply_ops rs1' (gz_Close w').
Proof.
  intros Hops. revert w rs1 rs2. induction Hops as [|o ops Ho Hops IH]; intros w rs1 rs2 Hr; [by exists w, rs1|].
  pose proof (gz_op_related w o rs1 rs2 Ho Hr) as Hr'. simpl. destruct (gz_op w o) as [w1 out]. simpl in Hr'.
  rewrite apply_ops_app. by apply IH.
Qed.

Lemma intercept_length ops ri :
  ri_responseLength (fold_left intercept ops ri) =
  fold_left (fun n (o : op E) => match o with Write data => u64 (n + len data) | _ => n end) ops (ri_responseLength ri).
Proof. revert ri. induction ops as [|o ops IH]; intros ri; simpl; [done|]. rewrite IH. by destruct o. Qed.

Lemma any_regex_existsb `{RegexpEngine} regexes origin :
  any_regex regexes origin = existsb (fun re => regexp_match re origin) regexes.
Proof. induction regexes as [|re l IH]; simpl; [done|]. rewrite IH. by destruct (regexp_match re origin). Qed.
End facts.

(** ** Properties *)

(** Basic authentication lets a request through only with a user name and a
    password whose SHA-256 digests are those of the configured ones, answers any
    other with 401 and no call of the wrapped handler, and does let through the
    requests that carry the configured credentials. *)
Theorem BasicAuth_gate {E} (user pass : string) (next : handler E) (r : request) :
  (BasicAuth user pass next r = Error "Unauthorized" Status.Unauthorized \/
   BasicAuth user pass next r = next r /\
   exists u p, request_BasicAuth r = Some (u, p) /\ Sum256 u = Sum256 user /\ Sum256 p = Sum256 pass) /\
  (forall u p, request_BasicAuth r = Some (u, p) ->
     Sum256 u <> Sum256 user \/ Sum256 p <> Sum256 pass ->
     BasicAuth user pass next r = Error "Unauthorized" Status.Unauthorized) /\
  ((":"%char ∉ String.list_ascii_of_string user) -> header_of r "Authorization" = auth_header user pass ->
   BasicAuth user pass next r = next r).
Proof.
  unfold BasicAuth. split; [|split].
  - destruct (request_BasicAuth r) as [[u p]|]; [|by left].
    repeat case_bool_decide; simpl; [right; eauto 10|by left..].
  - intros u p -> Hne. repeat case_bool_decide; simpl; tauto.
  - intros Huser Hr. unfold request_BasicAuth. rewrite Hr. rewrite bool_decide_eq_false_2 by done.
    unfold parseBasicAuth, auth_header. simpl.
    rewrite str_app_nil_l, (Base64Facts.DecodeString_EncodeToString Base64.StdEncoding (H := Base64Facts.good_std)).
    rewrite (proj2 (cut_Some ":" (user +:+ ":" +:+ pass) user pass)) by done.
    by rewrite !bool_decide_eq_true_2 by done.
Qed.

(** C36: compression does not change what a handler answers. For any handler that
    leaves the content encoding alone and sends no informational response, a
    client that accepts gzip gets the same status and the same effects happen;
    the response is marked as gzip; and its body decompresses to the plain body,
    or is empty where the status allows none (a 204 or 304). *)
Theorem GZip_transparent `{Gzip} {E} (gunzip : string -> string) (next : handler E) (r : request)
    (Hgunzip : forall calls, gunzip (gzip calls) = written calls)
    (Haccept : Str.Contains (header_of r "Accept-Encoding") "gzip" = true)
    (Hnext : Forall compressible (next r)) :
  let rs := respond (GZip next r) in
  let plain := respond (next r) in
  status rs = status plain /\ rs_did rs = rs_did plain /\
  sent_headers rs !! "Content-Encoding" = Some ["gzip"] /\
  (if body_allowed (status plain) then gunzip (rs_Body rs) = rs_Body plain else rs_Body rs = "" /\ rs_Body plain = "").
Proof.
  intros rs plain. unfold rs, GZip. rewrite Haccept. unfold respond. rewrite apply_ops_app.
  destruct (gz_run_related (next r) {| gz_written := []; gz_headersDone := false |}
    (apply_ops (E := E) fresh [SetHeader "Content-Encoding" "gzip"; SetHeader "Vary" "Accept-Encoding"]) fresh Hnext)
    as (w' & rs1 & Hr & ->); [by split|].
  fold (respond (next r)) in Hr. fold plain in Hr. simpl. unfold write_body.
  destruct (send_header_related w' Status.OK rs1 plain eq_refl Hr) as [Hdid Hsent Hdone Hun Hb1 Hb2 He Hse].
  assert (Hst : status (send_header Status.OK rs1) = status plain)
    by by rewrite (status_sent _ _ Hsent), status_send_OK.
  rewrite Hst. assert (Hd := did_send_header Status.OK plain).
  assert (Hbp := gr_body2 _ _ _ Hr).
  destruct (body_allowed (status plain)) eqn:Hallowed; simpl.
  - split; [done|]. split; [congruence|]. split; [done|]. by rewrite Hb1, str_app_nil_l, Hgunzip, Hbp.
  - split; [done|]. split; [congruence|]. done.
Qed.

Definition toy_gzip : Gzip := {| gzip calls := "1f8b" +:+ written calls |}.
Definition gzip_request : request :=
  {| rq_Method := MethodGet; rq_URL := None; rq_Header := {["Accept-Encoding" := ["gzip, br"]]};
     rq_Body := Ret ""; rq_PathValue := ∅ |}.
Lemma GZip_transparent_witness :
  let next : handler nat := fun _ => [SetHeader "ETag" "x"; WriteHeader 404; Write "no "; Write "such"] in
  rs_Body (respond (GZip (H := toy_gzip) next gzip_request)) = "1f8bno such" /\
  status (respond (GZip (H := toy_gzip) next gzip_request)) = 404.
Proof.
  intros next.
  destruct (GZip_transparent (H := toy_gzip) (Str.drop 4) next gzip_request) as (Hs & _ & _ & Hb).
  - done.
  - vm_compute. reflexivity.
  - repeat apply Forall_cons_2; by try apply Forall_nil_2; split; try done; vm_compute.
  - split; [vm_compute; reflexivity|]. rewrite Hs. vm_compute. reflexivity.
Defined.

(** The allowed origin of a CORS response. With origins or patterns
    configured the header echoes the request's origin exactly when the origin is
    listed or matches a pattern, or happens to be the fallback; every other
    request gets the fallback: [ifNoMatch] when patterns are configured, the
    first listed origin otherwise. With neither, every origin is echoed, and a
    request without one gets the wildcard. *)
Theorem determineOrigin_spec `{RegexpEngine} (requestOrigin : string) (allowedOrigins : list string)
    (c : OriginRegexConfig) :
  determineOrigin requestOrigin allowedOrigins (Some c) =
  match allowedOrigins, re_Regexes c with
  | [], [] => if bool_decide (requestOrigin = "") then "*" else requestOrigin
  | first :: _, [] => if origin_allowed requestOrigin allowedOrigins [] then requestOrigin else first
  | _, regexes => if origin_allowed requestOrigin allowedOrigins regexes then requestOrigin else re_IfNoMatch c
  end.
Proof.
  unfold determineOrigin, origin_allowed. rewrite any_regex_existsb.
  destruct allowedOrigins as [|first rest], (re_Regexes c) as [|re res];
    cbn [length Nat.eqb negb head existsb andb orb default from_option].
  - by case_bool_decide.
  - rewrite bool_decide_eq_false_2 by apply not_elem_of_nil. by destruct (_ || _).
  - by case_bool_decide.
  - case_bool_decide; simpl; [done|]. by destruct (_ || _).
Qed.

(** an operation that sends neither the status nor a part of the body *)
Definition keeps_open {E} (o : op E) : Prop := match o with WriteHeader _ | Write _ | Flush => False | _ => True end.
Definition not_status {E} (o : op E) : Prop := match o with WriteHeader _ => False | _ => True end.

Lemma apply_ops_open {E} (ops : list (op E)) rs :
  Forall keeps_open ops -> rs_sent rs = None -> rs_sent (apply_ops rs ops) = None.
Proof.
  intros Ho. revert rs. induction Ho as [|o ops Ho _ IH]; intros rs Hrs; [done|].
  apply IH. by destruct o.
Qed.

Lemma apply_op_sent {E} (o : op E) rs x : rs_sent rs = Some x -> rs_sent (apply_op rs o) = Some x.
Proof.
  intros Hrs. destruct o; simpl; unfold write_body, send_header; rewrite ?Hrs; try done.
  by case_match.
Qed.
Lemma apply_ops_sent {E} (ops : list (op E)) rs x : rs_sent rs = Some x -> rs_sent (apply_ops rs ops) = Some x.
Proof. revert rs. induction ops as [|o ops IH]; intros rs Hrs; [done|]. by apply IH, apply_op_sent. Qed.

Lemma intercept_status {E} (ops : list (op E)) ri :
  Forall not_status ops -> ri_statusCode (fold_left intercept ops ri) = ri_statusCode ri.
Proof. intros Hf. revert ri. induction Hf as [|o ops Ho _ IH]; intros ri; [done|]. simpl. rewrite IH. by destruct o. Qed.

(** [DebugLog] changes neither the response nor the effects of a handler, and the
    status it logs is the one the client gets when the handler sends one status,
    before any of the body. *)
Lemma DebugLog_response {E} (next : handler E) r : respond (DebugLog next r) = respond (next r).
Proof. unfold respond, DebugLog. by rewrite apply_ops_app. Qed.

Lemma DebugLog_status {E} (next : handler E) r before code body :
  next r = before ++ WriteHeader code :: body -> Forall keeps_open before -> Forall not_status body ->
  informational code = false ->
  exists n, last (DebugLog next r) = Some (Finished (status (respond (next r))) n).
Proof.
  intros Hn Hb Hbody Hc. unfold DebugLog. rewrite last_snoc, Hn. eexists. do 2 f_equal.
  rewrite fold_left_app. simpl. rewrite intercept_status by done. simpl.
  unfold respond, status. rewrite apply_ops_app. simpl.
  pose proof (apply_ops_open before fresh Hb eq_refl) as Ho.
  rewrite (apply_ops_sent body _ (code, rs_Header (apply_ops fresh before))); [done|].
  unfold send_header. by rewrite Ho, Hc.
Qed.
