(* ===== verification/Json.v ===== *)
(** [encoding/json], as the request handlers use it: a document to be written is
    a tree whose objects keep the order of the fields, and a request is decoded
    member by member into its struct. The text level, [json.Marshal] of a tree
    and the split of an object into its members, is a parameter; a value that
    cannot be written (an infinite float) is a failing [json_Marshal]. *)
From S2P Require Import Prelude Go Utils Model.
From Stdlib Require Import Ascii.
Open Scope Z_scope.

Inductive json :=
| JValue (v : value)
| JString (s : string)
| JArray (l : list json)
| JObject (members : list (string * json)).

Class JSONText := {
  json_Marshal : json -> go string;
  (** the members of an object in document order, each with the text of its
      value; none for [null], and an error for any other document *)
  json_members : string -> go (list (string * string))
}.

(** A Go map is written with its keys in order. *)
Definition json_of_map (m : gmap string json) : json :=
  JObject (merge_sort (fun a b => Is_true (String.leb a.1 b.1)) (map_to_list m)).

(** The folding under which a member's name matches a field's: ASCII case, and
    the two other letters that fold to [k] and [s]. *)
Fixpoint fold_name (s : string) : string :=
  match s with
  | String "226"%char (String "132"%char (String "170"%char s)) => String "k"%char (fold_name s)
  | String "197"%char (String "191"%char s) => String "s"%char (fold_name s)
  | String a s => String (if in_range 65 90 (byte_val a) then byte_chr (byte_val a + 32) else a) (fold_name s)
  | EmptyString => EmptyString
  end.
Definition is_field (name field : string) : bool := bool_decide (fold_name name = fold_name field).

(** the name [json] gives the kind of a document in an error *)
Definition json_kind (v : value) : string :=
  match v with
  | VNil => "null"
  | VBool _ => "bool"
  | VInt _ | VFloat _ | VTime _ => "number"
  | VString _ => "string"
  | VStrings _ | VArray _ => "array"
  | VObject _ => "object"
  end.

Section decode.
Context `{MapRange, JSON, JSONText}.

(** A member into a string field: null leaves the field, and a wrong type is
    an error that does not stop the decoding. *)
Definition decode_string (field_name raw old : string) (saved : option string) : go (string * option string) :=
  v <-? json_decode raw;
  match v with
  | VString s => Ret (s, saved)
  | VNil => Ret (old, saved)
  | _ => Ret (old, Some (default ("json: cannot unmarshal " +:+ json_kind v +:+ " into Go struct field "
                                  +:+ field_name +:+ " of type string") saved))
  end.

Definition decode_struct {A} (step : A * option string -> string * string -> go (A * option string))
    (zero : A) (data : string) : go A :=
  members <-? json_members data;
  st <-? go_fold step (zero, None) members;
  match st.2 with
  | Some err => Fail err
  | None => Ret st.1
  end.

(** [json.Unmarshal(data, &evalReq)] for a [model.EvalRequest] *)
Definition decode_EvalRequest_member (st : EvalRequest * option string) (kv : string * string) :
    go (EvalRequest * option string) :=
  let '(req, saved) := st in
  let '(name, raw) := kv in
  if is_field name "sdkKey" then
    r <-? decode_string "EvalRequest.sdkKey" raw (e_SdkKey req) saved;
    Ret ({| e_SdkKey := r.1; e_Key := e_Key req; e_User := e_User req |}, r.2)
  else if is_field name "key" then
    r <-? decode_string "EvalRequest.key" raw (e_Key req) saved;
    Ret ({| e_SdkKey := e_SdkKey req; e_Key := r.1; e_User := e_User req |}, r.2)
  else if is_field name "user" then
    attrs <-? UnmarshalJSON raw;
    Ret ({| e_SdkKey := e_SdkKey req; e_Key := e_Key req; e_User := Some attrs |}, saved)
  else Ret (req, saved).

Definition empty_EvalRequest : EvalRequest := {| e_SdkKey := ""; e_Key := ""; e_User := None |}.
Definition decode_EvalRequest (data : string) : go EvalRequest :=
  decode_struct decode_EvalRequest_member empty_EvalRequest data.
End decode.

(** The JSON of a [model.ResponsePayload] *)
Definition json_of_payload (p : ResponsePayload) : json :=
  JObject [("value", JValue (r_Value p)); ("variationId", JString (r_VariationId p))].
