(* ===== verification/Handlers.v ===== *)
(** What the request handlers of the web servers share: the effects they have
    outside the response, and the errors of a lookup. *)
From S2P Require Import Prelude Go Utils Model Store Http Client Stream Json.
Open Scope Z_scope.

(** A refresh of an SDK; a connection to a stream, opened or closed. *)
Inductive effect `{Client} :=
| ERefresh (sdkClient : SC)
| EOpen (e : connEstablished)
| EClose (e : connClosed).

(** [sdkClient, err, code := s.getSDKClient(r)]: the client, or the error and
    the status of the response *)
Definition lookup_result `{Client} : Type := SC + string * Z.

Definition err_unknown_sdk : string := "could not identify a configured SDK".
Definition err_invalid_state : string :=
  "requested SDK is in an invalid state; please check the logs for more details".

(** The end of every lookup: a client that is missing or has no configuration. *)
Definition check_client `{Client} (notFound : Z) (sdkClient : option SC) : lookup_result :=
  match sdkClient with
  | None => inr (err_unknown_sdk, notFound)
  | Some c => if negb (c_IsInValidState c) then inr (err_invalid_state, Status.InternalServerError) else inl c
  end.

(** [data, err := json.Marshal(payload); if err ... else { w.Write(data) }] *)
Definition write_json {E} `{JSONText} (payload : json) : list (op E) :=
  match json_Marshal payload with
  | Ret data => [SetHeader "Content-Type" "application/json"; Write data]
  | Fail err => Error err Status.InternalServerError
  | Panic => []
  end.

Lemma check_client_inl `{Client} n o c : check_client n o = inl c <-> o = Some c /\ c_IsInValidState c = true.
Proof.
  unfold check_client. destruct o as [c0|]; [|by split; [|intros [[=] _]]].
  destruct (c_IsInValidState c0) eqn:Hv; simpl; split.
  - by intros [= ->].
  - by intros [[= ->] _].
  - done.
  - intros [[= ->] ?]. congruence.
Qed.

(** ** A small client for the witnesses: its configuration is the number [c],
    negative before the first one is loaded; it has one flag. *)
Definition demo_eval (c : Z) (key : string) (u : option (gmap string value)) : EvalData :=
  if bool_decide (key = "flag") then
    {| d_Value := VInt c; d_VariationId := "v1"; d_Error := None; d_User := u; d_IsTargeting := true |}
  else
    {| d_Value := VNil; d_VariationId := ""; d_User := u; d_IsTargeting := false;
       d_Error := Some {| err_key_not_found := true; err_text := "key not found" |} |}.
Definition demo_client : Client := {|
  SC := Z;
  c_Eval := demo_eval;
  c_EvalAll c u := {["flag" := demo_eval c "flag" u]};
  c_Keys c := ["flag"];
  c_HasKey c key := bool_decide (key = "flag");
  c_GetCachedJson c := {| en_ConfigJson := "config " +:+ pretty c; en_ETag := "etag" +:+ pretty c;
                          en_FetchTime := 0; en_Empty := c <? 0 |};
  c_SdkKeys c := ("key", None);
  c_WebhookSigningKey c := "secret";
  c_WebhookSignatureValidFor c := 300;
  c_IsInValidState c := negb (c <? 0)
|}.

Lemma demo_client_laws : ClientLaws demo_client.
Proof.
  split; simpl.
  - intros c k u. unfold demo_eval. by case_bool_decide.
  - intros c u k d Hd. apply lookup_singleton_Some in Hd as [<- <-]. done.
  - intros c k. rewrite bool_decide_eq_true. set_solver.
  - done.
Qed.

Definition demo_registrar (c : Z) : registrar (H := demo_client) :=
  Build_registrar demo_client (fun sdkId => if bool_decide (sdkId = "sdk") then Some c else None)
    (fun sdkKey => if bool_decide (sdkKey = "key") then Some c else None).

(** A JSON text level whose only request is for [flag] by the SDK's key. *)
Definition demo_json : JSON := {| json_decode raw := Ret (VString raw) |}.
Definition demo_json_text : JSONText := {|
  json_Marshal _ := Ret "{}";
  json_members _ := Ret [("sdkKey", "key"); ("key", "flag")]
|}.
