(* ===== verification/CdnProxy.v ===== *)
(** [web/cdnproxy/cdnproxy.go]: the endpoint the ConfigCat SDKs of other
    processes download the configuration file from, by SDK key or, under
    [configcat-proxy/], by SDK id, with conditional requests. *)
From S2P Require Import Prelude Go Utils Model Config Store Http Client Stream Json Handlers.
Open Scope Z_scope.

Section cdnproxy.
Context `{C : Client}.

(** [web/cdnproxy/cdnproxy.go:51-70] getSDKClient *)
Definition getSDKClient (s : registrar) (r : request) : lookup_result :=
  let path := PathValue r "path" in
  check_client Status.NotFound
    (if Str.HasPrefix path "configcat-proxy/" then
       let path := Str.TrimPrefix path "configcat-proxy/" in
       rg_GetSdkOrNil s (Str.TrimSuffix path "/config_v6.json")
     else rg_GetSdkByKeyOrNil s (Str.TrimSuffix path "/config_v6.json")).

(** [web/cdnproxy/cdnproxy.go:35-39] ServeHTTP, the ETag the client has *)
Definition request_etag (r : request) : string :=
  let etag := header_of r "If-None-Match" in
  match rq_URL r with
  | Some u => if bool_decide (etag = "") then query_of u "ccetag" else etag
  | None => etag
  end.

(** [web/cdnproxy/cdnproxy.go:28-49] ServeHTTP *)
Definition ServeHTTP (s : registrar) : handler effect := fun r =>
  match getSDKClient s r with
  | inr (err, code) => Error err code
  | inl sdkClient =>
      SetHeader "Cache-Control" "max-age=0, must-revalidate" ::
      let etag := request_etag r in
      let c := c_GetCachedJson sdkClient in
      if bool_decide (etag = "") || negb (bool_decide (en_ETag c = etag)) then
        [SetHeader "ETag" (en_ETag c); SetHeader "Content-Type" "application/json"; Write (en_ConfigJson c)]
      else [SetHeader "ETag" (en_ETag c); WriteHeader Status.NotModified]
  end.

(** the file a request asks for, in the syntax of the two forms of the path *)
Inductive target := ByKey (sdkKey : string) | ById (sdkId : string).
Definition path_of (t : target) : string :=
  match t with
  | ByKey k => k +:+ "/config_v6.json"
  | ById i => "configcat-proxy/" +:+ i +:+ "/config_v6.json"
  end.
Definition find_target (s : registrar) (t : target) : option SC :=
  match t with ByKey k => rg_GetSdkByKeyOrNil s k | ById i => rg_GetSdkOrNil s i end.
Definition well_formed_target (t : target) : Prop :=
  match t with ByKey k => Str.HasPrefix (path_of t) "configcat-proxy/" = false | ById _ => True end.

(** ** Specification: a polling client

    A client of the CDN keeps the last file it was sent and its ETag, sends the
    ETag with each request, in the header or in the query, and keeps the file on
    a 304. *)
Record cached := { cached_etag : string; cached_body : string }.

Definition conditional_request (in_query : bool) (t : target) (etag : string) : request :=
  {| rq_Method := MethodGet;
     rq_URL := Some {| u_Path := "/configuration-files/" +:+ path_of t;
                       u_Query := if in_query then {["ccetag" := [etag]]} else ∅ |};
     rq_Header := if in_query then ∅ else {["If-None-Match" := [etag]]};
     rq_Body := Ret ""; rq_PathValue := {["path" := path_of t]} |}.

Definition receive (rs : response effect) (old : option cached) : option cached :=
  if status rs =? Status.OK
  then Some {| cached_etag := Header.Get (sent_headers rs) "ETag"; cached_body := rs_Body rs |}
  else if status rs =? Status.NotModified then old
  else None.

Definition poll (in_query : bool) (t : target) (old : option cached) (s : registrar) : option cached :=
  receive (respond (ServeHTTP s (conditional_request in_query t (default "" (cached_etag <$> old))))) old.

(** the registrar serves the target, with a configuration *)
Definition serves (s : registrar) (t : target) (e : EntryWithEtag) : Prop :=
  exists c, find_target s t = Some c /\ c_IsInValidState c = true /\ c_GetCachedJson c = e.

Definition holds (cl : cached) (e : EntryWithEtag) : Prop :=
  cached_etag cl = en_ETag e /\ cached_body cl = en_ConfigJson e.

Lemma getSDKClient_target s t r :
  well_formed_target t -> PathValue r "path" = path_of t ->
  getSDKClient s r = check_client Status.NotFound (find_target s t).
Proof.
  intros Ht Hr. unfold getSDKClient. rewrite Hr. f_equal. destruct t as [k|i].
  - unfold well_formed_target in Ht. rewrite Ht. simpl. by rewrite TrimSuffix_app.
  - simpl path_of. rewrite HasPrefix_app, TrimPrefix_app, TrimSuffix_app. done.
Qed.

Lemma request_etag_conditional b t etag : request_etag (conditional_request b t etag) = etag.
Proof.
  unfold request_etag, conditional_request, header_of, query_of. destruct b; simpl.
  - rewrite Header.Get_empty. simpl. by rewrite lookup_singleton_eq.
  - rewrite Header.Get_singleton by by vm_compute. simpl.
    case_bool_decide as He; [|done]. by rewrite lookup_empty.
Qed.

Lemma ServeHTTP_serves s t b etag e :
  well_formed_target t -> serves s t e ->
  let rs := respond (ServeHTTP s (conditional_request b t etag)) in
  Header.Get (sent_headers rs) "ETag" = en_ETag e /\ rs_did rs = [] /\
  (if bool_decide (etag <> "" /\ etag = en_ETag e)
   then status rs = Status.NotModified /\ rs_Body rs = ""
   else status rs = Status.OK /\ rs_Body rs = en_ConfigJson e).
Proof.
  intros Ht (c & Hc & Hv & He) rs. unfold rs, ServeHTTP.
  rewrite (getSDKClient_target s t) by (done || apply lookup_singleton_eq).
  rewrite (proj2 (check_client_inl _ _ c)) by done. rewrite request_etag_conditional, He.
  repeat case_bool_decide; simpl; try tauto; try naive_solver.
Qed.
End cdnproxy.

Section polling.
Context `{C : Client}.

Lemma poll_serves b t old s e :
  well_formed_target t -> serves s t e ->
  (forall cl, old = Some cl -> cached_etag cl = en_ETag e -> cached_body cl = en_ConfigJson e) ->
  exists cl, poll b t old s = Some cl /\ holds cl e.
Proof.
  intros Ht Hs Hold. unfold poll, receive.
  destruct (ServeHTTP_serves s t b (default "" (cached_etag <$> old)) e Ht Hs) as (Hetag & _ & Hr).
  case_bool_decide as Hc; destruct Hr as [Hst Hb]; rewrite Hst; simpl.
  - destruct Hc as [Hne Heq]. destruct old as [cl|]; [|done]. simpl in *. exists cl.
    split; [done|]. split; [done|]. by apply Hold.
  - eexists. split; [done|]. by split.
Qed.

Definition polls (b : bool) (t : target) (steps : list (registrar * EntryWithEtag)) : option cached :=
  fold_left (fun cl step => poll b t cl step.1) steps None.
End polling.

(** C15: a client that polls the CDN endpoint with conditional requests, by SDK
    key or by SDK id, its ETag in the header or in the query, has the
    configuration the proxy currently serves after every poll, however the
    configuration changes in between and although it is not sent again while it
    stays the same; provided two configurations the proxy served under one ETag
    are equal. *)
Theorem cdn_client_stays_current `{Client} (b : bool) (t : target)
    (steps : list (registrar * EntryWithEtag)) (s : registrar) (e : EntryWithEtag)
    (Ht : well_formed_target t)
    (Hserves : Forall (fun step => serves step.1 t step.2) (steps ++ [(s, e)]))
    (Hetags : forall step1 step2, step1 ∈ steps ++ [(s, e)] -> step2 ∈ steps ++ [(s, e)] ->
       en_ETag step1.2 = en_ETag step2.2 -> en_ConfigJson step1.2 = en_ConfigJson step2.2) :
  exists cl, polls b t (steps ++ [(s, e)]) = Some cl /\ holds cl e.
Proof.
  revert s e Hserves Hetags. induction steps as [|[s0 e0] steps IH] using rev_ind; intros s e Hserves Hetags;
    unfold polls; rewrite fold_left_app; simpl.
  - apply poll_serves; [done|exact (proj1 (Forall_singleton _ _) Hserves)|done].
  - apply Forall_app in Hserves as [Hs0 Hs]. apply (proj1 (Forall_singleton _ _)) in Hs.
    destruct (IH s0 e0 Hs0) as (cl0 & Hcl0 & He0 & Hb0); [intros st1 st2 Hst1 Hst2; apply Hetags; set_solver|].
    unfold polls in Hcl0. rewrite Hcl0. apply poll_serves; [done|done|]. intros cl [= <-] Heq.
    rewrite Hb0. apply (Hetags (s0, e0) (s, e)); [set_solver|set_solver|]. simpl. congruence.
Qed.

(** What the CDN endpoint answers. A request for a configured SDK gets 304
    without a body exactly when it names the ETag of the current configuration,
    and otherwise 200 with exactly the configuration's bytes, always with the
    current ETag; one for an SDK without a configuration yet gets 500, one for an
    unknown SDK 404, and no request has an effect on the SDK. *)
Theorem cdn_conditional_request `{Client} (s : registrar) (t : target) (b : bool) (etag : string)
    (Ht : well_formed_target t) :
  let rs := respond (ServeHTTP s (conditional_request b t etag)) in
  rs_did rs = [] /\
  match find_target s t with
  | None => status rs = Status.NotFound
  | Some c =>
      let e := c_GetCachedJson c in
      if c_IsInValidState c then
        Header.Get (sent_headers rs) "ETag" = en_ETag e /\
        (if bool_decide (etag <> "" /\ etag = en_ETag e)
         then status rs = Status.NotModified /\ rs_Body rs = ""
         else status rs = Status.OK /\ rs_Body rs = en_ConfigJson e)
      else status rs = Status.InternalServerError
  end.
Proof.
  intros rs. destruct (find_target s t) as [c|] eqn:Hc.
  - destruct (c_IsInValidState c) eqn:Hv.
    + destruct (ServeHTTP_serves s t b etag (c_GetCachedJson c) Ht) as (He & Hd & Hr); [by exists c|]. done.
    + unfold rs, ServeHTTP. rewrite (getSDKClient_target s t) by (done || apply lookup_singleton_eq).
      rewrite Hc. simpl. by rewrite Hv.
  - unfold rs, ServeHTTP. rewrite (getSDKClient_target s t) by (done || apply lookup_singleton_eq). by rewrite Hc.
Qed.

Definition demo_steps : list (registrar (H := demo_client) * EntryWithEtag) :=
  (fun c => (demo_registrar c, c_GetCachedJson (Client := demo_client) c)) <$> [1; 1; 2].
Lemma cdn_client_stays_current_witness :
  exists cl, polls (C := demo_client) true (ById "sdk")
    (demo_steps ++ [(demo_registrar 2, c_GetCachedJson (Client := demo_client) 2)]) = Some cl /\
  cached_body cl = "config 2".
Proof.
  destruct (cdn_client_stays_current (H := demo_client) true (ById "sdk") demo_steps (demo_registrar 2)
    (c_GetCachedJson (Client := demo_client) 2)) as (cl & Hcl & _ & Hb).
  - done.
  - repeat apply Forall_cons_2; try apply Forall_nil_2; [exists 1|exists 1|exists 2|exists 2]; done.
  - intros st1 st2 Hst1 Hst2. unfold demo_steps in *. simpl in *.
    repeat (apply elem_of_cons in Hst1 as [->|Hst1]); try by apply not_elem_of_nil in Hst1.
    all: repeat (apply elem_of_cons in Hst2 as [->|Hst2]); try by apply not_elem_of_nil in Hst2.
    all: by vm_compute.
  - exists cl. split; [exact Hcl|exact Hb].
Defined.

Lemma cdn_conditional_request_witness :
  status (respond (ServeHTTP (C := demo_client) (demo_registrar 5) (conditional_request false (ByKey "key") "etag5")))
  = Status.NotModified.
Proof.
  destruct (cdn_conditional_request (H := demo_client) (demo_registrar 5) (ByKey "key") false "etag5") as [_ Hr]; [done|].
  apply Hr.
Defined.
