(* ===== verification/Proxy.v ===== *)
(** The proxy as a whole: the automatic registrar ([Registrar]) behind the
    request handlers ([CdnProxy], [Api], [Ofrep]) through the interface of
    [Manual], so that what an HTTP client is answered is a function of the
    profile the registrar has applied last. *)
From S2P Require Import Prelude Go Utils Model Log ConfigTypes Config Status Store Sdk Registrar Refresh Client Manual Http.
From S2P Require Import Stream Json Handlers.
From S2P Require CdnProxy.
Open Scope Z_scope.

Section proxy.
Context `{xxh : XXHash, cf : ConfigCatFormat, os : OS, mr : MapRange, pj : ProfileJSON, xc : ExternalCache,
          cc : ConfigCatSDK}.

(** ** What a profile says about the target of a request *)

(** the profile lists the SDK with that id, or one with that SDK key *)
Definition listed (config : ProxyConfigModel) (t : CdnProxy.target) (id : string) : Prop :=
  match t with
  | CdnProxy.ById i => i = id /\ is_Some (remote config id)
  | CdnProxy.ByKey k => k <> "" /\ exists ks, remote config id = Some ks /\ has_key_of k ks
  end.

(** the client of an SDK in the registrar *)
Definition client_of (r : autoRegistrar) (id : string) (c : client) : Prop :=
  exists l, rg_sdkClients r !! id = Some l /\ rg_heap r !! l = Some c.

Definition no_empty_key (t : CdnProxy.target) : Prop :=
  match t with CdnProxy.ByKey k => k <> "" | CdnProxy.ById _ => True end.

Lemma client_at_Some ready heap (l : nat) c :
  heap !! l = Some c -> client_at ready heap (Some l) = Some (c, ready l).
Proof. intros Hc. unfold client_at. simpl. by rewrite Hc. Qed.

(** what a registrar in step with a profile finds is the client of an SDK that the
    profile lists *)
Lemma found_listed ready r config t c :
  WF r -> (forall id, view r id = remote config id) -> index_sound r -> no_empty_key t ->
  CdnProxy.find_target (handler_registrar ready (ARegistrar r)) t = Some c ->
  exists id, listed config t id /\ client_of r id c.1 /\ cl_closed c.1 = false.
Proof.
  intros Hwf Hv Hix Ht. destruct t as [k|i]; simpl in *.
  - unfold GetSdkByKeyOrNil. destruct (rg_sdkClientsBySdkKey r !! k) as [l|] eqn:Hk; [|done].
    destruct (Hix k l Ht Hk) as (id & ks & Hl & Hks & Hhas).
    destruct (wf_open r Hwf id l Hl) as (c1 & Hc & Ho & _). rewrite (client_at_Some _ _ _ c1 Hc). intros [= <-].
    exists id. rewrite <- Hv. split; [by split; [|exists ks]|]. split; [by exists l|done].
  - unfold GetSdkOrNil. destruct (rg_sdkClients r !! i) as [l|] eqn:Hl; [|done].
    destruct (wf_open r Hwf i l Hl) as (c1 & Hc & Ho & _). rewrite (client_at_Some _ _ _ c1 Hc). intros [= <-].
    exists i. split; [split; [done|]|split; [by exists l|done]].
    rewrite <- Hv. unfold view. rewrite Hl. simpl. rewrite Hc. by eexists.
Qed.

Definition by_id (t : CdnProxy.target) : Prop := match t with CdnProxy.ById _ => True | CdnProxy.ByKey _ => False end.

(** and it finds every SDK that is listed, by its id, and by its keys when the
    index is exact *)
Lemma listed_found ready r config t id :
  WF r -> (forall id, view r id = remote config id) -> by_id t \/ index_ok r -> listed config t id ->
  is_Some (CdnProxy.find_target (handler_registrar ready (ARegistrar r)) t).
Proof.
  intros Hwf Hv Hor Hlisted.
  assert (Hcl : forall id ks, remote config id = Some ks -> exists l c, rg_sdkClients r !! id = Some l /\ rg_heap r !! l = Some c).
  { intros id' ks Hks. rewrite <- Hv in Hks. unfold view in Hks.
    destruct (rg_sdkClients r !! id') as [l|] eqn:Hl; [|done]. destruct (wf_open r Hwf id' l Hl) as (c & Hc & _). by exists l, c. }
  destruct t as [k|i]; simpl in *.
  - destruct Hor as [[]|Hix]. destruct Hlisted as (Hk & ks & Hks & Hhas). destruct (Hcl id ks Hks) as (l & c & Hl & Hc).
    assert (GetSdkByKeyOrNil k r = Some l) as ->; [|by rewrite (client_at_Some _ _ _ c Hc); eexists].
    apply (Hix k l Hk). exists id, ks. by rewrite Hv.
  - destruct Hlisted as [-> [ks Hks]]. destruct (Hcl id ks Hks) as (l & c & Hl & Hc).
    unfold GetSdkOrNil. rewrite Hl, (client_at_Some _ _ _ c Hc). by eexists.
Qed.

(** what the CDN endpoint answers to a first request, by what the registrar
    finds *)
Lemma cdn_answer s t :
  CdnProxy.well_formed_target t ->
  let rs := respond (CdnProxy.ServeHTTP s (CdnProxy.conditional_request false t "")) in
  match CdnProxy.find_target s t with
  | None => status rs = 404
  | Some c => if c_IsInValidState c
              then status rs = 200 /\ rs_Body rs = en_ConfigJson (c_GetCachedJson c)
              else status rs = 500
  end.
Proof.
  intros Ht rs. destruct (CdnProxy.find_target s t) as [c|] eqn:Hf.
  - destruct (c_IsInValidState c) eqn:Hvalid.
    + destruct (CdnProxy.ServeHTTP_serves s t false "" (c_GetCachedJson c) Ht) as (_ & _ & Hr); [by exists c|].
      rewrite bool_decide_eq_false_2 in Hr by tauto. exact Hr.
    + unfold rs, CdnProxy.ServeHTTP.
      rewrite (CdnProxy.getSDKClient_target s t) by (done || apply lookup_singleton_eq).
      rewrite Hf. unfold check_client. by rewrite Hvalid.
  - unfold rs, CdnProxy.ServeHTTP.
    rewrite (CdnProxy.getSDKClient_target s t) by (done || apply lookup_singleton_eq). by rewrite Hf.
Qed.
End proxy.

(** ** Properties *)

(** C1: the configuration files that the proxy serves are those of its profile.
    After a refresh with a new profile, the answer to a request for a
    configuration file, by SDK id or by a non-empty SDK key, is 404 or that of an
    open client of an SDK that the profile lists under that id or key: its current
    configuration with 200, or 500 while it has none. So no SDK and no key of an
    earlier profile stays visible. An SDK of the profile is found by its id in
    every case. It is found by its keys as well, when no key has moved from one
    SDK to another (in this refresh, and in the earlier ones: the index was exact);
    otherwise a listed key can be answered 404. Of the registrar before the
    refresh it is assumed that it is well-formed and that its index leads to SDKs
    that have the key; the refresh keeps both, and a start establishes them. The
    profile holds no null SDK. *)
Theorem proxy_serves_its_profile
    `{XXHash, ConfigCatFormat, OS, MapRange, ProfileJSON, ExternalCache, ConfigCatSDK}
    (conf : Config) (log : logger) (now : Z) (do : http_request -> go http_response) (r r1 : autoRegistrar)
    (config : ProxyConfigModel) (ready : nat -> CC) (t : CdnProxy.target)
    (Hconf : no_nil_sdk conf) (Hmodels : no_nil_model config) (Hwf : WF r) (Hsound : index_sound r)
    (Hget : getConfig conf do r = (Ret (Some config), r1))
    (Ht : CdnProxy.well_formed_target t) (Hkey : no_empty_key t) :
  exists r', refreshConfig conf log now do r = Ret r' /\ WF r' /\ index_sound r' /\
    let rs := respond (CdnProxy.ServeHTTP (handler_registrar ready (ARegistrar r'))
                         (CdnProxy.conditional_request false t "")) in
    ((forall id, ~ listed config t id) -> status rs = 404) /\
    (status rs <> 404 -> exists id c, listed config t id /\ client_of r' id c /\ cl_closed c = false /\
       if IsInValidState c then status rs = 200 /\ rs_Body rs = en_ConfigJson (GetCachedJson c)
       else status rs = 500) /\
    (by_id t \/ (mix_disjoint (view r) (remote config) /\ index_ok r) ->
     (exists id, listed config t id) -> status rs <> 404).
Proof.
  destruct (refresh_effect conf log now do r r1 config Hconf Hmodels Hwf Hget)
    as (r' & pub & Hr' & Hwf' & Hv & _ & _ & _ & _ & Hix & Hsound').
  exists r'. split; [done|]. split; [done|]. split; [auto|]. intros rs.
  pose proof (fun c => found_listed ready r' config t c Hwf' Hv (Hsound' Hsound) Hkey) as Hfound.
  pose proof (cdn_answer (handler_registrar ready (ARegistrar r')) t Ht) as Hans. cbv zeta in Hans. fold rs in Hans.
  pose proof (fun id => listed_found ready r' config t id Hwf' Hv) as Hlisted.
  destruct (CdnProxy.find_target _ _) as [[c cc0]|].
  - destruct (Hfound _ eq_refl) as (id & Hl & Hc & Ho). simpl in Hans.
    assert (Hne : status rs <> 404) by (destruct (IsInValidState c); [destruct Hans|]; lia).
    split; [intros Hno; by destruct (Hno id)|]. split; [|done]. intros _. by exists id, c.
  - split; [done|]. split; [by intros Hne|]. intros Hor [id Hl]. destruct (Hlisted id) as [? [=]]; [|done].
    destruct Hor as [|[]]; [by left|right; auto].
Qed.

Definition toy_configcat : ConfigCatSDK := {| CC := unit;
  GetValueDetails _ _ k := {| ed_Key := k; ed_Value := VNil; ed_VariationID := ""; ed_User := None; ed_Error := None;
    ed_MatchedPercentageOption := false; ed_MatchedTargetingRule := false |};
  GetAllValueDetails _ _ := []; GetAllKeys _ := [] |}.
Import ToyInstances.

(** SDK [a] is gone with the second profile, and [d] has come *)
Lemma proxy_serves_its_profile_witness :
  exists r', refreshConfig Toy.conf NewNullLogger 9 (Toy.served "2" "profile2") toy_registrar = Ret r' /\
    let ask t := status (respond (CdnProxy.ServeHTTP
      (@handler_registrar canonical_range toy_configcat Toy.xc (fun _ => tt) (ARegistrar r'))
      (CdnProxy.conditional_request false t ""))) in
    ask (CdnProxy.ByKey "a1") = 404 /\ ask (CdnProxy.ByKey "d1") <> 404.
Proof.
  pose proof (fun t => @proxy_serves_its_profile toy_hash toy_format Toy.os canonical_range Toy.pj Toy.xc toy_configcat
    Toy.conf NewNullLogger 9 (Toy.served "2" "profile2") toy_registrar
    (getConfig Toy.conf (Toy.served "2" "profile2") toy_registrar).2 Toy.profile2 (fun _ => tt) t
    toy_no_nil (owned_no_nil Toy.own _ toy_owned2) (proj1 toy_registrar_ok)
    (index_ok_sound _ (proj2 (proj2 toy_registrar_ok)))) as Hserves.
  destruct (Hserves (CdnProxy.ByKey "a1")) as (r' & Hr & _ & _ & Hnone & _);
    [vm_compute; reflexivity|reflexivity|discriminate|].
  destruct (Hserves (CdnProxy.ByKey "d1")) as (r2 & Hr2 & _ & _ & _ & _ & Hfound);
    [vm_compute; reflexivity|reflexivity|discriminate|].
  rewrite Hr in Hr2. injection Hr2 as <-. exists r'. split; [exact Hr|]. split.
  - apply Hnone. intros id (_ & ks & Hks & Hhas).
    pose proof (proj1 (remote_owned Toy.own Toy.profile2 id ks toy_owned2 Hks) "a1" ltac:(discriminate) Hhas) as Hid.
    rewrite <- Hid in Hks. vm_compute in Hks. discriminate Hks.
  - apply Hfound.
    + right. split; [|apply toy_registrar_ok]. apply (mix_disjoint_owner Toy.own). intros id ks [Hks|Hks].
      * apply (remote_owned Toy.own Toy.profile1); [exact toy_owned1|]. by rewrite <- (proj1 (proj2 toy_registrar_ok)).
      * apply (remote_owned Toy.own Toy.profile2); [exact toy_owned2|exact Hks].
    + exists "d". split; [discriminate|]. exists ("d1", ""). split; [vm_compute; reflexivity|by left].
Defined.
