(* ===== verification/Api.v ===== *)
(** [web/api/api.go]: the evaluation API. *)
From S2P Require Import Prelude Go Utils Model Config Store Http Client Stream Json Handlers.
Open Scope Z_scope.

(** [web/api/api.go:17-18] SdkKeyHeader, SdkIdPathVariable *)
Definition SdkKeyHeader : string := "X-ConfigCat-SdkKey".
Definition SdkIdPathVariable : string := "sdkId".

(** the body of a request that names an unknown flag *)
Definition flag_not_found (key : string) : string :=
  "feature flag or setting with key '" +:+ key +:+ "' not found".

Section api.
Context `{mr : MapRange, js : JSON, jt : JSONText, C : Client, rf : Refresher (H := C)}.

(** [web/api/api.go:136-155] getSDKClient *)
Definition getSDKClient (s : registrar) (r : request) : lookup_result :=
  let sdkId := PathValue r SdkIdPathVariable in
  if bool_decide (sdkId = "") then
    let sdkKey := header_of r SdkKeyHeader in
    if bool_decide (sdkKey = "") then
      inr ("either the '" +:+ SdkIdPathVariable +:+ "' path variable or '" +:+ SdkKeyHeader
           +:+ "' header must be set", Status.BadRequest)
    else check_client Status.NotFound (rg_GetSdkByKeyOrNil s sdkKey)
  else check_client Status.NotFound (rg_GetSdkOrNil s sdkId).

(** [web/api/api.go:120-134] parseRequest *)
Definition parseRequest (s : registrar) (r : request) : (SC * EvalRequest) + string * Z :=
  match rq_Body r with
  | Ret reqBody =>
      match decode_EvalRequest reqBody with
      | Ret evalReq =>
          match getSDKClient s r with
          | inl sdkClient => inl (sdkClient, evalReq)
          | inr err => inr err
          end
      | Fail err => inr ("failed to parse JSON body: " +:+ err, Status.BadRequest)
      | Panic => inr ("", Status.BadRequest)
      end
  | _ => inr ("failed to read request body", Status.BadRequest)
  end.

(** [web/api/api.go:39-64] Eval *)
Definition Eval (s : registrar) : handler effect := fun r =>
  match parseRequest s r with
  | inr (err, code) => Error err code
  | inl (sdkClient, evalReq) =>
      let eval := c_Eval sdkClient (e_Key evalReq) (e_User evalReq) in
      match d_Error eval with
      | Some err =>
          if err_key_not_found err then Error (flag_not_found (e_Key evalReq)) Status.BadRequest
          else Error "the request failed; please check the logs for more details" Status.InternalServerError
      | None => write_json (json_of_payload (PayloadFromEvalData eval))
      end
  end.

(** [web/api/api.go:74-77] EvalAll, the response *)
Definition eval_all_payloads (details : gmap string EvalData) : gmap string json :=
  fold_left (fun res '(key, detail) => <[key := json_of_payload (PayloadFromEvalData detail)]> res) (range details) ∅.

(** [web/api/api.go:66-85] EvalAll *)
Definition EvalAll (s : registrar) : handler effect := fun r =>
  match parseRequest s r with
  | inr (err, code) => Error err code
  | inl (sdkClient, evalReq) => write_json (json_of_map (eval_all_payloads (c_EvalAll sdkClient (e_User evalReq))))
  end.

(** [web/api/api.go:20-22] keysResponse *)
Definition keysResponse (keys : list string) : json := JObject [("keys", JArray (JString <$> keys))].

(** [web/api/api.go:87-101] Keys *)
Definition Keys (s : registrar) : handler effect := fun r =>
  match getSDKClient s r with
  | inr (err, code) => Error err code
  | inl sdkClient => write_json (keysResponse (c_Keys sdkClient))
  end.

(** [web/api/api.go:103-114] Refresh *)
Definition Refresh (s : registrar) : handler effect := fun r =>
  match getSDKClient s r with
  | inr (err, code) => Error err code
  | inl sdkClient =>
      Did (ERefresh sdkClient) ::
      match c_Refresh sdkClient with
      | Some err => Error err Status.InternalServerError
      | None => []
      end
  end.

(** [web/api/api.go:116-118] ICanHasCoffee *)
Definition ICanHasCoffee : handler effect := fun _ => [WriteHeader Status.Teapot].
End api.
