(* ===== verification/Ofrep.v ===== *)
(** [web/ofrep/ofrep.go]: the OpenFeature remote evaluation protocol. The seed
    of the server is the digest [h] of [Model.Discriminator]. *)
From S2P Require Import Prelude Go Utils Model Config Store Http Client Stream Json Handlers.
From S2P Require Api.
Open Scope Z_scope.

(** [web/ofrep/ofrep.go:24-26] the error codes *)
Definition generalErrorCode : string := "GENERAL".
Definition flagNotFoundErrorCode : string := "FLAG_NOT_FOUND".
Definition invalidContextErrorCode : string := "INVALID_CONTEXT".

(** [web/ofrep/ofrep.go:28-31] the reasons, SdkIdHeader *)
Definition defaultReason : string := "DEFAULT".
Definition targetingMatchReason : string := "TARGETING_MATCH".
Definition SdkIdHeader : string := "X-ConfigCat-SdkId".

(** [web/ofrep/ofrep.go:38-43] evaluationResponse *)
Record evaluationResponse := { v_Key : string; v_Reason : string; v_Variant : string; v_Value : value }.

(** [web/ofrep/ofrep.go:38-62] the JSON of the responses *)
Definition json_of_evaluationResponse (v : evaluationResponse) : json :=
  JObject [("key", JString (v_Key v)); ("reason", JString (v_Reason v)); ("variant", JString (v_Variant v));
           ("value", JValue (v_Value v))].
Definition errorResponse (key code details : string) : json :=
  JObject [("key", JString key); ("errorCode", JString code); ("errorDetails", JString details)].
Definition bulkEvaluationResponse (flags : list json) : json := JObject [("flags", JArray flags)].
Definition bulkErrorResponse (code details : string) : json :=
  JObject [("errorCode", JString code); ("errorDetails", JString details)].
Definition generalErrorResponse (details : string) : json := JObject [("errorDetails", JString details)].

(** [web/ofrep/ofrep.go:212-216] mapTargetingKeyToIdentifier *)
Definition mapTargetingKeyToIdentifier (attr : option (gmap string value)) : option (gmap string value) :=
  match attr with
  | Some attr => Some (match attr !! "targetingKey" with Some val => <["Identifier" := val]> attr | None => attr end)
  | None => None
  end.

(** [web/ofrep/ofrep.go:218-229] toEvalResponse *)
Definition toEvalResponse (data : EvalData) (key : string) : evaluationResponse :=
  {| v_Key := key; v_Value := d_Value data; v_Variant := d_VariationId data;
     v_Reason := if d_IsTargeting data then targetingMatchReason else defaultReason |}.

(** [json.Marshal(body)] when it cannot fail: the error is dropped and nothing
    is written *)
Definition marshalled `{JSONText} (body : json) : string :=
  match json_Marshal body with Ret data => data | _ => "" end.

(** [web/ofrep/ofrep.go:160-165] writeError *)
Definition writeError {E} `{JSONText} (body : json) (code : Z) : list (op E) :=
  [SetHeader "Content-Type" "application/json"; WriteHeader code; Write (marshalled body)].

(** the client of a request, or its error: text, OFREP code, status *)
Definition ofrep_lookup `{Client} : Type := SC + string * string * Z.

Section ofrep.
Context `{mr : MapRange, ft : FloatText, xxh : XXHash, js : JSON, jt : JSONText, C : Client}.

(** [json.Unmarshal(reqBody, &evalReq)] for an [evaluationRequest]:
    [web/ofrep/ofrep.go:34-36] evaluationRequest *)
Definition decode_member (st : option (gmap string value) * option string) (kv : string * string) :
    go (option (gmap string value) * option string) :=
  if is_field kv.1 "context" then attrs <-? UnmarshalJSON kv.2; Ret (Some attrs, st.2) else Ret st.
Definition decode_evaluationRequest (data : string) : go (option (gmap string value)) :=
  decode_struct decode_member None data.

(** [web/ofrep/ofrep.go:185-204] getSDKClient *)
Definition getSDKClient (s : registrar) (r : request) : ofrep_lookup :=
  let sdkId := header_of r SdkIdHeader in
  let check o := match check_client Status.BadRequest o with
                 | inl c => inl c
                 | inr (err, code) => inr (err, generalErrorCode, code)
                 end in
  if bool_decide (sdkId = "") then
    let sdkKey := header_of r Api.SdkKeyHeader in
    if bool_decide (sdkKey = "") then
      inr ("either the '" +:+ SdkIdHeader +:+ "' or '" +:+ Api.SdkKeyHeader +:+ "' header must be set",
           generalErrorCode, Status.BadRequest)
    else check (rg_GetSdkByKeyOrNil s sdkKey)
  else check (rg_GetSdkOrNil s sdkId).

(** [web/ofrep/ofrep.go:167-183] parseRequest *)
Definition parseRequest (s : registrar) (r : request) : (SC * option (gmap string value)) + string * string * Z :=
  match rq_Body r with
  | Ret reqBody =>
      match (if len reqBody >? 0 then decode_evaluationRequest reqBody else Ret None) with
      | Ret context =>
          match getSDKClient s r with
          | inl sdkClient => inl (sdkClient, context)
          | inr err => inr err
          end
      | Fail err => inr ("failed to parse JSON body: " +:+ err, invalidContextErrorCode, Status.BadRequest)
      | Panic => inr ("", invalidContextErrorCode, Status.BadRequest)
      end
  | _ => inr ("failed to read request body", generalErrorCode, Status.BadRequest)
  end.

(** [data, err := json.Marshal(payload)], with the error path of both handlers *)
Definition write_payload (headers : list (op effect)) (payload : json) : list (op effect) :=
  match json_Marshal payload with
  | Ret data => headers ++ [SetHeader "Content-Type" "application/json"; Write data]
  | Fail err => writeError (generalErrorResponse err) Status.InternalServerError
  | Panic => []
  end.

(** [web/ofrep/ofrep.go:81-117] Eval *)
Definition Eval (s : registrar) : handler effect := fun r =>
  let key := PathValue r "key" in
  if bool_decide (key = "") then
    writeError (errorResponse "" generalErrorCode "'key' path parameter must be set") Status.BadRequest
  else
    match parseRequest s r with
    | inr (err, errCode, code) =>
        if code =? Status.InternalServerError then writeError (generalErrorResponse err) code
        else writeError (errorResponse key errCode err) code
    | inl (sdkClient, context) =>
        let eval := c_Eval sdkClient key (mapTargetingKeyToIdentifier context) in
        match d_Error eval with
        | Some err =>
            if err_key_not_found err
            then writeError (errorResponse key flagNotFoundErrorCode (Api.flag_not_found key)) Status.NotFound
            else writeError (generalErrorResponse "the request failed; please check the server logs for more details")
                   Status.InternalServerError
        | None => write_payload [] (json_of_evaluationResponse (toEvalResponse eval key))
        end
    end.

(** [web/ofrep/ofrep.go:206-210] calcEtag *)
Definition calcEtag (h : string -> Z) (attr : option (gmap string value)) (configJsonEtag : string) : string :=
  GenerateEtag (configJsonEtag +:+ of_bytes (Uint64ToBytes (Discriminator h attr))).

(** [web/ofrep/ofrep.go:142-148] EvalAll, one flag *)
Definition bulk_flag (kd : string * EvalData) : json :=
  let '(key, detail) := kd in
  match d_Error detail with
  | Some err => errorResponse key generalErrorCode (err_text err)
  | None => json_of_evaluationResponse (toEvalResponse detail key)
  end.

(** [web/ofrep/ofrep.go:119-158] EvalAll *)
Definition EvalAll (h : string -> Z) (s : registrar) : handler effect := fun r =>
  match parseRequest s r with
  | inr (err, errCode, code) =>
      if code =? Status.InternalServerError then writeError (generalErrorResponse err) code
      else writeError (bulkErrorResponse errCode err) code
  | inl (sdkClient, context) =>
      let etag := header_of r "If-None-Match" in
      let c := c_GetCachedJson sdkClient in
      let genEtag := calcEtag h context (en_ETag c) in
      if negb (bool_decide (etag = "")) && bool_decide (etag = genEtag) then
        [SetHeader "ETag" genEtag; WriteHeader Status.NotModified]
      else
        let details := c_EvalAll sdkClient (mapTargetingKeyToIdentifier context) in
        write_payload [SetHeader "ETag" genEtag] (bulkEvaluationResponse (bulk_flag <$> range details))
  end.
End ofrep.
