(* ===== verification/Webhook.v ===== *)
(** [web/webhook/webhook.go]: the endpoint ConfigCat calls when a configuration
    changes, with its signature check. The clock, [time.Now().Unix()], is the
    argument [now]. *)
From S2P Require Import Prelude Go Utils Model ConfigTypes Crypto Store Http Client Stream Json Handlers.
From Stdlib Require Import Ascii.
Open Scope Z_scope.

(** [web/webhook/webhook.go:18-20] signatureHeader, idHeader, timestampHeader *)
Definition signatureHeader : string := "X-ConfigCat-Webhook-Signature-V1".
Definition idHeader : string := "X-ConfigCat-Webhook-ID".
Definition timestampHeader : string := "X-ConfigCat-Webhook-Timestamp".

(** [base64.StdEncoding.EncodeToString(mac.Sum(nil))] over the payload *)
Definition calcSignature (signingKey payloadToSign : string) : string :=
  Base64.EncodeToString Base64.StdEncoding (hmac_sha256 signingKey payloadToSign).

(** [web/webhook/webhook.go:96-101] validateSignature, the loop *)
Definition signature_found (calc : string) (receivedSignatures : list string) : bool :=
  fold_left (fun found sig => if bool_decide (sig = calc) then true else found) receivedSignatures false.

(** [web/webhook/webhook.go:72-108] validateSignature *)
Definition validateSignature (now : Z) (signingKey : string) (validFor : Z) (r : request) : bool :=
  let signatures := header_of r signatureHeader in
  let webhookId := header_of r idHeader in
  let timestampStr := header_of r timestampHeader in
  if bool_decide (signatures = "") || bool_decide (webhookId = "") || bool_decide (timestampStr = "") then false
  else
    match ParseInt timestampStr with
    | Ret timestamp =>
        if timestamp <? i64 (now - validFor) then false
        else
          match rq_Body r with
          | Ret body =>
              let payloadToSign := webhookId +:+ timestampStr +:+ body in
              signature_found (calcSignature signingKey payloadToSign) (Str.SplitByte "," signatures)
          | _ => false
          end
    | _ => false
    end.

Section webhook.
Context `{C : Client}.

(** [web/webhook/webhook.go:37-46] ServeWebhookTest *)
Definition ServeWebhookTest (now : Z) (autoSdkConfig : ProfileConfig) : handler effect := fun r =>
  if negb (bool_decide (profile_WebhookSigningKey autoSdkConfig = "")) &&
     negb (validateSignature now (profile_WebhookSigningKey autoSdkConfig)
             (profile_WebhookSignatureValidFor autoSdkConfig) r)
  then Error "Signature validation failed" Status.BadRequest
  else [].

(** [web/webhook/webhook.go:48-70] ServeWebhookSdkId *)
Definition ServeWebhookSdkId (now : Z) (s : registrar) : handler effect := fun r =>
  let sdkId := PathValue r "sdkId" in
  if bool_decide (sdkId = "") then Error "'sdkId' path parameter must be set" Status.BadRequest
  else
    match rg_GetSdkOrNil s sdkId with
    | None => Error ("SDK not found for identifier: '" +:+ sdkId +:+ "'") Status.NotFound
    | Some sdkClient =>
        if negb (bool_decide (c_WebhookSigningKey sdkClient = "")) &&
           negb (validateSignature now (c_WebhookSigningKey sdkClient) (c_WebhookSignatureValidFor sdkClient) r)
        then Error "Signature validation failed" Status.BadRequest
        else [Did (ERefresh sdkClient)]
    end.
End webhook.

(** ** Specification *)

(** A call ConfigCat signed with the key: not older than [validFor] seconds, and
    with the signature of its id, timestamp and body among those it carries. *)
Definition authentic (now : Z) (signingKey : string) (validFor : Z) (r : request) : Prop :=
  exists timestamp body,
    ParseInt (header_of r timestampHeader) = Ret timestamp /\ i64 (now - validFor) <= timestamp /\
    rq_Body r = Ret body /\ header_of r idHeader <> "" /\ header_of r signatureHeader <> "" /\
    calcSignature signingKey (header_of r idHeader +:+ header_of r timestampHeader +:+ body)
      ∈ Str.SplitByte "," (header_of r signatureHeader).

Lemma signature_found_spec calc l : signature_found calc l = true <-> calc ∈ l.
Proof.
  unfold signature_found. assert (Hl : forall b, fold_left (fun found sig => if bool_decide (sig = calc) then true else found) l b
    = true <-> b = true \/ calc ∈ l).
  { induction l as [|sig l IH]; intros b; simpl; [set_solver|]. rewrite IH. case_bool_decide; set_solver. }
  rewrite Hl. split; [by intros [?|?]|by right].
Qed.

Lemma validateSignature_spec now key validFor r :
  validateSignature now key validFor r = true <-> authentic now key validFor r.
Proof.
  unfold validateSignature, authentic. repeat case_bool_decide; simpl;
    try (split; [done|]; intros (ts & body & Hts & Hage & Hb & Hid & Hsig & _); try done;
         replace (header_of r timestampHeader) with "" in Hts by congruence; done).
  destruct (ParseInt (header_of r timestampHeader)) as [ts|err|] eqn:Hts;
    [|split; [done|]; by intros (ts' & body & [=] & _)..].
  destruct (ts <? i64 (now - validFor)) eqn:Hage; bool_prop.
  - split; [done|]. intros (ts' & body & [= <-] & ? & _). lia.
  - destruct (rq_Body r) as [body|err|];
      [|split; [done|]; by intros (ts' & body' & _ & _ & [=] & _)..]. rewrite signature_found_spec. split.
    + intros Hin. by exists ts, body.
    + intros (ts' & body' & _ & _ & [= <-] & _ & _ & Hin). done.
Qed.

(** when a webhook call may refresh the SDK [c] *)
Definition may_refresh `{Client} (now : Z) (s : registrar) (r : request) (c : SC) : Prop :=
  PathValue r "sdkId" <> "" /\ rg_GetSdkOrNil s (PathValue r "sdkId") = Some c /\
  (c_WebhookSigningKey c = "" \/ authentic now (c_WebhookSigningKey c) (c_WebhookSignatureValidFor c) r).

Lemma ServeWebhookSdkId_cases `{Client} now s r :
  (exists c, may_refresh now s r c /\ ServeWebhookSdkId now s r = [Did (ERefresh c)]) \/
  ((forall c, ~ may_refresh now s r c) /\ exists err, ServeWebhookSdkId now s r = Error err
     (if bool_decide (PathValue r "sdkId" <> "" /\ rg_GetSdkOrNil s (PathValue r "sdkId") = None)
      then Status.NotFound else Status.BadRequest)).
Proof.
  unfold ServeWebhookSdkId, may_refresh. destruct (decide (PathValue r "sdkId" = "")) as [Hid|Hid].
  - right. rewrite bool_decide_eq_true_2, bool_decide_eq_false_2 by (done || tauto).
    split; [by intros c (? & _)|]. by eexists.
  - rewrite (bool_decide_eq_false_2 (PathValue r "sdkId" = "")) by done.
    destruct (rg_GetSdkOrNil s _) as [c|] eqn:Hc.
    + rewrite (bool_decide_eq_false_2 (_ /\ Some c = None)) by by intros [_ ?].
      assert (Hv := validateSignature_spec now (c_WebhookSigningKey c) (c_WebhookSignatureValidFor c) r).
      destruct (bool_decide_reflect (c_WebhookSigningKey c = "")) as [Hk|Hk]; simpl; [left; exists c; by auto|].
      destruct (validateSignature _ _ _ _); simpl.
      * left. exists c. split; [|done]. split; [done|]. split; [done|]. right. by apply Hv.
      * right. split; [|by eexists]. intros c' (_ & [= <-] & [?|Ha]); [done|]. by apply Hv in Ha.
    + right. rewrite bool_decide_eq_true_2 by done. split; [by intros c (_ & ? & _)|]. by eexists.
Qed.

(** C16: a webhook call refreshes an SDK exactly when the SDK is configured and
    either has no signing key or the call is authentic: signed with the SDK's key
    over its id, timestamp and body, and not older than the SDK's limit. It is
    then answered 200. Any other call has no effect and is answered 404 for an
    unknown SDK and 400 otherwise. *)
Theorem webhook_refreshes_iff_authentic `{Client} (now : Z) (s : registrar) (r : request) :
  let rs := respond (ServeWebhookSdkId now s r) in
  (forall c, may_refresh now s r c <-> rs_did rs = [ERefresh c]) /\
  (rs_did rs = [] \/ exists c, rs_did rs = [ERefresh c] /\ status rs = Status.OK /\ rs_Body rs = "") /\
  (rs_did rs = [] -> status rs =
     if bool_decide (PathValue r "sdkId" <> "" /\ rg_GetSdkOrNil s (PathValue r "sdkId") = None)
     then Status.NotFound else Status.BadRequest).
Proof.
  intros rs. unfold rs. destruct (ServeWebhookSdkId_cases now s r) as [(c & Hc & ->)|(Hno & err & ->)]; simpl.
  - split; [|split; [right; by exists c|done]]. intros c'. split; [|by intros [= <-]].
    intros (_ & Hc' & _). destruct Hc as (_ & Hc & _). congruence.
  - case_bool_decide; (split; [|split; [by left|done]]); intros c'; (split; [by intros ?%Hno|done]).
Qed.

(** The request a sender with some of the keys makes: one signature for each. *)
Definition signed_request (keys : list string) (sdkId webhookId timestamp body : string) : request :=
  {| rq_Method := MethodPost; rq_URL := None;
     rq_Header := Header.Set_ signatureHeader
       (Str.Join ((fun k => calcSignature k (webhookId +:+ timestamp +:+ body)) <$> keys) ",")
       (Header.Set_ idHeader webhookId (Header.Set_ timestampHeader timestamp ∅));
     rq_Body := Ret body; rq_PathValue := {["sdkId" := sdkId]} |}.


Lemma calcSignature_no_comma key payload : ","%char ∉ String.list_ascii_of_string (calcSignature key payload).
Proof.
  unfold calcSignature, Base64.EncodeToString. rewrite list_ascii_of_list.
  apply base64_no_comma, bytes_range.
Qed.

Lemma calcSignature_nonempty key payload : calcSignature key payload <> "".
Proof.
  unfold calcSignature, hmac_sha256, Base64.EncodeToString, of_bytes, bytes. rewrite String.list_ascii_of_string_of_list_ascii.
  match goal with |- context [Sha256.sum256 ?l] => pose proof (length_sum256 l) as Hl; destruct (Sha256.sum256 l) as [|a [|b [|c m]]] end; try done.
Qed.

Lemma signed_timestamp keys sdkId webhookId stamp body :
  header_of (signed_request keys sdkId webhookId stamp body) timestampHeader = stamp.
Proof.
  unfold header_of. simpl. rewrite !Header.Get_Set_ne by by vm_compute. apply Header.Get_Set.
Qed.
Lemma signed_id keys sdkId webhookId stamp body :
  header_of (signed_request keys sdkId webhookId stamp body) idHeader = webhookId.
Proof.
  unfold header_of. simpl. rewrite Header.Get_Set_ne by by vm_compute. apply Header.Get_Set.
Qed.
Lemma signed_signatures keys sdkId webhookId stamp body :
  header_of (signed_request keys sdkId webhookId stamp body) signatureHeader =
  Str.Join ((fun k => calcSignature k (webhookId +:+ stamp +:+ body)) <$> keys) ",".
Proof. unfold header_of. simpl. apply Header.Get_Set. Qed.

(** The check accepts what ConfigCat sends. Whatever the id, the timestamp and
    the body, a call signed with several keys of which one is the SDK's (a key
    being rotated), and not too old by the proxy's clock, refreshes the SDK. *)
Theorem webhook_accepts_signed_call `{Client} (now timestamp : Z) (s : registrar) (c : SC) (keys : list string)
    (sdkId webhookId stamp body : string)
    (Hsdk : sdkId <> "" /\ rg_GetSdkOrNil s sdkId = Some c)
    (Hid : webhookId <> "")
    (Hkey : c_WebhookSigningKey c ∈ keys)
    (Hstamp : ParseInt stamp = Ret timestamp)
    (Hage : i64 (now - c_WebhookSignatureValidFor c) <= timestamp) :
  respond (ServeWebhookSdkId now s (signed_request keys sdkId webhookId stamp body)) =
  respond [Did (ERefresh c)].
Proof.
  destruct Hsdk as [Hne Hc]. set (r := signed_request keys sdkId webhookId stamp body).
  assert (Hr : may_refresh now s r c).
  { split; [done|]. split; [done|]. right. exists timestamp, body.
    unfold r. rewrite signed_timestamp, signed_id, signed_signatures.
    split; [done|]. split; [done|]. split; [done|]. split; [done|].
    rewrite (SplitByte_Join ","); [|by intros ->%fmap_nil_inv; apply not_elem_of_nil in Hkey|].
    - split; [|by apply (list_elem_of_fmap_2 (fun k => calcSignature k _))].
      intros Hempty. destruct keys as [|k keys]; [by apply not_elem_of_nil in Hkey|]. simpl in Hempty.
      destruct (calcSignature k _) eqn:Hk in Hempty; [by apply calcSignature_nonempty in Hk|by destruct keys].
    - apply Forall_forall. intros w (k & -> & _)%list_elem_of_fmap. apply calcSignature_no_comma. }
  destruct (ServeWebhookSdkId_cases now s r) as [(c' & (_ & Hc' & _) & ->)|(Hno & _)]; [|by apply Hno in Hr].
  change (rg_GetSdkOrNil s sdkId = Some c') in Hc'. rewrite Hc in Hc'. by injection Hc' as ->.
Qed.

Definition demo_call : request :=
  signed_request ["old"; "secret"] "sdk" "id-1" "1700000000" "payload".
Lemma webhook_accepts_signed_call_witness :
  respond (ServeWebhookSdkId (C := demo_client) 1700000100 (demo_registrar 3) demo_call) =
  respond [Did (ERefresh (H := demo_client) 3)].
Proof.
  apply (webhook_accepts_signed_call (H := demo_client) 1700000100 1700000000 (demo_registrar 3) 3).
  - done.
  - done.
  - simpl. set_solver.
  - vm_compute. reflexivity.
  - by vm_compute.
Defined.

(** The check runs on real digests. *)
Example forged_call_rejected :
  validateSignature 1700000100 "secret" 300 (signed_request ["guess"] "sdk" "id-1" "1700000000" "payload") = false.
Proof. vm_compute. reflexivity. Qed.
