(* ===== verification/Sse.v ===== *)
(** [web/sse/sse.go]: the server-sent events endpoints. A request opens a
    connection on the stream of an SDK and writes an event for each message the
    connection receives, until the client goes away, the stream is closed or the
    server stops; the branches its [select] takes are an argument. *)
From S2P Require Import Prelude Go Utils Model Config Store Http Mware Client Stream Json Handlers.
From S2P Require Api.
From Stdlib Require Import Ascii.
Open Scope Z_scope.

(** [web/sse/sse.go:16-16] streamDataName *)
Definition streamDataName : string := "data".

(** [web/sse/sse.go:97-118] the branch a [select] of the loop takes; [Received] is a message from the
    connection's channel. *)
Inductive select := Received (m : message) | ContextDone | StreamClosed | Stopped.

(** [web/sse/sse.go:177-183] formatSseMsg *)
Definition formatSseMsg (b : string) : string := "data: " +:+ b +:+ str1 newline +:+ str1 newline.

Definition json_of_message (m : message) : json :=
  match m with
  | MSingle None => JValue VNil
  | MSingle (Some p) => json_of_payload p
  | MAll ps => json_of_map (json_of_payload <$> ps)
  end.

Section sse.
Context `{mr : MapRange, ft : FloatText, js : JSON, jt : JSONText, C : Client}.

(** [stream/server.go:10-15] Server, the lookups of a stream *)
Record stream_lookup := {
  sl_GetStreamOrNil : string -> option stream;
  sl_GetStreamBySdkKeyOrNil : string -> option stream
}.

(** [web/sse/sse.go:122-150] prepareResponse: what it writes, and the request it
    decoded *)
Definition prepareResponse (r : request) (dataMustSet : bool) : list (op effect) * option EvalRequest :=
  let headers := [SetHeader "Content-Type" "text/event-stream"; SetHeader "Cache-Control" "no-cache";
                  SetHeader "Connection" "keep-alive"; AddHeader "X-Accel-Buffering" "no"] in
  let streamData := PathValue r streamDataName in
  if bool_decide (streamData = "") then
    if dataMustSet then
      (headers ++ Error ("'" +:+ streamDataName +:+ "' path parameter must be set") Status.BadRequest, None)
    else (headers, Some empty_EvalRequest)
  else
    match Base64URLDecode streamData with
    | Ret streamContext =>
        match decode_EvalRequest streamContext with
        | Ret evalReq => (headers, Some evalReq)
        | Fail err => (headers ++ Error ("failed to deserialize incoming '" +:+ streamDataName +:+ "': " +:+ err)
                         Status.BadRequest, None)
        | Panic => (headers, None)
        end
    | _ => (headers ++ Error ("failed to decode incoming '" +:+ streamDataName +:+ "'") Status.BadRequest, None)
    end.

(** [web/sse/sse.go:152-175] getStream *)
Definition getStream (s : stream_lookup) (sdkId sdkKey : string) : stream + list (op effect) :=
  if bool_decide (sdkId = "") && bool_decide (sdkKey = "") then
    inr (Error "either the 'sdkId' path parameter or the 'sdkKey' data parameter must be set" Status.BadRequest)
  else
    match (if negb (bool_decide (sdkId = "")) then sl_GetStreamOrNil s sdkId else sl_GetStreamBySdkKeyOrNil s sdkKey) with
    | None => inr (Error err_unknown_sdk Status.NotFound)
    | Some str =>
        if negb (stream_IsInValidState str) then inr (Error err_invalid_state Status.InternalServerError) else inl str
    end.

(** [web/sse/sse.go:97-119] listenAndRespond, its loop; a write to a broken
    connection is taken to succeed *)
Fixpoint respond_loop (established : connEstablished) (picks : list select) : list (op effect) :=
  match picks with
  | [] => []
  | Received payload :: picks =>
      match json_Marshal (json_of_message payload) with
      | Ret data => [Write (formatSseMsg data); Flush]
      | _ => []
      end ++ respond_loop established picks
  | ContextDone :: _ => [Did (EClose {| cd_conn := es_conn established; cd_key := es_key established |})]
  | StreamClosed :: _ | Stopped :: _ => []
  end.

(** [web/sse/sse.go:91-120] listenAndRespond; [h] is the stream's digest and [id]
    the new connection *)
Definition listenAndRespond (h : string -> Z) (id : nat) (attrs : option (gmap string value)) (key : string)
    (picks : list select) : list (op effect) :=
  let established := CreateConnection h id key attrs in
  [Did (EOpen established); WriteHeader Status.OK; Flush] ++ respond_loop established picks.

(** [web/sse/sse.go:35-64] SingleFlag; [flusher]: the writer is an [http.Flusher] *)
Definition SingleFlag (h : string -> Z) (id : nat) (picks : list select) (flusher : bool) (s : stream_lookup) :
    handler effect := fun r =>
  if negb flusher then Error "streaming not supported" Status.NotImplemented
  else
    let sdkId := PathValue r "sdkId" in
    match prepareResponse r true with
    | (ops, None) => ops
    | (ops, Some evalReq) =>
        ops ++
        match getStream s sdkId (e_SdkKey evalReq) with
        | inr err => err
        | inl str =>
            if bool_decide (e_Key evalReq = "") then Error "'key' must be set" Status.BadRequest
            else if negb (CanEval (e_Key evalReq) str) then
              Error (Api.flag_not_found (e_Key evalReq)) Status.BadRequest
            else listenAndRespond h id (e_User evalReq) (e_Key evalReq) picks
        end
    end.

(** [web/sse/sse.go:66-84] AllFlags *)
Definition AllFlags (h : string -> Z) (id : nat) (picks : list select) (flusher : bool) (s : stream_lookup) :
    handler effect := fun r =>
  if negb flusher then Error "streaming not supported" Status.NotImplemented
  else
    let sdkId := PathValue r "sdkId" in
    match prepareResponse r (bool_decide (sdkId = "")) with
    | (ops, None) => ops
    | (ops, Some evalReq) =>
        ops ++
        match getStream s sdkId (e_SdkKey evalReq) with
        | inr err => err
        | inl str => listenAndRespond h id (e_User evalReq) AllFlagsDiscriminator picks
        end
    end.

(** ** Specification *)

(** the messages the loop got before it ended *)
Fixpoint received (picks : list select) : list message :=
  match picks with Received m :: picks => m :: received picks | _ => [] end.
(** whether it ended because the client went away *)
Fixpoint client_left (picks : list select) : bool :=
  match picks with Received _ :: picks => client_left picks | ContextDone :: _ => true | _ => false end.

(** the events the messages should give *)
Definition event_data (m : message) : option string :=
  match json_Marshal (json_of_message m) with Ret data => Some data | _ => None end.

(** A reader of an event stream: the data of each event, for events that are
    single [data] lines. *)
Fixpoint read_events (lines : list string) (current : option string) : list string :=
  match lines with
  | [] => []
  | line :: lines =>
      if bool_decide (line = "") then
        match current with Some d => d :: read_events lines None | None => read_events lines None end
      else read_events lines (if Str.HasPrefix line "data: " then Some (Str.TrimPrefix line "data: ") else current)
  end.
Definition parse_events (body : string) : list string := read_events (Str.SplitByte newline body) None.

Definition one_line (s : string) : Prop := newline ∉ String.list_ascii_of_string s.

Lemma parse_event data body : one_line data -> parse_events (formatSseMsg data +:+ body) = data :: parse_events body.
Proof.
  intros Hd. unfold parse_events, formatSseMsg.
  replace (("data: " +:+ data +:+ str1 newline +:+ str1 newline) +:+ body)
    with (("data: " +:+ data) +:+ String newline (String newline body))
    by (rewrite <- !str_app_assoc; done).
  rewrite SplitByte_cons.
  2:{ rewrite string_list_app. intros [Hin|Hin]%elem_of_app; [|done]. vm_compute in Hin. set_solver. }
  simpl Str.SplitByte. change (decide (newline = newline)) with (left (eq_refl newline) : {newline = newline} + {_}).
  cbn [read_events]. rewrite bool_decide_eq_false_2 by done.
  rewrite HasPrefix_app, TrimPrefix_app. cbn [read_events]. by rewrite bool_decide_eq_true_2 by done.
Qed.

Lemma write_flush b (rs : response effect) code hdr :
  rs_sent rs = Some (code, hdr) -> body_allowed code = true ->
  apply_ops rs [Write b; Flush] =
  {| rs_Header := rs_Header rs; rs_sent := rs_sent rs; rs_Body := rs_Body rs +:+ b; rs_did := rs_did rs |}.
Proof.
  destruct rs as [hd sent body did]. simpl. intros -> Hc. unfold write_body, send_header, status. simpl. by rewrite Hc.
Qed.

Lemma apply_events es picks rs code hdr :
  (forall m data, event_data m = Some data -> one_line data) ->
  rs_sent rs = Some (code, hdr) -> body_allowed code = true ->
  let rs' := apply_ops rs (respond_loop es picks) in
  rs_sent rs' = Some (code, hdr) /\
  rs_did rs' = rs_did rs ++ (if client_left picks
                             then [EClose {| cd_conn := es_conn es; cd_key := es_key es |}] else []) /\
  exists body, rs_Body rs' = rs_Body rs +:+ body /\ parse_events body = omap event_data (received picks).
Proof.
  intros Hjson. revert rs. induction picks as [|p picks IH]; intros rs Hs Hc.
  { simpl. rewrite app_nil_r. split; [done|]. split; [done|]. exists "". by rewrite str_app_nil_r. }
  destruct p as [m| | |]; simpl.
  - specialize (Hjson m). unfold event_data in *. rewrite apply_ops_app.
    destruct (json_Marshal (json_of_message m)) as [data|err|] eqn:Hm; [|by apply IH..].
    rewrite (write_flush _ rs code hdr) by done. simpl.
    destruct (IH {| rs_Header := rs_Header rs; rs_sent := rs_sent rs; rs_Body := rs_Body rs +:+ formatSseMsg data;
                    rs_did := rs_did rs |}) as (Hs' & Hd' & body & Hb & Hp); [done|done|].
    rewrite Hs in *. split; [done|]. split; [done|]. exists (formatSseMsg data +:+ body).
    split; [by rewrite Hb, str_app_assoc|]. rewrite parse_event by by apply Hjson. by f_equal.
  - split; [done|]. split; [done|]. exists "". by rewrite str_app_nil_r.
  - rewrite app_nil_r. split; [done|]. split; [done|]. exists "". by rewrite str_app_nil_r.
  - rewrite app_nil_r. split; [done|]. split; [done|]. exists "". by rewrite str_app_nil_r.
Qed.

(** the response of a request that opened a connection *)
Definition session (es : connEstablished) (picks : list select) (rs : response effect) : Prop :=
  status rs = Status.OK /\ Header.Get (sent_headers rs) "Content-Type" = "text/event-stream" /\
  rs_did rs = EOpen es :: (if client_left picks
                           then [EClose {| cd_conn := es_conn es; cd_key := es_key es |}] else []) /\
  parse_events (rs_Body rs) = omap event_data (received picks).

(** the response of one that was refused *)
Definition refused (rs : response effect) : Prop := 400 <= status rs /\ rs_did rs = [].

Definition sse_headers : list (op effect) :=
  [SetHeader "Content-Type" "text/event-stream"; SetHeader "Cache-Control" "no-cache";
   SetHeader "Connection" "keep-alive"; AddHeader "X-Accel-Buffering" "no"].

Lemma listen_session h id attrs key picks :
  (forall m data, event_data m = Some data -> one_line data) ->
  session (CreateConnection h id key attrs) picks (respond (sse_headers ++ listenAndRespond h id attrs key picks)).
Proof.
  intros Hjson. unfold listenAndRespond, respond. rewrite apply_ops_app, apply_ops_app.
  set (es := CreateConnection h id key attrs).
  set (rs := apply_ops (apply_ops fresh sse_headers) [Did (EOpen es); WriteHeader Status.OK; Flush]).
  destruct (apply_events es picks rs Status.OK (rs_Header rs) Hjson) as (Hs & Hd & body & Hb & Hp); [done|done|].
  split; [unfold status; by rewrite Hs|]. split; [unfold sent_headers; by rewrite Hs|].
  split; [done|]. rewrite Hb. done.
Qed.

Lemma refused_error (before : list (op effect)) err code :
  Forall keeps_open before -> Forall (fun o => match o with Did _ => False | _ => True end) before ->
  400 <= code -> refused (respond (before ++ Error err code)).
Proof.
  intros Hb Hd Hc. unfold respond. rewrite apply_ops_app.
  assert (Hs := apply_ops_open before fresh Hb eq_refl).
  assert (Hdid : rs_did (apply_ops fresh before) = []).
  { clear Hs Hb. revert Hd. generalize (fresh (E := effect)) (eq_refl : rs_did (fresh (E := effect)) = []).
    intros rs Hrs Hd. revert rs Hrs. induction Hd as [|o l Ho _ IH]; intros rs Hrs; [done|]. apply IH.
    destruct o; simpl; unfold write_body, send_header; repeat case_match; done. }
  assert (Hi : informational code = false) by (unfold informational, in_range; destruct (Z.leb_spec 100 code), (Z.leb_spec code 199); simpl; try done; lia).
  unfold refused, Error. simpl. unfold write_body, send_header. simpl. rewrite Hs. simpl. rewrite Hi. simpl.
  unfold status. simpl. by destruct (body_allowed code).
Qed.

(** the stream a request asks for *)
Definition stream_for (s : stream_lookup) (sdkId sdkKey : string) : option stream :=
  if bool_decide (sdkId <> "") then sl_GetStreamOrNil s sdkId
  else if bool_decide (sdkKey <> "") then sl_GetStreamBySdkKeyOrNil s sdkKey else None.

(** the requests for one flag that open a connection *)
Definition accepts (s : stream_lookup) (r : request) (str : stream) (evalReq : EvalRequest) : Prop :=
  (exists ctx, PathValue r streamDataName <> "" /\ Base64URLDecode (PathValue r streamDataName) = Ret ctx /\
     decode_EvalRequest ctx = Ret evalReq) /\
  stream_for s (PathValue r "sdkId") (e_SdkKey evalReq) = Some str /\ stream_IsInValidState str = true /\
  e_Key evalReq <> "" /\ CanEval (e_Key evalReq) str = true.

Lemma getStream_cases s sdkId sdkKey :
  (exists str, stream_for s sdkId sdkKey = Some str /\ stream_IsInValidState str = true /\
     getStream s sdkId sdkKey = inl str) \/
  ((forall str, stream_for s sdkId sdkKey = Some str -> stream_IsInValidState str = false) /\
   exists err code, getStream s sdkId sdkKey = inr (Error err code) /\ 400 <= code).
Proof.
  unfold getStream, stream_for. destruct (decide (sdkId = "")) as [->|Hid]; simpl.
  - destruct (decide (sdkKey = "")) as [->|Hk]; simpl; [by right; split; [|do 2 eexists; split; [done|by vm_compute]]|].
    rewrite (bool_decide_eq_false_2 (sdkKey = "")), (bool_decide_eq_true_2 (sdkKey <> "")) by done.
    destruct (sl_GetStreamBySdkKeyOrNil s sdkKey) as [str|];
      [|by right; split; [|do 2 eexists; split; [done|by vm_compute]]].
    destruct (stream_IsInValidState str) eqn:Hv; [left; by exists str|right].
    split; [by intros ? [= <-]|]. do 2 eexists. split; [done|by vm_compute].
  - rewrite (bool_decide_eq_false_2 (sdkId = "")), (bool_decide_eq_true_2 (sdkId <> "")) by done. simpl.
    destruct (sl_GetStreamOrNil s sdkId) as [str|];
      [|by right; split; [|do 2 eexists; split; [done|by vm_compute]]].
    destruct (stream_IsInValidState str) eqn:Hv; [left; by exists str|right].
    split; [by intros ? [= <-]|]. do 2 eexists. split; [done|by vm_compute].
Qed.

Lemma prepareResponse_cases r :
  (forall data, decode_EvalRequest data <> Panic) ->
  (exists ctx evalReq, PathValue r streamDataName <> "" /\ Base64URLDecode (PathValue r streamDataName) = Ret ctx /\
     decode_EvalRequest ctx = Ret evalReq /\ prepareResponse r true = (sse_headers, Some evalReq)) \/
  ((forall ctx evalReq, PathValue r streamDataName <> "" -> Base64URLDecode (PathValue r streamDataName) = Ret ctx ->
      decode_EvalRequest ctx <> Ret evalReq) /\
   exists err, prepareResponse r true = (sse_headers ++ Error err Status.BadRequest, None)).
Proof.
  intros Hp. unfold prepareResponse. fold sse_headers.
  case_bool_decide as Hdata; [by right; split; [|eexists]|].
  destruct (Base64URLDecode _) as [ctx|err|]; [|by right; split; [|eexists]..].
  specialize (Hp ctx). destruct (decode_EvalRequest ctx) as [evalReq|err|] eqn:Hreq; [|right|done].
  - left. by exists ctx, evalReq.
  - split; [|by eexists]. intros ctx' evalReq _ [= <-]. congruence.
Qed.
End sse.

(** C18: a request for one flag opens a connection exactly when its data decodes
    to a request for a flag the SDK has, on a stream of a configured and ready
    SDK. The connection is opened for the flag and the user of the request, and it
    is closed exactly when the client goes away first; the client, answered 200
    with an event stream, reads exactly the messages the connection received, in
    order. Every other request is refused with an error status and touches no
    stream. *)
Theorem sse_session_lifecycle `{MapRange, FloatText, JSON, JSONText, Client} (h : string -> Z) (id : nat)
    (picks : list select) (s : stream_lookup) (r : request)
    (Hjson : forall m data, event_data m = Some data -> one_line data)
    (Hdecode : forall data, decode_EvalRequest data <> Panic) :
  let rs := respond (SingleFlag h id picks true s r) in
  (exists str evalReq, accepts s r str evalReq /\
     session (CreateConnection h id (e_Key evalReq) (e_User evalReq)) picks rs) \/
  ((forall str evalReq, ~ accepts s r str evalReq) /\ refused rs).
Proof.
  intros rs. unfold rs, SingleFlag. simpl.
  destruct (prepareResponse_cases r Hdecode) as [(ctx & evalReq & Hd & Hctx & Hreq & ->)|(Hno & err & ->)].
  2:{ right. split; [|by apply refused_error; repeat constructor].
      intros str evalReq ((ctx & Hd & Hctx & Hreq) & _). by apply (Hno ctx evalReq). }
  assert (Hsame : forall str evalReq', accepts s r str evalReq' -> evalReq' = evalReq).
  { intros str evalReq' ((ctx' & _ & Hctx' & Hreq') & _). congruence. }
  destruct (getStream_cases s (PathValue r "sdkId") (e_SdkKey evalReq)) as [(str & Hstr & Hv & ->)|(Hno & err & code & -> & Hc)].
  2:{ right. split; [|by apply refused_error; repeat constructor].
      intros str evalReq' Ha. destruct (Hsame str evalReq' Ha). destruct Ha as (_ & Hs & Hv & _).
      apply Hno in Hs. congruence. }
  case_bool_decide as Hk.
  { right. split; [|by apply refused_error; repeat constructor].
    intros str' evalReq' Ha. pose proof (Hsame str' evalReq' Ha). subst. by destruct Ha as (_ & _ & _ & ? & _). }
  destruct (CanEval (e_Key evalReq) str) eqn:Hcan; simpl.
  - left. exists str, evalReq. split; [|by apply listen_session]. split; [by exists ctx|]. done.
  - right. split; [|by apply (refused_error sse_headers); repeat constructor].
    intros str' evalReq' Ha. pose proof (Hsame str' evalReq' Ha). subst.
    destruct Ha as (_ & Hs & _ & _ & Hcan'). congruence.
Qed.

Section witness.
Existing Instances canonical_range no_float_text demo_json demo_json_text demo_client.

Definition demo_streams : stream_lookup :=
  {| sl_GetStreamOrNil := fun sdkId => if bool_decide (sdkId = "sdk") then Some (NewStream 3) else None;
     sl_GetStreamBySdkKeyOrNil := fun sdkKey => if bool_decide (sdkKey = "key") then Some (NewStream 3) else None |}.
Definition demo_sse_request : request :=
  {| rq_Method := MethodGet; rq_URL := None; rq_Header := ∅; rq_Body := Ret "";
     rq_PathValue := {["data" := "e30="]} |}.
Definition demo_picks : list select := [Received (MSingle None); Received (MSingle None); ContextDone].

Lemma sse_session_lifecycle_witness :
  let rs := respond (SingleFlag (fun _ => 0) 7 demo_picks true demo_streams demo_sse_request) in
  exists es, session es demo_picks rs /\ parse_events (rs_Body rs) = ["{}"; "{}"] /\ es_key es = "flag".
Proof.
  intros rs.
  destruct (sse_session_lifecycle (fun _ => 0) 7 demo_picks demo_streams demo_sse_request)
    as [(str & evalReq & (Hreq & _) & Hs)|[Hno _]].
  - intros m data [= <-]. vm_compute. set_solver.
  - intros data. by vm_compute.
  - eexists. split; [exact Hs|]. split; [exact (proj2 (proj2 (proj2 Hs)))|]. simpl.
    destruct Hreq as (ctx & _ & _ & Hreq). assert (Hd : decode_EvalRequest ctx =
      Ret {| e_SdkKey := "key"; e_Key := "flag"; e_User := None |}) by reflexivity. rewrite Hd in Hreq. by injection Hreq as <-.
  - exfalso. apply (Hno (NewStream (C := demo_client) 3) {| e_SdkKey := "key"; e_Key := "flag"; e_User := None |}).
    split; [|by vm_compute]. exists "{}". split; [done|]. by vm_compute.
Defined.
End witness.
