(* ===== verification/Grpc.v ===== *)
(** [grpc/]: the flag service and the server around it. A call returns a value or
    a status error; the streaming calls are given the branches their [select]
    takes. The generated messages of [grpc/proto] are records of the fields the
    service reads and writes. *)
From S2P Require Import Prelude Go Utils Model Log ConfigTypes Config Status Store Client Stream Handlers.
Open Scope Z_scope.

(** ** Messages *)

(** The oneof of a [UserValue]: a time is in nanoseconds. *)
Inductive UserValue :=
| NumberValue (n : float64)
| StringValue_ (s : string)
| TimeValue (t : Z)
| StringListValue (l : list string)
| NoValue.

(** A [Target]: its getters give [""] for the identifier that is not set. *)
Record Target := { tg_SdkId : string; tg_SdkKey : string }.
Record EvalRequest := {
  pe_SdkId : string;
  pe_Key : string;
  pe_User : option (gmap string UserValue);
  pe_Target : option Target
}.
Record TargetRequest := { tr_SdkId : string; tr_Target : option Target }.   (** KeysRequest, RefreshRequest *)

Inductive proto_value := IntValue (z : Z) | DoubleValue (f : float64) | StringValue (s : string) | BoolValue (b : bool).
Record EvalResponse := { er_Value : option proto_value; er_VariationId : string }.

Inductive code := InvalidArgument | NotFound | Internal | Unknown | Aborted.

(** The end of a call: its result, a status error, or another error. *)
Inductive rpc (A : Type) :=
| Reply (a : A)
| StatusError (c : code) (msg : string)
| OtherError (err : string).
Arguments Reply {A} a.
Arguments StatusError {A} c msg.
Arguments OtherError {A} err.

Definition no_target_error : string := "either the sdk id or the sdk key parameter must be set".
Definition flag_not_found (key : string) : string := "feature flag or setting with key '" +:+ key +:+ "' not found".

(** [grpc/flag_service.go:263-268] identifyTarget *)
Definition identifyTarget (target : option Target) (sdkId : string) : string * string :=
  match target with
  | None => (sdkId, "")
  | Some target => (tg_SdkId target, tg_SdkKey target)
  end.

(** [grpc/flag_service.go:273-288] getUserAttrs, one attribute *)
Definition user_attr (v : UserValue) : option value :=
  match v with
  | NumberValue n => Some (VFloat n)
  | StringValue_ s => Some (VString s)
  | TimeValue t => Some (VTime t)
  | StringListValue l => Some (VStrings l)
  | NoValue => None
  end.

(** [grpc/flag_service.go:183-197] toPayload; an [int] is cut to 32 bits *)
Definition toPayload (resp : ResponsePayload) : EvalResponse :=
  {| er_VariationId := r_VariationId resp;
     er_Value := match r_Value resp with
                 | VBool b => Some (BoolValue b)
                 | VInt z => Some (IntValue (i32 z))
                 | VFloat f => Some (DoubleValue f)
                 | VString s => Some (StringValue s)
                 | _ => None
                 end |}.

Section grpc.
Context `{mr : MapRange, ft : FloatText, C : Client, rf : Refresher (H := C)}.

(** [grpc/flag_service.go:270-291] getUserAttrs *)
Definition getUserAttrs (attrs : gmap string UserValue) : gmap string value :=
  fold_left (fun res '(k, v) => match user_attr v with Some a => <[k := a]> res | None => res end) (range attrs) ∅.

(** [*user = getUserAttrs(req.GetUser())] when the request has a user *)
Definition request_user (req : EvalRequest) : option (gmap string value) := getUserAttrs <$> pe_User req.

(** the lookup the calls share: by id when there is one, else by key *)
Definition find_by {A} (byId byKey : string -> option A) (sdkId sdkKey : string) : option A :=
  if negb (bool_decide (sdkId = "")) then byId sdkId else byKey sdkKey.
Definition no_target (target : string * string) : bool :=
  bool_decide (target.1 = "") && bool_decide (target.2 = "").

(** [grpc/flag_service.go:235-261] parseEvalRequest *)
Definition parseEvalRequest (s : registrar) (req : EvalRequest) (checkKey : bool) :
    rpc (SC * option (gmap string value)) :=
  let target := identifyTarget (pe_Target req) (pe_SdkId req) in
  if no_target target then StatusError InvalidArgument no_target_error
  else if checkKey && bool_decide (pe_Key req = "") then StatusError InvalidArgument "key request parameter missing"
  else
    match find_by (rg_GetSdkOrNil s) (rg_GetSdkByKeyOrNil s) target.1 target.2 with
    | None => StatusError InvalidArgument err_unknown_sdk
    | Some sdkClient =>
        if negb (c_IsInValidState sdkClient) then StatusError Internal err_invalid_state
        else Reply (sdkClient, request_user req)
    end.

(** [grpc/flag_service.go:101-118] EvalFlag *)
Definition EvalFlag (s : registrar) (req : EvalRequest) : rpc EvalResponse :=
  match parseEvalRequest s req true with
  | Reply (sdkClient, user) =>
      let value := c_Eval sdkClient (pe_Key req) user in
      match d_Error value with
      | Some err =>
          if err_key_not_found err then StatusError NotFound (flag_not_found (pe_Key req))
          else StatusError Unknown "the request failed; please check the logs for more details"
      | None => Reply (toPayload (PayloadFromEvalData value))
      end
  | StatusError c msg => StatusError c msg
  | OtherError err => OtherError err
  end.

(** [grpc/flag_service.go:126-132] EvalAllFlags, its loop *)
Definition eval_all_responses (values : gmap string EvalData) : gmap string EvalResponse :=
  fold_left (fun final '(key, value) => <[key := toPayload (PayloadFromEvalData value)]> final) (range values) ∅.

(** [grpc/flag_service.go:120-133] EvalAllFlags *)
Definition EvalAllFlags (s : registrar) (req : EvalRequest) : rpc (gmap string EvalResponse) :=
  match parseEvalRequest s req false with
  | Reply (sdkClient, user) => Reply (eval_all_responses (c_EvalAll sdkClient user))
  | StatusError c msg => StatusError c msg
  | OtherError err => OtherError err
  end.

(** [grpc/flag_service.go:135-157] GetKeys *)
Definition GetKeys (s : registrar) (req : TargetRequest) : rpc (list string) :=
  let target := identifyTarget (tr_Target req) (tr_SdkId req) in
  if no_target target then StatusError InvalidArgument no_target_error
  else
    match find_by (rg_GetSdkOrNil s) (rg_GetSdkByKeyOrNil s) target.1 target.2 with
    | None => StatusError InvalidArgument err_unknown_sdk
    | Some sdkClient =>
        if negb (c_IsInValidState sdkClient) then StatusError Internal err_invalid_state
        else Reply (c_Keys sdkClient)
    end.

(** [grpc/flag_service.go:159-181] Refresh: the refreshed client and the reply *)
Definition Refresh (s : registrar) (req : TargetRequest) : list effect * rpc unit :=
  let target := identifyTarget (tr_Target req) (tr_SdkId req) in
  if no_target target then ([], StatusError InvalidArgument no_target_error)
  else
    match find_by (rg_GetSdkOrNil s) (rg_GetSdkByKeyOrNil s) target.1 target.2 with
    | None => ([], StatusError InvalidArgument err_unknown_sdk)
    | Some sdkClient =>
        ([ERefresh sdkClient],
         match c_Refresh sdkClient with Some err => OtherError err | None => Reply tt end)
    end.

(** ** Streaming calls *)

Record stream_lookup := {
  sl_GetStreamOrNil : string -> option stream;
  sl_GetStreamBySdkKeyOrNil : string -> option stream
}.

(** [grpc/flag_service.go:204-233] parseEvalStreamRequest *)
Definition parseEvalStreamRequest (s : stream_lookup) (req : EvalRequest) (checkKey : bool) :
    rpc (stream * option (gmap string value)) :=
  let target := identifyTarget (pe_Target req) (pe_SdkId req) in
  if no_target target then StatusError InvalidArgument no_target_error
  else if checkKey && bool_decide (pe_Key req = "") then StatusError InvalidArgument "key request parameter missing"
  else
    match find_by (sl_GetStreamOrNil s) (sl_GetStreamBySdkKeyOrNil s) target.1 target.2 with
    | None => StatusError InvalidArgument err_unknown_sdk
    | Some str =>
        if negb (stream_IsInValidState str) then StatusError Internal err_invalid_state
        else if checkKey && negb (CanEval (pe_Key req) str) then
          StatusError InvalidArgument (flag_not_found (pe_Key req))
        else Reply (str, request_user req)
    end.

(** [grpc/flag_service.go:45-64] the branch a [select] takes; the client's context
    ends with an error *)
Inductive select := Received (m : message) | ContextDone (err : string) | StreamClosed | ServerClosed.

(** what a message is sent as *)
Inductive sent := SentOne (p : EvalResponse) | SentAll (ps : gmap string EvalResponse).

(** [grpc/flag_service.go:47-56] EvalFlagStream, one message; a nil payload would
    be a nil dereference *)
Definition flag_message (m : message) : go (list sent) :=
  match m with
  | MSingle (Some resp) =>
      let payload := toPayload resp in
      Ret (match er_Value payload with Some _ => [SentOne payload] | None => [] end)
  | MSingle None => Panic
  | MAll _ => Ret []
  end.

(** [grpc/flag_service.go:79-89] EvalAllFlagsStream, one message *)
Definition all_message (m : message) : go (list sent) :=
  match m with
  | MAll resp => Ret [SentAll (fold_left (fun responses '(key, val) => <[key := toPayload val]> responses) (range resp) ∅)]
  | MSingle _ => Ret []
  end.

(** [grpc/flag_service.go:44-65] the loop: what it sends, and the end of the call
    when it has ended *)
Fixpoint stream_loop (on_message : message -> go (list sent)) (established : connEstablished) (picks : list select) :
    go (list sent * list effect * option (rpc unit)) :=
  match picks with
  | [] => Ret ([], [], None)
  | Received m :: picks =>
      out <-? on_message m;
      r <-? stream_loop on_message established picks;
      let '(outs, effects, res) := r in Ret (out ++ outs, effects, res)
  | ContextDone err :: _ =>
      Ret ([], [EClose {| cd_conn := es_conn established; cd_key := es_key established |}], Some (OtherError err))
  | StreamClosed :: _ => Ret ([], [], Some (StatusError Aborted "connection aborted"))
  | ServerClosed :: _ => Ret ([], [], Some (StatusError Aborted "server down"))
  end.

Definition streaming (on_message : message -> go (list sent)) (h : string -> Z) (id : nat) (key : string)
    (picks : list select) (parsed : rpc (stream * option (gmap string value))) :
    go (list sent * list effect * option (rpc unit)) :=
  match parsed with
  | Reply (str, user) =>
      let established := CreateConnection h id key user in
      r <-? stream_loop on_message established picks;
      let '(outs, effects, res) := r in Ret (outs, EOpen established :: effects, res)
  | StatusError c msg => Ret ([], [], Some (StatusError c msg))
  | OtherError err => Ret ([], [], Some (OtherError err))
  end.

(** [grpc/flag_service.go:36-66] EvalFlagStream *)
Definition EvalFlagStream (h : string -> Z) (id : nat) (picks : list select) (s : stream_lookup) (req : EvalRequest) :=
  streaming flag_message h id (pe_Key req) picks (parseEvalStreamRequest s req true).

(** [grpc/flag_service.go:68-99] EvalAllFlagsStream *)
Definition EvalAllFlagsStream (h : string -> Z) (id : nat) (picks : list select) (s : stream_lookup) (req : EvalRequest) :=
  streaming all_message h id AllFlagsDiscriminator picks (parseEvalStreamRequest s req false).
End grpc.

(** ** Interceptors *)

(** [grpc/mware.go:76-81] shouldIgnore *)
Definition shouldIgnore (method : string) : bool :=
  if Str.Contains method "grpc.health" || Str.Contains method "grpc.reflection" then true else false.

(** [grpc/mware.go:16-44] DebugLogUnaryInterceptor; [peer] and [metadata]: whether
    the context has them *)
Definition DebugLogUnaryInterceptor {A} (peer metadata : bool) (method : string) (handler : rpc A) : rpc A :=
  if shouldIgnore method then handler
  else if negb peer then StatusError InvalidArgument "missing peer info"
  else if negb metadata then StatusError InvalidArgument "missing metadata"
  else handler.

(** [grpc/mware.go:46-74] DebugLogStreamInterceptor; the handler gives what it
    sends and the end of the call *)
Definition DebugLogStreamInterceptor {B} (peer metadata : bool) (method : string) (handler : list B * rpc unit) :
    list B * rpc unit :=
  if shouldIgnore method then handler
  else if negb peer then ([], StatusError InvalidArgument "missing peer info")
  else if negb metadata then ([], StatusError InvalidArgument "missing metadata")
  else handler.

(** ** The server *)

(** The options of the gRPC server. *)
Record ServerOptions := {
  opt_Creds : option TlsOptions;
  opt_DebugInterceptors : bool;
  opt_KeepAlive : option ServerParameters
}.

Inductive ServingStatus := SERVING | NOT_SERVING.

(** [grpc/server.go:24-34] Server: the options, the health server's status by
    service, whether reflection is on, and whether the server has stopped *)
Record Server := {
  gs_Options : ServerOptions;
  gs_health : option ServingStatus;      (** [None]: no health server; it starts as SERVING *)
  gs_reflection : bool;
  gs_stopped : bool
}.

(** [grpc/server.go:36-93] NewServer *)
Definition NewServer (load_key_pair : string -> string -> go unit) (conf : Config) (log : logger) : go Server :=
  let grpcLog := WithPrefix (WithLevel log (GetLevel (grpc_Log (c_Grpc conf)))) "grpc" in
  creds <-? (if tls_Enabled (c_Tls conf) then t <-? LoadTlsOptions load_key_pair (c_Tls conf); Ret (Some t)
             else Ret None);
  let '(params, ok) := ToParams (grpc_KeepAlive (c_Grpc conf)) in
  Ret {| gs_Options := {| opt_Creds := creds; opt_DebugInterceptors := l_level grpcLog =? Level.Debug;
                          opt_KeepAlive := if ok then Some params else None |};
         gs_health := if grpc_HealthCheckEnabled (c_Grpc conf) then Some SERVING else None;
         gs_reflection := grpc_ServerReflectionEnabled (c_Grpc conf);
         gs_stopped := false |}.

(** What the health-check goroutine can receive: a tick, with the status the
    reporter has then, or the stop signal. *)
Inductive health_event := Tick (stat : HealthStatus) | StopSignal.

(** [grpc/server.go:113-129] runHealthCheck: one [select], not in a loop *)
Definition runHealthCheck (events : list health_event) (s : Server) : Server :=
  match gs_health s with
  | None => s
  | Some _ =>
      match events with
      | Tick stat :: _ =>
          let hcResp := if bool_decide (stat = Down) then NOT_SERVING else SERVING in
          {| gs_Options := gs_Options s; gs_health := Some hcResp; gs_reflection := gs_reflection s;
             gs_stopped := gs_stopped s |}
      | StopSignal :: _ | [] => s
      end
  end.

(** [grpc/server.go:131-140] Shutdown; stopping twice closes a closed channel *)
Definition Shutdown (s : Server) : go Server :=
  if gs_stopped s then Panic
  else Ret {| gs_Options := gs_Options s; gs_health := gs_health s; gs_reflection := gs_reflection s; gs_stopped := true |}.

(** ** Properties *)

(** the value a client reads from a message *)
Definition proto_to_value (v : proto_value) : value :=
  match v with
  | IntValue z => VInt z
  | DoubleValue f => VFloat f
  | StringValue s => VString s
  | BoolValue b => VBool b
  end.

(** C39: what the gRPC service sends for a flag value. Booleans, texts and floats
    arrive as they are; an integer arrives modulo 2^32, as a signed 32-bit number,
    so as it is exactly when it fits in 32 bits; nothing is sent for another type.
    The variation id always arrives. *)
Theorem toPayload_value (p : ResponsePayload) :
  er_VariationId (toPayload p) = r_VariationId p /\
  match r_Value p with
  | VInt z => exists w, er_Value (toPayload p) = Some (IntValue w) /\ - 2 ^ 31 <= w < 2 ^ 31 /\
                w mod 2 ^ 32 = z mod 2 ^ 32 /\ (w = z <-> - 2 ^ 31 <= z < 2 ^ 31)
  | VBool _ | VFloat _ | VString _ => proto_to_value <$> er_Value (toPayload p) = Some (r_Value p)
  | _ => er_Value (toPayload p) = None
  end.
Proof.
  split; [done|]. destruct p as [[] ?]; simpl; try done. eexists. split; [done|].
  unfold i32. split; [apply (wrap_s_range 32); lia|].
  split; [unfold wrap_s; Z.to_euclidean_division_equations; lia|].
  split; [intros <-; apply (wrap_s_range 32); lia|]. intros Hz. by apply (wrap_s_id 32).
Qed.

(** The health check serves one tick and ends, so the status it reports to
    load balancers never changes again: a proxy that was up at the first tick is
    reported as serving whatever its state becomes, and one that was down as not
    serving. *)
Theorem health_check_is_taken_once (first : HealthStatus) (later : list health_event) (s : Server)
    (Hhealth : gs_health s <> None) :
  gs_health (runHealthCheck (Tick first :: later) s) =
  Some (if bool_decide (first = Down) then NOT_SERVING else SERVING).
Proof. unfold runHealthCheck. by destruct (gs_health s). Qed.

Definition demo_server : Server :=
  {| gs_Options := {| opt_Creds := None; opt_DebugInterceptors := false; opt_KeepAlive := None |};
     gs_health := Some SERVING; gs_reflection := false; gs_stopped := false |}.
Lemma health_check_is_taken_once_witness :
  gs_health (runHealthCheck [Tick Healthy; Tick Down; Tick Down] demo_server) = Some SERVING.
Proof. by rewrite (health_check_is_taken_once Healthy [Tick Down; Tick Down] demo_server). Defined.

Section props.
Context `{mr : MapRange}.

Lemma getUserAttrs_omap attrs : getUserAttrs attrs = omap user_attr attrs.
Proof. apply range_fold_omap. Qed.

Lemma eval_all_responses_fmap values :
  eval_all_responses values = (fun d => toPayload (PayloadFromEvalData d)) <$> values.
Proof. apply (range_fold_fmap (fun d => toPayload (PayloadFromEvalData d))). Qed.
End props.
