(* ===== verification/Frontends.v ===== *)
(** The three evaluation front ends side by side: the API ([web/api]), the OFREP
    server ([web/ofrep]) and the gRPC service ([grpc]). They read the same
    clients, so they give the same evaluations, in their own formats. *)
From S2P Require Import Prelude Go Utils Model Config Store Http Client Stream Json Handlers.
From S2P Require Api Ofrep Grpc.
Open Scope Z_scope.

Section frontends.
Context `{mr : MapRange, ft : FloatText, xxh : XXHash, js : JSON, jt : JSONText, C : Client, rf : Refresher (H := C)}.

(** The attributes an OFREP context stands for: OpenFeature's targeting key is the
    user's identifier. *)
Definition identified (context : gmap string value) : gmap string value :=
  match context !! "targetingKey" with Some val => <["Identifier" := val]> context | None => context end.

(** One evaluation asked through the three front ends: a flag of an SDK named by
    its id, over OFREP for a context, and over the API and gRPC for the attributes
    it stands for. *)
Record asks (sdkId key : string) (context : gmap string value) (api ofrep : request) (rpc : Grpc.EvalRequest) : Prop := {
  ak_id : sdkId <> "" /\ key <> "";
  ak_api : PathValue api "sdkId" = sdkId /\
    exists body, rq_Body api = Ret body /\
      decode_EvalRequest body = Ret {| e_SdkKey := ""; e_Key := key; e_User := Some (identified context) |};
  ak_ofrep : header_of ofrep Ofrep.SdkIdHeader = sdkId /\ PathValue ofrep "key" = key /\
    exists body, rq_Body ofrep = Ret body /\ (len body >? 0) = true /\
      Ofrep.decode_evaluationRequest body = Ret (Some context);
  ak_rpc : Grpc.identifyTarget (Grpc.pe_Target rpc) (Grpc.pe_SdkId rpc) = (sdkId, "") /\
    Grpc.pe_Key rpc = key /\ Grpc.request_user rpc = Some (identified context)
}.

Lemma api_parse s sdkId key context api ofrep rpc c :
  asks sdkId key context api ofrep rpc -> rg_GetSdkOrNil s sdkId = Some c -> c_IsInValidState c = true ->
  Api.parseRequest s api = inl (c, {| e_SdkKey := ""; e_Key := key; e_User := Some (identified context) |}).
Proof.
  intros Hask Hc Hv. destruct (ak_id _ _ _ _ _ _ Hask) as [Hid _].
  destruct (ak_api _ _ _ _ _ _ Hask) as (Hpath & body & Hb & Hd).
  unfold Api.parseRequest. rewrite Hb, Hd. unfold Api.getSDKClient, Api.SdkIdPathVariable.
  rewrite Hpath, bool_decide_eq_false_2 by done. by rewrite (proj2 (check_client_inl _ _ c)).
Qed.

Lemma ofrep_parse s sdkId key context api ofrep rpc c :
  asks sdkId key context api ofrep rpc -> rg_GetSdkOrNil s sdkId = Some c -> c_IsInValidState c = true ->
  Ofrep.parseRequest s ofrep = inl (c, Some context).
Proof.
  intros Hask Hc Hv. destruct (ak_id _ _ _ _ _ _ Hask) as [Hid _].
  destruct (ak_ofrep _ _ _ _ _ _ Hask) as (Hh & _ & body & Hb & Hlen & Hd).
  unfold Ofrep.parseRequest. rewrite Hb, Hlen, Hd. unfold Ofrep.getSDKClient.
  rewrite Hh, bool_decide_eq_false_2 by done. by rewrite (proj2 (check_client_inl _ _ c)).
Qed.

Lemma grpc_parse s sdkId key context api ofrep rpc c :
  asks sdkId key context api ofrep rpc -> rg_GetSdkOrNil s sdkId = Some c -> c_IsInValidState c = true ->
  Grpc.parseEvalRequest s rpc true = Grpc.Reply (c, Some (identified context)).
Proof.
  intros Hask Hc Hv. destruct (ak_id _ _ _ _ _ _ Hask) as [Hid Hkey].
  destruct (ak_rpc _ _ _ _ _ _ Hask) as (Ht & Hk & Hu).
  unfold Grpc.parseEvalRequest, Grpc.no_target, Grpc.find_by. rewrite Ht, Hk, Hu. simpl.
  rewrite (bool_decide_eq_false_2 (sdkId = "")), (bool_decide_eq_false_2 (key = "")) by done. simpl.
  by rewrite Hc, Hv.
Qed.

Lemma identified_same context : context !! "targetingKey" = None -> identified context = context.
Proof. unfold identified. by intros ->. Qed.

(** the other attributes are the context's own *)
Lemma identified_lookup context k :
  identified context !! k =
    if bool_decide (k = "Identifier") && bool_decide (is_Some (context !! "targetingKey"))
    then context !! "targetingKey" else context !! k.
Proof.
  unfold identified. destruct (context !! "targetingKey") as [v|] eqn:Hv; simpl.
  - case_bool_decide as Hk; [by rewrite Hk, lookup_insert_eq | by rewrite lookup_insert_ne].
  - by rewrite andb_false_r.
Qed.

Lemma eval_all_payloads_fmap details :
  Api.eval_all_payloads details = (fun d => json_of_payload (PayloadFromEvalData d)) <$> details.
Proof. apply (range_fold_fmap (fun d => json_of_payload (PayloadFromEvalData d))). Qed.

(** the members of an OFREP bulk response *)
Lemma elem_of_bulk (details : gmap string EvalData) j :
  j ∈ Ofrep.bulk_flag <$> range details <-> exists k d, details !! k = Some d /\ j = Ofrep.bulk_flag (k, d).
Proof.
  rewrite list_elem_of_fmap. split.
  - intros ([k d] & -> & Hin%elem_of_range). by exists k, d.
  - intros (k & d & Hk & ->). exists (k, d). split; [done|]. by apply elem_of_range.
Qed.
End frontends.

(** ** Properties *)

(** C19: one evaluation, three front ends. OFREP evaluates for its context, with
    the context's 'targetingKey', when it has one, as the Identifier; the
    attributes are otherwise the context's own. The same flag of the same SDK
    asked over OFREP for a context, and over the API and gRPC for these
    attributes (which are the context itself when it has no 'targetingKey'),
    comes from one evaluation of the SDK: when it succeeds each front end answers
    with its value and variation id in its own format; when the flag does not
    exist each answers with its not-found error and the same text; and on any
    other error each answers with an internal error that shows nothing of it. *)
Theorem frontends_agree `{MapRange, JSON, JSONText, Client} (s : registrar) (c : SC)
    (sdkId key : string) (context : gmap string value) (api ofrep : request) (rpc : Grpc.EvalRequest)
    (Hask : asks sdkId key context api ofrep rpc)
    (Hc : rg_GetSdkOrNil s sdkId = Some c)
    (Hvalid : c_IsInValidState c = true) :
  let attrs := identified context in
  let d := c_Eval c key (Some attrs) in
  (forall k, attrs !! k =
     if bool_decide (k = "Identifier") && bool_decide (is_Some (context !! "targetingKey"))
     then context !! "targetingKey" else context !! k) /\
  match d_Error d with
  | None =>
      Api.Eval s api = write_json (json_of_payload (PayloadFromEvalData d)) /\
      Ofrep.Eval s ofrep = Ofrep.write_payload [] (Ofrep.json_of_evaluationResponse (Ofrep.toEvalResponse d key)) /\
      Ofrep.v_Value (Ofrep.toEvalResponse d key) = d_Value d /\
      Ofrep.v_Variant (Ofrep.toEvalResponse d key) = d_VariationId d /\
      Grpc.EvalFlag s rpc = Grpc.Reply (Grpc.toPayload (PayloadFromEvalData d))
  | Some err =>
      if err_key_not_found err then
        let text := Api.flag_not_found key in
        Api.Eval s api = Error text 400 /\
        Ofrep.Eval s ofrep = Ofrep.writeError (Ofrep.errorResponse key "FLAG_NOT_FOUND" text) 404 /\
        Grpc.EvalFlag s rpc = Grpc.StatusError Grpc.NotFound text
      else
        Api.Eval s api = Error "the request failed; please check the logs for more details" 500 /\
        Ofrep.Eval s ofrep = Ofrep.writeError (Ofrep.generalErrorResponse
          "the request failed; please check the server logs for more details") 500 /\
        Grpc.EvalFlag s rpc = Grpc.StatusError Grpc.Unknown "the request failed; please check the logs for more details"
  end.
Proof.
  intros attrs d. split; [apply identified_lookup|]. destruct (ak_id _ _ _ _ _ _ Hask) as [_ Hkey].
  destruct (ak_ofrep _ _ _ _ _ _ Hask) as (_ & Hokey & _). destruct (ak_rpc _ _ _ _ _ _ Hask) as (_ & Hgkey & _).
  unfold Api.Eval, Ofrep.Eval, Grpc.EvalFlag.
  rewrite (api_parse s _ _ _ _ _ _ c Hask), (ofrep_parse s _ _ _ _ _ _ c Hask), (grpc_parse s _ _ _ _ _ _ c Hask) by done.
  rewrite Hokey, (bool_decide_eq_false_2 (key = "")), Hgkey by done. simpl.
  fold (identified context). fold attrs. fold d.
  destruct (d_Error d) as [err|]; [|done]. by destruct (err_key_not_found err).
Qed.

(** An evaluation of all flags agrees with the evaluations of each one: every
    entry of the API's and of the gRPC service's response, and every member of
    the OFREP response, is what the single evaluation of its flag for the same
    user gives; and they have the same flags, those the SDK evaluated. *)
Theorem bulk_evaluation_agrees `{MapRange, C : Client, !ClientLaws C} (c : SC)
    (user : option (gmap string value)) (key : string) :
  let details := c_EvalAll c user in
  let d := c_Eval c key user in
  Api.eval_all_payloads details !! key =
    (fun _ => json_of_payload (PayloadFromEvalData d)) <$> details !! key /\
  Grpc.eval_all_responses details !! key =
    (fun _ => Grpc.toPayload (PayloadFromEvalData d)) <$> details !! key /\
  (forall j, j ∈ Ofrep.bulk_flag <$> range details <->
     exists k, is_Some (details !! k) /\ j = Ofrep.bulk_flag (k, c_Eval c k user)).
Proof.
  intros details d. assert (Hd : forall k d', details !! k = Some d' -> d' = c_Eval c k user) by (intros; by apply EvalAll_Eval).
  rewrite eval_all_payloads_fmap, Grpc.eval_all_responses_fmap, !lookup_fmap. split; [|split].
  - destruct (details !! key) as [d'|] eqn:Hk; [|done]. simpl. by rewrite (Hd key d').
  - destruct (details !! key) as [d'|] eqn:Hk; [|done]. simpl. by rewrite (Hd key d').
  - intros j. rewrite elem_of_bulk. split.
    + intros (k & d' & Hk & ->). exists k. split; [by exists d'|]. by rewrite (Hd k d').
    + intros (k & [d' Hk] & ->). exists k, d'. split; [done|]. by rewrite (Hd k d').
Qed.

Section bulk.
Context `{MapRange, FloatText, XXHash, JSON, JSONText, Client}.

(** a bulk request for a context, made again with the ETag of an earlier answer *)
Record bulk_request (s : registrar) (r : request) (c : SC) (context : option (gmap string value)) (etag : string) : Prop := {
  br_parse : Ofrep.parseRequest s r = inl (c, context);
  br_etag : header_of r "If-None-Match" = etag
}.

Lemma ofrep_bulk_answer h s r c context etag :
  bulk_request s r c context etag ->
  let genEtag := Ofrep.calcEtag h context (en_ETag (c_GetCachedJson c)) in
  Ofrep.EvalAll h s r =
  if negb (bool_decide (etag = "")) && bool_decide (etag = genEtag)
  then [SetHeader "ETag" genEtag; WriteHeader Status.NotModified]
  else Ofrep.write_payload [SetHeader "ETag" genEtag]
         (Ofrep.bulkEvaluationResponse (Ofrep.bulk_flag <$> range (c_EvalAll c (Ofrep.mapTargetingKeyToIdentifier context)))).
Proof. intros [Hp He]. unfold Ofrep.EvalAll. by rewrite Hp, He. Qed.

Lemma calcEtag_inj h a1 a2 e1 e2 :
  (xxhash64 (e1 +:+ of_bytes (Uint64ToBytes (Discriminator h a1))) =
   xxhash64 (e2 +:+ of_bytes (Uint64ToBytes (Discriminator h a2))) ->
   e1 +:+ of_bytes (Uint64ToBytes (Discriminator h a1)) = e2 +:+ of_bytes (Uint64ToBytes (Discriminator h a2))) ->
  Ofrep.calcEtag h a1 e1 = Ofrep.calcEtag h a2 e2 -> e1 = e2 /\ Discriminator h a1 = Discriminator h a2.
Proof.
  intros Hinj Heq. unfold Ofrep.calcEtag in Heq. apply GenerateEtag_inj, Hinj in Heq.
  assert (Hlen : String.length e1 = String.length e2).
  { apply (f_equal String.length) in Heq. rewrite !str_app_length, !length_of_bytes in Heq. simpl in Heq. lia. }
  destruct (str_app_inj_length _ _ _ _ Hlen Heq) as [He Hd]. split; [done|].
  apply (f_equal bytes) in Hd. rewrite !bytes_of_bytes in Hd by apply Uint64ToBytes_range.
  by apply Uint64ToBytes_inj in Hd; [|apply Discriminator_range..].
Qed.

Lemma calcEtag_nonempty h a e : Ofrep.calcEtag h a e <> "".
Proof. done. Qed.

(** what the ETag of a bulk answer is computed from *)
Definition etag_payload (h : string -> Z) (context : option (gmap string value)) (c : SC) : string :=
  en_ETag (c_GetCachedJson c) +:+ of_bytes (Uint64ToBytes (Discriminator h context)).

(** the ETag of the answer to a first bulk request *)
Definition answer_etag (h : string -> Z) (s : registrar) (r : request) : string :=
  Header.Get (sent_headers (respond (Ofrep.EvalAll h s r))) "ETag".

Lemma answer_etag_eq h s r c context :
  bulk_request s r c context "" -> (exists data, forall j, json_Marshal j = Ret (data j)) ->
  answer_etag h s r = Ofrep.calcEtag h context (en_ETag (c_GetCachedJson c)) /\
  status (respond (Ofrep.EvalAll h s r)) = Status.OK.
Proof.
  intros Hr [data Hdata]. unfold answer_etag. rewrite (ofrep_bulk_answer h s r c context "" Hr). simpl.
  unfold Ofrep.write_payload. rewrite Hdata. split; [|done]. simpl.
  unfold sent_headers. simpl. rewrite Header.Get_Set_ne by by vm_compute. apply Header.Get_Set.
Qed.
End bulk.

(** C37: conditional bulk evaluation over OFREP. A client that sends back the ETag
    of an answer, for the same or for other attributes, is told 304 exactly when
    the configuration's ETag and the discriminator of its attributes are those of
    that answer; provided the 64-bit hash does not collide on the two. *)
Theorem ofrep_conditional_bulk `{MapRange, FloatText, XXHash, JSON, JSONText, Client} (h : string -> Z)
    (s1 s2 : registrar) (r1 r2 : request) (c1 c2 : SC) (context1 context2 : option (gmap string value))
    (Hmarshal : exists data, forall j, json_Marshal j = Ret (data j))
    (Hfirst : bulk_request s1 r1 c1 context1 "")
    (Hsecond : bulk_request s2 r2 c2 context2 (answer_etag h s1 r1))
    (Hhash : xxhash64 (etag_payload h context1 c1) = xxhash64 (etag_payload h context2 c2) ->
             etag_payload h context1 c1 = etag_payload h context2 c2) :
  (status (respond (Ofrep.EvalAll h s2 r2)) = Status.NotModified <->
   en_ETag (c_GetCachedJson c1) = en_ETag (c_GetCachedJson c2) /\ Discriminator h context1 = Discriminator h context2) /\
  (status (respond (Ofrep.EvalAll h s2 r2)) = Status.NotModified \/
   status (respond (Ofrep.EvalAll h s2 r2)) = Status.OK).
Proof.
  destruct (answer_etag_eq h s1 r1 c1 context1 Hfirst Hmarshal) as [Het _].
  rewrite (ofrep_bulk_answer h s2 r2 c2 context2 _ Hsecond), Het.
  rewrite (bool_decide_eq_false_2 (Ofrep.calcEtag _ _ _ = "")) by apply calcEtag_nonempty. simpl.
  case_bool_decide as Heq.
  - apply calcEtag_inj in Heq; [|done]. split; [done|by left].
  - destruct Hmarshal as [data Hdata]. unfold Ofrep.write_payload. rewrite Hdata.
    split; [|by right]. split; [done|]. intros [He Hd]. exfalso. apply Heq. unfold Ofrep.calcEtag. by rewrite He, Hd.
Qed.

(** The discriminator does not look into lists of strings, so a bulk request
    whose context differs from an earlier one in such a list only is told that
    nothing changed, whatever the flags evaluate to. *)
Lemma ofrep_304_ignores_lists `{MapRange, FloatText, XXHash, JSON, JSONText, Client} (h : string -> Z)
    (s : registrar) (r1 r2 : request) (c : SC) (attrs : gmap string value) (k : string) (l1 l2 : list string) :
  (exists data, forall j, json_Marshal j = Ret (data j)) ->
  bulk_request s r1 c (Some (<[k := VStrings l1]> attrs)) "" ->
  bulk_request s r2 c (Some (<[k := VStrings l2]> attrs)) (answer_etag h s r1) ->
  status (respond (Ofrep.EvalAll h s r2)) = Status.NotModified.
Proof.
  intros Hmarshal Hfirst Hsecond. destruct (answer_etag_eq h s r1 c _ Hfirst Hmarshal) as [Het _].
  rewrite (ofrep_bulk_answer h s r2 c _ _ Hsecond), Het.
  rewrite (bool_decide_eq_false_2 (Ofrep.calcEtag _ _ _ = "")) by apply calcEtag_nonempty. simpl.
  rewrite bool_decide_eq_true_2; [done|]. unfold Ofrep.calcEtag. by rewrite (Discriminator_string_list h attrs k l1 l2).
Qed.

(** ** Witnesses *)
Section witnesses.
Definition one_json : JSON := {| json_decode raw := if bool_decide (raw = "{}") then Ret (VObject []) else Ret (VString raw) |}.
Definition one_json_text : JSONText := {|
  json_Marshal _ := Ret "out";
  json_members _ := Ret [("key", "flag"); ("user", "{}"); ("context", "{}")]
|}.
Existing Instances canonical_range no_float_text one_json one_json_text demo_client demo_client_laws.

Definition api_request : request :=
  {| rq_Method := MethodPost; rq_URL := None; rq_Header := ∅; rq_Body := Ret "body"; rq_PathValue := {["sdkId" := "sdk"]} |}.
Definition ofrep_request (etag : string) : request :=
  {| rq_Method := MethodPost; rq_URL := None;
     rq_Header := Header.Set_ Ofrep.SdkIdHeader "sdk" (Header.Set_ "If-None-Match" etag ∅);
     rq_Body := Ret "body"; rq_PathValue := {["key" := "flag"]} |}.
Definition grpc_request : Grpc.EvalRequest :=
  {| Grpc.pe_SdkId := "sdk"; Grpc.pe_Key := "flag"; Grpc.pe_User := Some ∅; Grpc.pe_Target := None |}.

(** a context with a targeting key, and the attributes it stands for *)
Definition user_json : JSON := {|
  json_decode raw :=
    if bool_decide (raw = "context") then Ret (VObject [("targetingKey", VString "ann")])
    else if bool_decide (raw = "user") then Ret (VObject [("targetingKey", VString "ann"); ("Identifier", VString "ann")])
    else Ret (VString raw)
|}.
Definition user_json_text : JSONText := {|
  json_Marshal _ := Ret "out";
  json_members _ := Ret [("key", "flag"); ("user", "user"); ("context", "context")]
|}.
Definition ann : gmap string value := {["targetingKey" := VString "ann"]}.
Definition ann_request : Grpc.EvalRequest :=
  {| Grpc.pe_SdkId := "sdk"; Grpc.pe_Key := "flag"; Grpc.pe_User := Some {["targetingKey" := Grpc.StringValue_ "ann"; "Identifier" := Grpc.StringValue_ "ann"]};
     Grpc.pe_Target := None |}.

Lemma frontends_agree_witness :
  let api := @Api.Eval _ user_json user_json_text demo_client (demo_registrar 3) api_request in
  Grpc.EvalFlag (demo_registrar 3) ann_request =
    Grpc.Reply {| Grpc.er_Value := Some (Grpc.IntValue 3); Grpc.er_VariationId := "v1" |} /\
  rs_Body (respond api) = "out".
Proof.
  destruct (@frontends_agree _ user_json user_json_text demo_client (demo_registrar 3) 3 "sdk" "flag" ann
              api_request (ofrep_request "") ann_request)
    as (_ & Ha & _ & _ & _ & Hg).
  - split.
    + done.
    + split; [done|]. exists "body". split; [done|]. by vm_compute.
    + split; [by vm_compute|]. split; [done|]. exists "body". split; [done|]. split; [done|]. by vm_compute.
    + split; [done|]. split; [done|]. by vm_compute.
  - done.
  - done.
  - rewrite Hg, Ha. by split.
Defined.

Lemma bulk_evaluation_agrees_witness :
  Grpc.eval_all_responses (c_EvalAll (Client := demo_client) 3 None) !! "flag" =
  Some {| Grpc.er_Value := Some (Grpc.IntValue 3); Grpc.er_VariationId := "v1" |}.
Proof. destruct (bulk_evaluation_agrees (C := demo_client) 3 None "flag") as (_ & Hg & _). rewrite Hg. done. Defined.

Existing Instance toy_hash.
Lemma bulk_parse (etag : string) : bulk_request (demo_registrar 3) (ofrep_request etag) 3 (Some ∅) etag.
Proof.
  split; [by vm_compute|]. unfold header_of. simpl. rewrite Header.Get_Set_ne by by vm_compute. apply Header.Get_Set.
Qed.
Lemma ofrep_conditional_bulk_witness :
  let h := fun _ => 5 in
  let etag := answer_etag h (demo_registrar 3) (ofrep_request "") in
  status (respond (Ofrep.EvalAll h (demo_registrar 3) (ofrep_request etag))) = Status.NotModified.
Proof.
  intros h etag.
  apply (ofrep_conditional_bulk h (demo_registrar 3) (demo_registrar 3) (ofrep_request "") (ofrep_request etag)
    3 3 (Some ∅) (Some ∅)).
  - by exists (fun _ => "out").
  - apply bulk_parse.
  - apply bulk_parse.
  - done.
  - done.
Defined.
End witnesses.
