(* ===== verification/Router.v ===== *)
(** [web/router.go]: the routes of the HTTP server and the middlewares around
    each handler. [InstrumentHttp] of the telemetry reporter is a parameter. *)
From S2P Require Import Prelude Go Utils Model Log ConfigTypes Config Store Http Mware Client Stream Json Handlers.
From S2P Require CdnProxy Api Ofrep Webhook Sse.
From Stdlib Require Import Ascii.
Open Scope Z_scope.

Section router.
Context `{mr : MapRange, ft : FloatText, xxh : XXHash, js : JSON, jt : JSONText, gz : Gzip, re : RegexpEngine}.
Context `{C : Client, rf : Refresher (H := C)}.
Context (InstrumentHttp : string -> string -> handler effect -> handler effect).

(** What the handlers read of the rest of the process while a request is
    handled: the registrar, the streams, their digest, the identity of the next
    connection and what its [select] meets, the seed of the OFREP server, the
    clock, and the marshalled status. *)
Record world := {
  w_registrar : registrar;
  w_streams : Sse.stream_lookup;
  w_stream_digest : string -> Z;
  w_connection : nat;
  w_picks : list Sse.select;
  w_flusher : bool;
  w_ofrep_digest : string -> Z;
  w_now : Z;
  w_status : go string
}.

(** [if cond { handler = f(handler) }] *)
Definition when (cond : bool) (f : handler effect -> handler effect) (h : handler effect) : handler effect :=
  if cond then f h else h.

(** [web/router.go:217-219] addHttpMethod *)
Definition addHttpMethod (path method : string) : string := method +:+ " " +:+ path.

(** [web/router.go:149-153] endpoint *)
Record endpoint := { ep_handler : handler effect; ep_method : string; ep_path : string }.

Definition non_empty (m : gmap string string) : bool := negb (Nat.eqb (size m) 0).

(** [web/router.go:86-89] the CORS middleware of an endpoint, where enabled *)
Definition with_cors (cors : CORSConfig) (methods responseHeaders requestHeaders : list string) :
    handler effect -> handler effect :=
  when (cors_Enabled cors)
    (CORS methods (cors_AllowedOrigins cors) responseHeaders requestHeaders (Some (cors_AllowedOriginsRegex cors))).

(** [web/router.go:74-80] setupSSERoutes, the endpoints *)
Definition sse_endpoints (w : world) : list endpoint :=
  let single := Sse.SingleFlag (w_stream_digest w) (w_connection w) (w_picks w) (w_flusher w) (w_streams w) in
  let all := Sse.AllFlags (w_stream_digest w) (w_connection w) (w_picks w) (w_flusher w) (w_streams w) in
  [{| ep_path := "/sse/{sdkId}/eval/{data}"; ep_handler := single; ep_method := MethodGet |};
   {| ep_path := "/sse/{sdkId}/eval-all/{data}"; ep_handler := all; ep_method := MethodGet |};
   {| ep_path := "/sse/{sdkId}/eval-all"; ep_handler := all; ep_method := MethodGet |};
   {| ep_path := "/sse/eval/k/{data}"; ep_handler := single; ep_method := MethodGet |};
   {| ep_path := "/sse/eval-all/k/{data}"; ep_handler := all; ep_method := MethodGet |}].

(** [web/router.go:72-97] setupSSERoutes *)
Definition setupSSERoutes (w : world) (conf : SseConfig) (debug : bool) : mux effect :=
  flat_map (fun endpoint =>
    let handler :=
      when debug DebugLog
        (with_cors (sse_CORS conf) [ep_method endpoint; MethodOptions] (KeysOfMap (sse_Headers conf)) []
          (when (non_empty (sse_Headers conf)) (ExtraHeaders (sse_Headers conf))
            (AutoOptions (ep_handler endpoint)))) in
    [(addHttpMethod (ep_path endpoint) (ep_method endpoint), handler);
     (addHttpMethod (ep_path endpoint) MethodOptions, handler)]) (sse_endpoints w).

(** [web/router.go:99-120] setupWebhookRoutes *)
Definition setupWebhookRoutes (w : world) (conf : WebhookConfig) (autoSdkConfig : ProfileConfig) (debug : bool) :
    mux effect :=
  let path := "/hook/{sdkId}" in
  let testPath := "/hook-test" in
  let auth := wh_Auth conf in
  let handler :=
    when debug DebugLog
      (when (non_empty (wh_AuthHeaders conf)) (HeaderAuth (wh_AuthHeaders conf))
        (when (negb (bool_decide (auth_User auth = "")) && negb (bool_decide (auth_Password auth = "")))
          (BasicAuth (auth_User auth) (auth_Password auth))
          (Webhook.ServeWebhookSdkId (w_now w) (w_registrar w)))) in
  let testHandler := when debug DebugLog (Webhook.ServeWebhookTest (w_now w) autoSdkConfig) in
  [(addHttpMethod path MethodGet, InstrumentHttp path MethodGet handler);
   (addHttpMethod path MethodPost, InstrumentHttp path MethodPost handler);
   (addHttpMethod testPath MethodGet, InstrumentHttp testPath MethodGet testHandler);
   (addHttpMethod testPath MethodPost, InstrumentHttp testPath MethodPost testHandler)].

(** [web/router.go:122-139] setupCDNProxyRoutes *)
Definition setupCDNProxyRoutes (w : world) (conf : CdnProxyConfig) (debug : bool) : mux effect :=
  let path := "/configuration-files/{path...}" in
  let handler :=
    when debug DebugLog
      (with_cors (cdn_CORS conf) [MethodGet; MethodOptions] (KeysOfMap (cdn_Headers conf)) []
        (when (non_empty (cdn_Headers conf)) (ExtraHeaders (cdn_Headers conf))
          (AutoOptions (GZip (CdnProxy.ServeHTTP (w_registrar w)))))) in
  [(addHttpMethod path MethodGet, InstrumentHttp path MethodGet handler);
   (addHttpMethod path MethodOptions, InstrumentHttp path MethodOptions handler)].

(** [diag/status/status.go:164-173] HttpHandler: there is no return after the error *)
Definition status_HttpHandler (marshalled : go string) : handler effect := fun _ =>
  match marshalled with
  | Ret status => [SetHeader "Content-Type" "application/json"; Write status]
  | _ => Error "Error producing status" Status.InternalServerError
         ++ [SetHeader "Content-Type" "application/json"; Write ""]
  end.

(** [web/router.go:141-147] setupStatusRoutes *)
Definition setupStatusRoutes (w : world) : mux effect :=
  let path := "/status" in
  let handler := AutoOptions (GZip (status_HttpHandler (w_status w))) in
  [(addHttpMethod path MethodGet, handler); (addHttpMethod path MethodOptions, handler)].

(** [web/router.go:157-167] setupAPIRoutes, the endpoints *)
Definition api_endpoints (s : registrar) : list endpoint :=
  [{| ep_path := "/api/{sdkId}/eval"; ep_handler := GZip (Api.Eval s); ep_method := MethodPost |};
   {| ep_path := "/api/{sdkId}/eval-all"; ep_handler := GZip (Api.EvalAll s); ep_method := MethodPost |};
   {| ep_path := "/api/{sdkId}/keys"; ep_handler := GZip (Api.Keys s); ep_method := MethodGet |};
   {| ep_path := "/api/{sdkId}/refresh"; ep_handler := Api.Refresh s; ep_method := MethodPost |};
   {| ep_path := "/api/eval"; ep_handler := GZip (Api.Eval s); ep_method := MethodPost |};
   {| ep_path := "/api/eval-all"; ep_handler := GZip (Api.EvalAll s); ep_method := MethodPost |};
   {| ep_path := "/api/keys"; ep_handler := GZip (Api.Keys s); ep_method := MethodGet |};
   {| ep_path := "/api/refresh"; ep_handler := Api.Refresh s; ep_method := MethodPost |};
   {| ep_path := "/api/icanhascoffee"; ep_handler := Api.ICanHasCoffee; ep_method := MethodGet |}].

(** [web/router.go:168-182] setupAPIRoutes, the middlewares of an endpoint *)
Definition api_handler (conf : ApiConfig) (debug : bool) (endpoint : endpoint) : handler effect :=
  when debug DebugLog
    (with_cors (api_CORS conf) [ep_method endpoint; MethodOptions] (KeysOfMap (api_Headers conf))
       (KeysOfMap (api_AuthHeaders conf))
      (when (non_empty (api_Headers conf)) (ExtraHeaders (api_Headers conf))
        (AutoOptions
          (when (non_empty (api_AuthHeaders conf)) (HeaderAuth (api_AuthHeaders conf)) (ep_handler endpoint))))).

(** [web/router.go:183-184] the two routes of an endpoint *)
Definition instrumented_routes (endpoint : endpoint) (handler : handler effect) : mux effect :=
  [(addHttpMethod (ep_path endpoint) (ep_method endpoint),
    InstrumentHttp (ep_path endpoint) (ep_method endpoint) handler);
   (addHttpMethod (ep_path endpoint) MethodOptions, InstrumentHttp (ep_path endpoint) MethodOptions handler)].

(** [web/router.go:155-187] setupAPIRoutes *)
Definition setupAPIRoutes (w : world) (conf : ApiConfig) (debug : bool) : mux effect :=
  flat_map (fun endpoint => instrumented_routes endpoint (api_handler conf debug endpoint))
    (api_endpoints (w_registrar w)).

(** [web/router.go:191-194] setupOFREPRoutes, the endpoints *)
Definition ofrep_endpoints (w : world) : list endpoint :=
  [{| ep_path := "/ofrep/v1/evaluate/flags/{key}"; ep_handler := GZip (Ofrep.Eval (w_registrar w)); ep_method := MethodPost |};
   {| ep_path := "/ofrep/v1/evaluate/flags"; ep_handler := GZip (Ofrep.EvalAll (w_ofrep_digest w) (w_registrar w));
      ep_method := MethodPost |}].

(** [web/router.go:195-210] setupOFREPRoutes, the middlewares of an endpoint *)
Definition ofrep_handler (conf : OFREPConfig) (debug : bool) (endpoint : endpoint) : handler effect :=
  when debug DebugLog
    (with_cors (ofrep_CORS conf) [ep_method endpoint; MethodOptions] (KeysOfMap (ofrep_Headers conf))
       (KeysOfMap (ofrep_AuthHeaders conf) ++ [Ofrep.SdkIdHeader])
      (when (non_empty (ofrep_Headers conf)) (ExtraHeaders (ofrep_Headers conf))
        (AutoOptions
          (when (non_empty (ofrep_AuthHeaders conf)) (HeaderAuth (ofrep_AuthHeaders conf)) (ep_handler endpoint))))).

(** [web/router.go:189-215] setupOFREPRoutes *)
Definition setupOFREPRoutes (w : world) (conf : OFREPConfig) (debug : bool) : mux effect :=
  flat_map (fun endpoint => instrumented_routes endpoint (ofrep_handler conf debug endpoint)) (ofrep_endpoints w).

(** [web/router.go:30-56] NewRouter *)
Definition NewRouter (w : world) (conf : HttpConfig) (autoSdkConfig : ProfileConfig) (log : logger) : mux effect :=
  let httpLog := WithPrefix (WithLevel log (GetLevel (http_Log conf))) "http" in
  let debug := l_level httpLog =? Level.Debug in
  (if sse_Enabled (http_Sse conf) then setupSSERoutes w (http_Sse conf) debug else []) ++
  (if wh_Enabled (http_Webhook conf) then setupWebhookRoutes w (http_Webhook conf) autoSdkConfig debug else []) ++
  (if cdn_Enabled (http_CdnProxy conf) then setupCDNProxyRoutes w (http_CdnProxy conf) debug else []) ++
  (if api_Enabled (http_Api conf) then setupAPIRoutes w (http_Api conf) debug else []) ++
  (if ofrep_Enabled (http_OFREP conf) then setupOFREPRoutes w (http_OFREP conf) debug else []) ++
  (if status_Enabled (http_Status conf) then setupStatusRoutes w else []).

Definition set_path (path : string) (r : request) : request :=
  {| rq_Method := rq_Method r;
     rq_URL := match rq_URL r with Some u => Some {| u_Path := path; u_Query := u_Query u |} | None => None end;
     rq_Header := rq_Header r; rq_Body := rq_Body r; rq_PathValue := rq_PathValue r |}.

(** [web/router.go:58-64] ServeHTTP, the path without its trailing slash *)
Definition trim_slash (method path : string) : string :=
  if negb (bool_decide (method = MethodConnect)) && negb (bool_decide (path = "/")) && (1 <? len path) &&
     bool_decide (Str.last path = Some "/"%char)
  then Str.take (String.length path - 1) path else path.

(** [web/router.go:58-64] ServeHTTP *)
Definition ServeHTTP (router : mux effect) : handler effect := fun r =>
  match rq_URL r with
  | Some u => mux_ServeHTTP router (set_path (trim_slash (rq_Method r) (u_Path u)) r)
  | None => []
  end.
End router.

(** ** The patterns *)
Definition methods_overlap (pm qm : string) : bool :=
  bool_decide (pm = "") || bool_decide (qm = "") || bool_decide (pm = qm)
  || (bool_decide (pm = MethodGet) && bool_decide (qm = MethodHead))
  || (bool_decide (pm = MethodHead) && bool_decide (qm = MethodGet)).

(** [ServeMux] panics at start-up when two of its patterns conflict. *)
Definition conflict (p q : string * list segment) : bool :=
  methods_overlap p.1 q.1 && negb (disjoint_segments p.2 q.2).
Fixpoint conflict_free (l : list (string * list segment)) : bool :=
  match l with
  | [] => true
  | p :: l => forallb (fun q => negb (conflict p q)) l && conflict_free l
  end.

Definition route_matches (p : string) (method : string) (xs : list string) : Prop :=
  let '(pm, ps) := parse_pattern p in method_matches pm method = true /\ is_Some (match_segments ps xs).

Lemma conflict_free_lookup l i j p q :
  conflict_free l = true -> (i < j)%nat -> l !! i = Some p -> l !! j = Some q -> conflict p q = false.
Proof.
  revert i j. induction l as [|x l IH]; intros i j Hl Hij Hp Hq; [done|]. simpl in Hl. bool_prop.
  destruct j as [|j]; [lia|]. destruct i as [|i]; simpl in *.
  - injection Hp as ->. rewrite forallb_forall in *.
    specialize (H q ltac:(apply list_elem_of_In; by eapply list_elem_of_lookup_2)). by apply negb_true_iff in H.
  - apply (IH i j); [done|lia|done|done].
Qed.

Lemma conflict_no_common p q method xs :
  conflict (parse_pattern p) (parse_pattern q) = false -> route_matches p method xs -> ~ route_matches q method xs.
Proof.
  unfold conflict, route_matches. destruct (parse_pattern p) as [pm ps], (parse_pattern q) as [qm qs]. simpl.
  intros Hc [Hpm [v Hv]] [Hqm [u Hu]]. apply andb_false_iff in Hc as [Hc|Hc].
  - unfold methods_overlap, method_matches in *. repeat case_bool_decide; simpl in *; congruence.
  - apply negb_false_iff in Hc. by eapply disjoint_segments_sound.
Qed.

Section patterns.
Context `{mr : MapRange, ft : FloatText, xxh : XXHash, js : JSON, jt : JSONText, gz : Gzip, re : RegexpEngine}.
Context `{C : Client, rf : Refresher (H := C)}.
Context (InstrumentHttp : string -> string -> handler effect -> handler effect).

(** the parsed patterns, by the features that are enabled *)
Definition patterns (sse wh cdn api ofrep status : bool) : list string :=
  (if sse then ["GET /sse/{sdkId}/eval/{data}"; "OPTIONS /sse/{sdkId}/eval/{data}";
                "GET /sse/{sdkId}/eval-all/{data}"; "OPTIONS /sse/{sdkId}/eval-all/{data}";
                "GET /sse/{sdkId}/eval-all"; "OPTIONS /sse/{sdkId}/eval-all";
                "GET /sse/eval/k/{data}"; "OPTIONS /sse/eval/k/{data}";
                "GET /sse/eval-all/k/{data}"; "OPTIONS /sse/eval-all/k/{data}"] else []) ++
  (if wh then ["GET /hook/{sdkId}"; "POST /hook/{sdkId}"; "GET /hook-test"; "POST /hook-test"] else []) ++
  (if cdn then ["GET /configuration-files/{path...}"; "OPTIONS /configuration-files/{path...}"] else []) ++
  (if api then ["POST /api/{sdkId}/eval"; "OPTIONS /api/{sdkId}/eval";
                "POST /api/{sdkId}/eval-all"; "OPTIONS /api/{sdkId}/eval-all";
                "GET /api/{sdkId}/keys"; "OPTIONS /api/{sdkId}/keys";
                "POST /api/{sdkId}/refresh"; "OPTIONS /api/{sdkId}/refresh";
                "POST /api/eval"; "OPTIONS /api/eval"; "POST /api/eval-all"; "OPTIONS /api/eval-all";
                "GET /api/keys"; "OPTIONS /api/keys"; "POST /api/refresh"; "OPTIONS /api/refresh";
                "GET /api/icanhascoffee"; "OPTIONS /api/icanhascoffee"] else []) ++
  (if ofrep then ["POST /ofrep/v1/evaluate/flags/{key}"; "OPTIONS /ofrep/v1/evaluate/flags/{key}";
                  "POST /ofrep/v1/evaluate/flags"; "OPTIONS /ofrep/v1/evaluate/flags"] else []) ++
  (if status then ["GET /status"; "OPTIONS /status"] else []).

Lemma NewRouter_patterns w conf autoSdkConfig log :
  (NewRouter InstrumentHttp w conf autoSdkConfig log).*1 =
  patterns (sse_Enabled (http_Sse conf)) (wh_Enabled (http_Webhook conf)) (cdn_Enabled (http_CdnProxy conf))
    (api_Enabled (http_Api conf)) (ofrep_Enabled (http_OFREP conf)) (status_Enabled (http_Status conf)).
Proof.
  unfold NewRouter, patterns. rewrite !fmap_app. by repeat f_equal; case_match.
Qed.

Lemma patterns_conflict_free b1 b2 b3 b4 b5 b6 :
  conflict_free (parse_pattern <$> patterns b1 b2 b3 b4 b5 b6) = true.
Proof. destruct b1, b2, b3, b4, b5, b6; vm_compute; reflexivity. Qed.

Lemma patterns_conflict b1 b2 b3 b4 b5 b6 i j p q :
  patterns b1 b2 b3 b4 b5 b6 !! i = Some p -> patterns b1 b2 b3 b4 b5 b6 !! j = Some q -> (i < j)%nat ->
  conflict (parse_pattern p) (parse_pattern q) = false.
Proof.
  intros Hp Hq Hij. eapply (conflict_free_lookup _ i j); [apply patterns_conflict_free|done|..];
    rewrite list_lookup_fmap; [by rewrite Hp|by rewrite Hq].
Qed.
End patterns.

(** ** What middlewares leave alone *)

(** the same status, body and effects *)
Definition same_answer {E} (rs1 rs2 : response E) : Prop :=
  fst <$> rs_sent rs1 = fst <$> rs_sent rs2 /\ rs_Body rs1 = rs_Body rs2 /\ rs_did rs1 = rs_did rs2.

Lemma same_answer_status {E} (rs1 rs2 : response E) : same_answer rs1 rs2 -> status rs1 = status rs2.
Proof. intros (Hs & _). by apply status_sent. Qed.

Lemma same_answer_op {E} (o : op E) rs1 rs2 : same_answer rs1 rs2 -> same_answer (apply_op rs1 o) (apply_op rs2 o).
Proof.
  destruct rs1 as [h1 [[c1 s1]|] b1 d1], rs2 as [h2 [[c2 s2]|] b2 d2]; intros (Hs & Hb & Hd); simpl in *; simplify_eq.
  all: destruct o as [k v|k v|k|code|b| |e|st n]; simpl; unfold write_body, send_header, status; simpl;
    try destruct (informational code); try destruct (body_allowed c2); by split.
Qed.
Lemma same_answer_ops {E} (ops : list (op E)) rs1 rs2 :
  same_answer rs1 rs2 -> same_answer (apply_ops rs1 ops) (apply_ops rs2 ops).
Proof. revert rs1 rs2. induction ops as [|o ops IH]; intros rs1 rs2 Hs; [done|]. by apply IH, same_answer_op. Qed.

Definition header_op {E} (o : op E) : Prop := match o with SetHeader _ _ | AddHeader _ _ | DelHeader _ => True | _ => False end.
Lemma same_answer_headers {E} (ops rest : list (op E)) :
  Forall header_op ops -> same_answer (respond (ops ++ rest)) (respond rest).
Proof.
  intros Hops. unfold respond. rewrite apply_ops_app. apply same_answer_ops.
  assert (Hg : forall rs, same_answer (apply_ops rs ops) rs).
  { induction Hops as [|o ops Ho _ IH]; intros rs; [by split|].
    destruct (IH (apply_op rs o)) as (Hs & Hb & Hd). destruct o; simpl in *; try done; by split. }
  apply Hg.
Qed.

Instance same_answer_equiv {E} : Equivalence (@same_answer E).
Proof.
  split.
  - by intros rs.
  - intros rs1 rs2 (? & ? & ?). by split.
  - intros rs1 rs2 rs3 (? & ? & ?) (? & ? & ?). split; [congruence|]. split; congruence.
Qed.

Section middlewares.
Context `{mr : MapRange, re : RegexpEngine}.
Context {E : Type}.
Implicit Types h : handler E.

Lemma ExtraHeaders_same m h r : same_answer (respond (ExtraHeaders m h r)) (respond (h r)).
Proof. apply same_answer_headers, Forall_fmap, Forall_forall. by intros []. Qed.

Lemma CORS_same ms os rh qh c h r : same_answer (respond (CORS ms os rh qh c h r)) (respond (h r)).
Proof.
  apply same_answer_headers. unfold setOptionsCORSHeaders, setDefaultCORSHeaders.
  repeat case_match; repeat constructor.
Qed.

Lemma DebugLog_same h r : same_answer (respond (DebugLog h r)) (respond (h r)).
Proof. by rewrite DebugLog_response. Qed.
End middlewares.


Section api_guard.
Context `{mr : MapRange, ft : FloatText, xxh : XXHash, js : JSON, jt : JSONText, gz : Gzip, re : RegexpEngine}.
Context `{C : Client, rf : Refresher (H := C)}.

Lemma when_same cond (f : handler effect -> handler effect) h r :
  (forall h, same_answer (respond (f h r)) (respond (h r))) ->
  same_answer (respond (when cond f h r)) (respond (h r)).
Proof. intros Hf. by destruct cond. Qed.

(** what is left of an endpoint's handler once headers and logging are set aside *)
Definition guarded (authHeaders : gmap string string) (inner : handler effect) : handler effect :=
  AutoOptions (when (non_empty authHeaders) (HeaderAuth authHeaders) inner).

Lemma api_handler_same conf debug ep r :
  same_answer (respond (api_handler conf debug ep r)) (respond (guarded (api_AuthHeaders conf) (ep_handler ep) r)).
Proof.
  unfold api_handler, with_cors. etrans; [apply when_same; intros; apply DebugLog_same|].
  etrans; [apply when_same; intros; apply CORS_same|]. apply when_same. intros. apply ExtraHeaders_same.
Qed.
Lemma ofrep_handler_same conf debug ep r :
  same_answer (respond (ofrep_handler conf debug ep r)) (respond (guarded (ofrep_AuthHeaders conf) (ep_handler ep) r)).
Proof.
  unfold ofrep_handler, with_cors. etrans; [apply when_same; intros; apply DebugLog_same|].
  etrans; [apply when_same; intros; apply CORS_same|]. apply when_same. intros. apply ExtraHeaders_same.
Qed.

Lemma guarded_eq authHeaders inner r :
  guarded authHeaders inner r =
  if bool_decide (rq_Method r = MethodOptions) then [WriteHeader Status.NoContent]
  else if decide (map_Forall (fun k v => header_of r k = v) authHeaders) then inner r
  else Error "Unauthorized" Status.Unauthorized.
Proof.
  unfold guarded, AutoOptions. case_bool_decide; [done|]. unfold when, non_empty.
  destruct (Nat.eqb_spec (size authHeaders) 0) as [Hs|Hs]; simpl; [|apply HeaderAuth_spec].
  apply map_size_empty_inv in Hs. subst. rewrite decide_True; [done|]. apply map_Forall_empty.
Qed.
End api_guard.

(** ** Properties *)

(** C35: the routes are unambiguous. Whatever features are enabled, no two of the
    patterns the router registers conflict, so [ServeMux] accepts them all, and a
    request is matched by at most one of them, whatever its method and path. *)
Theorem routes_unambiguous `{MapRange, FloatText, XXHash, JSON, JSONText, Gzip, RegexpEngine, Client, !Refresher}
    (InstrumentHttp : string -> string -> handler effect -> handler effect) (w : world) (conf : HttpConfig)
    (autoSdkConfig : ProfileConfig) (log : logger) :
  let router := NewRouter InstrumentHttp w conf autoSdkConfig log in
  conflict_free (parse_pattern <$> router.*1) = true /\
  (forall i j p q method xs, router.*1 !! i = Some p -> router.*1 !! j = Some q ->
     route_matches p method xs -> route_matches q method xs -> i = j).
Proof.
  intros router. unfold router. rewrite NewRouter_patterns. split; [apply patterns_conflict_free|].
  intros i j p q method xs Hp Hq Hmp Hmq.
  destruct (lt_eq_lt_dec i j) as [[Hij|Hij]|Hij]; [|done|]; exfalso.
  - eapply (conflict_no_common p q); [by eapply patterns_conflict|done|done].
  - eapply (conflict_no_common q p); [by eapply patterns_conflict|done|done].
Qed.

(** C17: the API and the OFREP routes are guarded. On every one of their routes a
    preflight request is answered 204 and reaches no SDK, even without
    credentials; any other request reaches the endpoint exactly when it carries
    all configured authentication headers, and is answered 401 without an effect
    when it lacks one. Whatever the other middlewares, CORS, extra headers and
    logging, add, they change neither status nor body nor effects. *)
Theorem api_and_ofrep_guarded `{MapRange, FloatText, XXHash, JSON, JSONText, Gzip, RegexpEngine, Client, !Refresher}
    (InstrumentHttp : string -> string -> handler effect -> handler effect) (w : world)
    (apiConf : ApiConfig) (ofrepConf : OFREPConfig) (debug : bool)
    (Hinstrument : forall p m h r, same_answer (respond (InstrumentHttp p m h r)) (respond (h r)))
    (p : string) (h : handler effect) (r : request)
    (Hroute : (p, h) ∈ setupAPIRoutes InstrumentHttp w apiConf debug ++ setupOFREPRoutes InstrumentHttp w ofrepConf debug) :
  exists ep auth, (ep ∈ api_endpoints (w_registrar w) /\ auth = api_AuthHeaders apiConf \/
                   ep ∈ ofrep_endpoints w /\ auth = ofrep_AuthHeaders ofrepConf) /\
    (p = addHttpMethod (ep_path ep) (ep_method ep) \/ p = addHttpMethod (ep_path ep) MethodOptions) /\
    let rs := respond (h r) in
    if decide (rq_Method r = MethodOptions) then status rs = 204 /\ rs_Body rs = "" /\ rs_did rs = []
    else if decide (map_Forall (fun k v => header_of r k = v) auth)
    then same_answer rs (respond (ep_handler ep r))
    else status rs = 401 /\ rs_Body rs = "Unauthorized" +:+ str1 newline /\ rs_did rs = [].
Proof.
  assert (Hcase : exists ep auth, (ep ∈ api_endpoints (w_registrar w) /\ auth = api_AuthHeaders apiConf \/
                   ep ∈ ofrep_endpoints w /\ auth = ofrep_AuthHeaders ofrepConf) /\
    (p = addHttpMethod (ep_path ep) (ep_method ep) \/ p = addHttpMethod (ep_path ep) MethodOptions) /\
    same_answer (respond (h r)) (respond (guarded auth (ep_handler ep) r))).
  { apply elem_of_app in Hroute as [Hin|Hin];
      apply list_elem_of_In, in_flat_map in Hin as (ep & Hep & [[= <- <-]|[[= <- <-]|[]]]); apply list_elem_of_In in Hep.
    all: exists ep; eexists.
    1,2: split; [by left|]; split; [by auto|]; (etrans; [apply Hinstrument|apply api_handler_same]).
    all: split; [by right|]; split; [by auto|]; (etrans; [apply Hinstrument|apply ofrep_handler_same]). }
  destruct Hcase as (ep & auth & Hep & Hp & Hsame). exists ep, auth. split; [done|]. split; [done|].
  rewrite guarded_eq in Hsame. cbv zeta. destruct (decide (rq_Method r = MethodOptions)) as [Hm|Hm].
  - rewrite bool_decide_eq_true_2 in Hsame by done. pose proof (same_answer_status _ _ Hsame) as Hst.
    destruct Hsame as (_ & Hb & Hd). by rewrite Hst, Hb, Hd.
  - rewrite bool_decide_eq_false_2 in Hsame by done. case_decide; [done|].
    pose proof (same_answer_status _ _ Hsame) as Hst. destruct Hsame as (_ & Hb & Hd). by rewrite Hst, Hb, Hd.
Qed.

(** the feature a path belongs to: its first segment *)
Definition feature_enabled (conf : HttpConfig) (first : string) : bool :=
  if bool_decide (first = "sse") then sse_Enabled (http_Sse conf)
  else if bool_decide (first ∈ ["hook"; "hook-test"]) then wh_Enabled (http_Webhook conf)
  else if bool_decide (first = "configuration-files") then cdn_Enabled (http_CdnProxy conf)
  else if bool_decide (first = "api") then api_Enabled (http_Api conf)
  else if bool_decide (first = "ofrep") then ofrep_Enabled (http_OFREP conf)
  else if bool_decide (first = "status") then status_Enabled (http_Status conf)
  else false.

Definition first_segment (p : string) : option string :=
  match (parse_pattern p).2 with Lit s :: _ => Some s | _ => None end.

Lemma find_route_pattern {E} (m : mux E) method xs vars h :
  find_route m method xs = Some (vars, h) -> exists p, p ∈ m.*1 /\ route_matches p method xs.
Proof.
  unfold route_matches. induction m as [|[p h0] m IH]; [done|]. simpl. destruct (parse_pattern p) as [pm ps] eqn:Hp.
  destruct (method_matches pm method) eqn:Hm; [destruct (match_segments ps xs) eqn:Hs|].
  - intros _. exists p. split; [by left|]. rewrite Hp. eauto.
  - intros (q & Hq & Hr)%IH. exists q. split; [by right|done].
  - intros (q & Hq & Hr)%IH. exists q. split; [by right|done].
Qed.

Definition route_matchesb (method : string) (xs : list string) (p : string) : bool :=
  let '(pm, ps) := parse_pattern p in
  method_matches pm method && match match_segments ps xs with Some _ => true | None => false end.
Lemma find_route_None {E} (m : mux E) method xs :
  forallb (fun p => negb (route_matchesb method xs p)) m.*1 = true -> find_route m method xs = None.
Proof.
  induction m as [|[p h] m IH]; [done|]. simpl. unfold route_matchesb at 1.
  destruct (parse_pattern p) as [pm ps], (method_matches pm method); simpl; [|done].
  by destruct (match_segments ps xs).
Qed.

Lemma match_first p method xs s : first_segment p = Some s -> route_matches p method xs -> head xs = Some s.
Proof.
  unfold first_segment, route_matches. destruct (parse_pattern p) as [pm [|[a|?|?] ps]]; simpl; [done| |done..].
  intros [= ->] [_ [v Hv]]. destruct xs as [|x xs]; [done|]. simpl in *. by case_bool_decide; subst.
Qed.

Lemma patterns_features conf :
  forallb (fun p => match first_segment p with Some s => feature_enabled conf s | None => false end)
    (patterns (sse_Enabled (http_Sse conf)) (wh_Enabled (http_Webhook conf)) (cdn_Enabled (http_CdnProxy conf))
       (api_Enabled (http_Api conf)) (ofrep_Enabled (http_OFREP conf)) (status_Enabled (http_Status conf))) = true.
Proof.
  unfold feature_enabled.
  destruct (sse_Enabled _), (wh_Enabled _), (cdn_Enabled _), (api_Enabled _), (ofrep_Enabled _), (status_Enabled _);
    vm_compute; reflexivity.
Qed.

(** C34: a request is handled only by a feature that is enabled, the one its path
    belongs to; every other path is answered 404, 405 or redirected, never
    handled, so a disabled API, CDN proxy, webhook, OFREP, SSE or status endpoint
    cannot be reached. *)
Theorem only_enabled_features_handle `{MapRange, FloatText, XXHash, JSON, JSONText, Gzip, RegexpEngine, Client, !Refresher}
    (InstrumentHttp : string -> string -> handler effect -> handler effect) (w : world) (conf : HttpConfig)
    (autoSdkConfig : ProfileConfig) (log : logger) (r : request) (u : URL)
    (Hurl : rq_URL r = Some u) :
  let router := NewRouter InstrumentHttp w conf autoSdkConfig log in
  let path := trim_slash (rq_Method r) (u_Path u) in
  match route router (rq_Method r) path with
  | Handle vars h =>
      exists first, head (segments path) = Some first /\ feature_enabled conf first = true /\
        ServeHTTP router r = h (set_path_values vars (set_path path r))
  | _ => rs_did (respond (ServeHTTP router r)) = [] /\ status (respond (ServeHTTP router r)) ∈ [301; 404; 405]
  end.
Proof.
  intros router path. unfold ServeHTTP. rewrite Hurl. fold path. unfold mux_ServeHTTP, set_path. rewrite Hurl.
  cbn [rq_URL rq_Method u_Path u_Query rq_Header rq_Body rq_PathValue].
  destruct (route router (rq_Method r) path) as [vars h|to|methods|] eqn:Hroute; [|split; [done|set_solver]..].
  unfold route in Hroute. destruct (find_route _ _ _) as [[vars' h']|] eqn:Hf.
  2:{ destruct (slash_route _ _ _); [done|]. destruct (negb _); [done|]. by destruct (allowed_methods _ _). }
  case_bool_decide as Hclean; [|done]. injection Hroute as -> ->. rewrite Hclean in Hf.
  apply find_route_pattern in Hf as (p & Hp & Hmatch). unfold router in Hp. rewrite NewRouter_patterns in Hp.
  pose proof (patterns_features conf) as Hall. rewrite forallb_forall in Hall.
  specialize (Hall p ltac:(by apply list_elem_of_In)). destruct (first_segment p) as [first|] eqn:Hfirst; [|done].
  exists first. split; [by eapply match_first|]. done.
Qed.

(** The root of the CDN endpoint, requested with its slash, is redirected to
    itself: the router removes the slash, and [ServeMux] puts it back. *)
Lemma cdn_root_redirects_to_itself `{MapRange, FloatText, XXHash, JSON, JSONText, Gzip, RegexpEngine, Client, !Refresher}
    (InstrumentHttp : string -> string -> handler effect -> handler effect) (w : world) (conf : HttpConfig)
    (autoSdkConfig : ProfileConfig) (log : logger) :
  cdn_Enabled (http_CdnProxy conf) = true ->
  route (NewRouter InstrumentHttp w conf autoSdkConfig log) MethodGet (trim_slash MethodGet "/configuration-files/") =
  Redirect "/configuration-files/".
Proof.
  intros Hcdn. set (router := NewRouter InstrumentHttp w conf autoSdkConfig log).
  assert (Hnone : find_route router MethodGet ["configuration-files"] = None).
  { apply find_route_None. unfold router. rewrite NewRouter_patterns.
    destruct (sse_Enabled _), (wh_Enabled _), (cdn_Enabled _), (api_Enabled _), (ofrep_Enabled _), (status_Enabled _);
      vm_compute; reflexivity. }
  assert (Hslash : slash_route router MethodGet ["configuration-files"] = true).
  { assert (Hin : "GET /configuration-files/{path...}" ∈ router.*1).
    { unfold router. rewrite NewRouter_patterns, Hcdn. unfold patterns. rewrite !elem_of_app. right. right. left. by left. }
    apply list_elem_of_fmap in Hin as ([p h] & Hp & Hin). simpl in Hp. subst p.
    unfold slash_route. apply existsb_exists.
    exists ("GET /configuration-files/{path...}", h). split; [by apply list_elem_of_In|]. by vm_compute. }
  unfold route.
  change (segments (cleanPath (trim_slash MethodGet "/configuration-files/"))) with ["configuration-files"].
  by rewrite Hnone, Hslash.
Qed.

(** ** Witnesses *)
Section witnesses.
Existing Instances canonical_range no_float_text toy_hash demo_json demo_json_text demo_client toy_gzip.
Definition no_regexp : RegexpEngine := {| regexp_compile _ := Ret tt; regexp_match _ _ := false |}.
Definition demo_refresher : Refresher := {| c_Refresh := fun c => if c <? 5 then None else Some "down" |}.
Existing Instances no_regexp demo_refresher.

Definition no_cors : CORSConfig :=
  {| cors_Enabled := false; cors_AllowedOrigins := [];
     cors_AllowedOriginsRegex := {| re_IfNoMatch := ""; re_Patterns := []; re_Regexes := [] |} |}.
Definition demo_api_conf : ApiConfig :=
  {| api_AuthHeaders := {["X-Auth" := "key"]}; api_Headers := {["X-Served-By" := "proxy"]}; api_Enabled := true;
     api_CORS := {| cors_Enabled := true; cors_AllowedOrigins := ["https://a.example"];
                    cors_AllowedOriginsRegex := cors_AllowedOriginsRegex no_cors |} |}.
Definition demo_ofrep_conf : OFREPConfig :=
  {| ofrep_AuthHeaders := ∅; ofrep_Headers := ∅; ofrep_Enabled := true; ofrep_CORS := no_cors |}.
Definition demo_http_conf : HttpConfig :=
  {| http_Enabled := true; http_Port := 8050;
     http_CdnProxy := {| cdn_Headers := ∅; cdn_Enabled := true; cdn_CORS := no_cors |};
     http_OFREP := demo_ofrep_conf;
     http_Webhook := {| wh_AuthHeaders := ∅; wh_Enabled := false; wh_Auth := {| auth_User := ""; auth_Password := "" |} |};
     http_Sse := {| sse_Enabled := false; sse_Headers := ∅; sse_HeartBeatInterval := 0; sse_Log := {| log_Level := "" |};
                    sse_CORS := no_cors |};
     http_Api := demo_api_conf; http_Status := {| status_Enabled := true |}; http_Log := {| log_Level := "info" |} |}.
Definition demo_world : world :=
  {| w_registrar := demo_registrar 3; w_streams := Sse.demo_streams; w_stream_digest := fun _ => 0; w_connection := 1;
     w_picks := []; w_flusher := true; w_ofrep_digest := fun _ => 0; w_now := 0; w_status := Ret "{}" |}.
Definition not_instrumented (operation method : string) (h : handler effect) : handler effect := h.
Definition demo_profile : ProfileConfig :=
  {| profile_Key := ""; profile_Secret := ""; profile_BaseUrl := ""; profile_PollInterval := 0;
     profile_WebhookSignatureValidFor := 0; profile_WebhookSigningKey := ""; profile_Log := {| log_Level := "" |};
     profile_SDKs := {| psdk_BaseUrl := ""; psdk_Log := {| log_Level := "" |} |} |}.

Definition refresh_request (method path auth : string) : request :=
  {| rq_Method := method; rq_URL := Some {| u_Path := path; u_Query := ∅ |};
     rq_Header := Header.Set_ "X-Auth" auth ∅; rq_Body := Ret ""; rq_PathValue := {["sdkId" := "sdk"]} |}.

Definition refresh_route : string * handler effect :=
  ("POST /api/{sdkId}/refresh",
   api_handler demo_api_conf true
     {| ep_path := "/api/{sdkId}/refresh"; ep_handler := Api.Refresh (demo_registrar 3); ep_method := MethodPost |}).

Lemma api_and_ofrep_guarded_witness :
  status (respond (refresh_route.2 (refresh_request MethodPost "/api/sdk/refresh" "guess"))) = 401 /\
  rs_did (respond (refresh_route.2 (refresh_request MethodPost "/api/sdk/refresh" "key"))) = [ERefresh 3].
Proof.
  assert (Hin : refresh_route ∈ setupAPIRoutes not_instrumented demo_world demo_api_conf true
    ++ setupOFREPRoutes not_instrumented demo_world demo_ofrep_conf true).
  { apply elem_of_app. left. unfold setupAPIRoutes, api_endpoints, instrumented_routes, not_instrumented, refresh_route.
    simpl flat_map. apply (list_elem_of_lookup_2 _ 6). done. }
  destruct (api_and_ofrep_guarded not_instrumented demo_world demo_api_conf demo_ofrep_conf true) with
    (p := refresh_route.1) (h := refresh_route.2) (r := refresh_request MethodPost "/api/sdk/refresh" "guess")
    as (ep & auth & Hep & Hp & Hrs); [done|by destruct refresh_route|].
  split; [by vm_compute|by vm_compute].
Defined.

Definition is_no_route (x : routed effect) : bool := match x with NoRoute => true | _ => false end.
Lemma only_enabled_features_handle_witness :
  let r := refresh_request MethodPost "/hook/sdk/" "key" in
  status (respond (ServeHTTP (NewRouter not_instrumented demo_world demo_http_conf demo_profile NewNullLogger) r)) ∈ [301; 404; 405].
Proof.
  intros r.
  pose proof (only_enabled_features_handle not_instrumented demo_world demo_http_conf demo_profile NewNullLogger r
    {| u_Path := "/hook/sdk/"; u_Query := ∅ |} eq_refl) as Hr. cbv zeta in Hr.
  assert (Hno : is_no_route (route (NewRouter not_instrumented demo_world demo_http_conf demo_profile NewNullLogger)
    (rq_Method r) (trim_slash (rq_Method r) "/hook/sdk/")) = true) by (vm_compute; reflexivity).
  cbn [u_Path] in Hr.
  revert Hr Hno. destruct (route _ _ _) as [vars h|path|methods|]; [done|done|done|]. intros [_ Hr] _. exact Hr.
Defined.
End witnesses.
