(* ===== verification/Servers.v ===== *)
(** [web/server.go], [diag/server.go] and the listening part of
    [grpc/server.go]: what the three servers are set up with, and what they
    report on the error channel. Accepting connections is [net/http]'s and
    [grpc]'s: how the listening call ends is an input. *)
From S2P Require Import Prelude Go Utils Log ConfigTypes Config Http.
From Stdlib Require Import Ascii.
Open Scope Z_scope.

(** How [ListenAndServe] ends. *)
Inductive serve_result := ErrServerClosed | ServeError (err : string).

Section servers.
Context {E : Type}.

(** [http.Server], the fields that are set; durations in seconds, 0 for none *)
Record http_Server := {
  hs_Addr : string;
  hs_Handler : handler E;
  hs_TLSConfig : option TlsOptions;
  hs_ReadTimeout : Z;
  hs_WriteTimeout : Z;
  hs_IdleTimeout : Z
}.

(** ** The HTTP server *)

(** [web/server.go:15-20] Server *)
Record Server := { ws_conf : Config; ws_httpServer : http_Server; ws_log : logger }.

(** [web/server.go:22-44] NewServer *)
Definition NewServer (load_key_pair : string -> string -> go unit) (handler : handler E) (log : logger)
    (conf : Config) : go Server :=
  tls <-? (if tls_Enabled (c_Tls conf) then t <-? LoadTlsOptions load_key_pair (c_Tls conf); Ret (Some t)
           else Ret None);
  Ret {| ws_conf := conf; ws_log := WithPrefix log "http";
         ws_httpServer := {| hs_Addr := ":" +:+ Itoa (http_Port (c_Http conf)); hs_Handler := handler;
                             hs_TLSConfig := tls; hs_ReadTimeout := 0; hs_WriteTimeout := 0; hs_IdleTimeout := 0 |} |}.

(** [web/server.go:46-61] Listen: whether it serves with TLS, and what it sends to
    the error channel when the serving ends *)
Definition Listen (s : Server) (serve : bool -> serve_result) : option string :=
  match serve (tls_Enabled (c_Tls (ws_conf s))) with
  | ErrServerClosed => None
  | ServeError err => Some ("error starting HTTP server on port: " +:+ Itoa (http_Port (c_Http (ws_conf s)))
                            +:+ "  " +:+ err)
  end.

(** [web/server.go:63-74] Shutdown: the error that is logged *)
Definition Shutdown (shutdown : go unit) : option string :=
  match shutdown with Fail err => Some ("shutdown error: " +:+ err) | _ => None end.

(** ** The diagnostics server *)

(** [diag/server_debug.go:10-14] setupDebugEndpoints; it is empty without the
    build tag. The most specific pattern wins, so it comes first here. *)
Definition setupDebugEndpoints (debug_build : bool) (pprof_Index pprof_Symbol : handler E) : mux E :=
  if debug_build then
    [("/debug/pprof/symbol", pprof_Symbol); ("/debug/pprof/{action}", pprof_Index); ("/debug/pprof/", pprof_Index)]
  else [].

(** [diag/server.go:24-38] NewServer, the routes *)
Definition diag_mux (conf : DiagConfig) (prometheus status : handler E) (debug : mux E) : mux E :=
  (if IsMetricsEnabled conf && IsPrometheusExporterEnabled conf then [("/metrics", prometheus)] else []) ++
  (if IsStatusEnabled conf then [("/status", status)] else []) ++ debug.

(** [diag/server.go:17-22] Server *)
Record DiagServer := { dg_conf : DiagConfig; dg_httpServer : option http_Server; dg_log : logger }.

(** [diag/server.go:24-54] NewServer *)
Definition diag_NewServer (conf : DiagConfig) (prometheus status : handler E) (debug : mux E) (log : logger) :
    DiagServer :=
  {| dg_conf := conf; dg_log := WithPrefix log "diag";
     dg_httpServer := Some {| hs_Addr := ":" +:+ Itoa (diag_Port conf);
                              hs_Handler := mux_ServeHTTP (diag_mux conf prometheus status debug);
                              hs_TLSConfig := None; hs_ReadTimeout := 5; hs_WriteTimeout := 10;
                              hs_IdleTimeout := 120 |} |}.

(** [diag/server.go:56-70] Listen *)
Definition diag_Listen (s : DiagServer) (serve : serve_result) : option string :=
  match dg_httpServer s with
  | None => None
  | Some _ =>
      match serve with
      | ErrServerClosed => None
      | ServeError err => Some ("error starting diag HTTP server on port: " +:+ Itoa (diag_Port (dg_conf s))
                                +:+ "  " +:+ err)
      end
  end.

(** [diag/server.go:72-87] Shutdown: the error that is logged *)
Definition diag_Shutdown (s : DiagServer) (shutdown : go unit) : option string :=
  match dg_httpServer s with
  | None => None
  | Some _ => match shutdown with Fail err => Some ("shutdown error: " +:+ err) | _ => None end
  end.

(** ** The gRPC server *)

(** [grpc/server.go:95-111] Listen: what it sends to the error channel, given the
    results of listening and of serving *)
Definition grpc_Listen (port : Z) (listen serve : go unit) : option string :=
  let report err := Some ("error starting GRPC server on port: " +:+ Itoa port +:+ "  " +:+ err) in
  match listen with
  | Fail err => report err
  | _ => match serve with Fail err => report err | _ => None end
  end.

(** ** Specification *)

(** the answer to a GET request for a path *)
Definition get (path : string) : request :=
  {| rq_Method := MethodGet; rq_URL := Some {| u_Path := path; u_Query := ∅ |}; rq_Header := ∅;
     rq_Body := Ret ""; rq_PathValue := ∅ |}.

End servers.

(** The diagnostics server of a production build serves the metrics exactly when
    the Prometheus exporter is enabled, and the status exactly when that is; it
    knows no other path of the debug endpoints. [main] starts it only when one
    of the two is there. *)
Theorem diag_server_exposes {E} (conf : DiagConfig) (prometheus status pprof_Index pprof_Symbol : handler E)
    (log : logger) :
  let s := diag_NewServer conf prometheus status (setupDebugEndpoints false pprof_Index pprof_Symbol) log in
  let ask path := match dg_httpServer s with Some h => respond (hs_Handler h (get path)) | None => fresh end in
  let missing := error_response "404 page not found" 404 in
  ask "/metrics" = (if IsPrometheusExporterEnabled conf then respond (prometheus (get "/metrics")) else missing) /\
  ask "/status" = (if IsStatusEnabled conf then respond (status (get "/status")) else missing) /\
  ask "/debug/pprof/" = missing /\ ask "/" = missing /\
  ShouldRunDiagServer conf = IsPrometheusExporterEnabled conf || IsStatusEnabled conf.
Proof.
  unfold diag_NewServer, diag_mux, IsPrometheusExporterEnabled, ShouldRunDiagServer, IsStatusEnabled,
    IsPrometheusExporterEnabled. cbn [dg_httpServer hs_Handler].
  destruct (IsMetricsEnabled conf) eqn:Hm, (prom_Enabled _), (diag_Enabled conf) eqn:Hd, (status_Enabled _);
    unfold IsMetricsEnabled in Hm; rewrite ?Hd in Hm; try discriminate Hm; split_and!; reflexivity.
Qed.

(** the debug build adds the profiler *)
Lemma debug_build_has_pprof {E} (index symbol : handler E) :
  (exists v, route (setupDebugEndpoints true index symbol) MethodGet "/debug/pprof/symbol" = Handle v symbol) /\
  (exists v, route (setupDebugEndpoints true index symbol) MethodGet "/debug/pprof/heap" = Handle v index) /\
  route (setupDebugEndpoints false index symbol) MethodGet "/debug/pprof/heap" = @NoRoute E.
Proof. split_and!; try (by eexists; vm_compute); done. Qed.
