(* ===== verification/Main.v ===== *)
(** [main.go]: the process, from its configuration to its exit code. Every
    component is set up by its own constructor, in the order of the source; what
    ends the process, a signal or the failure of a server, is an input. The log
    lines are left out. A goroutine that panics takes the process down: the
    goroutines that can do so when they start are those with a ticker of a
    configured period. *)
From S2P Require Import Prelude Go Utils Model Log ConfigTypes Config Env Validate Load Status Store Sdk Watch.
From S2P Require Import Registrar Client Manual StreamServer Http Mware Json Handlers.
From S2P Require Telemetry Cache Router Servers Grpc Sse Proxy.
Open Scope Z_scope.

#[local] Existing Instance Cache.external_cache.

(** [main.go:20-23] exitOk, exitFailure *)
Definition exitOk : Z := 0.
Definition exitFailure : Z := 1.

(** The components that leave a function in [shutdownFuncs]. *)
Inductive component := CTelemetry | CDiag | CCache | CHttp | CGrpc.
#[export] Instance component_eq_dec : EqDecision component.
Proof. solve_decision. Defined.

(** What [run] waits for: the signal, or an error from a server. *)
Inductive ending := CloseSignal | ErrorChan (err : string).

Section main.
Context `{xxh : XXHash, cf : ConfigCatFormat, os : OS, mr : MapRange, pj : ProfileJSON, ft : FloatText, js : JSON,
          jt : JSONText, gz : Gzip, re : RegexpEngine, ym : YAML, cc : ConfigCatSDK}.
Context `{rf : Refresher (H := sdk_client)}.
Context `{rd : Cache.RedisDriver, md : Cache.MongoDriver, dd : Cache.DynamoDriver, otel : Telemetry.Otel, fsn : FsNotify}.
(** [path.Join], [tls.LoadX509KeyPair], the handler wrapper of [otelhttp], the
    Prometheus handler, the profile endpoint, and the build's debug routes *)
Context (path_join : list string -> string) (load_key_pair : string -> string -> go unit).
Context (NewHandler : handler effect -> string -> list Telemetry.otel_option -> handler effect).
Context (prometheus status : handler effect) (debug : mux effect).
Context (do : http_request -> go http_response) (version : string) (now : Z).
(** what the request handlers read of the process, given its registrar *)
Context (world : Registrar -> Router.world).


(** [web/router.go:20-28] HttpRouter: its routes and its SSE server *)
Record HttpRouter := { hr_router : mux effect; hr_sseServer : option front }.

(** [grpc/server.go:24-34] Server, with its flag service *)
Record GrpcServer := { gp_server : Grpc.Server; gp_flagService : front }.

(** [main.go:32-103] run, its variables when it waits *)
Record process := {
  pr_conf : Config;
  pr_telemetry : Telemetry.Reporter;
  pr_diag : option (Servers.DiagServer (E := effect));
  pr_cache : option Cache.External;
  pr_registrar : Registrar;
  pr_router : option HttpRouter;
  pr_http : option (Servers.Server (E := effect));
  pr_grpc : option GrpcServer;
  pr_shutdownFuncs : list component
}.

(** [if cond { v = f(); ... }] *)
Definition if_enabled {A} (b : bool) (m : go A) : go (option A) :=
  if b then x <-? m; Ret (Some x) else Ret None.

(** [main.go:69-76] run, the external cache *)
Definition start_cache (conf : Config) (telemetry : Telemetry.Reporter) : go (option Cache.External) :=
  if cache_IsSet (c_Cache conf) then Cache.SetupExternalCache load_key_pair (c_Cache conf) telemetry else Ret None.

(** [sdk/sdk.go:147-151] NewClient, the ticker of the goroutine that polls for a
    client: its store's, its file watcher's, or its own *)
Definition client_ticker (c : client) : go unit :=
  let conf := cx_SDKConf (cl_sdkCtx c) in
  let o := sdk_Offline conf in
  match cl_cache c with
  | FileStorage _ =>
      match new_watcher (off_Local o) with
      | APollWatcher _ => _ <-? poll_run_period (local_PollInterval (off_Local o)); Ret tt
      | _ => Ret tt
      end
  | NotifyingStorage _ => _ <-? cache_run_period (off_CachePollInterval o); Ret tt
  | _ => _ <-? sdk_poll_period (sdk_PollInterval conf); Ret tt
  end.

(** [sdk/sdk_registrar.go:28-33] NewRegistrar, the tickers of the goroutines that
    it has started *)
Definition tickers (conf : Config) (r : Registrar) : go unit :=
  try? go_fold (fun _ c => client_ticker c) tt (Registrar_heap r);
  match r with
  | ARegistrar _ => _ <-? registrar_run_period (refresh_interval conf); Ret tt
  | MRegistrar _ => Ret tt
  end.

(** [web/router.go:30-56] NewRouter *)
Definition NewRouter (conf : Config) (telemetry : Telemetry.Reporter) (registrar : Registrar) (log : logger) :
    go HttpRouter :=
  sse <-? if_enabled (sse_Enabled (http_Sse (c_Http conf))) (NewFront registrar);
  Ret {| hr_router := Router.NewRouter (Telemetry.InstrumentHttp NewHandler telemetry) (world registrar)
                        (c_Http conf) (c_Profile conf) log;
         hr_sseServer := sse |}.

(** [web/router.go:66-70] Close *)
Definition router_Close (r : HttpRouter) : go HttpRouter :=
  match hr_sseServer r with
  | Some sse => sse <-? front_Close sse; Ret {| hr_router := hr_router r; hr_sseServer := Some sse |}
  | None => Ret r
  end.

(** [main.go:83-93] run, the HTTP server and its router *)
Definition start_http (conf : Config) (telemetry : Telemetry.Reporter) (registrar : Registrar) (log : logger) :
    go (option (HttpRouter * Servers.Server (E := effect))) :=
  if_enabled (http_Enabled (c_Http conf))
    (router <-? NewRouter conf telemetry registrar log;
     server <-? Servers.NewServer load_key_pair (Router.ServeHTTP (hr_router router)) log conf;
     Ret (router, server)).

(** [grpc/server.go:36-93] NewServer, with the flag service *)
Definition NewGrpcServer (conf : Config) (registrar : Registrar) (log : logger) : go GrpcServer :=
  server <-? Grpc.NewServer load_key_pair conf log;
  flags <-? newFlagService registrar;
  Ret {| gp_server := server; gp_flagService := flags |}.

(** [main.go:95-103] run, the gRPC server *)
Definition start_grpc (conf : Config) (registrar : Registrar) (log : logger) : go (option GrpcServer) :=
  if_enabled (grpc_Enabled (c_Grpc conf)) (NewGrpcServer conf registrar log).

(** the shutdown functions of the components that are up, in their order *)
Definition shutdown_funcs (diag cache http grpc : bool) : list component :=
  [CTelemetry] ++ (if diag then [CDiag] else []) ++ (if cache then [CCache] else [])
  ++ (if http then [CHttp] else []) ++ (if grpc then [CGrpc] else []).

(** [main.go:32-103] run, up to its loop; an error makes it return
    [exitFailure] *)
Definition start (configFile : string) : go process :=
  conf <-? LoadConfigFromFileAndEnvironment path_join configFile;
  try? Validate conf;
  let log := WithLevel (NewLogger Level.Warn) (GetLevel (c_Log conf)) in
  let statusReporter := NewReporter (c_Cache conf) in
  let telemetry := (Telemetry.NewReporter (c_Diag conf) version log).1 in
  let diag := if ShouldRunDiagServer (c_Diag conf)
              then Some (Servers.diag_NewServer (c_Diag conf) prometheus status debug log) else None in
  cache <-? start_cache conf telemetry;
  registrar <-? NewRegistrar conf log now do cache statusReporter;
  try? tickers conf registrar;
  http <-? start_http conf telemetry registrar log;
  grpc <-? start_grpc conf registrar log;
  Ret {| pr_conf := conf; pr_telemetry := telemetry; pr_diag := diag; pr_cache := cache;
         pr_registrar := registrar; pr_router := fst <$> http; pr_http := snd <$> http; pr_grpc := grpc;
         pr_shutdownFuncs := shutdown_funcs (ShouldRunDiagServer (c_Diag conf)) (cache_IsSet (c_Cache conf))
                               (http_Enabled (c_Http conf)) (grpc_Enabled (c_Grpc conf)) |}.

(** ** Shutting down *)

(** What a process is while it shuts down: its registrar, router, gRPC server and
    telemetry, the components whose functions have returned, and the errors that
    were logged. *)
Record stopped := {
  sp_registrar : Registrar;
  sp_router : option HttpRouter;
  sp_grpc : option GrpcServer;
  sp_telemetry : Telemetry.Reporter;
  sp_down : list component;
  sp_errors : list string
}.

(** the function of [c] has returned, and has logged [err] *)
Definition is_down (c : component) (err : option string) (s : stopped) : stopped :=
  {| sp_registrar := sp_registrar s; sp_router := sp_router s; sp_grpc := sp_grpc s; sp_telemetry := sp_telemetry s;
     sp_down := sp_down s ++ [c]; sp_errors := sp_errors s ++ match err with Some e => [e] | None => [] end |}.
Definition set_sp_telemetry (t : Telemetry.Reporter) (s : stopped) : stopped :=
  {| sp_registrar := sp_registrar s; sp_router := sp_router s; sp_grpc := sp_grpc s; sp_telemetry := t;
     sp_down := sp_down s; sp_errors := sp_errors s |}.
Definition set_sp_grpc (g : GrpcServer) (s : stopped) : stopped :=
  {| sp_registrar := sp_registrar s; sp_router := sp_router s; sp_grpc := Some g; sp_telemetry := sp_telemetry s;
     sp_down := sp_down s; sp_errors := sp_errors s |}.

(** [grpc/server.go:131-140] Shutdown, with the flag service; [GracefulStop]
    returns once the calls have ended *)
Definition grpc_Shutdown (g : GrpcServer) : go GrpcServer :=
  server <-? Grpc.Shutdown (gp_server g);
  flags <-? front_Close (gp_flagService g);
  Ret {| gp_server := server; gp_flagService := flags |}.

(** how [net/http]'s [Shutdown] of a server ends *)
Context (graceful : component -> go unit).
(** in which order the goroutines of the shutdown functions come to run *)
Context (schedule : list component -> list component).

(** [main.go:60-102] run, the functions in [shutdownFuncs] *)
Definition shutdown_func (p : process) (s : stopped) (c : component) : go stopped :=
  match c with
  | CTelemetry => Ret (is_down c None (set_sp_telemetry (Telemetry.Shutdown (sp_telemetry s)).1 s))
  | CDiag => match pr_diag p with
             | Some d => Ret (is_down c (Servers.diag_Shutdown d (graceful c)) s)
             | None => Panic
             end
  | CCache => match pr_cache p with
              | Some x => Ret (is_down c (Cache.External_Shutdown x) s)
              | None => Panic
              end
  | CHttp => match pr_http p with
             | Some _ => Ret (is_down c (Servers.Shutdown (graceful c)) s)
             | None => Panic
             end
  | CGrpc => match sp_grpc s with
             | Some g => g <-? grpc_Shutdown g; Ret (is_down c None (set_sp_grpc g s))
             | None => Panic
             end
  end.

(** [main.go:107-124] run, the signal: the registrar, the router, and then the
    shutdown functions, each in a goroutine of its own *)
Definition shutdown (p : process) : go stopped :=
  registrar <-? Registrar_Close (pr_registrar p);
  router <-? match pr_router p with Some r => r <-? router_Close r; Ret (Some r) | None => Ret None end;
  go_fold (shutdown_func p)
    {| sp_registrar := registrar; sp_router := router; sp_grpc := pr_grpc p; sp_telemetry := pr_telemetry p;
       sp_down := []; sp_errors := [] |} (schedule (pr_shutdownFuncs p)).

(** [main.go:32-130] run: the exit code, and what a graceful shutdown leaves *)
Definition run (configFile : string) (e : ending) : go (Z * option stopped) :=
  match start configFile with
  | Fail _ => Ret (exitFailure, None)
  | Panic => Panic
  | Ret p =>
      match e with
      | CloseSignal => s <-? shutdown p; Ret (exitOk, Some s)
      | ErrorChan _ => Ret (exitFailure, None)
      end
  end.
End main.

Section facts.
Context `{xxh : XXHash, cf : ConfigCatFormat, os : OS, mr : MapRange, pj : ProfileJSON, ft : FloatText, js : JSON,
          jt : JSONText, gz : Gzip, re : RegexpEngine, ym : YAML, cc : ConfigCatSDK}.
Context `{rf : Refresher (H := sdk_client)}.
Context `{rd : Cache.RedisDriver, md : Cache.MongoDriver, dd : Cache.DynamoDriver, otel : Telemetry.Otel, fsn : FsNotify}.

Lemma if_enabled_ok {A} (b : bool) (m : go A) (P : A -> Prop) : (exists a, m = Ret a /\ P a) ->
  exists o, if_enabled b m = Ret o /\ (forall a, o = Some a -> P a) /\ (is_Some o <-> b = true).
Proof.
  intros (a & Hm & HP). unfold if_enabled. rewrite Hm. destruct b.
  - exists (Some a). split_and!; [done|by intros ? [= <-]|split; eauto].
  - exists None. split_and!; [done|done|split; [by intros [? ?]|done]].
Qed.

Lemma LoadTlsOptions_ok load_key_pair t : (forall c k, load_key_pair c k = Ret tt) ->
  exists o, LoadTlsOptions load_key_pair t = Ret o.
Proof.
  intros Hok. unfold LoadTlsOptions. generalize (Build_TlsOptions (GetVersion t) (tls_ServerName t) []).
  induction (tls_Certificates t) as [|c l IH]; intros o; [by exists o|].
  cbn [go_fold]. rewrite Hok. apply IH.
Qed.

Lemma web_NewServer_ok {E} load_key_pair (h : handler E) log conf : (forall c k, load_key_pair c k = Ret tt) ->
  exists s, Servers.NewServer load_key_pair h log conf = Ret s.
Proof.
  intros Hok. unfold Servers.NewServer. destruct (tls_Enabled _); [|by eexists].
  destruct (LoadTlsOptions_ok load_key_pair (c_Tls conf) Hok) as [o ->]. by eexists.
Qed.

Lemma grpc_NewServer_ok load_key_pair conf log : (forall c k, load_key_pair c k = Ret tt) ->
  exists s, Grpc.NewServer load_key_pair conf log = Ret s /\ Grpc.gs_stopped s = false.
Proof.
  intros Hok. unfold Grpc.NewServer. destruct (ToParams _) as [params ok].
  destruct (tls_Enabled _); [|by eexists].
  destruct (LoadTlsOptions_ok load_key_pair (c_Tls conf) Hok) as [o ->]. by eexists.
Qed.

(** the servers that own streams, for a manual registrar *)
Lemma front_Close_ok f : fr_stopped f = false -> streams_ok (fr_streams f) ->
  exists f', front_Close f = Ret f' /\ fr_stopped f' = true /\ all_closed (fr_streams f').
Proof.
  intros Hf Hs. unfold front_Close. rewrite Hf. destruct (Close_server_ok _ Hs) as (s & -> & Hall). by eexists.
Qed.

Lemma NewFront_ok r : (forall id l, mn_sdkClients r !! id = Some l -> is_Some (mn_heap r !! l)) ->
  exists f, NewFront (MRegistrar r) = Ret f /\ newFlagService (MRegistrar r) = Ret f /\ fr_stopped f = false /\
    streams_ok (fr_streams f).
Proof.
  intros Hheap. destruct (NewServer_for_manual r Hheap) as (s & Hs & Hok).
  unfold NewFront, newFlagService. rewrite Hs. eexists. split_and!; [reflexivity|reflexivity|done|done].
Qed.

(** [f] runs and can be closed, and closes all it has *)
Definition open_front (f : front) : Prop := fr_stopped f = false /\ streams_ok (fr_streams f).
Definition closed_front (f : front) : Prop := fr_stopped f = true /\ all_closed (fr_streams f).

Lemma router_Close_ok r : (forall f, hr_sseServer r = Some f -> open_front f) ->
  exists r', router_Close r = Ret r' /\ (is_Some (hr_sseServer r') <-> is_Some (hr_sseServer r)) /\
    forall f, hr_sseServer r' = Some f -> closed_front f.
Proof.
  intros Hr. unfold router_Close. destruct (hr_sseServer r) as [f|] eqn:Hf.
  - destruct (Hr f eq_refl) as [Hstop Hs]. destruct (front_Close_ok f Hstop Hs) as (f' & -> & Hf').
    eexists. split; [done|]. split; [split; eauto|]. by intros ? [= <-].
  - exists r. rewrite Hf. by split_and!.
Qed.

(** the same for the gRPC server *)
Definition open_grpc (g : GrpcServer) : Prop := Grpc.gs_stopped (gp_server g) = false /\ open_front (gp_flagService g).
Definition closed_grpc (g : GrpcServer) : Prop := Grpc.gs_stopped (gp_server g) = true /\ closed_front (gp_flagService g).

Lemma grpc_Shutdown_ok g : open_grpc g -> exists g', grpc_Shutdown g = Ret g' /\ closed_grpc g'.
Proof.
  intros (Hg & Hf & Hs). unfold grpc_Shutdown, Grpc.Shutdown. rewrite Hg. cbn [mbind go_bind].
  destruct (front_Close_ok _ Hf Hs) as (f' & -> & Hf'). eexists. split; [done|]. by split.
Qed.

(** ** The shutdown functions *)
Section funcs.
Context (graceful : component -> go unit).

(** what a process needs for the functions of its components *)
Definition has (p : process) (c : component) : Prop :=
  match c with
  | CTelemetry => True | CDiag => is_Some (pr_diag p) | CCache => is_Some (pr_cache p)
  | CHttp => is_Some (pr_http p) | CGrpc => is_Some (pr_grpc p)
  end.

(** where the gRPC server is while the functions [left] are still to run *)
Definition grpc_left (p : process) (left : list component) (s : stopped) : Prop :=
  (is_Some (sp_grpc s) <-> is_Some (pr_grpc p)) /\
  forall g, sp_grpc s = Some g -> if decide (CGrpc ∈ left) then open_grpc g else closed_grpc g.

Lemma shutdown_func_ok p s c left : c ∉ left -> has p c -> grpc_left p (c :: left) s ->
  exists s', shutdown_func graceful p s c = Ret s' /\ sp_down s' = sp_down s ++ [c] /\
    sp_registrar s' = sp_registrar s /\ sp_router s' = sp_router s /\ grpc_left p left s'.
Proof.
  intros Hc Hhas [Hg Hgs].
  assert (Hother : c <> CGrpc -> forall g, sp_grpc s = Some g -> if decide (CGrpc ∈ left) then open_grpc g else closed_grpc g).
  { intros Hne g Hsg. specialize (Hgs g Hsg). repeat case_decide; set_solver. }
  destruct c; cbn [shutdown_func has] in *.
  - eexists. split; [done|]. split_and!; try done. by split; [|apply Hother].
  - destruct Hhas as [d ->]. eexists. split; [done|]. split_and!; try done. by split; [|apply Hother].
  - destruct Hhas as [x ->]. eexists. split; [done|]. split_and!; try done. by split; [|apply Hother].
  - destruct Hhas as [h ->]. eexists. split; [done|]. split_and!; try done. by split; [|apply Hother].
  - destruct (proj2 Hg Hhas) as [g Hsg]. rewrite Hsg. specialize (Hgs g Hsg). rewrite decide_True in Hgs by (by left).
    destruct (grpc_Shutdown_ok g Hgs) as (g' & -> & Hg'). cbn [mbind go_bind]. eexists. split; [done|].
    split_and!; try done. split; [simpl; split; eauto|]. intros g1 [= <-]. by rewrite decide_False.
Qed.

Lemma shutdown_funcs_run p l s : NoDup l -> Forall (has p) l -> grpc_left p l s ->
  exists s', go_fold (shutdown_func graceful p) s l = Ret s' /\ sp_down s' = sp_down s ++ l /\
    sp_registrar s' = sp_registrar s /\ sp_router s' = sp_router s /\ grpc_left p [] s'.
Proof.
  revert s. induction l as [|c l IH]; intros s Hnd Hl Hg.
  { exists s. by rewrite app_nil_r. }
  apply NoDup_cons in Hnd as [Hc Hnd]. apply Forall_cons in Hl as [Hhas Hl].
  destruct (shutdown_func_ok p s c l Hc Hhas Hg) as (s1 & Hs1 & Hd1 & Hr1 & Hrt1 & Hg1).
  destruct (IH s1 Hnd Hl Hg1) as (s' & Hs' & Hd' & Hr' & Hrt' & Hg'). exists s'. cbn [go_fold]. rewrite Hs1.
  split; [exact Hs'|]. rewrite Hd', Hd1, <- app_assoc. split_and!; congruence || done.
Qed.
End funcs.

(** ** Starting *)

(** every polling interval of the SDKs is at most 292 years *)
Definition intervals_fit (conf : Config) : Prop :=
  forall id sc, c_SDKs conf !! id = Some (Some sc) ->
    interval_fits (sdk_PollInterval sc) /\ interval_fits (off_CachePollInterval (sdk_Offline sc)) /\
    interval_fits (local_PollInterval (off_Local (sdk_Offline sc))).

Lemma intervals_fit_list conf :
  Forall (fun kv => forall sc, kv.2 = Some sc ->
    interval_fits (sdk_PollInterval sc) /\ interval_fits (off_CachePollInterval (sdk_Offline sc)) /\
    interval_fits (local_PollInterval (off_Local (sdk_Offline sc)))) (map_to_list (c_SDKs conf)) ->
  intervals_fit conf.
Proof. intros Hall id sc Hid. rewrite Forall_forall in Hall. by apply (Hall (id, Some sc)); [apply elem_of_map_to_list|]. Qed.

Lemma client_ticker_ok c : let sc := cx_SDKConf (cl_sdkCtx c) in
  interval_fits (sdk_PollInterval sc) -> interval_fits (off_CachePollInterval (sdk_Offline sc)) ->
  interval_fits (local_PollInterval (off_Local (sdk_Offline sc))) -> client_ticker c = Ret tt.
Proof.
  intros sc Hs Hc Hf. unfold client_ticker, poll_run_period, cache_run_period, sdk_poll_period, cache_poll_interval,
    sdk_poll_interval. fold sc.
  destruct (ticker_fits DefaultSdkPollInterval _ ltac:(done) Hs) as [d1 ->].
  destruct (ticker_fits DefaultCachePollInterval _ ltac:(done) Hc) as [d2 ->].
  destruct (ticker_fits DefaultCachePollInterval _ ltac:(done) Hf) as [d3 ->].
  by repeat case_match.
Qed.

Lemma tickers_ok conf r : intervals_fit conf -> serves conf (configured conf) r -> tickers conf (MRegistrar r) = Ret tt.
Proof.
  intros Hfit Hs. unfold tickers. cbn [Registrar_heap].
  assert (Hall : Forall (fun c => client_ticker c = Ret tt) (mn_heap r)).
  { apply Forall_lookup. intros l c Hc. pose proof (Manual.sv_heap _ _ _ Hs l c Hc) as Hl.
    pose proof (sv_only _ _ _ Hs _ l Hl) as Hin. apply list_elem_of_fmap in Hin as ([id sc] & Hid & Hin).
    destruct (sv_client _ _ _ Hs id sc Hin) as (l' & c' & Hl' & Hc' & Hctx & _).
    apply elem_of_configured in Hin. destruct (Hfit id sc Hin) as (? & ? & ?).
    assert (Hcc : c = c') by (simpl in Hid; rewrite Hid in Hl; congruence).
    apply client_ticker_ok; by rewrite Hcc, Hctx. }
  induction Hall as [|c l Hc Hall IH]; [done|]. cbn [go_fold]. rewrite Hc. exact IH.
Qed.

(** without a profile: the registrar is the manual one, with the configured SDKs,
    and can be closed *)
Lemma manual_start conf log now do cache s :
  profile_Key (c_Profile conf) = "" -> no_nil_sdk conf ->
  exists r, NewRegistrar conf log now do cache s = Ret (MRegistrar r) /\ serves conf (configured conf) r /\
    exists r', Registrar_Close (MRegistrar r) = Ret r' /\ Forall (fun c => cl_closed c = true) (Registrar_heap r').
Proof.
  intros Hp Hsdks. destruct (newManualRegistrar_serves conf log now cache s Hsdks) as (r & Hr & Hs).
  exists r. unfold NewRegistrar, profile_IsSet. rewrite Hp, bool_decide_eq_false_2 by tauto. rewrite Hr.
  split; [done|]. split; [done|]. destruct (manual_Close_serves conf _ r Hs) as (r' & Hc & Hall).
  exists (MRegistrar r'). unfold Registrar_Close. by rewrite Hc.
Qed.

Lemma serves_ids conf r id : serves conf (configured conf) r -> no_nil_sdk conf ->
  is_Some (manual_GetSdkOrNil id r) <-> is_Some (c_SDKs conf !! id).
Proof.
  intros Hs Hsdks. split.
  - intros [l Hl]. pose proof (sv_only _ _ _ Hs id l Hl) as Hin.
    apply list_elem_of_fmap in Hin as ([id' sc] & -> & Hin%elem_of_configured). by eexists.
  - intros [[sc|] Hid]; [|by destruct (Hsdks id)].
    destruct (sv_client _ _ _ Hs id sc) as (l & c & Hl & _); [by apply elem_of_configured|by exists l].
Qed.

Lemma serves_heap conf sdks r id l : serves conf sdks r -> mn_sdkClients r !! id = Some l -> is_Some (mn_heap r !! l).
Proof.
  intros Hs Hl. pose proof (sv_only _ _ _ Hs id l Hl) as Hin. apply list_elem_of_fmap in Hin as ([id' sc] & Hid & Hin).
  destruct (sv_client _ _ _ Hs id' sc Hin) as (l' & c & Hl' & Hc & _). simpl in Hid. subst id'. exists c. congruence.
Qed.

Lemma shutdown_funcs_NoDup a b c d : NoDup (shutdown_funcs a b c d).
Proof. unfold shutdown_funcs. destruct a, b, c, d; simpl; repeat constructor; set_solver. Qed.

Lemma shutdown_funcs_spec a b c d x :
  x ∈ shutdown_funcs a b c d <->
  match x with CTelemetry => True | CDiag => a = true | CCache => b = true | CHttp => c = true | CGrpc => d = true end.
Proof. unfold shutdown_funcs. destruct a, b, c, d, x; simpl; split; intros; try done; set_solver. Qed.

(** ** A process that waits, and its end *)
Section waiting.
Context (path_join : list string -> string) (load_key_pair : string -> string -> go unit).
Context (NewHandler : handler effect -> string -> list Telemetry.otel_option -> handler effect).
Context (prometheus status : handler effect) (debug : mux effect).
Context (do : http_request -> go http_response) (version : string) (now : Z).
Context (world : Registrar -> Router.world).
Context (graceful : component -> go unit) (schedule : list component -> list component).

(** what is up: exactly what the configuration enables, open *)
Record up (conf : Config) (p : process) : Prop := {
  up_diag : is_Some (pr_diag p) <-> ShouldRunDiagServer (c_Diag conf) = true;
  up_cache : is_Some (pr_cache p) <-> cache_IsSet (c_Cache conf) = true;
  up_http : is_Some (pr_http p) <-> http_Enabled (c_Http conf) = true;
  up_router : is_Some (pr_router p) <-> http_Enabled (c_Http conf) = true;
  up_sse : forall rt, pr_router p = Some rt ->
    (is_Some (hr_sseServer rt) <-> sse_Enabled (http_Sse (c_Http conf)) = true) /\
    forall f, hr_sseServer rt = Some f -> open_front f;
  up_grpc : is_Some (pr_grpc p) <-> grpc_Enabled (c_Grpc conf) = true;
  up_grpc_open : forall g, pr_grpc p = Some g -> open_grpc g;
  up_funcs : pr_shutdownFuncs p = shutdown_funcs (ShouldRunDiagServer (c_Diag conf)) (cache_IsSet (c_Cache conf))
                                    (http_Enabled (c_Http conf)) (grpc_Enabled (c_Grpc conf))
}.

(** what a graceful shutdown leaves of it *)
Record down (p : process) (s : stopped) : Prop := {
  dn_clients : Forall (fun c => cl_closed c = true) (Registrar_heap (sp_registrar s));
  dn_router : is_Some (sp_router s) <-> is_Some (pr_router p);
  dn_sse : forall rt f, sp_router s = Some rt -> hr_sseServer rt = Some f -> closed_front f;
  dn_grpc : is_Some (sp_grpc s) <-> is_Some (pr_grpc p);
  dn_grpc_closed : forall g, sp_grpc s = Some g -> closed_grpc g;
  dn_once : NoDup (sp_down s);
  dn_all : forall c, c ∈ sp_down s <-> has p c
}.

Lemma up_has conf p c : up conf p -> c ∈ pr_shutdownFuncs p <-> has p c.
Proof.
  intros Hup. rewrite (up_funcs _ _ Hup), shutdown_funcs_spec. unfold has.
  destruct c; [done|by rewrite (up_diag _ _ Hup)|by rewrite (up_cache _ _ Hup)|by rewrite (up_http _ _ Hup)
    |by rewrite (up_grpc _ _ Hup)].
Qed.

Lemma start_http_ok conf telemetry r log :
  (forall c k, load_key_pair c k = Ret tt) -> serves conf (configured conf) r ->
  exists o, start_http load_key_pair NewHandler world conf telemetry (MRegistrar r) log = Ret o /\
    (is_Some o <-> http_Enabled (c_Http conf) = true) /\
    forall rt h, o = Some (rt, h) ->
      (is_Some (hr_sseServer rt) <-> sse_Enabled (http_Sse (c_Http conf)) = true) /\
      forall f, hr_sseServer rt = Some f -> open_front f.
Proof.
  intros Htls Hs. destruct (NewFront_ok r) as (f & Hf & _ & Hopen); [by intros id l; eapply serves_heap|].
  destruct (if_enabled_ok (sse_Enabled (http_Sse (c_Http conf))) (NewFront (MRegistrar r)) open_front)
    as (sse & Hsse & Hsse_open & Hsse_on); [by exists f|].
  unfold start_http.
  destruct (if_enabled_ok (http_Enabled (c_Http conf))
    (router <-? NewRouter NewHandler world conf telemetry (MRegistrar r) log;
     server <-? Servers.NewServer load_key_pair (Router.ServeHTTP (hr_router router)) log conf;
     Ret (router, server)) (fun rh => hr_sseServer rh.1 = sse)) as (o & Ho & Hsome & Hon).
  { unfold NewRouter. rewrite Hsse. cbn [mbind go_bind hr_router].
    match goal with |- context [Servers.NewServer _ ?h _ _] =>
      destruct (web_NewServer_ok load_key_pair h log conf Htls) as [srv ->] end.
    eexists. by split. }
  exists o. split; [done|]. split; [done|]. intros rt h ->. specialize (Hsome _ eq_refl). simpl in Hsome. subst sse. by split.
Qed.

Lemma start_grpc_ok conf r log :
  (forall c k, load_key_pair c k = Ret tt) -> serves conf (configured conf) r ->
  exists o, start_grpc load_key_pair conf (MRegistrar r) log = Ret o /\
    (is_Some o <-> grpc_Enabled (c_Grpc conf) = true) /\ forall g, o = Some g -> open_grpc g.
Proof.
  intros Htls Hs. destruct (NewFront_ok r) as (f & _ & Hf & Hopen); [by intros id l; eapply serves_heap|].
  unfold start_grpc.
  destruct (if_enabled_ok (grpc_Enabled (c_Grpc conf)) (NewGrpcServer load_key_pair conf (MRegistrar r) log) open_grpc)
    as (o & Ho & Hsome & Hon); [|by exists o].
  unfold NewGrpcServer. destruct (grpc_NewServer_ok load_key_pair conf log Htls) as (srv & -> & Hg).
  cbn [mbind go_bind]. rewrite Hf. eexists. split; [done|]. by split.
Qed.

(** the external cache that [run] sets up *)
Lemma start_cache_some conf t o : start_cache load_key_pair conf t = Ret o ->
  is_Some o <-> cache_IsSet (c_Cache conf) = true.
Proof.
  unfold start_cache. destruct (cache_IsSet _) eqn:Hset; [|intros [= <-]; split; [by intros [? ?]|done]].
  intros Ho%Cache.SetupExternalCache_kind. split; [done|]. intros _. unfold cache_IsSet in Hset.
  destruct o; [by eexists|]. destruct (redis_Enabled _), (mongo_Enabled _), (dynamo_Enabled _); done.
Qed.

Lemma shutdown_ok conf r p :
  pr_registrar p = MRegistrar r -> up conf p -> (forall l, schedule l ≡ₚ l) ->
  (exists r', Registrar_Close (MRegistrar r) = Ret r' /\ Forall (fun c => cl_closed c = true) (Registrar_heap r')) ->
  exists s, shutdown graceful schedule p = Ret s /\ down p s.
Proof.
  intros Hr Hup Hsched (r' & Hclose & Hclosed). unfold shutdown. rewrite Hr, Hclose. cbn [mbind go_bind].
  assert (Hrt : exists o, match pr_router p with Some rt => rt <-? router_Close rt; Ret (Some rt) | None => Ret None end
      = Ret o /\ (is_Some o <-> is_Some (pr_router p)) /\
      forall rt f, o = Some rt -> hr_sseServer rt = Some f -> closed_front f).
  { destruct (pr_router p) as [rt|] eqn:Hp; [|by exists None].
    destruct (router_Close_ok rt) as (rt' & -> & _ & Hcl); [apply (up_sse _ _ Hup rt Hp)|].
    eexists. split; [done|]. split; [split; eauto|]. intros rt1 f [= <-]. apply Hcl. }
  destruct Hrt as (o & -> & Ho & Hsse). cbn [mbind go_bind].
  assert (Hnd : NoDup (schedule (pr_shutdownFuncs p)))
    by (rewrite (Hsched _), (up_funcs _ _ Hup); apply shutdown_funcs_NoDup).
  assert (Hin : forall c, c ∈ schedule (pr_shutdownFuncs p) <-> has p c)
    by (intros c; rewrite (Hsched _); by apply (up_has conf)).
  match goal with |- context [go_fold _ ?s0 _] =>
    destruct (shutdown_funcs_run graceful p (schedule (pr_shutdownFuncs p)) s0) as (s & Hs & Hd & Hrs & Hrts & Hg & Hgc) end.
  - done.
  - apply Forall_forall. intros c. apply Hin.
  - split; [done|]. simpl. intros g Hpg. rewrite decide_True; [by apply (up_grpc_open _ _ Hup)|].
    apply Hin. by exists g.
  - exists s. split; [exact Hs|]. cbn [sp_down sp_registrar sp_router app] in *. split.
    + by rewrite Hrs.
    + by rewrite Hrts.
    + intros rt f. rewrite Hrts. apply Hsse.
    + done.
    + intros g Hsg. specialize (Hgc g Hsg). by rewrite decide_False in Hgc by (by apply not_elem_of_nil).
    + by rewrite Hd.
    + intros c. by rewrite Hd.
Qed.

Lemma Validate_no_nil conf : Validate conf = Ret tt -> no_nil_sdk conf.
Proof. intros (_ & _ & Hv & _)%Validate_ret id Hid. by destruct (Hv id None Hid) as (? & [=] & _). Qed.

(** [run] reaches its loop *)
Lemma start_ok configFile conf cache :
  LoadConfigFromFileAndEnvironment path_join configFile = Ret conf -> Validate conf = Ret tt ->
  profile_Key (c_Profile conf) = "" -> intervals_fit conf -> (forall c k, load_key_pair c k = Ret tt) ->
  start_cache load_key_pair conf (Telemetry.NewReporter (c_Diag conf) version
    (WithLevel (NewLogger Level.Warn) (GetLevel (c_Log conf)))).1 = Ret cache ->
  exists p r, start path_join load_key_pair NewHandler prometheus status debug do version now world configFile = Ret p /\
    pr_registrar p = MRegistrar r /\ serves conf (configured conf) r /\ up conf p /\
    exists r', Registrar_Close (MRegistrar r) = Ret r' /\ Forall (fun c => cl_closed c = true) (Registrar_heap r').
Proof.
  intros Hload Hvalid Hprofile Hfit Htls Hcache. unfold start. rewrite Hload. cbn [mbind go_bind]. rewrite Hvalid.
  cbn [mbind go_bind]. set (log := WithLevel _ _) in *. set (telemetry := (Telemetry.NewReporter _ _ _).1) in *.
  rewrite Hcache. cbn [mbind go_bind].
  destruct (manual_start conf log now do cache (NewReporter (c_Cache conf)) Hprofile (Validate_no_nil conf Hvalid))
    as (r & -> & Hs & Hclose). cbn [mbind go_bind]. rewrite (tickers_ok conf r Hfit Hs). cbn [mbind go_bind].
  destruct (start_http_ok conf telemetry r log Htls Hs) as (http & -> & Hhttp & Hsse). cbn [mbind go_bind].
  destruct (start_grpc_ok conf r log Htls Hs) as (grpc & -> & Hgrpc & Hopen). cbn [mbind go_bind].
  eexists _, r. split; [reflexivity|]. split; [done|]. split; [done|]. split; [|exact Hclose].
  split; cbn [pr_diag pr_cache pr_http pr_router pr_grpc pr_shutdownFuncs].
  - destruct (ShouldRunDiagServer _); split; by try intros [? ?].
  - by eapply start_cache_some.
  - by rewrite fmap_is_Some.
  - by rewrite fmap_is_Some.
  - intros rt ([rt' h] & -> & ->)%fmap_Some. by eapply Hsse.
  - done.
  - done.
  - done.
Qed.
End waiting.
End facts.

(** ** Properties *)

(** C2: a valid configuration without a profile starts, for polling intervals of
    at most 292 years (a longer one can panic in a goroutine, C26): when the
    certificates can be read and the external cache can be set up, [run] reaches
    its loop with exactly the servers the configuration enables, serving exactly
    the configured SDKs. On a signal it then exits with 0, in whatever order its
    shutdown functions come to run: every client is closed, the SSE server and the
    gRPC server are stopped and all their streams closed, and the function of each
    component that was started has run, once. On the error of a server it exits
    with 1. Of any configuration file: when [run] returns, it returns 0 after a
    signal to a process that had started, and 1 otherwise; and it returns 1 for
    every error before. *)
Theorem valid_configuration_runs `{XXHash, ConfigCatFormat, OS, MapRange, ProfileJSON, FloatText, JSON, JSONText, Gzip,
      RegexpEngine, YAML, ConfigCatSDK, Cache.RedisDriver, Cache.MongoDriver, Cache.DynamoDriver, Telemetry.Otel, FsNotify}
    {rf : Refresher (H := sdk_client)}
    (path_join : list string -> string) (load_key_pair : string -> string -> go unit)
    (NewHandler : handler effect -> string -> list Telemetry.otel_option -> handler effect)
    (prometheus status : handler effect) (debug : mux effect) (do : http_request -> go http_response)
    (version : string) (now : Z) (world : Registrar -> Router.world)
    (graceful : component -> go unit) (schedule : list component -> list component)
    (configFile : string) (conf : Config) (cache : option Cache.External)
    (Hload : LoadConfigFromFileAndEnvironment path_join configFile = Ret conf)
    (Hvalid : Validate conf = Ret tt) (Hprofile : profile_Key (c_Profile conf) = "")
    (Hfit : intervals_fit conf) (Hschedule : forall l, schedule l ≡ₚ l)
    (Htls : forall c k, load_key_pair c k = Ret tt)
    (Hcache : start_cache load_key_pair conf (Telemetry.NewReporter (c_Diag conf) version
                (WithLevel (NewLogger Level.Warn) (GetLevel (c_Log conf)))).1 = Ret cache) :
  let start := start path_join load_key_pair NewHandler prometheus status debug do version now world in
  let run := run path_join load_key_pair NewHandler prometheus status debug do version now world graceful schedule in
  (exists p r, start configFile = Ret p /\ pr_registrar p = MRegistrar r /\
    (forall id, is_Some (manual_GetSdkOrNil id r) <-> is_Some (c_SDKs conf !! id)) /\ up conf p /\
    exists s, run configFile CloseSignal = Ret (exitOk, Some s) /\ down p s) /\
  (forall err, run configFile (ErrorChan err) = Ret (exitFailure, None)) /\
  (forall file e err, start file = Fail err -> run file e = Ret (exitFailure, None)) /\
  (forall file e code st, run file e = Ret (code, st) ->
     (code = exitOk /\ e = CloseSignal /\ exists p, start file = Ret p) \/
     (code = exitFailure /\ st = None /\ ((exists err, start file = Fail err) \/ exists err, e = ErrorChan err))).
Proof.
  intros start run.
  destruct (start_ok path_join load_key_pair NewHandler prometheus status debug do version now world configFile conf
    cache Hload Hvalid Hprofile Hfit Htls Hcache) as (p & r & Hstart & Hr & Hs & Hup & Hclose).
  split; [|split; [|split]].
  - exists p, r. split; [done|]. split; [done|]. split; [intros id; by apply serves_ids, Validate_no_nil|]. split; [done|].
    destruct (shutdown_ok graceful schedule conf r p Hr Hup Hschedule Hclose) as (s & Hdown & Hs').
    exists s. split; [|done]. unfold run, Main.run. by rewrite Hstart, Hdown.
  - intros err. unfold run, Main.run. by rewrite Hstart.
  - intros file e err Hf. unfold run, Main.run. fold start. by rewrite Hf.
  - intros file e code st. unfold run, Main.run. fold start.
    destruct (start file) as [p'|err|]; [|intros [= <- <-]; right; eauto 6|done].
    destruct e as [|err]; [|intros [= <- <-]; right; eauto 6].
    intros (s & _ & [= <- <-])%go_bind_ret. left. eauto.
Qed.

(** ** A process for the witness: one SDK in a file, and an external cache *)
Module Demo.
Definition yaml : YAML := {| yaml_unmarshal _ c :=
  Ret (on_c_Cache (fun _ => Cache.demo_cache_conf) (on_c_SDKs (fun _ => {["a" := Some (demo_sdk "key-a")]}) c)) |}.
Definition os : OS := {| os_getenv _ := ""; os_stat _ := StatOk 0 0; os_read_file _ := Ret "";
  filepath_eval_symlinks := Ret; runtime_goos := "linux" |}.
Definition json : JSON := {| json_decode _ := Fail "" |}.
Definition float_text : FloatText := {| parse_float _ := Fail ""; format_float _ := "" |}.
Definition regexps : RegexpEngine := {| regexp_compile _ := Ret tt; regexp_match _ _ := false |}.
Definition watcher : FsNotify := {| filepath_Dir _ := ""; filepath_Base p := p; filepath_Join _ p := p;
  fsnotify_NewWatcher := Ret tt; fsnotify_Add _ := Ret tt |}.
End Demo.
#[local] Existing Instances toy_hash toy_format Demo.os canonical_range Toy.pj Demo.float_text Demo.json demo_json_text
  toy_gzip Demo.regexps Demo.yaml Proxy.toy_configcat Cache.toy_redis Cache.toy_mongo Cache.toy_dynamo Telemetry.demo_otel Demo.watcher.
Definition demo_refresher : Refresher (H := sdk_client) := {| c_Refresh := fun _ => None |}.
#[local] Existing Instance demo_refresher.

Definition demo_world (r : Registrar) : Router.world := {|
  Router.w_registrar := handler_registrar (fun _ => tt) r;
  Router.w_streams := {| Sse.sl_GetStreamOrNil _ := None; Sse.sl_GetStreamBySdkKeyOrNil _ := None |};
  Router.w_stream_digest _ := 0; Router.w_connection := 1; Router.w_picks := []; Router.w_flusher := true;
  Router.w_ofrep_digest _ := 0; Router.w_now := 0; Router.w_status := Ret "{}" |}.

Lemma valid_configuration_runs_witness :
  exists s, run (fun _ => "") (fun _ _ => Ret tt) (fun h _ _ => h) (fun _ => []) (fun _ => []) []
              Toy.not_modified "1.0" 0 demo_world (fun _ => Ret tt) (@reverse component) "c.yml" CloseSignal
            = Ret (exitOk, Some s) /\ CCache ∈ sp_down s /\ CHttp ∈ sp_down s.
Proof.
  destruct (LoadConfigFromFileAndEnvironment (fun _ => "") "c.yml") as [conf| |] eqn:Hconf;
    [|vm_compute in Hconf; discriminate Hconf..].
  pose proof Hconf as Heq. vm_compute in Heq. injection Heq as <-.
  edestruct (valid_configuration_runs (fun _ => "") (fun _ _ => Ret tt) (fun h _ _ => h) (fun _ => []) (fun _ => [])
               [] Toy.not_modified "1.0" 0 demo_world (fun _ => Ret tt) (@reverse component) "c.yml" _
               (Some (Cache.DynamoDbStore (∅ : @Cache.DDB Cache.toy_dynamo) "cache"))
               Hconf) as [(p & r & _ & _ & _ & Hup & s & Hrun & Hdown) _].
  - vm_compute. reflexivity.
  - reflexivity.
  - apply intervals_fit_list.
    match goal with |- Forall _ ?l => let v := eval vm_compute in l in replace l with v by (vm_compute; reflexivity) end.
    constructor; [|constructor]. intros sc [= <-]. split_and!; discriminate.
  - intros l. apply reverse_Permutation.
  - reflexivity.
  - reflexivity.
  - exists s. split; [exact Hrun|]. split; apply (dn_all _ _ Hdown).
    + by apply (up_cache _ _ Hup).
    + by apply (up_http _ _ Hup).
Defined.
